(* ===== verification/_CoqProject ===== *)
-Q . S2P
Prelude.v
GoStrings.v
Utf8Facts.v
GoPath.v
GoRegexp.v
GoFloat.v
GoTime.v
GoRFC3339.v
GoSha256.v
GoBase64.v
GoAes.v
Effects.v
World.v
Core.v
CoreFacts.v
Compose.v
ComposeFacts.v
Json.v
JsonFacts.v
GoFloatText.v
GoFloatFacts.v
CoreJson.v
CoreJsonFacts.v
Policy.v
Worker.v
QuotaState.v
Storage.v
Samples.v
Settings.v
Ledger.v
LedgerFacts.v
Capacity.v
Operations.v
Quota.v
QuotaFacts.v
QuotaPrepare.v
QuotaPrepareFacts.v
Sites.v
Backups.v
Files.v
Usage.v
Server.v
ServerFacts.v
StartupFacts.v
BackupsFacts.v
SitesFacts.v
Store.v
StoreFacts.v
ActivityLog.v
ActivityLogFacts.v
I18n.v
Messages.v
I18nFacts.v
Panel.v
GoUrl.v
GoIP.v
Session.v
Pages.v
Link.v
PanelFacts.v
Reconcile.v
ReconcileFacts.v
Schedule.v
ScheduleFacts.v
Views.v
Html.v
HtmlFacts.v
Templates.v
TemplatesFacts.v
Web.v
PanelEffects.v
WebFacts.v
Handler.v
Process.v
HandlerFacts.v
SessionFacts.v
PageFacts.v
ActionFacts.v
SafetyFacts.v
ProcessFacts.v
