(* ===== verification/Prelude.v ===== *)
(** * Verification of panel4wp

    panel4wp runs WordPress sites in Docker.  It is two processes.  The panel
    ([src/cmd/panel]) answers the administrator's browser, keeps the site
    metadata and decides what is to be done.  The worker ([src/cmd/worker]),
    the only process with access to Docker, does it when the panel asks over
    HTTP with a shared token.  The packages under [src/internal] hold the data
    both share ([core]), the panel's files ([store], [audit]), the mail settings
    ([settings]), the languages ([i18n]) and the seccomp profile of the writer
    containers ([securitypolicy]).

    ** How the parts interact

    The reply to a request may be lost, and either process may stop at any
    point.  An operation is therefore written down twice.  The panel stores a
    pending marker with a fresh operation ID in the site ([callTracked]) before
    it asks; the worker writes a pending receipt for that ID
    ([beginRuntimeOperation]) before it acts, closes it with the outcome, and
    refuses an ID it has already seen.  A panel that did not get the reply asks
    for the receipts later ([reconcileRuntime]), and resolves its marker by what
    the receipt says.  A worker that starts again closes the receipts it left
    pending.  Sites with a disk quota have a second protocol on the worker: an
    intent file says whether a site should run, Docker may not start it by
    itself, and each start goes through a fence, a preflight of the kernel's
    project identifiers and a capacity check.

    ** Programs and worlds

    A Go function without effects is a function; one with an error is in
    [result] (below).  A Go function that touches the outside is a [prog]
    ([Effects]), a tree of operations that [run] executes; [exec] of [World]
    runs it on a host whose state is a file system, a finite map from paths to
    nodes, and a position in the supply of outside answers.  The answers of
    Docker, of the kernel, of the clock and of the random source, and the
    failures of system calls are the class [Env]; the theorems hold for all of
    them.  The execution's events come in order, so that what precedes what,
    and what is true after a crash (a prefix of the events), can be said.  The
    panel's programs have calls to the worker and the panel's memory as further
    operations ([Panel]); the worker they call is the class [Peer], and [Link]
    makes it the program of [Server], over a network that may lose a request or
    a reply.

    ** Files

    The language and its library, as far as the source uses them:
    - [GoStrings], [Utf8Facts]: [strings], [utf8], [strconv]; [GoPath]:
      [path/filepath]; [GoRegexp]: the anchored expressions; [GoFloat],
      [GoFloatText]: [float64] through [SpecFloat] and its shortest decimal;
      [GoTime], [GoRFC3339]: instants and their text; [GoSha256], [GoAes],
      [GoBase64]: HMAC, AES-GCM and base64; [GoUrl]: escaping and redirects;
      [GoIP]: IP addresses and their text;
      [Json], [JsonFacts]: [encoding/json] as a value tree, its scanner, decoder
      and encoder, and their round trip.
    - [GoFloatFacts]: numbers in text are read correctly rounded, and a CPU
      limit the panel accepts is read back from its decimal text.
    - [Effects], [World]: programs, the host, file operations.  [Samples] (and
      the end of [PanelFacts]): the concrete hosts of the witnesses.

    [internal/core]:
    - [Core] ([site.go], [resources.go], [storage.go]): data and validation;
      [CoreFacts]; [CoreJson], [CoreJsonFacts]: the records as JSON, with the
      class [Wire] for what their codecs promise (and [Codec] of [Json] for the
      components that only need to know that a record is read back).

    The worker ([cmd/worker]):
    - [Compose] and [ComposeFacts]: the text of [compose.yaml], rewritten for
      resources, quota and the writer profile ([resources.go],
      [quota_restart.go], [security.go]).
    - [Policy] ([internal/securitypolicy]): the seccomp profile.
    - [Worker] ([main.go], [runtime.go]): configuration, the Docker runner,
      waiting and stopping.
    - [QuotaState] ([quota_restart.go]): guard, intent and fence of quota sites;
      [Quota], [QuotaFacts]: their launch and the supervisor.
    - [Storage] ([storage.go]): the requests to the native helper.
    - [Ledger], [LedgerFacts] ([quota_registry.go]): the registry of project
      identifiers; [QuotaPrepare], [QuotaPrepareFacts] ([quota_prepare.go]): the
      transition of a site's data under a project.
    - [Capacity] ([resources.go]): what the host has and what a site may take.
    - [Operations] ([runtime.go]): receipts, [operationRuntime].
    - [Sites], [SitesFacts] ([main.go], [resources.go]): create, start, stop,
      delete, update, resources; [Backups], [BackupsFacts]: backup, verify,
      restore; [Files]: the file manager; [Usage]: usage and mail.
    - [Server], [ServerFacts]: [ServeHTTP], its dispatch and the receipts around
      it; [StartupFacts]: what a worker does when it starts.

    The panel's packages:
    - [Settings] ([internal/settings]); [Store], [StoreFacts]
      ([internal/store]); [ActivityLog], [ActivityLogFacts] ([internal/audit]);
      [I18n] (language detection), [Messages] (all tables of [internal/i18n] and
      [T]), [I18nFacts].

    The panel ([cmd/panel]):
    - [Panel], [PanelFacts]: [callWorker], [callTracked], the markers, what the
      panel holds in memory; [Link]: the panel and its worker connected.
    - [Reconcile], [ReconcileFacts] ([runtime.go]); [Schedule], [ScheduleFacts]:
      scheduled backups and their retention.
    - [Session], [SessionFacts]: cookies, form token, limit of logins, flash
      messages; [Pages]: [render] and the redirects; [Web]: a program for each
      form; [Handler]: [siteAction] and [app.ServeHTTP].
    - [Views]: the functions the templates call; [Templates]
      ([views_templ.go]): every component of [views.templ] as the list of pieces
      it writes, its own text and the values the library escapes; [Html],
      [HtmlFacts]: those pieces, how a browser reads their tags, and what any
      template built of them keeps; [TemplatesFacts], [PageFacts]: the pages.
    - [Process] ([main], [proxy.go]): [hash-password], what a start requires,
      who a request comes from, and the running panel as a step relation;
      [ProcessFacts]: what its site file keeps.
    - [PanelEffects]: walking through a panel program for what it may cause
      ([raises]) and what it may answer ([always]); [WebFacts], [HandlerFacts],
      [ActionFacts], [SafetyFacts]: the theorems.

    ** What the theorems show

    - One operation, done once and not forgotten: the marker and the receipt
      come first, an ID is not used twice, a success is closed before it is
      reported, a marker is resolved only by the worker's receipt for it, and
      startup and reconciliation resolve what was left.
    - Who may do what: nothing without session and token, no session without
      the password, guesses limited, sessions end; files stay below the site;
      what destroys was confirmed in the form.
    - What the browser gets: no data becomes markup, a script or an address
      outside the panel and the web; every form that posts carries the token of
      the session it was shown to, and is accepted with it.
    - Nothing is lost: the site store refines a finite map and survives a
      crash; in every state a running panel reaches, the site file is read as
      sites with identifiers and domains of their own, limits and schedules
      within bounds; a restore or update has a safety backup; a backup that succeeded
      verifies; a restore checks before it overwrites; a deletion is complete;
      a creation that is retried keeps its passwords.
    - Quota: identifiers are never given twice and their ledger is never
      silently replaced; a site starts only through fence, preflight and
      capacity; a failed transition ends fenced; errors are not swallowed.
    - Formats: rewritten Compose files are read back as written; requests,
      settings and the activity log are read back; paths, host budgets,
      languages and messages.

    ** Bounds and fuel

    Recursion over text is structural or on the text's length.  [allocateF] has
    a step for every identifier in use and one more
    ([chooseReservation_total]); [pruneLoop] a step for every backup and one
    more, and every round removes one or stops
    ([pruneScheduledBackups_retention]); [batches] a step for every site, and
    every batch takes at least one ([concat_batches]).  [walkDir] goes 4096
    levels deep, more than a Linux path has bytes; [existingRoot] has a step for
    every byte of the path it shortens; [flockLoop] tries for as long as the
    five minutes of its context last; [MkdirTemp] tries ten thousand names, as
    Go does.  Machine integers are [Z] with the wrap-around or the overflow
    check of the source written out.

    ** What the model takes for granted

    - A string is its bytes.  What Unicode says beyond ASCII (letters, case,
      digits) is the class [Unicode]; [bcrypt] is the class [Passwords]; both
      are arguments of the definitions that use them.
    - [net/http] has parsed a request: its query, form, cookies and upload
      are fields, and so is the address [loginClientIP] finds.  The reply has a
      status, a location, cookies and a content; other headers are left out.
    - The library [github.com/a-h/templ] is the class [Templ]: what it promises
      ([TemplLaws]) is that an escaped text has no byte that opens a tag or ends
      a value, that plain bytes stay as they are, and that an address it
      refuses leads nowhere.  [document] reads the markup the templates write:
      tags with double-quoted values, scripts without a text.  A page is written
      to its end; a failed write or a request that is gone cuts it short.  The
      server's time zone is the class [Zone].
    - The faults of the host are texts, never a false report that a file does
      not exist.  A failed append writes nothing; a file is written in one
      step.  Symbolic links are special nodes.
    - The mutexes: what runs under a mutex is one program, and the mutex that a
      handler tries is the flag [busy].  The running panel ([panelStep]) is a
      sequence of such programs, of which a crash leaves a prefix; a request that
      only reads is one step as well.  Deadlines are outside answers.
    - The order of a Go map's iteration is the order of one list; the order
      [sort.Slice] leaves to equal times is not relied on.
    - Times are in UTC.  A JSON time written with escapes is read (Go refuses
      it); a [null] file listing is an empty one.
    - The temporary files of an atomic write have their final contents or are
      absent from the map.

    ** Not modelled

    - The clock of the panel's tickers (their loops take the ticks as a list), its
      HTTP server and the timeouts; the assets and the reverse proxy itself (what
      it is given is the content [Proxied]).
    - The storage helper and the release probes in C, a program of their own:
      [Storage] models the requests and how the answers are judged. *)
From stdpp Require Export base tactics list gmap strings.
From Stdlib Require Export ZArith Lia.

Set Default Goal Selector "!".
Set Warnings "-register-all".

(** ** Go errors

    A Go error value, as far as this program tells errors apart: by
    [errors.Is(err, os.ErrNotExist)], by [errors.As] on the program's own
    error types, and by the text shown to the administrator. *)
Inductive error :=
| EMsg (msg : string)
| ENotExist (msg : string)
| EWrap (msg : string) (cause : error)
| EJoin (causes : list error)
| ECapacity (cause : error)
| EAdmission (cause : error) (quotaSafe : bool)
| EVolume (reason : string)
| EResponse (status : Z) (msg : string).

Inductive result (A : Type) :=
| Ok (a : A)
| Err (e : error).

Arguments Ok {A} a.
Arguments Err {A} e.

Definition is_ok {A} (r : result A) : bool :=
  match r with Ok _ => true | Err _ => false end.

Definition err_of {A} (r : result A) : option error :=
  match r with Ok _ => None | Err e => Some e end.

Definition of_err (o : option error) : result unit :=
  match o with None => Ok tt | Some e => Err e end.

#[export] Instance result_ret : MRet result := fun A a => Ok a.
#[export] Instance result_bind : MBind result := fun A B f r =>
  match r with Ok a => f a | Err e => Err e end.
#[export] Instance result_fmap : FMap result := fun A B f r =>
  match r with Ok a => Ok (f a) | Err e => Err e end.

(** [guardR b e]: the early return [if !b { return e }]. *)
Definition guardR (b : bool) (e : error) : result unit :=
  if b then Ok tt else Err e.

(** [errors.Is(err, os.ErrNotExist)]: looks through [%w] wrapping and
    [errors.Join]. The embedded error of [admissionError] and
    [capacityRejection] has no [Unwrap], so the search stops there. *)
Fixpoint isNotExist (e : error) : bool :=
  match e with
  | ENotExist _ => true
  | EWrap _ c => isNotExist c
  | EJoin cs => existsb isNotExist cs
  | _ => false
  end.

(** [errors.As(err, &rejected)] with [rejected *admissionError]: the first
    match in a pre-order walk, here its [quotaSafe] flag. *)
Fixpoint asAdmission (e : error) : option bool :=
  match e with
  | EAdmission _ q => Some q
  | EWrap _ c => asAdmission c
  | EJoin cs =>
      (fix go l := match l with
                   | [] => None
                   | c :: l' => match asAdmission c with
                                | Some q => Some q
                                | None => go l'
                                end
                   end) cs
  | _ => None
  end.

(** [errors.As(err, &budget)] with [budget *capacityRejection]. *)
Fixpoint isCapacity (e : error) : bool :=
  match e with
  | ECapacity _ => true
  | EWrap _ c => isCapacity c
  | EJoin cs => existsb isCapacity cs
  | _ => false
  end.

(** [errors.As(err, &unsupported)] with [unsupported *volumeProbeError]. *)
Fixpoint asVolume (e : error) : option string :=
  match e with
  | EVolume r => Some r
  | EWrap _ c => asVolume c
  | EJoin cs =>
      (fix go l := match l with
                   | [] => None
                   | c :: l' => match asVolume c with
                                | Some r => Some r
                                | None => go l'
                                end
                   end) cs
  | _ => None
  end.

(** [errors.As(err, &responseError)] with [responseError *workerResponseError]:
    its HTTP status. *)
Fixpoint asResponse (e : error) : option Z :=
  match e with
  | EResponse s _ => Some s
  | EWrap _ c => asResponse c
  | EJoin cs =>
      (fix go l := match l with
                   | [] => None
                   | c :: l' => match asResponse c with
                                | Some s => Some s
                                | None => go l'
                                end
                   end) cs
  | _ => None
  end.

(** [err.Error()]. *)
Fixpoint errorText (e : error) : string :=
  match e with
  | EMsg m => m
  | ENotExist m => m
  | EWrap m c => (m +:+ ": " +:+ errorText c)%string
  | EJoin cs => String.concat (String (Ascii.ascii_of_nat 10) EmptyString) (map errorText cs)
  | ECapacity c => errorText c
  | EAdmission c _ => errorText c
  | EVolume r => r
  | EResponse _ m => ("worker: " +:+ m)%string
  end.

(** [errors.Join]: drops nil errors, nil when none is left. *)
Definition errorsJoin (es : list (option error)) : option error :=
  match omap id es with
  | [] => None
  | l => Some (EJoin l)
  end.

(** ** Lemmas on results and errors *)
Lemma bind_Ok {A B} (r : result A) (f : A -> result B) b :
  r ≫= f = Ok b <-> exists a, r = Ok a /\ f a = Ok b.
Proof. destruct r as [a|e]; split; [eauto|intros (a'&[= <-]&?); done|done|by intros (?&?&?)]. Qed.

Lemma guardR_Ok b e u : guardR b e = Ok u <-> b = true.
Proof. destruct b, u; simpl; split; done. Qed.

Lemma guardR_seq {A} b e (k : result A) a :
  (guardR b e ≫= fun _ => k) = Ok a <-> b = true /\ k = Ok a.
Proof. destruct b; simpl; split; [done|by intros []|done|by intros []]. Qed.

Lemma errorsJoin_None es : errorsJoin es = None <-> Forall (fun o => o = None) es.
Proof.
  unfold errorsJoin. induction es as [|[e|] es IH]; simpl; split; intros H;
    try done; try (inversion H; subst; done).
  - constructor; [done|]. by apply IH.
  - inversion H; subst. by apply IH.
Qed.

(** Case analysis on the boolean guards of a hypothesis or goal. *)
Ltac bool_solve :=
  repeat match goal with
  | H : _ && _ = true |- _ => apply andb_prop in H; destruct H
  | H : negb _ = true |- _ => apply negb_true_iff in H
  | H : negb _ = false |- _ => apply negb_false_iff in H
  | H : _ || _ = false |- _ => apply orb_false_elim in H; destruct H
  end.
