(* ===== verification/GoStrings.v ===== *)
(** * GoStrings: the parts of Go's [strings], [unicode/utf8], [strconv],
    [encoding/hex] and [path/filepath] that panel4wp uses

    A Go string is a sequence of bytes; here it is a [string] of 8-bit
    [ascii] characters, and a rune is a [Z].  UTF-8 decoding follows
    [utf8.DecodeRuneInString]: an invalid byte decodes to U+FFFD and
    consumes one byte. *)
From S2P Require Import Prelude.
From Stdlib Require Export Ascii.

Open Scope string_scope.
Open Scope Z_scope.

#[global] Arguments String.append !_ _ : simpl nomatch.

(** ** Bytes and characters *)
Definition byteZ (c : ascii) : Z := Z.of_N (N_of_ascii c).
Definition chrZ (z : Z) : ascii := ascii_of_N (Z.to_N z).

(** Characters that a Rocq string literal cannot spell. *)
Definition NL : string := String (chrZ 10) "".
Definition CR : string := String (chrZ 13) "".
Definition TAB : string := String (chrZ 9) "".
Definition NUL : string := String (chrZ 0) "".
Definition DQ : string := String (chrZ 34) "".

(** Go raw strings cannot contain a backquote, so the development writes a
    backquote where the source has a double quote and substitutes it. *)
Fixpoint raw (s : string) : string :=
  match s with
  | EmptyString => ""
  | String c r => String (if Ascii.eqb c "`"%char then chrZ 34 else c) (raw r)
  end.

Definition inRange (lo hi : Z) (c : ascii) : bool := (lo <=? byteZ c) && (byteZ c <=? hi).
Definition isDigit (c : ascii) : bool := inRange 48 57 c.
Definition isLower (c : ascii) : bool := inRange 97 122 c.
Definition isUpper (c : ascii) : bool := inRange 65 90 c.
Definition isHexLower (c : ascii) : bool := isDigit c || inRange 97 102 c.

Fixpoint strForall (p : ascii -> bool) (s : string) : bool :=
  match s with EmptyString => true | String c r => p c && strForall p r end.

Fixpoint strExists (p : ascii -> bool) (s : string) : bool :=
  match s with EmptyString => false | String c r => p c || strExists p r end.

Definition inSet (set : string) (c : ascii) : bool := strExists (Ascii.eqb c) set.

(** [strings.ContainsAny(s, chars)] for ASCII [chars] (a byte below 0x80
    never occurs inside a multi-byte rune). *)
Definition containsAny (s chars : string) : bool := strExists (inSet chars) s.

Definition lenZ (s : string) : Z := Z.of_nat (String.length s).

(** ** Prefixes, suffixes, substrings *)
Definition hasPrefix (s p : string) : bool := String.prefix p s.

Fixpoint drop (n : nat) (s : string) : string :=
  match n, s with
  | S n', String _ r => drop n' r
  | _, _ => s
  end.

Fixpoint take (n : nat) (s : string) : string :=
  match n, s with
  | S n', String c r => String c (take n' r)
  | _, _ => ""
  end.

Definition trimPrefix (s p : string) : string :=
  if hasPrefix s p then drop (String.length p) s else s.

Fixpoint hasSuffix (s suf : string) : bool :=
  String.eqb s suf ||
  match s with EmptyString => false | String _ r => hasSuffix r suf end.

Definition trimSuffix (s suf : string) : string :=
  if hasSuffix s suf then take (String.length s - String.length suf) s else s.

(** [strings.Contains], [strings.Count], [strings.ReplaceAll] and
    [strings.Replace(s, old, new, 1)] for a non-empty [old].  [skip] counts
    the bytes still covered by the last match. *)
Fixpoint contains (s sub : string) : bool :=
  hasPrefix s sub ||
  match s with EmptyString => false | String _ r => contains r sub end.

Fixpoint countSkip (sub s : string) (skip : nat) : nat :=
  match s with
  | EmptyString => 0%nat
  | String _ r =>
      match skip with
      | S k => countSkip sub r k
      | O => if hasPrefix s sub then S (countSkip sub r (String.length sub - 1))
             else countSkip sub r 0
      end
  end.
Definition count (s sub : string) : nat := countSkip sub s 0.

Fixpoint replaceSkip (old new s : string) (skip : nat) : string :=
  match s with
  | EmptyString => ""
  | String c r =>
      match skip with
      | S k => replaceSkip old new r k
      | O => if hasPrefix s old then new +:+ replaceSkip old new r (String.length old - 1)
             else String c (replaceSkip old new r 0)
      end
  end.
Definition replaceAll (s old new : string) : string := replaceSkip old new s 0.

Fixpoint replace1 (s old new : string) : string :=
  if hasPrefix s old then new +:+ drop (String.length old) s
  else match s with
       | EmptyString => ""
       | String c r => String c (replace1 r old new)
       end.

(** ** Splitting and joining *)

(** [strings.Split(s, sep)] for a one-byte separator. *)
Fixpoint split (c : ascii) (s : string) : list string :=
  match s with
  | EmptyString => [""]
  | String a r =>
      if Ascii.eqb a c then "" :: split c r
      else match split c r with
           | h :: t => String a h :: t
           | [] => [String a ""]
           end
  end.

(** [strings.Join(l, sep)]. *)
Definition join (sep : string) (l : list string) : string := String.concat sep l.

(** [strings.SplitN(s, sep, 2)] for a one-byte separator. *)
Fixpoint splitN2 (c : ascii) (s : string) : list string :=
  match s with
  | EmptyString => [""]
  | String a r =>
      if Ascii.eqb a c then [""; r]
      else match splitN2 c r with
           | h :: t => String a h :: t
           | [] => [String a ""]
           end
  end.

(** ** UTF-8 *)
Definition runeError : Z := 65533.

(** [utf8.DecodeRuneInString (String c0 s)]: the rune, its bytes, the rest. *)
Definition decodeRune (c0 : ascii) (s : string) : Z * string * string :=
  let b0 := byteZ c0 in
  let bad := (runeError, String c0 "", s) in
  if b0 <? 128 then (b0, String c0 "", s)
  else if b0 <? 194 then bad
  else if b0 <? 224 then
    match s with
    | String c1 r1 =>
        if inRange 128 191 c1
        then ((b0 - 192) * 64 + (byteZ c1 - 128), String c0 (String c1 ""), r1)
        else bad
    | EmptyString => bad
    end
  else if b0 <? 240 then
    match s with
    | String c1 (String c2 r2) =>
        if inRange (if b0 =? 224 then 160 else 128) (if b0 =? 237 then 159 else 191) c1
           && inRange 128 191 c2
        then ((b0 - 224) * 4096 + (byteZ c1 - 128) * 64 + (byteZ c2 - 128),
              String c0 (String c1 (String c2 "")), r2)
        else bad
    | _ => bad
    end
  else if b0 <? 245 then
    match s with
    | String c1 (String c2 (String c3 r3)) =>
        if inRange (if b0 =? 240 then 144 else 128) (if b0 =? 244 then 143 else 191) c1
           && inRange 128 191 c2 && inRange 128 191 c3
        then ((b0 - 240) * 262144 + (byteZ c1 - 128) * 4096 + (byteZ c2 - 128) * 64
              + (byteZ c3 - 128),
              String c0 (String c1 (String c2 (String c3 ""))), r3)
        else bad
    | _ => bad
    end
  else bad.

(** The runes of a string with the bytes each came from; a rune takes at
    least one byte, so the length is enough fuel ([chunks_concat]). *)
Fixpoint chunksFuel (fuel : nat) (s : string) : list (Z * string) :=
  match fuel, s with
  | S f, String c r =>
      let '(z, b, rest) := decodeRune c r in (z, b) :: chunksFuel f rest
  | _, _ => []
  end.
Definition chunks (s : string) : list (Z * string) := chunksFuel (String.length s) s.

Definition runes (s : string) : list Z := map fst (chunks s).

(** [len([]rune(s))]. *)
Definition runeCount (s : string) : Z := Z.of_nat (length (runes s)).

(** [utf8.AppendRune]: surrogates and out-of-range values become U+FFFD. *)
Definition encodeRune (r : Z) : string :=
  let r := if (r <? 0) || (1114111 <? r) || ((55296 <=? r) && (r <=? 57343))
           then runeError else r in
  if r <? 128 then String (chrZ r) ""
  else if r <? 2048 then
    String (chrZ (192 + r / 64)) (String (chrZ (128 + r mod 64)) "")
  else if r <? 65536 then
    String (chrZ (224 + r / 4096)) (String (chrZ (128 + (r / 64) mod 64))
      (String (chrZ (128 + r mod 64)) ""))
  else
    String (chrZ (240 + r / 262144)) (String (chrZ (128 + (r / 4096) mod 64))
      (String (chrZ (128 + (r / 64) mod 64)) (String (chrZ (128 + r mod 64)) ""))).

(** ** White space: [unicode.IsSpace] *)
Definition isSpaceRune (r : Z) : bool :=
  ((9 <=? r) && (r <=? 13)) || (r =? 32) || (r =? 133) || (r =? 160) ||
  (r =? 5760) || ((8192 <=? r) && (r <=? 8202)) || (r =? 8232) || (r =? 8233) ||
  (r =? 8239) || (r =? 8287) || (r =? 12288).

Definition concatChunks (l : list (Z * string)) : string := String.concat "" (map snd l).

Fixpoint dropSpace (l : list (Z * string)) : list (Z * string) :=
  match l with
  | (z, b) :: l' => if isSpaceRune z then dropSpace l' else l
  | [] => []
  end.

(** [strings.TrimSpace]. *)
Definition trimSpace (s : string) : string :=
  concatChunks (rev (dropSpace (rev (dropSpace (chunks s))))).

(** [strings.Fields]. *)
Fixpoint fieldsChunks (l : list (Z * string)) (cur : string) : list string :=
  match l with
  | [] => if String.eqb cur "" then [] else [cur]
  | (z, b) :: l' =>
      if isSpaceRune z
      then if String.eqb cur "" then fieldsChunks l' "" else cur :: fieldsChunks l' ""
      else fieldsChunks l' (cur +:+ b)
  end.
Definition fields (s : string) : list string := fieldsChunks (chunks s) "".

(** [strings.TrimRight(s, "/")] and [strings.Trim(s, "/")]. *)
Fixpoint trimLeftChar (c : ascii) (s : string) : string :=
  match s with
  | String a r => if Ascii.eqb a c then trimLeftChar c r else s
  | EmptyString => ""
  end.
Definition trimRightChar (c : ascii) (s : string) : string :=
  String.rev (trimLeftChar c (String.rev s)).
Definition trimChar (c : ascii) (s : string) : string := trimRightChar c (trimLeftChar c s).

(** ** Case

    Go's Unicode tables outside ASCII are data of the Go distribution; the
    development takes them as the class below and proves its theorems for
    every such table. *)
Class Unicode := {
  toLowerHigh : Z -> Z;        (** [unicode.ToLower] on runes above 0x7F *)
  simpleFoldEq : Z -> Z -> bool; (** same [unicode.SimpleFold] orbit, one of the two above 0x7F *)
  isPrintHigh : Z -> bool;     (** [strconv.IsPrint] on runes above 0x7F *)
}.

Definition toLowerRune `{Unicode} (r : Z) : Z :=
  if r <? 128 then (if (65 <=? r) && (r <=? 90) then r + 32 else r) else toLowerHigh r.

(** [strings.ToLower]. *)
Definition toLower `{Unicode} (s : string) : string :=
  String.concat "" (map (fun r => encodeRune (toLowerRune r)) (runes s)).

Definition foldRuneEq `{Unicode} (a b : Z) : bool :=
  (a =? b) ||
  (if (a <? 128) && (b <? 128) then toLowerRune a =? toLowerRune b
   else simpleFoldEq a b).

Fixpoint foldListEq `{Unicode} (l1 l2 : list Z) : bool :=
  match l1, l2 with
  | [], [] => true
  | a :: l1', b :: l2' => foldRuneEq a b && foldListEq l1' l2'
  | _, _ => false
  end.

(** [strings.EqualFold]. *)
Definition equalFold `{Unicode} (s t : string) : bool := foldListEq (runes s) (runes t).

(** ** Numbers *)
Definition digitChar (d : Z) : ascii := chrZ (48 + d).

Fixpoint digitsFuel (fuel : nat) (n : Z) (acc : string) : string :=
  match fuel with
  | O => acc
  | S f => let acc' := String (digitChar (n mod 10)) acc in
           if n <? 10 then acc' else digitsFuel f (n / 10) acc'
  end.

(** Decimal digits of a non-negative number; [log2 n + 1] steps are enough. *)
Definition digits (n : Z) : string := digitsFuel (S (Z.to_nat (Z.log2 n))) n "".

(** [strconv.Itoa], [strconv.FormatInt(_, 10)], [strconv.FormatUint(_, 10)]. *)
Definition itoa (n : Z) : string := if n <? 0 then "-" +:+ digits (- n) else digits n.

Fixpoint parseDigits (s : string) (acc : Z) : option Z :=
  match s with
  | EmptyString => Some acc
  | String c r => if isDigit c then parseDigits r (acc * 10 + (byteZ c - 48)) else None
  end.

Definition parseUDigits (s : string) : option Z :=
  match s with EmptyString => None | _ => parseDigits s 0 end.

Definition maxInt64 : Z := 9223372036854775807.
Definition minInt64 : Z := -9223372036854775808.
Definition inInt64 (n : Z) : bool := (minInt64 <=? n) && (n <=? maxInt64).

(** [strconv.ParseInt(s, 10, 64)] and, [int] having 64 bits, [strconv.Atoi]. *)
Definition parseInt (s : string) : result Z :=
  let '(neg, body) :=
    match s with
    | String c r => if Ascii.eqb c "-" then (true, r)
                    else if Ascii.eqb c "+" then (false, r) else (false, s)
    | EmptyString => (false, s)
    end in
  match parseUDigits body with
  | None => Err (EMsg "invalid syntax")
  | Some n => let v := if neg : bool then - n else n in
              if inInt64 v then Ok v else Err (EMsg "value out of range")
  end.

(** Two's complement wrap-around of [int64] arithmetic. *)
Definition wrap64 (z : Z) : Z := (z + 9223372036854775808) mod 18446744073709551616 - 9223372036854775808.

(** [fmt.Sprintf("%0*d", w, n)] for a non-negative [n]. *)
Definition padZero (w : nat) (n : Z) : string :=
  let d := digits n in
  String.concat "" (repeat "0" (w - String.length d)) +:+ d.

(** [hex.EncodeToString]. *)
Definition hexDigit (d : Z) : ascii := if d <? 10 then chrZ (48 + d) else chrZ (87 + d).
Fixpoint hexEncode (s : string) : string :=
  match s with
  | EmptyString => ""
  | String c r => String (hexDigit (byteZ c / 16)) (String (hexDigit (byteZ c mod 16)) (hexEncode r))
  end.

(** [strconv.Quote]. *)
Definition hexPad (w : nat) (n : Z) : string :=
  String.concat "" (map (fun i => String (hexDigit ((n / 16 ^ (Z.of_nat (w - 1 - i))) mod 16)) "")
                        (seq 0 w)).
Definition quoteRune `{Unicode} (z : Z) (b : string) : string :=
  if (z =? runeError) && Nat.eqb (String.length b) 1 then
    match b with
    | String c _ => "\x" +:+ hexPad 2 (byteZ c)
    | EmptyString => ""
    end
  else if z =? 34 then "\" +:+ DQ
  else if z =? 92 then "\\"
  else if z <? 128 then
    if (32 <=? z) && (z <? 127) then b
    else if z =? 7 then "\a" else if z =? 8 then "\b" else if z =? 12 then "\f"
    else if z =? 10 then "\n" else if z =? 13 then "\r" else if z =? 9 then "\t"
    else if z =? 11 then "\v" else "\x" +:+ hexPad 2 z
  else if isPrintHigh z then b
  else if z <? 65536 then "\u" +:+ hexPad 4 z else "\U" +:+ hexPad 8 z.
Definition quote `{Unicode} (s : string) : string :=
  DQ +:+ String.concat "" (map (fun '(z, b) => quoteRune z b) (chunks s)) +:+ DQ.

(** ** Lemmas *)
Lemma strForall_app p s t : strForall p (s +:+ t) = strForall p s && strForall p t.
Proof. induction s as [|c s IH]; simpl; [done|]. by rewrite IH, andb_assoc. Qed.

Lemma strForall_impl (p q : ascii -> bool) s :
  (forall c, p c = true -> q c = true) -> strForall p s = true -> strForall q s = true.
Proof.
  intros Hpq. induction s as [|c s IH]; simpl; [done|].
  rewrite !andb_true_iff. intros [??]. auto.
Qed.

Lemma strExists_false p s : strExists p s = false <-> strForall (fun c => negb (p c)) s = true.
Proof.
  induction s as [|c s IH]; simpl; [done|].
  rewrite orb_false_iff, andb_true_iff, negb_true_iff, IH. done.
Qed.

Lemma length_take_str n s : String.length (take n s) = Nat.min n (String.length s).
Proof. revert s. induction n as [|n IH]; intros [|c s]; simpl; [done..|]. by rewrite IH. Qed.

Lemma length_app_str s t : String.length (s +:+ t) = (String.length s + String.length t)%nat.
Proof. induction s as [|c s IH]; simpl; [done|]. by rewrite IH. Qed.

Lemma app_assoc_str (s t u : string) : (s +:+ t) +:+ u = s +:+ (t +:+ u).
Proof. induction s as [|c s IH]; simpl; [done|]. by rewrite IH. Qed.

Lemma app_nil_r_str (s : string) : s +:+ "" = s.
Proof. induction s as [|c s IH]; simpl; [done|]. by rewrite IH. Qed.

Lemma app_inj_l_str (s t u : string) : s +:+ t = s +:+ u -> t = u.
Proof. induction s as [|c s IH]; simpl; [done|]. by intros [= ?%IH]. Qed.

Lemma hasPrefix_app p t : hasPrefix (p +:+ t) p = true.
Proof.
  unfold hasPrefix. induction p as [|c p IH]; simpl; [by destruct t|].
  destruct (ascii_dec c c) as [|Hc]; [done|by destruct Hc].
Qed.

Lemma hasPrefix_true s p : hasPrefix s p = true <-> exists t, s = p +:+ t.
Proof.
  split; [|intros [t ->]; apply hasPrefix_app].
  unfold hasPrefix. revert s. induction p as [|c p IH]; intros s; simpl; [intros _; by exists s|].
  destruct s as [|d s]; simpl; [done|]. destruct (ascii_dec c d) as [->|]; [|done].
  intros [t ->]%IH. by exists t.
Qed.

Lemma drop_app s t : drop (String.length s) (s +:+ t) = t.
Proof. induction s as [|c s IH]; simpl; [by destruct t|done]. Qed.

Lemma take_app s t : take (String.length s) (s +:+ t) = s.
Proof. induction s as [|c s IH]; simpl; [by destruct t|by rewrite IH]. Qed.

Lemma trimPrefix_app p t : trimPrefix (p +:+ t) p = t.
Proof. unfold trimPrefix. by rewrite hasPrefix_app, drop_app. Qed.

Lemma take_drop_str n s : take n s +:+ drop n s = s.
Proof. revert s. induction n as [|n IH]; intros [|c s]; simpl; try done. by rewrite IH. Qed.

Lemma hasSuffix_true s u : hasSuffix s u = true <-> exists t, s = t +:+ u.
Proof.
  induction s as [|c s IH]; cbn [hasSuffix]; rewrite orb_true_iff, String.eqb_eq.
  - split; [intros [<-|?]; [by exists ""|done]|].
    intros [[|? t] ?]; [by left|done].
  - rewrite IH. split.
    + intros [<-|[t ->]]; [by exists ""|by exists (String c t)].
    + intros [[|d t] Ht]; simpl in *; [by left|]. injection Ht as -> ->. right. eauto.
Qed.

Lemma trimSuffix_app s u : trimSuffix (s +:+ u) u = s.
Proof.
  unfold trimSuffix.
  assert (hasSuffix (s +:+ u) u = true) as -> by (apply hasSuffix_true; eauto).
  rewrite length_app_str.
  replace (String.length s + String.length u - String.length u)%nat with (String.length s) by lia.
  apply take_app.
Qed.

(** *** Splitting and joining *)
Definition noChar (c : ascii) (s : string) : bool := strForall (fun a => negb (Ascii.eqb a c)) s.

Lemma split_nonempty c s : split c s <> [].
Proof. destruct s as [|a s]; simpl; [done|]. destruct (Ascii.eqb a c); [done|]. by destruct (split c s). Qed.

Lemma join_split c s : join (String c "") (split c s) = s.
Proof.
  unfold join. induction s as [|a s IH]; [done|]. simpl.
  pose proof (split_nonempty c s) as Hne.
  destruct (Ascii.eqb_spec a c) as [->|Hac].
  - destruct (split c s) as [|h t]; [done|]. simpl in *. by rewrite <- IH.
  - destruct (split c s) as [|h [|h' t]]; simpl in *; [done|by rewrite <- IH|by rewrite <- IH].
Qed.

Lemma split_noChar c s : Forall (fun x => noChar c x = true) (split c s).
Proof.
  induction s as [|a s IH]; simpl; [by constructor|].
  destruct (Ascii.eqb a c) eqn:E; [by constructor|].
  destruct (split c s) as [|h t]; inversion IH; subst; constructor; try done.
  - unfold noChar in *. simpl. by rewrite E.
  - unfold noChar in *. simpl. by rewrite E.
Qed.

Lemma split_app_noChar c x s :
  noChar c x = true -> split c (x +:+ String c s) = x :: split c s.
Proof.
  induction x as [|a x IH]; simpl; [by rewrite Ascii.eqb_refl|].
  unfold noChar in *. simpl. rewrite andb_true_iff, negb_true_iff. intros [-> Hx].
  by rewrite IH.
Qed.

Lemma split_single c x : noChar c x = true -> split c x = [x].
Proof.
  induction x as [|a x IH]; simpl; [done|].
  unfold noChar in *. simpl. rewrite andb_true_iff, negb_true_iff. intros [-> Hx].
  by rewrite IH.
Qed.

Lemma split_join c l :
  l <> [] -> Forall (fun x => noChar c x = true) l -> split c (join (String c "") l) = l.
Proof.
  unfold join. intros Hl. induction l as [|x [|y l] IH]; intros Hf; [done| |].
  - inversion Hf; subst. by apply split_single.
  - inversion Hf; subst.
    assert (String.concat (String c "") (x :: y :: l) =
            x +:+ String c (String.concat (String c "") (y :: l))) as -> by done.
    rewrite split_app_noChar by done. by rewrite IH.
Qed.

Lemma strForall_split p c s :
  strForall p s = true -> Forall (fun x => strForall p x = true) (split c s).
Proof.
  induction s as [|a s IH]; simpl; [by constructor|]. rewrite andb_true_iff. intros [Ha Hs].
  destruct (Ascii.eqb a c); [constructor; auto|].
  destruct (split c s) as [|h t]; specialize (IH Hs); inversion IH; subst; constructor; simpl; rewrite ?Ha; auto.
Qed.

Lemma strForall_join p sep l :
  strForall p sep = true -> Forall (fun x => strForall p x = true) l ->
  strForall p (join sep l) = true.
Proof.
  unfold join. intros Hsep. induction l as [|x [|y l] IH]; intros Hl; [done| |].
  - by inversion Hl.
  - inversion Hl; subst.
    assert (String.concat sep (x :: y :: l) = x +:+ sep +:+ String.concat sep (y :: l)) as -> by done.
    rewrite !strForall_app. by rewrite Hsep, IH, H1.
Qed.

(** *** ASCII strings: a rune per byte *)
Definition isAscii (c : ascii) : bool := byteZ c <? 128.

Lemma chunks_ascii s :
  strForall isAscii s = true ->
  chunks s = map (fun c => (byteZ c, String c "")) (String.list_ascii_of_string s).
Proof.
  unfold chunks. induction s as [|c s IH]; simpl; [done|].
  rewrite andb_true_iff. intros [Hc Hs]. unfold decodeRune. unfold isAscii in Hc. rewrite Hc.
  by rewrite IH.
Qed.

Lemma concatChunks_ascii l :
  concatChunks (map (fun c => (byteZ c, String c "")) l) = String.string_of_list_ascii l.
Proof.
  unfold concatChunks. rewrite map_map. simpl.
  induction l as [|c l IH]; simpl; [done|]. by destruct l; simpl in *; rewrite <- ?IH.
Qed.

Lemma dropSpace_none l :
  Forall (fun zb => isSpaceRune zb.1 = false) l -> dropSpace l = l.
Proof. destruct l as [|[z b] l]; [done|]. intros H. inversion H; subst. simpl in *. by rewrite H2. Qed.

(** [TrimSpace] leaves an ASCII string without white space alone. *)
Lemma trimSpace_id s :
  strForall (fun c => isAscii c && negb (isSpaceRune (byteZ c))) s = true -> trimSpace s = s.
Proof.
  intros H. unfold trimSpace.
  assert (strForall isAscii s = true) as Ha.
  { eapply strForall_impl; [|done]. simpl. intros c [? _]%andb_prop. done. }
  rewrite chunks_ascii by done.
  assert (Forall (fun zb : Z * string => isSpaceRune zb.1 = false)
            (map (fun c => (byteZ c, String c "")) (String.list_ascii_of_string s))) as Hn.
  { clear Ha. induction s as [|c s IH]; simpl in *; constructor.
    - apply andb_prop in H as [[_ Hc]%andb_prop _]. by apply negb_true_iff in Hc.
    - apply IH. by apply andb_prop in H as [_ ?]. }
  rewrite (dropSpace_none _ Hn).
  rewrite dropSpace_none by (by apply Forall_rev).
  rewrite rev_involutive, concatChunks_ascii. apply String.string_of_list_ascii_of_string.
Qed.

Lemma byteZ_range c : 0 <= byteZ c < 256.
Proof. unfold byteZ. pose proof (N_ascii_bounded c). lia. Qed.

Lemma chrZ_byteZ c : chrZ (byteZ c) = c.
Proof. unfold chrZ, byteZ. rewrite N2Z.id. apply ascii_N_embedding. Qed.

Lemma byteZ_chrZ z : 0 <= z < 256 -> byteZ (chrZ z) = z.
Proof. intros H. unfold chrZ, byteZ. rewrite N_ascii_embedding by lia. lia. Qed.

Lemma encodeRune_ascii z : 0 <= z < 128 -> encodeRune z = String (chrZ z) "".
Proof.
  intros H. unfold encodeRune.
  assert ((z <? 0) || (1114111 <? z) || ((55296 <=? z) && (z <=? 57343)) = false) as ->.
  { rewrite !orb_false_iff, andb_false_iff. rewrite !Z.ltb_ge, !Z.leb_gt. lia. }
  by rewrite (proj2 (Z.ltb_lt z 128)) by lia.
Qed.

Lemma concat_singletons (l : list ascii) :
  String.concat "" (map (fun c => String c "") l) = String.string_of_list_ascii l.
Proof. induction l as [|c [|d l] IH]; simpl in *; [done|done|]. by rewrite <- IH. Qed.

Lemma toLower_ascii `{Unicode} s :
  strForall isAscii s = true ->
  toLower s = String.string_of_list_ascii
    (map (fun c => chrZ (toLowerRune (byteZ c))) (String.list_ascii_of_string s)).
Proof.
  intros Hs. unfold toLower, runes. rewrite chunks_ascii by done. rewrite !map_map. simpl.
  rewrite <- concat_singletons, map_map. f_equal. apply map_ext_in. intros c Hc.
  apply encodeRune_ascii.
  assert (isAscii c = true) as Ha.
  { clear -Hs Hc. induction s as [|d s IH]; simpl in *; [done|].
    apply andb_prop in Hs as [??]. destruct Hc as [->|?]; auto. }
  unfold isAscii in Ha. apply Z.ltb_lt in Ha. pose proof (byteZ_range c).
  unfold toLowerRune. rewrite (proj2 (Z.ltb_lt _ 128)) by lia.
  destruct ((65 <=? byteZ c) && (byteZ c <=? 90)) eqn:E; [|lia].
  apply andb_prop in E as [?%Z.leb_le ?%Z.leb_le]. lia.
Qed.

(** [ToLower] leaves ASCII without upper-case letters alone. *)
Lemma toLower_id `{Unicode} s :
  strForall (fun c => isAscii c && negb (isUpper c)) s = true -> toLower s = s.
Proof.
  intros Hs. rewrite toLower_ascii.
  - rewrite <- (String.string_of_list_ascii_of_string s) at 2. f_equal.
    induction s as [|c s IH]; simpl in *; [done|].
    apply andb_prop in Hs as [[Ha Hu]%andb_prop Hs]. rewrite IH by done. f_equal.
    unfold toLowerRune, isAscii, isUpper, inRange in *. rewrite Ha.
    apply negb_true_iff in Hu. rewrite Hu. apply chrZ_byteZ.
  - eapply strForall_impl; [|done]. simpl. intros c [? _]%andb_prop. done.
Qed.

(** *** Decimal numbers *)
Lemma isDigit_digitChar d : 0 <= d < 10 -> isDigit (digitChar d) = true.
Proof.
  intros H. unfold isDigit, inRange, digitChar. rewrite byteZ_chrZ by lia.
  apply andb_true_iff. split; apply Z.leb_le; lia.
Qed.

Lemma byteZ_digitChar d : 0 <= d < 10 -> byteZ (digitChar d) - 48 = d.
Proof. intros H. unfold digitChar. rewrite byteZ_chrZ; lia. Qed.

Lemma digitsFuel_parse f n acc :
  0 <= n < 2 ^ Z.of_nat f -> parseDigits (digitsFuel f n acc) 0 = parseDigits acc n.
Proof.
  revert n acc. induction f as [|f IH]; intros n acc Hn.
  - simpl in *. by replace n with 0 by lia.
  - rewrite Nat2Z.inj_succ, Z.pow_succ_r in Hn by lia. cbn [digitsFuel].
    pose proof (Z.mod_pos_bound n 10 ltac:(lia)) as Hm.
    destruct (Z.ltb_spec n 10).
    + rewrite Z.mod_small by lia. cbn [parseDigits].
      rewrite isDigit_digitChar, byteZ_digitChar by lia. by rewrite Z.mul_0_l.
    + rewrite IH.
      * cbn [parseDigits]. rewrite isDigit_digitChar, byteZ_digitChar by lia.
        f_equal. rewrite (Z.div_mod n 10) at 3 by lia. lia.
      * split; [apply Z.div_pos; lia|]. apply Z.div_lt_upper_bound; lia.
Qed.

Lemma digitsFuel_digits f n acc :
  0 <= n -> strForall isDigit (digitsFuel f n acc) = strForall isDigit acc.
Proof.
  revert n acc. induction f as [|f IH]; intros n acc Hn; [done|]. cbn [digitsFuel].
  pose proof (Z.mod_pos_bound n 10 ltac:(lia)).
  destruct (n <? 10); rewrite ?IH by (apply Z.div_pos; lia);
    simpl; by rewrite isDigit_digitChar by lia.
Qed.

Lemma digits_fuel n : 0 <= n -> n < 2 ^ Z.of_nat (S (Z.to_nat (Z.log2 n))).
Proof.
  intros Hn. rewrite Nat2Z.inj_succ, Z2Nat.id by apply Z.log2_nonneg.
  destruct (Z.eq_dec n 0) as [->|]; [done|]. apply Z.log2_spec. lia.
Qed.

Lemma digits_digits n : 0 <= n -> strForall isDigit (digits n) = true.
Proof. intros Hn. unfold digits. by rewrite digitsFuel_digits. Qed.

Lemma digitsFuel_nonempty f n acc : acc <> "" -> digitsFuel f n acc <> "".
Proof. revert n acc. induction f as [|f IH]; intros n acc Ha; simpl; [done|]. case_match; [done|by apply IH]. Qed.

Lemma digits_nonempty n : digits n <> "".
Proof. unfold digits. simpl. case_match; [done|by apply digitsFuel_nonempty]. Qed.

Lemma digits_parse n : 0 <= n -> parseUDigits (digits n) = Some n.
Proof.
  intros Hn. pose proof (digits_nonempty n) as Hne.
  assert (parseDigits (digits n) 0 = Some n) as Hp.
  { unfold digits. rewrite digitsFuel_parse; [done|]. by split; [|apply digits_fuel]. }
  by destruct (digits n).
Qed.

(** [strconv.ParseInt] reads back what [strconv.Itoa] wrote. *)
Lemma parseInt_itoa n : inInt64 n = true -> parseInt (itoa n) = Ok n.
Proof.
  intros Hn. unfold parseInt, itoa. destruct (Z.ltb_spec n 0).
  - change ("-" +:+ digits (- n)) with (String "-" (digits (- n))). cbn -[digits parseUDigits].
    rewrite digits_parse by lia. by rewrite Z.opp_involutive, Hn.
  - pose proof (digits_parse n ltac:(lia)) as Hp. pose proof (digits_digits n ltac:(lia)) as Hd.
    destruct (digits n) as [|c r] eqn:E; [done|]. simpl in Hd. apply andb_prop in Hd as [Hc _].
    assert (Ascii.eqb c "-" = false /\ Ascii.eqb c "+" = false) as [-> ->].
    { split; apply Ascii.eqb_neq; intros ->; by vm_compute in Hc. }
    rewrite Hp. cbv zeta. by rewrite Hn.
Qed.

(** Padded numbers have their width and read back. *)
Lemma digitsFuel_length f : forall k n acc, (1 <= k)%nat -> 0 <= n < 10 ^ Z.of_nat k ->
  (String.length (digitsFuel f n acc) <= k + String.length acc)%nat.
Proof.
  induction f as [|f IH]; intros k n acc Hk Hn; simpl; [lia|].
  destruct (n <? 10) eqn:E; simpl; [lia|]. apply Z.ltb_ge in E.
  destruct k as [|[|k]]; [lia|simpl in Hn; lia|].
  specialize (IH (S k) (n / 10) (String (digitChar (n mod 10)) acc)). simpl in IH.
  rewrite Nat2Z.inj_succ, Z.pow_succ_r in Hn by lia.
  assert (0 <= n / 10 < 10 ^ Z.of_nat (S k)).
  { split; [apply Z.div_pos; lia|apply Z.div_lt_upper_bound; lia]. }
  specialize (IH ltac:(lia) ltac:(done)). lia.
Qed.

Lemma strForall_repeat p c n : p c = true ->
  strForall p (String.concat "" (repeat (String c "") n)) = true /\
  String.length (String.concat "" (repeat (String c "") n)) = n.
Proof.
  intros Hc. induction n as [|[|n] IH]; [done|simpl; by rewrite Hc|].
  assert (String.concat "" (repeat (String c "") (S (S n))) =
          String c (String.concat "" (repeat (String c "") (S n)))) as -> by done.
  destruct IH as [IH1 IH2]. cbn [strForall String.length]. by rewrite Hc, IH1, IH2.
Qed.

Lemma padZero_spec w n : (1 <= w)%nat -> 0 <= n < 10 ^ Z.of_nat w ->
  String.length (padZero w n) = w /\ strForall isDigit (padZero w n) = true.
Proof.
  intros Hw Hn. unfold padZero, digits.
  set (d := digitsFuel _ n "").
  pose proof (digitsFuel_length (S (Z.to_nat (Z.log2 n))) w n "" Hw Hn) as Hl. fold d in Hl.
  simpl in Hl.
  assert (strForall isDigit d = true) by (apply (digits_digits n); lia).
  destruct (strForall_repeat isDigit "0" (w - String.length d)) as [H1 H2]; [done|].
  rewrite length_app_str, strForall_app, H1, H2. split; [lia|done].
Qed.

Lemma parseDigits_zeros k s : parseDigits (String.concat "" (repeat "0" k) +:+ s) 0 = parseDigits s 0.
Proof. induction k as [|[|k] IH]; [done|done|]. exact IH. Qed.

Lemma padZero_parse w n : 0 <= n -> parseDigits (padZero w n) 0 = Some n.
Proof.
  intros Hn. unfold padZero. rewrite parseDigits_zeros. unfold digits.
  rewrite digitsFuel_parse; [done|]. by split; [|apply digits_fuel].
Qed.

(** ** [bufio] *)

(** [bufio.Scanner]: the lines before the first one of at least [limit] bytes,
    which is an error; a carriage return before the line end is dropped. *)
Fixpoint scanLines (limit : Z) (pieces : list string) : list string * option error :=
  match pieces with
  | [] | [EmptyString] => ([], None)
  | p :: rest =>
      if limit <=? lenZ p then ([], Some (EMsg "bufio.Scanner: token too long"))
      else let '(ls, e) := scanLines limit rest in (trimSuffix p CR :: ls, e)
  end.
Definition scanText (limit : Z) (s : string) : list string * option error := scanLines limit (split (chrZ 10) s).

(** The last byte. *)
Fixpoint lastChar (s : string) : option ascii :=
  match s with EmptyString => None | String c r => match lastChar r with Some d => Some d | None => Some c end end.
Lemma lastChar_app s t : lastChar (s +:+ t) = match lastChar t with Some d => Some d | None => lastChar s end.
Proof. induction s as [|c s IH]; [cbn; by destruct (lastChar t)|]. cbn [String.append lastChar]. rewrite IH. by destruct (lastChar t). Qed.

Lemma trimSuffix_last s c d : lastChar s = Some d -> d <> c -> trimSuffix s (String c "") = s.
Proof.
  intros Hs Hne. unfold trimSuffix. destruct (hasSuffix s (String c "")) eqn:E; [|done].
  apply hasSuffix_true in E as [a ->]. rewrite lastChar_app in Hs. by injection Hs.
Qed.
