(* ===== verification/Utf8Facts.v ===== *)
(** * Utf8Facts: strings as sequences of runes

    A valid UTF-8 string is the encoding of its runes, decoding inverts
    encoding, and a decoded rune does not depend on what follows it. *)
From S2P Require Import Prelude GoStrings.
Set Warnings "-register-all".

(** The Unicode scalar values. *)
Definition isScalar (z : Z) : bool :=
  (0 <=? z) && (z <=? 1114111) && negb ((55296 <=? z) && (z <=? 57343)).

(** [utf8.ValidString]: no byte decodes to a replacement of width one. *)
Definition validChunk (zb : Z * string) : bool := negb ((zb.1 =? runeError) && Nat.eqb (String.length zb.2) 1).
Definition validUTF8 (s : string) : bool := forallb validChunk (chunks s).

Definition encodeRunes (zs : list Z) : string := String.concat "" (map encodeRune zs).

Lemma concat_cons x l : String.concat "" (x :: l) = x +:+ String.concat "" l.
Proof. destruct l; [by rewrite app_nil_r_str|done]. Qed.

Lemma encodeRunes_cons z zs : encodeRunes (z :: zs) = encodeRune z +:+ encodeRunes zs.
Proof. apply concat_cons. Qed.

Lemma chrZ_eq c z : byteZ c = z -> chrZ z = c.
Proof. intros <-. apply chrZ_byteZ. Qed.

(** Decide the comparisons of a goal with [lia]. *)
Ltac zbool :=
  cbv zeta; repeat (match goal with
  | |- context [?x <? ?y] => first [rewrite (proj2 (Z.ltb_lt x y)) by lia | rewrite (proj2 (Z.ltb_ge x y)) by lia]
  | |- context [?x <=? ?y] => first [rewrite (proj2 (Z.leb_le x y)) by lia | rewrite (proj2 (Z.leb_gt x y)) by lia]
  | |- context [?x =? ?y] => first [rewrite (proj2 (Z.eqb_eq x y)) by lia | rewrite (proj2 (Z.eqb_neq x y)) by lia]
  end; cbn [andb orb negb]).

Lemma inRange_iff lo hi c : inRange lo hi c = true <-> lo <= byteZ c <= hi.
Proof. unfold inRange. rewrite andb_true_iff, !Z.leb_le. done. Qed.

Lemma isScalar_iff z : isScalar z = true <-> (0 <= z <= 1114111 /\ ~ (55296 <= z <= 57343)).
Proof.
  unfold isScalar. rewrite !andb_true_iff, negb_true_iff, andb_false_iff, !Z.leb_le, !Z.leb_gt. lia.
Qed.

(** ** A decoded rune re-encodes to its bytes *)
Lemma two_bytes z c0 c1 :
  194 <= byteZ c0 < 224 -> 128 <= byteZ c1 <= 191 -> z = (byteZ c0 - 192) * 64 + (byteZ c1 - 128) ->
  isScalar z = true /\ encodeRune z = String c0 (String c1 "").
Proof.
  intros H0 H1 Hz. split; [apply isScalar_iff; lia|].
  unfold encodeRune. zbool. repeat f_equal; apply chrZ_eq; Z.div_mod_to_equations; lia.
Qed.

Lemma three_bytes z c0 c1 c2 :
  224 <= byteZ c0 < 240 -> (if byteZ c0 =? 224 then 160 else 128) <= byteZ c1 <= (if byteZ c0 =? 237 then 159 else 191) ->
  128 <= byteZ c2 <= 191 -> z = (byteZ c0 - 224) * 4096 + (byteZ c1 - 128) * 64 + (byteZ c2 - 128) ->
  isScalar z = true /\ encodeRune z = String c0 (String c1 (String c2 "")).
Proof.
  intros H0 H1 H2 Hz.
  assert (128 <= byteZ c1 <= 191 /\ 2048 <= z < 65536 /\ ~ (55296 <= z <= 57343)) as (?&?&?).
  { destruct (Z.eqb_spec (byteZ c0) 224), (Z.eqb_spec (byteZ c0) 237); lia. }
  split; [apply isScalar_iff; lia|].
  unfold encodeRune. destruct (Z.leb_spec 55296 z), (Z.leb_spec z 57343); try lia; zbool;
    repeat f_equal; apply chrZ_eq; Z.div_mod_to_equations; lia.
Qed.

Lemma four_bytes z c0 c1 c2 c3 :
  240 <= byteZ c0 < 245 -> (if byteZ c0 =? 240 then 144 else 128) <= byteZ c1 <= (if byteZ c0 =? 244 then 143 else 191) ->
  128 <= byteZ c2 <= 191 -> 128 <= byteZ c3 <= 191 ->
  z = (byteZ c0 - 240) * 262144 + (byteZ c1 - 128) * 4096 + (byteZ c2 - 128) * 64 + (byteZ c3 - 128) ->
  isScalar z = true /\ encodeRune z = String c0 (String c1 (String c2 (String c3 ""))).
Proof.
  intros H0 H1 H2 H3 Hz.
  assert (128 <= byteZ c1 <= 191 /\ 65536 <= z < 1114112) as (?&?).
  { destruct (Z.eqb_spec (byteZ c0) 240), (Z.eqb_spec (byteZ c0) 244); lia. }
  split; [apply isScalar_iff; lia|].
  unfold encodeRune. zbool. repeat f_equal; apply chrZ_eq; Z.div_mod_to_equations; lia.
Qed.

(** [zb] is a rune with its own encoding, at the head of [String c s]. *)
Lemma decodeRune_valid c s z b r :
  decodeRune c s = (z, b, r) -> validChunk (z, b) = true ->
  isScalar z = true /\ b = encodeRune z /\ String c s = b +:+ r.
Proof.
  unfold decodeRune, validChunk. pose proof (byteZ_range c) as Hc.
  destruct (Z.ltb_spec (byteZ c) 128).
  { intros [= <- <- <-] _. rewrite encodeRune_ascii, chrZ_byteZ by lia.
    split; [apply isScalar_iff; lia|done]. }
  destruct (Z.ltb_spec (byteZ c) 194); [by intros [= <- <- <-]|].
  destruct (Z.ltb_spec (byteZ c) 224).
  { destruct s as [|c1 r1]; [by intros [= <- <- <-]|].
    destruct (inRange 128 191 c1) eqn:E1; intros [= <- <- <-]; [|done]. apply inRange_iff in E1. intros _.
    by edestruct two_bytes as [-> ->]; [| |done|]. }
  destruct (Z.ltb_spec (byteZ c) 240).
  { destruct s as [|c1 [|c2 r2]]; [by intros [= <- <- <-]..|].
    destruct (_ && _) eqn:E1; intros [= <- <- <-]; [|done]. apply andb_prop in E1 as [E1%inRange_iff E2%inRange_iff]. intros _.
    by edestruct three_bytes as [-> ->]; [| | |done|]. }
  destruct (Z.ltb_spec (byteZ c) 245); [|by intros [= <- <- <-]].
  destruct s as [|c1 [|c2 [|c3 r3]]]; [by intros [= <- <- <-]..|].
  destruct (_ && _) eqn:E1; intros [= <- <- <-]; [|done].
  apply andb_prop in E1 as [[E1%inRange_iff E2%inRange_iff]%andb_prop E3%inRange_iff]. intros _.
  by edestruct four_bytes as [-> ->]; [| | | |done|].
Qed.

(** ** Decoding an encoded rune *)
Lemma in_range lo hi z : lo <= z <= hi -> 0 <= z < 256 -> inRange lo hi (chrZ z) = true.
Proof. intros Hz Hb. apply inRange_iff. by rewrite byteZ_chrZ. Qed.

(** The first rune of an encoded rune and anything after it. *)
Lemma encodeRune_decode z r :
  isScalar z = true ->
  exists c b, encodeRune z = String c b /\ decodeRune c (b +:+ r) = (z, encodeRune z, r) /\
              validChunk (z, encodeRune z) = true.
Proof.
  intros [Hz Hs]%isScalar_iff. unfold encodeRune.
  replace ((z <? 0) || (1114111 <? z) || ((55296 <=? z) && (z <=? 57343))) with false
    by (destruct (Z.leb_spec 55296 z), (Z.leb_spec z 57343); try lia; zbool; done).
  cbv zeta iota.
  destruct (Z.ltb_spec z 128); [|destruct (Z.ltb_spec z 2048); [|destruct (Z.ltb_spec z 65536)]];
    eexists _, _; split_and!; try reflexivity; unfold decodeRune, validChunk; cbn [fst snd String.append String.length Nat.eqb].
  - rewrite byteZ_chrZ by lia. by zbool.
  - unfold runeError. by zbool.
  - rewrite byteZ_chrZ by (Z.div_mod_to_equations; lia).
    assert (194 <= 192 + z / 64 < 224) by (Z.div_mod_to_equations; lia). zbool.
    rewrite in_range, byteZ_chrZ by (Z.div_mod_to_equations; lia). do 2 f_equal. Z.div_mod_to_equations; lia.
  - by rewrite andb_false_r.
  - rewrite byteZ_chrZ by (Z.div_mod_to_equations; lia).
    assert (224 <= 224 + z / 4096 < 240) by (Z.div_mod_to_equations; lia). zbool.
    assert (0 <= (z / 64) mod 64 < 64) by (apply Z.mod_pos_bound; lia).
    rewrite !in_range, !byteZ_chrZ; [|Z.div_mod_to_equations; lia..| |lia].
    + cbn [andb]. do 2 f_equal. Z.div_mod_to_equations; lia.
    + destruct (Z.eqb_spec (224 + z / 4096) 224), (Z.eqb_spec (224 + z / 4096) 237); Z.div_mod_to_equations; lia.
  - by rewrite andb_false_r.
  - rewrite byteZ_chrZ by (Z.div_mod_to_equations; lia).
    assert (240 <= 240 + z / 262144 < 245) by (Z.div_mod_to_equations; lia). zbool.
    assert (0 <= (z / 4096) mod 64 < 64) by (apply Z.mod_pos_bound; lia).
    assert (0 <= (z / 64) mod 64 < 64) by (apply Z.mod_pos_bound; lia).
    rewrite !in_range, !byteZ_chrZ; [|Z.div_mod_to_equations; lia..| |lia].
    + cbn [andb]. do 2 f_equal. Z.div_mod_to_equations; lia.
    + destruct (Z.eqb_spec (240 + z / 262144) 240), (Z.eqb_spec (240 + z / 262144) 244); Z.div_mod_to_equations; lia.
  - by rewrite andb_false_r.
Qed.

(** More fuel than the length changes nothing. *)
Lemma decodeRune_length c s z b r : decodeRune c s = (z, b, r) -> (String.length r <= String.length s)%nat.
Proof.
  unfold decodeRune. intros Hd. repeat case_match; simplify_eq; simpl; lia.
Qed.

Lemma chunksFuel_enough f : forall g s, (String.length s <= f)%nat -> (String.length s <= g)%nat ->
  chunksFuel f s = chunksFuel g s.
Proof.
  induction f as [|f IH]; intros [|g] [|c s] Hf Hg; try done; simpl in *; try lia.
  destruct (decodeRune c s) as [[z b] r] eqn:E. apply decodeRune_length in E.
  f_equal. apply IH; lia.
Qed.

Lemma chunks_cons c s z b r : decodeRune c s = (z, b, r) -> chunks (String c s) = (z, b) :: chunks r.
Proof.
  intros Hd. unfold chunks. cbn [String.length chunksFuel]. rewrite Hd. f_equal.
  apply decodeRune_length in Hd. by apply chunksFuel_enough.
Qed.

Lemma chunks_encodeRune z s : isScalar z = true -> chunks (encodeRune z +:+ s) = (z, encodeRune z) :: chunks s.
Proof.
  intros Hz. destruct (encodeRune_decode z s Hz) as (c&b&E&Hd&_). rewrite E at 1.
  cbn [String.append]. by apply chunks_cons.
Qed.

(** ** Valid strings are the encodings of their runes *)
Lemma validUTF8_runes s :
  validUTF8 s = true -> exists zs, forallb isScalar zs = true /\ s = encodeRunes zs.
Proof.
  unfold validUTF8. remember (String.length s) as n eqn:Hn. assert (String.length s <= n)%nat as Hle by lia. clear Hn.
  revert s Hle. induction n as [|n IH]; intros [|c s] Hle Hv; [by exists []|simpl in Hle; lia|by exists []|]. simpl in Hle.
  destruct (decodeRune c s) as [[z b] r] eqn:E. rewrite (chunks_cons _ _ _ _ _ E) in Hv. cbn [forallb] in Hv.
  apply andb_prop in Hv as [Hb Hv]. pose proof (decodeRune_length _ _ _ _ _ E) as Hl.
  apply decodeRune_valid in E as (Hz&->&->); [|done].
  destruct (IH r) as (zs&Hzs&->); [lia|done|]. exists (z :: zs). cbn [forallb]. by rewrite Hz, encodeRunes_cons.
Qed.

Lemma encodeRunes_valid zs : forallb isScalar zs = true -> validUTF8 (encodeRunes zs) = true.
Proof.
  induction zs as [|z zs IH]; [done|]. cbn [forallb]. intros [Hz Hzs]%andb_prop.
  rewrite encodeRunes_cons. unfold validUTF8 in *. rewrite chunks_encodeRune by done. cbn [forallb].
  rewrite IH by done. by destruct (encodeRune_decode z "" Hz) as (?&?&_&_&->).
Qed.

Lemma validUTF8_app s t : validUTF8 s = true -> validUTF8 t = true -> validUTF8 (s +:+ t) = true.
Proof.
  intros (zs&Hzs&->)%validUTF8_runes (zt&Hzt&->)%validUTF8_runes. induction zs as [|z zs IH]; [by apply encodeRunes_valid|].
  cbn [forallb] in Hzs. apply andb_prop in Hzs as [Hz Hzs]. rewrite encodeRunes_cons, app_assoc_str.
  unfold validUTF8 in *. rewrite chunks_encodeRune by done. cbn [forallb]. rewrite IH by done.
  by destruct (encodeRune_decode z "" Hz) as (?&?&_&_&->).
Qed.

Lemma chunks_encodeRunes zs :
  forallb isScalar zs = true -> chunks (encodeRunes zs) = map (fun z => (z, encodeRune z)) zs.
Proof.
  induction zs as [|z zs IH]; [done|]. cbn [forallb]. intros [Hz Hzs]%andb_prop.
  rewrite encodeRunes_cons, chunks_encodeRune by done. cbn [map]. by rewrite IH.
Qed.

Lemma validUTF8_ascii s : strForall isAscii s = true -> validUTF8 s = true.
Proof.
  intros Hs. unfold validUTF8. rewrite chunks_ascii by done. rewrite forallb_forall.
  intros zb (c&<-&Hc)%in_map_iff. unfold validChunk. cbn [fst snd]. unfold runeError.
  assert (isAscii c = true) as Ha.
  { clear -Hs Hc. induction s as [|d s IH]; simpl in *; [done|].
    apply andb_prop in Hs as [??]. destruct Hc as [->|?]; auto. }
  unfold isAscii in Ha. apply Z.ltb_lt in Ha. by zbool.
Qed.

Lemma chunks_app_ascii s t :
  strForall isAscii s = true ->
  chunks (s +:+ t) = (map (fun c => (byteZ c, String c "")) (String.list_ascii_of_string s) ++ chunks t)%list.
Proof.
  induction s as [|c s IH]; [done|]. cbn [strForall]. intros [Hc Hs]%andb_prop. cbn [String.append].
  rewrite (chunks_cons _ _ (byteZ c) (String c "") (s +:+ t)).
  - by rewrite IH.
  - unfold decodeRune. unfold isAscii in Hc. by rewrite Hc.
Qed.

(** ** Text that is not UTF-8

    A decoded rune is a scalar value with its own encoding, or U+FFFD for a byte
    that begins none; [toValid] writes the latter as what they were read as. *)
Definition chunkOK (zb : Z * string) : Prop :=
  isScalar zb.1 = true /\ (zb.2 = encodeRune zb.1 \/ zb.1 = runeError /\ String.length zb.2 = 1%nat).

Lemma decodeRune_chunk c s z b r : decodeRune c s = (z, b, r) -> chunkOK (z, b).
Proof.
  intros Hd. destruct (validChunk (z, b)) eqn:Hv.
  - apply decodeRune_valid in Hd as (Hz&->&_); [|done]. by split; [|left].
  - unfold validChunk in Hv. cbn [fst snd] in Hv. apply negb_false_iff, andb_prop in Hv as [->%Z.eqb_eq Hl%Nat.eqb_eq].
    split; [by vm_compute|by right].
Qed.

Lemma chunks_OK s : Forall chunkOK (chunks s).
Proof.
  remember (String.length s) as n eqn:Hn. assert (String.length s <= n)%nat as Hle by lia. clear Hn.
  revert s Hle. induction n as [|n IH]; intros [|c s] Hle; try constructor; simpl in Hle; [lia|].
  destruct (decodeRune c s) as [[z b] r] eqn:E. rewrite (chunks_cons _ _ _ _ _ E). constructor; [by eapply decodeRune_chunk|].
  apply IH. apply decodeRune_length in E. lia.
Qed.

Definition toValid (s : string) : string := encodeRunes (runes s).

Lemma runes_scalar s : forallb isScalar (runes s) = true.
Proof.
  unfold runes. pose proof (chunks_OK s) as Hs. induction Hs as [|[z b] l [Hz _] _ IH]; [done|]. cbn [map forallb fst] in *. by rewrite Hz.
Qed.

Lemma toValid_valid s : validUTF8 (toValid s) = true.
Proof. apply encodeRunes_valid, runes_scalar. Qed.

Lemma runes_encodeRunes zs : forallb isScalar zs = true -> runes (encodeRunes zs) = zs.
Proof. intros Hz. unfold runes. rewrite chunks_encodeRunes by done. rewrite map_map. apply map_id. Qed.

Lemma toValid_id s : validUTF8 s = true -> toValid s = s.
Proof. intros (zs&Hz&->)%validUTF8_runes. unfold toValid. by rewrite runes_encodeRunes. Qed.

Lemma toValid_empty s : String.eqb (toValid s) "" = String.eqb s "".
Proof.
  destruct s as [|c s]; [done|]. unfold toValid, runes. destruct (decodeRune c s) as [[z b] r] eqn:E. rewrite (chunks_cons _ _ _ _ _ E).
  cbn [map fst]. rewrite encodeRunes_cons. destruct (decodeRune_chunk _ _ _ _ _ E) as [Hz _].
  destruct (encodeRune_decode z "" Hz) as (c'&b'&->&_). done.
Qed.
