(* ===== verification/GoPath.v ===== *)
(** * GoPath: [path/filepath] on Unix as panel4wp uses it

    [Clean], [Join], [Base], [Dir] and [IsAbs], computed on the
    slash-separated elements, with the lemmas that let the components build
    file names under a clean root directory. *)
From S2P Require Import Prelude GoStrings.

Definition slash : ascii := "/"%char.

(** One element processed by [Clean]: [acc] is the output so far, reversed. *)
Definition cleanStep (rooted : bool) (acc : list string) (x : string) : list string :=
  if String.eqb x "" || String.eqb x "." then acc
  else if String.eqb x ".." then
    match acc with
    | h :: t => if String.eqb h ".." then ".." :: acc else t
    | [] => if rooted then [] else [".."]
    end
  else x :: acc.

Definition cleanElems (rooted : bool) (l : list string) : list string :=
  rev (foldl (cleanStep rooted) [] l).

Definition isAbs (p : string) : bool := hasPrefix p "/".

(** [filepath.Clean]. *)
Definition clean (p : string) : string :=
  if String.eqb p "" then "."
  else
    let rooted := isAbs p in
    let out := join "/" (cleanElems rooted (split slash p)) in
    if rooted then "/" +:+ out
    else if String.eqb out "" then "." else out.

(** [filepath.Join]: drops empty elements, joins and cleans. *)
Definition pathJoin (l : list string) : string :=
  match filter (fun x => x <> "") l with
  | [] => ""
  | l' => clean (join "/" l')
  end.

(** [filepath.Base] / [path.Base]. *)
Definition base (p : string) : string :=
  if String.eqb p "" then "."
  else
    let q := trimRightChar slash p in
    if String.eqb q "" then "/"
    else match last (split slash q) with Some x => x | None => q end.

(** The part of [p] up to and including its last slash. *)
Fixpoint upToSlash (p : string) : string :=
  match p with
  | EmptyString => ""
  | String c r =>
      if contains p "/" then String c (upToSlash r) else ""
  end.

(** [filepath.Dir] / [path.Dir]. *)
Definition dir (p : string) : string := clean (upToSlash p).

(** [a +/+ b] is the file [b] of directory [a]: what [filepath.Join] gives when
    [a] is clean and is not the root, and [b] is a plain file name. *)
Definition child (a b : string) : string := a +:+ "/" +:+ b.
Infix "+/+" := child (at level 45, left associativity) : string_scope.

(** A plain file name: one element that [Clean] keeps as it is. *)
Definition plainName (x : string) : bool :=
  negb (String.eqb x "") && negb (String.eqb x ".") && negb (String.eqb x "..")
  && negb (contains x "/").

(** ** Lemmas: clean paths *)

(** An element [Clean] keeps. *)
Definition plainElem (x : string) : bool :=
  negb (String.eqb x "" || String.eqb x "." || String.eqb x "..").

Lemma cleanStep_plain b acc x : plainElem x = true -> cleanStep b acc x = x :: acc.
Proof.
  unfold plainElem, cleanStep. rewrite negb_true_iff, !orb_false_iff.
  intros [[-> ->] ->]. done.
Qed.

Lemma cleanElems_plain b l : forallb plainElem l = true -> cleanElems b l = l.
Proof.
  unfold cleanElems. intros Hl.
  assert (forall acc, foldl (cleanStep b) acc l = (rev l ++ acc)%list) as ->.
  { induction l as [|x l IH]; intros acc; simpl in *; [done|].
    apply andb_prop in Hl as [Hx Hl]. by rewrite cleanStep_plain, IH, <- app_assoc. }
  rewrite app_nil_r. apply rev_involutive.
Qed.

(** A relative path of plain elements is clean. *)
Lemma clean_plain p :
  p <> "" -> forallb plainElem (split slash p) = true -> isAbs p = false -> clean p = p.
Proof.
  intros Hne Hp Habs. unfold clean. rewrite (proj2 (String.eqb_neq p "")) by done.
  rewrite Habs, cleanElems_plain by done.
  pose proof (join_split slash p) as Hj. change (String slash "") with "/" in Hj. rewrite Hj.
  by rewrite (proj2 (String.eqb_neq p "")).
Qed.

(** A clean absolute path other than the root: the directories the worker and
    the panel are configured with. *)
Definition cleanRoot (r : string) : Prop :=
  exists l, l <> [] /\ forallb plainElem l = true /\
    Forall (fun x => noChar slash x = true) l /\ r = "/" +:+ join "/" l.

Lemma join_app_slash l1 l2 :
  l1 <> [] -> l2 <> [] -> join "/" (l1 ++ l2)%list = join "/" l1 +:+ "/" +:+ join "/" l2.
Proof.
  unfold join. intros H1 H2. induction l1 as [|x [|y l1] IH]; [done| |].
  - simpl. destruct l2; [done|]. done.
  - assert (String.concat "/" ((x :: y :: l1) ++ l2)%list = x +:+ "/" +:+ String.concat "/" ((y :: l1) ++ l2)%list) as -> by done.
    rewrite IH by done.
    assert (String.concat "/" (x :: y :: l1) = x +:+ "/" +:+ String.concat "/" (y :: l1)) as -> by done.
    by rewrite !app_assoc_str.
Qed.

Lemma eqb_plain_nonempty x : plainElem x = true -> x <> "".
Proof. by intros H ->. Qed.

Lemma clean_abs l :
  l <> [] -> forallb plainElem l = true -> Forall (fun x => noChar slash x = true) l ->
  clean ("/" +:+ join "/" l) = "/" +:+ join "/" l.
Proof.
  intros Hl Hp Hn. unfold clean.
  change (String.eqb ("/" +:+ join "/" l) "") with false. cbv iota.
  change (isAbs ("/" +:+ join "/" l)) with (hasPrefix ("/" +:+ join "/" l) "/").
  rewrite hasPrefix_app. cbv zeta iota.
  change ("/" +:+ join "/" l) with (String slash (join "/" l)) at 1.
  assert (split slash (String slash (join "/" l)) = "" :: l) as ->.
  { cbn [split]. rewrite Ascii.eqb_refl. f_equal. by apply split_join. }
  assert (cleanElems true ("" :: l) = cleanElems true l) as -> by done.
  by rewrite cleanElems_plain.
Qed.

(** Joining plain elements under a clean root stays under the root, and is
    plain concatenation. *)
Lemma pathJoin_under r p :
  cleanRoot r -> p <> "" -> forallb plainElem (split slash p) = true ->
  pathJoin [r; p] = r +/+ p.
Proof.
  intros (l&Hl&Hp&Hn&->) Hne Hpp. unfold pathJoin.
  rewrite filter_cons_True by done. rewrite filter_cons_True by done. rewrite filter_nil.
  unfold child. change (join "/" ["/" +:+ join "/" l; p]) with (("/" +:+ join "/" l) +:+ "/" +:+ p).
  rewrite <- (join_split slash p) at 1 2. rewrite app_assoc_str.
  change (String slash "") with "/".
  rewrite <- join_app_slash by (try done; apply split_nonempty).
  apply clean_abs.
  - by destruct l.
  - by rewrite forallb_app, Hp, Hpp.
  - apply Forall_app. split; [done|apply split_noChar].
Qed.
