(* ===== verification/GoRegexp.v ===== *)
(** * GoRegexp: the anchored regular expressions of panel4wp

    Every [regexp.MustCompile] of the program is anchored on both sides and
    uses only literals, ASCII classes, concatenation, groups, alternation and
    counted repetition.  The matcher below interprets that syntax; the lemmas
    reduce a match to conditions on lengths and bytes. *)
From S2P Require Import Prelude GoStrings.

Inductive re :=
| Cls (p : ascii -> bool)
| Eps
| Seq (a b : re)
| Alt (a b : re)
| Rep (lo hi : nat) (a : re).

(** [matchK r s k]: some prefix of [s] matches [r] and [k] accepts the rest. *)
Fixpoint matchK (r : re) (s : string) (k : string -> bool) : bool :=
  match r with
  | Cls p => match s with String c t => p c && k t | EmptyString => false end
  | Eps => k s
  | Seq a b => matchK a s (fun t => matchK b t k)
  | Alt a b => matchK a s k || matchK b s k
  | Rep lo hi a =>
      (fix rep (hi lo : nat) (s : string) : bool :=
         match hi with
         | O => Nat.eqb lo 0 && k s
         | S h => matchK a s (fun t => rep h (lo - 1)%nat t) || (Nat.eqb lo 0 && k s)
         end) hi lo s
  end.

(** [^r$] matches the whole of [s] ([$] without the [m] flag is end of text). *)
Definition matchString (r : re) (s : string) : bool := matchK r s (fun t => String.eqb t "").

Definition lit (c : ascii) : re := Cls (Ascii.eqb c).
Definition litString (s : string) : re := foldr (fun c r => Seq (lit c) r) Eps (String.list_ascii_of_string s).
Definition exactly (n : nat) (p : ascii -> bool) : re := Rep n n (Cls p).

(** The counted repetition of a class, by its unfolding. *)
Definition repK (a : re) (k : string -> bool) : nat -> nat -> string -> bool :=
  fix rep (hi lo : nat) (s : string) : bool :=
    match hi with
    | O => Nat.eqb lo 0 && k s
    | S h => matchK a s (fun t => rep h (lo - 1)%nat t) || (Nat.eqb lo 0 && k s)
    end.

Lemma matchK_rep lo hi a s k : matchK (Rep lo hi a) s k = repK a k hi lo s.
Proof. reflexivity. Qed.

(** [p]{n} followed by [k]: the first [n] bytes satisfy [p]. *)
Lemma match_exactly n p s k :
  matchK (exactly n p) s k = true <->
  (n <= String.length s)%nat /\ strForall p (take n s) = true /\ k (drop n s) = true.
Proof.
  unfold exactly. rewrite matchK_rep. revert s.
  induction n as [|n IH]; intros s; simpl.
  - split; [intros; split; [lia|done]|by intros (_&_&?)].
  - rewrite orb_false_r. destruct s as [|c s]; simpl.
    + split; [done|intros (?&_); lia].
    + rewrite Nat.sub_0_r. rewrite !andb_true_iff, IH.
      split; [intros (?&?&?&?)|intros (?&[? ?]&?)]; repeat split; auto; lia.
Qed.

(** A class repeated between [lo] and [hi] times. *)
Lemma match_rep_cls p hi : forall lo s k, (lo <= hi)%nat ->
  matchK (Rep lo hi (Cls p)) s k = true <->
  exists n, (lo <= n <= hi)%nat /\ (n <= String.length s)%nat /\
            strForall p (take n s) = true /\ k (drop n s) = true.
Proof.
  induction hi as [|hi IH]; intros lo s k Hle; rewrite matchK_rep; simpl.
  - rewrite andb_true_iff. split.
    + intros [H1 H2]. exists 0%nat. simpl. repeat split; auto; lia.
    + intros (n&?&?&?&?). assert (n = 0%nat) as -> by lia.
      assert (lo = 0%nat) as -> by lia. by simpl in *.
  - rewrite orb_true_iff, andb_true_iff. split.
    + intros [H|[H1 H2]].
      * destruct s as [|c s]; [done|]. apply andb_prop in H as [Hc H].
        change (repK (Cls p) k hi (lo - 1) s = true) in H.
        rewrite <- matchK_rep in H. apply IH in H; [|lia].
        destruct H as (n&?&?&?&?). exists (S n). simpl. rewrite Hc.
        repeat split; auto; lia.
      * apply Nat.eqb_eq in H1 as ->. exists 0%nat. simpl. repeat split; auto; lia.
    + intros (n&Hn&Hl&Hf&Hk). destruct n as [|n].
      * right. assert (lo = 0%nat) as -> by lia. done.
      * left. destruct s as [|c s]; simpl in *; [lia|].
        apply andb_prop in Hf as [Hc Hf]. rewrite Hc. simpl.
        change (repK (Cls p) k hi (lo - 1) s = true). rewrite <- matchK_rep.
        apply IH; [lia|]. exists n. repeat split; auto; lia.
Qed.

Lemma take_all s n : (String.length s <= n)%nat -> take n s = s.
Proof.
  revert n. induction s as [|c s IH]; intros [|n] H; simpl in *; try done; [lia|].
  f_equal. apply IH. lia.
Qed.

Lemma drop_empty n s : drop n s = "" <-> (String.length s <= n)%nat.
Proof.
  revert s. induction n as [|n IH]; intros [|c s]; simpl.
  - split; auto.
  - split; [done|lia].
  - split; auto; lia.
  - rewrite IH. lia.
Qed.

(** The whole string is [n] bytes of one class. *)
Lemma matchString_exactly n p s :
  matchString (exactly n p) s = true <-> String.length s = n /\ strForall p s = true.
Proof.
  unfold matchString. rewrite match_exactly. rewrite String.eqb_eq, drop_empty. split.
  - intros (H1&H2&H3). rewrite take_all in H2 by lia. split; [lia|done].
  - intros [<- H]. rewrite take_all by lia. auto.
Qed.
