(* ===== verification/GoFloat.v ===== *)
(** * GoFloat: Go's [float64], exactly

    IEEE 754 binary64 through the executable specification [spec_float] of
    the Standard Library ([prec] = 53, [emax] = 1024), with the [math],
    [strconv] and [fmt] operations panel4wp applies to CPU limits. *)
From S2P Require Import Prelude GoStrings.
From Stdlib Require Export SpecFloat.

Abbreviation f64 := spec_float.

Definition fadd (x y : f64) : f64 := SFadd 53 1024 x y.
Definition fsub (x y : f64) : f64 := SFsub 53 1024 x y.
Definition fmul (x y : f64) : f64 := SFmul 53 1024 x y.
Definition fdiv (x y : f64) : f64 := SFdiv 53 1024 x y.
Definition fltb (x y : f64) : bool := SFltb x y.
Definition fleb (x y : f64) : bool := SFleb x y.
Definition feqb (x y : f64) : bool := SFeqb x y.
Definition fgtb (x y : f64) : bool := SFltb y x.

(** The float64 nearest to [m * 2^e]. *)
Definition fscale (m e : Z) : f64 := binary_normalize 53 1024 m e false.
(** [float64(n)]. *)
Definition fofZ (n : Z) : f64 := fscale n 0.

(** The float64 nearest to the rational [m / d] ([0 < d]): a decimal constant
    or literal. *)
Definition fratio (m : Z) (d : positive) : f64 :=
  match m with
  | Z0 => S754_zero false
  | Zpos p => let '(q, e, l) := SFdiv_core_binary 53 1024 (Zpos p) 0 (Zpos d) 0 in
              binary_round_aux 53 1024 false q e l
  | Zneg p => let '(q, e, l) := SFdiv_core_binary 53 1024 (Zpos p) 0 (Zpos d) 0 in
              binary_round_aux 53 1024 true q e l
  end.

Definition isNaN (x : f64) : bool := match x with S754_nan => true | _ => false end.
Definition isInf (x : f64) : bool := match x with S754_infinity _ => true | _ => false end.

(** [max(x, y)] and [min] on float64 (the Go builtins propagate NaN). *)
Definition fmax (x y : f64) : f64 :=
  match x, y with
  | S754_nan, _ | _, S754_nan => S754_nan
  | S754_zero sx, S754_zero sy => S754_zero (sx && sy)
  | _, _ => if SFltb x y then y else x
  end.

(** [math.Abs] and [math.Round] (half away from zero). *)
Definition fabs (x : f64) : f64 := SFabs x.
Definition fround (x : f64) : f64 :=
  match x with
  | S754_finite s m e =>
      if 0 <=? e then x
      else let q := (Zpos m + 2 ^ (- e - 1)) / 2 ^ (- e) in
           binary_normalize 53 1024 (if s then - q else q) 0 s
  | _ => x
  end.

(** [int64(x)]: truncation; out of range, as on amd64, the smallest int64. *)
Definition fToInt64 (x : f64) : Z :=
  match x with
  | S754_finite s m e =>
      let a := if 0 <=? e then Zpos m * 2 ^ e else Zpos m / 2 ^ (- e) in
      let v := if s then - a else a in
      if inInt64 v then v else minInt64
  | S754_zero _ => 0
  | _ => minInt64
  end.

(** [fmt.Sprintf("%.2f", x)]: the exact value rounded to two decimals, ties
    to even. *)
Definition roundDivEven (n d : Z) : Z :=
  let q := n / d in
  let r := n mod d in
  if 2 * r <? d then q else if d <? 2 * r then q + 1
  else if Z.even q then q else q + 1.
Definition format2f (x : f64) : string :=
  match x with
  | S754_nan => "NaN"
  | S754_infinity s => if s then "-Inf" else "+Inf"
  | S754_zero s => if s then "-0.00" else "0.00"
  | S754_finite s m e =>
      let c := if 0 <=? e then Zpos m * 2 ^ e * 100 else roundDivEven (Zpos m * 100) (2 ^ (- e)) in
      (if s then "-" else "") +:+ digits (c / 100) +:+ "." +:+ padZero 2 (c mod 100)
  end.

(** ** [strconv.ParseFloat(s, 64)] *)
Definition lowerAscii (c : ascii) : ascii := if isUpper c then chrZ (byteZ c + 32) else c.
Fixpoint lowerString (s : string) : string :=
  match s with EmptyString => "" | String c r => String (lowerAscii c) (lowerString r) end.

(** [underscoreOK]: [st] is '0' after a digit, '_' after an underscore, '!'
    otherwise, '^' at the start. *)
Fixpoint underscoreLoop (hex : bool) (st : ascii) (s : string) : bool :=
  match s with
  | EmptyString => negb (Ascii.eqb st "_")
  | String c r =>
      if isDigit c || (hex && inRange 97 102 (lowerAscii c)) then underscoreLoop hex "0" r
      else if Ascii.eqb c "_" then if Ascii.eqb st "0" then underscoreLoop hex "_" r else false
      else if Ascii.eqb st "_" then false else underscoreLoop hex "!" r
  end.
Definition underscoreOK (s : string) : bool :=
  match s with
  | String "0" (String c r) =>
      let l := lowerAscii c in
      if Ascii.eqb l "x" || Ascii.eqb l "b" || Ascii.eqb l "o"
      then underscoreLoop (Ascii.eqb l "x") "0" r else underscoreLoop false "^" s
  | _ => underscoreLoop false "^" s
  end.

(** Mantissa digits: value, number of digits after the dot, dot seen, a digit
    seen, underscore seen, and the rest. *)
Fixpoint readMantissa (hex : bool) (s : string) (v frac : Z) (dot any us : bool)
  : Z * Z * bool * bool * string :=
  match s with
  | EmptyString => (v, frac, any, us, "")
  | String c r =>
      if Ascii.eqb c "_" then readMantissa hex r v frac dot any true
      else if Ascii.eqb c "." then
        if dot then (v, frac, any, us, s) else readMantissa hex r v frac true any us
      else
        let b := if hex then 16 else 10 in
        let step d := readMantissa hex r (v * b + d) (if dot then frac + 1 else frac) dot true us in
        if isDigit c then step (byteZ c - 48)
        else if hex && inRange 97 102 (lowerAscii c) then step (byteZ (lowerAscii c) - 87)
        else (v, frac, any, us, s)
  end.

(** Exponent digits; the value stops growing at 10000. *)
Fixpoint readExp (s : string) (e : Z) (us : bool) : Z * bool * string :=
  match s with
  | EmptyString => (e, us, "")
  | String c r =>
      if Ascii.eqb c "_" then readExp r e true
      else if isDigit c then readExp r (if e <? 10000 then e * 10 + (byteZ c - 48) else e) us
      else (e, us, s)
  end.

Definition fscale10 (v e : Z) : f64 :=
  if 0 <=? e then fofZ (v * 10 ^ e) else fratio v (Z.to_pos (10 ^ (- e))).

Definition withSign (neg : bool) (x : f64) : f64 := if neg then SFopp x else x.

Definition checkedFloat (x : f64) : result f64 :=
  if isInf x then Err (EMsg "value out of range") else Ok x.

(** The number after its sign, from its digits to the end of the string. *)
Definition readFloat (neg : bool) (body : string) : result f64 :=
  let bad := Err (EMsg "invalid syntax") in
  let '(hex, s) :=
    match body with
    | String "0" (String c (String d r)) =>
        if Ascii.eqb (lowerAscii c) "x" then (true, String d r) else (false, body)
    | _ => (false, body)
    end in
  let '(v, frac, any, us, rest) := readMantissa hex s 0 0 false false false in
  if negb (any : bool) then bad
  else
    let finish (e : Z) (us : bool) :=
      if us && negb (underscoreOK body) then bad
      else checkedFloat (withSign neg (if hex : bool then fscale v (e - 4 * frac)
                                       else fscale10 v (e - frac))) in
    match rest with
    | EmptyString => if hex then bad else finish 0 us
    | String c r =>
        if Ascii.eqb (lowerAscii c) (if hex then "p" else "e")%char then
          let '(eneg, r1) := match r with
                             | String c1 r' => if Ascii.eqb c1 "-" then (true, r')
                                               else if Ascii.eqb c1 "+" then (false, r') else (false, r)
                             | EmptyString => (false, r)
                             end in
          match r1 with
          | String d _ =>
              if isDigit d then
                let '(e, us', rest') := readExp r1 0 us in
                if String.eqb rest' "" then finish (if eneg : bool then - e else e) us' else bad
              else bad
          | EmptyString => bad
          end
        else bad
    end.

Definition parseFloat (s : string) : result f64 :=
  let '(sign, neg, body) :=
    match s with
    | String c r => if Ascii.eqb c "-" then (true, true, r)
                    else if Ascii.eqb c "+" then (true, false, r) else (false, false, s)
    | EmptyString => (false, false, s)
    end in
  let l := lowerString body in
  if String.eqb l "inf" || String.eqb l "infinity" then Ok (S754_infinity neg)
  else if negb sign && String.eqb l "nan" then Ok S754_nan
  else readFloat neg body.

(** The quarter-core amounts: [k / 4] as a float64. *)
Definition quarter (k : Z) : f64 := fscale k (-2).
