(* ===== verification/GoTime.v ===== *)
(** * GoTime: instants and the calendar

    A [time.Time] is its instant: nanoseconds since the Unix epoch.  The zero
    [time.Time] is the first instant of year 1. *)
From S2P Require Import Prelude GoStrings.

Definition time := Z.

Definition second : Z := 1000000000.
Definition minute : Z := 60 * second.
Definition hour : Z := 60 * minute.

Definition zeroTime : time := - 62135596800 * second.
Definition isZeroTime (t : time) : bool := t =? zeroTime.
Definition after (a b : time) : bool := b <? a.
Definition before (a b : time) : bool := a <? b.

(** [t.Unix()]: whole seconds, rounded down. *)
Definition unixSeconds (t : time) : Z := t / second.

(** Year, month and day of a day number counted from 1970-01-01, in the
    proleptic Gregorian calendar: years of the shifted calendar that starts in
    March, 400-year eras of 146097 days. *)
Definition civil (days : Z) : Z * Z * Z :=
  let z := days + 719468 in
  let era := z / 146097 in
  let doe := z mod 146097 in
  let yoe := (doe - doe / 1460 + doe / 36524 - doe / 146096) / 365 in
  let doy := doe - (365 * yoe + yoe / 4 - yoe / 100) in
  let mp := (5 * doy + 2) / 153 in
  let d := doy - (153 * mp + 2) / 5 + 1 in
  let m := if mp <? 10 then mp + 3 else mp - 9 in
  (yoe + era * 400 + (if m <=? 2 then 1 else 0), m, d).

(** The year as [Format] writes it: at least four digits, sign in front. *)
Definition formatYear (y : Z) : string :=
  if y <? 0 then "-" +:+ padZero 4 (- y) else padZero 4 y.

Definition yearOf (t : time) : Z := (civil (unixSeconds t / 86400)).1.1.

(** [t.UTC().Format("20060102T150405Z")]. *)
Definition formatCompact (t : time) : string :=
  let s := unixSeconds t in
  let '(y, m, d) := civil (s / 86400) in
  let sod := s mod 86400 in
  formatYear y +:+ padZero 2 m +:+ padZero 2 d +:+ "T" +:+
  padZero 2 (sod / 3600) +:+ padZero 2 ((sod / 60) mod 60) +:+ padZero 2 (sod mod 60) +:+ "Z".

(** Month and day are in range, so each takes two digits. *)
Lemma civil_bounds days y m d : civil days = (y, m, d) -> 1 <= m <= 12 /\ 1 <= d <= 31.
Proof.
  unfold civil. set (doe := (days + 719468) mod 146097).
  assert (0 <= doe < 146097) as Hdoe by (apply Z.mod_pos_bound; lia).
  set (yoe := (doe - doe / 1460 + doe / 36524 - doe / 146096) / 365).
  set (doy := doe - (365 * yoe + yoe / 4 - yoe / 100)).
  assert (0 <= doy <= 366) as Hdoy.
  { subst doy yoe. clearbody doe. Z.div_mod_to_equations. lia. }
  clearbody doy. set (mp := (5 * doy + 2) / 153).
  assert (0 <= mp <= 11) as Hmp by (subst mp; Z.div_mod_to_equations; lia).
  assert (1 <= doy - (153 * mp + 2) / 5 + 1 <= 31) as Hd
    by (subst mp; Z.div_mod_to_equations; lia).
  destruct (mp <? 10) eqn:E; [apply Z.ltb_lt in E|apply Z.ltb_ge in E]; intros [= <- <- <-]; lia.
Qed.
