(* ===== verification/GoRFC3339.v ===== *)
(** * GoRFC3339: times as text

    [time.Time] in JSON: [MarshalJSON] writes a UTC time with the layout
    [RFC3339Nano], [UnmarshalJSON] reads [RFC3339] as [time.Parse] does.  Every
    time this program writes is in UTC, so a [time] keeps no zone. *)
From S2P Require Import Prelude GoStrings Utf8Facts GoTime.
Set Warnings "-register-all".

(** ** Writing *)

(** The fraction of a second with its trailing zeros removed: [w] digits. *)
Fixpoint fraction (w : nat) (n : Z) : string :=
  match w with
  | O => ""
  | S w' => if n mod 10 =? 0 then fraction w' (n / 10) else "." +:+ padZero w n
  end.

Definition clockText (sod : Z) : string :=
  padZero 2 (sod / 3600) +:+ ":" +:+ padZero 2 ((sod / 60) mod 60) +:+ ":" +:+ padZero 2 (sod mod 60).

Definition formatRFC3339Nano (t : time) : string :=
  let s := unixSeconds t in
  let '(y, m, d) := civil (s / 86400) in
  formatYear y +:+ "-" +:+ padZero 2 m +:+ "-" +:+ padZero 2 d +:+ "T" +:+
  clockText (s mod 86400) +:+ fraction 9 (t mod second) +:+ "Z".

(** [MarshalJSON] refuses years of more than four digits. *)
Definition timeText (t : time) : result string :=
  if (yearOf t <? 0) || (9999 <? yearOf t) then Err (EMsg "Time.MarshalJSON: year outside of range [0,9999]")
  else Ok (formatRFC3339Nano t).

(** ** The day number of a date: the inverse of [civil] *)
Definition daysOfCivil (y m d : Z) : Z :=
  let y' := if m <=? 2 then y - 1 else y in
  let era := y' / 400 in
  let yoe := y' mod 400 in
  let mp := if 2 <? m then m - 3 else m + 9 in
  let doy := (153 * mp + 2) / 5 + d - 1 in
  era * 146097 + (yoe * 365 + yoe / 4 - yoe / 100 + doy) - 719468.

Definition isLeap (y : Z) : bool := (y mod 4 =? 0) && (negb (y mod 100 =? 0) || (y mod 400 =? 0)).
Definition daysIn (y m : Z) : Z :=
  if m =? 2 then if isLeap y then 29 else 28
  else if (m =? 4) || (m =? 6) || (m =? 9) || (m =? 11) then 30 else 31.

(** ** Reading *)

(** Exactly [k] digits. *)
Definition digitsAt (k : nat) (s : string) : option (Z * string) :=
  let h := take k s in
  if Nat.eqb (String.length h) k && strForall isDigit h
  then match parseDigits h 0 with Some n => Some (n, drop k s) | None => None end
  else None.

(** One or two digits, as [Parse] reads the hour. *)
Definition digits12 (s : string) : option (Z * string) :=
  match digitsAt 2 s with Some r => Some r | None => digitsAt 1 s end.

Definition literal (c : ascii) (s : string) : option string :=
  match s with String a r => if Ascii.eqb a c then Some r else None | EmptyString => None end.

Fixpoint spanDigit (s : string) : string * string :=
  match s with
  | String c r => if isDigit c then let '(d, r') := spanDigit r in (String c d, r') else ("", s)
  | EmptyString => ("", "")
  end.

(** The nanoseconds after a point or comma followed by a digit; digits after
    the ninth are ignored. *)
Definition readFraction (s : string) : Z * string :=
  match s with
  | String c (String d _ as r) =>
      if (Ascii.eqb c "." || Ascii.eqb c ",") && isDigit d then
        let '(ds, rest) := spanDigit r in
        let h := take 9 ds in
        (default 0 (parseDigits h 0) * 10 ^ (9 - Z.of_nat (String.length h)), rest)
      else (0, s)
  | _ => (0, s)
  end.

(** [Z] or a numeric offset, in seconds, and nothing after it. *)
Definition readZone (s : string) : option Z :=
  match s with
  | String "Z" "" => Some 0
  | String c r =>
      if Ascii.eqb c "+" || Ascii.eqb c "-" then
        '(hh, r1) ← digitsAt 2 r; r2 ← literal ":" r1; '(mm, r3) ← digitsAt 2 r2;
        if (24 <? hh) || (60 <? mm) || negb (String.eqb r3 "") then None
        else let offset := hh * 3600 + mm * 60 in Some (if Ascii.eqb c "-" then - offset else offset)
      else None
  | EmptyString => None
  end.

Definition readDate (s : string) : option (Z * Z * Z * string) :=
  '(y, s) ← digitsAt 4 s; s ← literal "-" s; '(m, s) ← digitsAt 2 s; s ← literal "-" s; '(d, s) ← digitsAt 2 s;
  if (m <? 1) || (12 <? m) || (d <? 1) || (daysIn y m <? d) then None else Some (y, m, d, s).

Definition readClock (s : string) : option (Z * Z * Z * string) :=
  '(hh, s) ← digits12 s; s ← literal ":" s; '(mm, s) ← digitsAt 2 s; s ← literal ":" s; '(ss, s) ← digitsAt 2 s;
  if (23 <? hh) || (59 <? mm) || (59 <? ss) then None else Some (hh, mm, ss, s).

Definition parseRFC3339 (s : string) : option time :=
  '(y, m, d, s) ← readDate s; s ← literal "T" s; '(hh, mm, ss, s) ← readClock s;
  let '(ns, s) := readFraction s in
  offset ← readZone s;
  Some (((daysOfCivil y m d * 86400 + hh * 3600 + mm * 60 + ss) - offset) * second + ns).

(** ** The calendar: [daysOfCivil] inverts [civil] *)

(** The year of the 400-year era that day [doe] of it is in. *)
Definition eraYear (doe : Z) : Z := (doe - doe / 1460 + doe / 36524 - doe / 146096) / 365.
Definition yearStart (yoe : Z) : Z := 365 * yoe + yoe / 4 - yoe / 100.

Lemma eraYear_bounds doe :
  0 <= doe < 146097 -> 0 <= eraYear doe < 400 /\ 0 <= doe - yearStart (eraYear doe) <= 365.
Proof. intros Hd. unfold yearStart, eraYear. split; Z.div_mod_to_equations; lia. Qed.

(** Only the year before a leap year, which starts in March, has a day 365. *)
Lemma last_day_leap doe :
  0 <= doe < 146097 -> doe - yearStart (eraYear doe) = 365 -> isLeap (eraYear doe + 1) = true.
Proof.
  intros Hd He. pose proof (eraYear_bounds doe Hd) as [Hy _].
  assert (forallb (fun n => negb (eraYear (yearStart (Z.of_nat n) + 365) =? Z.of_nat n) || isLeap (Z.of_nat n + 1)) (seq 0 400) = true)
    as Hall by (vm_compute; reflexivity).
  rewrite forallb_forall in Hall. specialize (Hall (Z.to_nat (eraYear doe))).
  rewrite Z2Nat.id in Hall by lia.
  replace (yearStart (eraYear doe) + 365) with doe in Hall by lia.
  rewrite Z.eqb_refl in Hall. cbn [negb orb] in Hall. apply Hall, in_seq. lia.
Qed.

(** Months of a year that starts in March: lengths, February apart. *)
Definition monthOf (mp : Z) : Z := if mp <? 10 then mp + 3 else mp - 9.

Lemma month_day doy :
  0 <= doy <= 365 ->
  let mp := (5 * doy + 2) / 153 in
  let d := doy - (153 * mp + 2) / 5 + 1 in
  0 <= mp <= 11 /\ 1 <= d /\ (forall y, mp <> 11 -> d <= daysIn y (monthOf mp)) /\
  (mp = 11 -> d <= 28 \/ (d = 29 /\ doy = 365)).
Proof.
  intros Hd. cbv zeta.
  assert (forallb (fun n => let doy := Z.of_nat n in let mp := (5 * doy + 2) / 153 in let d := doy - (153 * mp + 2) / 5 + 1 in
    (0 <=? mp) && (mp <=? 11) && (1 <=? d) &&
    (if mp =? 11 then (d <=? 28) || ((d =? 29) && (doy =? 365))
     else negb (monthOf mp =? 2) && (d <=? if (monthOf mp =? 4) || (monthOf mp =? 6) || (monthOf mp =? 9) || (monthOf mp =? 11) then 30 else 31)))
    (seq 0 366) = true) as Hall by (vm_compute; reflexivity).
  rewrite forallb_forall in Hall. specialize (Hall (Z.to_nat doy)). rewrite Z2Nat.id in Hall by lia.
  cbv zeta in Hall. set (mp := (5 * doy + 2) / 153) in *. set (d := doy - (153 * mp + 2) / 5 + 1) in *.
  specialize (Hall ltac:(apply in_seq; lia)).
  apply andb_prop in Hall as [[[H1%Z.leb_le H2%Z.leb_le]%andb_prop H3%Z.leb_le]%andb_prop H4].
  split; [lia|]. split; [lia|]. destruct (Z.eqb_spec mp 11) as [He|Hn]; (split; [|try lia]).
  - intros y Hn. lia.
  - intros y _. apply andb_prop in H4 as [Hm%negb_true_iff Hle%Z.leb_le]. unfold daysIn. by rewrite Hm.
Qed.

Lemma isLeap_era y era : isLeap (y + era * 400) = isLeap y.
Proof.
  unfold isLeap.
  replace ((y + era * 400) mod 4) with (y mod 4) by (Z.div_mod_to_equations; lia).
  replace ((y + era * 400) mod 100) with (y mod 100) by (Z.div_mod_to_equations; lia).
  by rewrite Z.mod_add.
Qed.

Lemma civil_eq days :
  let z := days + 719468 in
  let doe := z mod 146097 in
  let doy := doe - yearStart (eraYear doe) in
  let mp := (5 * doy + 2) / 153 in
  civil days = (eraYear doe + z / 146097 * 400 + (if monthOf mp <=? 2 then 1 else 0), monthOf mp, doy - (153 * mp + 2) / 5 + 1).
Proof. done. Qed.

Lemma daysOfCivil_civil days y m d :
  civil days = (y, m, d) -> daysOfCivil y m d = days /\ 1 <= m <= 12 /\ 1 <= d <= daysIn y m.
Proof.
  rewrite civil_eq. set (z := days + 719468). set (doe := z mod 146097). set (era := z / 146097). cbv zeta.
  assert (0 <= doe < 146097) as Hdoe by (apply Z.mod_pos_bound; lia).
  assert (z = era * 146097 + doe) as Hz by (unfold era, doe; rewrite (Z.div_mod z 146097) at 1; lia).
  destruct (eraYear_bounds doe Hdoe) as [Hy Hdoy]. pose proof (last_day_leap doe Hdoe) as Hleap.
  set (yoe := eraYear doe) in *. set (doy := doe - yearStart yoe) in *.
  destruct (month_day doy Hdoy) as (Hmp&Hd1&Hmonth&Hfeb). set (mp := (5 * doy + 2) / 153) in *.
  intros [= <- <- <-]. split; [|split].
  - unfold daysOfCivil.
    assert ((if monthOf mp <=? 2 then yoe + era * 400 + (if monthOf mp <=? 2 then 1 else 0) - 1
             else yoe + era * 400 + (if monthOf mp <=? 2 then 1 else 0)) = yoe + era * 400) as ->
      by (destruct (monthOf mp <=? 2); lia).
    assert ((if 2 <? monthOf mp then monthOf mp - 3 else monthOf mp + 9) = mp) as ->
      by (unfold monthOf; destruct (Z.ltb_spec mp 10); [destruct (Z.ltb_spec 2 (mp + 3))|destruct (Z.ltb_spec 2 (mp - 9))]; lia).
    rewrite Z.div_add, Z.mod_add, (Z.div_small yoe), (Z.mod_small yoe) by lia.
    subst doy. unfold yearStart in *. lia.
  - unfold monthOf. destruct (Z.ltb_spec mp 10); lia.
  - split; [lia|]. destruct (Z.eq_dec mp 11) as [E|Hn]; [|by apply Hmonth]. rewrite E in *. unfold monthOf. cbn [Z.ltb].
    change (11 - 9) with 2. change (11 <? 10) with false. cbv iota. change (2 <=? 2) with true. cbv iota.
    unfold daysIn. rewrite Z.eqb_refl. replace (yoe + era * 400 + 1) with (yoe + 1 + era * 400) by lia. rewrite isLeap_era.
    destruct (Hfeb eq_refl) as [?|[-> H365]]; [destruct (isLeap _); lia|]. by rewrite Hleap.
Qed.

(** ** What is written reads back *)
Lemma digitsAt_pad k n rest :
  (1 <= k)%nat -> 0 <= n < 10 ^ Z.of_nat k -> digitsAt k (padZero k n +:+ rest) = Some (n, rest).
Proof.
  intros Hk Hn. destruct (padZero_spec k n Hk Hn) as [Hl Hd]. pose proof (padZero_parse k n ltac:(lia)) as Hp. unfold digitsAt.
  set (p := padZero k n) in *. clearbody p. rewrite <- Hl. by rewrite take_app, drop_app, Nat.eqb_refl, Hd, Hp.
Qed.

Lemma digitsAt_pad2 n rest : 0 <= n < 100 -> digitsAt 2 (padZero 2 n +:+ rest) = Some (n, rest).
Proof. intros Hn. apply digitsAt_pad; [lia|done]. Qed.

Lemma readDate_text y m d rest :
  0 <= y <= 9999 -> 1 <= m <= 12 -> 1 <= d <= daysIn y m ->
  readDate (formatYear y +:+ "-" +:+ padZero 2 m +:+ "-" +:+ padZero 2 d +:+ rest) = Some (y, m, d, rest).
Proof.
  intros Hy Hm Hd. unfold readDate, formatYear. rewrite (proj2 (Z.ltb_ge y 0)) by lia.
  assert (daysIn y m <= 31) by (unfold daysIn; repeat case_match; lia).
  rewrite digitsAt_pad by (simpl; lia). simpl. rewrite digitsAt_pad2 by lia. simpl.
  rewrite digitsAt_pad2 by lia. simpl. by zbool.
Qed.

Lemma readClock_text sod rest :
  0 <= sod < 86400 ->
  readClock (clockText sod +:+ rest) = Some (sod / 3600, (sod / 60) mod 60, sod mod 60, rest).
Proof.
  intros Hs. assert (0 <= sod / 3600 < 24 /\ 0 <= (sod / 60) mod 60 < 60 /\ 0 <= sod mod 60 < 60) as (?&?&?)
    by (Z.div_mod_to_equations; lia).
  unfold readClock, clockText, digits12. rewrite !app_assoc_str.
  rewrite digitsAt_pad2 by lia. simpl. rewrite digitsAt_pad2 by lia. simpl. rewrite digitsAt_pad2 by lia. simpl. by zbool.
Qed.

Lemma spanDigit_app d rest :
  strForall isDigit d = true -> spanDigit (d +:+ String "Z" rest) = (d, String "Z" rest).
Proof.
  intros Hd. induction d as [|c d IH]; [done|]. cbn [strForall] in Hd. apply andb_prop in Hd as [Hc Hd].
  cbn [String.append spanDigit]. by rewrite Hc, IH.
Qed.

Lemma take_long s n : (String.length s <= n)%nat -> take n s = s.
Proof.
  revert n. induction s as [|c s IH]; intros [|n] Hn; simpl in *; try done; try lia. by rewrite IH by lia.
Qed.

Lemma readFraction_text w n :
  (w <= 9)%nat -> 0 <= n < 10 ^ Z.of_nat w ->
  readFraction (fraction w n +:+ "Z") = (n * 10 ^ (9 - Z.of_nat w), "Z").
Proof.
  revert n. induction w as [|w IH]; intros n Hw Hn.
  - simpl in *. by replace n with 0 by lia.
  - cbn [fraction]. rewrite Nat2Z.inj_succ, Z.pow_succ_r in Hn by lia. destruct (Z.eqb_spec (n mod 10) 0) as [Hm|Hm].
    + rewrite IH by (Z.div_mod_to_equations; lia). f_equal.
      replace (9 - Z.of_nat w) with (Z.succ (9 - Z.of_nat (S w))) by lia. rewrite Z.pow_succ_r by lia.
      assert (n = 10 * (n / 10)) as H10 by (Z.div_mod_to_equations; lia). rewrite H10 at 2. ring.
    + assert (0 <= n < 10 ^ Z.of_nat (S w)) as Hn' by (rewrite Nat2Z.inj_succ, Z.pow_succ_r; lia).
      destruct (padZero_spec (S w) n ltac:(lia) Hn') as [Hl Hd].
      rewrite app_assoc_str. unfold readFraction.
      pose proof (padZero_parse (S w) n ltac:(lia)) as Hp. pose proof (spanDigit_app _ "" Hd) as Hs.
      change ("Z" : string) with (String "Z" "") in *.
      destruct (padZero (S w) n) as [|c r] eqn:E; [done|]. cbn [String.append] in *.
      cbn [strForall] in Hd. apply andb_prop in Hd as [Hc _]. rewrite Hc. cbn [andb orb Ascii.eqb Bool.eqb].
      rewrite Hs, take_long by lia. by rewrite Hp, Hl.
Qed.

(** A time with a four-digit year survives the trip through its text. *)
Lemma parse_format t : 0 <= yearOf t <= 9999 -> parseRFC3339 (formatRFC3339Nano t) = Some t.
Proof.
  intros Hy. unfold formatRFC3339Nano. unfold yearOf in Hy. set (s := unixSeconds t) in *.
  destruct (civil (s / 86400)) as [[y m] d] eqn:E. cbn [fst] in Hy. apply daysOfCivil_civil in E as (Hdays&Hm&Hd).
  unfold parseRFC3339. rewrite readDate_text by lia. simpl option_bind. cbn [literal].
  assert (0 <= s mod 86400 < 86400) as Hs by (apply Z.mod_pos_bound; lia).
  cbn [mbind option_bind]. change ("T" +:+ ?x) with (String "T" x). cbn [literal Ascii.eqb Bool.eqb mbind option_bind].
  rewrite readClock_text by done. cbn [mbind option_bind].
  assert (0 <= t mod second < 10 ^ Z.of_nat 9) as Hns by (apply Z.mod_pos_bound; done).
  rewrite readFraction_text by done. cbn [mbind option_bind readZone]. f_equal. rewrite Hdays.
  unfold s, unixSeconds. change (10 ^ (9 - Z.of_nat 9)) with 1. rewrite Z.sub_0_r, Z.mul_1_r.
  assert (s / 86400 * 86400 + (s mod 86400) / 3600 * 3600 + (s mod 86400 / 60) mod 60 * 60 + (s mod 86400) mod 60 = s) as Hsum
    by (Z.div_mod_to_equations; lia).
  unfold s, unixSeconds in Hsum. rewrite Hsum. rewrite (Z.div_mod t second) at 3 by done. lia.
Qed.

Lemma formatRFC3339_ascii t : 0 <= yearOf t <= 9999 -> strForall isAscii (formatRFC3339Nano t) = true.
Proof.
  assert (forall w n, 0 <= n -> strForall isAscii (padZero w n) = true) as Hpad.
  { intros w n Hn. unfold padZero. rewrite strForall_app. destruct (strForall_repeat isAscii "0" (w - String.length (digits n))) as [-> _]; [done|].
    eapply strForall_impl; [|by apply digits_digits]. intros c Hc%inRange_iff. apply Z.ltb_lt. lia. }
  assert (forall w n, 0 <= n -> strForall isAscii (fraction w n) = true) as Hfrac.
  { induction w as [|w IH]; intros n Hn; [done|]. cbn [fraction]. destruct (n mod 10 =? 0); [|cbn; by apply Hpad].
    apply IH, Z.div_pos; lia. }
  intros Hy. unfold formatRFC3339Nano. unfold yearOf in Hy. destruct (civil (unixSeconds t / 86400)) as [[y m] d] eqn:E.
  cbn [fst] in Hy. apply civil_bounds in E as [Hm Hd]. unfold formatYear. rewrite (proj2 (Z.ltb_ge y 0)) by lia.
  unfold clockText. assert (0 <= unixSeconds t mod 86400) by (apply Z.mod_pos_bound; lia).
  rewrite !strForall_app, !Hpad, Hfrac by (first [lia|apply Z.mod_pos_bound; done|Z.div_mod_to_equations; lia]). done.
Qed.
