(* ===== verification/GoSha256.v ===== *)
(** * GoSha256: [crypto/sha256] and [encoding/hex]

    The digest of FIPS 180-4 on 32-bit words held in [Z], as the Go package
    computes it, and the lower-case hexadecimal text of a byte string. *)
From S2P Require Import Prelude GoStrings.

Definition w32 (x : Z) : Z := Z.land x (2 ^ 32 - 1).
Definition rotr (n x : Z) : Z := Z.lor (Z.shiftr x n) (w32 (Z.shiftl x (32 - n))).

Definition bigSigma0 (x : Z) : Z := Z.lxor (rotr 2 x) (Z.lxor (rotr 13 x) (rotr 22 x)).
Definition bigSigma1 (x : Z) : Z := Z.lxor (rotr 6 x) (Z.lxor (rotr 11 x) (rotr 25 x)).
Definition sigma0 (x : Z) : Z := Z.lxor (rotr 7 x) (Z.lxor (rotr 18 x) (Z.shiftr x 3)).
Definition sigma1 (x : Z) : Z := Z.lxor (rotr 17 x) (Z.lxor (rotr 19 x) (Z.shiftr x 10)).
Definition choose (x y z : Z) : Z := Z.lxor (Z.land x y) (Z.land (Z.lxor x (2 ^ 32 - 1)) z).
Definition majority (x y z : Z) : Z := Z.lxor (Z.land x y) (Z.lxor (Z.land x z) (Z.land y z)).

(** The first 32 bits of the fractional parts of the cube roots of the first 64
    primes, and of the square roots of the first eight. *)
Definition roundConstants : list Z :=
  [1116352408; 1899447441; 3049323471; 3921009573; 961987163; 1508970993; 2453635748; 2870763221;
   3624381080; 310598401; 607225278; 1426881987; 1925078388; 2162078206; 2614888103; 3248222580;
   3835390401; 4022224774; 264347078; 604807628; 770255983; 1249150122; 1555081692; 1996064986;
   2554220882; 2821834349; 2952996808; 3210313671; 3336571891; 3584528711; 113926993; 338241895;
   666307205; 773529912; 1294757372; 1396182291; 1695183700; 1986661051; 2177026350; 2456956037;
   2730485921; 2820302411; 3259730800; 3345764771; 3516065817; 3600352804; 4094571909; 275423344;
   430227734; 506948616; 659060556; 883997877; 958139571; 1322822218; 1537002063; 1747873779;
   1955562222; 2024104815; 2227730452; 2361852424; 2428436474; 2756734187; 3204031479; 3329325298].

Record digest := Digest { d_a : Z; d_b : Z; d_c : Z; d_d : Z; d_e : Z; d_f : Z; d_g : Z; d_h : Z }.

Definition initialDigest : digest :=
  Digest 1779033703 3144134277 1013904242 2773480762 1359893119 2600822924 528734635 1541459225.

(** ** Padding: 0x80, zeros, the bit length in eight bytes *)
Fixpoint bigEndian (n : nat) (x : Z) : list Z :=
  match n with O => [] | S n' => (bigEndian n' (Z.shiftr x 8) ++ [Z.land x 255])%list end.

Definition padded (s : string) : list Z :=
  let bytes := map byteZ (String.list_ascii_of_string s) in
  let zeros := (55 - lenZ s) mod 64 in
  (bytes ++ 128 :: List.repeat 0 (Z.to_nat zeros) ++ bigEndian 8 (8 * lenZ s))%list.

(** Big-endian 32-bit words. *)
Fixpoint words (l : list Z) : list Z :=
  match l with
  | b0 :: b1 :: b2 :: b3 :: l' => (b0 * 2 ^ 24 + b1 * 2 ^ 16 + b2 * 2 ^ 8 + b3) :: words l'
  | _ => []
  end.

(** ** One block *)

(** The message schedule, newest word first: each of the [n] new words is made
    from those 2, 7, 15 and 16 places before it. *)
Fixpoint schedule (n : nat) (w : list Z) : list Z :=
  match n with
  | O => w
  | S n' =>
      let at_ i := nth i w 0 in
      schedule n' (w32 (sigma1 (at_ 1%nat) + at_ 6%nat + sigma0 (at_ 14%nat) + at_ 15%nat) :: w)
  end.

Definition round (s : digest) (kw : Z * Z) : digest :=
  let t1 := d_h s + bigSigma1 (d_e s) + choose (d_e s) (d_f s) (d_g s) + kw.1 + kw.2 in
  let t2 := bigSigma0 (d_a s) + majority (d_a s) (d_b s) (d_c s) in
  Digest (w32 (t1 + t2)) (d_a s) (d_b s) (d_c s) (w32 (d_d s + t1)) (d_e s) (d_f s) (d_g s).

Definition addDigest (x y : digest) : digest :=
  Digest (w32 (d_a x + d_a y)) (w32 (d_b x + d_b y)) (w32 (d_c x + d_c y)) (w32 (d_d x + d_d y))
         (w32 (d_e x + d_e y)) (w32 (d_f x + d_f y)) (w32 (d_g x + d_g y)) (w32 (d_h x + d_h y)).

Definition block (s : digest) (w : list Z) : digest :=
  addDigest s (foldl round s (combine roundConstants (rev (schedule 48 (rev w))))).

Fixpoint blocks (fuel : nat) (s : digest) (w : list Z) : digest :=
  match fuel, w with
  | S f, _ :: _ => blocks f (block s (firstn 16 w)) (skipn 16 w)
  | _, _ => s
  end.

Definition digestWords (s : digest) : list Z := [d_a s; d_b s; d_c s; d_d s; d_e s; d_f s; d_g s; d_h s].

(** [sha256.Sum256], as a string of 32 bytes; a message of [n] words has fewer
    than [n] blocks. *)
Definition Sum256 (s : string) : string :=
  let w := words (padded s) in
  String.string_of_list_ascii (map chrZ
    (flat_map (bigEndian 4) (digestWords (blocks (length w) initialDigest w)))).

(** The digests of the standard's examples. *)
Example Sum256_empty :
  hexEncode (Sum256 "") = "e3b0c44298fc1c149afbf4c8996fb92427ae41e4649b934ca495991b7852b855".
Proof. vm_compute. reflexivity. Qed.
Example Sum256_abc :
  hexEncode (Sum256 "abc") = "ba7816bf8f01cfea414140de5dae2223b00361a396177a9cb410ff61f20015ad".
Proof. vm_compute. reflexivity. Qed.
Example Sum256_two_blocks :
  hexEncode (Sum256 "abcdbcdecdefdefgefghfghighijhijkijkljklmklmnlmnomnopnopq") =
  "248d6a61d20638b8e5c026930c3e6039a33ce45964ff2167f6ecedd419db06c1".
Proof. vm_compute. reflexivity. Qed.

(** ** The shape of a digest *)
Lemma bigEndian_length n x : length (bigEndian n x) = n.
Proof. revert x. induction n as [|n IH]; intros x; simpl; [done|]. rewrite length_app, IH. simpl. lia. Qed.

Lemma length_string_of l : String.length (String.string_of_list_ascii l) = length l.
Proof. induction l as [|c l IH]; simpl; [done|]. by rewrite IH. Qed.

Lemma Sum256_length s : String.length (Sum256 s) = 32%nat.
Proof. reflexivity. Qed.
