(* ===== verification/GoBase64.v ===== *)
(** * GoBase64: [encoding/base64]

    [StdEncoding] and [RawStdEncoding] as the program uses them, and the round
    trip of the latter. *)
From S2P Require Import Prelude GoStrings.

Definition alphabet : string := "ABCDEFGHIJKLMNOPQRSTUVWXYZabcdefghijklmnopqrstuvwxyz0123456789+/".

Definition encodeChar (n : Z) : ascii := default "A"%char (String.get (Z.to_nat n) alphabet).

Fixpoint indexOf (c : ascii) (s : string) (i : Z) : option Z :=
  match s with
  | EmptyString => None
  | String d r => if Ascii.eqb c d then Some i else indexOf c r (i + 1)
  end.
Definition decodeChar (c : ascii) : option Z := indexOf c alphabet 0.

(** [EncodeToString]; [pad] is what completes a final group of four. *)
Fixpoint encode64 (pad : string) (s : string) : string :=
  match s with
  | String a (String b (String c r)) =>
      let x := byteZ a in let y := byteZ b in let z := byteZ c in
      String (encodeChar (x / 4)) (String (encodeChar (x mod 4 * 16 + y / 16))
        (String (encodeChar (y mod 16 * 4 + z / 64)) (String (encodeChar (z mod 64)) (encode64 pad r))))
  | String a (String b EmptyString) =>
      let x := byteZ a in let y := byteZ b in
      String (encodeChar (x / 4)) (String (encodeChar (x mod 4 * 16 + y / 16))
        (String (encodeChar (y mod 16 * 4)) pad))
  | String a EmptyString =>
      let x := byteZ a in
      String (encodeChar (x / 4)) (String (encodeChar (x mod 4 * 16)) (pad +:+ pad))
  | EmptyString => ""
  end.

Definition StdEncode (s : string) : string := encode64 "=" s.
Definition RawStdEncode (s : string) : string := encode64 "" s.

(** [RawStdEncoding.DecodeString] after it dropped line ends; trailing bits of
    the last group are ignored, as Go's encodings that are not strict do. *)
Fixpoint decode64 (s : string) : option string :=
  match s with
  | EmptyString => Some ""
  | String c0 (String c1 r) =>
      match decodeChar c0, decodeChar c1 with
      | Some v0, Some v1 =>
          let a := chrZ (v0 * 4 + v1 / 16) in
          match r with
          | EmptyString => Some (String a "")
          | String c2 r =>
              match decodeChar c2 with
              | None => None
              | Some v2 =>
                  let b := chrZ (v1 mod 16 * 16 + v2 / 4) in
                  match r with
                  | EmptyString => Some (String a (String b ""))
                  | String c3 r =>
                      match decodeChar c3, decode64 r with
                      | Some v3, Some t => Some (String a (String b (String (chrZ (v2 mod 4 * 64 + v3)) t)))
                      | _, _ => None
                      end
                  end
              end
          end
      | _, _ => None
      end
  | _ => None
  end.

Definition notLineEnd (c : ascii) : bool := negb (Ascii.eqb c (chrZ 10) || Ascii.eqb c (chrZ 13)).
Fixpoint dropLineEnds (s : string) : string :=
  match s with
  | EmptyString => ""
  | String c r => if notLineEnd c then String c (dropLineEnds r) else dropLineEnds r
  end.

Definition RawStdDecode (s : string) : option string := decode64 (dropLineEnds s).

(** [StdEncoding.DecodeString]: groups of four, the last one padded. *)
Fixpoint decodePadded (s : string) : option string :=
  match s with
  | EmptyString => Some ""
  | String c0 (String c1 (String c2 (String c3 r))) =>
      if Ascii.eqb c3 "=" then
        if String.eqb r "" then
          if Ascii.eqb c2 "=" then decode64 (String c0 (String c1 "")) else decode64 (String c0 (String c1 (String c2 "")))
        else None
      else match decode64 (String c0 (String c1 (String c2 (String c3 "")))), decodePadded r with
           | Some h, Some t => Some (h +:+ t)
           | _, _ => None
           end
  | _ => None
  end.

Definition StdDecode (s : string) : option string := decodePadded (dropLineEnds s).

(** ** The round trip *)
Lemma encodeChar_facts n :
  0 <= n < 64 -> decodeChar (encodeChar n) = Some n /\ notLineEnd (encodeChar n) = true.
Proof.
  intros Hn. assert (forallb (fun i => bool_decide (decodeChar (encodeChar (Z.of_nat i)) = Some (Z.of_nat i)) &&
    notLineEnd (encodeChar (Z.of_nat i))) (seq 0 64) = true) as Hall by (vm_compute; reflexivity).
  rewrite forallb_forall in Hall. specialize (Hall (Z.to_nat n)). rewrite Z2Nat.id in Hall by lia.
  destruct (andb_prop _ _ (Hall ltac:(apply in_seq; lia))) as [H1 H2]. by apply bool_decide_eq_true in H1.
Qed.

Lemma decode_encodeChar n : 0 <= n < 64 -> decodeChar (encodeChar n) = Some n.
Proof. apply encodeChar_facts. Qed.
Lemma notLineEnd_encodeChar n : 0 <= n < 64 -> notLineEnd (encodeChar n) = true.
Proof. apply encodeChar_facts. Qed.

(** The four sextets of three bytes and the bytes they give back. *)
Lemma sextets x y z :
  0 <= x < 256 -> 0 <= y < 256 -> 0 <= z < 256 ->
  (0 <= x / 4 < 64 /\ 0 <= x mod 4 * 16 + y / 16 < 64 /\ 0 <= y mod 16 * 4 + z / 64 < 64 /\ 0 <= z mod 64 < 64) /\
  x / 4 * 4 + (x mod 4 * 16 + y / 16) / 16 = x /\
  (x mod 4 * 16 + y / 16) mod 16 * 16 + (y mod 16 * 4 + z / 64) / 4 = y /\
  (y mod 16 * 4 + z / 64) mod 4 * 64 + z mod 64 = z.
Proof. intros. Z.to_euclidean_division_equations. lia. Qed.

Lemma length_induction (P : string -> Prop) :
  P "" -> (forall a, P (String a "")) -> (forall a b, P (String a (String b ""))) ->
  (forall a b c r, P r -> P (String a (String b (String c r)))) -> forall s, P s.
Proof.
  intros H0 H1 H2 H3 s. remember (String.length s) as n eqn:E. revert s E.
  induction n as [n IH] using lt_wf_ind. intros [|a [|b [|c r]]] E; auto.
  apply H3. eapply IH; [|reflexivity]. simpl in E. lia.
Qed.

Lemma dropLineEnds_encode s : dropLineEnds (RawStdEncode s) = RawStdEncode s.
Proof.
  unfold RawStdEncode. induction s as [|a|a b|a b c r IH] using length_induction; cbn [encode64]; [done|..].
  - pose proof (byteZ_range a). destruct (sextets (byteZ a) 0 0) as [(?&?&_)_]; [lia..|].
    cbn [dropLineEnds]. rewrite !notLineEnd_encodeChar by (rewrite ?Z.div_0_l, ?Z.add_0_r in *; lia). done.
  - pose proof (byteZ_range a). pose proof (byteZ_range b).
    destruct (sextets (byteZ a) (byteZ b) 0) as [(?&?&?&_)_]; [lia..|].
    cbn [dropLineEnds]. rewrite !notLineEnd_encodeChar by (rewrite ?Z.div_0_l, ?Z.add_0_r in *; lia). done.
  - pose proof (byteZ_range a). pose proof (byteZ_range b). pose proof (byteZ_range c).
    destruct (sextets (byteZ a) (byteZ b) (byteZ c)) as [(?&?&?&?)_]; [lia..|].
    cbn [dropLineEnds]. rewrite !notLineEnd_encodeChar by lia. by rewrite IH.
Qed.

Lemma RawStd_roundtrip s : RawStdDecode (RawStdEncode s) = Some s.
Proof.
  unfold RawStdDecode. rewrite dropLineEnds_encode. unfold RawStdEncode.
  induction s as [|a|a b|a b c r IH] using length_induction; cbn [encode64]; [done|..].
  - pose proof (byteZ_range a). destruct (sextets (byteZ a) 0 0) as [(?&?&_)(Ha&_)]; [lia..|].
    rewrite Z.div_0_l, Z.add_0_r in * by lia. change ("" +:+ "") with "". cbn [decode64].
    rewrite !decode_encodeChar by lia. by rewrite Ha, chrZ_byteZ.
  - pose proof (byteZ_range a). pose proof (byteZ_range b).
    destruct (sextets (byteZ a) (byteZ b) 0) as [(?&?&?&_)(Ha&Hb&_)]; [lia..|].
    rewrite Z.div_0_l, Z.add_0_r in * by lia. cbn [decode64].
    rewrite !decode_encodeChar by lia. by rewrite Ha, Hb, !chrZ_byteZ.
  - pose proof (byteZ_range a). pose proof (byteZ_range b). pose proof (byteZ_range c).
    destruct (sextets (byteZ a) (byteZ b) (byteZ c)) as [(?&?&?&?)(Ha&Hb&Hc)]; [lia..|]. cbn [decode64].
    rewrite !decode_encodeChar by lia. by rewrite IH, Ha, Hb, Hc, !chrZ_byteZ.
Qed.

Lemma encodeChar_not_pad n : 0 <= n < 64 -> Ascii.eqb (encodeChar n) "=" = false.
Proof.
  intros Hn. pose proof (decode_encodeChar n Hn) as Hd. apply Ascii.eqb_neq. intros He. by rewrite He in Hd.
Qed.

Lemma dropLineEnds_std s : dropLineEnds (StdEncode s) = StdEncode s.
Proof.
  unfold StdEncode. induction s as [|a|a b|a b c r IH] using length_induction; cbn [encode64]; [done|..].
  - pose proof (byteZ_range a). destruct (sextets (byteZ a) 0 0) as [(?&?&_)_]; [lia..|].
    cbn [dropLineEnds]. rewrite !notLineEnd_encodeChar by (rewrite ?Z.div_0_l, ?Z.add_0_r in *; lia). done.
  - pose proof (byteZ_range a). pose proof (byteZ_range b).
    destruct (sextets (byteZ a) (byteZ b) 0) as [(?&?&?&_)_]; [lia..|].
    cbn [dropLineEnds]. rewrite !notLineEnd_encodeChar by (rewrite ?Z.div_0_l, ?Z.add_0_r in *; lia). done.
  - pose proof (byteZ_range a). pose proof (byteZ_range b). pose proof (byteZ_range c).
    destruct (sextets (byteZ a) (byteZ b) (byteZ c)) as [(?&?&?&?)_]; [lia..|].
    cbn [dropLineEnds]. rewrite !notLineEnd_encodeChar by lia. by rewrite IH.
Qed.

Lemma Std_roundtrip s : StdDecode (StdEncode s) = Some s.
Proof.
  unfold StdDecode. rewrite dropLineEnds_std. unfold StdEncode.
  induction s as [|a|a b|a b c r IH] using length_induction; cbn [encode64]; [done|..].
  - pose proof (byteZ_range a). destruct (sextets (byteZ a) 0 0) as [(?&?&_)(Ha&_)]; [lia..|].
    rewrite Z.div_0_l, Z.add_0_r in * by lia. change ("=" +:+ "=") with "==". cbn -[decodeChar encodeChar].
    rewrite !decode_encodeChar by lia. by rewrite Ha, chrZ_byteZ.
  - pose proof (byteZ_range a). pose proof (byteZ_range b).
    destruct (sextets (byteZ a) (byteZ b) 0) as [(?&?&?&_)(Ha&Hb&_)]; [lia..|].
    rewrite Z.div_0_l, Z.add_0_r in * by lia. cbn -[decodeChar encodeChar Ascii.eqb]. rewrite encodeChar_not_pad by lia.
    change (Ascii.eqb "=" "=") with true. cbv iota.
    rewrite !decode_encodeChar by lia. by rewrite Ha, Hb, !chrZ_byteZ.
  - pose proof (byteZ_range a). pose proof (byteZ_range b). pose proof (byteZ_range c).
    destruct (sextets (byteZ a) (byteZ b) (byteZ c)) as [(?&?&?&?)(Ha&Hb&Hc)]; [lia..|]. cbn [decodePadded].
    rewrite encodeChar_not_pad by lia. cbn [decode64]. rewrite !decode_encodeChar by lia. by rewrite IH, Ha, Hb, Hc, !chrZ_byteZ.
Qed.

(** Base64 text is ASCII. *)
Lemma encodeChar_ascii n : 0 <= n < 64 -> isAscii (encodeChar n) = true.
Proof.
  intros Hn. assert (forallb (fun i => isAscii (encodeChar (Z.of_nat i))) (seq 0 64) = true) as Hall by (vm_compute; reflexivity).
  rewrite forallb_forall in Hall. rewrite <- (Z2Nat.id n) by lia. apply Hall, in_seq. lia.
Qed.

Lemma encode64_chars (p : ascii -> bool) pad s :
  (forall n, 0 <= n < 64 -> p (encodeChar n) = true) -> strForall p pad = true -> strForall p (encode64 pad s) = true.
Proof.
  intros Hc Hp. induction s as [|a|a b|a b c r IH] using length_induction; cbn [encode64 strForall]; [done|..].
  - pose proof (byteZ_range a). destruct (sextets (byteZ a) 0 0) as [(?&?&_)_]; [lia..|].
    rewrite Z.div_0_l, Z.add_0_r in * by lia. by rewrite !Hc, strForall_app, Hp by lia.
  - pose proof (byteZ_range a). pose proof (byteZ_range b). destruct (sextets (byteZ a) (byteZ b) 0) as [(?&?&?&_)_]; [lia..|].
    rewrite Z.div_0_l, Z.add_0_r in * by lia. by rewrite !Hc by lia.
  - pose proof (byteZ_range a). pose proof (byteZ_range b). pose proof (byteZ_range c).
    destruct (sextets (byteZ a) (byteZ b) (byteZ c)) as [(?&?&?&?)_]; [lia..|]. rewrite !Hc by lia. exact IH.
Qed.

Lemma encode64_ascii pad s : strForall isAscii pad = true -> strForall isAscii (encode64 pad s) = true.
Proof. apply encode64_chars, encodeChar_ascii. Qed.

Example StdEncode_padding : map StdEncode ["f"; "fo"; "foo"; "foob"] = ["Zg=="; "Zm8="; "Zm9v"; "Zm9vYg=="].
Proof. reflexivity. Qed.
