(* ===== verification/GoAes.v ===== *)
(** * GoAes: [crypto/aes] and [crypto/cipher]'s GCM

    AES-256 (FIPS 197) on bytes held in [Z], the counter mode and the GHASH
    authenticator of NIST SP 800-38D, as [cipher.NewGCM] combines them with a
    twelve-byte nonce; and the fact the settings rely on, that [Open] undoes
    [Seal]. *)
From S2P Require Import Prelude GoStrings GoSha256.

(** ** The block cipher *)
Definition sboxTable : list Z :=
  [99; 124; 119; 123; 242; 107; 111; 197; 48; 1; 103; 43; 254; 215; 171; 118; 202; 130; 201; 125;
   250; 89; 71; 240; 173; 212; 162; 175; 156; 164; 114; 192; 183; 253; 147; 38; 54; 63; 247; 204;
   52; 165; 229; 241; 113; 216; 49; 21; 4; 199; 35; 195; 24; 150; 5; 154; 7; 18; 128; 226;
   235; 39; 178; 117; 9; 131; 44; 26; 27; 110; 90; 160; 82; 59; 214; 179; 41; 227; 47; 132;
   83; 209; 0; 237; 32; 252; 177; 91; 106; 203; 190; 57; 74; 76; 88; 207; 208; 239; 170; 251;
   67; 77; 51; 133; 69; 249; 2; 127; 80; 60; 159; 168; 81; 163; 64; 143; 146; 157; 56; 245;
   188; 182; 218; 33; 16; 255; 243; 210; 205; 12; 19; 236; 95; 151; 68; 23; 196; 167; 126; 61;
   100; 93; 25; 115; 96; 129; 79; 220; 34; 42; 144; 136; 70; 238; 184; 20; 222; 94; 11; 219;
   224; 50; 58; 10; 73; 6; 36; 92; 194; 211; 172; 98; 145; 149; 228; 121; 231; 200; 55; 109;
   141; 213; 78; 169; 108; 86; 244; 234; 101; 122; 174; 8; 186; 120; 37; 46; 28; 166; 180; 198;
   232; 221; 116; 31; 75; 189; 139; 138; 112; 62; 181; 102; 72; 3; 246; 14; 97; 53; 87; 185;
   134; 193; 29; 158; 225; 248; 152; 17; 105; 217; 142; 148; 155; 30; 135; 233; 206; 85; 40; 223;
   140; 161; 137; 13; 191; 230; 66; 104; 65; 153; 45; 15; 176; 84; 187; 22].

Definition sbox (b : Z) : Z := nth (Z.to_nat b) sboxTable 0.
Definition xtime (b : Z) : Z :=
  let d := 2 * b in if 256 <=? d then Z.lxor d 283 else d.

Definition xorBytes (a b : list Z) : list Z := zip_with Z.lxor a b.

(** A word is four bytes.  Word [i] of the key schedule from the eight words
    before it, newest first. *)
Definition rotWord (w : list Z) : list Z := match w with b :: r => (r ++ [b])%list | [] => [] end.

Definition rcon (i : Z) : Z := Nat.iter (Z.to_nat (i - 1)) xtime 1.

Definition nextWord (i : Z) (ws : list (list Z)) : list Z :=
  let previous := nth 0 ws [] in
  let temp :=
    if i mod 8 =? 0 then
      match map sbox (rotWord previous) with
      | b :: r => Z.lxor b (rcon (i / 8)) :: r
      | [] => []
      end
    else if i mod 8 =? 4 then map sbox previous else previous in
  xorBytes (nth 7 ws []) temp.

Fixpoint expand (n : nat) (i : Z) (ws : list (list Z)) : list (list Z) :=
  match n with O => ws | S n' => expand n' (i + 1) (nextWord i ws :: ws) end.

Fixpoint chunk {A} (n : nat) (fuel : nat) (l : list A) : list (list A) :=
  match fuel, l with
  | S f, _ :: _ => firstn n l :: chunk n f (skipn n l)
  | _, _ => []
  end.

(** The fifteen round keys of a key of 32 bytes. *)
Definition roundKeys (key : list Z) : list (list Z) :=
  let ws := rev (expand 52 8 (rev (chunk 4 32 key))) in
  map (@List.concat Z) (chunk 4 60 ws).

(** The state is its sixteen bytes, column by column. *)
Definition shiftIndices : list nat := [0; 5; 10; 15; 4; 9; 14; 3; 8; 13; 2; 7; 12; 1; 6; 11]%nat.
Definition shiftRows (s : list Z) : list Z := map (fun i => nth i s 0) shiftIndices.

Definition mixColumn (c : list Z) : list Z :=
  match c with
  | [a; b; c; d] =>
      let mix a b c d := Z.lxor (xtime a) (Z.lxor (Z.lxor (xtime b) b) (Z.lxor c d)) in
      [mix a b c d; mix b c d a; mix c d a b; mix d a b c]
  | _ => c
  end.
Definition mixColumns (s : list Z) : list Z := flat_map mixColumn (chunk 4 16 s).

Fixpoint rounds (s : list Z) (keys : list (list Z)) : list Z :=
  match keys with
  | [] => s
  | [k] => xorBytes (shiftRows (map sbox s)) k
  | k :: keys' => rounds (xorBytes (mixColumns (shiftRows (map sbox s))) k) keys'
  end.

Definition encryptBlock (keys : list (list Z)) (s : list Z) : list Z :=
  match keys with
  | k :: keys' => rounds (xorBytes s k) keys'
  | [] => s
  end.

(** ** Bytes and strings *)
Definition bytesOf (s : string) : list Z := map byteZ (String.list_ascii_of_string s).
Definition ofBytes (l : list Z) : string := String.string_of_list_ascii (map chrZ l).

Definition ofBigEndian (l : list Z) : Z := foldl (fun acc b => acc * 256 + b) 0 l.

(** ** GHASH *)
Definition ghashR : Z := Z.shiftl 225 120.

(** One bit, most significant first: the accumulator and the shifted factor. *)
Definition ghashBit (x : Z) (st : Z * Z) (i : nat) : Z * Z :=
  let '(z, v) := st in
  (if Z.testbit x (127 - Z.of_nat i) then Z.lxor z v else z,
   if Z.testbit v 0 then Z.lxor (Z.shiftr v 1) ghashR else Z.shiftr v 1).
Definition ghashMul (x y : Z) : Z := (foldl (ghashBit x) (0, y) (seq 0 128)).1.

Definition padded16 (l : list Z) : list Z :=
  (l ++ List.repeat 0 (Z.to_nat ((- Z.of_nat (length l)) mod 16)))%list.

Definition ghash (h : Z) (l : list Z) : Z :=
  foldl (fun y b => ghashMul (Z.lxor y (ofBigEndian b)) h) 0 (chunk 16 (length l) l).

(** ** GCM *)
Section gcm.
Variable key : string.

Definition keys : list (list Z) := roundKeys (bytesOf key).
Definition authKey : Z := ofBigEndian (encryptBlock keys (List.repeat 0 16)).

(** The block of counter [i] under a nonce of twelve bytes. *)
Definition counterBlock (nonce : string) (i : Z) : list Z :=
  encryptBlock keys (bytesOf nonce ++ bigEndian 4 i)%list.

(** The key stream for [n] blocks, from counter 2 on. *)
Definition keyStream (nonce : string) (n : nat) : string :=
  ofBytes (flat_map (fun i => counterBlock nonce (Z.of_nat i)) (seq 2 n)).

Definition xorAscii (a b : ascii) : ascii := chrZ (Z.lxor (byteZ a) (byteZ b)).
Fixpoint xorString (s k : string) : string :=
  match s, k with
  | String a s', String b k' => String (xorAscii a b) (xorString s' k')
  | _, _ => s
  end.

Definition crypt (nonce s : string) : string :=
  xorString s (keyStream nonce (S (String.length s / 16))).

Definition tag (nonce sealed additional : string) : string :=
  let lengths := (bigEndian 8 (8 * lenZ additional) ++ bigEndian 8 (8 * lenZ sealed))%list in
  let s := ghash authKey (padded16 (bytesOf additional) ++ padded16 (bytesOf sealed) ++ lengths)%list in
  ofBytes (firstn 16 (zip_with Z.lxor (bigEndian 16 s) (counterBlock nonce 1 ++ List.repeat 0 16)%list)).

Definition Seal (nonce plain additional : string) : string :=
  let sealed := crypt nonce plain in
  sealed +:+ tag nonce sealed additional.

Definition Open (nonce sealed additional : string) : option string :=
  let n := (String.length sealed - 16)%nat in
  if lenZ sealed <? 16 then None
  else
    let text := GoStrings.take n sealed in
    if String.eqb (drop n sealed) (tag nonce text additional) then Some (crypt nonce text) else None.
End gcm.

(** The block of FIPS 197 and cases 13, 14 and 16 of the GCM specification. *)
Definition testKey : string := ofBytes (map Z.of_nat (seq 0 32)).
Example aes256_block :
  hexEncode (ofBytes (encryptBlock (keys testKey) (map (fun i => Z.of_nat i * 17) (seq 0 16)))) =
  "8ea2b7ca516745bfeafc49904b496089".
Proof. vm_compute. reflexivity. Qed.
Example gcm_case13 :
  hexEncode (Seal (ofBytes (List.repeat 0 32)) (ofBytes (List.repeat 0 12)) "" "") = "530f8afbc74536b9a963b4f1c4cb738b".
Proof. vm_compute. reflexivity. Qed.
Example gcm_case14 :
  hexEncode (Seal (ofBytes (List.repeat 0 32)) (ofBytes (List.repeat 0 12)) (ofBytes (List.repeat 0 16)) "") =
  "cea7403d4d606b6e074ec5d3baf39d18d0d1c8a799996bf0265b98b5d48ab919".
Proof. vm_compute. reflexivity. Qed.
Definition case16Key : string :=
  ofBytes [254; 255; 233; 146; 134; 101; 115; 28; 109; 106; 143; 148; 103; 48; 131; 8;
           254; 255; 233; 146; 134; 101; 115; 28; 109; 106; 143; 148; 103; 48; 131; 8].
Example gcm_case16 :
  hexEncode (Seal case16Key (ofBytes [202; 254; 186; 190; 250; 206; 219; 173; 222; 202; 248; 136])
    (ofBytes [217; 49; 50; 37; 248; 132; 6; 229; 165; 89; 9; 197; 175; 245; 38; 154; 134; 167; 169; 83; 21; 52; 247; 218; 46;
              76; 48; 61; 138; 49; 138; 114; 28; 60; 12; 149; 149; 104; 9; 83; 47; 207; 14; 36; 73; 166; 181; 37; 177; 106;
              237; 245; 170; 13; 230; 87; 186; 99; 123; 57])
    (ofBytes [254; 237; 250; 206; 222; 173; 190; 239; 254; 237; 250; 206; 222; 173; 190; 239; 171; 173; 218; 210])) =
  "522dc1f099567d07f47f37a32a84427d643a8cdcbfe5c0c97598a2bd2555d1aa8cb08e48590dbb3da7b08b1056828838c5f61e6393ba7a0abcc9f66276fc6ece0f4e1768cddf8853bb2d551b".
Proof. vm_compute. reflexivity. Qed.

(** ** [Open] undoes [Seal] *)
Lemma lxor_byte a b : 0 <= a < 256 -> 0 <= b < 256 -> 0 <= Z.lxor a b < 256.
Proof.
  intros Ha Hb. split; [apply Z.lxor_nonneg; lia|]. destruct (Z.eq_dec (Z.lxor a b) 0) as [->|]; [lia|].
  apply (Z.log2_lt_pow2 _ 8); [assert (0 <= Z.lxor a b) by (apply Z.lxor_nonneg; lia); lia|].
  eapply Z.le_lt_trans; [apply Z.log2_lxor; lia|].
  apply Z.max_lub_lt; [destruct (Z.eq_dec a 0) as [->|]|destruct (Z.eq_dec b 0) as [->|]]; try done;
    apply Z.log2_lt_pow2; lia.
Qed.

Lemma xorAscii_involutive a b : xorAscii (xorAscii a b) b = a.
Proof.
  unfold xorAscii. rewrite byteZ_chrZ by (apply lxor_byte; apply byteZ_range).
  by rewrite Z.lxor_assoc, Z.lxor_nilpotent, Z.lxor_0_r, chrZ_byteZ.
Qed.

Lemma xorString_involutive s k : xorString (xorString s k) k = s.
Proof. revert k. induction s as [|a s IH]; intros [|b k]; simpl; [done..|]. by rewrite xorAscii_involutive, IH. Qed.

Lemma xorString_length s k : String.length (xorString s k) = String.length s.
Proof. revert k. induction s as [|a s IH]; intros [|b k]; simpl; [done..|]. by rewrite IH. Qed.

Lemma crypt_involutive key nonce s : crypt key nonce (crypt key nonce s) = s.
Proof. unfold crypt. rewrite xorString_length. apply xorString_involutive. Qed.

Lemma ofBytes_length l : String.length (ofBytes l) = length l.
Proof. unfold ofBytes. induction l as [|b l IH]; [done|]. cbn [map]. simpl. by rewrite IH. Qed.

Lemma tag_length key nonce sealed additional : String.length (tag key nonce sealed additional) = 16%nat.
Proof.
  unfold tag. rewrite ofBytes_length, length_firstn, length_zip_with, bigEndian_length, length_app.
  rewrite List.repeat_length. lia.
Qed.

Lemma take_app_str s t : GoStrings.take (String.length s) (s +:+ t) = s.
Proof. induction s as [|c s IH]; simpl; [by destruct t|]. by rewrite IH. Qed.

Lemma Open_Seal key nonce plain additional : Open key nonce (Seal key nonce plain additional) additional = Some plain.
Proof.
  unfold Open, Seal. set (c := crypt key nonce plain).
  rewrite length_app_str, tag_length, Nat.add_sub, take_app_str, drop_app, String.eqb_refl.
  rewrite (proj2 (Z.ltb_ge _ _)).
  - unfold c. by rewrite crypt_involutive.
  - unfold lenZ. rewrite length_app_str, tag_length. lia.
Qed.
