(* ===== verification/Effects.v ===== *)
(** * Effects: programs with observable operations

    A Go function that touches the outside world is a [prog]: a tree of
    operations with a continuation for each answer.  [run] executes it
    against a world and returns the answer, the new world and the events the
    execution caused, in order.  Programs are data, so what holds of every
    program (the file system is the replay of the events) is proved once, by
    induction on the tree. *)
From S2P Require Import Prelude.

Section prog.
Context {op : Type -> Type}.

Inductive prog (A : Type) : Type :=
| Ret (a : A)
| Vis {R : Type} (o : op R) (k : R -> prog A).

#[global] Arguments Ret {A} a.
#[global] Arguments Vis {A R} o k.

Fixpoint pbind {A B} (p : prog A) (f : A -> prog B) : prog B :=
  match p with
  | Ret a => f a
  | Vis o k => Vis o (fun r => pbind (k r) f)
  end.

Definition perform {R} (o : op R) : prog R := Vis o Ret.

(** Programs that may fail: the sequencing stops at the first error. *)
Definition M (A : Type) : Type := prog (result A).

#[global] Instance M_ret : MRet M := fun A a => Ret (Ok a).
#[global] Instance M_bind : MBind M := fun A B f p =>
  pbind p (fun r => match r with Ok a => f a | Err e => Ret (Err e) end).

(** An operation that cannot fail. *)
Definition get {R} (o : op R) : M R := Vis o (fun r => Ret (Ok r)).

Definition fail {A} (e : error) : M A := Ret (Err e).
Definition lift {A} (r : result A) : M A := Ret r.
Definition guardM (b : bool) (e : error) : M unit := Ret (guardR b e).

(** Run [p] and hand its outcome, error included, to the continuation. *)
Definition try {A} (p : M A) : M (result A) := pbind p (fun r => Ret (Ok r)).

(** [defer func() { err = f(err) }()] around a body. *)
Definition deferred {A} (p : M A) (f : result A -> M A) : M A := pbind p f.

(** A [for] loop over a slice that stops at the first error. *)
Fixpoint forM {X A} (l : list X) (acc : A) (f : A -> X -> M A) : M A :=
  match l with
  | [] => mret acc
  | x :: l' => a ← f acc x; forM l' a f
  end.
End prog.

Arguments prog op A : clear implicits.
Arguments M op A : clear implicits.

Notation "x <~ p ;; k" := (pbind p (fun x => k))
  (at level 20, p at level 99, k at level 200, only parsing).

(** ** Execution *)
Section run.
Context {op : Type -> Type} {W Ev : Type}.
Variable step : forall R : Type, op R -> W -> R * W * list Ev.

Fixpoint run {A} (p : prog op A) (w : W) : A * W * list Ev :=
  match p with
  | Ret a => (a, w, [])
  | Vis o k =>
      let '(r, w1, t1) := step _ o w in
      let '(a, w2, t2) := run (k r) w1 in
      (a, w2, t1 ++ t2)
  end.

Lemma run_bind {A B} (p : prog op A) (f : A -> prog op B) w :
  run (pbind p f) w =
  (let '(a, w1, t1) := run p w in
   let '(b, w2, t2) := run (f a) w1 in (b, w2, t1 ++ t2)).
Proof.
  revert w. induction p as [a|R o k IH]; intros w; simpl.
  - by destruct (run (f a) w) as [[??]?].
  - destruct (step R o w) as [[r w1] t1]. rewrite IH.
    destruct (run (k r) w1) as [[a w2] t2].
    destruct (run (f a) w2) as [[b w3] t3]. by rewrite app_assoc.
Qed.

(** Inversion of a sequenced execution. *)
Lemma run_bind_inv {A B} (p : prog op A) (f : A -> prog op B) w b w2 t :
  run (pbind p f) w = (b, w2, t) ->
  exists a w1 t1 t2, run p w = (a, w1, t1) /\ run (f a) w1 = (b, w2, t2) /\ t = t1 ++ t2.
Proof.
  rewrite run_bind. destruct (run p w) as [[a w1] t1].
  destruct (run (f a) w1) as [[b' w2'] t2] eqn:E. intros [= <- <- <-].
  exists a, w1, t1, t2. by rewrite E.
Qed.

(** ** Every event of [p] satisfies [P] *)
Definition emits {A} (P : Ev -> Prop) (p : prog op A) : Prop :=
  forall w, Forall P (run p w).2.

Lemma emits_ret {A} P (a : A) : emits P (Ret a).
Proof. intros w. constructor. Qed.

Lemma emits_bind {A B} P (p : prog op A) (f : A -> prog op B) :
  emits P p -> (forall a, emits P (f a)) -> emits P (pbind p f).
Proof.
  intros Hp Hf w. rewrite run_bind. specialize (Hp w).
  destruct (run p w) as [[a w1] t1]. specialize (Hf a w1).
  destruct (run (f a) w1) as [[b w2] t2]. simpl in *. by apply Forall_app.
Qed.

Lemma emits_mbind {A B} P (p : M op A) (f : A -> M op B) :
  emits P p -> (forall a, emits P (f a)) -> emits P (mbind (M := M op) f p).
Proof.
  intros Hp Hf. apply emits_bind; [done|]. intros [a|e]; [apply Hf|apply emits_ret].
Qed.

Lemma emits_perform {R} P (o : op R) :
  (forall w, Forall P (step R o w).2) -> emits P (perform o).
Proof.
  intros H w. simpl. specialize (H w). destruct (step R o w) as [[r w1] t1].
  simpl in *. by rewrite app_nil_r.
Qed.

Lemma emits_forM {X A} P (l : list X) (f : A -> X -> M op A) :
  (forall x a, x ∈ l -> emits P (f a x)) -> forall a, emits P (forM l a f).
Proof.
  induction l as [|x l IH]; intros H a; simpl; [apply emits_ret|].
  apply emits_mbind; [apply H; left|]. intros a'. apply IH. intros. apply H. by right.
Qed.

Lemma emits_weaken {A} (P Q : Ev -> Prop) (p : prog op A) :
  (forall e, P e -> Q e) -> emits P p -> emits Q p.
Proof. intros HPQ H w. eapply Forall_impl; [apply H|done]. Qed.

(** An execution of a program with a known event set. *)
Lemma emits_run {A} P (p : prog op A) w a w' t :
  emits P p -> run p w = (a, w', t) -> Forall P t.
Proof. intros H E. specialize (H w). by rewrite E in H. Qed.
End run.

(** Decompose [run (x <~ p ;; k) w = ...] hypotheses, naming what each step
    returned. *)
Ltac run_inv H a w t E :=
  apply run_bind_inv in H; destruct H as (a & w & t & ? & E & H & ->).
