(* ===== verification/World.v ===== *)
(** * World: the host the worker runs on

    The file system is a finite map from clean absolute paths to nodes.
    Everything the program cannot control is the class [Env]: which system
    calls fail, what Docker and host commands answer, random bytes, the
    clock, the request context and the ledger lock.  The theorems hold for
    every instance; the witnesses use concrete ones. *)
From S2P Require Import Prelude GoStrings GoPath Effects.

(** What a path holds.  [NSpecial] is anything that is neither a regular file
    nor a directory (a symbolic link, a FIFO, a device). *)
Inductive node :=
| NFile (data : string)
| NDir
| NSpecial.

#[export] Instance node_eq_dec : EqDecision node.
Proof. solve_decision. Defined.

Definition isDirNode (n : node) : bool := match n with NDir => true | _ => false end.
Definition isRegular (n : node) : bool := match n with NFile _ => true | _ => false end.

(** Changes of the file system. *)
Inductive mutation :=
| MWrite (p data : string)
| MMkdirs (ps : list string)
| MDelete (ps : list string)
| MMove (moves : list (string * string)).

(** Commands given to Docker ([Run], [Output], [Input] of the [runner]
    interface) and to the host. *)
Inductive command :=
| CRun (args : list string)
| COutput (args : list string)
| CInput (stdin : string) (args : list string)
| CExec (args : list string).

Inductive event :=
| EvFs (m : mutation)
| EvCmd (c : command)
| EvTimer (id : string) (start : bool).

Abbreviation fsmap := (gmap string node).

Definition applyMutation (m : mutation) (fs : fsmap) : fsmap :=
  match m with
  | MWrite p d => <[p := NFile d]> fs
  | MMkdirs ps => foldr (fun p acc => <[p := NDir]> acc) fs ps
  | MDelete ps => foldr delete fs ps
  | MMove moves =>
      foldr (fun '(src, dst) acc =>
               match fs !! src with
               | Some n => <[dst := n]> acc
               | None => acc
               end) (foldr (fun mv acc => delete mv.1 acc) fs moves) moves
  end.

Definition applyEvent (e : event) (fs : fsmap) : fsmap :=
  match e with EvFs m => applyMutation m fs | _ => fs end.

(** The file system after a sequence of events; after a prefix of an
    execution's events it is what a crash at that point leaves behind. *)
Definition replay (t : list event) (fs : fsmap) : fsmap :=
  foldl (fun fs e => applyEvent e fs) fs t.

(** The directory a path is in. *)
Definition parentOf (p : string) : string := trimSuffix (upToSlash p) "/".

(** The entries strictly below [d]. *)
Definition below (d : string) (fs : fsmap) : list string :=
  filter (fun q => hasPrefix q (d +:+ "/") = true) (map fst (map_to_list fs)).

(** The missing directories [os.MkdirAll p] has to create, [p] last. *)
Fixpoint prefixesAcc (acc : string) (l : list string) : list string :=
  match l with
  | [] => []
  | x :: l' => let p := acc +:+ "/" +:+ x in p :: prefixesAcc p l'
  end.
Definition ancestors (p : string) : list string :=
  prefixesAcc "" (match split slash p with _ :: l => l | [] => [] end).

(** [os.ReadDir]: the names in [d], sorted, and whether each is a directory. *)
Fixpoint insertName (x : string * bool) (l : list (string * bool)) : list (string * bool) :=
  match l with
  | [] => [x]
  | y :: l' => match String.compare x.1 y.1 with
               | Gt => y :: insertName x l'
               | _ => x :: l
               end
  end.
Definition dirEntries (d : string) (fs : fsmap) : list (string * bool) :=
  foldr insertName []
    (omap (fun '(q, n) =>
             let name := trimPrefix q (d +:+ "/") in
             if hasPrefix q (d +:+ "/") && negb (contains name "/")
             then Some (name, isDirNode n) else None) (map_to_list fs)).

(** ** The environment *)
Class Env := {
  env : Type;
  (** does this system call on this path fail, and with what text *)
  env_sys : env -> string -> string -> env * option string;
  (** which entries a failing [os.RemoveAll] has already removed *)
  env_removed : env -> string -> bool;
  (** a command's outcome: an error text, or its standard output *)
  env_cmd : env -> command -> env * (string + string);
  (** a command that writes one host file: an error text, if it failed, and the
      contents it left, if any *)
  env_file : env -> command -> env * (option string * option string);
  (** [crypto/rand]: an error, or as many bytes as asked for *)
  env_rand : env -> nat -> env * (string + string);
  env_rand_length e n b : (env_rand e n).2 = inr b -> String.length b = n;
  env_now : env -> env * Z;
  (** [ctx.Err()] *)
  env_ctx : env -> env * option string;
  (** [flock(LOCK_EX|LOCK_NB)]: an error, or whether the lock was acquired *)
  env_flock : env -> env * (string + bool);
  env_hostname : env -> env * (string + string);
}.

(** The state of the worker process and its host. *)
Record world `{Env} := World {
  w_fs : fsmap;
  w_env : env;
  w_image : string;           (** [worker.storageImage] *)
  w_timers : gset string;     (** keys of [worker.toolTimers] *)
}.

Inductive wop : Type -> Type :=
| OStat (p : string) : wop (result node)
| ORead (p : string) : wop (result string)
| OReadDir (p : string) : wop (result (list (string * bool)))
| OSys (name p : string) : wop (result unit)
| OTemp (d : string) : wop (result unit)
| OWrite (p data : string) : wop (result unit)
| OAppend (p data : string) : wop (result unit)
| OMkdirAll (p : string) : wop (result unit)
| ORemove (p : string) : wop (result unit)
| ORemoveAll (p : string) : wop (result unit)
| ORename (src dst : string) : wop (result unit)
| OCmd (c : command) : wop (result string)
| OProduce (c : command) (p : string) : wop (result unit)
| ORand (n : nat) : wop (result string)
| ONow : wop Z
| OCtx : wop (result unit)
| OFlock : wop (result bool)
| OHostname : wop (result string)
| OGetImage : wop string
| OSetImage (s : string) : wop unit
| OTimer (id : string) (start : bool) : wop unit.

Section step.
Context `{Env}.

Definition enoent (p : string) : error := ENotExist ("open " +:+ p +:+ ": no such file or directory").

Definition setEnv (w : world) (e : env) : world := World _ (w_fs w) e (w_image w) (w_timers w).
Definition setFs (w : world) (fs : fsmap) : world := World _ fs (w_env w) (w_image w) (w_timers w).

(** A system call: the environment may fail it; otherwise [k] decides. *)
Definition sys {A} (name p : string) (w : world) (k : world -> result A * world * list event)
  : result A * world * list event :=
  let '(e', f) := env_sys (w_env w) name p in
  match f with
  | Some m => (Err (EMsg m), setEnv w e', [])
  | None => k (setEnv w e')
  end.

Definition mutate (m : mutation) (w : world) : result unit * world * list event :=
  (Ok tt, setFs w (applyMutation m (w_fs w)), [EvFs m]).

Definition ask {A} (r : env * (string + A)) (w : world) : result A * world :=
  (match r.2 with inl m => Err (EMsg m) | inr a => Ok a end, setEnv w r.1).

Definition renameMoves (src dst : string) (fs : fsmap) : list (string * string) :=
  (src, dst) :: map (fun q => (q, dst +:+ drop (String.length src) q)) (below src fs).

Definition wstep (R : Type) (o : wop R) (w : world) : R * world * list event :=
  match o in wop R return R * world * list event with
  | OStat p => sys "stat" p w (fun w =>
      (match w_fs w !! p with Some n => Ok n | None => Err (enoent p) end, w, []))
  | ORead p => sys "read" p w (fun w =>
      (match w_fs w !! p with
       | Some (NFile d) => Ok d
       | Some _ => Err (EMsg "is not a regular file")
       | None => Err (enoent p)
       end, w, []))
  | OReadDir p => sys "readdir" p w (fun w =>
      (match w_fs w !! p with
       | Some NDir => Ok (dirEntries p (w_fs w))
       | Some _ => Err (EMsg "not a directory")
       | None => Err (enoent p)
       end, w, []))
  | OSys name p => sys name p w (fun w => (Ok tt, w, []))
  | OTemp d => sys "createtemp" d w (fun w =>
      (match w_fs w !! d with
       | Some NDir => Ok tt
       | Some _ => Err (EMsg "not a directory")
       | None => Err (enoent d)
       end, w, []))
  | OWrite p d => sys "write" p w (fun w =>
      match w_fs w !! parentOf p, w_fs w !! p with
      | Some NDir, Some NDir => (Err (EMsg "is a directory"), w, [])
      | Some NDir, _ => mutate (MWrite p d) w
      | Some _, _ => (Err (EMsg "not a directory"), w, [])
      | None, _ => (Err (enoent p), w, [])
      end)
  | OAppend p d => sys "append" p w (fun w =>
      match w_fs w !! parentOf p, w_fs w !! p with
      | Some NDir, None => mutate (MWrite p d) w
      | Some NDir, Some (NFile old) => mutate (MWrite p (old +:+ d)) w
      | Some NDir, Some _ => (Err (EMsg "is a directory"), w, [])
      | Some _, _ => (Err (EMsg "not a directory"), w, [])
      | None, _ => (Err (enoent p), w, [])
      end)
  | OMkdirAll p => sys "mkdir" p w (fun w =>
      let anc := ancestors p in
      if existsb (fun q => match w_fs w !! q with Some NDir | None => false | _ => true end) anc
      then (Err (EMsg "not a directory"), w, [])
      else match filter (fun q => w_fs w !! q = None) anc with
           | [] => (Ok tt, w, [])
           | l => mutate (MMkdirs l) w
           end)
  | ORemove p => sys "remove" p w (fun w =>
      match w_fs w !! p with
      | None => (Err (enoent p), w, [])
      | Some NDir => match below p (w_fs w) with
                     | [] => mutate (MDelete [p]) w
                     | _ => (Err (EMsg "directory not empty"), w, [])
                     end
      | Some _ => mutate (MDelete [p]) w
      end)
  | ORemoveAll p =>
      let '(e', f) := env_sys (w_env w) "removeall" p in
      let w1 := setEnv w e' in
      let all := below p (w_fs w) in
      match f with
      | Some m =>
          let '(_, w2, t) := mutate (MDelete (filter (fun q => env_removed e' q = true) all)) w1 in
          (Err (EMsg m), w2, t)
      | None =>
          (* nothing is below a missing path *)
          match w_fs w !! p, all with
          | None, [] => (Ok tt, w1, [])
          | _, _ => mutate (MDelete (all ++ [p])) w1
          end
      end
  | ORename src dst => sys "rename" src w (fun w =>
      match w_fs w !! src, w_fs w !! dst, w_fs w !! parentOf dst with
      | None, _, _ => (Err (enoent src), w, [])
      | _, _, None => (Err (enoent dst), w, [])
      | Some NDir, Some _, _ => (Err (EMsg "file exists"), w, [])
      | Some _, Some NDir, _ => (Err (EMsg "file exists"), w, [])
      | Some _, _, Some _ => mutate (MMove (renameMoves src dst (w_fs w))) w
      end)
  | OCmd c => let '(r, w') := ask (env_cmd (w_env w) c) w in (r, w', [EvCmd c])
  | OProduce c p =>
      let '(e', (f, d)) := env_file (w_env w) c in
      let r := match f with Some m => Err (EMsg m) | None => Ok tt end in
      match d, w_fs w !! parentOf p with
      | Some data, Some NDir => (r, setFs (setEnv w e') (applyMutation (MWrite p data) (w_fs w)), [EvCmd c; EvFs (MWrite p data)])
      | _, _ => (r, setEnv w e', [EvCmd c])
      end
  | ORand n => let '(r, w') := ask (env_rand (w_env w) n) w in (r, w', [])
  | ONow => let '(e', t) := env_now (w_env w) in (t, setEnv w e', [])
  | OCtx => let '(e', f) := env_ctx (w_env w) in
            (match f with Some m => Err (EMsg m) | None => Ok tt end, setEnv w e', [])
  | OFlock => let '(r, w') := ask (env_flock (w_env w)) w in (r, w', [])
  | OHostname => let '(r, w') := ask (env_hostname (w_env w)) w in (r, w', [])
  | OGetImage => (w_image w, w, [])
  | OSetImage s => (tt, World _ (w_fs w) (w_env w) s (w_timers w), [])
  | OTimer id start =>
      (tt, World _ (w_fs w) (w_env w) (w_image w)
             (if start then {[id]} ∪ w_timers w else w_timers w ∖ {[id]}),
       [EvTimer id start])
  end.

(** Executions of worker programs. *)
Definition exec {A} (p : prog wop A) (w : world) : A * world * list event := run wstep p w.

(** ** The file system is the replay of the events *)
Lemma sys_replay {A} name p w (k : world -> result A * world * list event) :
  (forall w0, w_fs w0 = w_fs w -> w_fs (k w0).1.2 = replay (k w0).2 (w_fs w)) ->
  w_fs (sys name p w k).1.2 = replay (sys name p w k).2 (w_fs w).
Proof.
  intros Hk. unfold sys. destruct (env_sys _ _ _) as [e' [m|]]; [done|]. by apply Hk.
Qed.

Lemma wstep_replay R (o : wop R) w :
  w_fs (wstep R o w).1.2 = replay (wstep R o w).2 (w_fs w).
Proof.
  destruct o; cbn [wstep]; try (apply sys_replay; intros w0 Hw0; cbv beta; rewrite ?Hw0);
    unfold ask, mutate; repeat case_match; simplify_eq; simpl; by rewrite ?Hw0.
Qed.

Lemma exec_replay {A} (p : prog wop A) w :
  w_fs (exec p w).1.2 = replay (exec p w).2 (w_fs w).
Proof.
  unfold exec. revert w. induction p as [a|R o k IH]; intros w; simpl; [done|].
  pose proof (wstep_replay R o w) as Hs.
  destruct (wstep R o w) as [[r w1] t1]. specialize (IH r w1).
  destruct (run wstep (k r) w1) as [[a w2] t2]. simpl in *.
  unfold replay in *. by rewrite foldl_app, IH, Hs.
Qed.

Lemma exec_fs {A} (p : prog wop A) w a w' t :
  exec p w = (a, w', t) -> w_fs w' = replay t (w_fs w).
Proof. intros E. pose proof (exec_replay p w) as Hr. by rewrite E in Hr. Qed.
End step.

(** Does a mutation touch path [p]? *)
Definition touches (p : string) (m : mutation) : Prop :=
  match m with
  | MWrite q _ => q = p
  | MMkdirs qs => p ∈ qs
  | MDelete qs => p ∈ qs
  | MMove mvs => p ∈ map fst mvs \/ p ∈ map snd mvs
  end.

Definition leaves (p : string) (e : event) : Prop :=
  match e with EvFs m => ~ touches p m | _ => True end.

Lemma applyMutation_frame p m fs : ~ touches p m -> applyMutation m fs !! p = fs !! p.
Proof.
  destruct m as [q d|qs|qs|mvs]; simpl; intros Hp.
  - by rewrite lookup_insert_ne.
  - induction qs as [|q qs IH]; simpl; [done|]. rewrite lookup_insert_ne by set_solver.
    apply IH. set_solver.
  - induction qs as [|q qs IH]; simpl; [done|]. rewrite lookup_delete_ne by set_solver.
    apply IH. set_solver.
  - assert (forall (l : list (string * string)) (acc : fsmap), (forall mv, mv ∈ l -> mv.2 <> p) ->
              foldr (fun '(src, dst) acc => match fs !! src with
                       Some n => <[dst:=n]> acc | None => acc end) acc l !! p = acc !! p) as Hdst.
    { induction l as [|[s d] l IH]; intros acc Hl; simpl; [done|].
      assert (d <> p) by (apply (Hl (s, d)); left).
      destruct (fs !! s); [rewrite lookup_insert_ne by done|]; apply IH; intros; apply Hl; by right. }
    rewrite Hdst.
    + assert (forall mv, mv ∈ mvs -> mv.1 <> p) as Hsrc.
      { intros mv Hmv <-. apply Hp. left. by apply list_elem_of_fmap_2. }
      clear Hp Hdst. induction mvs as [|mv mvs IH]; simpl; [done|].
      rewrite lookup_delete_ne by (apply Hsrc; left). apply IH. intros; apply Hsrc; by right.
    + intros mv Hmv <-. apply Hp. right. by apply list_elem_of_fmap_2.
Qed.

Lemma replay_frame p t fs : Forall (leaves p) t -> replay t fs !! p = fs !! p.
Proof.
  unfold replay. revert fs. induction t as [|e t IH]; intros fs Ht; simpl; [done|].
  inversion Ht; subst. rewrite IH by done.
  destruct e; simpl in *; try done. by apply applyMutation_frame.
Qed.

Lemma replay_app t1 t2 fs : replay (t1 ++ t2) fs = replay t2 (replay t1 fs).
Proof. apply foldl_app. Qed.

(** ** Which events a program can cause *)

(** Operations without events. *)
Definition quietOp {R} (o : wop R) : bool :=
  match o with
  | OStat _ | ORead _ | OReadDir _ | OSys _ _ | OTemp _ | ORand _ | ONow | OCtx | OFlock | OHostname
  | OGetImage | OSetImage _ => true
  | _ => false
  end.

Section emits.
Context `{Env}.

(** [p] causes only events in [P], whatever the world. *)
Definition causes {A} (P : event -> Prop) (p : prog wop A) : Prop := emits wstep P p.

Lemma sys_events {A} P name p w (k : world -> result A * world * list event) :
  (forall w0, Forall P (k w0).2) -> Forall P (sys name p w k).2.
Proof. intros Hk. unfold sys. destruct (env_sys _ _ _) as [e' [m|]]; [constructor|apply Hk]. Qed.

Lemma quiet_events {R} P (o : wop R) w : quietOp o = true -> Forall P (wstep R o w).2.
Proof.
  destruct o; intros Hq; try discriminate Hq; cbn [wstep]; try (apply sys_events; intros w0; cbv beta);
    unfold ask; repeat case_match; simplify_eq; simpl; constructor.
Qed.

Lemma causes_quiet {R} P (o : wop R) : quietOp o = true -> causes P (perform o).
Proof. intros Hq. apply emits_perform. intros w. by apply quiet_events. Qed.

Lemma causes_get {R} P (o : wop R) : quietOp o = true -> causes P (get o).
Proof.
  intros Hq w. unfold get. simpl. pose proof (quiet_events P o w Hq) as Hp.
  destruct (wstep R o w) as [[r w1] t1]. simpl in *. by rewrite app_nil_r.
Qed.

Lemma causes_ret {A} P (a : A) : causes P (Ret a).
Proof. apply emits_ret. Qed.

Lemma causes_mret {A} P (a : A) : causes P (mret (M := M wop) a).
Proof. apply emits_ret. Qed.

Lemma causes_fail {A} P e : causes P (fail (A := A) e).
Proof. apply emits_ret. Qed.

Lemma causes_lift {A} P (r : result A) : causes P (lift r).
Proof. apply emits_ret. Qed.

Lemma causes_try {A} P (p : M wop A) : causes P p -> causes P (try p).
Proof. intros Hp. apply emits_bind; [done|]. intros r. apply emits_ret. Qed.

Lemma causes_bind {A B} P (p : M wop A) (f : A -> M wop B) :
  causes P p -> (forall a, causes P (f a)) -> causes P (mbind (M := M wop) f p).
Proof. apply emits_mbind. Qed.

Lemma causes_deferred {A} P (p : M wop A) (f : result A -> M wop A) :
  causes P p -> (forall r, causes P (f r)) -> causes P (deferred p f).
Proof. apply emits_bind. Qed.

Lemma causes_forM {X A} P (l : list X) (f : A -> X -> M wop A) a :
  (forall x a, x ∈ l -> causes P (f a x)) -> causes P (forM l a f).
Proof. intros Hf. by apply emits_forM. Qed.

Lemma causes_cmd P c : P (EvCmd c) -> causes P (perform (OCmd c)).
Proof.
  intros Hc. apply emits_perform. intros w. cbn [wstep]. unfold ask. simpl. by repeat constructor.
Qed.

Lemma causes_produce P c p :
  P (EvCmd c) -> (forall d, P (EvFs (MWrite p d))) -> causes P (perform (OProduce c p)).
Proof.
  intros Hc Hw. apply emits_perform. intros w. cbn [wstep].
  destruct (env_file _ _) as [e' [f [d|]]]; [destruct (w_fs w !! parentOf p) as [[]|]|]; simpl; repeat constructor; auto.
Qed.

Lemma causes_write P p d : P (EvFs (MWrite p d)) -> causes P (perform (OWrite p d)).
Proof.
  intros Hp. apply emits_perform. intros w. cbn [wstep]. apply sys_events. intros w0.
  unfold mutate. repeat case_match; simpl; by repeat constructor.
Qed.

Lemma causes_append P p d : (forall d', P (EvFs (MWrite p d'))) -> causes P (perform (OAppend p d)).
Proof.
  intros Hp. apply emits_perform. intros w. cbn [wstep]. apply sys_events. intros w0.
  unfold mutate. repeat case_match; simpl; by repeat constructor.
Qed.

Lemma causes_mkdir P p :
  (forall ps, Forall (fun q => q ∈ ancestors p) ps -> P (EvFs (MMkdirs ps))) -> causes P (perform (OMkdirAll p)).
Proof.
  intros Hp. apply emits_perform. intros w. cbn [wstep]. apply sys_events. intros w0.
  unfold mutate. repeat case_match; simpl; repeat constructor. apply Hp.
  match goal with E : filter _ _ = ?l |- Forall _ ?l => rewrite <- E end.
  apply Forall_forall. intros q Hq. apply list_elem_of_filter in Hq. by destruct Hq.
Qed.

Lemma causes_if {A} P (b : bool) (p q : prog wop A) :
  (b = true -> causes P p) -> (b = false -> causes P q) -> causes P (if b then p else q).
Proof. destruct b; auto. Qed.

Lemma causes_weaken {A} (P Q : event -> Prop) (p : prog wop A) :
  (forall e, P e -> Q e) -> causes P p -> causes Q p.
Proof. apply emits_weaken. Qed.

Lemma causes_exec {A} P (p : prog wop A) w a w' t :
  causes P p -> exec p w = (a, w', t) -> Forall P t.
Proof. apply emits_run. Qed.
End emits.

Create HintDb causes.
#[export] Hint Resolve causes_ret causes_mret causes_fail causes_lift : causes.
#[export] Hint Extern 1 (causes _ (perform _)) => apply causes_quiet; reflexivity : causes.
#[export] Hint Extern 1 (causes _ (get _)) => apply causes_get; reflexivity : causes.

(** Walk through a program, splitting binds and case distinctions; what is
    left are the operations with events. *)
Ltac causes_step :=
  first
    [ solve [auto with causes nocore]
    | match goal with
      | |- causes _ (try _) => apply causes_try
      | |- causes _ (mbind _ _) => apply causes_bind; [|intros ?]
      | |- causes _ (deferred _ _) => apply causes_deferred; [|intros ?]
      | |- causes _ (forM _ _ _) => apply causes_forM; intros ? ? ?
      | |- causes _ (let _ := _ in _) => cbv zeta
      | |- causes _ (if ?b then _ else _) => destruct b eqn:?
      | |- causes _ (match ?x with _ => _ end) => destruct x eqn:?
      | |- causes _ (let '_ := ?x in _) => destruct x eqn:?
      end ].
Ltac causes_auto := repeat causes_step.

(** Executions of sequenced programs. *)
Section exec.
Context `{Env}.

Lemma exec_bind {A B} (p : M wop A) (f : A -> M wop B) w r w' t :
  exec (mbind (M := M wop) f p) w = (r, w', t) ->
  (exists e, exec p w = (Err e, w', t) /\ r = Err e) \/
  (exists a w1 t1 t2, exec p w = (Ok a, w1, t1) /\ exec (f a) w1 = (r, w', t2) /\ t = (t1 ++ t2)%list).
Proof.
  unfold exec. intros Hr. change (mbind f p) with (pbind p (fun r => match r with Ok a => f a | Err e => Ret (Err e) end)) in Hr.
  apply run_bind_inv in Hr as ([a|e]&w1&t1&t2&H1&H2&->).
  - right. by exists a, w1, t1, t2.
  - left. exists e. injection H2 as <- <- <-. by rewrite app_nil_r.
Qed.

Lemma exec_bind_Ok {A B} (p : M wop A) (f : A -> M wop B) w b w' t :
  exec (mbind (M := M wop) f p) w = (Ok b, w', t) ->
  exists a w1 t1 t2, exec p w = (Ok a, w1, t1) /\ exec (f a) w1 = (Ok b, w', t2) /\ t = (t1 ++ t2)%list.
Proof. intros [(e&_&?)|?]%exec_bind; done. Qed.

Lemma exec_try {A} (p : M wop A) w r w' t :
  exec (try p) w = (r, w', t) <-> exists a, r = Ok a /\ exec p w = (a, w', t).
Proof.
  unfold try, exec. rewrite run_bind. destruct (run wstep p w) as [[a w1] t1]. simpl. rewrite app_nil_r.
  split; [intros [= <- <- <-]; eauto|intros (a'&->&[= <- <- <-]); done].
Qed.

Lemma exec_ret {A} (a : A) w r w' t : exec (Ret a) w = (r, w', t) -> r = a /\ w' = w /\ t = [].
Proof. by intros [= <- <- <-]. Qed.

(** An operation alone. *)
Lemma exec_perform {R} (o : wop R) w : exec (perform o) w = wstep R o w.
Proof. unfold exec. simpl. destruct (wstep R o w) as [[??]?]. by rewrite app_nil_r. Qed.

(** A pure step of a program. *)
Lemma exec_lift_bind {A B} (r : result A) (f : A -> M wop B) w :
  exec (mbind (M := M wop) f (lift r)) w =
  match r with Ok a => exec (f a) w | Err e => (Err e, w, []) end.
Proof. by destruct r. Qed.

(** Frame: what an execution does not touch stays. *)
Lemma exec_frame {A} q (p : prog wop A) w a w' t :
  causes (leaves q) p -> exec p w = (a, w', t) -> w_fs w' !! q = w_fs w !! q.
Proof.
  intros Hc He. rewrite (exec_fs _ _ _ _ _ He). apply replay_frame. by eapply causes_exec.
Qed.

Lemma quiet_same {A} (p : prog wop A) w a w' t :
  causes (fun _ => False) p -> exec p w = (a, w', t) -> w_fs w' = w_fs w /\ t = [].
Proof.
  intros Hc He. pose proof (causes_exec _ _ _ _ _ _ Hc He) as Ht.
  destruct t as [|e t]; [|by inversion Ht]. by rewrite (exec_fs _ _ _ _ _ He).
Qed.

(** A program that only runs commands changes no file. *)
Definition isCommand (e : event) : Prop := match e with EvCmd _ => True | _ => False end.

Lemma commands_same {A} (p : prog wop A) w a w' t :
  causes isCommand p -> exec p w = (a, w', t) -> w_fs w' = w_fs w.
Proof.
  intros Hc He. pose proof (causes_exec _ _ _ _ _ _ Hc He) as Ht. rewrite (exec_fs _ _ _ _ _ He).
  clear -Ht. revert w. generalize w_fs. induction Ht as [|e t Hx _ IH]; intros f w; [done|].
  destruct e; try by destruct Hx. apply (IH f w).
Qed.

Lemma quiet_fs {A} q (p : prog wop A) w a w' t :
  causes (fun _ => False) p -> exec p w = (a, w', t) -> w_fs w' !! q = w_fs w !! q /\ t = [].
Proof. intros Hc He. by destruct (quiet_same _ _ _ _ _ Hc He) as [-> ->]. Qed.

(** What a successful read saw. *)
Lemma exec_read_Ok p w d w' t :
  exec (perform (ORead p)) w = (Ok d, w', t) -> w_fs w !! p = Some (NFile d) /\ w_fs w' = w_fs w /\ t = [].
Proof.
  rewrite exec_perform. cbn [wstep]. unfold sys. destruct (env_sys _ _ _) as [e' [m|]]; [done|]. cbn [w_fs setEnv].
  destruct (w_fs w !! p) as [[]|]; try done. by intros [= <- <- <-].
Qed.

Lemma exec_stat_Ok p w n w' t :
  exec (perform (OStat p)) w = (Ok n, w', t) -> w_fs w !! p = Some n /\ w_fs w' = w_fs w /\ t = [].
Proof.
  rewrite exec_perform. cbn [wstep]. unfold sys. destruct (env_sys _ _ _) as [e' [m|]]; [done|]. cbn [w_fs setEnv].
  destruct (w_fs w !! p) as [?|]; try done. by intros [= <- <- <-].
Qed.

(** A missing file: the only way a system call answers [ErrNotExist]. *)
Lemma exec_stat_absent p w r w' t :
  exec (perform (OStat p)) w = (r, w', t) ->
  w_fs w' = w_fs w /\ t = [] /\ (match r with Err e => isNotExist e | Ok _ => false end = true -> w_fs w !! p = None).
Proof.
  rewrite exec_perform. cbn [wstep]. unfold sys. destruct (env_sys _ _ _) as [e' [m|]]; [by intros [= <- <- <-]|].
  cbn [w_fs setEnv]. destruct (w_fs w !! p) as [?|]; by intros [= <- <- <-].
Qed.

Lemma exec_read_absent p w r w' t :
  exec (perform (ORead p)) w = (r, w', t) ->
  w_fs w' = w_fs w /\ t = [] /\ (match r with Err e => isNotExist e | Ok _ => false end = true -> w_fs w !! p = None).
Proof.
  rewrite exec_perform. cbn [wstep]. unfold sys. destruct (env_sys _ _ _) as [e' [m|]]; [by intros [= <- <- <-]|].
  cbn [w_fs setEnv]. destruct (w_fs w !! p) as [[]|]; by intros [= <- <- <-].
Qed.

Lemma exec_write_Ok p d w u w' t :
  exec (perform (OWrite p d)) w = (Ok u, w', t) ->
  w_fs w' = <[p := NFile d]> (w_fs w) /\ t = [EvFs (MWrite p d)].
Proof.
  rewrite exec_perform. cbn [wstep]. unfold sys, mutate. destruct (env_sys _ _ _) as [e' [m|]]; [done|].
  cbn [w_fs setEnv]. intros Hs. repeat case_match; simplify_eq; done.
Qed.

(** An execution named by its parts, so that only its result is evaluated. *)
Lemma exec_parts {A} (p : prog wop A) w r :
  (exec p w).1.1 = r -> exec p w = (r, (exec p w).1.2, (exec p w).2).
Proof. by destruct (exec p w) as [[a w'] t]; simpl; intros ->. Qed.

Lemma exec_rand_Ok n w b w' t :
  exec (perform (ORand n)) w = (Ok b, w', t) -> String.length b = n /\ w_fs w' = w_fs w /\ t = [].
Proof.
  rewrite exec_perform. cbn [wstep]. unfold ask. pose proof (env_rand_length (w_env w) n b) as Hl.
  destruct (env_rand (w_env w) n) as [e' [m|b']]; [done|]. intros [= -> <- <-]. by rewrite Hl.
Qed.

(** A renamed path holds what was there under its old name. *)
Lemma exec_rename_Ok src dst w u w' t :
  exec (perform (ORename src dst)) w = (Ok u, w', t) ->
  w_fs w' !! dst = w_fs w !! src /\ t = [EvFs (MMove (renameMoves src dst (w_fs w)))].
Proof.
  rewrite exec_perform. cbn [wstep]. unfold sys. destruct (env_sys _ _ _) as [e' [m|]]; [done|]. cbn [w_fs setEnv].
  unfold mutate, setEnv, setFs. cbn [w_fs w_env w_image w_timers].
  destruct (w_fs w !! src) as [n|] eqn:Es; [|done].
  intros Hx. assert (applyMutation (MMove (renameMoves src dst (w_fs w))) (w_fs w) !! dst = Some n) as Hd.
  { unfold renameMoves. cbn [applyMutation foldr]. rewrite Es. apply lookup_insert_eq. }
  repeat case_match; simplify_eq; by split.
Qed.
End exec.

Section from.
Context `{Env}.

(** Events of an execution from a given world, step by step. *)
Lemma from_bind {A B} P (p : M wop A) (f : A -> M wop B) w :
  Forall P (exec p w).2 -> (forall a w1 t1, exec p w = (Ok a, w1, t1) -> Forall P (exec (f a) w1).2) ->
  Forall P (exec (mbind (M := M wop) f p) w).2.
Proof.
  intros Hp Hf. destruct (exec (mbind f p) w) as [[r w'] t] eqn:E. simpl.
  apply exec_bind in E as [(e&E&_)|(a&w1&t1&t2&E1&E2&->)]; [by rewrite E in Hp|].
  rewrite E1 in Hp. apply Forall_app. split; [exact Hp|]. specialize (Hf _ _ _ E1). by rewrite E2 in Hf.
Qed.

Lemma from_causes {A} P (p : prog wop A) w : causes P p -> Forall P (exec p w).2.
Proof. intros Hp. apply Hp. Qed.

(** What holds of every state on the way: if each event that satisfies [P]
    keeps [I], then [I] holds after every prefix of the events. *)
Lemma replay_prefix (P : event -> Prop) (I : fsmap -> Prop) t fs :
  (forall e fs0, P e -> I fs0 -> I (applyEvent e fs0)) -> Forall P t -> I fs ->
  forall t1, t1 `prefix_of` t -> I (replay t1 fs).
Proof.
  intros Hstep Ht Hi t1 [t2 ->]. apply Forall_app in Ht as [Ht _]. clear t2. revert fs Hi.
  induction Ht as [|e t He _ IH]; intros fs Hi; [done|]. apply IH. by apply Hstep.
Qed.
End from.

(** ** Programs up to what they do

    Two programs are equivalent when no world can tell them apart; sequencing
    respects it and is associative. *)
Definition peq `{Env} {A} (p q : M wop A) : Prop := forall w, exec p w = exec q w.

#[export] Instance peq_equivalence `{Env} {A} : Equivalence (@peq _ A).
Proof. split; [by intros p w|by intros p q Hpq w|intros p q r Hp Hq w; by rewrite Hp]. Qed.

Lemma exec_bind_eq `{Env} {A B} (p : M wop A) (f : A -> M wop B) w :
  exec (mbind (M := M wop) f p) w =
  match exec p w with
  | (Ok a, w1, t1) => let '(r, w2, t2) := exec (f a) w1 in (r, w2, (t1 ++ t2)%list)
  | (Err e, w1, t1) => (Err e, w1, t1)
  end.
Proof.
  change (mbind f p) with (pbind p (fun r => match r with Ok a => f a | Err e => Ret (Err e) end)).
  unfold exec. rewrite run_bind. destruct (run wstep p w) as [[[a|e] w1] t1]; [done|].
  simpl. by rewrite app_nil_r.
Qed.

#[export] Instance peq_bind `{Env} {A B} :
  Proper (pointwise_relation A peq ==> peq ==> peq) (mbind (M := M wop) (A := A) (B := B)).
Proof.
  intros f g Hfg p q Hpq w. rewrite !exec_bind_eq, Hpq. destruct (exec q w) as [[[a|e] w1] t1]; [|done].
  by rewrite Hfg.
Qed.

Lemma peq_assoc `{Env} {A B C} (p : M wop A) (f : A -> M wop B) (g : B -> M wop C) :
  peq (mbind (M := M wop) g (mbind (M := M wop) f p)) (mbind (M := M wop) (fun a => mbind (M := M wop) g (f a)) p).
Proof.
  intros w. rewrite !exec_bind_eq. destruct (exec p w) as [[[a|e] w1] t1]; [|done].
  rewrite exec_bind_eq. destruct (exec (f a) w1) as [[[b|e] w2] t2]; [|done].
  destruct (exec (g b) w2) as [[c w3] t3]. by rewrite app_assoc.
Qed.

Lemma peq_fail `{Env} {A B} e (f : A -> M wop B) : peq (fail e) (mbind (M := M wop) f (fail e)).
Proof. by intros w. Qed.

Lemma peq_ret_bind `{Env} {A B} (a : A) (f : A -> M wop B) : peq (mbind (M := M wop) f (mret a)) (f a).
Proof. intros w. rewrite exec_bind_eq. simpl. by destruct (exec (f a) w) as [[??]?]. Qed.
