(* ===== verification/Core.v ===== *)
(** * Core: package [internal/core]

    The data shared by the panel and the worker ([site.go], [resources.go],
    [storage.go]) and its validation: identifiers, domains, relative paths,
    backup policies, resource limits and host capacity. *)
From S2P Require Import Prelude GoStrings GoPath GoRegexp GoFloat GoTime.

(** ** Site data *)
Definition Status := string.
Definition StatusCreating : Status := "creating".
Definition StatusRunning : Status := "running".
Definition StatusStopped : Status := "stopped".
Definition StatusFailed : Status := "failed".
Definition StatusDeleting : Status := "deleting".
Definition StatusUnhealthy : Status := "unhealthy".

Module Backup.
Record t := mk { ID : string; CreatedAt : time; Source : string }.
End Backup.

Definition BackupSourceManual := "manual".
Definition BackupSourceScheduled := "scheduled".
Definition BackupSourceSafety := "safety".

Module BackupPolicy.
Record t := mk {
  Enabled : bool;
  IntervalHours : Z;
  Retention : Z;
  NextRunAt : time;
  LastAttemptAt : time;
  LastSuccessAt : time;
  LastError : string;
}.
End BackupPolicy.

Module Operation.
Record t := mk {
  ID : string;
  Kind : string;
  State : string;
  StartedAt : time;
  FinishedAt : time;
  Error : string;
  Backup : option Backup.t;
  AdmissionRejected : bool;
}.
End Operation.

Module Site.
Record t := mk {
  ID : string;
  Domain : string;
  Title : string;
  AdminEmail : string;
  MemoryMB : Z;
  CPUs : f64;
  Status : string;
  Error : string;
  CreatedAt : time;
  Backups : list Backup.t;
  BackupPolicy : BackupPolicy.t;
  MailEnabled : bool;
  Operation : option Operation.t;
  HealthError : string;
  HealthCheckedAt : time;
}.
End Site.

Module Resources.
Record t := mk { MemoryMB : Z; CPUs : f64 }.
End Resources.

Module ResourcePlan.
Record t := mk { ID : string; Name : string; Resources : Resources.t }.
End ResourcePlan.

Module HostCapacity.
Record t := mk {
  OtherMemoryBytes : Z;
  OtherCPUs : f64;
  CPUs : f64;
  MemoryBytes : Z;
  ReservedCPUs : f64;
  ReservedMemoryBytes : Z;
  AllocatedCPUs : f64;
  AllocatedMemoryBytes : Z;
  DockerDiskFreeBytes : Z;
  DataDiskFreeBytes : Z;
}.
End HostCapacity.

Module StorageCapability.
Record t := mk {
  WordPressFilesystem : string;
  DatabaseFilesystem : string;
  SameFilesystem : bool;
  ProjectAccounting : bool;
  ProjectEnforcement : bool;
  Reason : string;
}.
End StorageCapability.

Module SiteRuntime.
Record t := mk {
  Status : string;
  Detail : string;
  Operation : option Operation.t;
  Resources : option Resources.t;
}.
End SiteRuntime.

(** ** Requests to the worker and their answers *)
Module CreateRequest.
Record t := mk { Site : Site.t; DBPassword : string; AdminPassword : string }.
End CreateRequest.

Module BackupRequest.
Record t := mk { Site : Site.t; BackupID : string }.
End BackupRequest.

Module DeleteBackupRequest.
Record t := mk { SiteID : string; BackupID : string }.
End DeleteBackupRequest.

Module RestoreRequest.
Record t := mk { Site : Site.t; BackupID : string; SafetyBackupID : string }.
End RestoreRequest.

Module UpdateRequest.
Record t := mk { Site : Site.t }.
End UpdateRequest.

Module ResourceRequest.
Record t := mk { Site : Site.t; Resources : Resources.t }.
End ResourceRequest.

(** The contents are bytes; on the wire they are base64. *)
Module FileRequest.
Record t := mk { SiteID : string; Path : string; Destination : string; Content : string }.
End FileRequest.

Module FileEntry.
Record t := mk { Name : string; Type_ : string; Size : Z; Modified : Z }.
End FileEntry.

Module FileContent.
Record t := mk { Name : string; Content : string }.
End FileContent.

Module ContainerStats.
Record t := mk { CPU : string; Memory : string; MemoryPC : string; NetIO : string; BlockIO : string; PIDs : string }.
End ContainerStats.

Module SiteStats.
Record t := mk { WordPress : option ContainerStats.t; Database : option ContainerStats.t }.
End SiteStats.

Module SiteStorage.
Record t := mk { WordPressBytes : Z; DatabaseBytes : Z; BackupBytes : Z }.
End SiteStorage.

(** ** Identifiers *)
Definition isLowerDigit (c : ascii) : bool := isLower c || isDigit c.

(** [domainLabel], [siteID] and [backupID]. *)
Definition domainLabel : re :=
  Seq (Cls isLowerDigit)
      (Alt (Seq (Rep 0 61 (Cls (fun c => isLowerDigit c || Ascii.eqb c "-"))) (Cls isLowerDigit)) Eps).
Definition siteID : re := exactly 16 isHexLower.
Definition backupID : re :=
  Seq (exactly 8 isDigit) (Seq (lit "T") (Seq (exactly 6 isDigit)
    (Seq (lit "Z") (Seq (lit "-") (exactly 8 isHexLower))))).

(** [NewID], [RandomPassword] and [NewBackupID], given the random bytes. *)
Definition newID (b : string) : string := hexEncode b.
Definition randomPassword (b : string) : string := hexEncode b.
Definition newBackupID (now : time) (b : string) : string := formatCompact now +:+ "-" +:+ hexEncode b.

Definition ValidID (id : string) : bool := matchString siteID id.
Definition ValidBackupID (id : string) : bool := matchString backupID id.

(** ** Validation *)
Definition ValidateBackupPolicy (p : BackupPolicy.t) : result unit :=
  if negb (BackupPolicy.Enabled p) then Ok tt
  else
    let h := BackupPolicy.IntervalHours p in
    if negb ((h =? 6) || (h =? 12) || (h =? 24) || (h =? 168))
    then Err (EMsg "backup interval must be 6, 12, 24, or 168 hours")
    else if (BackupPolicy.Retention p <? 1) || (30 <? BackupPolicy.Retention p)
    then Err (EMsg "backup retention must be between 1 and 30")
    else Ok tt.

Definition ValidRelativePath (path : string) (allowEmpty : bool) : bool :=
  if String.eqb path "" then allowEmpty
  else if (512 <? lenZ path) || hasPrefix path "/" || containsAny path (NUL +:+ NL +:+ CR +:+ "\")
  then false
  else
    let c := clean path in
    if String.eqb c "." || negb (String.eqb c path) then false
    else forallb (fun part => negb (String.eqb part "" || String.eqb part "." || String.eqb part ".."))
                 (split slash path).

Section validation.
Context `{Unicode}.

Definition NormalizeDomain (raw : string) : result string :=
  let domain := toLower (trimSpace raw) in
  if String.eqb domain "" || (253 <? lenZ domain) || containsAny domain ("/:@\" +:+ NL +:+ CR +:+ TAB +:+ " ")
  then Err (EMsg "invalid domain")
  else
    let labels := split "." domain in
    if (Z.of_nat (length labels) <? 2) then Err (EMsg "domain must include a suffix")
    else if negb (forallb (matchString domainLabel) labels) then Err (EMsg "invalid domain label")
    else if String.eqb (default "" (last labels)) "localhost" && negb (Z.of_nat (length labels) =? 2)
    then Err (EMsg "local domain must be one level below localhost")
    else Ok domain.

Definition ValidateSite (s : Site.t) : result unit :=
  if negb (ValidID (Site.ID s)) then Err (EMsg "invalid site ID")
  else match NormalizeDomain (Site.Domain s) with
  | Err e => Err e
  | Ok _ =>
    if String.eqb (trimSpace (Site.Title s)) "" || (120 <? runeCount (Site.Title s))
    then Err (EMsg "title must be 1 to 120 characters")
    else if containsAny (Site.Title s) (NL +:+ CR) then Err (EMsg "title must be one line")
    else if String.eqb (trimSpace (Site.AdminEmail s)) "" || (254 <? lenZ (Site.AdminEmail s)) ||
            containsAny (Site.AdminEmail s) (" " +:+ NL +:+ CR +:+ TAB) ||
            negb (contains (Site.AdminEmail s) "@")
    then Err (EMsg "invalid admin email")
    else if negb (Site.MemoryMB s =? 0) && ((Site.MemoryMB s <? 256) || (8192 <? Site.MemoryMB s))
    then Err (EMsg "memory must be between 256 and 8192 MB per container")
    else if isNaN (Site.CPUs s) || isInf (Site.CPUs s) ||
            negb (feqb (Site.CPUs s) (fofZ 0)) &&
            (fltb (Site.CPUs s) (quarter 1) || fgtb (Site.CPUs s) (fofZ 8))
    then Err (EMsg "CPU limit must be between 0.25 and 8 per container")
    else Ok tt
  end.
End validation.

(** ** Resources *)
Definition ResourceLimits (s : Site.t) : Z * f64 :=
  (if Site.MemoryMB s =? 0 then 512 else Site.MemoryMB s,
   if feqb (Site.CPUs s) (fofZ 0) then fofZ 1 else Site.CPUs s).

(** The float64 constant [.000001]. *)
Definition epsilon6 : f64 := fratio 1 1000000.

Definition validateResources (r : Resources.t) : result unit :=
  let c := Resources.CPUs r in
  if (Resources.MemoryMB r <? 256) || (8192 <? Resources.MemoryMB r)
  then Err (EMsg "memory must be between 256 and 8192 MiB per container")
  else if isNaN c || isInf c || fltb c (quarter 1) || fgtb c (fofZ 8) ||
          fgtb (fabs (fsub (fmul c (fofZ 4)) (fround (fmul c (fofZ 4))))) epsilon6
  then Err (EMsg "CPU must be between 0.25 and 8, in steps of 0.25, per container")
  else Ok tt.

Definition SiteResources (s : Site.t) : Resources.t :=
  let '(m, c) := ResourceLimits s in Resources.mk m c.

(** Struct equality [r1 == r2] (floats compared as floats). *)
Definition resourcesEqb (r1 r2 : Resources.t) : bool :=
  (Resources.MemoryMB r1 =? Resources.MemoryMB r2) && feqb (Resources.CPUs r1) (Resources.CPUs r2).

Definition validateResourcePlan (p : ResourcePlan.t) : result unit :=
  if negb (ValidID (ResourcePlan.ID p)) || String.eqb (trimSpace (ResourcePlan.Name p)) "" ||
     (60 <? runeCount (ResourcePlan.Name p)) || containsAny (ResourcePlan.Name p) (NL +:+ CR +:+ NUL)
  then Err (EMsg "resource plan needs a valid ID and a name of 1 to 60 characters")
  else validateResources (ResourcePlan.Resources p).

(** ** Host capacity *)
Definition AvailableMemoryBytes (h : HostCapacity.t) : Z :=
  Z.max 0 (wrap64 (wrap64 (wrap64 (HostCapacity.MemoryBytes h - HostCapacity.ReservedMemoryBytes h)
                           - HostCapacity.AllocatedMemoryBytes h)
                   - HostCapacity.OtherMemoryBytes h)).

Definition AvailableCPUs (h : HostCapacity.t) : f64 :=
  fmax (fofZ 0) (fsub (fsub (fsub (HostCapacity.CPUs h) (HostCapacity.ReservedCPUs h))
                            (HostCapacity.AllocatedCPUs h)) (HostCapacity.OtherCPUs h)).

Definition MiB : Z := 1024 * 1024.
Definition GiB : Z := 1024 * MiB.

Definition checkHost (h : HostCapacity.t) (r : Resources.t) : result unit :=
  match validateResources r with
  | Err e => Err e
  | Ok _ =>
    if (HostCapacity.MemoryBytes h <=? 0) || fleb (HostCapacity.CPUs h) (fofZ 0)
    then Err (EMsg "host capacity is unavailable")
    else if AvailableMemoryBytes h <? wrap64 (Resources.MemoryMB r * 2 * 1024 * 1024)
    then Err (EMsg "insufficient RAM capacity for both site containers and the host reserve")
    else if fgtb (fmul (Resources.CPUs r) (fofZ 2)) (fadd (AvailableCPUs h) epsilon6)
    then Err (EMsg "insufficient CPU capacity for both site containers and the host reserve")
    else if Z.min (HostCapacity.DockerDiskFreeBytes h) (HostCapacity.DataDiskFreeBytes h) <? 2 * GiB
    then Err (EMsg "at least 2 GiB free is required on Docker and panel data storage")
    else Ok tt
  end.

(** ** Storage *)
Definition SupportsProjectQuotas (c : StorageCapability.t) : bool :=
  String.eqb (StorageCapability.Reason c) "supported" &&
  String.eqb (StorageCapability.WordPressFilesystem c) "xfs" &&
  String.eqb (StorageCapability.DatabaseFilesystem c) "xfs" &&
  StorageCapability.SameFilesystem c && StorageCapability.ProjectAccounting c &&
  StorageCapability.ProjectEnforcement c.
