(* ===== verification/CoreFacts.v ===== *)
(** * CoreFacts: what the validators of [internal/core] guarantee

    Identifiers generated by the program are accepted by its own validators;
    domains are normalised once and for all; a relative path stays inside the
    directory it is joined to; an admitted site fits the host. *)
From S2P Require Import Prelude GoStrings Utf8Facts GoPath GoRegexp GoFloat GoTime Core.

(** ** Hexadecimal output *)
Lemma hexDigit_isHex d : 0 <= d < 16 -> isHexLower (hexDigit d) = true.
Proof.
  intros H. unfold hexDigit, isHexLower, isDigit, inRange.
  destruct (d <? 10) eqn:E; rewrite ?Z.ltb_lt, ?Z.ltb_ge in E; rewrite byteZ_chrZ by lia;
    rewrite orb_true_iff, !andb_true_iff, !Z.leb_le; lia.
Qed.

Lemma hexEncode_spec b :
  String.length (hexEncode b) = (2 * String.length b)%nat /\ strForall isHexLower (hexEncode b) = true.
Proof.
  induction b as [|c b [IH1 IH2]]; simpl; [done|]. pose proof (byteZ_range c).
  rewrite IH1, IH2, !hexDigit_isHex; [split; [lia|done]|apply Z.mod_pos_bound; lia|].
  split; [apply Z.div_pos; lia|apply Z.div_lt_upper_bound; lia].
Qed.

(** ** Identifiers *)
Lemma ValidID_iff id :
  ValidID id = true <-> String.length id = 16%nat /\ strForall isHexLower id = true.
Proof. apply matchString_exactly. Qed.

Lemma matchK_lit c s k : matchK (lit c) s k = true <-> exists t, s = String c t /\ k t = true.
Proof.
  unfold lit. simpl. destruct s as [|d s]; [split; [done|by intros (?&?&?)]|].
  rewrite andb_true_iff, Ascii.eqb_eq. split; [intros [-> ?]; eauto|by intros (t&[= -> ->]&?)].
Qed.

Lemma match_exactly_app n p s t k :
  String.length s = n -> strForall p s = true -> k t = true ->
  matchK (exactly n p) (s +:+ t) k = true.
Proof.
  intros <- Hp Hk. apply match_exactly. rewrite length_app_str, take_app, drop_app.
  repeat split; auto; lia.
Qed.

Lemma digits_fields2 a b : 0 <= a < 100 -> 0 <= b < 100 ->
  String.length (padZero 2 a +:+ padZero 2 b) = 4%nat /\
  strForall isDigit (padZero 2 a +:+ padZero 2 b) = true.
Proof.
  intros Ha Hb. destruct (padZero_spec 2 a) as [La Fa]; [lia|simpl; lia|].
  destruct (padZero_spec 2 b) as [Lb Fb]; [lia|simpl; lia|].
  by rewrite length_app_str, strForall_app, La, Lb, Fa, Fb.
Qed.

(** The compact timestamp: eight digits, T, six digits, Z. *)
Lemma formatCompact_shape now : 0 <= yearOf now <= 9999 ->
  exists day clock, formatCompact now = day +:+ "T" +:+ clock +:+ "Z" /\
    String.length day = 8%nat /\ strForall isDigit day = true /\
    String.length clock = 6%nat /\ strForall isDigit clock = true.
Proof.
  intros Hy. unfold formatCompact. unfold yearOf in Hy.
  destruct (civil (unixSeconds now / 86400)) as [[y m] d] eqn:E. simpl in Hy.
  apply civil_bounds in E as [Hm Hd]. set (sod := unixSeconds now mod 86400).
  assert (0 <= sod < 86400) by (apply Z.mod_pos_bound; lia).
  exists (formatYear y +:+ padZero 2 m +:+ padZero 2 d),
    (padZero 2 (sod / 3600) +:+ padZero 2 ((sod / 60) mod 60) +:+ padZero 2 (sod mod 60)).
  unfold formatYear. rewrite (proj2 (Z.ltb_ge y 0)) by lia.
  destruct (padZero_spec 4 y) as [Ly Fy]; [lia|simpl; lia|].
  destruct (digits_fields2 m d) as [Ld Fd]; [lia|lia|].
  destruct (padZero_spec 2 (sod / 3600)) as [Lh Fh]; [lia|simpl; Z.div_mod_to_equations; lia|].
  destruct (digits_fields2 ((sod / 60) mod 60) (sod mod 60)) as [Ls Fs];
    [Z.div_mod_to_equations; lia|Z.div_mod_to_equations; lia|].
  rewrite !app_assoc_str. split; [done|].
  rewrite (length_app_str (padZero 4 y)), (length_app_str (padZero 2 (sod / 3600))).
  rewrite (strForall_app _ (padZero 4 y)), (strForall_app _ (padZero 2 (sod / 3600))).
  by rewrite Ly, Lh, Ld, Ls, Fy, Fh, Fd, Fs.
Qed.

Lemma newID_valid b : String.length b = 8%nat -> ValidID (newID b) = true.
Proof. intros Hb. apply ValidID_iff. destruct (hexEncode_spec b) as [H1 H2]. unfold newID. by rewrite H1, Hb. Qed.

Lemma hex_utf8 s : validUTF8 (hexEncode s) = true.
Proof.
  apply validUTF8_ascii. destruct (hexEncode_spec s) as [_ Hh]. revert Hh. apply strForall_impl. intros c.
  unfold isHexLower, isDigit, isAscii. rewrite orb_true_iff, !inRange_iff. intros Hc. apply Z.ltb_lt. lia.
Qed.

Lemma id_utf8 id : ValidID id = true -> validUTF8 id = true.
Proof.
  intros [_ Hh]%ValidID_iff. apply validUTF8_ascii. revert Hh. apply strForall_impl. intros c.
  unfold isHexLower, isDigit, isAscii. rewrite orb_true_iff, !inRange_iff. intros Hc. apply Z.ltb_lt. lia.
Qed.

(** Identifiers the program generates are accepted by its own validators:
    site and operation IDs made from 8 random bytes by [ValidID], backup IDs by
    [ValidBackupID] at every instant of the years 0 to 9999. *)
Theorem generated_ids_valid b8 b4 now :
  String.length b8 = 8%nat -> String.length b4 = 4%nat -> 0 <= yearOf now <= 9999 ->
  ValidID (newID b8) = true /\ ValidBackupID (newBackupID now b4) = true.
Proof.
  intros H8 H4 Hy. split; [by apply newID_valid|].
  unfold newBackupID. destruct (formatCompact_shape now Hy) as (day&clk&->&L8&F8&L6&F6).
  destruct (hexEncode_spec b4) as [Lb Fb]. rewrite !app_assoc_str.
  unfold ValidBackupID, matchString, backupID.
  apply match_exactly_app; [done..|]. apply matchK_lit. eexists. split; [reflexivity|].
  apply match_exactly_app; [done..|]. apply matchK_lit. eexists. split; [reflexivity|].
  apply matchK_lit. eexists. split; [reflexivity|].
  rewrite <- (app_nil_r_str (hexEncode b4)). apply match_exactly_app; [lia|done|done].
Qed.

Lemma generated_ids_valid_witness :
  ValidID (newID "abcdefgh") = true /\
  ValidBackupID (newBackupID (1790000000 * second) "wxyz") = true.
Proof. apply generated_ids_valid; [reflexivity|reflexivity|split; vm_compute; congruence]. Defined.

(** ** Domains *)

(** A DNS label: 1 to 63 bytes of [a-z0-9-], no hyphen at either end. *)
Definition isLabelChar (c : ascii) : bool := isLowerDigit c || Ascii.eqb c "-".
Definition labelOK (l : string) : Prop :=
  (1 <= String.length l <= 63)%nat /\ strForall isLabelChar l = true /\
  exists a m z, (l = String a "" /\ isLowerDigit a = true) \/
                (l = String a m +:+ String z "" /\ isLowerDigit a = true /\ isLowerDigit z = true).

Definition domainOK (d : string) : Prop :=
  let labels := split "." d in
  lenZ d <= 253 /\ (2 <= length labels)%nat /\ Forall labelOK labels /\
  (last labels = Some "localhost" -> length labels = 2%nat).

Lemma matchString_domainLabel l : matchString domainLabel l = true -> labelOK l.
Proof.
  unfold matchString, domainLabel. cbn [matchK]. destruct l as [|a l]; [done|].
  intros [Ha H]%andb_prop. apply orb_prop in H as [H|H].
  - change (matchK (Rep 0 61 (Cls (fun c => isLowerDigit c || Ascii.eqb c "-"))) l
       (fun t => match t with String c t0 => isLowerDigit c && String.eqb t0 "" | _ => false end) = true) in H.
    apply match_rep_cls in H; [|lia]. destruct H as (n&Hn&Hl&Hp&Hk).
    destruct (drop n l) as [|z rest] eqn:Ed; [done|]. apply andb_prop in Hk as [Hz ->%String.eqb_eq].
    pose proof (take_drop_str n l) as Htd. rewrite Ed in Htd.
    assert (String.length (take n l) = n) as Hlen.
    { clear -Hl. revert l Hl. induction n as [|n IH]; intros [|c l]; simpl; intros; try lia.
      rewrite IH; lia. }
    rewrite <- Htd. repeat split; [simpl; lia|simpl; rewrite length_app_str; simpl; lia| |].
    + simpl. unfold isLabelChar at 1. rewrite Ha, strForall_app. simpl. unfold isLabelChar.
      rewrite Hz. simpl. by rewrite Hp.
    + exists a, (take n l), z. right. done.
  - apply String.eqb_eq in H as ->. repeat split; [simpl; lia..| |].
    + simpl. unfold isLabelChar. by rewrite Ha.
    + exists a, "", a. by left.
Qed.

Lemma domain_chars d :
  Forall labelOK (split "." d) -> strForall (fun c => isLabelChar c || Ascii.eqb c ".") d = true.
Proof.
  intros H. rewrite <- (join_split "." d). apply strForall_join; [done|].
  eapply Forall_impl; [exact H|]. intros l (_&Hl&_).
  eapply strForall_impl; [|exact Hl]. simpl. by intros c ->.
Qed.

Lemma labelChar_plain c :
  isLabelChar c || Ascii.eqb c "." = true ->
  isAscii c && negb (isSpaceRune (byteZ c)) = true /\ isAscii c && negb (isUpper c) = true.
Proof. destruct c as [[] [] [] [] [] [] [] []]; vm_compute; first [by split|discriminate]. Qed.

Section domains.
Context `{Unicode}.

Lemma NormalizeDomain_spec raw d : NormalizeDomain raw = Ok d <->
  d = toLower (trimSpace raw) /\ String.eqb d "" = false /\ lenZ d <= 253 /\
  containsAny d ("/:@\" +:+ NL +:+ CR +:+ TAB +:+ " ") = false /\
  (2 <= length (split "." d))%nat /\ forallb (matchString domainLabel) (split "." d) = true /\
  (last (split "." d) = Some "localhost" -> length (split "." d) = 2%nat).
Proof.
  unfold NormalizeDomain. generalize (toLower (trimSpace raw)). intros x.
  destruct (String.eqb x "") eqn:E1; simpl; [split; [done|by intros (->&?&_); congruence]|].
  destruct (253 <? lenZ x) eqn:E2; [apply Z.ltb_lt in E2|apply Z.ltb_ge in E2]; simpl.
  { split; [done|intros (->&_&?&_); lia]. }
  destruct (containsAny x _) eqn:E3; [split; [done|by intros (->&_&_&?&_); congruence]|].
  destruct (Z.of_nat (length (split "." x)) <? 2) eqn:E4;
    [apply Z.ltb_lt in E4|apply Z.ltb_ge in E4].
  { split; [done|intros (->&_&_&_&?&_); lia]. }
  destruct (forallb (matchString domainLabel) (split "." x)) eqn:E5; simpl.
  2: { split; [done|by intros (->&_&_&_&_&?&_); congruence]. }
  destruct (String.eqb (default "" (last (split "." x))) "localhost") eqn:E6; simpl.
  - destruct (Z.of_nat (length (split "." x)) =? 2) eqn:E7; simpl;
      [apply Z.eqb_eq in E7|apply Z.eqb_neq in E7].
    + split; [intros [= <-]; repeat split; auto; lia|by intros (->&_)].
    + split; [done|]. intros (->&_&_&_&_&_&Hl). apply String.eqb_eq in E6.
      destruct (last (split "." x)); simpl in E6; [subst; rewrite Hl in E7 by done; done|done].
  - split; [intros [= <-]; repeat split; auto; [lia|]|by intros (->&_)].
    intros Hl. rewrite Hl in E6. done.
Qed.

(** An accepted domain has at most 253 bytes and at least two DNS labels,
    only lower-case labels, nothing below one level of [localhost], and is a
    fixed point of the normalisation. *)
Theorem NormalizeDomain_sound raw d :
  NormalizeDomain raw = Ok d -> domainOK d /\ NormalizeDomain d = Ok d.
Proof.
  intros Hn. pose proof Hn as (->&He&Hl&Hc&H2&Hf&Hloc)%NormalizeDomain_spec.
  set (d := toLower (trimSpace raw)) in *.
  assert (Forall labelOK (split "." d)) as Hlab.
  { rewrite forallb_forall in Hf. apply Forall_forall. intros l Hin.
    apply matchString_domainLabel, Hf. by apply list_elem_of_In. }
  split; [done|]. apply NormalizeDomain_spec.
  pose proof (domain_chars d Hlab) as Hch.
  assert (toLower (trimSpace d) = d) as ->; [|done].
  rewrite trimSpace_id by (eapply strForall_impl; [|exact Hch]; intros c Hc'; by apply labelChar_plain).
  apply toLower_id. eapply strForall_impl; [|exact Hch]. intros c Hc'. by apply labelChar_plain.
Qed.
End domains.

(** An ASCII-only Unicode table, for the concrete examples. *)
Definition asciiUnicode : Unicode :=
  {| toLowerHigh := fun z => z; simpleFoldEq := fun _ _ => false; isPrintHigh := fun _ => true |}.

Lemma NormalizeDomain_sound_witness :
  domainOK "blog.example.com" /\ @NormalizeDomain asciiUnicode "blog.example.com" = Ok "blog.example.com".
Proof. apply (@NormalizeDomain_sound asciiUnicode " Blog.Example.COM "). vm_compute. reflexivity. Defined.

(** ** Relative paths *)
Definition pathBad : string := NUL +:+ NL +:+ CR +:+ "\".

Lemma hasPrefix_slash_split p :
  p <> "" -> forallb plainElem (split slash p) = true -> hasPrefix p "/" = false.
Proof.
  destruct p as [|c p]; [done|]. intros _. destruct (Ascii.eqb_spec c slash) as [->|Hc].
  - by cbn [split].
  - intros _. destruct (hasPrefix (String c p) "/") eqn:E; [|done].
    apply hasPrefix_true in E as [t [= -> _]]. by destruct Hc.
Qed.

Lemma plainElem_not_dot p :
  forallb plainElem (split slash p) = true -> String.eqb p "." = false.
Proof. intros H. apply String.eqb_neq. intros ->. vm_compute in H. discriminate. Qed.

Lemma ValidRelativePath_plain p :
  ValidRelativePath p false = true <->
    p <> "" /\ lenZ p <= 512 /\ containsAny p pathBad = false /\ forallb plainElem (split slash p) = true.
Proof.
  unfold ValidRelativePath. fold pathBad.
  destruct (String.eqb p "") eqn:E0.
  { apply String.eqb_eq in E0 as ->. split; [done|by intros [? _]]. }
  apply String.eqb_neq in E0.
  change (fun part => negb _) with plainElem.
  split.
  - destruct (512 <? lenZ p) eqn:E1; [done|]. apply Z.ltb_ge in E1. cbn [orb].
    destruct (hasPrefix p "/"); [done|]. cbn [orb].
    destruct (containsAny p pathBad) eqn:E3; [done|]. cbv zeta.
    by destruct (String.eqb (clean p) "." || _).
  - intros (_&H1&H2&H3). rewrite (proj2 (Z.ltb_ge 512 (lenZ p))) by done.
    pose proof (hasPrefix_slash_split p E0 H3) as Hpre.
    rewrite Hpre, H2. cbn [orb]. cbv zeta. rewrite (clean_plain p E0 H3 Hpre).
    by rewrite plainElem_not_dot, String.eqb_refl.
Qed.

Lemma ValidRelativePath_empty p : ValidRelativePath p true = String.eqb p "" || ValidRelativePath p false.
Proof. unfold ValidRelativePath. by destruct (String.eqb p ""). Qed.


(** ** Resources *)

(** The valid CPU limits on the documented grid: every multiple of 0.25 from
    0.25 to 8, and no other multiple. *)
Lemma quarter_grid :
  forallb (fun k => Bool.eqb (is_ok (validateResources (Resources.mk 256 (quarter (Z.of_nat k)))))
                             ((1 <=? Z.of_nat k) && (Z.of_nat k <=? 32))) (seq 0 41) = true.
Proof. vm_compute. reflexivity. Qed.

Lemma validateResources_split m c :
  is_ok (validateResources (Resources.mk m c)) =
  (256 <=? m) && (m <=? 8192) && is_ok (validateResources (Resources.mk 256 c)).
Proof.
  unfold validateResources. cbn [Resources.MemoryMB Resources.CPUs].
  destruct (256 <=? m) eqn:E1; [apply Z.leb_le in E1|apply Z.leb_gt in E1]; simpl;
    destruct (m <=? 8192) eqn:E2; [apply Z.leb_le in E2|apply Z.leb_gt in E2| |]; simpl.
  - by rewrite (proj2 (Z.ltb_ge m 256)), (proj2 (Z.ltb_ge 8192 m)) by lia.
  - by rewrite (proj2 (Z.ltb_lt 8192 m)), orb_true_r by lia.
  - by rewrite (proj2 (Z.ltb_lt m 256)) by lia.
  - by rewrite (proj2 (Z.ltb_lt m 256)) by lia.
Qed.

(** On the grid of quarter CPUs up to 10, validation accepts exactly 256 to
    8192 MiB and 0.25 to 8 CPUs. *)
Theorem validateResources_grid m k :
  0 <= k <= 40 ->
  is_ok (validateResources (Resources.mk m (quarter k))) =
  (256 <=? m) && (m <=? 8192) && (1 <=? k) && (k <=? 32).
Proof.
  intros Hk. rewrite validateResources_split, <- !andb_assoc. do 2 f_equal.
  pose proof quarter_grid as Hg. rewrite forallb_forall in Hg.
  specialize (Hg (Z.to_nat k)). rewrite Z2Nat.id in Hg by lia. cbv beta in Hg.
  apply Bool.eqb_prop, Hg. apply in_seq. lia.
Qed.

Lemma validateResources_grid_witness :
  is_ok (validateResources (Resources.mk 512 (quarter 2))) = true.
Proof. rewrite (validateResources_grid 512 2); [reflexivity|lia]. Defined.

(** ** Host capacity *)
Lemma wrap64_id z : inInt64 z = true -> wrap64 z = z.
Proof.
  unfold inInt64, wrap64, minInt64, maxInt64. rewrite andb_true_iff, !Z.leb_le. intros.
  rewrite Z.mod_small; lia.
Qed.

(** Sizes no machine reaches: below 2^60 bytes. *)
Definition saneBytes (z : Z) : Prop := 0 <= z < 2 ^ 60.
Definition saneHost (h : HostCapacity.t) : Prop :=
  saneBytes (HostCapacity.MemoryBytes h) /\ saneBytes (HostCapacity.ReservedMemoryBytes h) /\
  saneBytes (HostCapacity.AllocatedMemoryBytes h) /\ saneBytes (HostCapacity.OtherMemoryBytes h).

Lemma wrap64_bounded z : - 2 ^ 62 <= z <= 2 ^ 62 -> wrap64 z = z.
Proof.
  intros H. apply wrap64_id. unfold inInt64, minInt64, maxInt64.
  change (2 ^ 62) with 4611686018427387904 in H. rewrite andb_true_iff, !Z.leb_le. lia.
Qed.

(** No overflow in the subtraction chain of [AvailableMemoryBytes]. *)
Lemma AvailableMemoryBytes_sane h : saneHost h ->
  AvailableMemoryBytes h =
  Z.max 0 (HostCapacity.MemoryBytes h - HostCapacity.ReservedMemoryBytes h
           - HostCapacity.AllocatedMemoryBytes h - HostCapacity.OtherMemoryBytes h).
Proof.
  intros (H1&H2&H3&H4). unfold saneBytes in *. change (2 ^ 60) with 1152921504606846976 in *.
  unfold AvailableMemoryBytes.
  rewrite (wrap64_bounded (_ - HostCapacity.ReservedMemoryBytes h)) by lia.
  rewrite (wrap64_bounded (_ - HostCapacity.AllocatedMemoryBytes h)) by lia.
  by rewrite (wrap64_bounded (_ - HostCapacity.OtherMemoryBytes h)) by lia.
Qed.

(** C40: when [HostCapacity.Check] admits a request, the memory of both containers
    fits beside the reserve, every allocated site and every other container,
    the CPU budget holds up to the code's tolerance, and both disks keep 2 GiB;
    int64 subtraction does not overflow on host sizes below 2^60 bytes. *)
Theorem checkHost_admits h r :
  saneHost h -> checkHost h r = Ok tt ->
  256 <= Resources.MemoryMB r <= 8192 /\
  2 * (Resources.MemoryMB r * MiB) + HostCapacity.ReservedMemoryBytes h +
    HostCapacity.AllocatedMemoryBytes h + HostCapacity.OtherMemoryBytes h
    <= HostCapacity.MemoryBytes h /\
  fgtb (fmul (Resources.CPUs r) (fofZ 2)) (fadd (AvailableCPUs h) epsilon6) = false /\
  2 * GiB <= HostCapacity.DockerDiskFreeBytes h /\ 2 * GiB <= HostCapacity.DataDiskFreeBytes h.
Proof.
  intros Hs Hc. unfold checkHost in Hc. rewrite (AvailableMemoryBytes_sane h Hs) in Hc.
  destruct (validateResources r) as [[]|] eqn:Hv; [|done].
  assert (256 <= Resources.MemoryMB r <= 8192) as Hm.
  { destruct r as [m c]. pose proof (validateResources_split m c) as Hr. rewrite Hv in Hr.
    symmetry in Hr. apply andb_prop in Hr as [[?%Z.leb_le ?%Z.leb_le]%andb_prop _]. done. }
  rewrite wrap64_bounded in Hc by (change (2 ^ 62) with 4611686018427387904; lia).
  destruct (_ || _); [done|].
  destruct (_ <? Resources.MemoryMB r * _ * _ * _) eqn:E1; [done|]. apply Z.ltb_ge in E1.
  destruct (fgtb _ _) eqn:E2; [done|].
  destruct (Z.min _ _ <? _) eqn:E3; [done|]. apply Z.ltb_ge in E3.
  unfold MiB, GiB, MiB in *. repeat split; lia.
Qed.

Definition exampleHost : HostCapacity.t :=
  HostCapacity.mk 0 (fofZ 0) (fofZ 4) (8 * GiB) (quarter 2) GiB (fofZ 1) (2 * GiB) (3 * GiB) (4 * GiB).

Lemma checkHost_admits_witness :
  256 <= 768 <= 8192 /\ 2 * (768 * MiB) + GiB + 2 * GiB + 0 <= 8 * GiB /\
  fgtb (fmul (fofZ 1) (fofZ 2)) (fadd (AvailableCPUs exampleHost) epsilon6) = false /\
  2 * GiB <= 3 * GiB /\ 2 * GiB <= 4 * GiB.
Proof.
  apply (checkHost_admits exampleHost (Resources.mk 768 (fofZ 1))).
  - repeat split; vm_compute; congruence.
  - vm_compute. reflexivity.
Defined.

(** ** Backup policies *)

(** An accepted policy that is enabled runs at one of four intervals and keeps
    1 to 30 scheduled backups. *)
Lemma ValidateBackupPolicy_Ok p :
  ValidateBackupPolicy p = Ok tt <->
  (BackupPolicy.Enabled p = true ->
   BackupPolicy.IntervalHours p ∈ [6; 12; 24; 168] /\ 1 <= BackupPolicy.Retention p <= 30).
Proof.
  unfold ValidateBackupPolicy. destruct (BackupPolicy.Enabled p); [|done]. cbn [negb].
  set (h := BackupPolicy.IntervalHours p). set (k := BackupPolicy.Retention p).
  assert (h ∈ [6; 12; 24; 168] <-> h = 6 \/ h = 12 \/ h = 24 \/ h = 168) as -> by set_solver.
  destruct ((h =? 6) || (h =? 12) || (h =? 24) || (h =? 168)) eqn:E1;
    destruct ((k <? 1) || (30 <? k)) eqn:E2; simpl;
    (split; [first [discriminate|intros _ _; lia]|first [reflexivity|intros Hp; specialize (Hp eq_refl); lia]]).
Qed.
