(* ===== verification/Compose.v ===== *)
(** * Compose: the text processing of a site's [compose.yaml]

    [cmd/worker/resources.go] (composeResources), [cmd/worker/quota_restart.go]
    (quotaRestartCompose), [cmd/worker/security.go] (writerCompose) and the
    templates of [cmd/worker/main.go].  A configuration is a byte string; the
    functions split it into lines, and refuse what they do not recognise. *)
From S2P Require Import Prelude GoStrings GoPath GoFloat Core.

Definition lines (s : string) : list string := split (chrZ 10) s.
Definition unlines (l : list string) : string := join NL l.

(** ** Templates *)

(** [composeTemplate] after [fmt.Sprintf], line by line. *)
Definition composeTemplate (id : string) (memory : Z) (cpus : f64) (url : string) : list string :=
  [ "services:";
    "  wordpress:";
    "    image: wordpress:php8.3-apache";
    "    container_name: wph-wp-" +:+ id;
    "    restart: unless-stopped";
    "    environment:";
    "      WORDPRESS_DB_HOST: db:3306";
    "      WORDPRESS_DB_USER: wordpress";
    "      WORDPRESS_DB_NAME: wordpress";
    "      WORDPRESS_DB_PASSWORD_FILE: /run/secrets/db_password";
    "    secrets: [db_password]";
    "    volumes:";
    "      - wordpress_data:/var/www/html";
    "    networks: [frontend, database]";
    "    depends_on:";
    "      db:";
    "        condition: service_healthy";
    "    mem_limit: " +:+ itoa memory +:+ "m";
    "    cpus: " +:+ format2f cpus;
    "    pids_limit: 200";
    "    security_opt: [no-new-privileges:true]";
    "  db:";
    "    image: mariadb:11.8";
    "    container_name: wph-db-" +:+ id;
    "    restart: unless-stopped";
    "    environment:";
    "      MARIADB_DATABASE: wordpress";
    "      MARIADB_USER: wordpress";
    "      MARIADB_PASSWORD_FILE: /run/secrets/db_password";
    "      MARIADB_ROOT_PASSWORD_FILE: /run/secrets/db_root_password";
    "    secrets: [db_password, db_root_password]";
    "    volumes:";
    "      - database_data:/var/lib/mysql";
    "    networks: [database]";
    "    healthcheck:";
    "      test: [CMD, healthcheck.sh, --connect, --innodb_initialized]";
    "      interval: 10s";
    "      timeout: 5s";
    "      retries: 12";
    "    mem_limit: " +:+ itoa memory +:+ "m";
    "    cpus: " +:+ format2f cpus;
    "    pids_limit: 200";
    "    security_opt: [no-new-privileges:true]";
    "  phpmyadmin:";
    "    image: phpmyadmin:5.2-apache";
    "    container_name: wph-pma-" +:+ id;
    "    profiles: [tools]";
    raw "    restart: `no`";
    "    environment:";
    "      PMA_HOST: db";
    "      PMA_USER: wordpress";
    "      PMA_PASSWORD_FILE: /run/secrets/db_password";
    "      PMA_ABSOLUTE_URI: " +:+ url;
    "    secrets: [db_password]";
    "    networks: [database, tools_proxy]";
    "    depends_on:";
    "      db:";
    "        condition: service_healthy";
    "    mem_limit: 256m";
    "    cpus: 0.50";
    "    pids_limit: 100";
    "    security_opt: [no-new-privileges:true]";
    "  cli:";
    "    image: wordpress:cli-php8.3";
    "    profiles: [tools]";
    "    environment:";
    "      WORDPRESS_DB_HOST: db:3306";
    "      WORDPRESS_DB_USER: wordpress";
    "      WORDPRESS_DB_NAME: wordpress";
    "      WORDPRESS_DB_PASSWORD_FILE: /run/secrets/db_password";
    "    secrets: [db_password, admin_password, site_url, site_title, admin_email]";
    "    volumes:";
    "      - wordpress_data:/var/www/html";
    "    networks: [database]";
    "volumes:";
    "  wordpress_data:";
    "  database_data:";
    "networks:";
    "  frontend:";
    "    external: true";
    "    name: wphost-sites-proxy";
    "  database:";
    "    internal: true";
    "  tools_proxy:";
    "    external: true";
    "    name: wphost-tools-proxy";
    "secrets:";
    "  db_password:";
    "    file: ./secrets/db_password";
    "  db_root_password:";
    "    file: ./secrets/db_root_password";
    "  admin_password:";
    "    file: ./secrets/admin_password";
    "  site_url:";
    "    file: ./secrets/site_url";
    "  site_title:";
    "    file: ./secrets/site_title";
    "  admin_email:";
    "    file: ./secrets/admin_email";
    "" ].

Definition renderCompose (id : string) (memory : Z) (cpus : f64) (url : string) : string :=
  unlines (composeTemplate id memory cpus url).

(** [databaseToolTemplate] after [fmt.Sprintf]. *)
Definition databaseToolTemplate (id url : string) : list string :=
  [ "  phpmyadmin:";
    "    image: phpmyadmin:5.2-apache";
    "    container_name: wph-pma-" +:+ id;
    "    profiles: [tools]";
    raw "    restart: `no`";
    "    environment:";
    "      PMA_HOST: db";
    "      PMA_USER: wordpress";
    "      PMA_PASSWORD_FILE: /run/secrets/db_password";
    "      PMA_ABSOLUTE_URI: " +:+ url;
    "    secrets: [db_password]";
    "    networks: [database, tools_proxy]";
    "    depends_on:";
    "      db:";
    "        condition: service_healthy";
    "    mem_limit: 256m";
    "    cpus: 0.50";
    "    pids_limit: 100";
    "    security_opt: [no-new-privileges:true]";
    "" ].

Definition legacyFrontendNetwork : string :=
  unlines ["networks:"; "  frontend:"; "  database:"; "    internal: true"].
Definition sharedFrontendNetwork : string :=
  unlines ["networks:"; "  frontend:"; "    external: true"; "    name: wphost-sites-proxy";
           "  database:"; "    internal: true"].

(** ** composeResources *)

(** A service header: a line indented by exactly two spaces that ends in a colon. *)
Definition isHeader (line : string) : bool :=
  hasPrefix line "  " && negb (hasPrefix line "   ") && hasSuffix line ":".

Record scan := Scan {
  sc_section : string;
  sc_values : gmap string Resources.t;
  sc_counts : gmap string Z;
}.

Definition zeroResources : Resources.t := Resources.mk 0 (fofZ 0).
Definition valueOf (k : string) (st : scan) : Resources.t := default zeroResources (sc_values st !! k).
Definition countOf (k : string) (st : scan) : Z := default 0 (sc_counts st !! k).

Definition sectionOf (cur line : string) : string :=
  let s := if isHeader line then trimSpace (trimSuffix line ":") else cur in
  if negb (String.eqb line "") && negb (hasPrefix line " ") then "" else s.

Definition memLine (m : Z) : string := "    mem_limit: " +:+ itoa m +:+ "m".
Definition cpuLine (c : f64) : string := "    cpus: " +:+ format2f c.

(** One line: the new scanner state and the line to write back. *)
Definition composeLine (replacement : option Resources.t) (st : scan) (line : string)
  : result (scan * string) :=
  let section := sectionOf (sc_section st) line in
  let st := Scan section (sc_values st) (sc_counts st) in
  if negb (String.eqb section "wordpress") && negb (String.eqb section "db") then Ok (st, line)
  else
    let r := valueOf section st in
    match fields line with
    | [f0; f1] =>
        if String.eqb f0 "mem_limit:" then
          match parseInt (trimSuffix f1 "m"), hasSuffix f1 "m" with
          | Ok m, true =>
              Ok (Scan section (<[section := Resources.mk m (Resources.CPUs r)]> (sc_values st))
                       (<[section +:+ "memory" := countOf (section +:+ "memory") st + 1]> (sc_counts st)),
                  match replacement with Some r' => memLine (Resources.MemoryMB r') | None => line end)
          | _, _ => Err (EMsg "unsupported Compose memory limit")
          end
        else if String.eqb f0 "cpus:" then
          match parseFloat f1 with
          | Err e => Err e
          | Ok c =>
              Ok (Scan section (<[section := Resources.mk (Resources.MemoryMB r) c]> (sc_values st))
                       (<[section +:+ "cpu" := countOf (section +:+ "cpu") st + 1]> (sc_counts st)),
                  match replacement with Some r' => cpuLine (Resources.CPUs r') | None => line end)
          end
        else Ok (Scan section (<[section := r]> (sc_values st)) (sc_counts st), line)
    | _ => Ok (st, line)
    end.

Fixpoint composeLines (replacement : option Resources.t) (st : scan) (ls : list string)
  : result (scan * list string) :=
  match ls with
  | [] => Ok (st, [])
  | l :: ls' =>
      '(st1, l1) ← composeLine replacement st l;
      '(st2, ls2) ← composeLines replacement st1 ls';
      Ok (st2, l1 :: ls2)
  end.

Definition scan0 : scan := Scan "" ∅ ∅.

Definition limitKeys : list string := ["wordpressmemory"; "wordpresscpu"; "dbmemory"; "dbcpu"].

(** The checks after the scan. *)
Definition limitsOK (st : scan) (ls : list string) : result (Resources.t * string) :=
  let r := valueOf "wordpress" st in
  if negb (forallb (fun k => countOf k st =? 1) limitKeys)
  then Err (EMsg "missing or duplicated Compose resource limits")
  else if negb (resourcesEqb r (valueOf "db" st))
  then Err (EMsg "WordPress and database resource limits differ; inspect Compose configuration")
  else
    _ ← validateResources r;
    Ok (r, unlines ls).

Definition composeResources (data : string) (replacement : option Resources.t)
  : result (Resources.t * string) :=
  '(st, ls) ← composeLines replacement scan0 (lines data);
  limitsOK st ls.

(** ** quotaRestartCompose *)
Definition restartNo : string := raw "    restart: `no`".
Definition restartUnlessStopped : string := "    restart: unless-stopped".

Record rscan := RScan { rs_section : string; rs_seen : gmap string Z }.
Definition seenOf (k : string) (st : rscan) : Z := default 0 (rs_seen st !! k).

Definition restartSection (cur line : string) : string :=
  if isHeader line then trimSuffix (trimSpace line) ":" else cur.

Definition restartLine (st : rscan) (line : string) : result (rscan * string) :=
  let section := restartSection (rs_section st) line in
  if (String.eqb section "wordpress" || String.eqb section "db") && hasPrefix line "    restart:" then
    if negb (String.eqb line restartUnlessStopped) && negb (String.eqb line restartNo)
    then Err (EMsg "unfamiliar quota restart configuration")
    else Ok (RScan section (<[section := seenOf section st + 1]> (rs_seen st)), restartNo)
  else Ok (RScan section (rs_seen st), line).

Fixpoint restartLines (st : rscan) (ls : list string) : result (rscan * list string) :=
  match ls with
  | [] => Ok (st, [])
  | l :: ls' =>
      '(st1, l1) ← restartLine st l;
      '(st2, ls2) ← restartLines st1 ls';
      Ok (st2, l1 :: ls2)
  end.

Definition quotaRestartCompose (data : string) : result string :=
  '(st, ls) ← restartLines (RScan "" ∅) (lines data);
  if negb (seenOf "wordpress" st =? 1) || negb (seenOf "db" st =? 1)
  then Err (EMsg "missing quota restart policy")
  else Ok (unlines ls).

(** ** writerCompose *)
Definition profileFilename : string := "writer-seccomp-v1.json".

Section writer.
Context `{Unicode}.

(** [writerOptionLine]; [profilePath] is the site's copy of the profile. *)
Definition writerOptionLine (profilePath : string) : string :=
  "    security_opt: [no-new-privileges:true, " +:+ quote ("seccomp=" +:+ profilePath) +:+ "]" +:+ NL.

Definition legacyOption : string := "    security_opt: [no-new-privileges:true]" +:+ NL.

(** [writerCompose] up to the point where it asks [quotaMarked]; the rest is
    [QuotaState.writerCompose]. *)
Definition writerBase (id profilePath data : string) : result string :=
  if negb (ValidID id) then Err (EMsg "invalid site ID")
  else
    let guard := writerOptionLine profilePath in
    let writers := if Nat.eqb (count data ("  phpmyadmin:" +:+ NL)) 1 then 4%nat else 3%nat in
    if negb (forallb (fun service => Nat.eqb (count data (NL +:+ "  " +:+ service +:+ ":" +:+ NL)) 1)
                     ["wordpress"; "db"; "cli"])
    then Err (EMsg "unfamiliar site service configuration")
    else if Nat.eqb (count data guard) writers && Nat.eqb (count data "    security_opt:") writers
    then Ok data
    else if negb (Nat.eqb (count data legacyOption) (writers - 1)) ||
            negb (Nat.eqb (count data "    security_opt:") (writers - 1)) ||
            negb (Nat.eqb (count data ("  cli:" +:+ NL)) 1)
    then Err (EMsg "unfamiliar site security configuration; inspect Compose before applying the writer policy")
    else Ok (replace1 (replaceAll data legacyOption guard)
                      ("  cli:" +:+ NL) ("  cli:" +:+ NL +:+ guard)).

(** The content [ensureDatabaseTool] writes, [None] when nothing is to do. *)
Definition addDatabaseTool (content id url profilePath : string) : result (option string) :=
  if contains content ("  phpmyadmin:" +:+ NL) then Ok None
  else if negb (contains content ("  cli:" +:+ NL)) ||
          negb (contains content ("  database:" +:+ NL +:+ "    internal: true" +:+ NL))
  then Err (EMsg "site compose cannot be upgraded with database manager")
  else
    let tool := unlines (databaseToolTemplate id (quote url)) in
    let tool := if contains content (writerOptionLine profilePath)
                then replace1 tool legacyOption (writerOptionLine profilePath) else tool in
    let content := replace1 content ("  cli:" +:+ NL) (tool +:+ "  cli:" +:+ NL) in
    let content :=
      if contains content (NL +:+ "  tools_proxy:" +:+ NL) then content
      else replace1 content ("  database:" +:+ NL +:+ "    internal: true" +:+ NL)
             ("  database:" +:+ NL +:+ "    internal: true" +:+ NL +:+ "  tools_proxy:" +:+ NL +:+
              "    external: true" +:+ NL +:+ "    name: wphost-tools-proxy" +:+ NL) in
    Ok (Some content).
End writer.
