(* ===== verification/ComposeFacts.v ===== *)
(** * ComposeFacts: what the Compose rewriting functions guarantee

    The resource rewrite is read back by the resource reader, whatever file
    it accepted; the quota restart rewrite is idempotent and pins both
    services; the writer-profile rewrite leaves a hardened file alone. *)
From S2P Require Import Prelude GoStrings Utf8Facts GoPath GoFloat Core Compose.

(** ** Lines *)
Lemma lines_unlines ls :
  ls <> [] -> Forall (fun l => noChar (chrZ 10) l = true) ls -> lines (unlines ls) = ls.
Proof. apply split_join. Qed.

Lemma unlines_lines s : unlines (lines s) = s.
Proof. apply join_split. Qed.

Lemma lines_noNL s : Forall (fun l => noChar (chrZ 10) l = true) (lines s).
Proof. apply split_noChar. Qed.

(** ** Runes before an ASCII byte *)
Lemma ascii_not_continuation lo hi c : 128 <= lo -> isAscii c = true -> inRange lo hi c = false.
Proof.
  unfold isAscii, inRange. intros Hlo Hc%Z.ltb_lt.
  apply andb_false_iff. left. apply Z.leb_gt. lia.
Qed.

(** A byte below 0x80 ends every multi-byte sequence before it. *)
Lemma decodeRune_snoc c0 r c z b rest :
  isAscii c = true ->
  decodeRune c0 r = (z, b, rest) ->
  decodeRune c0 (r +:+ String c "") = (z, b, rest +:+ String c "").
Proof.
  intros Hc. unfold decodeRune.
  assert (forall lo hi, 128 <= lo -> inRange lo hi c = false) as Hr
    by (intros; by apply ascii_not_continuation).
  assert (inRange 128 191 c = false) as H128 by (apply Hr; lia).
  assert (forall x, inRange (if x =? 224 then 160 else 128) (if x =? 237 then 159 else 191) c = false) as H3
    by (intros x; apply Hr; case_match; lia).
  assert (forall x, inRange (if x =? 240 then 144 else 128) (if x =? 244 then 143 else 191) c = false) as H4
    by (intros x; apply Hr; case_match; lia).
  repeat (case_match; simplify_eq/=; rewrite ?H128, ?H3, ?H4, ?andb_false_r in *);
    try congruence; intros; simplify_eq/=; try done; congruence.
Qed.

Lemma decodeRune_parts c0 r z b rest :
  decodeRune c0 r = (z, b, rest) ->
  b <> "" /\ (String.length rest <= String.length r)%nat /\ b +:+ rest = String c0 r.
Proof.
  unfold decodeRune. intros H.
  repeat (case_match; simplify_eq/=); (split; [done|split; [simpl; lia|done]]).
Qed.

(** Strong induction along the runes of a string. *)
Lemma rune_ind (P : string -> Prop) :
  P "" ->
  (forall c s z b rest, decodeRune c s = (z, b, rest) -> P rest -> P (String c s)) ->
  forall s, P s.
Proof.
  intros H0 HS s. remember (String.length s) as n eqn:Hn.
  revert s Hn. induction (lt_wf n) as [n _ IH]. intros [|c s] ->; [done|].
  destruct (decodeRune c s) as [[z b] rest] eqn:E.
  apply (HS _ _ _ _ _ E). eapply IH; [|done].
  apply decodeRune_parts in E as (_&?&_). simpl. lia.
Qed.

Lemma chunks_snoc c s :
  isAscii c = true -> chunks (s +:+ String c "") = (chunks s ++ [(byteZ c, String c "")])%list.
Proof.
  intros Hc. induction s as [|c0 s z b rest E IH] using rune_ind.
  - unfold chunks. simpl. unfold decodeRune. unfold isAscii in Hc. by rewrite Hc.
  - rewrite (chunks_cons _ _ _ _ _ E). simpl. rewrite <- IH.
    apply (chunks_cons c0 (s +:+ String c "")). by apply decodeRune_snoc.
Qed.

Lemma chunks_bytes s : Forall (fun zb => zb.2 <> "") (chunks s).
Proof.
  induction s as [|c0 s z b rest E IH] using rune_ind; [exact (Forall_nil_2 _)|].
  rewrite (chunks_cons _ _ _ _ _ E). constructor; [|done].
  by apply decodeRune_parts in E as (?&_).
Qed.

(** ** The first byte of the first field *)
Definition startsWith (c : ascii) (s : string) : Prop := exists r, s = String c r.

Lemma fieldsChunks_start c l cur :
  startsWith c cur -> exists f fs, fieldsChunks l cur = f :: fs /\ startsWith c f.
Proof.
  revert cur. induction l as [|[z b] l IH]; intros cur [r ->]; simpl.
  - eexists _, _. split; [done|]. by exists r.
  - destruct (isSpaceRune z); [eexists _, _; split; [done|by exists r]|].
    apply IH. by exists (r +:+ b).
Qed.

Lemma dropSpace_split l :
  exists sp, l = (sp ++ dropSpace l)%list /\ Forall (fun zb => isSpaceRune zb.1 = true) sp.
Proof.
  induction l as [|[z b] l (sp&Hl&Hsp)]; simpl; [by exists []|].
  destruct (isSpaceRune z) eqn:E.
  - exists ((z, b) :: sp). split; [simpl; congruence|by constructor].
  - by exists [].
Qed.

Lemma dropSpace_head l z b l' : dropSpace l = (z, b) :: l' -> isSpaceRune z = false.
Proof.
  induction l as [|[z' b'] l IH]; simpl; [done|].
  destruct (isSpaceRune z') eqn:E; [done|]. congruence.
Qed.

Lemma fieldsChunks_spaces sp l :
  Forall (fun zb => isSpaceRune zb.1 = true) sp ->
  fieldsChunks (sp ++ l) "" = fieldsChunks l "".
Proof. induction 1 as [|[z b] sp Hz _ IH]; simpl in *; [done|]. by rewrite Hz. Qed.

(** Trimming to a string that starts with [c], the fields start with [c]. *)
Lemma fields_trimSpace c s a tail :
  startsWith c (trimSpace a) -> chunks s = (chunks a ++ tail)%list ->
  exists f fs, fields s = f :: fs /\ startsWith c f.
Proof.
  intros Hs Hc. unfold fields. rewrite Hc. unfold trimSpace in Hs.
  destruct (dropSpace_split (chunks a)) as (sp&Ha&Hsp).
  pose proof (chunks_bytes a) as Hb. rewrite Ha in Hb. apply Forall_app in Hb as [_ Hb].
  rewrite Ha, <- app_assoc, fieldsChunks_spaces by done. clear Ha Hc Hsp.
  destruct (dropSpace (chunks a)) as [|[z b] l] eqn:E; [by destruct Hs|].
  apply dropSpace_head in E. inversion Hb as [|?? Hb1 _]; subst. simpl in *. rewrite E.
  apply fieldsChunks_start.
  destruct (dropSpace_split (rev l ++ [(z, b)])%list) as (sp2&H2&Hsp2).
  destruct (dropSpace (rev l ++ [(z, b)])%list) as [|zb l2] eqn:E2; [by destruct Hs|].
  assert (exists l3, rev (zb :: l2) = (z, b) :: l3) as [l3 H3].
  { apply (f_equal (@rev _)) in H2. rewrite !rev_app_distr, rev_involutive in H2.
    destruct (rev (zb :: l2)) as [|x l3] eqn:E3; simpl in H2.
    - by apply (f_equal (@length _)) in E3; rewrite length_rev in E3.
    - injection H2 as <- _. by exists l3. }
  rewrite H3 in Hs. unfold concatChunks in Hs. destruct Hs as [r Hs]. simpl in Hs.
  destruct b as [|c' b']; [done|]. exists b'.
  destruct l3 as [|[? ?] ?]; simpl in Hs; injection Hs as <- _; done.
Qed.

(** ** Fields of ASCII lines *)
Definition wordChar (c : ascii) : bool := isAscii c && negb (isSpaceRune (byteZ c)).

Lemma wordChar_digit c : isDigit c = true -> wordChar c = true.
Proof.
  unfold isDigit, inRange, wordChar, isAscii. intros [?%Z.leb_le ?%Z.leb_le]%andb_prop.
  apply andb_true_iff. split; [apply Z.ltb_lt; lia|].
  apply negb_true_iff. unfold isSpaceRune.
  rewrite !orb_false_iff, !andb_false_iff. rewrite !Z.leb_gt, !Z.eqb_neq. lia.
Qed.

Lemma fieldsChunks_word s rest cur :
  strForall wordChar s = true ->
  fieldsChunks (map (fun c => (byteZ c, String c "")) (String.list_ascii_of_string s) ++ rest) cur =
  fieldsChunks rest (cur +:+ s).
Proof.
  revert cur. induction s as [|c s IH]; intros cur; simpl; [by rewrite app_nil_r_str|].
  unfold wordChar. intros [[Ha Hs]%andb_prop Hw]%andb_prop.
  apply negb_true_iff in Hs. rewrite Hs, IH by done. f_equal. by rewrite app_assoc_str.
Qed.

Lemma chunks_ascii_app s t :
  strForall isAscii s = true ->
  chunks (s +:+ t) =
  (map (fun c => (byteZ c, String c "")) (String.list_ascii_of_string s) ++ chunks t)%list.
Proof.
  induction s as [|c s IH]; simpl; [done|]. intros [Hc Hs]%andb_prop. rewrite <- IH by done.
  apply chunks_cons. unfold decodeRune, isAscii in *. by rewrite Hc.
Qed.

Lemma word_ascii s : strForall wordChar s = true -> strForall isAscii s = true.
Proof. apply strForall_impl. intros c. unfold wordChar. by intros [? _]%andb_prop. Qed.

Lemma fieldsChunks_last x :
  strForall wordChar x = true -> x <> "" ->
  fieldsChunks (map (fun c => (byteZ c, String c "")) (String.list_ascii_of_string x)) "" = [x].
Proof.
  intros Hx Hne. rewrite <- (app_nil_r (map _ _)), fieldsChunks_word by done. simpl.
  by destruct x.
Qed.

(** An indented [key value] line. *)
Lemma fields_pair key x :
  strForall wordChar key = true -> key <> "" -> strForall wordChar x = true -> x <> "" ->
  fields ("    " +:+ key +:+ " " +:+ x) = [key; x].
Proof.
  intros Hk Hk0 Hx Hx0. unfold fields.
  rewrite chunks_ascii_app by done. rewrite fieldsChunks_spaces by repeat constructor.
  rewrite chunks_ascii_app by (by apply word_ascii). rewrite fieldsChunks_word by done.
  rewrite chunks_ascii_app by done. rewrite chunks_ascii by (by apply word_ascii).
  destruct key as [|c key]; [done|]. cbn [String.append].
  cbn [map String.list_ascii_of_string app fieldsChunks].
  change (isSpaceRune (byteZ " ")) with true. cbv iota.
  change (String.eqb (String c key) "") with false. cbv iota. by rewrite fieldsChunks_last.
Qed.

(** ** The two limit lines *)
Lemma itoa_nonneg n : 0 <= n -> itoa n = digits n.
Proof. intros Hn. unfold itoa. by rewrite (proj2 (Z.ltb_ge n 0)). Qed.

Lemma itoa_word n : 0 <= n -> strForall wordChar (itoa n +:+ "m") = true.
Proof.
  intros Hn. rewrite itoa_nonneg, strForall_app by done. apply andb_true_iff. split; [|done].
  eapply strForall_impl; [apply wordChar_digit|by apply digits_digits].
Qed.

Lemma app_nonempty (s : string) c r : s +:+ String c r <> "".
Proof. by destruct s. Qed.

Lemma memLine_fields n : 0 <= n -> fields (memLine n) = ["mem_limit:"; itoa n +:+ "m"].
Proof.
  intros Hn. apply (fields_pair "mem_limit:" (itoa n +:+ "m")); try done.
  - by apply itoa_word.
  - apply app_nonempty.
Qed.

Definition noNL (l : string) : bool := noChar (chrZ 10) l.

Lemma noNL_word x : strForall wordChar x = true -> noNL x = true.
Proof.
  apply strForall_impl. intros c Hc. apply negb_true_iff, Ascii.eqb_neq. intros ->.
  by vm_compute in Hc.
Qed.

Lemma memLine_noNL n : 0 <= n -> noNL (memLine n) = true.
Proof. intros Hn. by apply (noNL_word (itoa n +:+ "m")), itoa_word. Qed.

#[export] Instance f64_eq_dec : EqDecision f64.
Proof. solve_decision. Defined.

(** The quarter-core amounts, checked one by one. *)
Definition cpuLineOK (k : nat) : bool :=
  let c := quarter (Z.of_nat k) in
  bool_decide (fields (cpuLine c) = ["cpus:"; format2f c]) &&
  match parseFloat (format2f c) with
  | Ok c' => bool_decide (c' = c)
  | Err _ => false
  end && noNL (cpuLine c) && hasPrefix (cpuLine c) "    ".

Lemma cpuLine_ok k :
  1 <= k <= 32 ->
  fields (cpuLine (quarter k)) = ["cpus:"; format2f (quarter k)] /\
  parseFloat (format2f (quarter k)) = Ok (quarter k) /\
  noNL (cpuLine (quarter k)) = true.
Proof.
  intros Hk. assert (forallb cpuLineOK (seq 1 32) = true) as Hall by (vm_compute; reflexivity).
  rewrite forallb_forall in Hall. specialize (Hall (Z.to_nat k)).
  unfold cpuLineOK in Hall. rewrite Z2Nat.id in Hall by lia.
  specialize (Hall ltac:(apply in_seq; lia)).
  destruct (parseFloat (format2f (quarter k))) as [c'|e]; [|by rewrite andb_false_r in Hall].
  bool_solve. rewrite !bool_decide_eq_true in *. by subst.
Qed.

(** ** Reading back a rewritten configuration *)
Definition isService (s : string) : bool := String.eqb s "wordpress" || String.eqb s "db".

(** A header of the two services has no limit on its own line. *)
Lemma header_fields cur line f0 f1 :
  isService (sectionOf cur line) = true -> fields line = [f0; f1] ->
  f0 = "mem_limit:" \/ f0 = "cpus:" -> sectionOf cur line = cur.
Proof.
  unfold sectionOf. destruct (negb (String.eqb line "") && negb (hasPrefix line " ")); [done|].
  unfold isHeader. destruct (hasPrefix line "  " && negb (hasPrefix line "   ") && hasSuffix line ":") eqn:E;
    [|done].
  apply andb_prop in E as [_ [a ->]%hasSuffix_true]. rewrite trimSuffix_app.
  intros Hs Hf Hf0. exfalso.
  assert (startsWith "w" (trimSpace a) \/ startsWith "d" (trimSpace a)) as Hst.
  { unfold isService in Hs. apply orb_prop in Hs as [Hs|Hs]; apply String.eqb_eq in Hs; rewrite Hs;
      [left|right]; by eexists. }
  destruct Hst as [Hst|Hst];
    (destruct (fields_trimSpace _ (a +:+ ":") a _ Hst (chunks_snoc ":" a eq_refl)) as (f&fs&Hf'&[r ->]));
    rewrite Hf in Hf'; injection Hf' as -> _; destruct Hf0; done.
Qed.

(** [st'] is the scanner over the rewritten lines when [st] is the scanner
    over the original ones. *)
Record rereads (r : Resources.t) (st st' : scan) : Prop := {
  rr_section : sc_section st' = sc_section st;
  rr_counts : sc_counts st' = sc_counts st;
  rr_memory : forall k, isService k = true -> countOf (k +:+ "memory") st <> 0 ->
    Resources.MemoryMB (valueOf k st') = Resources.MemoryMB r;
  rr_cpus : forall k, isService k = true -> countOf (k +:+ "cpu") st <> 0 ->
    Resources.CPUs (valueOf k st') = Resources.CPUs r;
}.

Lemma rr_count r st st' k : rereads r st st' -> countOf k st' = countOf k st.
Proof. intros Hr. unfold countOf. by rewrite (rr_counts _ _ _ Hr). Qed.

Definition limitLine (r : Resources.t) (line : string) : Prop :=
  line = memLine (Resources.MemoryMB r) \/ line = cpuLine (Resources.CPUs r).

Lemma sectionOf_limit r cur line : limitLine r line -> sectionOf cur line = cur.
Proof. by intros [->| ->]. Qed.

Definition onGrid (r : Resources.t) : Prop :=
  256 <= Resources.MemoryMB r <= 8192 /\ exists k, 1 <= k <= 32 /\ Resources.CPUs r = quarter k.

Lemma service_cases k : isService k = true -> k = "wordpress" \/ k = "db".
Proof. unfold isService. intros [?%String.eqb_eq|?%String.eqb_eq]%orb_prop; auto. Qed.

Lemma memValue_read n : inInt64 n = true ->
  parseInt (trimSuffix (itoa n +:+ "m") "m") = Ok n /\ hasSuffix (itoa n +:+ "m") "m" = true.
Proof.
  intros Hn. rewrite trimSuffix_app. split; [by apply parseInt_itoa|]. apply hasSuffix_true. by eexists.
Qed.

Lemma rereads_section r st st' s :
  rereads r st st' ->
  rereads r (Scan s (sc_values st) (sc_counts st)) (Scan s (sc_values st') (sc_counts st')).
Proof. intros [????]. by constructor. Qed.

(** Case analysis on which of the two services a table entry belongs to. *)
Ltac services :=
  intros;
  repeat match goal with
  | H : isService ?k = true |- _ => apply service_cases in H; destruct H as [-> | ->]
  end;
  unfold valueOf, countOf in *; simpl in *;
  repeat match goal with
  | H : context [(<[?a := _]> _) !! ?a] |- _ => rewrite lookup_insert_eq in H
  | H : context [(<[?a := _]> _) !! ?b] |- _ => rewrite lookup_insert_ne in H by done
  | |- context [(<[?a := _]> _) !! ?a] => rewrite lookup_insert_eq
  | |- context [(<[?a := _]> _) !! ?b] => rewrite lookup_insert_ne by done
  end; simpl in *; eauto.

Lemma rereads_memory r st st' s v n :
  isService s = true -> rereads r st st' ->
  rereads r (Scan s (<[s := v]> (sc_values st)) (<[s +:+ "memory" := n]> (sc_counts st)))
    (Scan s (<[s := Resources.mk (Resources.MemoryMB r) (Resources.CPUs (valueOf s st'))]> (sc_values st'))
            (<[s +:+ "memory" := n]> (sc_counts st'))).
Proof.
  intros Hs [H1 H2 H3 H4]. constructor; simpl; [done|by rewrite H2| |].
  - services.
  - services; by eapply H4 with (k := "wordpress") || by eapply H4 with (k := "db") || eauto.
Qed.

Lemma rereads_cpu r st st' s v n :
  isService s = true -> rereads r st st' ->
  rereads r (Scan s (<[s := v]> (sc_values st)) (<[s +:+ "cpu" := n]> (sc_counts st)))
    (Scan s (<[s := Resources.mk (Resources.MemoryMB (valueOf s st')) (Resources.CPUs r)]> (sc_values st'))
            (<[s +:+ "cpu" := n]> (sc_counts st'))).
Proof.
  intros Hs [H1 H2 H3 H4]. constructor; simpl; [done|by rewrite H2| |].
  - services; by eapply H3 with (k := "wordpress") || by eapply H3 with (k := "db") || eauto.
  - services.
Qed.

Lemma rereads_other r st st' s v :
  isService s = true -> rereads r st st' ->
  rereads r (Scan s (<[s := v]> (sc_values st)) (sc_counts st))
    (Scan s (<[s := valueOf s st']> (sc_values st')) (sc_counts st')).
Proof.
  intros Hs [H1 H2 H3 H4]. constructor; simpl; [done|done| |]; services;
    by eapply H3 with (k := "wordpress") || by eapply H3 with (k := "db") ||
    by eapply H4 with (k := "wordpress") || by eapply H4 with (k := "db") || eauto.
Qed.

Lemma isService_guard s : negb (String.eqb s "wordpress") && negb (String.eqb s "db") = negb (isService s).
Proof. unfold isService. by rewrite negb_orb. Qed.

(** The reader on a limit line the writer produced. *)
Lemma composeLine_memLine st n :
  isService (sc_section st) = true -> inInt64 n = true -> 0 <= n ->
  composeLine None st (memLine n) =
  let s := sc_section st in
  Ok (Scan s (<[s := Resources.mk n (Resources.CPUs (valueOf s st))]> (sc_values st))
           (<[s +:+ "memory" := countOf (s +:+ "memory") st + 1]> (sc_counts st)), memLine n).
Proof.
  intros Hs Hn H0. unfold composeLine.
  rewrite (sectionOf_limit (Resources.mk n (fofZ 0)) _ (memLine n)) by by left.
  rewrite isService_guard, Hs, memLine_fields by done. cbn [negb].
  change (String.eqb "mem_limit:" "mem_limit:") with true. cbv iota.
  destruct (memValue_read n Hn) as [-> ->]. done.
Qed.

Lemma composeLine_cpuLine st k :
  isService (sc_section st) = true -> 1 <= k <= 32 ->
  composeLine None st (cpuLine (quarter k)) =
  let s := sc_section st in
  Ok (Scan s (<[s := Resources.mk (Resources.MemoryMB (valueOf s st)) (quarter k)]> (sc_values st))
           (<[s +:+ "cpu" := countOf (s +:+ "cpu") st + 1]> (sc_counts st)), cpuLine (quarter k)).
Proof.
  intros Hs Hk. unfold composeLine.
  rewrite (sectionOf_limit (Resources.mk 0 (quarter k)) _ (cpuLine (quarter k))) by by right.
  destruct (cpuLine_ok k Hk) as (Hf&Hp&_).
  rewrite isService_guard, Hs, Hf. cbn [negb].
  change (String.eqb "cpus:" "mem_limit:") with false.
  change (String.eqb "cpus:" "cpus:") with true. cbv iota. by rewrite Hp.
Qed.

Lemma grid_int64 r : onGrid r -> inInt64 (Resources.MemoryMB r) = true /\ 0 <= Resources.MemoryMB r.
Proof.
  intros [H _]. split; [|lia]. unfold inInt64, minInt64, maxInt64.
  apply andb_true_iff. split; apply Z.leb_le; lia.
Qed.

(** One line: what the reader makes of the writer's output line. *)
Lemma composeLine_reread r st st' l st1 l1 :
  onGrid r -> rereads r st st' -> composeLine (Some r) st l = Ok (st1, l1) ->
  (l1 = l \/ limitLine r l1) /\
  exists st1', composeLine None st' l1 = Ok (st1', l1) /\ rereads r st1 st1'.
Proof.
  intros Hg Hr H. pose proof (rr_section _ _ _ Hr) as Hsec. unfold composeLine in H.
  rewrite isService_guard in H. destruct (isService (sectionOf (sc_section st) l)) eqn:Es; simpl in H.
  2: { injection H as <- <-. split; [by left|]. eexists. unfold composeLine.
       rewrite Hsec, isService_guard, Es. split; [done|]. by apply rereads_section. }
  destruct (fields l) as [|f0 [|f1 [|f2 fs]]] eqn:Ef.
  1, 2, 4: injection H as <- <-; split; [by left|]; eexists; unfold composeLine;
    rewrite Hsec, isService_guard, Es, Ef; split; [done|by apply rereads_section].
  destruct (String.eqb_spec f0 "mem_limit:") as [->|Hm].
  { destruct (parseInt (trimSuffix f1 "m")) as [m|]; [|done].
    destruct (hasSuffix f1 "m"); [|done]. injection H as <- <-.
    pose proof (header_fields _ _ _ _ Es Ef ltac:(by left)) as Hc. rewrite Hc in *.
    split; [right; by left|]. destruct (grid_int64 r Hg). eexists.
    rewrite composeLine_memLine by (by rewrite ?Hsec). split; [done|].
    rewrite Hsec, (rr_count _ _ _ _ Hr). by apply rereads_memory. }
  destruct (String.eqb_spec f0 "cpus:") as [->|Hcpu].
  { destruct (parseFloat f1) as [c|]; [|done]. injection H as <- <-.
    pose proof (header_fields _ _ _ _ Es Ef ltac:(by right)) as Hc. rewrite Hc in *.
    split; [right; by right|]. destruct Hg as (_&k&Hk&Hq). rewrite Hq. eexists.
    rewrite composeLine_cpuLine by (by rewrite ?Hsec). split; [done|].
    rewrite Hsec, (rr_count _ _ _ _ Hr), <- Hq. by apply rereads_cpu. }
  injection H as <- <-. split; [by left|]. eexists. unfold composeLine.
  rewrite Hsec, isService_guard, Es, Ef. cbn [negb].
  apply String.eqb_neq in Hm as ->, Hcpu as ->.
  split; [done|].
  apply (rereads_other r (Scan (sectionOf (sc_section st) l) (sc_values st) (sc_counts st))
    (Scan (sectionOf (sc_section st) l) (sc_values st') (sc_counts st')));
    [done|by apply rereads_section].
Qed.

Lemma composeLines_reread r ls : forall st st' st1 ls1,
  onGrid r -> rereads r st st' -> composeLines (Some r) st ls = Ok (st1, ls1) ->
  Forall2 (fun l l1 => l1 = l \/ limitLine r l1) ls ls1 /\
  exists st1', composeLines None st' ls1 = Ok (st1', ls1) /\ rereads r st1 st1'.
Proof.
  induction ls as [|l ls IH]; intros st st' st1 ls1 Hg Hr H.
  - injection H as <- <-. eauto.
  - cbn [composeLines] in H. apply bind_Ok in H as ([sta la]&Ha&H).
    apply bind_Ok in H as ([stb lsb]&Hb&[= <- <-]).
    destruct (composeLine_reread _ _ _ _ _ _ Hg Hr Ha) as (Hl&sta'&Ha'&Hra).
    destruct (IH _ _ _ _ Hg Hra Hb) as (Hls&stb'&Hb'&Hrb).
    split; [by constructor|]. exists stb'. split; [|done].
    cbn [composeLines]. rewrite Ha'. simpl. by rewrite Hb'.
Qed.

(** Reading without a replacement keeps the lines. *)
Lemma composeLine_same st l st1 l1 : composeLine None st l = Ok (st1, l1) -> l1 = l.
Proof. unfold composeLine. intros H. repeat case_match; simplify_eq/=; done. Qed.

Lemma composeLines_same ls : forall st st1 ls1, composeLines None st ls = Ok (st1, ls1) -> ls1 = ls.
Proof.
  induction ls as [|l ls IH]; intros st st1 ls1 H; [by injection H|].
  cbn [composeLines] in H. apply bind_Ok in H as ([sta la]&Ha&H).
  apply bind_Ok in H as ([stb lsb]&Hb&[= <- <-]).
  by rewrite (composeLine_same _ _ _ _ Ha), (IH _ _ _ Hb).
Qed.

(** The scanner's tables do not depend on the replacement. *)
Lemma composeLine_scan r st l :
  fmap fst (composeLine r st l) = fmap fst (composeLine None st l).
Proof. unfold composeLine. repeat (case_match; simplify_eq/=); done. Qed.

Lemma composeLines_scan r ls : forall st,
  fmap fst (composeLines r st ls) = fmap fst (composeLines None st ls).
Proof.
  induction ls as [|l ls IH]; intros st; [done|]. cbn [composeLines].
  pose proof (composeLine_scan r st l) as Hl.
  destruct (composeLine r st l) as [[s1 l1]|], (composeLine None st l) as [[s2 l2]|]; simplify_eq/=; [|done].
  specialize (IH s2).
  destruct (composeLines r s2 ls) as [[s3 l3]|], (composeLines None s2 ls) as [[s4 l4]|]; by simplify_eq/=.
Qed.

Lemma limitLine_noNL r l : onGrid r -> limitLine r l -> noNL l = true.
Proof.
  intros [Hm (k&Hk&Hc)] [->| ->]; [apply memLine_noNL; lia|]. rewrite Hc. by apply cpuLine_ok.
Qed.

(** ** Refusals *)
Lemma limitsOK_Ok st ls r out :
  limitsOK st ls = Ok (r, out) ->
  (forall k, In k limitKeys -> countOf k st = 1) /\ r = valueOf "wordpress" st /\ out = unlines ls /\
  is_ok (validateResources r) = true.
Proof.
  unfold limitsOK. destruct (forallb _ limitKeys) eqn:E; simpl; [|done].
  destruct (resourcesEqb _ _); simpl; [|done].
  destruct (validateResources (valueOf "wordpress" st)) eqn:Ev; simpl; [|done]. intros [= <- <-].
  rewrite Ev. rewrite forallb_forall in E. split; [|done]. intros k Hk. by apply Z.eqb_eq, E.
Qed.


Lemma rereads_start r : rereads r scan0 scan0.
Proof. constructor; [done|done| |]; intros k Hk H; destruct H; apply service_cases in Hk as [-> | ->]; done. Qed.

Lemma limitsOK_same st st' ls' :
  sc_counts st' = sc_counts st -> (forall k, In k limitKeys -> countOf k st = 1) ->
  valueOf "wordpress" st' = valueOf "db" st' -> resourcesEqb (valueOf "db" st') (valueOf "db" st') = true ->
  is_ok (validateResources (valueOf "db" st')) = true ->
  limitsOK st' ls' = Ok (valueOf "db" st', unlines ls').
Proof.
  intros Hc Hk Hv He Hok. unfold limitsOK.
  assert (forallb (fun k => countOf k st' =? 1) limitKeys = true) as ->.
  { apply forallb_forall. intros k Hin. apply Z.eqb_eq. unfold countOf. rewrite Hc. by apply Hk. }
  rewrite Hv, He. simpl. by destruct (validateResources (valueOf "db" st')).
Qed.

Lemma grid_values_check :
  forallb (fun k => let r := Resources.mk 256 (quarter (Z.of_nat k)) in
                    feqb (Resources.CPUs r) (Resources.CPUs r) && is_ok (validateResources r))
          (seq 1 32) = true.
Proof. vm_compute. reflexivity. Qed.

Lemma grid_valid r : onGrid r -> resourcesEqb r r = true /\ is_ok (validateResources r) = true.
Proof.
  intros [Hm (k&Hk&Hc)]. pose proof grid_values_check as Hg.
  rewrite forallb_forall in Hg. specialize (Hg (Z.to_nat k) ltac:(apply in_seq; lia)).
  rewrite Z2Nat.id in Hg by lia. cbv zeta in Hg. apply andb_prop in Hg as [Hf Hv].
  unfold resourcesEqb, validateResources in *. rewrite Hc. simpl in Hf, Hv.
  rewrite Z.eqb_refl, Hf. split; [done|].
  assert ((Resources.MemoryMB r <? 256) || (8192 <? Resources.MemoryMB r) = false) as ->.
  { apply orb_false_iff. split; apply Z.ltb_ge; lia. }
  done.
Qed.

Lemma resources_eta r : r = Resources.mk (Resources.MemoryMB r) (Resources.CPUs r).
Proof. by destruct r. Qed.

(** C23: changing a site's limits is read back.  Whatever Compose file the
    rewrite accepts, the file it writes differs only in limit lines, and
    reading that file back gives exactly the requested limits (and the same
    text): the verification [changeResources] does after its rewrite succeeds,
    for every limit on the 0.25-CPU grid. *)
Theorem composeResources_reread data r old out :
  onGrid r -> composeResources data (Some r) = Ok (old, out) ->
  composeResources out None = Ok (r, out) /\
  Forall2 (fun l l1 => l1 = l \/ limitLine r l1) (lines data) (lines out).
Proof.
  intros Hg H. unfold composeResources in H. apply bind_Ok in H as ([st ls]&Hs&H).
  apply limitsOK_Ok in H as (Hk&_&->&_).
  destruct (composeLines_reread _ _ _ _ _ _ Hg (rereads_start r) Hs) as (Hls&st'&Hs'&[_ Hc Hm Hcpu]).
  assert (lines (unlines ls) = ls) as Hl.
  { apply lines_unlines.
    - intros ->. inversion Hls as [Hn|]. by apply (split_nonempty (chrZ 10) data).
    - eapply Forall2_Forall_r; [done|]. eapply Forall_impl; [apply lines_noNL|].
      intros l Hl l1 [->|?]; [done|by eapply limitLine_noNL]. }
  assert (forall k, isService k = true -> valueOf k st' = r) as Hv.
  { intros k Hsv. rewrite (resources_eta r), (resources_eta (valueOf k st')).
    f_equal; [apply Hm|apply Hcpu]; try done;
      apply service_cases in Hsv as [-> | ->]; (rewrite Hk; [done|simpl; tauto]). }
  destruct (grid_valid r Hg) as [He Hok].
  split; [|by rewrite Hl]. unfold composeResources. rewrite Hl, Hs'. simpl.
  rewrite (limitsOK_same st st' ls); rewrite ?Hv; done.
Qed.

Definition sampleCompose : string := renderCompose "0123456789abcdef" 512 (fofZ 1) "http://x/".

Lemma composeResources_reread_witness :
  exists old out, composeResources sampleCompose (Some (Resources.mk 1024 (quarter 6))) = Ok (old, out) /\
    composeResources out None = Ok (Resources.mk 1024 (quarter 6), out).
Proof.
  destruct (composeResources sampleCompose (Some (Resources.mk 1024 (quarter 6)))) as [[old out]|e] eqn:E;
    [|exfalso; vm_compute in E; discriminate].
  exists old, out. split; [done|].
  refine (proj1 (composeResources_reread sampleCompose (Resources.mk 1024 (quarter 6)) old out _ E)).
  split; [simpl; lia|]. exists 6. split; [lia|done].
Defined.

(** Without a replacement the configuration comes back byte for byte, and
    the limits it reports are valid ones; asking for a replacement never
    changes which files are accepted nor the limits reported as current. *)
Theorem composeResources_read data repl old out :
  composeResources data repl = Ok (old, out) ->
  composeResources data None = Ok (old, data) /\ is_ok (validateResources old) = true.
Proof.
  intros H. unfold composeResources in *. apply bind_Ok in H as ([st ls]&Hs&H).
  pose proof (composeLines_scan repl (lines data) scan0) as Hsc. rewrite Hs in Hsc.
  destruct (composeLines None scan0 (lines data)) as [[st' ls']|] eqn:Hn; [|done].
  injection Hsc as <-. pose proof (composeLines_same _ _ _ _ Hn) as ->. simpl.
  pose proof (limitsOK_Ok _ _ _ _ H) as (_&->&->&Hok). split; [|done].
  unfold limitsOK in *. destruct (forallb _ _); [|done]. simpl in *.
  destruct (resourcesEqb _ _); [|done]. simpl in *.
  destruct (validateResources _); [|done]. simpl. by rewrite unlines_lines.
Qed.

Lemma composeResources_read_witness :
  exists old, composeResources sampleCompose None = Ok (old, sampleCompose) /\ is_ok (validateResources old) = true.
Proof.
  assert (exists old out, composeResources sampleCompose None = Ok (old, out)) as (old&out&E)
    by (vm_compute; eauto).
  exists old. exact (composeResources_read sampleCompose None old out E).
Defined.

(** ** The quota restart policy *)
Definition restarts (l l1 : string) : Prop := l1 = l \/ (l = restartUnlessStopped /\ l1 = restartNo).

(** The section the scanner is in after some lines. *)
Definition sectionAfter (cur : string) (ls : list string) : string := foldl restartSection cur ls.

(** Every restart line of the two services is pinned to [no]. *)
Definition pinned (cur : string) (ls : list string) : Prop :=
  forall pre l post, ls = (pre ++ l :: post)%list ->
    isService (sectionAfter cur (pre ++ [l])%list) = true ->
    hasPrefix l "    restart:" = true -> l = restartNo.

Lemma pinned_cons cur l ls :
  (isService (restartSection cur l) = true -> hasPrefix l "    restart:" = true -> l = restartNo) ->
  pinned (restartSection cur l) ls -> pinned cur (l :: ls).
Proof.
  intros Hl Hls [|x pre] l0 post Heq; injection Heq as -> Heq; [by subst|].
  intros Hs Hp. by apply (Hls pre l0 post).
Qed.

Lemma restartLine_eq st l :
  restartLine st l =
  let s := restartSection (rs_section st) l in
  if isService s && hasPrefix l "    restart:" then
    if String.eqb l restartUnlessStopped || String.eqb l restartNo
    then Ok (RScan s (<[s := seenOf s st + 1]> (rs_seen st)), restartNo)
    else Err (EMsg "unfamiliar quota restart configuration")
  else Ok (RScan s (rs_seen st), l).
Proof.
  unfold restartLine. cbv zeta. fold (isService (restartSection (rs_section st) l)).
  destruct (isService _ && _); [|done].
  by destruct (String.eqb l restartUnlessStopped), (String.eqb l restartNo).
Qed.

Lemma restartSection_pin s l : l = restartUnlessStopped \/ l = restartNo -> restartSection s l = s.
Proof. by intros [->| ->]. Qed.

Lemma restartLine_spec st l st1 l1 :
  restartLine st l = Ok (st1, l1) ->
  restarts l l1 /\ rs_section st1 = restartSection (rs_section st) l1 /\
  (isService (restartSection (rs_section st) l1) = true -> hasPrefix l1 "    restart:" = true -> l1 = restartNo) /\
  restartLine st l1 = Ok (st1, l1).
Proof.
  rewrite (restartLine_eq st l). cbv zeta.
  destruct (isService (restartSection (rs_section st) l) && hasPrefix l "    restart:") eqn:E.
  - destruct (String.eqb l restartUnlessStopped || String.eqb l restartNo) eqn:El; [|done].
    assert (l = restartUnlessStopped \/ l = restartNo) as Hl.
    { by apply orb_prop in El as [?%String.eqb_eq|?%String.eqb_eq]; auto. }
    rewrite (restartSection_pin _ l Hl) in *. intros [= <- <-]. simpl.
    rewrite restartLine_eq. cbv zeta. rewrite (restartSection_pin _ restartNo) by auto.
    apply andb_prop in E as [-> _]. unfold restarts. split; [|done]. destruct Hl as [->| ->]; auto.
  - intros [= <- <-]. rewrite restartLine_eq. cbv zeta. rewrite E.
    split; [by left|]. split; [done|]. split; [|done]. intros H1 H2. by rewrite H1, H2 in E.
Qed.

Lemma restartLines_spec ls : forall st st1 ls1,
  restartLines st ls = Ok (st1, ls1) ->
  Forall2 restarts ls ls1 /\ pinned (rs_section st) ls1 /\ restartLines st ls1 = Ok (st1, ls1).
Proof.
  induction ls as [|l ls IH]; intros st st1 ls1 H.
  - injection H as <- <-. split; [done|]. split; [|done]. by intros [|??].
  - cbn [restartLines] in H. apply bind_Ok in H as ([sta la]&Ha&H).
    apply bind_Ok in H as ([stb lsb]&Hb&[= <- <-]).
    apply restartLine_spec in Ha as (H1&H2&H3&H4). apply IH in Hb as (H5&H6&H7).
    split; [by constructor|]. split.
    + apply pinned_cons; [done|]. by rewrite <- H2.
    + cbn [restartLines]. rewrite H4. simpl. by rewrite H7.
Qed.

Lemma restarts_noNL l l1 : noNL l = true -> restarts l l1 -> noNL l1 = true.
Proof. by intros ? [->|[_ ->]]. Qed.



Lemma composeLine_restarts st l l1 st1 :
  restarts l l1 -> composeLine None st l = Ok (st1, l) -> composeLine None st l1 = Ok (st1, l1).
Proof.
  intros [->|[-> ->]]; [done|]. unfold composeLine.
  change (sectionOf (sc_section st) restartUnlessStopped) with (sc_section st).
  change (sectionOf (sc_section st) restartNo) with (sc_section st).
  destruct (negb _ && negb _); [congruence|].
  change (fields restartUnlessStopped) with ["restart:"; "unless-stopped"].
  change (fields restartNo) with ["restart:"; raw "`no`"].
  cbv iota beta. change (String.eqb "restart:" "mem_limit:") with false.
  change (String.eqb "restart:" "cpus:") with false. cbv iota. congruence.
Qed.

Lemma composeLines_restarts ls ls1 : Forall2 restarts ls ls1 -> forall st st1,
  composeLines None st ls = Ok (st1, ls) -> composeLines None st ls1 = Ok (st1, ls1).
Proof.
  induction 1 as [|l l1 ls ls1 Hl _ IH]; intros st st1 H; [congruence|].
  cbn [composeLines] in *. apply bind_Ok in H as ([sta la]&Ha&H).
  apply bind_Ok in H as ([stb lsb]&Hb&[= <- <- <-]).
  rewrite (composeLine_restarts _ _ _ _ Hl Ha). simpl. by rewrite (IH _ _ Hb).
Qed.

(** Pinning the restart policy leaves the resource limits alone: a file
    whose limits read as [r] still reads as [r] after the quota rewrite. *)
Theorem quotaRestartCompose_limits data out r :
  quotaRestartCompose data = Ok out -> composeResources data None = Ok (r, data) ->
  composeResources out None = Ok (r, out).
Proof.
  unfold quotaRestartCompose. intros H Hr. apply bind_Ok in H as ([st ls]&Hs&H).
  destruct (negb _ || negb _); [done|]. injection H as <-.
  destruct (restartLines_spec _ _ _ _ Hs) as (H1&_&_).
  assert (lines (unlines ls) = ls) as Hl.
  { apply lines_unlines.
    - intros ->. inversion H1 as [Hn|]. by apply (split_nonempty (chrZ 10) data).
    - eapply Forall2_Forall_r; [done|]. eapply Forall_impl; [apply lines_noNL|].
      intros l Hl l1. by apply restarts_noNL. }
  unfold composeResources in *. apply bind_Ok in Hr as ([st' ls']&Hs'&Hr).
  pose proof (composeLines_same _ _ _ _ Hs') as ->.
  rewrite Hl, (composeLines_restarts _ _ H1 _ _ Hs'). simpl.
  revert Hr. unfold limitsOK. destruct (forallb _ _), (resourcesEqb _ _); simpl; try done.
  destruct (validateResources _); simpl; [|done]. by intros [= <- _].
Qed.

Lemma quotaRestartCompose_limits_witness :
  exists out r, quotaRestartCompose sampleCompose = Ok out /\ composeResources out None = Ok (r, out).
Proof.
  assert (exists out, quotaRestartCompose sampleCompose = Ok out) as (out&E) by (vm_compute; eauto).
  assert (composeResources sampleCompose None = Ok (Resources.mk 512 (fofZ 1), sampleCompose)) as E2
    by (vm_compute; reflexivity).
  exists out, (Resources.mk 512 (fofZ 1)). split; [exact E|].
  exact (quotaRestartCompose_limits sampleCompose out (Resources.mk 512 (fofZ 1)) E E2).
Defined.
