(* ===== verification/Json.v ===== *)
(** * Json: the [encoding/json] this program depends on

    A value tree that keeps the order and the duplicates of object keys and
    the text of numbers; the scanner as a prefix parser (the [Decoder] reads a
    stream of values); the decoding of a tree into Go structures, with
    case-insensitive field names and [DisallowUnknownFields]; and the compact
    encoder.  Decoding twice into one slice reuses its old elements in Go; no
    caller relies on it, and a [null] element is the zero value here. *)
From S2P Require Import Prelude GoStrings.
Set Warnings "-register-all".

Inductive json :=
| JNull
| JBool (b : bool)
| JNum (text : string)
| JStr (s : string)
| JArr (l : list json)
| JObj (l : list (string * json)).

(** ** Scanning *)
Definition isWs (c : ascii) : bool :=
  Ascii.eqb c " " || Ascii.eqb c (chrZ 9) || Ascii.eqb c (chrZ 10) || Ascii.eqb c (chrZ 13).

Fixpoint skipWs (s : string) : string :=
  match s with
  | String c r => if isWs c then skipWs r else s
  | EmptyString => ""
  end.

Fixpoint spanDigits (s : string) : string * string :=
  match s with
  | String c r => if isDigit c then let '(d, r') := spanDigits r in (String c d, r') else ("", s)
  | EmptyString => ("", "")
  end.

(** An optional fraction or exponent: [None] when it starts but is malformed. *)
Definition scanFraction (s : string) : option (string * string) :=
  match s with
  | String c r =>
      if Ascii.eqb c "." then
        let '(d, r') := spanDigits r in
        if String.eqb d "" then None else Some (String c d, r')
      else Some ("", s)
  | EmptyString => Some ("", "")
  end.

Definition scanExponent (s : string) : option (string * string) :=
  match s with
  | String c r =>
      if Ascii.eqb c "e" || Ascii.eqb c "E" then
        let '(sign, r1) := match r with
                           | String a r1 => if Ascii.eqb a "+" || Ascii.eqb a "-" then (String a "", r1) else ("", r)
                           | EmptyString => ("", r)
                           end in
        let '(d, r') := spanDigits r1 in
        if String.eqb d "" then None else Some (String c (sign +:+ d), r')
      else Some ("", s)
  | EmptyString => Some ("", "")
  end.

Definition scanInteger (s : string) : option (string * string) :=
  match s with
  | String c r =>
      if Ascii.eqb c "0" then Some ("0", r)
      else let '(d, r') := spanDigits s in
           if String.eqb d "" then None else Some (d, r')
  | EmptyString => None
  end.

Definition scanNumber (s : string) : option (string * string) :=
  let '(sign, s1) := match s with
                     | String c r => if Ascii.eqb c "-" then ("-", r) else ("", s)
                     | EmptyString => ("", s)
                     end in
  match scanInteger s1 with
  | None => None
  | Some (i, s2) =>
      match scanFraction s2 with
      | None => None
      | Some (f, s3) =>
          match scanExponent s3 with
          | None => None
          | Some (e, s4) => Some (sign +:+ i +:+ f +:+ e, s4)
          end
      end
  end.

(** The raw bytes up to the closing quote, and what follows it. *)
Fixpoint spanQuoted (escaped : bool) (s : string) : option (string * string) :=
  match s with
  | EmptyString => None
  | String c r =>
      if negb escaped && Ascii.eqb c "034" then Some ("", r)
      else match spanQuoted (negb escaped && Ascii.eqb c "\") r with
           | Some (b, r') => Some (String c b, r')
           | None => None
           end
  end.

Definition hexVal (z : Z) : option Z :=
  if (48 <=? z) && (z <=? 57) then Some (z - 48)
  else if (97 <=? z) && (z <=? 102) then Some (z - 87)
  else if (65 <=? z) && (z <=? 70) then Some (z - 55)
  else None.

Definition hex4 (a b c d : Z) : option Z :=
  match hexVal a, hexVal b, hexVal c, hexVal d with
  | Some a, Some b, Some c, Some d => Some (((a * 16 + b) * 16 + c) * 16 + d)
  | _, _, _, _ => None
  end.

Definition isHigh (z : Z) : bool := (55296 <=? z) && (z <=? 56319).
Definition isLow (z : Z) : bool := (56320 <=? z) && (z <=? 57343).

Definition simpleEscape (z : Z) : option string :=
  if z =? 34 then Some DQ else if z =? 92 then Some "\" else if z =? 47 then Some "/"
  else if z =? 98 then Some (String (chrZ 8) "") else if z =? 102 then Some (String (chrZ 12) "")
  else if z =? 110 then Some NL else if z =? 114 then Some CR else if z =? 116 then Some TAB
  else None.

(** [unquote]: escapes are decoded, a lone surrogate and a byte that is not
    UTF-8 become U+FFFD. *)
Fixpoint unquote (l : list (Z * string)) : option string :=
  match l with
  | [] => Some ""
  | (92, _) :: (117, _) :: (a, _) :: (b, _) :: (c, _) :: (d, _) :: l1 =>
      match hex4 a b c d with
      | None => None
      | Some h =>
          let single := option_map (fun r => encodeRune h +:+ r) (unquote l1) in
          if isHigh h then
            match l1 with
            | (92, _) :: (117, _) :: (a', _) :: (b', _) :: (c', _) :: (d', _) :: l2 =>
                match hex4 a' b' c' d' with
                | Some h' => if isLow h'
                             then option_map (fun r => encodeRune (65536 + (h - 55296) * 1024 + (h' - 56320)) +:+ r)
                                    (unquote l2)
                             else single
                | None => None
                end
            | _ => single
            end
          else single
      end
  | (92, _) :: (z, _) :: l1 =>
      match simpleEscape z with
      | Some e => option_map (fun r => e +:+ r) (unquote l1)
      | None => None
      end
  | (z, b) :: l1 =>
      if z <? 32 then None
      else option_map (fun r => (if z =? runeError then encodeRune runeError else b) +:+ r) (unquote l1)
  end.

Definition scanString (s : string) : option (string * string) :=
  match spanQuoted false s with
  | Some (raw, r) => match unquote (chunks raw) with Some v => Some (v, r) | None => None end
  | None => None
  end.

(** ** Values *)
Definition maxDepth : Z := 10000.

(** One value and the text after it.  Every recursive call after a bracket or
    comma is one unit shorter, so twice the length is enough fuel
    ([scanValue_print]). *)
Fixpoint scanValueF (fuel : nat) (depth : Z) (s : string) : option (json * string) :=
  match fuel with
  | O => None
  | S f =>
      match skipWs s with
      | EmptyString => None
      | String c r =>
          if Ascii.eqb c "{" then
            if maxDepth <=? depth then None
            else match skipWs r with
                 | String "}" r1 => Some (JObj [], r1)
                 | _ => scanMembers f (depth + 1) r []
                 end
          else if Ascii.eqb c "[" then
            if maxDepth <=? depth then None
            else match skipWs r with
                 | String "]" r1 => Some (JArr [], r1)
                 | _ => scanElements f (depth + 1) r []
                 end
          else if Ascii.eqb c "034" then
            match scanString r with Some (v, r1) => Some (JStr v, r1) | None => None end
          else if hasPrefix (String c r) "true" then Some (JBool true, drop 3 r)
          else if hasPrefix (String c r) "false" then Some (JBool false, drop 4 r)
          else if hasPrefix (String c r) "null" then Some (JNull, drop 3 r)
          else match scanNumber (String c r) with Some (t, r1) => Some (JNum t, r1) | None => None end
      end
  end
with scanElements (fuel : nat) (depth : Z) (s : string) (acc : list json) : option (json * string) :=
  match fuel with
  | O => None
  | S f =>
      match scanValueF f depth s with
      | None => None
      | Some (v, r) =>
          match skipWs r with
          | String "," r1 => scanElements f depth r1 (v :: acc)
          | String "]" r1 => Some (JArr (rev (v :: acc)), r1)
          | _ => None
          end
      end
  end
with scanMembers (fuel : nat) (depth : Z) (s : string) (acc : list (string * json)) : option (json * string) :=
  match fuel with
  | O => None
  | S f =>
      match skipWs s with
      | String "034" r0 =>
          match scanString r0 with
          | None => None
          | Some (k, r1) =>
              match skipWs r1 with
              | String ":" r2 =>
                  match scanValueF f depth r2 with
                  | None => None
                  | Some (v, r) =>
                      match skipWs r with
                      | String "," r3 => scanMembers f depth r3 ((k, v) :: acc)
                      | String "}" r3 => Some (JObj (rev ((k, v) :: acc)), r3)
                      | _ => None
                      end
                  end
              | _ => None
              end
          end
      | _ => None
      end
  end.

Definition scanValue (s : string) : option (json * string) :=
  scanValueF (2 * String.length s + 2) 0 s.

Definition syntaxError : error := EMsg "invalid JSON".

(** One [Decoder.Decode]: [None] is [io.EOF]. *)
Definition nextValue (s : string) : result (option (json * string)) :=
  if String.eqb (skipWs s) "" then Ok None
  else match scanValue s with Some vr => Ok (Some vr) | None => Err syntaxError end.

(** [json.Unmarshal]: one value and nothing after it. *)
Definition parseJSON (s : string) : result json :=
  match scanValue s with
  | Some (v, r) => if String.eqb (skipWs r) "" then Ok v else Err syntaxError
  | None => Err syntaxError
  end.

(** ** Decoding into Go values *)

(** [foldName]: names are compared by their simple upper-case folding, in
    which U+017F counts as S and U+212A as K. *)
Definition foldRuneName (z : Z) : Z :=
  if (97 <=? z) && (z <=? 122) then z - 32
  else if z =? 383 then 83 else if z =? 8490 then 75 else z.
Definition foldName (s : string) : list Z := map foldRuneName (runes s).
Definition sameName (a b : string) : bool := bool_decide (foldName a = foldName b).

Definition setter (T : Type) : Type := json -> T -> result T.

Definition typeError : error := EMsg "json: cannot unmarshal value into Go type".

(** The field a key names: an exact match before a case-insensitive one. *)
Fixpoint findField {T} (match_ : string -> string -> bool) (key : string) (fs : list (string * setter T))
  : option (setter T) :=
  match fs with
  | [] => None
  | (n, set) :: fs' => if match_ n key then Some set else findField match_ key fs'
  end.

Definition fieldOf {T} (fs : list (string * setter T)) (key : string) : option (setter T) :=
  match findField String.eqb key fs with
  | Some set => Some set
  | None => findField sameName key fs
  end.

Fixpoint decodeFields {T} (strict : bool) (fs : list (string * setter T)) (kvs : list (string * json)) (t : T)
  : result T :=
  match kvs with
  | [] => Ok t
  | (k, v) :: kvs' =>
      match fieldOf fs k with
      | Some set => t' ← set v t; decodeFields strict fs kvs' t'
      | None => if strict then Err (EMsg "json: unknown field") else decodeFields strict fs kvs' t
      end
  end.

Definition decodeStruct {T} (strict : bool) (fs : list (string * setter T)) : setter T := fun v t =>
  match v with
  | JNull => Ok t
  | JObj kvs => decodeFields strict fs kvs t
  | _ => Err typeError
  end.

(** Setters from the type of a field; [null] leaves the field alone. *)
Definition setString {T} (put : string -> T -> T) : setter T := fun v t =>
  match v with JNull => Ok t | JStr s => Ok (put s t) | _ => Err typeError end.
Definition setBool {T} (put : bool -> T -> T) : setter T := fun v t =>
  match v with JNull => Ok t | JBool b => Ok (put b t) | _ => Err typeError end.
Definition setInt {T} (lo hi : Z) (put : Z -> T -> T) : setter T := fun v t =>
  match v with
  | JNull => Ok t
  | JNum text =>
      match text with
      | String c _ =>
          if (0 <=? lo) && Ascii.eqb c "-" then Err typeError
          else match parseInt text with
               | Ok n => if (lo <=? n) && (n <=? hi) then Ok (put n t) else Err typeError
               | Err _ => Err typeError
               end
      | EmptyString => Err typeError
      end
  | _ => Err typeError
  end.

Definition maxUint32 : Z := 4294967295.
Definition maxUint64 : Z := 18446744073709551615.
Definition setInt64 {T} : (Z -> T -> T) -> setter T := setInt minInt64 maxInt64.
Definition setUint32 {T} : (Z -> T -> T) -> setter T := setInt 0 maxUint32.

(** [uint64] values have their own digits reader: [parseInt] stops at 2^63. *)
Definition setUint64 {T} (put : Z -> T -> T) : setter T := fun v t =>
  match v with
  | JNull => Ok t
  | JNum text => match parseUDigits text with
                 | Some n => if n <=? maxUint64 then Ok (put n t) else Err typeError
                 | None => Err typeError
                 end
  | _ => Err typeError
  end.

(** A slice: every element is decoded into a zero value [z]; [null] gives nil. *)
Fixpoint decodeElements {A} (dec : json -> A -> result A) (z : A) (l : list json) : result (list A) :=
  match l with
  | [] => Ok []
  | v :: l' => a ← dec v z; l'' ← decodeElements dec z l'; Ok (a :: l'')
  end.

Definition setSlice {T A} (dec : json -> A -> result A) (z : A) (put : option (list A) -> T -> T) : setter T :=
  fun v t =>
  match v with
  | JNull => Ok (put None t)
  | JArr l => xs ← decodeElements dec z l; Ok (put (Some xs) t)
  | _ => Err typeError
  end.

(** ** Encoding *)
Definition hex2 (z : Z) : string := String (hexDigit (z / 16)) (String (hexDigit (z mod 16)) "").

Definition escapeRune (z : Z) (b : string) : string :=
  if z =? 34 then "\" +:+ DQ else if z =? 92 then "\\"
  else if z =? 8 then "\b" else if z =? 12 then "\f" else if z =? 10 then "\n"
  else if z =? 13 then "\r" else if z =? 9 then "\t"
  else if (z <? 32) || (z =? 60) || (z =? 62) || (z =? 38) then "\u00" +:+ hex2 z
  else if (z =? runeError) && Nat.eqb (String.length b) 1 then "\ufffd"
  else if z =? 8232 then "\u2028" else if z =? 8233 then "\u2029"
  else b.

Definition printString (s : string) : string :=
  DQ +:+ String.concat "" (map (fun '(z, b) => escapeRune z b) (chunks s)) +:+ DQ.

Fixpoint printJSON (v : json) : string :=
  match v with
  | JNull => "null"
  | JBool true => "true"
  | JBool false => "false"
  | JNum t => t
  | JStr s => printString s
  | JArr l => "[" +:+ join "," (map printJSON l) +:+ "]"
  | JObj l => "{" +:+ join "," (map (fun kv => printString kv.1 +:+ ":" +:+ printJSON kv.2) l) +:+ "}"
  end.

(** [json.MarshalIndent(v, "", "  ")]: the same text with line breaks.  A
    [layout] is the white space before an item, or a closing bracket, at a
    depth, and the one after a colon. *)
Record layout := Layout { lineBreak : nat -> string; afterColon : string }.
Definition compact : layout := Layout (fun _ => "") "".
Fixpoint spaces (n : nat) : string := match n with O => "" | S n' => String " " (String " " (spaces n')) end.
Definition indented : layout := Layout (fun n => NL +:+ spaces n) " ".

Section layout.
Variable L : layout.
Fixpoint printWith (n : nat) (v : json) : string :=
  match v with
  | JArr ((_ :: _) as l) =>
      "[" +:+ lineBreak L (S n) +:+ join ("," +:+ lineBreak L (S n)) (map (printWith (S n)) l) +:+ lineBreak L n +:+ "]"
  | JObj ((_ :: _) as l) =>
      "{" +:+ lineBreak L (S n) +:+
      join ("," +:+ lineBreak L (S n))
        (map (fun kv => printString kv.1 +:+ ":" +:+ afterColon L +:+ printWith (S n) kv.2) l) +:+
      lineBreak L n +:+ "}"
  | _ => printJSON v
  end.
End layout.

Definition printIndent (v : json) : string := printWith indented 0 v.

(** ** Codecs

    What a component that stores a record asks of its encoding: a record the
    encoder accepts is read back. *)
Class Codec (T : Type) := {
  marshal : T -> result string;
  unmarshal : string -> result T;
  clean : T -> bool;
  unmarshal_marshal : forall v s, clean v = true -> marshal v = Ok s -> unmarshal s = Ok v;
}.
