(* ===== verification/JsonFacts.v ===== *)
(** * JsonFacts: what the encoder prints, the scanner reads back

    For values whose numbers are numbers, in every layout the encoder uses.
    Strings that are valid UTF-8 come back as they are, others with U+FFFD for
    every byte that is none. *)
From S2P Require Import Prelude GoStrings Utf8Facts Json.
Set Warnings "-register-all".

(** ** Induction on values *)
Section induction.
Variable P : json -> Prop.
Hypothesis Hnull : P JNull.
Hypothesis Hbool : forall b, P (JBool b).
Hypothesis Hnum : forall t, P (JNum t).
Hypothesis Hstr : forall s, P (JStr s).
Hypothesis Harr : forall l, Forall P l -> P (JArr l).
Hypothesis Hobj : forall l, Forall (fun kv => P kv.2) l -> P (JObj l).

Fixpoint json_nested_ind (v : json) : P v :=
  match v with
  | JNull => Hnull
  | JBool b => Hbool b
  | JNum t => Hnum t
  | JStr s => Hstr s
  | JArr l => Harr l ((fix go (l : list json) : Forall P l :=
             match l with
             | [] => Forall_nil_2 P
             | x :: l' => Forall_cons_2 P x l' (json_nested_ind x) (go l')
             end) l)
  | JObj l => Hobj l ((fix go (l : list (string * json)) : Forall (fun kv => P kv.2) l :=
             match l with
             | [] => Forall_nil_2 _
             | x :: l' => Forall_cons_2 _ x l' (json_nested_ind x.2) (go l')
             end) l)
  end.
End induction.

(** ** Strings *)

(** What the encoder writes between the quotes. *)
Definition escaped (l : list (Z * string)) : string := String.concat "" (map (fun zb => escapeRune zb.1 zb.2) l).

Lemma escaped_cons zb l : escaped (zb :: l) = escapeRune zb.1 zb.2 +:+ escaped l.
Proof. apply concat_cons. Qed.

Lemma printString_chunks s : printString s = DQ +:+ escaped (chunks s) +:+ DQ.
Proof. unfold printString, escaped. do 3 f_equal. apply map_ext. by intros [z b]. Qed.

Definition prepend (e : string) (o : option (string * string)) : option (string * string) :=
  option_map (fun '(b, r) => (e +:+ b, r)) o.

(** The scanner's state after [s], unless a quote closes the string in it. *)
Fixpoint quoteState (esc : bool) (s : string) : option bool :=
  match s with
  | EmptyString => Some esc
  | String c r => if negb esc && Ascii.eqb c "034" then None else quoteState (negb esc && Ascii.eqb c "\") r
  end.

Lemma span_app s : forall esc st r, quoteState esc s = Some st ->
  spanQuoted esc (s +:+ r) = prepend s (spanQuoted st r).
Proof.
  induction s as [|c s IH]; intros esc st r Hs; cbn [String.append quoteState spanQuoted] in *.
  - injection Hs as <-. unfold prepend. by destruct (spanQuoted esc r) as [[b r']|].
  - destruct (negb esc && Ascii.eqb c "034"); [done|]. rewrite (IH _ _ _ Hs).
    unfold prepend. by destruct (spanQuoted st r) as [[b r']|].
Qed.

Lemma quoteState_app s t esc : quoteState esc (s +:+ t) = quoteState esc s ≫= fun st => quoteState st t.
Proof.
  revert esc. induction s as [|c s IH]; intros esc; [done|]. cbn [String.append quoteState].
  destruct (_ && _); [done|]. apply IH.
Qed.

(** How an escaped rune reads back: as it is, or after a backslash. *)
Definition readsBack (z : Z) : bool :=
  let e := escapeRune z (encodeRune z) in
  bool_decide (quoteState false e = Some false) &&
  match chunks e with
  | [(z', b)] => (z' =? z) && (32 <=? z) && negb (z =? 92) && String.eqb b (encodeRune z)
  | [(92, _); (c, _)] => negb (c =? 117) && bool_decide (simpleEscape c = Some (encodeRune z))
  | [(92, _); (117, _); (a, _); (b, _); (c, _); (d, _)] =>
      match hex4 a b c d with Some h => (h =? z) && negb (isHigh h) | None => false end
  | _ => false
  end.

Lemma small_reads_back z : 0 <= z < 128 -> readsBack z = true.
Proof.
  intros Hz. assert (forallb (fun n => readsBack (Z.of_nat n)) (seq 0 128) = true) as Hall by (vm_compute; reflexivity).
  rewrite forallb_forall in Hall. rewrite <- (Z2Nat.id z) by lia. apply Hall, in_seq. lia.
Qed.

(** The bytes of a longer encoding are not ASCII. *)
Definition highByte (c : ascii) : bool := 128 <=? byteZ c.

Lemma encodeRune_high z : 128 <= z -> isScalar z = true -> strForall highByte (encodeRune z) = true.
Proof.
  intros Hz [Hs Hr]%isScalar_iff. unfold encodeRune.
  replace ((z <? 0) || (1114111 <? z) || ((55296 <=? z) && (z <=? 57343))) with false
    by (destruct (Z.leb_spec 55296 z), (Z.leb_spec z 57343); try lia; zbool; done).
  cbv zeta iota. rewrite (proj2 (Z.ltb_ge z 128)) by lia.
  destruct (Z.ltb_spec z 2048); [|destruct (Z.ltb_spec z 65536)]; cbn [strForall]; unfold highByte;
    rewrite !byteZ_chrZ by (Z.div_mod_to_equations; lia); rewrite !andb_true_iff, !Z.leb_le; Z.div_mod_to_equations; lia.
Qed.

Lemma quoteState_high s : strForall highByte s = true -> quoteState false s = Some false.
Proof.
  induction s as [|c s IH]; [done|]. cbn [strForall quoteState]. intros [Hc Hs]%andb_prop. unfold highByte in Hc.
  apply Z.leb_le in Hc. assert (forall a, byteZ a < 128 -> Ascii.eqb c a = false) as Hn.
  { intros a Ha. apply Ascii.eqb_neq. intros ->. lia. }
  rewrite !Hn by done. by apply IH.
Qed.

(** Every rune but the two line separators is its own escape beyond ASCII. *)
Lemma escapeRune_high z :
  128 <= z -> isScalar z = true -> z <> 8232 -> z <> 8233 -> escapeRune z (encodeRune z) = encodeRune z.
Proof.
  intros Hz Hs H1 H2. unfold escapeRune. zbool. destruct (encodeRune_decode z "" Hs) as (_&_&_&_&Hv).
  unfold validChunk in Hv. cbn [fst snd] in Hv. apply negb_true_iff in Hv. by rewrite Hv.
Qed.

Lemma unquote_step z b l :
  32 <= z -> z <> 92 ->
  unquote ((z, b) :: l) = option_map (fun r => (if z =? runeError then encodeRune runeError else b) +:+ r) (unquote l).
Proof.
  intros H1 H2.
  assert (unquote ((z, b) :: l) =
    if z <? 32 then None
    else option_map (fun r => (if z =? runeError then encodeRune runeError else b) +:+ r) (unquote l)) as ->.
  { cbn [unquote]. repeat (case_match; try done; try lia). }
  by rewrite (proj2 (Z.ltb_ge z 32)) by lia.
Qed.

Lemma reads_back z : isScalar z = true -> readsBack z = true.
Proof.
  intros Hs. pose proof Hs as [Hr _]%isScalar_iff. destruct (Z.lt_ge_cases z 128); [apply small_reads_back; lia|].
  destruct (Z.eq_dec z 8232) as [->|]; [by vm_compute|]. destruct (Z.eq_dec z 8233) as [->|]; [by vm_compute|].
  pose proof (chunks_encodeRune z "" Hs) as Hc. rewrite app_nil_r_str in Hc.
  unfold readsBack. rewrite escapeRune_high, Hc by done. change (chunks "") with (@nil (Z * string)).
  rewrite bool_decide_eq_true_2 by (by apply quoteState_high, encodeRune_high).
  rewrite String.eqb_refl. assert ((z =? z) && (32 <=? z) && negb (z =? 92) = true) as He by (by zbool).
  rewrite He. repeat (case_match; try done; try lia).
Qed.

Lemma chunks_escape z t :
  isScalar z = true ->
  chunks (escapeRune z (encodeRune z) +:+ t) = (chunks (escapeRune z (encodeRune z)) ++ chunks t)%list.
Proof.
  intros Hs. assert (strForall isAscii (escapeRune z (encodeRune z)) = true \/ escapeRune z (encodeRune z) = encodeRune z) as [Ha|He].
  - pose proof Hs as [Hr _]%isScalar_iff. destruct (Z.lt_ge_cases z 128).
    + left. assert (forallb (fun n => strForall isAscii (escapeRune (Z.of_nat n) (encodeRune (Z.of_nat n)))) (seq 0 128) = true)
        as Hall by (vm_compute; reflexivity).
      rewrite forallb_forall in Hall. rewrite <- (Z2Nat.id z) by lia. apply Hall, in_seq. lia.
    + destruct (Z.eq_dec z 8232) as [->|]; [by left|]. destruct (Z.eq_dec z 8233) as [->|]; [by left|].
      right. by apply escapeRune_high.
  - by rewrite chunks_app_ascii, (chunks_ascii (escapeRune z (encodeRune z))).
  - rewrite He, chunks_encodeRune by done. pose proof (chunks_encodeRune z "" Hs) as Hc.
    rewrite app_nil_r_str in Hc. by rewrite Hc.
Qed.

(** The two escapes with a backslash. *)
Lemma unquote_simple c b1 b2 e l :
  c <> 117 -> simpleEscape c = Some e -> unquote ((92, b1) :: (c, b2) :: l) = option_map (fun r => e +:+ r) (unquote l).
Proof.
  intros Hc He.
  assert (unquote ((92, b1) :: (c, b2) :: l) =
    match simpleEscape c with Some e => option_map (fun r => e +:+ r) (unquote l) | None => None end) as ->.
  { cbn [unquote]. repeat (case_match; try done; try lia). }
  by rewrite He.
Qed.

Lemma unquote_unicode a b c d h e1 e2 ea eb ec ed l :
  hex4 a b c d = Some h -> isHigh h = false ->
  unquote ((92, e1) :: (117, e2) :: (a, ea) :: (b, eb) :: (c, ec) :: (d, ed) :: l) =
  option_map (fun r => encodeRune h +:+ r) (unquote l).
Proof. intros Hh Hi. cbn [unquote]. by rewrite Hh, Hi. Qed.

Lemma unquote_escape z t :
  isScalar z = true ->
  unquote (chunks (escapeRune z (encodeRune z) +:+ t)) = option_map (fun r => encodeRune z +:+ r) (unquote (chunks t)).
Proof.
  intros Hs. rewrite chunks_escape by done. pose proof (reads_back z Hs) as Hb. unfold readsBack in Hb.
  apply andb_prop in Hb as [_ Hb]. destruct (chunks (escapeRune z (encodeRune z))) as [|[z1 b1] [|[z2 b2] l]]; [done|..].
  - assert ((z1 =? z) && (32 <=? z) && negb (z =? 92) && String.eqb b1 (encodeRune z) = true) as He
      by (clear -Hb; repeat case_match; done).
    bool_solve. cbn [app]. rewrite unquote_step by lia. assert (z1 = z) as -> by lia.
    match goal with H : String.eqb _ _ = true |- _ => apply String.eqb_eq in H as -> end.
    destruct (Z.eqb_spec z runeError) as [->|]; done.
  - assert (z1 = 92) as -> by (clear -Hb; repeat case_match; try done).
    destruct l as [|[z3 b3] l].
    + assert (negb (z2 =? 117) && bool_decide (simpleEscape z2 = Some (encodeRune z)) = true) as He
        by (clear -Hb; repeat case_match; done).
      bool_solve. cbn [app]. match goal with H : bool_decide _ = true |- _ => apply bool_decide_eq_true in H end.
      by apply unquote_simple; [lia|].
    + assert (z2 = 117) as -> by (clear -Hb; repeat case_match; try done).
      destruct l as [|[z4 b4] [|[z5 b5] [|[z6 b6] [|]]]]; try done.
      destruct (hex4 z3 z4 z5 z6) as [h|] eqn:Eh; [|done]. bool_solve. assert (h = z) as -> by lia.
      cbn [app]. by apply unquote_unicode.
Qed.

(** One chunk, a byte that is no rune included. *)
Lemma escape_chunk zb t : chunkOK zb ->
  quoteState false (escapeRune zb.1 zb.2) = Some false /\
  unquote (chunks (escapeRune zb.1 zb.2 +:+ t)) = option_map (fun r => encodeRune zb.1 +:+ r) (unquote (chunks t)).
Proof.
  destruct zb as [z b]. unfold chunkOK. cbn [fst snd]. intros [Hz [->|[-> Hb]]].
  - split; [|by apply unquote_escape]. pose proof (reads_back z Hz) as Hr. unfold readsBack in Hr.
    by apply andb_prop in Hr as [Hr%bool_decide_eq_true _].
  - assert (escapeRune runeError b = "\ufffd") as -> by (unfold escapeRune; by rewrite Hb).
    split; [reflexivity|]. rewrite chunks_app_ascii by reflexivity. by apply unquote_unicode.
Qed.

(** A string's text, its closing quote and what follows. *)
Lemma scanString_chunks l rest : Forall chunkOK l ->
  scanString (escaped l +:+ String "034" rest) = Some (encodeRunes (map fst l), rest).
Proof.
  intros Hl. unfold scanString.
  assert (quoteState false (escaped l) = Some false /\ unquote (chunks (escaped l)) = Some (encodeRunes (map fst l))) as [Hq Hu].
  - induction Hl as [|zb l Hz _ [Hq Hu]]; [done|]. destruct (escape_chunk zb (escaped l) Hz) as [Hq1 Hu1]. cbn [map].
    by rewrite escaped_cons, quoteState_app, Hu1, Hu, encodeRunes_cons, Hq1.
  - rewrite (span_app _ _ _ _ Hq). cbn [spanQuoted prepend option_map negb andb Ascii.eqb Bool.eqb].
    rewrite app_nil_r_str. by rewrite Hu.
Qed.

(** ** Numbers *)
Lemma digitsFuel_head f n acc :
  0 < n < 2 ^ Z.of_nat f -> exists c r, digitsFuel f n acc = String c r /\ Ascii.eqb c "0" = false.
Proof.
  revert n acc. induction f as [|f IH]; intros n acc Hn; [simpl in Hn; lia|].
  rewrite Nat2Z.inj_succ, Z.pow_succ_r in Hn by lia. cbn [digitsFuel].
  destruct (Z.ltb_spec n 10) as [Hs|Hs].
  - eexists _, _. split; [done|]. rewrite Z.mod_small by lia. apply Ascii.eqb_neq.
    intros Heq%(f_equal byteZ). unfold digitChar in Heq. rewrite byteZ_chrZ in Heq by lia.
    change (byteZ "0") with 48 in Heq. lia.
  - apply IH. split.
    + apply Z.div_str_pos. lia.
    + apply Z.div_lt_upper_bound; lia.
Qed.

Definition notDigitStart (s : string) : bool :=
  match s with EmptyString => true | String c _ => negb (isDigit c) end.

Lemma spanDigits_app d rest :
  strForall isDigit d = true -> notDigitStart rest = true -> spanDigits (d +:+ rest) = (d, rest).
Proof.
  intros Hd Hr. induction d as [|c d IH]; simpl in *.
  - destruct rest as [|c r]; simpl in *; [done|]. apply negb_true_iff in Hr. by rewrite Hr.
  - apply andb_prop in Hd as [Hc Hd]. by rewrite Hc, IH.
Qed.

(** What may follow a number: nothing the scanner would take into it. *)
Definition numberEnd (s : string) : bool :=
  match s with
  | EmptyString => true
  | String c _ => negb (isDigit c) && negb (Ascii.eqb c ".") && negb (Ascii.eqb c "e" || Ascii.eqb c "E")
  end.

Lemma scanInteger_digits n rest :
  0 <= n -> notDigitStart rest = true -> scanInteger (digits n +:+ rest) = Some (digits n, rest).
Proof.
  intros Hn Hr. destruct (Z.eq_dec n 0) as [->|Hnz]; [done|].
  destruct (digitsFuel_head (S (Z.to_nat (Z.log2 n))) n "") as (c&r&E&Hc).
  { split; [lia|]. by apply digits_fuel. }
  pose proof (spanDigits_app (digits n) rest (digits_digits n Hn) Hr) as Hs.
  unfold digits in *. rewrite E in *. unfold scanInteger. cbn [String.append] in *.
  rewrite Hc, Hs. done.
Qed.

Lemma digits_not_minus n : 0 <= n -> exists c r, digits n = String c r /\ isDigit c = true.
Proof.
  intros Hn. pose proof (digits_nonempty n). pose proof (digits_digits n Hn) as Hd.
  destruct (digits n) as [|c r]; [done|]. simpl in Hd. apply andb_prop in Hd as [? _]. eauto.
Qed.

Lemma isDigit_neq c d : isDigit c = true -> isDigit d = false -> Ascii.eqb c d = false.
Proof. intros Hc Hd. apply Ascii.eqb_neq. intros ->. congruence. Qed.

Lemma scanNumber_digits n rest :
  0 <= n -> numberEnd rest = true -> scanNumber (digits n +:+ rest) = Some (digits n, rest).
Proof.
  intros Hn Hr. destruct (digits_not_minus n Hn) as (c&r&E&Hc).
  assert (notDigitStart rest = true) as Hd.
  { destruct rest; simpl in *; [done|]. by apply andb_prop in Hr as [[? _]%andb_prop _]. }
  pose proof (scanInteger_digits n rest Hn Hd) as Hi.
  unfold scanNumber. rewrite E in *. cbn [String.append] in *.
  rewrite (isDigit_neq c "-") by done. rewrite Hi.
  destruct rest as [|a rest]; simpl in *.
  - by rewrite !app_nil_r_str.
  - apply andb_prop in Hr as [[_ Hdot%negb_true_iff]%andb_prop He%negb_true_iff].
    rewrite Hdot. simpl. rewrite He. by rewrite app_nil_r_str.
Qed.

(** *** Any number text *)
Lemma numberEnd_facts rest :
  numberEnd rest = true ->
  notDigitStart rest = true /\ scanFraction rest = Some ("", rest) /\ scanExponent rest = Some ("", rest).
Proof.
  destruct rest as [|c r]; [done|]. unfold numberEnd. intros Hr. bool_solve. cbn [notDigitStart scanFraction scanExponent].
  repeat match goal with H : _ = false |- _ => rewrite H; clear H end. done.
Qed.

Lemma spanDigits_more s d r rest :
  spanDigits s = (d, r) -> notDigitStart rest = true -> spanDigits (s +:+ rest) = (d, r +:+ rest).
Proof.
  revert d r. induction s as [|c s IH]; intros d r Hs Hr; cbn [spanDigits String.append] in *.
  - injection Hs as <- <-. by apply (spanDigits_app "").
  - destruct (isDigit c); [|by injection Hs as <- <-].
    destruct (spanDigits s) as [d' r'] eqn:E. injection Hs as <- <-. by rewrite (IH _ _ eq_refl).
Qed.

Lemma scanInteger_more s i r rest :
  scanInteger s = Some (i, r) -> notDigitStart rest = true -> scanInteger (s +:+ rest) = Some (i, r +:+ rest).
Proof.
  destruct s as [|c s]; [done|]. unfold scanInteger. cbn [String.append].
  destruct (Ascii.eqb c "0"); [by intros [= <- <-]|]. intros Hs Hr.
  destruct (spanDigits (String c s)) as [d r'] eqn:E. apply (spanDigits_more _ _ _ rest) in E; [|done].
  cbn [String.append] in E. rewrite E. destruct (String.eqb d ""); [done|]. by injection Hs as <- <-.
Qed.

Lemma scanFraction_more s f r rest :
  scanFraction s = Some (f, r) -> numberEnd rest = true -> scanFraction (s +:+ rest) = Some (f, r +:+ rest).
Proof.
  intros Hs (Hd&Hf&_)%numberEnd_facts. destruct s as [|c s]; [by injection Hs as <- <-|].
  cbn [scanFraction String.append] in *. destruct (Ascii.eqb c "."); [|by injection Hs as <- <-].
  destruct (spanDigits s) as [d r'] eqn:E. rewrite (spanDigits_more _ _ _ rest E Hd).
  destruct (String.eqb d ""); [done|]. by injection Hs as <- <-.
Qed.

Lemma scanExponent_more s f r rest :
  scanExponent s = Some (f, r) -> numberEnd rest = true -> scanExponent (s +:+ rest) = Some (f, r +:+ rest).
Proof.
  intros Hs (Hd&_&He)%numberEnd_facts. destruct s as [|c s]; [by injection Hs as <- <-|].
  cbn [scanExponent String.append] in *. destruct (_ || _); [|by injection Hs as <- <-].
  destruct s as [|a s]; [done|]. cbn [String.append]. destruct (Ascii.eqb a "+" || Ascii.eqb a "-").
  - destruct (spanDigits s) as [d r'] eqn:E. rewrite (spanDigits_more _ _ _ rest E Hd).
    destruct (String.eqb d ""); [done|]. by injection Hs as <- <-.
  - destruct (spanDigits (String a s)) as [d r'] eqn:E. apply (spanDigits_more _ _ _ rest) in E; [|done].
    cbn [String.append] in E. rewrite E. destruct (String.eqb d ""); [done|]. by injection Hs as <- <-.
Qed.

Lemma scanNumber_more s t r rest :
  scanNumber s = Some (t, r) -> numberEnd rest = true -> scanNumber (s +:+ rest) = Some (t, r +:+ rest).
Proof.
  intros Hs Hr. pose proof (numberEnd_facts _ Hr) as (Hd&_).
  assert (s <> "") as Hne by (intros ->; by vm_compute in Hs).
  unfold scanNumber in *. destruct s as [|c s]; [done|]. cbn [String.append].
  set (s1 := if Ascii.eqb c "-" then s else String c s).
  assert ((if Ascii.eqb c "-" then ("-", s +:+ rest) else ("", String c (s +:+ rest))) =
          ((if Ascii.eqb c "-" then "-" else ""), s1 +:+ rest)) as ->
    by (subst s1; by destruct (Ascii.eqb c "-")).
  assert ((if Ascii.eqb c "-" then ("-", s) else ("", String c s)) = ((if Ascii.eqb c "-" then "-" else ""), s1)) as E1
    by (subst s1; by destruct (Ascii.eqb c "-")).
  rewrite E1 in Hs. clear E1. destruct (scanInteger s1) as [[i s2]|] eqn:Ei; [|done]. rewrite (scanInteger_more _ _ _ _ Ei Hd).
  destruct (scanFraction s2) as [[f s3]|] eqn:Ef; [|done]. rewrite (scanFraction_more _ _ _ _ Ef Hr).
  destruct (scanExponent s3) as [[e s4]|] eqn:Ee; [|done]. rewrite (scanExponent_more _ _ _ _ Ee Hr).
  by injection Hs as <- <-.
Qed.

(** A JSON number and nothing else. *)
Definition numberText (t : string) : bool :=
  match scanNumber t with Some (t', r) => String.eqb t t' && String.eqb r "" | None => false end.

Lemma numberText_scan t rest :
  numberText t = true -> numberEnd rest = true -> scanNumber (t +:+ rest) = Some (t, rest).
Proof.
  unfold numberText. destruct (scanNumber t) as [[t' r]|] eqn:E; [|done].
  intros [<-%String.eqb_eq ->%String.eqb_eq]%andb_prop Hr. by apply (scanNumber_more _ _ _ rest) in E.
Qed.

Lemma numberText_start t :
  numberText t = true -> exists c r, t = String c r /\ (isDigit c = true \/ c = "-"%char).
Proof.
  unfold numberText, scanNumber. destruct t as [|c r]; [done|]. intros Ht. exists c, r. split; [done|].
  destruct (Ascii.eqb_spec c "-") as [->|Hc]; [by right|]. left. unfold scanInteger in Ht.
  destruct (Ascii.eqb_spec c "0") as [->|]; [done|]. cbn [spanDigits] in Ht. by destruct (isDigit c).
Qed.

Lemma numberText_digits n : 0 <= n -> numberText (digits n) = true /\ numberText ("-" +:+ digits n) = true.
Proof.
  intros Hn. pose proof (scanInteger_digits n "" Hn eq_refl) as Hi. pose proof (scanNumber_digits n "" Hn eq_refl) as Hs.
  rewrite app_nil_r_str in Hi, Hs. unfold numberText. rewrite Hs, String.eqb_refl. split; [done|].
  change ("-" +:+ digits n) with (String "-" (digits n)). unfold scanNumber. cbn [Ascii.eqb Bool.eqb]. rewrite Hi.
  cbn [scanFraction scanExponent]. rewrite !app_nil_r_str. by rewrite String.eqb_refl.
Qed.

Lemma numberText_itoa n : numberText (itoa n) = true.
Proof. unfold itoa. destruct (Z.ltb_spec n 0); by apply numberText_digits; lia. Qed.

(** ** Values *)

(** Printable at nesting depth [d]. *)
Fixpoint printable (d : Z) (v : json) : bool :=
  match v with
  | JNull | JBool _ | JStr _ => true
  | JNum t => numberText t
  | JArr l => negb ((maxDepth <=? d)) && forallb (printable (d + 1)) l
  | JObj l => negb ((maxDepth <=? d)) && forallb (fun kv => printable (d + 1) kv.2) l
  end.

(** What is read back: every string is UTF-8. *)
Fixpoint toValidJSON (v : json) : json :=
  match v with
  | JNull | JBool _ | JNum _ => v
  | JStr s => JStr (toValid s)
  | JArr l => JArr (map toValidJSON l)
  | JObj l => JObj (map (fun kv => (toValid kv.1, toValidJSON kv.2)) l)
  end.

(** Printable, and read back as it is. *)
Fixpoint plainValue (d : Z) (v : json) : bool :=
  match v with
  | JNull | JBool _ => true
  | JNum t => numberText t
  | JStr s => validUTF8 s
  | JArr l => negb ((maxDepth <=? d)) && forallb (plainValue (d + 1)) l
  | JObj l => negb ((maxDepth <=? d)) && forallb (fun kv => validUTF8 kv.1 && plainValue (d + 1) kv.2) l
  end.

Lemma plain_printable v : forall d, plainValue d v = true -> printable d v = true /\ toValidJSON v = v.
Proof.
  induction v as [|b|t|s|l Hl|l Hl] using json_nested_ind; intros d; cbn [plainValue printable toValidJSON]; try done.
  - intros Hs. by rewrite toValid_id.
  - intros [-> Hp]%andb_prop. cbn [andb]. rewrite forallb_forall in Hp. split.
    + rewrite forallb_forall. intros x Hx. rewrite Forall_forall in Hl. apply list_elem_of_In in Hx as Hx'. by apply Hl, Hp.
    + f_equal. rewrite <- (map_id l) at 2. apply map_ext_in. intros x Hx. rewrite Forall_forall in Hl.
      apply list_elem_of_In in Hx as Hx'. by eapply Hl, Hp.
  - intros [-> Hp]%andb_prop. cbn [andb]. rewrite forallb_forall in Hp. rewrite Forall_forall in Hl. split.
    + rewrite forallb_forall. intros x Hx. apply list_elem_of_In in Hx as Hx'. apply Hp in Hx as [_ Hx]%andb_prop. by apply Hl.
    + f_equal. rewrite <- (map_id l) at 2. apply map_ext_in. intros [k x] Hx. apply list_elem_of_In in Hx as Hx'.
      apply Hp in Hx as [Hk Hx]%andb_prop. cbn [fst snd] in *. rewrite toValid_id by done. f_equal. by eapply (Hl (k, x)).
Qed.

(** Text does not matter for what can be printed. *)
Lemma printable_toValid v : forall d, printable d (toValidJSON v) = printable d v.
Proof.
  induction v as [|b|t|s|l Hl|l Hl] using json_nested_ind; intros d; cbn [printable toValidJSON]; try done; f_equal.
  - induction Hl as [|x l Hx _ IH]; [done|]. cbn [map forallb]. by rewrite Hx, IH.
  - induction Hl as [|x l Hx _ IH]; [done|]. cbn [map forallb snd]. by rewrite Hx, IH.
Qed.

Lemma skipWs_first c r : isWs c = false -> skipWs (String c r) = String c r.
Proof. intros Hc. simpl. by rewrite Hc. Qed.

Lemma skipWs_app ws s : strForall isWs ws = true -> skipWs (ws +:+ s) = skipWs s.
Proof. induction ws as [|c ws IH]; [done|]. cbn [strForall String.append skipWs]. intros [-> Hs]%andb_prop. by apply IH. Qed.

(** A printed value starts with a character that is not white space and does
    not close a list. *)
Definition valueStart (c : ascii) : bool :=
  negb (isWs c) && negb (Ascii.eqb c "]") && negb (Ascii.eqb c "}").

Lemma valueStart_digit c : isDigit c = true -> valueStart c = true.
Proof.
  intros Hc. unfold valueStart, isWs.
  rewrite !(isDigit_neq c) by (try done; by vm_compute). done.
Qed.

Lemma numberText_valueStart t :
  numberText t = true -> exists c r, t = String c r /\ valueStart c = true.
Proof.
  intros (c&r&->&[Hc| ->])%numberText_start; eexists _, _; split; try done. by apply valueStart_digit.
Qed.

Section printed.
Variable L : layout.
Hypothesis break_space : forall n, strForall isWs (lineBreak L n) = true.
Hypothesis colon_space : strForall isWs (afterColon L) = true.

Lemma print_start n d v : printable d v = true -> exists c r, printWith L n v = String c r /\ valueStart c = true.
Proof.
  destruct v as [|[]|t|s|[|? l]|[|? l]]; simpl; intros Hv; try (by eexists _, _). by apply numberText_valueStart.
Qed.

(** White space ends a number. *)
Lemma numberEnd_ws ws s : strForall isWs ws = true -> numberEnd s = true -> numberEnd (ws +:+ s) = true.
Proof.
  destruct ws as [|c ws]; [done|]. cbn [strForall String.append]. intros [Hc _]%andb_prop _. unfold isWs in Hc.
  apply orb_prop in Hc as [[[Hc|Hc]%orb_prop|Hc]%orb_prop|Hc]; by apply Ascii.eqb_eq in Hc as ->.
Qed.

Definition scans (v : json) : Prop :=
  forall n d rest fuel, printable d v = true -> numberEnd rest = true ->
    (2 * String.length (printWith L n v) <= fuel)%nat -> scanValueF fuel d (printWith L n v +:+ rest) = Some (toValidJSON v, rest).

Lemma scanValueF_ws fuel d ws s : strForall isWs ws = true -> scanValueF fuel d (ws +:+ s) = scanValueF fuel d s.
Proof. intros Hw. destruct fuel as [|f]; [done|]. cbn [scanValueF]. by rewrite skipWs_app. Qed.

Lemma scans_number t : scans (JNum t).
Proof.
  intros n d rest fuel Ht Hr Hf. cbn [printable printWith printJSON toValidJSON] in *.
  pose proof (numberText_scan _ rest Ht Hr) as Hs. destruct (numberText_start t Ht) as (c&r&->&Hc). cbn [String.append] in *.
  destruct fuel as [|f]; [simpl in Hf; lia|]. cbn [scanValueF].
  assert (forall a, isDigit a = false -> Ascii.eqb a "-" = false -> Ascii.eqb c a = false) as Hn.
  { intros a Ha Hm. apply Ascii.eqb_neq. intros ->. destruct Hc as [?| ->]; [congruence|done]. }
  rewrite skipWs_first by (unfold isWs; by rewrite !Hn by (by vm_compute)).
  rewrite !Hn by (by vm_compute). unfold hasPrefix. cbn [String.prefix].
  destruct (ascii_dec "t" c) as [<-|]; [by destruct Hc|].
  destruct (ascii_dec "f" c) as [<-|]; [by destruct Hc|].
  destruct (ascii_dec "n" c) as [<-|]; [by destruct Hc|].
  by rewrite Hs.
Qed.

Lemma scans_string s : scans (JStr s).
Proof.
  intros n d rest fuel _ Hr Hf. cbn [printWith printJSON toValidJSON] in *. rewrite printString_chunks in *.
  destruct fuel as [|f]; [simpl in Hf; lia|]. rewrite !app_assoc_str.
  change (DQ +:+ (escaped ?l +:+ (DQ +:+ rest))) with (String "034" (escaped l +:+ String "034" rest)).
  cbn [scanValueF]. rewrite skipWs_first by done. cbv iota.
  change (Ascii.eqb "034" "{") with false. change (Ascii.eqb "034" "[") with false.
  change (Ascii.eqb "034" "034") with true. cbv iota. by rewrite scanString_chunks by apply chunks_OK.
Qed.

(** The separated items of a list at depth [n]. *)
Definition separator (n : nat) : string := "," +:+ lineBreak L n.

Lemma join_cons sep x y l : join sep (x :: y :: l) = x +:+ sep +:+ join sep (y :: l).
Proof. done. Qed.

Lemma length_join_cons sep x y l :
  String.length (join sep (x :: y :: l)) =
  (String.length x + (String.length sep + String.length (join sep (y :: l))))%nat.
Proof. by rewrite join_cons, !length_app_str. Qed.

Definition elementsText (n : nat) (l : list json) : string := join (separator n) (map (printWith L n) l).

Lemma scanElements_print l : forall n m d rest fuel acc,
  l <> [] -> Forall scans l -> forallb (printable d) l = true ->
  (2 * String.length (elementsText n l +:+ "]") <= fuel)%nat ->
  scanElements fuel d (elementsText n l +:+ lineBreak L m +:+ "]" +:+ rest) acc = Some (JArr (rev acc ++ map toValidJSON l), rest).
Proof.
  induction l as [|v l IH]; intros n m d rest fuel acc Hne Hs Hp Hf; [done|].
  inversion Hs as [|?? Hv Hl]; subst. simpl in Hp. apply andb_prop in Hp as [Hpv Hpl].
  rewrite length_app_str in Hf. change (String.length "]") with 1%nat in Hf.
  destruct fuel as [|f]; [lia|]. cbn [scanElements]. unfold elementsText in *.
  destruct l as [|y l].
  - cbn [map] in *. unfold join in *. cbn [String.concat] in *.
    rewrite Hv; [|done|by apply numberEnd_ws|lia].
    rewrite skipWs_app by done. change ("]" +:+ rest) with (String "]" rest). rewrite skipWs_first by done. by simpl.
  - cbn [map] in *. rewrite length_join_cons in Hf. unfold separator in Hf at 1. rewrite length_app_str in Hf.
    change (String.length ",") with 1%nat in Hf. rewrite join_cons, !app_assoc_str.
    change (printWith L n y :: map (printWith L n) l) with (map (printWith L n) (y :: l)) in *.
    unfold separator at 1. rewrite !app_assoc_str.
    set (tl := join (separator n) (map (printWith L n) (y :: l))) in *.
    change ("," +:+ ?x) with (String "," x). rewrite Hv by (try done; lia).
    rewrite skipWs_first by done. cbv iota.
    assert (forall g, scanElements g d (lineBreak L n +:+ (tl +:+ (lineBreak L m +:+ ("]" +:+ rest)))) (toValidJSON v :: acc) =
                      scanElements g d (tl +:+ (lineBreak L m +:+ ("]" +:+ rest))) (toValidJSON v :: acc)) as ->
      by (intros [|g]; [done|cbn [scanElements]; by rewrite scanValueF_ws]).
    subst tl. rewrite IH; [simpl; by rewrite <- app_assoc|done|done|done|].
    rewrite length_app_str. change (String.length "]") with 1%nat. cbn [map] in *. lia.
Qed.

Lemma scans_array l : Forall scans l -> scans (JArr l).
Proof.
  intros Hl n d rest fuel Hp Hr Hf. simpl in Hp. apply andb_prop in Hp as [Hd%negb_true_iff Hp].
  destruct fuel as [|f]; [destruct l; simpl in Hf; lia|]. destruct l as [|v l].
  { cbn -[maxDepth]. by rewrite Hd. }
  assert (printWith L n (JArr (v :: l)) =
    String "[" (lineBreak L (S n) +:+ (elementsText (S n) (v :: l) +:+ (lineBreak L n +:+ "]")))) as E by reflexivity.
  rewrite E in *. clear E. cbn [String.append String.length] in *. rewrite !app_assoc_str. rewrite !length_app_str in Hf.
  change (String.length "]") with 1%nat in Hf.
  cbn [scanValueF]. rewrite skipWs_first by done. cbv iota.
  change (Ascii.eqb "[" "{") with false. change (Ascii.eqb "[" "[") with true. cbv iota. rewrite Hd, skipWs_app by done.
  assert (scanElements f (d + 1) (lineBreak L (S n) +:+ (elementsText (S n) (v :: l) +:+ (lineBreak L n +:+ ("]" +:+ rest)))) [] =
          Some (toValidJSON (JArr (v :: l)), rest)) as Hscan.
  { assert (forall s, scanElements f (d + 1) (lineBreak L (S n) +:+ s) [] = scanElements f (d + 1) s []) as ->
      by (intros s; destruct f; [done|]; cbn [scanElements]; by rewrite scanValueF_ws).
    apply scanElements_print; [done|done|done|]. rewrite length_app_str. change (String.length "]") with 1%nat. lia. }
  rewrite Hscan.
  assert (exists c r, elementsText (S n) (v :: l) +:+ (lineBreak L n +:+ ("]" +:+ rest)) = String c r /\ valueStart c = true)
    as (c&r&->&Hc).
  { simpl in Hp. apply andb_prop in Hp as [Hv _]. destruct (print_start (S n) _ _ Hv) as (c&r&E&Hc).
    unfold elementsText. destruct l as [|y l]; [|simpl map; rewrite join_cons]; simpl; rewrite E; by eexists _, _. }
  unfold valueStart in Hc. bool_solve. rewrite skipWs_first by done.
  destruct c as [[] [] [] [] [] [] [] []]; try done.
Qed.

(** The members of an object, then the brace. *)
Definition memberText (n : nat) (kv : string * json) : string :=
  printString kv.1 +:+ ":" +:+ afterColon L +:+ printWith L n kv.2.
Definition membersText (n : nat) (l : list (string * json)) : string := join (separator n) (map (memberText n) l).

Definition validMember (kv : string * json) : string * json := (toValid kv.1, toValidJSON kv.2).

(** One member: its key, its value and what is left. *)
Lemma scanMembers_step n d kv rest f acc :
  scans kv.2 -> printable d kv.2 = true -> numberEnd rest = true ->
  (2 * String.length (memberText n kv) <= f)%nat ->
  scanMembers (S f) d (memberText n kv +:+ rest) acc =
  match skipWs rest with
  | String "," r3 => scanMembers f d r3 (validMember kv :: acc)
  | String "}" r3 => Some (JObj (rev (validMember kv :: acc)), r3)
  | _ => None
  end.
Proof.
  destruct kv as [k v]. unfold validMember, memberText. cbn [fst snd]. intros Hv Hp Hr Hf.
  cbn [scanMembers]. rewrite printString_chunks in *. rewrite !app_assoc_str.
  change (DQ +:+ (escaped ?l +:+ (DQ +:+ (":" +:+ ?x))))
    with (String "034" (escaped l +:+ String "034" (String ":" x))).
  rewrite skipWs_first by done. cbv iota. rewrite scanString_chunks by apply chunks_OK.
  rewrite skipWs_first by done. cbv iota. rewrite scanValueF_ws by done.
  rewrite !length_app_str in Hf. rewrite Hv; [done|done|done|lia].
Qed.

Lemma scanMembers_ws fuel d ws s acc :
  strForall isWs ws = true -> scanMembers fuel d (ws +:+ s) acc = scanMembers fuel d s acc.
Proof. intros Hw. destruct fuel as [|f]; [done|]. cbn [scanMembers]. by rewrite skipWs_app. Qed.

Lemma scanMembers_print l : forall n m d rest fuel acc,
  l <> [] -> Forall (fun kv => scans kv.2) l -> forallb (fun kv => printable d kv.2) l = true ->
  (2 * String.length (membersText n l +:+ "}") <= fuel)%nat ->
  scanMembers fuel d (membersText n l +:+ lineBreak L m +:+ "}" +:+ rest) acc = Some (JObj (rev acc ++ map validMember l), rest).
Proof.
  induction l as [|v l IH]; intros n m d rest fuel acc Hne Hs Hp Hf; [done|].
  inversion Hs as [|?? Hv Hl]; subst. simpl in Hp. apply andb_prop in Hp as [Hpv Hpl].
  rewrite length_app_str in Hf. change (String.length "}") with 1%nat in Hf.
  destruct fuel as [|f]; [lia|]. unfold membersText in *.
  destruct l as [|y l].
  - cbn [map] in *. unfold join in *. cbn [String.concat] in *.
    rewrite scanMembers_step; [|done|done|by apply numberEnd_ws|lia].
    rewrite skipWs_app by done. change ("}" +:+ rest) with (String "}" rest). rewrite skipWs_first by done. by simpl.
  - cbn [map] in *. rewrite length_join_cons in Hf. unfold separator in Hf at 1. rewrite length_app_str in Hf.
    change (String.length ",") with 1%nat in Hf. rewrite join_cons, !app_assoc_str.
    change (memberText n y :: map (memberText n) l) with (map (memberText n) (y :: l)) in *.
    unfold separator at 1. rewrite !app_assoc_str.
    set (tl := join (separator n) (map (memberText n) (y :: l))) in *.
    change ("," +:+ ?x) with (String "," x). rewrite scanMembers_step; [|done|done|done|lia].
    rewrite skipWs_first by done. cbv iota. rewrite scanMembers_ws by done.
    subst tl. rewrite IH; [simpl; by rewrite <- app_assoc|done|done|done|].
    rewrite length_app_str. change (String.length "}") with 1%nat. cbn [map] in *. lia.
Qed.

Lemma scans_object l : Forall (fun kv => scans kv.2) l -> scans (JObj l).
Proof.
  intros Hl n d rest fuel Hp Hr Hf. simpl in Hp. apply andb_prop in Hp as [Hd%negb_true_iff Hp].
  destruct fuel as [|f]; [destruct l; simpl in Hf; lia|]. destruct l as [|kv l].
  { cbn -[maxDepth]. by rewrite Hd. }
  assert (printWith L n (JObj (kv :: l)) =
    String "{" (lineBreak L (S n) +:+ (membersText (S n) (kv :: l) +:+ (lineBreak L n +:+ "}")))) as E by done.
  rewrite E in *. clear E. cbn [String.append String.length] in *. rewrite !app_assoc_str. rewrite !length_app_str in Hf.
  change (String.length "}") with 1%nat in Hf.
  cbn [scanValueF]. rewrite skipWs_first by done. cbv iota.
  change (Ascii.eqb "{" "{") with true. cbv iota. rewrite Hd, skipWs_app by done.
  assert (scanMembers f (d + 1) (lineBreak L (S n) +:+ (membersText (S n) (kv :: l) +:+ (lineBreak L n +:+ ("}" +:+ rest)))) [] =
          Some (toValidJSON (JObj (kv :: l)), rest)) as Hscan.
  { rewrite scanMembers_ws by done.
    apply scanMembers_print; [done|done|done|]. rewrite length_app_str. change (String.length "}") with 1%nat. lia. }
  rewrite Hscan.
  assert (exists r, membersText (S n) (kv :: l) +:+ (lineBreak L n +:+ ("}" +:+ rest)) = String "034" r) as [r ->].
  { unfold membersText. destruct l as [|y l]; [|cbn [map]; rewrite join_cons];
      unfold join; cbn [map String.concat]; unfold memberText; rewrite printString_chunks, ?app_assoc_str; by eexists. }
  by rewrite skipWs_first by done.
Qed.

Lemma scans_all v : scans v.
Proof.
  induction v using json_nested_ind.
  - intros n d rest [|f] _ Hr Hf; [simpl in Hf; lia|by destruct rest].
  - destruct b; (intros n d rest [|f] _ Hr Hf; [simpl in Hf; lia|by destruct rest]).
  - apply scans_number.
  - apply scans_string.
  - by apply scans_array.
  - by apply scans_object.
Qed.

(** The decoder reads back what the encoder wrote. *)
Lemma scanValue_printWith n v rest :
  printable 0 v = true -> numberEnd rest = true -> scanValue (printWith L n v +:+ rest) = Some (toValidJSON v, rest).
Proof.
  intros Hv Hr. unfold scanValue. apply scans_all; [done|done|]. rewrite length_app_str. lia.
Qed.

Lemma parse_printWith n v : printable 0 v = true -> parseJSON (printWith L n v) = Ok (toValidJSON v).
Proof.
  intros Hv. unfold parseJSON. rewrite <- (app_nil_r_str (printWith L n v)), scanValue_printWith by done. done.
Qed.
End printed.

Lemma printWith_compact v : forall n, printWith compact n v = printJSON v.
Proof.
  induction v as [| | | |l Hl|l Hl] using json_nested_ind; intros n; try done; (destruct l as [|v l]; [done|]).
  - assert (map (printWith compact (S n)) (v :: l) = map printJSON (v :: l)) as E
      by (apply map_ext_Forall; eapply Forall_impl; [exact Hl|]; intros x Hx; apply Hx).
    change (printWith compact n (JArr (v :: l)))
      with ("[" +:+ join "," (map (printWith compact (S n)) (v :: l)) +:+ "]").
    by rewrite E.
  - assert (map (fun kv => printString kv.1 +:+ ":" +:+ printWith compact (S n) kv.2) (v :: l) =
            map (fun kv => printString kv.1 +:+ ":" +:+ printJSON kv.2) (v :: l)) as E
      by (apply map_ext_Forall; eapply Forall_impl; [exact Hl|]; intros x Hx; cbv beta; by rewrite Hx).
    change (printWith compact n (JObj (v :: l)))
      with ("{" +:+ join "," (map (fun kv => printString kv.1 +:+ ":" +:+ printWith compact (S n) kv.2) (v :: l)) +:+ "}").
    by rewrite E.
Qed.

Lemma printJSON_start d v : plainValue d v = true -> exists c r, printJSON v = String c r /\ valueStart c = true.
Proof. rewrite <- (printWith_compact v 0). intros [Hv _]%plain_printable. by eapply print_start. Qed.

Lemma scanValue_print v rest :
  plainValue 0 v = true -> numberEnd rest = true -> scanValue (printJSON v +:+ rest) = Some (v, rest).
Proof. intros [Hv He]%plain_printable Hr. rewrite <- (printWith_compact v 0). rewrite <- He at 2. by apply scanValue_printWith. Qed.

Lemma nextValue_print v : plainValue 0 v = true -> nextValue (printJSON v) = Ok (Some (v, "")).
Proof.
  intros Hv. pose proof (scanValue_print v "" Hv eq_refl) as Hs. rewrite app_nil_r_str in Hs.
  unfold nextValue. rewrite Hs. destruct (printJSON_start _ _ Hv) as (c&r&->&Hc). unfold valueStart in Hc. bool_solve.
  by rewrite skipWs_first.
Qed.

Lemma parse_print v : plainValue 0 v = true -> parseJSON (printJSON v) = Ok v.
Proof. intros [Hv He]%plain_printable. rewrite <- (printWith_compact v 0). rewrite <- He at 2. by apply parse_printWith. Qed.

Lemma spaces_ws n : strForall isWs (spaces n) = true.
Proof. induction n as [|n IH]; [done|]. cbn [spaces strForall]. by rewrite IH. Qed.

Lemma parse_printIndent_valid v : printable 0 v = true -> parseJSON (printIndent v) = Ok (toValidJSON v).
Proof. intros Hv. apply parse_printWith; [|done|done]. intros n. apply spaces_ws. Qed.
Lemma parse_printIndent v : plainValue 0 v = true -> parseJSON (printIndent v) = Ok v.
Proof. intros [Hv He]%plain_printable. rewrite <- He at 2. by apply parse_printIndent_valid. Qed.

(** ** Decoding what the encoder makes of a struct *)
Lemma setInt_itoa {T} lo hi (put : Z -> T -> T) n t :
  minInt64 <= lo -> hi <= maxInt64 -> lo <= n <= hi -> setInt lo hi put (JNum (itoa n)) t = Ok (put n t).
Proof.
  intros Hlo Hhi Hn. unfold setInt.
  assert (inInt64 n = true) as Hi by (unfold inInt64; apply andb_true_iff; split; apply Z.leb_le; lia).
  pose proof (parseInt_itoa n Hi) as Hp.
  assert (exists c r, itoa n = String c r /\ (0 <= lo -> Ascii.eqb c "-" = false)) as (c&r&E&Hc).
  { unfold itoa. destruct (Z.ltb_spec n 0).
    - exists "-"%char, (digits (- n)). split; [done|lia].
    - destruct (digits_not_minus n ltac:(lia)) as (c&r&E&Hd). exists c, r. split; [done|]. intros _. by apply isDigit_neq. }
  rewrite E in *. replace ((0 <=? lo) && Ascii.eqb c "-") with false.
  - rewrite Hp, (proj2 (Z.leb_le lo n)), (proj2 (Z.leb_le n hi)) by lia. done.
  - destruct (Z.leb_spec 0 lo); [by rewrite Hc|done].
Qed.

Lemma setInt64_itoa {T} (put : Z -> T -> T) n t :
  minInt64 <= n <= maxInt64 -> setInt64 put (JNum (itoa n)) t = Ok (put n t).
Proof. intros Hn. apply setInt_itoa; [done|done|exact Hn]. Qed.

Lemma setUint32_itoa {T} (put : Z -> T -> T) n t :
  0 <= n <= maxUint32 -> setUint32 put (JNum (itoa n)) t = Ok (put n t).
Proof. intros Hn. apply setInt_itoa; [done|done|exact Hn]. Qed.

(** Find the setters of the literal keys of a goal, one struct's fields [F]. *)
Ltac decode_keys F :=
  cbn [decodeStruct decodeFields];
  repeat match goal with
  | |- context [fieldOf F ?k] =>
      let r := eval cbv [fieldOf findField F String.eqb Ascii.eqb Bool.eqb] in (fieldOf F k) in
      change (fieldOf F k) with r
  end;
  cbv iota beta; cbn [setString setBool].
