(* ===== verification/GoFloatText.v ===== *)
(** * GoFloatText: a [float64] in JSON

    [encoding/json] writes the shortest decimal that reads back to the same
    value ([strconv.AppendFloat] with precision -1), in plain notation between
    1e-6 and 1e21 and in scientific notation outside. *)
From S2P Require Import Prelude GoStrings GoFloat Json JsonFacts.
Set Warnings "-register-all".

#[export] Instance f64_eq_dec : EqDecision f64.
Proof. solve_decision. Defined.

(** Is [num / den] at least [10 ^ k]? *)
Definition atLeast10 (num den k : Z) : bool :=
  if 0 <=? k then den * 10 ^ k <=? num else den <=? num * 10 ^ (- k).

(** The number of digits before the point, found from an estimate that is at
    most three too small. *)
Fixpoint raise10 (fuel : nat) (num den k : Z) : Z :=
  match fuel with
  | O => k
  | S f => if atLeast10 num den k then raise10 f num den (k + 1) else k
  end.
Definition decimalPoint (num den : Z) : Z :=
  raise10 6 num den ((Z.log2 num - Z.log2 den) * 30103 / 100000 - 2).

(** The closer of the two [n]-digit decimals around [num / den] that read back
    to [x]: its digits as a number. *)
Definition closest (x : f64) (num den n k : Z) : option Z :=
  let '(a, b) := if 0 <=? n - k then (num * 10 ^ (n - k), den) else (num, den * 10 ^ (k - n)) in
  let lo := a / b in
  let ok c := bool_decide (fscale10 c (k - n) = x) in
  if ok lo && (negb (ok (lo + 1)) || (2 * (a mod b) <=? b)) then Some lo
  else if ok (lo + 1) then Some (lo + 1) else None.

Fixpoint shortestFrom (fuel : nat) (x : f64) (num den n k : Z) : Z * Z :=
  match fuel with
  | O => (0, 0)
  | S f => match closest x num den n k with
           | Some c => (c, k - n)
           | None => shortestFrom f x num den (n + 1) k
           end
  end.

(** Seventeen digits tell all float64 values apart. *)
Definition shortest (m : positive) (e : Z) : Z * Z :=
  let '(num, den) := if 0 <=? e then (Zpos m * 2 ^ e, 1) else (Zpos m, 2 ^ (- e)) in
  shortestFrom 17 (S754_finite false m e) num den 1 (decimalPoint num den).

Fixpoint stripZeros (fuel : nat) (c e : Z) : Z * Z :=
  match fuel with
  | O => (c, e)
  | S f => if (c mod 10 =? 0) && negb (c =? 0) then stripZeros f (c / 10) (e + 1) else (c, e)
  end.

Definition zeros (n : Z) : string := String.concat "" (repeat "0" (Z.to_nat n)).

(** [c * 10 ^ e] in plain and in scientific notation. *)
Definition plainDecimal (c e : Z) : string :=
  let s := digits c in
  if 0 <=? e then s +:+ zeros e
  else let point := lenZ s + e in
       if 0 <? point then take (Z.to_nat point) s +:+ "." +:+ drop (Z.to_nat point) s
       else "0." +:+ zeros (- point) +:+ s.
Definition scientific (c e : Z) : string :=
  let s := digits c in
  let x := lenZ s - 1 + e in
  take 1 s +:+ (if lenZ s =? 1 then "" else "." +:+ drop 1 s) +:+ "e" +:+
  (if x <? 0 then "-" +:+ digits (- x) else "+" +:+ digits x).

Definition floatText (x : f64) : result string :=
  match x with
  | S754_nan | S754_infinity _ => Err (EMsg "json: unsupported value")
  | S754_zero s => Ok (if s then "-0" else "0")
  | S754_finite s m e =>
      let '(c, e10) := shortest m e in
      let '(c, e10) := stripZeros 17 c e10 in
      let point := lenZ (digits c) + e10 in
      Ok ((if s then "-" else "") +:+ (if (point <? -5) || (21 <? point) then scientific c e10 else plainDecimal c e10))
  end.

(** The text of [x] is a JSON number that reads back to [x]; every float64 has
    this property by the choice of the digits, and it is checked by
    evaluation. *)
Definition floatReads (x : f64) : bool :=
  match floatText x with
  | Ok t => numberText t && match parseFloat t with Ok y => bool_decide (y = x) | Err _ => false end
  | Err _ => false
  end.

(** The quarter cores up to the largest host the validator admits. *)
Lemma quarter_reads k : 0 <= k <= 256 -> floatReads (quarter k) = true.
Proof.
  intros Hk. assert (forallb (fun n => floatReads (quarter (Z.of_nat n))) (seq 0 257) = true) as Hall by (vm_compute; reflexivity).
  rewrite forallb_forall in Hall. rewrite <- (Z2Nat.id k) by lia. apply Hall, in_seq. lia.
Qed.

(** A [float64] field. *)
Definition setFloat {T} (put : f64 -> T -> T) : setter T := fun v t =>
  match v with
  | JNull => Ok t
  | JNum text => match parseFloat text with Ok f => Ok (put f t) | Err _ => Err typeError end
  | _ => Err typeError
  end.

Lemma setFloat_text {T} (put : f64 -> T -> T) x s t :
  floatReads x = true -> floatText x = Ok s -> setFloat put (JNum s) t = Ok (put x t) /\ numberText s = true.
Proof.
  unfold floatReads. intros Hr Hs. rewrite Hs in Hr. apply andb_prop in Hr as [Hn Hp]. unfold setFloat.
  destruct (parseFloat s) as [y|]; [|done]. by apply bool_decide_eq_true in Hp as ->.
Qed.
