(* ===== verification/GoFloatFacts.v ===== *)
(** * GoFloatFacts: a CPU limit in JSON is read back

    What the division and the rounding of [SpecFloat] compute: the float64
    nearest to a fraction, ties to even.  Hence the seventeen digits
    [floatText] tries are enough, the text it writes for a CPU limit reads back
    to the limit, and whatever [parseFloat] reads is a float64. *)
From S2P Require Import Prelude GoStrings Utf8Facts GoFloat Json JsonFacts GoFloatText.
Set Warnings "-register-all".

(** ** Binary digits *)
Lemma Zdigits2_log2 n : 0 < n -> Zdigits2 n = Z.log2 n + 1.
Proof.
  destruct n as [|p|p]; try lia. intros _. cbn [Zdigits2]. induction p as [p IH|p IH|]; [| |done]; cbn [digits2_pos].
  - rewrite Pos2Z.inj_succ, IH. change (Zpos p~1) with (2 * Zpos p + 1). rewrite Z.log2_succ_double by lia. lia.
  - rewrite Pos2Z.inj_succ, IH. change (Zpos p~0) with (2 * Zpos p). rewrite Z.log2_double by lia. lia.
Qed.

Lemma Zdigits2_spec n : 0 < n -> 0 < Zdigits2 n /\ 2 ^ (Zdigits2 n - 1) <= n < 2 ^ Zdigits2 n.
Proof.
  intros Hn. rewrite Zdigits2_log2 by done. pose proof (Z.log2_nonneg n). replace (Z.log2 n + 1 - 1) with (Z.log2 n) by lia.
  split; [lia|]. by apply Z.log2_spec.
Qed.

Lemma Zdigits2_unique n k : 0 < k -> 2 ^ (k - 1) <= n < 2 ^ k -> Zdigits2 n = k.
Proof.
  intros Hk Hn. assert (0 < 2 ^ (k - 1)) by (apply Z.pow_pos_nonneg; lia). rewrite Zdigits2_log2 by lia.
  rewrite (Z.log2_unique n (k - 1)); [lia|lia|]. by replace (Z.succ (k - 1)) with k by lia.
Qed.

(** ** Between two numbers of a binade *)

(** [num / den] is at [q], or between [q] and [q + 1] on a side of the middle. *)
Definition located (num den q : Z) (l : location) : Prop :=
  match l with
  | loc_Exact => num = q * den
  | loc_Inexact c => q * den < num < q * den + den /\ (2 * (num - q * den) ?= den) = c
  end.

Lemma new_location_located q den r : 0 < den -> 0 <= r < den -> located (q * den + r) den q (new_location den r).
Proof.
  intros Hd Hr. unfold new_location. destruct (Z.even den) eqn:He.
  - unfold new_location_even. destruct (Z.eqb_spec r 0) as [->|]; cbn [located]; [lia|]. split; [lia|]. f_equal. lia.
  - unfold new_location_odd. destruct (Z.eqb_spec r 0) as [->|]; cbn [located]; [lia|]. split; [lia|].
    assert (Z.odd den = true) as Ho by (by rewrite <- Z.negb_even, He). apply Z.odd_spec in Ho as [x Hx].
    replace (2 * (q * den + r - q * den)) with (2 * r) by lia.
    destruct (Z.compare_spec (2 * r + 1) den); [apply Z.compare_lt_iff; lia|apply Z.compare_lt_iff; lia|apply Z.compare_gt_iff; lia].
Qed.

(** One digit less. *)
Lemma shr_1_located num den q l : 0 < den -> 0 < q -> located num den q l ->
  let s := shr_1 (shr_record_of_loc q l) in shr_m s = q / 2 /\ located num (2 * den) (q / 2) (loc_of_shr_record s).
Proof.
  intros Hd Hq Hl. assert (exists h b, q = 2 * h + Z.b2z b /\ 0 <= h /\
    forall r s, shr_1 {| shr_m := q; shr_r := r; shr_s := s |} = {| shr_m := h; shr_r := b; shr_s := r || s |}) as (h&b&Hh&Hh0&Hs).
  { destruct q as [|[p|p|]|]; try lia.
    - exists (Zpos p), true. cbn [Z.b2z]. split; [lia|]. split; [lia|done].
    - exists (Zpos p), false. cbn [Z.b2z]. split; [lia|]. split; [lia|done].
    - exists 0, true. split; [done|]. split; [lia|done]. }
  assert (q / 2 = h) as -> by (rewrite Hh; destruct b; cbn [Z.b2z]; Z.div_mod_to_equations; lia).
  destruct l as [|[]]; cbn [shr_record_of_loc] in *; rewrite Hs; (split; [done|]); cbn [loc_of_shr_record orb located] in *;
    rewrite Hh in Hl; rewrite Z.mul_add_distr_r, <- Z.mul_assoc in Hl; set (x := h * den) in *;
    replace (h * (2 * den)) with (2 * x) by (subst x; lia); destruct b; cbn [Z.b2z located] in *; rewrite ?Z.mul_1_l, ?Z.mul_0_l in Hl;
    repeat match goal with H : _ /\ _ |- _ => destruct H | H : (_ ?= _) = Eq |- _ => apply Z.compare_eq_iff in H
      | H : (_ ?= _) = Lt |- _ => apply Z.compare_lt_iff in H | H : (_ ?= _) = Gt |- _ => apply Z.compare_gt_iff in H end;
    repeat split; try lia; first [apply Z.compare_eq_iff; lia | apply Z.compare_lt_iff; lia | apply Z.compare_gt_iff; lia].
Qed.

(** Rounding: to the nearer one, to the even one from the middle. *)
Lemma round_located num den q l : 0 < den -> 0 <= q -> located num den q l ->
  let r := round_nearest_even q l in
  q <= r <= q + 1 /\ -den <= 2 * (num - r * den) <= den /\ (2 * Z.abs (num - r * den) = den -> Z.even r = true) /\ (r = q + 1 -> q * den < num).
Proof.
  intros Hd Hq Hl. assert ((q + 1) * den = q * den + den) as Hs by lia.
  assert (forall r, (r = q \/ r = q + 1) -> (r = q -> 2 * (num - q * den) <= den) -> (r = q + 1 -> den <= 2 * (num - q * den)) ->
    (2 * (num - q * den) = den -> Z.even r = true) -> q * den <= num < q * den + den ->
    q <= r <= q + 1 /\ -den <= 2 * (num - r * den) <= den /\ (2 * Z.abs (num - r * den) = den -> Z.even r = true) /\ (r = q + 1 -> q * den < num)) as Hr.
  { intros r [-> | ->] H1 H2 H3 H4; rewrite ?Hs; (repeat split; [lia..| |lia]); intros Habs; apply H3; lia. }
  destruct l as [|[]]; cbn [located round_nearest_even] in *.
  - apply Hr; try lia; intros; exfalso; lia.
  - destruct Hl as [Hn Hc%Z.compare_eq_iff]. destruct (Z.even q) eqn:He; apply Hr; try lia; auto.
    intros _. replace (q + 1) with (Z.succ q) by lia. by rewrite Z.even_succ, <- Z.negb_even, He.
  - destruct Hl as [Hn Hc]. change (2 * (num - q * den) < den) in Hc. apply Hr; try lia; intros; exfalso; lia.
  - destruct Hl as [Hn Hc]. change (2 * (num - q * den) > den) in Hc. apply Hr; try lia; intros; exfalso; lia.
Qed.

(** ** Rounding to 53 digits *)
Definition two52 : Z := 4503599627370496.
Definition two53 : Z := 9007199254740992.

Lemma loc_shr q l : shr_m (shr_record_of_loc q l) = q /\ loc_of_shr_record (shr_record_of_loc q l) = l.
Proof. by destruct l as [|[]]. Qed.

(** Enough digits: nothing is shifted. *)
Lemma shr_fexp_53 q e l : two52 <= q < two53 -> -1074 <= e -> shr_fexp 53 1024 q e l = (shr_record_of_loc q l, e).
Proof.
  intros Hq He. unfold shr_fexp. rewrite (Zdigits2_unique q 53) by (change (2 ^ (53 - 1)) with two52; change (2 ^ 53) with two53; lia).
  assert (fexp 53 1024 (53 + e) - e = 0) as -> by (unfold fexp, emin; lia). done.
Qed.
Lemma shr_fexp_54 q e l : two53 <= q < 2 * two53 -> -1075 <= e -> shr_fexp 53 1024 q e l = (shr_1 (shr_record_of_loc q l), e + 1).
Proof.
  intros Hq He. unfold shr_fexp. rewrite (Zdigits2_unique q 54) by (change (2 ^ (54 - 1)) with two53; change (2 ^ 54) with (2 * two53); lia).
  assert (fexp 53 1024 (54 + e) - e = 1) as -> by (unfold fexp, emin; lia). done.
Qed.

(** The float64 a rounded mantissa stands for. *)
Definition rounded (r e : Z) : f64 := if r =? two53 then S754_finite false (Z.to_pos two52) (e + 1) else S754_finite false (Z.to_pos r) e.

Lemma round_53 num den q l e : 0 < den -> two52 <= q < two53 -> -1074 <= e <= 900 -> located num den q l ->
  binary_round_aux 53 1024 false q e l = rounded (round_nearest_even q l) e.
Proof.
  intros Hd Hq He Hl. destruct (round_located num den q l Hd ltac:(unfold two52 in *; lia) Hl) as (Hr&_).
  unfold binary_round_aux. rewrite shr_fexp_53 by lia. destruct (loc_shr q l) as [-> ->]. set (r := round_nearest_even q l) in *.
  unfold rounded. destruct (Z.eqb_spec r two53) as [->|Hn].
  - rewrite shr_fexp_54 by (unfold two53; lia). change (shr_m (shr_1 (shr_record_of_loc two53 loc_Exact))) with (Zpos (Z.to_pos two52)). cbv iota.
    by rewrite (proj2 (Z.leb_le (e + 1) (1024 - 53))) by lia.
  - rewrite shr_fexp_53 by lia. cbn [shr_record_of_loc shr_m]. rewrite (proj2 (Z.leb_le e (1024 - 53))) by lia.
    destruct r as [|p|p]; unfold two52 in *; try lia. done.
Qed.

Lemma shr_1_half s : 0 < shr_m s -> shr_m (shr_1 s) = shr_m s / 2.
Proof.
  destruct s as [[|[p|p|]|] r b]; cbn [shr_m]; try lia; intros _; cbn [shr_1 shr_m]; [| |done].
  - change (Zpos p~1) with (2 * Zpos p + 1). Z.div_mod_to_equations; lia.
  - change (Zpos p~0) with (2 * Zpos p). Z.div_mod_to_equations; lia.
Qed.

Lemma round_54 q l e : two53 <= q < 2 * two53 -> -1075 <= e ->
  let s := shr_1 (shr_record_of_loc q l) in
  binary_round_aux 53 1024 false q e l = binary_round_aux 53 1024 false (shr_m s) (e + 1) (loc_of_shr_record s).
Proof.
  intros Hq He s. assert (shr_m s = q / 2) as Hm.
  { subst s. destruct (loc_shr q l) as [Hs _]. rewrite shr_1_half; [by rewrite Hs|]. rewrite Hs. unfold two53 in *. lia. }
  assert (two52 <= shr_m s < two53) as Hs
    by (rewrite Hm; clear -Hq; split; [apply Z.div_le_lower_bound|apply Z.div_lt_upper_bound]; unfold two52, two53 in *; lia).
  unfold binary_round_aux. rewrite shr_fexp_54 by done. fold s. rewrite (shr_fexp_53 (shr_m s)) by lia.
  by destruct (loc_shr (shr_m s) (loc_of_shr_record s)) as [-> ->].
Qed.

(** ** The float64 nearest to a fraction *)

(** What the division hands to the rounding: the quotient has 53 digits. *)
Lemma fratio_located a d : 0 < a -> 0 < d -> -900 <= Zdigits2 a - Zdigits2 d <= 50 ->
  exists q e l, fratio a (Z.to_pos d) = rounded (round_nearest_even q l) e /\ -1000 < e < 0 /\ two52 <= q < two53 /\ located (a * 2 ^ (- e)) d q l.
Proof.
  intros Ha Hd HD. destruct a as [|p|p]; try lia. destruct d as [|d|d]; try lia. cbn [Z.to_pos fratio].
  destruct (Zdigits2_spec (Zpos p) ltac:(lia)) as [H1 Ha2]. destruct (Zdigits2_spec (Zpos d) ltac:(lia)) as [H2 Hd2].
  unfold SFdiv_core_binary. rewrite !Z.add_0_r. change (0 - 0) with 0.
  set (D := Zdigits2 (Zpos p) - Zdigits2 (Zpos d)) in *. rewrite Z.sub_0_l.
  assert (Z.min (fexp 53 1024 D) 0 = D - 53) as -> by (unfold fexp, emin; lia).
  set (s := - (D - 53)).
  assert (match s with 0 => Zpos p | Zpos _ => Z.shiftl (Zpos p) s | Zneg _ => 0 end = Zpos p * 2 ^ s) as ->.
  { assert (0 < s) as Hs by (subst s; lia). destruct s as [|s'|s']; try lia. by rewrite Z.shiftl_mul_pow2 by lia. }
  set (num := Zpos p * 2 ^ s). assert (0 < Zpos d) as Hden by lia. set (den := Zpos d) in *. clearbody den.
  pose proof (Z.div_eucl_eq num den ltac:(lia)) as Heq. pose proof (Z.mod_pos_bound num den ltac:(lia)) as Hr.
  unfold Z.modulo in Hr. destruct (Z.div_eucl num den) as [q r]. 
  assert (two52 <= q < 2 * two53) as Hq.
  { assert (2 ^ (Zdigits2 den + 52) <= num < 2 ^ (Zdigits2 den + 53)) as Hn.
    { subst num. replace (Zdigits2 den + 52) with ((Zdigits2 (Zpos p) - 1) + s) by lia.
      replace (Zdigits2 den + 53) with (Zdigits2 (Zpos p) + s) by lia. rewrite !Z.pow_add_r by lia.
      assert (0 < 2 ^ s) by (apply Z.pow_pos_nonneg; lia). nia. }
    rewrite !Z.pow_add_r in Hn by lia. change (2 ^ 53) with two53 in Hn. change (2 ^ 52) with two52 in Hn.
    replace (2 ^ Zdigits2 den) with (2 * 2 ^ (Zdigits2 den - 1)) in * by (rewrite <- Z.pow_succ_r by lia; f_equal; lia).
    set (X := 2 ^ (Zdigits2 den - 1)) in *. clearbody X num.
    split; apply Z.nlt_ge || apply Z.nle_gt; intros Hc.
    - assert (den * (q + 1) <= den * two52) by (apply Z.mul_le_mono_nonneg_l; lia). unfold two52 in *. lia.
    - assert (den * (2 * two53) <= den * q) by (apply Z.mul_le_mono_nonneg_l; lia). unfold two53 in *. lia. }
  assert (located num den q (new_location den r)) as Hl
    by (rewrite Heq, (Z.mul_comm den); apply new_location_located; lia).
  destruct (Z.lt_ge_cases q two53) as [Hlt|Hge].
  - exists q, (D - 53), (new_location den r). split; [|split; [lia|split; [lia|exact Hl]]]. apply (round_53 num den); [done|lia|lia|exact Hl].
  - destruct (shr_1_located num den q _ Hden ltac:(unfold two53 in *; lia) Hl) as [Hm Hl']. rewrite round_54 by lia. rewrite Hm.
    set (l' := loc_of_shr_record _) in *. exists (q / 2), (D - 53 + 1), l'.
    assert (two52 <= q / 2 < two53) as Hq2
      by (clear -Hq Hge; split; [apply Z.div_le_lower_bound|apply Z.div_lt_upper_bound]; unfold two52, two53 in *; lia).
    split; [apply (round_53 num (2 * den)); [lia|lia|lia|exact Hl']|]. split; [lia|]. split; [lia|].
    assert (num = 2 * (Zpos p * 2 ^ (- (D - 53 + 1)))) as Hn.
    { subst num s. replace (- (D - 53)) with (Z.succ (- (D - 53 + 1))) by lia. rewrite Z.pow_succ_r by lia. lia. }
    rewrite Hn in Hl'. destruct l' as [|c]; cbn [located] in *; [lia|]. destruct Hl' as [Hl1 Hl2]. split; [lia|]. rewrite <- Hl2.
    replace (2 * (2 * (Zpos p * 2 ^ (- (D - 53 + 1))) - q / 2 * (2 * den)))
      with (2 * (2 * (Zpos p * 2 ^ (- (D - 53 + 1)) - q / 2 * den))) by lia.
    set (x := 2 * (_ - _)). symmetry. destruct (Z.compare_spec x den); [apply Z.compare_eq_iff|apply Z.compare_lt_iff|apply Z.compare_gt_iff]; lia.
Qed.

(** [a / d] is nearer to [m * 2 ^ -k] than to any other float64, or in the
    middle and [m] is even; below a power of two the next one is half as far. *)
Definition nearest (a d m k : Z) : Prop :=
  two52 <= m < two53 /\
  2 * (a * 2 ^ k - m * d) <= d /\ (2 * (a * 2 ^ k - m * d) = d -> Z.even m = true) /\
  (if m =? two52 then 4 * (m * d - a * 2 ^ k) <= d
   else 2 * (m * d - a * 2 ^ k) <= d /\ (2 * (m * d - a * 2 ^ k) = d -> Z.even m = true)).

Lemma rounded_nearest a d q l e : 0 < a -> 0 < d -> e < 0 -> two52 <= q < two53 -> located (a * 2 ^ (- e)) d q l ->
  exists m k, rounded (round_nearest_even q l) e = S754_finite false (Z.to_pos m) (- k) /\ 0 <= k <= - e /\ - e - 1 <= k /\ nearest a d m k.
Proof.
  intros Ha Hd He Hq Hl. destruct (round_located (a * 2 ^ (- e)) d q l Hd ltac:(unfold two52 in *; lia) Hl) as (Hr&Hn&Ht&Hup).
  assert (q * d <= a * 2 ^ (- e)) as Hqd by (destruct l as [|c]; cbn [located] in Hl; lia).
  set (r := round_nearest_even q l) in *. clearbody r. unfold rounded. destruct (Z.eqb_spec r two53) as [->|Hne].
  - exists two52, (- e - 1). replace (- (- e - 1)) with (e + 1) by lia. split; [done|]. split; [lia|]. split; [lia|].
    assert (2 ^ (- e) = 2 * 2 ^ (- e - 1)) as Hp by (rewrite <- Z.pow_succ_r by lia; f_equal; lia).
    assert (q = two53 - 1) as -> by lia. unfold nearest. rewrite Z.eqb_refl. rewrite Hp in *. set (P := 2 ^ (- e - 1)) in *. clearbody P.
    assert (a * (2 * P) = 2 * (a * P)) as HP by lia. rewrite HP in *. set (A := a * P) in *. clearbody A.
    assert (2 * A <= two53 * d) by (destruct l as [|c]; cbn [located] in Hl; lia).
    unfold two52, two53 in *. split_and!; try lia; intros; exfalso; lia.
  - exists r, (- e). rewrite Z.opp_involutive. split; [done|]. split; [lia|]. split; [lia|]. split; [lia|].
    set (A := a * 2 ^ (- e)) in *. clearbody A. split; [lia|]. split; [intros Hx; apply Ht; lia|].
    destruct (Z.eqb_spec r two52) as [->|].
    + assert (two52 = q) as <- by lia. lia.
    + split; [lia|]. intros Hx. apply Ht. lia.
Qed.

Lemma nearest_unique a d m k m' k' : 0 < a -> 0 < d -> 0 <= k <= k' -> nearest a d m k -> nearest a d m' k' -> m = m' /\ k = k'.
Proof.
  intros Ha Hd Hk (Hm&Hu&Hue&Hl) (Hm'&Hu'&Hue'&Hl'). destruct (Z.eq_dec k k') as [<-|Hne].
  - split; [|done]. set (A := a * 2 ^ k) in *. clearbody A.
    assert (2 * (m * d - A) <= d /\ (2 * (m * d - A) = d -> Z.even m = true)) as [H1 H1e].
    { destruct (m =? two52); [|done]. split; [lia|]. intros. exfalso. lia. }
    assert (2 * (m' * d - A) <= d /\ (2 * (m' * d - A) = d -> Z.even m' = true)) as [H2 H2e].
    { destruct (m' =? two52); [|done]. split; [lia|]. intros. exfalso. lia. }
    clear Hl Hl'. destruct (Z.lt_trichotomy m m') as [Hlt|[->|Hgt]]; [exfalso|done|exfalso].
    + assert (m' = m + 1) as -> by nia. rewrite Z.mul_add_distr_r in *. assert (Z.even m = true) as Em by (apply Hue; lia).
      assert (Z.even (m + 1) = true) as Em' by (apply H2e; lia). replace (m + 1) with (Z.succ m) in Em' by lia. rewrite Z.even_succ, <- Z.negb_even, Em in Em'. done.
    + assert (m = m' + 1) as -> by nia. rewrite Z.mul_add_distr_r in *. assert (Z.even m' = true) as Em by (apply Hue'; lia).
      assert (Z.even (m' + 1) = true) as Em' by (apply H1e; lia). replace (m' + 1) with (Z.succ m') in Em' by lia. rewrite Z.even_succ, <- Z.negb_even, Em in Em'. done.
  - exfalso. replace k' with (k + (k' - k)) in * by lia. rewrite Z.pow_add_r in * by lia.
    assert (2 <= 2 ^ (k' - k)) as Hp by (change 2 with (2 ^ 1) at 1; apply Z.pow_le_mono_r; lia).
    assert (0 < 2 ^ k) by (apply Z.pow_pos_nonneg; lia). rewrite (Z.mul_assoc a) in *.
    assert (0 < a * 2 ^ k) by nia. set (A := a * 2 ^ k) in *. set (P := 2 ^ (k' - k)) in *. clearbody A P.
    assert (2 * A <= A * P) by nia. set (B := A * P) in *. clearbody B.
    assert (m' * d <= (two53 - 1) * d) by (apply Z.mul_le_mono_nonneg_r; lia).
    destruct (Z.eqb_spec m two52) as [->|Hn].
    + assert (m' = two53 - 1) as ->.
      { apply Z.le_antisymm; [lia|]. apply Z.nlt_ge. intros Hc. assert (m' * d <= (two53 - 2) * d) by (apply Z.mul_le_mono_nonneg_r; lia). unfold two52, two53 in *. lia. }
      assert (Z.even (two53 - 1) = true) as Hx by (apply Hue'; unfold two52, two53 in *; lia). done.
    + assert ((two52 + 1) * d <= m * d) by (apply Z.mul_le_mono_nonneg_r; lia). unfold two52, two53 in *. lia.
Qed.

(** The fraction's float64 is the nearest one. *)
Lemma fratio_nearest a d m k :
  0 < a -> 0 < d -> -900 <= Zdigits2 a - Zdigits2 d <= 50 -> 0 <= k ->
  fratio a (Z.to_pos d) = S754_finite false (Z.to_pos m) (- k) /\ 0 < m <-> nearest a d m k.
Proof.
  intros Ha Hd HD Hk. destruct (fratio_located a d Ha Hd HD) as (q&e&l&Hf&He&Hq&Hl).
  destruct (rounded_nearest a d q l e Ha Hd ltac:(lia) Hq Hl) as (m0&k0&Hr&Hk0&_&Hn). rewrite Hf, Hr.
  assert (0 < m0) by (destruct Hn as [? _]; unfold two52 in *; lia). split.
  - intros [[= Hm Hke] Hm0]. assert (m0 = m) as -> by lia. assert (k0 = k) as -> by lia. done.
  - intros Hn'. assert (m = m0 /\ k = k0) as [-> ->]; [|by split].
    destruct (Z.le_ge_cases k k0); [apply (nearest_unique a d); (done || lia)|].
    destruct (nearest_unique a d m0 k0 m k Ha Hd ltac:(lia) Hn Hn') as [-> ->]. done.
Qed.

Lemma nearest_scale a d m k f : 0 < f -> nearest (a * f) (d * f) m k <-> nearest a d m k.
Proof.
  intros Hf. unfold nearest. replace (a * f * 2 ^ k) with (a * 2 ^ k * f) by lia. rewrite !Z.mul_assoc. set (A := a * 2 ^ k). set (B := m * d). clearbody A B.
  assert (forall c x, c * (x * f) <= d * f <-> c * x <= d) as H1 by (intros; nia).
  assert (forall c x, c * (x * f) = d * f <-> c * x = d) as H2 by (intros; nia).
  rewrite <- !Z.mul_sub_distr_r. destruct (m =? two52); rewrite !H1, !H2; done.
Qed.

(** ** Decimals *)

(** The float64 with mantissa [m] and exponent [-k], between a quarter and eight. *)
Definition limitFloat (m k : Z) : f64 := S754_finite false (Z.to_pos m) (- k).
Definition limitRange (m k : Z) : Prop := two52 <= m < two53 /\ 49 <= k <= 54 /\ m <= 8 * 2 ^ k.

Lemma pow10_pos j : 0 < 10 ^ j \/ j < 0.
Proof. destruct (Z.lt_ge_cases j 0); [by right|left; by apply Z.pow_pos_nonneg]. Qed.

Lemma digits_ratio c j : 0 <= j <= 40 -> 0 < c <= 9 * 10 ^ j -> -900 <= Zdigits2 c - Zdigits2 (10 ^ j) <= 50.
Proof.
  intros Hj Hc. assert (0 < 10 ^ j) as Hp by (apply Z.pow_pos_nonneg; lia).
  rewrite !Zdigits2_log2 by lia. pose proof (Z.log2_nonneg c). pose proof (Z.log2_nonneg (10 ^ j)).
  assert (Z.log2 (10 ^ j) <= Z.log2 (10 ^ 40)) as H1 by (apply Z.log2_le_mono, Z.pow_le_mono_r; lia).
  assert (c <= 10 ^ j * 16) as H2%Z.log2_le_mono by lia. change 16 with (2 ^ 4) in H2. rewrite Z.log2_mul_pow2 in H2 by lia.
  change (Z.log2 (10 ^ 40)) with 132 in H1. lia.
Qed.

(** A decimal with at most one digit before the point reads as the nearest
    float64. *)
Lemma fscale10_nearest c j m k :
  0 <= j <= 40 -> 0 < c <= 9 * 10 ^ j -> limitRange m k -> fscale10 c (- j) = limitFloat m k <-> nearest c (10 ^ j) m k.
Proof.
  intros Hj Hc (Hm&Hk&_). assert (0 < m) by (unfold two52 in *; lia).
  assert (fscale10 c (- j) = fratio c (Z.to_pos (10 ^ j))) as ->.
  { unfold fscale10. destruct (Z.eq_dec j 0) as [->|]; [|rewrite (proj2 (Z.leb_gt 0 (- j))) by lia; by rewrite Z.opp_involutive].
    change (0 <=? - 0) with true. cbv iota. change (10 ^ - 0) with 1. change (10 ^ 0) with 1 in *.
    assert (c = 1 \/ c = 2 \/ c = 3 \/ c = 4 \/ c = 5 \/ c = 6 \/ c = 7 \/ c = 8 \/ c = 9) as Hcs by lia.
    repeat destruct Hcs as [->|Hcs]; try (subst c); vm_compute; reflexivity. }
  pose proof (fratio_nearest c (10 ^ j) m k ltac:(lia) ltac:(lia) (digits_ratio c j Hj Hc) ltac:(lia)) as Hf. unfold limitFloat.
  rewrite <- Hf. split; [done|by intros [? _]].
Qed.

(** ** The digits [floatText] picks *)
Lemma decimalPoint_range m k : limitRange m k -> decimalPoint m (2 ^ k) = 0 /\ 53 <= k \/ decimalPoint m (2 ^ k) = 1 /\ k <= 52.
Proof.
  intros (Hm&Hk&Hx). unfold decimalPoint. rewrite Z.log2_pow2 by lia. rewrite (Z.log2_unique m 52) by (try lia; unfold two52, two53 in *; cbn; lia).
  assert (k = 49 \/ k = 50 \/ k = 51 \/ k = 52 \/ k = 53 \/ k = 54) as Hks by lia. unfold two52, two53 in *.
  destruct Hks as [->|[->|[->|[->|[->| ->]]]]];
    match goal with |- context [raise10 6 m ?d ?s] => let s' := eval vm_compute in s in let d' := eval vm_compute in d in
      change s with s'; change d with d' in * end;
    unfold raise10, atLeast10; cbn [Z.leb Z.compare Z.add Z.opp Z.pow Z.pow_pos Pos.iter Z.mul] in *;
    repeat match goal with |- context [?x <=? ?y] => first [rewrite (proj2 (Z.leb_le x y)) by lia | rewrite (proj2 (Z.leb_gt x y)) by lia] end;
    cbv iota; try (by left); try (by right).
Qed.


(** [c] of [closest] reads back, and is no further than one from the number. *)
Lemma closest_Some x num den n k c :
  closest x num den n k = Some c ->
  fscale10 c (k - n) = x /\
  let q := (if 0 <=? n - k then num * 10 ^ (n - k) / den else num / (den * 10 ^ (k - n))) in c = q \/ c = q + 1.
Proof.
  unfold closest. intros Hc. set (q := if 0 <=? n - k then _ else _).
  assert ((let '(a, b) := if 0 <=? n - k then (num * 10 ^ (n - k), den) else (num, den * 10 ^ (k - n)) in a / b) = q) as Hq
    by (subst q; by destruct (0 <=? n - k)).
  destruct (if 0 <=? n - k then _ else _) as [a b] eqn:E. rewrite Hq in Hc.
  destruct (bool_decide (fscale10 q (k - n) = x)) eqn:E1; cbn [andb] in Hc.
  - apply bool_decide_eq_true in E1. destruct (_ || _); [injection Hc as <-; auto|].
    destruct (bool_decide (fscale10 (q + 1) (k - n) = x)) eqn:E2; [|done]. apply bool_decide_eq_true in E2. injection Hc as <-. auto.
  - destruct (bool_decide (fscale10 (q + 1) (k - n) = x)) eqn:E2; [|done]. apply bool_decide_eq_true in E2. injection Hc as <-. auto.
Qed.

Lemma closest_found x num den n k : 0 <= n - k ->
  let q := num * 10 ^ (n - k) / den in
  fscale10 q (k - n) = x \/ fscale10 (q + 1) (k - n) = x -> closest x num den n k <> None.
Proof.
  intros Hn q Hq. unfold closest. rewrite (proj2 (Z.leb_le 0 (n - k)) Hn). fold q.
  destruct (bool_decide (fscale10 q (k - n) = x)) eqn:E1, (bool_decide (fscale10 (q + 1) (k - n) = x)) eqn:E2; cbn [andb orb negb];
    repeat match goal with |- context [if ?b then _ else _] => destruct b end; try done.
  apply bool_decide_eq_false in E1, E2. by destruct Hq.
Qed.

Lemma shortestFrom_found x num den k f : forall n n', n <= n' < n + Z.of_nat f -> closest x num den n' k <> None ->
  exists n1 c, n <= n1 <= n' /\ shortestFrom f x num den n k = (c, k - n1) /\ closest x num den n1 k = Some c.
Proof.
  induction f as [|f IH]; intros n n' Hn Hc; [lia|]. cbn [shortestFrom]. destruct (closest x num den n k) as [c|] eqn:E.
  - exists n, c. split; [lia|done].
  - assert (n <> n') by congruence. destruct (IH (n + 1) n' ltac:(lia) Hc) as (n1&c&?&?&?). exists n1, c. split; [lia|done].
Qed.

(** Sixteen digits after the first are enough. *)
Lemma closest_17 m k K : limitRange m k -> (K = 0 /\ 53 <= k \/ K = 1 /\ k <= 52) ->
  closest (limitFloat m k) m (2 ^ k) 17 K <> None.
Proof.
  intros Hr HK. pose proof Hr as (Hm&Hk&Hx). apply closest_found; [lia|]. set (j := 17 - K). replace (K - 17) with (- j) by lia.
  assert (0 < 10 ^ j) as Hj by (apply Z.pow_pos_nonneg; lia). assert (0 < 2 ^ k) as H2 by (apply Z.pow_pos_nonneg; lia).
  assert (2 * 2 ^ k <= 10 ^ j /\ 2 ^ k < 10 ^ j) as [Hd Hd'].
  { destruct HK as [[-> ?]|[-> ?]]; subst j.
    - assert (2 ^ k <= 2 ^ 54) as Hp by (apply Z.pow_le_mono_r; lia). change (2 ^ 54) with 18014398509481984 in Hp. change (10 ^ (17 - 0)) with 100000000000000000. lia.
    - assert (2 ^ k <= 2 ^ 52) as Hp by (apply Z.pow_le_mono_r; lia). change (2 ^ 52) with 4503599627370496 in Hp. change (10 ^ (17 - 1)) with 10000000000000000. lia. }
  pose proof (Z.div_mod (m * 10 ^ j) (2 ^ k) ltac:(lia)) as He. pose proof (Z.mod_pos_bound (m * 10 ^ j) (2 ^ k) H2) as Hmod.
  set (q := m * 10 ^ j / 2 ^ k) in *. set (r := (m * 10 ^ j) mod 2 ^ k) in *. clearbody q r.
  assert (m * 10 ^ j <= 8 * 2 ^ k * 10 ^ j) as H8 by nia.
  assert (0 <= q <= 8 * 10 ^ j) as Hq by (unfold two52 in *; nia).
  assert (forall c, 2 * Z.abs (c * 2 ^ k - m * 10 ^ j) <= 2 ^ k -> nearest c (10 ^ j) m k) as Hnear.
  { intros c Hc. unfold nearest. split; [done|]. set (X := c * 2 ^ k) in *. set (Y := m * 10 ^ j) in *. clearbody X Y.
    split; [lia|]. split; [intros; exfalso; lia|]. destruct (m =? two52); [lia|]. split; [lia|]. intros; exfalso; lia. }
  assert (2 * r <= 2 ^ k \/ 2 ^ k < 2 * r) as [Hlo|Hhi] by lia.
  - left. assert (0 < q) as Hq0.
    { apply Z.nle_gt. intros Hq0. assert (q = 0) as -> by lia. unfold two52 in *. nia. }
    apply fscale10_nearest; [lia|lia|done|]. apply Hnear. rewrite He. replace (q * 2 ^ k - (2 ^ k * q + r)) with (- r) by lia. lia.
  - right. apply fscale10_nearest; [lia|lia|done|]. apply Hnear. rewrite He. replace ((q + 1) * 2 ^ k - (2 ^ k * q + r)) with (2 ^ k - r) by lia. lia.
Qed.

Lemma stripZeros_spec f : forall c e, 0 < c -> exists t, 0 <= t /\ c = (stripZeros f c e).1 * 10 ^ t /\ (stripZeros f c e).2 = e + t /\ 0 < (stripZeros f c e).1.
Proof.
  induction f as [|f IH]; intros c e Hc; cbn [stripZeros]; [exists 0; cbn; lia|].
  destruct (Z.eqb_spec (c mod 10) 0) as [Hz|]; cbn [andb]; [|exists 0; cbn; lia]. rewrite (proj2 (Z.eqb_neq c 0)) by lia. cbn [negb].
  assert (c = c / 10 * 10) as Hd by (Z.div_mod_to_equations; lia).
  destruct (IH (c / 10) (e + 1) ltac:(lia)) as (t&Ht&H1&H2&H3). exists (t + 1).
  rewrite Z.pow_add_r by lia. split; [lia|]. split; [lia|]. split; [lia|done].
Qed.

(** ** The text *)
Lemma parseDigits_app a b v : parseDigits (a +:+ b) v = parseDigits a v ≫= parseDigits b.
Proof. revert v. induction a as [|c a IH]; intros v; [done|]. cbn [String.append parseDigits]. destruct (isDigit c); [apply IH|done]. Qed.

Lemma parseDigits_bound s : forall v v', 0 <= v -> parseDigits s v = Some v' -> v * 10 ^ lenZ s <= v' < (v + 1) * 10 ^ lenZ s.
Proof.
  unfold lenZ. induction s as [|c s IH]; intros v v' Hv; cbn [parseDigits String.length]; [intros [= <-]; change (10 ^ Z.of_nat 0) with 1; lia|].
  destruct (isDigit c) eqn:Hc; [|done]. unfold isDigit in Hc. apply inRange_iff in Hc. intros H%IH; [|lia].
  rewrite Nat2Z.inj_succ, Z.pow_succ_r by lia. assert (0 < 10 ^ Z.of_nat (String.length s)) by (apply Z.pow_pos_nonneg; lia). nia.
Qed.

Lemma digits_length n L : 1 <= L -> 10 ^ (L - 1) <= n < 10 ^ L -> lenZ (digits n) = L.
Proof.
  intros HL Hn. assert (0 < 10 ^ (L - 1)) by (apply Z.pow_pos_nonneg; lia).
  pose proof (digitsFuel_length (S (Z.to_nat (Z.log2 n))) (Z.to_nat L) n "" ltac:(lia) ltac:(rewrite Z2Nat.id by lia; lia)) as Hu.
  fold (digits n) in Hu. cbn [String.length] in Hu. unfold lenZ. pose proof (digits_parse n ltac:(lia)) as Hp. pose proof (digits_nonempty n).
  unfold parseUDigits in Hp. assert (parseDigits (digits n) 0 = Some n) as Hp' by (by destruct (digits n)).
  apply parseDigits_bound in Hp' as [_ Hlt]; [|lia]. unfold lenZ in Hlt. rewrite Z.mul_1_l in Hlt.
  destruct (Z.lt_ge_cases (Z.of_nat (String.length (digits n))) L) as [Hs|]; [exfalso|lia].
  assert (10 ^ Z.of_nat (String.length (digits n)) <= 10 ^ (L - 1)) by (apply Z.pow_le_mono_r; lia). lia.
Qed.

(** What [floatText] writes for a limit: digits that read back. *)
Lemma floatText_limit m k : limitRange m k ->
  exists C J, 0 <= J <= 17 /\ 0 < C <= 9 * 10 ^ J /\ 10 ^ J <= 10 * C /\ nearest C (10 ^ J) m k /\
    floatText (limitFloat m k) = Ok (plainDecimal C (- J)).
Proof.
  intros Hr. pose proof Hr as (Hm&Hk&Hx). assert (0 < m) as Hm0 by (unfold two52 in *; lia).
  assert (decimalPoint m (2 ^ k) = 0 /\ 53 <= k \/ decimalPoint m (2 ^ k) = 1 /\ k <= 52) as HK by (by apply decimalPoint_range).
  set (K := decimalPoint m (2 ^ k)) in *.
  destruct (shortestFrom_found (limitFloat m k) m (2 ^ k) K 17 1 17 ltac:(lia) (closest_17 m k K Hr HK)) as (n1&c&Hn1&Hs&Hc).
  assert (shortest (Z.to_pos m) (- k) = (c, K - n1)) as Hshort.
  { unfold shortest. rewrite (proj2 (Z.leb_gt 0 (- k))) by lia. rewrite Z.opp_involutive. rewrite Z2Pos.id by done. exact Hs. }
  apply closest_Some in Hc as [Hread Hq]. set (j := n1 - K). assert (0 <= j <= 17) as Hj by (subst j; lia).
  rewrite (proj2 (Z.leb_le 0 (n1 - K))) in Hq by lia. fold j in Hq. replace (K - n1) with (- j) in * by lia.
  assert (0 < 10 ^ j) as Hp by (apply Z.pow_pos_nonneg; lia). assert (0 < 2 ^ k) as H2 by (apply Z.pow_pos_nonneg; lia).
  assert (0 < c <= 9 * 10 ^ j) as Hcb.
  { assert (0 <= m * 10 ^ j / 2 ^ k) by (apply Z.div_pos; lia).
    assert (m * 10 ^ j / 2 ^ k <= 8 * 10 ^ j) by (apply Z.div_le_upper_bound; [done|]; nia).
    split; [|cbv zeta in Hq; lia]. destruct (Z.eq_dec c 0) as [->|]; [|cbv zeta in Hq; lia].
    unfold fscale10 in Hread. destruct (0 <=? - j); [|by destruct (Z.to_pos _)]. rewrite Z.mul_0_l in Hread. done. }
  apply fscale10_nearest in Hread; [|lia|done|done].
  destruct (stripZeros_spec 17 c (- j) ltac:(lia)) as (t&Ht&H1&H3&H4). destruct (stripZeros 17 c (- j)) as [C e] eqn:Es. cbn [fst snd] in *.
  assert (t <= j) as Htj.
  { apply Z.nlt_ge. intros Hlt. replace t with (j + (t - j)) in H1 by lia. rewrite Z.pow_add_r in H1 by lia.
    assert (10 ^ 1 <= 10 ^ (t - j)) as Ht1 by (apply Z.pow_le_mono_r; lia). change (10 ^ 1) with 10 in Ht1.
    assert (10 <= C * 10 ^ (t - j)) by nia. assert (10 * 10 ^ j <= C * 10 ^ (t - j) * 10 ^ j) by (apply Z.mul_le_mono_nonneg_r; lia). lia. }
  assert (0 < 10 ^ t) as Hpt by (apply Z.pow_pos_nonneg; lia).
  assert (10 ^ j = 10 ^ (j - t) * 10 ^ t) as Hjt by (rewrite <- Z.pow_add_r by lia; f_equal; lia).
  exists C, (j - t). assert (nearest C (10 ^ (j - t)) m k) as Hnear by (apply (nearest_scale _ _ _ _ (10 ^ t)); [done|by rewrite <- H1, <- Hjt]).
  assert (0 < C <= 9 * 10 ^ (j - t)) as HC by (rewrite H1, Hjt in Hcb; nia).
  assert (10 ^ (j - t) <= 10 * C) as HC'.
  { destruct Hnear as (_&_&_&Hlow). set (D := 10 ^ (j - t)) in *. assert (2 * (m * D - C * 2 ^ k) <= D) as Hl by (destruct (m =? two52); nia).
    assert (2 ^ k <= 2 ^ 54) as Hk54 by (apply Z.pow_le_mono_r; lia). change (2 ^ 54) with (4 * two52) in Hk54. unfold two52 in *.
    assert (C * 2 ^ k <= C * (4 * 4503599627370496)) by (apply Z.mul_le_mono_nonneg_l; lia).
    assert (4503599627370496 * D <= m * D) by (apply Z.mul_le_mono_nonneg_r; lia). lia. }
  split; [lia|]. split; [done|]. split; [done|]. split; [done|].
  unfold floatText, limitFloat. rewrite Hshort, Es. rewrite H3. replace (- j + t) with (- (j - t)) by lia.
  set (J := j - t) in *. assert (0 <= lenZ (digits C) - J <= 1) as Hpt01.
  { assert (C < 10 ^ (J + 1)) by (rewrite Z.pow_add_r by lia; lia).
    destruct (Z.lt_ge_cases C (10 ^ J)) as [Hlt|Hge].
    - destruct (Z.eq_dec J 0) as [E0|]; [rewrite E0 in *; change (10 ^ 0) with 1 in *; lia|]. rewrite (digits_length C J); [lia|lia|]. split; [|done].
      assert (10 ^ J = 10 * 10 ^ (J - 1)) by (rewrite <- Z.pow_succ_r by lia; f_equal; lia). lia.
    - rewrite (digits_length C (J + 1)); [lia|lia|]. by replace (J + 1 - 1) with J by lia. }
  replace (lenZ (digits C) + - J) with (lenZ (digits C) - J) by lia.
  rewrite (proj2 (Z.ltb_ge _ _)), (proj2 (Z.ltb_ge _ _)) by lia. done.
Qed.

Lemma readMantissa_digits d : forall v v' frac us, parseDigits d v = Some v' ->
  readMantissa false d v frac true true us = (v', frac + lenZ d, true, us, "").
Proof.
  unfold lenZ. induction d as [|c d IH]; intros v v' frac us; cbn [parseDigits readMantissa String.length]; [intros [= <-]; by rewrite Z.add_0_r|].
  destruct (isDigit c) eqn:Hc; [|done]. intros Hp. rewrite !(isDigit_neq c) by (done || by vm_compute).
  rewrite (IH _ _ (frac + 1) us Hp). by replace (frac + 1 + Z.of_nat (String.length d)) with (frac + Z.of_nat (S (String.length d))) by lia.
Qed.

(** A digit, a point, digits. *)
Lemma decimal_reads c d v : isDigit c = true -> d <> "" -> parseDigits (String c d) 0 = Some v ->
  numberText (String c (String "." d)) = true /\ parseFloat (String c (String "." d)) = checkedFloat (fscale10 v (- lenZ d)).
Proof.
  intros Hc Hd Hp. assert (strForall isDigit d = true) as Hall.
  { cbn [parseDigits] in Hp. rewrite Hc in Hp. revert Hp. generalize (0 * 10 + (byteZ c - 48)). clear Hd. induction d as [|x d IH]; intros n; [done|].
    cbn [parseDigits strForall]. destruct (isDigit x); [|done]. apply IH. }
  assert (spanDigits d = (d, "")) as Hspan by (rewrite <- (app_nil_r_str d) at 1; by apply spanDigits_app).
  apply String.eqb_neq in Hd as Hd'. split.
  - unfold numberText, scanNumber. rewrite (isDigit_neq c "-") by (done || by vm_compute).
    assert (scanInteger (String c (String "." d)) = Some (String c "", String "." d)) as ->.
    { unfold scanInteger. destruct (Ascii.eqb_spec c "0") as [->|]; [done|]. cbn [spanDigits]. rewrite Hc. done. }
    cbn [scanFraction Ascii.eqb Bool.eqb]. rewrite Hspan, Hd'. cbn [scanExponent String.append]. by rewrite app_nil_r_str, String.eqb_refl.
  - unfold parseFloat. rewrite !(isDigit_neq c) by (done || by vm_compute).
    assert (exists r, lowerString (String c (String "." d)) = String c r) as (r&Hl).
    { cbn [lowerString]. unfold lowerAscii at 1. unfold isUpper. unfold isDigit in Hc. apply inRange_iff in Hc.
      assert (inRange 65 90 c = false) as -> by (apply not_true_iff_false; rewrite inRange_iff; lia). by eexists. }
    rewrite Hl. assert (forall x, isDigit x = false -> forall y z, String.eqb (String c y) (String x z) = false) as Hne.
    { intros x Hx y z. apply String.eqb_neq. intros [= ->]. congruence. }
    rewrite !Hne by by vm_compute. cbn [orb andb negb]. unfold readFloat.
    assert ((match String c (String "." d) with
             | String "0" (String c' (String d' r')) => if Ascii.eqb (lowerAscii c') "x" then (true, String d' r') else (false, String c (String "." d))
             | _ => (false, String c (String "." d)) end) = (false, String c (String "." d))) as ->.
    { destruct d as [|x d]; [done|]. destruct c as [[] [] [] [] [] [] [] []]; reflexivity. }
    cbn [readMantissa]. rewrite !(isDigit_neq c) by (done || by vm_compute). rewrite Hc. cbn [Ascii.eqb Bool.eqb].
    cbn [parseDigits] in Hp. rewrite Hc in Hp. rewrite (readMantissa_digits d _ v _ _ Hp). cbn [negb andb withSign]. by rewrite Z.sub_0_l, Z.add_0_l.
Qed.

Lemma plainDecimal_reads C J : 0 <= J <= 17 -> 0 < C <= 9 * 10 ^ J -> 10 ^ J <= 10 * C ->
  numberText (plainDecimal C (- J)) = true /\ parseFloat (plainDecimal C (- J)) = checkedFloat (fscale10 C (- J)).
Proof.
  intros HJ HC HC'. destruct (Z.eq_dec J 0) as [->|HJ0].
  - change (10 ^ 0) with 1 in *. assert (C = 1 \/ C = 2 \/ C = 3 \/ C = 4 \/ C = 5 \/ C = 6 \/ C = 7 \/ C = 8 \/ C = 9) as Hcs by lia.
    repeat destruct Hcs as [->|Hcs]; try (subst C); split; vm_compute; reflexivity.
  - assert (0 < 10 ^ J) by (apply Z.pow_pos_nonneg; lia). assert (10 ^ J = 10 * 10 ^ (J - 1)) as HJs by (rewrite <- Z.pow_succ_r by lia; f_equal; lia).
    pose proof (digits_parse C ltac:(lia)) as Hp. pose proof (digits_nonempty C) as Hne. pose proof (digits_digits C ltac:(lia)) as Hd.
    assert (parseDigits (digits C) 0 = Some C) as Hp' by (unfold parseUDigits in Hp; by destruct (digits C)). clear Hp.
    unfold plainDecimal. rewrite (proj2 (Z.leb_gt 0 (- J))) by lia. destruct (Z.lt_ge_cases C (10 ^ J)) as [Hlt|Hge].
    + assert (lenZ (digits C) = J) as HL by (apply digits_length; lia). replace (lenZ (digits C) + - J) with 0 by lia.
      change (0 <? 0) with false. cbv iota. change ("0." +:+ (zeros (- 0) +:+ digits C)) with (String "0" (String "." (digits C))).
      rewrite <- HL. by apply decimal_reads.
    + assert (lenZ (digits C) = J + 1) as HL
        by (apply digits_length; [lia|]; replace (J + 1 - 1) with J by lia; rewrite Z.pow_add_r by lia; lia).
      replace (lenZ (digits C) + - J) with 1 by lia. change (0 <? 1) with true. cbv iota. change (Z.to_nat 1) with 1%nat.
      destruct (digits C) as [|c d]; [done|]. cbn [strForall] in Hd. apply andb_prop in Hd as [Hc _].
      pose proof (drop_app (String c "") d) as Hdr. pose proof (take_app (String c "") d) as Htk.
      change (String.length (String c "")) with 1%nat in *. change (String c "" +:+ d) with (String c d) in *. rewrite Hdr, Htk.
      change (String c "" +:+ ("." +:+ d)) with (String c (String "." d)).
      assert (lenZ d = J) as <- by (unfold lenZ in *; cbn [String.length] in HL; lia).
      apply decimal_reads; [done| |done]. intros ->. unfold lenZ in HJ0. cbn in HJ0. lia.
Qed.

(** A limit the validators admit is written so that it reads back. *)
Lemma limit_reads m k : limitRange m k -> floatReads (limitFloat m k) = true.
Proof.
  intros Hr. destruct (floatText_limit m k Hr) as (C&J&HJ&HC&HC'&Hn&Ht). unfold floatReads. rewrite Ht.
  destruct (plainDecimal_reads C J HJ HC HC') as [-> ->]. apply fscale10_nearest in Hn; [|lia|lia|done]. rewrite Hn.
  unfold checkedFloat, limitFloat. cbn [isInf andb]. by apply bool_decide_eq_true.
Qed.

(** ** Whatever is read is a float64 *)
Definition canonical (x : f64) : bool := valid_binary 53 1024 x.

Lemma fexp_mono a b : a <= b -> fexp 53 1024 a <= fexp 53 1024 b.
Proof. unfold fexp. lia. Qed.

Lemma iter_shr_1 p : forall s, 0 <= shr_m s -> shr_m (SpecFloat.iter_pos shr_1 p s) = shr_m s / 2 ^ Zpos p.
Proof.
  assert (forall s, 0 <= shr_m s -> shr_m (shr_1 s) = shr_m s / 2) as H1.
  { intros s Hs. destruct (Z.eq_dec (shr_m s) 0) as [Hz|]; [|apply shr_1_half; lia]. destruct s as [q r b]. cbn [shr_m] in *. by subst q. }
  assert (forall s n, 0 <= shr_m s -> 0 <= n -> 0 <= shr_m s / 2 ^ n) as H0
    by (intros; apply Z.div_pos; [done|by apply Z.pow_pos_nonneg]).
  induction p as [p IH|p IH|]; intros s Hs; cbn [SpecFloat.iter_pos]; [| |by apply H1].
  - assert (0 <= shr_m (shr_1 s)) by (rewrite H1 by done; apply Z.div_pos; lia).
    rewrite IH by (rewrite IH by done; by apply H0). rewrite IH, H1 by done. rewrite !Z.div_div by (try lia; apply Z.pow_pos_nonneg; lia).
    f_equal. change (Zpos p~1) with (2 * Zpos p + 1). replace (2 * Zpos p + 1) with (1 + Zpos p + Zpos p) by lia. rewrite !Z.pow_add_r by lia. lia.
  - rewrite IH by (rewrite IH by done; by apply H0). rewrite IH by done. rewrite Z.div_div by (try lia; apply Z.pow_pos_nonneg; lia).
    f_equal. rewrite <- Z.pow_add_r by lia. f_equal. change (Zpos p~0) with (2 * Zpos p). lia.
Qed.

(** Shifting to the exponent the digits ask for. *)
Lemma shr_fexp_spec q e l : 0 <= q -> e <= fexp 53 1024 (Zdigits2 q + e) ->
  snd (shr_fexp 53 1024 q e l) = fexp 53 1024 (Zdigits2 q + e) /\
  shr_m (fst (shr_fexp 53 1024 q e l)) = q / 2 ^ (fexp 53 1024 (Zdigits2 q + e) - e).
Proof.
  intros Hq He. unfold shr_fexp. remember (fexp 53 1024 (Zdigits2 q + e) - e) as n eqn:En. assert (0 <= n) as Hn by lia.
  destruct (loc_shr q l) as [Hm _]. destruct n as [|p|p]; [|cbn [shr fst snd]|lia].
  - cbn [shr fst snd]. rewrite Hm. change (2 ^ 0) with 1. rewrite Z.div_1_r. split; [lia|done].
  - rewrite iter_shr_1 by (rewrite Hm; done). rewrite Hm. split; [lia|done].
Qed.

Lemma Zdigits2_div q n : 0 <= n -> 0 < q / 2 ^ n -> 0 < q -> Zdigits2 (q / 2 ^ n) = Zdigits2 q - n.
Proof.
  intros Hn Hp Hq. rewrite !Zdigits2_log2 by done. rewrite <- Z.shiftr_div_pow2 by done.
  rewrite <- Z.shiftr_div_pow2 in Hp by done. rewrite Z.log2_shiftr by done.
  pose proof (Z.log2_nonneg q). assert (n <= Z.log2 q); [|lia]. apply Z.nlt_ge. intros Hlt.
  rewrite Z.shiftr_eq_0 in Hp; [lia|lia|done].
Qed.

Lemma round_canonical s q e l : 0 <= q -> e <= fexp 53 1024 (Zdigits2 q + e) -> canonical (binary_round_aux 53 1024 s q e l) = true.
Proof.
  intros Hq He. unfold binary_round_aux. destruct (shr_fexp_spec q e l Hq He) as [H1 H2]. destruct (shr_fexp 53 1024 q e l) as [mrs e1]. cbn [fst snd] in *.
  set (n := fexp 53 1024 (Zdigits2 q + e) - e) in *. set (r := round_nearest_even _ _).
  assert (0 <= shr_m mrs) as Hm by (rewrite H2; apply Z.div_pos; [done|apply Z.pow_pos_nonneg; lia]).
  assert (shr_m mrs <= r <= shr_m mrs + 1) as Hr by (subst r; unfold round_nearest_even; repeat case_match; lia).
  assert (e1 <= fexp 53 1024 (Zdigits2 r + e1)) as He1.
  { destruct (Z.eq_dec (shr_m mrs) 0) as [Hz|Hnz].
    - destruct (Z.eq_dec q 0) as [->|].
      + cbn [Zdigits2] in *. assert (e1 = -1074) as -> by (unfold fexp, emin in *; lia). unfold fexp, emin. lia.
      + assert (Zdigits2 q <= n).
        { apply Z.nlt_ge. intros Hlt. destruct (Zdigits2_spec q ltac:(lia)) as [_ [Hlow _]]. rewrite H2 in Hz.
          assert (0 < q / 2 ^ n); [|lia]. apply Z.div_str_pos. split; [apply Z.pow_pos_nonneg; lia|].
          assert (2 ^ n <= 2 ^ (Zdigits2 q - 1)) by (apply Z.pow_le_mono_r; lia). lia. }
        assert (e1 = -1074) as -> by (unfold fexp, emin in *; lia). unfold fexp, emin. lia.
    - rewrite H1 at 1. apply fexp_mono. assert (0 < q) by (destruct (Z.eq_dec q 0) as [->|]; [rewrite Z.div_0_l in H2 by (apply Z.pow_nonzero; lia); lia|lia]).
      assert (Zdigits2 (shr_m mrs) = Zdigits2 q - n) as Hd by (rewrite H2; apply Zdigits2_div; lia).
      assert (Zdigits2 (shr_m mrs) <= Zdigits2 r); [|lia]. rewrite !Zdigits2_log2 by lia. pose proof (Z.log2_le_mono (shr_m mrs) r). lia. }
  destruct (shr_fexp_spec r e1 loc_Exact ltac:(lia) He1) as [H3 H4]. destruct (shr_fexp 53 1024 r e1 loc_Exact) as [mrs2 e2]. cbn [fst snd] in *.
  destruct (shr_m mrs2) as [|m|m] eqn:Em; [done| |done]. destruct (Z.leb_spec e2 (1024 - 53)) as [Hle|]; [|done].
  cbn [canonical valid_binary]. unfold bounded, canonical_mantissa. apply andb_true_intro. split; [|by apply Z.leb_le].
  apply Zeq_is_eq_bool. change (Zpos (digits2_pos m)) with (Zdigits2 (Zpos m)). rewrite H4.
  assert (0 < r) by (destruct (Z.eq_dec r 0) as [->|]; [rewrite Z.div_0_l in H4 by (apply Z.pow_nonzero; lia); lia|lia]).
  rewrite Zdigits2_div by lia. rewrite H3 at 2. f_equal. lia.
Qed.

Lemma normalize_canonical m e b : canonical (binary_normalize 53 1024 m e b) = true.
Proof.
  assert (forall s p, canonical (binary_round 53 1024 s p e) = true) as Hr.
  { intros s p. unfold binary_round, shl_align. set (x := fexp 53 1024 (Zpos (digits2_pos p) + e)).
    destruct (x - e) as [|d|d] eqn:Ed; try (apply round_canonical; [lia|]; cbn [Zdigits2]; subst x; lia).
    apply round_canonical; [lia|]. change (Pos.iter xO p d) with (shift_pos d p).
    assert (Zdigits2 (Zpos (shift_pos d p)) = Zpos (digits2_pos p) + Zpos d) as ->; [|replace (Zpos (digits2_pos p) + Zpos d + x) with (Zpos (digits2_pos p) + e) by lia; subst x; lia].
    change (Zpos (digits2_pos p)) with (Zdigits2 (Zpos p)). rewrite shift_pos_correct. change (Z.pow_pos 2 d) with (2 ^ Zpos d).
    assert (0 < 2 ^ Zpos d) by (apply Z.pow_pos_nonneg; lia).
    rewrite !Zdigits2_log2 by lia. rewrite Z.mul_comm, Z.log2_mul_pow2 by lia. lia. }
  destruct m; [done|apply Hr|apply Hr].
Qed.

Lemma fratio_canonical a d : canonical (fratio a d) = true.
Proof.
  assert (forall s p, canonical (let '(q, e, l) := SFdiv_core_binary 53 1024 (Zpos p) 0 (Zpos d) 0 in binary_round_aux 53 1024 s q e l) = true) as Hc.
  { intros s p. unfold SFdiv_core_binary. rewrite !Z.add_0_r. change (0 - 0) with 0. set (D := Zdigits2 (Zpos p) - Zdigits2 (Zpos d)).
    set (e := Z.min (fexp 53 1024 D) 0). rewrite Z.sub_0_l. assert (- e >= 0) as Hs by (subst e; lia).
    assert (match - e with 0 => Zpos p | Zpos _ => Z.shiftl (Zpos p) (- e) | Zneg _ => 0 end = Zpos p * 2 ^ (- e)) as ->.
    { destruct (- e) as [|s'|s']; [change (2 ^ 0) with 1; lia|by rewrite Z.shiftl_mul_pow2 by lia|lia]. }
    pose proof (Z.div_eucl_eq (Zpos p * 2 ^ (- e)) (Zpos d) ltac:(lia)) as Heq. pose proof (Z.mod_pos_bound (Zpos p * 2 ^ (- e)) (Zpos d) ltac:(lia)) as Hr.
    unfold Z.modulo in Hr. destruct (Z.div_eucl _ (Zpos d)) as [q r]. assert (0 < 2 ^ (- e)) as H2 by (apply Z.pow_pos_nonneg; lia).
    assert (0 <= q) as Hq by nia. apply round_canonical; [done|]. destruct (Z.eq_dec e (-1074)) as [->|Hne]; [unfold fexp, emin; lia|].
    assert (e <= fexp 53 1024 D) as He by (subst e; lia). etransitivity; [exact He|]. apply fexp_mono.
    assert (1 <= D - e) as HD1 by (subst e; unfold fexp, emin in *; lia).
    destruct (Zdigits2_spec (Zpos p) ltac:(lia)) as [_ [Hp _]]. destruct (Zdigits2_spec (Zpos d) ltac:(lia)) as [_ [_ Hd]].
    assert (2 ^ (D - e - 1) <= q) as Hlow.
    { apply Z.nlt_ge. intros Hlt. assert (Zpos p * 2 ^ (- e) < Zpos d * 2 ^ (D - e - 1)) as H1 by nia.
      assert (2 ^ (Zdigits2 (Zpos p) - 1) * 2 ^ (- e) = 2 ^ Zdigits2 (Zpos d) * 2 ^ (D - e - 1)) as H3
        by (rewrite <- !Z.pow_add_r by (pose proof (Zdigits2_spec (Zpos p) ltac:(lia)); pose proof (Zdigits2_spec (Zpos d) ltac:(lia)); lia); f_equal; lia).
      assert (0 < 2 ^ (D - e - 1)) by (apply Z.pow_pos_nonneg; lia). nia. }
    assert (0 < 2 ^ (D - e - 1)) by (apply Z.pow_pos_nonneg; lia).
    rewrite (Zdigits2_log2 q) by lia. assert (D - e - 1 <= Z.log2 q); [|lia]. rewrite <- (Z.log2_pow2 (D - e - 1)) by lia. by apply Z.log2_le_mono. }
  destruct a; [done|apply Hc|apply Hc].
Qed.

Lemma parse_canonical s x : parseFloat s = Ok x -> canonical x = true.
Proof.
  assert (forall v e, canonical (fscale10 v e) = true) as H10.
  { intros v e. unfold fscale10. destruct (0 <=? e); [apply normalize_canonical|apply fratio_canonical]. }
  assert (forall neg y, canonical y = true -> canonical (withSign neg y) = true) as Hw by (by intros [] []).
  assert (forall neg y z, canonical y = true -> checkedFloat (withSign neg y) = Ok z -> canonical z = true) as Hc.
  { intros neg y z Hy. unfold checkedFloat. destruct (isInf _); [done|]. intros [= <-]. by apply Hw. }
  unfold parseFloat. destruct (match s with "" => _ | String c r => _ end) as [[sign neg] body].
  destruct (_ || _); [by intros [= <-]|]. destruct (_ && _); [by intros [= <-]|].
  unfold readFloat. destruct (match body with "" => _ | String c r => _ end) as [hex t].
  destruct (readMantissa hex t 0 0 false false false) as [[[[v frac] any] us] rest]. destruct any; [|done]. cbn [negb].
  assert (forall e us', (if us' && negb (underscoreOK body) then Err (EMsg "invalid syntax")
     else checkedFloat (withSign neg (if hex then fscale v (e - 4 * frac) else fscale10 v (e - frac)))) = Ok x -> canonical x = true) as Hf.
  { intros e us'. destruct (_ && _); [done|]. apply Hc. destruct hex; [apply normalize_canonical|apply H10]. }
  destruct rest as [|c r]; [destruct hex; [done|apply Hf]|]. destruct (Ascii.eqb _ _); [|done].
  destruct (match r with "" => _ | String c1 r' => _ end) as [eneg r1]. destruct r1 as [|d r1]; [done|]. destruct (isDigit d); [|done].
  destruct (readExp _ 0 us) as [[e us'] rest']. destruct (String.eqb rest' ""); [|done]. apply Hf.
Qed.

(** ** CPU limits *)
Lemma canonical_spec s m e : canonical (S754_finite s m e) = true -> -1074 < e -> two52 <= Zpos m < two53.
Proof.
  unfold canonical. cbn [valid_binary]. unfold bounded, canonical_mantissa. intros [Hc%Zeq_bool_eq _]%andb_prop He.
  change (Zpos (digits2_pos m)) with (Zdigits2 (Zpos m)) in Hc. destruct (Zdigits2_spec (Zpos m) ltac:(lia)) as [_ Hm].
  assert (Zdigits2 (Zpos m) = 53) as Hd by (unfold fexp, emin in Hc; lia). rewrite Hd in Hm. exact Hm.
Qed.

(** A float64 between a quarter and eight is read back. *)
Lemma limit_canonical x :
  canonical x = true -> isNaN x || isInf x || fltb x (quarter 1) || fgtb x (fofZ 8) = false ->
  exists m k, x = limitFloat m k /\ limitRange m k.
Proof.
  intros Hc. destruct x as [s|s| |s m e]; try (by intros; exfalso; destruct s || done). destruct s; [done|].
  change (quarter 1) with (S754_finite false 4503599627370496 (-54)). change (fofZ 8) with (S754_finite false 4503599627370496 (-49)).
  remember 4503599627370496%positive as P eqn:HP. assert (Zpos P = two52) as HP2 by (by subst P). clear HP.
  unfold fltb, fgtb, SFltb, SFcompare. cbn [isNaN isInf orb]. intros [H1 H2]%orb_false_iff.
  assert (-54 <= e <= -49 /\ (e = -49 -> Zpos m <= two52)) as [He Hm8].
  { destruct (Z.compare_spec e (-54)) as [->|Hlt|Hgt]; [lia|done|].
    destruct (Z.compare_spec (-49) e) as [<-|Hlt|Hgt']; [|done|lia]. split; [lia|]. intros _.
    change (Pos.compare_cont Eq P m) with (Pos.compare P m) in H2. rewrite <- HP2.
    destruct (Pos.compare_spec P m) as [<-|?|?]; [lia|done|lia]. }
  pose proof (canonical_spec _ _ _ Hc ltac:(lia)) as Hm. exists (Zpos m), (- e). unfold limitFloat. rewrite Z.opp_involutive. split; [done|].
  split; [done|]. split; [lia|]. destruct (Z.eq_dec e (-49)) as [E|].
  - rewrite E. change (8 * 2 ^ - -49) with two52. auto.
  - assert (2 ^ 50 <= 2 ^ (- e)) as Hp by (apply Z.pow_le_mono_r; lia). change (2 ^ 50) with 1125899906842624 in Hp. unfold two53 in Hm. lia.
Qed.

Lemma cpus_read x :
  canonical x = true -> isNaN x || isInf x || fltb x (quarter 1) || fgtb x (fofZ 8) = false -> floatReads x = true.
Proof. intros Hc Hr. destruct (limit_canonical x Hc Hr) as (m&k&->&Hl). by apply limit_reads. Qed.
