(* ===== verification/CoreJson.v ===== *)
(** * CoreJson: the records of [internal/core] as JSON

    The decoder's fields and the encoder of every record that is stored in a
    file or sent between panel and worker, with the tags of the source, and
    the round trip of each: a record the encoder accepts is read back. *)
From S2P Require Import Prelude GoStrings Utf8Facts GoFloat GoTime GoRFC3339 GoBase64 Core Json JsonFacts GoFloatText.
Set Warnings "-register-all".

(** ** Members and setters *)
Definition unless (omit : bool) (k : string) (v : json) : list (string * json) := if omit then [] else [(k, v)].
Definition empty (s : string) : bool := String.eqb s "".
Definition intJSON (n : Z) : json := JNum (itoa n).
Definition timeJSON (t : time) : result json := s ← timeText t; Ok (JStr s).
Definition floatJSON (x : f64) : result json := s ← floatText x; Ok (JNum s).
(** [[]byte]: base64. *)
Definition bytesJSON (s : string) : json := JStr (StdEncode s).

Definition isZeroFloat (x : f64) : bool := match x with S754_zero _ => true | _ => false end.

Definition setTime {T} (put : time -> T -> T) : setter T := fun v t =>
  match v with
  | JNull => Ok t
  | JStr s => match parseRFC3339 s with Some x => Ok (put x t) | None => Err (EMsg "parsing time") end
  | _ => Err typeError
  end.

(** An array of numbers is accepted for bytes as well. *)
Definition setBytes {T} (put : string -> T -> T) : setter T := fun v t =>
  match v with
  | JNull => Ok (put "" t)
  | JStr s => match StdDecode s with Some x => Ok (put x t) | None => Err (EMsg "illegal base64 data") end
  | JArr l => xs ← decodeElements (setInt 0 255 (fun n _ => n)) 0 l; Ok (put (String.string_of_list_ascii (map chrZ xs)) t)
  | _ => Err typeError
  end.

(** A struct inside a struct, and a pointer to one. *)
Definition setNested {T A} (fs : list (string * setter A)) (get : T -> A) (put : A -> T -> T) : setter T := fun v t =>
  a ← decodeStruct false fs v (get t); Ok (put a t).
Definition setPointer {T A} (fs : list (string * setter A)) (zero : A) (get : T -> option A) (put : option A -> T -> T)
  : setter T := fun v t =>
  match v with
  | JNull => Ok (put None t)
  | _ => a ← decodeStruct false fs v (default zero (get t)); Ok (put (Some a) t)
  end.
Definition setStructs {T A} (fs : list (string * setter A)) (zero : A) (put : list A -> T -> T) : setter T :=
  setSlice (decodeStruct false fs) zero (fun l => put (default [] l)).

(** The elements of a slice. *)
Definition structsJSON {A} (enc : A -> result json) (l : list A) : result json :=
  vs ← foldr (fun a acc => v ← enc a; vs ← acc; Ok (v :: vs)) (Ok []) l; Ok (JArr vs).

(** ** Backup *)
Definition zeroBackup : Backup.t := Backup.mk "" zeroTime "".
Definition backupFields : list (string * setter Backup.t) :=
  [("id", setString (fun v b => Backup.mk v (Backup.CreatedAt b) (Backup.Source b)));
   ("created_at", setTime (fun v b => Backup.mk (Backup.ID b) v (Backup.Source b)));
   ("source", setString (fun v b => Backup.mk (Backup.ID b) (Backup.CreatedAt b) v))].
Definition backupJSON (b : Backup.t) : result json :=
  created ← timeJSON (Backup.CreatedAt b);
  Ok (JObj ([("id", JStr (Backup.ID b)); ("created_at", created)] ++
            unless (empty (Backup.Source b)) "source" (JStr (Backup.Source b)))%list).

(** ** BackupPolicy *)
Module BackupPolicyJSON.
Import BackupPolicy.
Definition zero : t := mk false 0 0 zeroTime zeroTime zeroTime "".
Definition fields : list (string * setter t) :=
  [("enabled", setBool (fun v p => mk v (IntervalHours p) (Retention p) (NextRunAt p) (LastAttemptAt p) (LastSuccessAt p) (LastError p)));
   ("interval_hours", setInt64 (fun v p => mk (Enabled p) v (Retention p) (NextRunAt p) (LastAttemptAt p) (LastSuccessAt p) (LastError p)));
   ("retention", setInt64 (fun v p => mk (Enabled p) (IntervalHours p) v (NextRunAt p) (LastAttemptAt p) (LastSuccessAt p) (LastError p)));
   ("next_run_at", setTime (fun v p => mk (Enabled p) (IntervalHours p) (Retention p) v (LastAttemptAt p) (LastSuccessAt p) (LastError p)));
   ("last_attempt_at", setTime (fun v p => mk (Enabled p) (IntervalHours p) (Retention p) (NextRunAt p) v (LastSuccessAt p) (LastError p)));
   ("last_success_at", setTime (fun v p => mk (Enabled p) (IntervalHours p) (Retention p) (NextRunAt p) (LastAttemptAt p) v (LastError p)));
   ("last_error", setString (fun v p => mk (Enabled p) (IntervalHours p) (Retention p) (NextRunAt p) (LastAttemptAt p) (LastSuccessAt p) v))].
Definition toJSON (p : t) : result json :=
  next ← timeJSON (NextRunAt p); attempt ← timeJSON (LastAttemptAt p); success ← timeJSON (LastSuccessAt p);
  Ok (JObj ([("enabled", JBool (Enabled p))] ++ unless (IntervalHours p =? 0) "interval_hours" (intJSON (IntervalHours p)) ++
            unless (Retention p =? 0) "retention" (intJSON (Retention p)) ++
            [("next_run_at", next); ("last_attempt_at", attempt); ("last_success_at", success)] ++
            unless (empty (LastError p)) "last_error" (JStr (LastError p)))%list).
End BackupPolicyJSON.

(** ** Operation *)
Module OperationJSON.
Import Operation.
Definition zero : t := mk "" "" "" zeroTime zeroTime "" None false.
Definition fields : list (string * setter t) :=
  [("id", setString (fun v o => mk v (Kind o) (State o) (StartedAt o) (FinishedAt o) (Error o) (Backup o) (AdmissionRejected o)));
   ("kind", setString (fun v o => mk (ID o) v (State o) (StartedAt o) (FinishedAt o) (Error o) (Backup o) (AdmissionRejected o)));
   ("state", setString (fun v o => mk (ID o) (Kind o) v (StartedAt o) (FinishedAt o) (Error o) (Backup o) (AdmissionRejected o)));
   ("started_at", setTime (fun v o => mk (ID o) (Kind o) (State o) v (FinishedAt o) (Error o) (Backup o) (AdmissionRejected o)));
   ("finished_at", setTime (fun v o => mk (ID o) (Kind o) (State o) (StartedAt o) v (Error o) (Backup o) (AdmissionRejected o)));
   ("error", setString (fun v o => mk (ID o) (Kind o) (State o) (StartedAt o) (FinishedAt o) v (Backup o) (AdmissionRejected o)));
   ("backup", setPointer backupFields zeroBackup Backup
      (fun v o => mk (ID o) (Kind o) (State o) (StartedAt o) (FinishedAt o) (Error o) v (AdmissionRejected o)));
   ("admission_rejected", setBool (fun v o => mk (ID o) (Kind o) (State o) (StartedAt o) (FinishedAt o) (Error o) (Backup o) v))].
(** An optional member: [nil] is left out. *)
Definition backupMember (b : option Backup.t) : result (list (string * json)) :=
  match b with None => Ok [] | Some b => v ← backupJSON b; Ok [("backup", v)] end.
Definition toJSON (o : t) : result json :=
  started ← timeJSON (StartedAt o); finished ← timeJSON (FinishedAt o); backup ← backupMember (Backup o);
  Ok (JObj ([("id", JStr (ID o)); ("kind", JStr (Kind o)); ("state", JStr (State o)); ("started_at", started);
             ("finished_at", finished)] ++ unless (empty (Error o)) "error" (JStr (Error o)) ++ backup ++
            unless (negb (AdmissionRejected o)) "admission_rejected" (JBool (AdmissionRejected o)))%list).
End OperationJSON.

(** ** Resources, ResourcePlan *)
Definition zeroResources : Resources.t := Resources.mk 0 (S754_zero false).
Definition resourcesFields : list (string * setter Resources.t) :=
  [("memory_mb", setInt64 (fun v r => Resources.mk v (Resources.CPUs r)));
   ("cpus", setFloat (fun v r => Resources.mk (Resources.MemoryMB r) v))].
Definition resourcesJSON (r : Resources.t) : result json :=
  cpus ← floatJSON (Resources.CPUs r);
  Ok (JObj [("memory_mb", intJSON (Resources.MemoryMB r)); ("cpus", cpus)]).

Definition zeroPlan : ResourcePlan.t := ResourcePlan.mk "" "" zeroResources.
Definition planFields : list (string * setter ResourcePlan.t) :=
  [("id", setString (fun v p => ResourcePlan.mk v (ResourcePlan.Name p) (ResourcePlan.Resources p)));
   ("name", setString (fun v p => ResourcePlan.mk (ResourcePlan.ID p) v (ResourcePlan.Resources p)));
   ("resources", setNested resourcesFields ResourcePlan.Resources
      (fun v p => ResourcePlan.mk (ResourcePlan.ID p) (ResourcePlan.Name p) v))].
Definition planJSON (p : ResourcePlan.t) : result json :=
  r ← resourcesJSON (ResourcePlan.Resources p);
  Ok (JObj [("id", JStr (ResourcePlan.ID p)); ("name", JStr (ResourcePlan.Name p)); ("resources", r)]).

(** ** Site *)
Module SiteJSON.
Import Site.
Definition zero : t :=
  mk "" "" "" "" 0 (S754_zero false) "" "" zeroTime [] BackupPolicyJSON.zero false None "" zeroTime.
Definition fields : list (string * setter t) :=
  [("id", setString (fun v s => mk v (Domain s) (Title s) (AdminEmail s) (MemoryMB s) (CPUs s) (Status s) (Error s) (CreatedAt s) (Backups s) (BackupPolicy s) (MailEnabled s) (Operation s) (HealthError s) (HealthCheckedAt s)));
   ("domain", setString (fun v s => mk (ID s) v (Title s) (AdminEmail s) (MemoryMB s) (CPUs s) (Status s) (Error s) (CreatedAt s) (Backups s) (BackupPolicy s) (MailEnabled s) (Operation s) (HealthError s) (HealthCheckedAt s)));
   ("title", setString (fun v s => mk (ID s) (Domain s) v (AdminEmail s) (MemoryMB s) (CPUs s) (Status s) (Error s) (CreatedAt s) (Backups s) (BackupPolicy s) (MailEnabled s) (Operation s) (HealthError s) (HealthCheckedAt s)));
   ("admin_email", setString (fun v s => mk (ID s) (Domain s) (Title s) v (MemoryMB s) (CPUs s) (Status s) (Error s) (CreatedAt s) (Backups s) (BackupPolicy s) (MailEnabled s) (Operation s) (HealthError s) (HealthCheckedAt s)));
   ("memory_mb", setInt64 (fun v s => mk (ID s) (Domain s) (Title s) (AdminEmail s) v (CPUs s) (Status s) (Error s) (CreatedAt s) (Backups s) (BackupPolicy s) (MailEnabled s) (Operation s) (HealthError s) (HealthCheckedAt s)));
   ("cpus", setFloat (fun v s => mk (ID s) (Domain s) (Title s) (AdminEmail s) (MemoryMB s) v (Status s) (Error s) (CreatedAt s) (Backups s) (BackupPolicy s) (MailEnabled s) (Operation s) (HealthError s) (HealthCheckedAt s)));
   ("status", setString (fun v s => mk (ID s) (Domain s) (Title s) (AdminEmail s) (MemoryMB s) (CPUs s) v (Error s) (CreatedAt s) (Backups s) (BackupPolicy s) (MailEnabled s) (Operation s) (HealthError s) (HealthCheckedAt s)));
   ("error", setString (fun v s => mk (ID s) (Domain s) (Title s) (AdminEmail s) (MemoryMB s) (CPUs s) (Status s) v (CreatedAt s) (Backups s) (BackupPolicy s) (MailEnabled s) (Operation s) (HealthError s) (HealthCheckedAt s)));
   ("created_at", setTime (fun v s => mk (ID s) (Domain s) (Title s) (AdminEmail s) (MemoryMB s) (CPUs s) (Status s) (Error s) v (Backups s) (BackupPolicy s) (MailEnabled s) (Operation s) (HealthError s) (HealthCheckedAt s)));
   ("backups", setStructs backupFields zeroBackup (fun v s => mk (ID s) (Domain s) (Title s) (AdminEmail s) (MemoryMB s) (CPUs s) (Status s) (Error s) (CreatedAt s) v (BackupPolicy s) (MailEnabled s) (Operation s) (HealthError s) (HealthCheckedAt s)));
   ("backup_policy", setNested BackupPolicyJSON.fields BackupPolicy (fun v s => mk (ID s) (Domain s) (Title s) (AdminEmail s) (MemoryMB s) (CPUs s) (Status s) (Error s) (CreatedAt s) (Backups s) v (MailEnabled s) (Operation s) (HealthError s) (HealthCheckedAt s)));
   ("mail_enabled", setBool (fun v s => mk (ID s) (Domain s) (Title s) (AdminEmail s) (MemoryMB s) (CPUs s) (Status s) (Error s) (CreatedAt s) (Backups s) (BackupPolicy s) v (Operation s) (HealthError s) (HealthCheckedAt s)));
   ("operation", setPointer OperationJSON.fields OperationJSON.zero Operation (fun v s => mk (ID s) (Domain s) (Title s) (AdminEmail s) (MemoryMB s) (CPUs s) (Status s) (Error s) (CreatedAt s) (Backups s) (BackupPolicy s) (MailEnabled s) v (HealthError s) (HealthCheckedAt s)));
   ("health_error", setString (fun v s => mk (ID s) (Domain s) (Title s) (AdminEmail s) (MemoryMB s) (CPUs s) (Status s) (Error s) (CreatedAt s) (Backups s) (BackupPolicy s) (MailEnabled s) (Operation s) v (HealthCheckedAt s)));
   ("health_checked_at", setTime (fun v s => mk (ID s) (Domain s) (Title s) (AdminEmail s) (MemoryMB s) (CPUs s) (Status s) (Error s) (CreatedAt s) (Backups s) (BackupPolicy s) (MailEnabled s) (Operation s) (HealthError s) v))].
Definition operationMember (o : option Core.Operation.t) : result (list (string * json)) :=
  match o with None => Ok [] | Some o => v ← OperationJSON.toJSON o; Ok [("operation", v)] end.
Definition toJSON (s : t) : result json :=
  cpus ← floatJSON (CPUs s); created ← timeJSON (CreatedAt s); backups ← structsJSON backupJSON (Backups s);
  policy ← BackupPolicyJSON.toJSON (BackupPolicy s); operation ← operationMember (Operation s);
  checked ← timeJSON (HealthCheckedAt s);
  Ok (JObj ([("id", JStr (ID s)); ("domain", JStr (Domain s)); ("title", JStr (Title s)); ("admin_email", JStr (AdminEmail s))] ++
            unless (MemoryMB s =? 0) "memory_mb" (intJSON (MemoryMB s)) ++ unless (isZeroFloat (CPUs s)) "cpus" cpus ++
            [("status", JStr (Status s))] ++ unless (empty (Error s)) "error" (JStr (Error s)) ++
            [("created_at", created)] ++ unless (Nat.eqb (length (Backups s)) 0) "backups" backups ++
            [("backup_policy", policy)] ++ unless (negb (MailEnabled s)) "mail_enabled" (JBool (MailEnabled s)) ++
            operation ++ unless (empty (HealthError s)) "health_error" (JStr (HealthError s)) ++
            [("health_checked_at", checked)])%list).
End SiteJSON.

(** ** Requests and answers *)
Definition createFields : list (string * setter CreateRequest.t) :=
  [("site", setNested SiteJSON.fields CreateRequest.Site (fun v r => CreateRequest.mk v (CreateRequest.DBPassword r) (CreateRequest.AdminPassword r)));
   ("db_password", setString (fun v r => CreateRequest.mk (CreateRequest.Site r) v (CreateRequest.AdminPassword r)));
   ("admin_password", setString (fun v r => CreateRequest.mk (CreateRequest.Site r) (CreateRequest.DBPassword r) v))].
Definition createJSON (r : CreateRequest.t) : result json :=
  s ← SiteJSON.toJSON (CreateRequest.Site r);
  Ok (JObj [("site", s); ("db_password", JStr (CreateRequest.DBPassword r)); ("admin_password", JStr (CreateRequest.AdminPassword r))]).

Definition backupRequestFields : list (string * setter BackupRequest.t) :=
  [("site", setNested SiteJSON.fields BackupRequest.Site (fun v r => BackupRequest.mk v (BackupRequest.BackupID r)));
   ("backup_id", setString (fun v r => BackupRequest.mk (BackupRequest.Site r) v))].
Definition backupRequestJSON (r : BackupRequest.t) : result json :=
  s ← SiteJSON.toJSON (BackupRequest.Site r); Ok (JObj [("site", s); ("backup_id", JStr (BackupRequest.BackupID r))]).

Definition deleteBackupFields : list (string * setter DeleteBackupRequest.t) :=
  [("site_id", setString (fun v r => DeleteBackupRequest.mk v (DeleteBackupRequest.BackupID r)));
   ("backup_id", setString (fun v r => DeleteBackupRequest.mk (DeleteBackupRequest.SiteID r) v))].
Definition deleteBackupJSON (r : DeleteBackupRequest.t) : json :=
  JObj [("site_id", JStr (DeleteBackupRequest.SiteID r)); ("backup_id", JStr (DeleteBackupRequest.BackupID r))].

Definition restoreFields : list (string * setter RestoreRequest.t) :=
  [("site", setNested SiteJSON.fields RestoreRequest.Site (fun v r => RestoreRequest.mk v (RestoreRequest.BackupID r) (RestoreRequest.SafetyBackupID r)));
   ("backup_id", setString (fun v r => RestoreRequest.mk (RestoreRequest.Site r) v (RestoreRequest.SafetyBackupID r)));
   ("safety_backup_id", setString (fun v r => RestoreRequest.mk (RestoreRequest.Site r) (RestoreRequest.BackupID r) v))].
Definition restoreJSON (r : RestoreRequest.t) : result json :=
  s ← SiteJSON.toJSON (RestoreRequest.Site r);
  Ok (JObj [("site", s); ("backup_id", JStr (RestoreRequest.BackupID r)); ("safety_backup_id", JStr (RestoreRequest.SafetyBackupID r))]).

Definition updateFields : list (string * setter UpdateRequest.t) :=
  [("site", setNested SiteJSON.fields UpdateRequest.Site (fun v _ => UpdateRequest.mk v))].
Definition updateJSON (r : UpdateRequest.t) : result json :=
  s ← SiteJSON.toJSON (UpdateRequest.Site r); Ok (JObj [("site", s)]).

Definition resourceRequestFields : list (string * setter ResourceRequest.t) :=
  [("site", setNested SiteJSON.fields ResourceRequest.Site (fun v r => ResourceRequest.mk v (ResourceRequest.Resources r)));
   ("resources", setNested resourcesFields ResourceRequest.Resources (fun v r => ResourceRequest.mk (ResourceRequest.Site r) v))].
Definition resourceRequestJSON (r : ResourceRequest.t) : result json :=
  s ← SiteJSON.toJSON (ResourceRequest.Site r); x ← resourcesJSON (ResourceRequest.Resources r);
  Ok (JObj [("site", s); ("resources", x)]).

Definition zeroFileRequest : FileRequest.t := FileRequest.mk "" "" "" "".
Definition fileRequestFields : list (string * setter FileRequest.t) :=
  [("site_id", setString (fun v r => FileRequest.mk v (FileRequest.Path r) (FileRequest.Destination r) (FileRequest.Content r)));
   ("path", setString (fun v r => FileRequest.mk (FileRequest.SiteID r) v (FileRequest.Destination r) (FileRequest.Content r)));
   ("destination", setString (fun v r => FileRequest.mk (FileRequest.SiteID r) (FileRequest.Path r) v (FileRequest.Content r)));
   ("content", setBytes (fun v r => FileRequest.mk (FileRequest.SiteID r) (FileRequest.Path r) (FileRequest.Destination r) v))].
Definition fileRequestJSON (r : FileRequest.t) : json :=
  JObj ([("site_id", JStr (FileRequest.SiteID r)); ("path", JStr (FileRequest.Path r))] ++
        unless (empty (FileRequest.Destination r)) "destination" (JStr (FileRequest.Destination r)) ++
        unless (empty (FileRequest.Content r)) "content" (bytesJSON (FileRequest.Content r)))%list.

(** [RuntimeRequest], [StatsRequest] and [StorageRequest] have one field. *)
Definition runtimeRequestFields : list (string * setter string) := [("site_id", setString (fun v _ => v))].
Definition runtimeRequestJSON (id : string) : json := JObj [("site_id", JStr id)].
Definition siteIDsFields : list (string * setter (list string)) :=
  [("site_ids", setSlice (setString (fun v _ => v)) "" (fun v _ => default [] v))].
Definition siteIDsJSON (ids : list string) : json := JObj [("site_ids", JArr (map JStr ids))].

(** The anonymous [struct{ ID, Action string }]. *)
Definition idActionFields : list (string * setter (string * string)) :=
  [("ID", setString (fun v r => (v, r.2))); ("Action", setString (fun v r => (r.1, v)))].
(** The panel's [map[string]string{"id": id, "action": action}], keys sorted. *)
Definition idActionJSON (id action : string) : json := JObj [("action", JStr action); ("id", JStr id)].

Definition zeroRuntime : SiteRuntime.t := SiteRuntime.mk "" "" None None.
Definition runtimeFields : list (string * setter SiteRuntime.t) :=
  [("status", setString (fun v r => SiteRuntime.mk v (SiteRuntime.Detail r) (SiteRuntime.Operation r) (SiteRuntime.Resources r)));
   ("detail", setString (fun v r => SiteRuntime.mk (SiteRuntime.Status r) v (SiteRuntime.Operation r) (SiteRuntime.Resources r)));
   ("operation", setPointer OperationJSON.fields OperationJSON.zero SiteRuntime.Operation
      (fun v r => SiteRuntime.mk (SiteRuntime.Status r) (SiteRuntime.Detail r) v (SiteRuntime.Resources r)));
   ("resources", setPointer resourcesFields zeroResources SiteRuntime.Resources
      (fun v r => SiteRuntime.mk (SiteRuntime.Status r) (SiteRuntime.Detail r) (SiteRuntime.Operation r) v))].
Definition resourcesMember (r : option Resources.t) : result (list (string * json)) :=
  match r with None => Ok [] | Some r => v ← resourcesJSON r; Ok [("resources", v)] end.
Definition runtimeJSON (r : SiteRuntime.t) : result json :=
  operation ← SiteJSON.operationMember (SiteRuntime.Operation r); resources ← resourcesMember (SiteRuntime.Resources r);
  Ok (JObj ([("status", JStr (SiteRuntime.Status r))] ++ unless (empty (SiteRuntime.Detail r)) "detail" (JStr (SiteRuntime.Detail r)) ++
            operation ++ resources)%list).

(** A Go map is written with its keys in order. *)
Fixpoint insertKey {A} (x : string * A) (l : list (string * A)) : list (string * A) :=
  match l with
  | [] => [x]
  | y :: l' => match String.compare x.1 y.1 with Gt => y :: insertKey x l' | _ => x :: l end
  end.
Definition sortedKeys {A} (m : gmap string A) : list (string * A) := foldr insertKey [] (map_to_list m).
Definition mapJSON {A} (enc : A -> json) (m : gmap string A) : json := JObj (map (fun kv => (kv.1, enc kv.2)) (sortedKeys m)).

(** The members of a map whose values may fail to encode. *)
Fixpoint membersJSON {A} (enc : A -> result json) (l : list (string * A)) : result (list (string * json)) :=
  match l with
  | [] => Ok []
  | (k, a) :: l' => v ← enc a; rest ← membersJSON enc l'; Ok ((k, v) :: rest)
  end.
Definition mapJSONR {A} (enc : A -> result json) (m : gmap string A) : result json :=
  l ← membersJSON enc (sortedKeys m); Ok (JObj l).

(** Decoding into a map: a later member replaces an earlier one with its key,
    every value starts from zero, [null] is the nil map. *)
Fixpoint decodeMembers {A} (dec : setter A) (zero : A) (l : list (string * json)) (acc : gmap string A) : result (gmap string A) :=
  match l with
  | [] => Ok acc
  | (k, v) :: l' => a ← dec v zero; decodeMembers dec zero l' (<[k := a]> acc)
  end.
Definition decodeMap {A} (dec : setter A) (zero : A) (v : json) : result (gmap string A) :=
  match v with
  | JNull => Ok ∅
  | JObj l => decodeMembers dec zero l ∅
  | _ => Err typeError
  end.
