(* ===== verification/CoreJsonFacts.v ===== *)
(** * CoreJsonFacts: what is sent or stored is what is read

    For every record of [CoreJson]: when the encoder accepts a record whose
    strings are valid UTF-8 and whose numbers are machine numbers, its value is
    printable and the decoder makes the record of it again. *)
From S2P Require Import Prelude GoStrings Utf8Facts GoFloat GoTime GoRFC3339 GoBase64 Core Json JsonFacts GoFloatText CoreJson.
Set Warnings "-register-all".

(** ** Members *)
Lemma decode_member {T} strict (F : list (string * setter T)) k v rest acc acc' set r :
  fieldOf F k = Some set -> set v acc = Ok acc' -> decodeFields strict F rest acc' = r ->
  decodeFields strict F ((k, v) :: rest) acc = r.
Proof. intros Hf Hs <-. cbn [decodeFields]. by rewrite Hf, Hs. Qed.

Lemma decode_unless {T} strict (F : list (string * setter T)) omit k v rest acc acc' set r :
  fieldOf F k = Some set -> (omit = false -> set v acc = Ok acc') -> (omit = true -> acc = acc') ->
  decodeFields strict F rest acc' = r -> decodeFields strict F (unless omit k v ++ rest)%list acc = r.
Proof. intros Hf Hs Ho <-. destruct omit; simpl; [by rewrite Ho|]. by rewrite Hf, Hs. Qed.

(** A value within the decoder's depth at [d], with room for [n] more levels. *)
Definition roomFor (n d : Z) : Prop := 0 <= d /\ d + n <= maxDepth.

Definition plainMembers (d : Z) (l : list (string * json)) : bool :=
  forallb (fun kv => validUTF8 kv.1 && plainValue d kv.2) l.

Lemma plain_object d l : d < maxDepth -> plainMembers (d + 1) l = true -> plainValue d (JObj l) = true.
Proof. intros Hd Hl. cbn [plainValue]. by rewrite (proj2 (Z.leb_gt maxDepth d)). Qed.

Lemma plain_unless d omit k v rest :
  validUTF8 k = true -> plainValue d v = true -> plainMembers d rest = true ->
  plainMembers d (unless omit k v ++ rest)%list = true.
Proof. intros Hk Hv Hr. destruct omit; [done|]. cbn [unless app]. cbn [plainMembers forallb]. cbn [fst snd]. by rewrite Hk, Hv. Qed.

Lemma plain_member d k v rest :
  validUTF8 k = true -> plainValue d v = true -> plainMembers d rest = true -> plainMembers d ((k, v) :: rest) = true.
Proof. intros Hk Hv Hr. cbn [plainMembers forallb fst snd]. by rewrite Hk, Hv. Qed.

Lemma plain_int d n : plainValue d (intJSON n) = true.
Proof. apply numberText_itoa. Qed.

Lemma timeJSON_reads t v d :
  timeJSON t = Ok v ->
  plainValue d v = true /\ forall T (put : time -> T -> T) acc, setTime put v acc = Ok (put t acc).
Proof.
  unfold timeJSON, timeText. intros Ht. destruct (_ || _) eqn:E; [done|]. injection Ht as <-.
  assert (0 <= yearOf t <= 9999) as Hy by lia.
  split; [by apply validUTF8_ascii, formatRFC3339_ascii|]. intros T put acc. unfold setTime. by rewrite parse_format.
Qed.

Lemma floatJSON_reads x v d :
  floatReads x = true -> floatJSON x = Ok v ->
  plainValue d v = true /\ forall T (put : f64 -> T -> T) acc, setFloat put v acc = Ok (put x acc).
Proof.
  unfold floatJSON. intros Hr Hv. destruct (floatText x) as [s|] eqn:E; [|done]. injection Hv as <-.
  split; [|intros T put acc]; by edestruct (setFloat_text (T := Z) (fun _ z => z) x s 0) as [? ?]; [..|eapply setFloat_text].
Qed.

Definition intOK (n : Z) : bool := inInt64 n.
Lemma setInt64_reads {T} (put : Z -> T -> T) n acc : intOK n = true -> setInt64 put (intJSON n) acc = Ok (put n acc).
Proof. unfold intOK, inInt64. intros Hn. apply setInt64_itoa. lia. Qed.

Lemma bytesJSON_reads {T} (put : string -> T -> T) s acc d :
  plainValue d (bytesJSON s) = true /\ setBytes put (bytesJSON s) acc = Ok (put s acc).
Proof.
  split; [|unfold setBytes, bytesJSON; by rewrite Std_roundtrip].
  by apply validUTF8_ascii, encode64_ascii.
Qed.

(** ** The contract of an encoder and a decoder

    A record the encoder accepts prints where there are [n] more levels, and
    is decoded into the zero value of its type. *)
Class Wire (n : Z) {A : Type} (fields : list (string * setter A)) (zero : A) (enc : A -> result json) (ok : A -> bool) := wire :
  forall a v d, ok a = true -> enc a = Ok v -> roomFor n d ->
    (v <> JNull /\ plainValue d v = true) /\ decodeStruct false fields v zero = Ok a.

(** Bind the results of an encoder. *)
Ltac enc_inv H :=
  repeat match type of H with
  | mbind _ ?r = Ok _ => apply bind_Ok in H; let x := fresh "v" in let E := fresh "E" in destruct H as (x & E & H)
  end; try (injection H as <-).

(** What was left out has its zero value. *)
Ltac omitted :=
  let H := fresh in intros H; cbn in H;
  first [apply String.eqb_eq in H as -> | apply Z.eqb_eq in H as -> | apply negb_true_iff in H as -> | idtac]; reflexivity.

(** The setter a literal key names. *)
Ltac find_setter :=
  match goal with
  | |- fieldOf ?F ?k = Some ?e =>
      let r := eval cbv [fieldOf findField F String.eqb Ascii.eqb Bool.eqb] in (fieldOf F k) in
      change (r = Some e); reflexivity
  end.

(** One member of the struct with fields [F]: find its setter, run it. *)
Ltac decode_step tac :=
  first
  [ eapply decode_member; [find_setter|tac|]
  | eapply decode_unless; [find_setter|intros _; tac|omitted|] ].

(** ** Backups *)
Definition backupOK (b : Backup.t) : bool := validUTF8 (Backup.ID b) && validUTF8 (Backup.Source b).

(** ** Structs inside structs *)
Section nested.
Context {A : Type} {n : Z} {fields : list (string * setter A)} {zero : A} {enc : A -> result json} {ok : A -> bool}.
Context `{!Wire n fields zero enc ok}.

Lemma nested_reads {T} (get : T -> A) (put : A -> T -> T) a v d :
  ok a = true -> enc a = Ok v -> roomFor n d ->
  plainValue d v = true /\ forall acc, get acc = zero -> setNested fields get put v acc = Ok (put a acc).
Proof.
  intros Ho He Hd. destruct (wire a v d Ho He Hd) as [[_ Hp] Hs]. split; [done|]. intros acc Hz.
  unfold setNested. by rewrite Hz, Hs.
Qed.

Lemma pointer_reads {T} (get : T -> option A) (put : option A -> T -> T) a v d :
  ok a = true -> enc a = Ok v -> roomFor n d ->
  plainValue d v = true /\ forall acc, get acc = None -> setPointer fields zero get put v acc = Ok (put (Some a) acc).
Proof.
  intros Ho He Hd. destruct (wire a v d Ho He Hd) as [[Hn Hp] Hs]. split; [done|]. intros acc Hz.
  unfold setPointer. rewrite Hz. cbn [default]. rewrite Hs. by destruct v.
Qed.

Lemma structs_reads {T} (put : list A -> T -> T) l v d :
  forallb ok l = true -> structsJSON enc l = Ok v -> roomFor (n + 1) d -> 0 <= n ->
  plainValue d v = true /\ forall acc, setStructs fields zero put v acc = Ok (put l acc).
Proof.
  intros Ho He [Hd0 Hd] Hn. assert (roomFor n (d + 1)) as Hr by (split; lia). unfold structsJSON in He. apply bind_Ok in He as (vs&He&[= <-]).
  assert (forallb (plainValue (d + 1)) vs = true /\ decodeElements (decodeStruct false fields) zero vs = Ok l) as [Hp Hs].
  - revert vs He. induction l as [|a l IH]; intros vs He; cbn [foldr] in He; [by injection He as <-|].
    cbn [forallb] in Ho. apply andb_prop in Ho as [Ha Hl]. enc_inv He. destruct (IH Hl _ E0) as [Hp Hs].
    destruct (wire a _ (d + 1) Ha E Hr) as [[_ Hp1] Hs1].
    cbn [forallb decodeElements]. by rewrite Hp1, Hs1, Hs.
  - split; [|intros acc; unfold setStructs, setSlice; by rewrite Hs].
    cbn [plainValue]. rewrite (proj2 (Z.leb_gt maxDepth d)) by lia. done.
Qed.
End nested.

(** The members of an object: [unless] last as before others. *)
Lemma members_end (l : list (string * json)) : l = (l ++ [])%list.
Proof. by rewrite app_nil_r. Qed.

(** Both halves of the contract, from the facts about the members in the
    context: that a member prints, and what a setter makes of it. *)
Ltac wire_prints :=
  match goal with
  | |- plainValue _ (JStr ?s) = true => change (validUTF8 s = true); assumption
  | |- plainValue _ (intJSON _) = true => apply plain_int
  | |- plainValue _ (JBool _) = true => reflexivity
  | H : plainValue ?d ?v = true |- plainValue ?d ?v = true => exact H
  end.
Ltac wire_sets :=
  match goal with
  | |- setString _ _ _ = _ => reflexivity
  | |- setBool _ _ _ = _ => reflexivity
  | |- setInt64 _ _ _ = _ => apply setInt64_reads; assumption
  | H : forall T put acc, setTime put ?v acc = _ |- setTime _ ?v _ = _ => apply H
  | H : forall T put acc, setFloat put ?v acc = _ |- setFloat _ ?v _ = _ => apply H
  | H : forall acc, setStructs _ _ _ ?v acc = _ |- setStructs _ _ _ ?v _ = _ => apply H
  | H : forall acc, _ -> setNested _ _ _ ?v acc = _ |- setNested _ _ _ ?v _ = _ => apply H; reflexivity
  | H : forall acc, _ -> setPointer _ _ _ _ ?v acc = _ |- setPointer _ _ _ _ ?v _ = _ => apply H; reflexivity
  end.
Ltac wire_plain := repeat first [apply plain_member; [reflexivity|wire_prints|] | apply plain_unless; [reflexivity|wire_prints|]]; try reflexivity.
Ltac wire_steps norm := cbn [decodeStruct app]; norm; repeat (decode_step ltac:(idtac; wire_sets); norm).
Ltac wire_solve norm :=
  split;
  [ split; [done|]; apply plain_object; [lia|]; cbn [app]; wire_plain
  | wire_steps norm; reflexivity ].

(** The projections of each record, so that the accumulated value stays small. *)
Ltac backup_norm := cbn [Backup.ID Backup.CreatedAt Backup.Source zeroBackup].
Ltac policy_norm :=
  cbn [BackupPolicy.Enabled BackupPolicy.IntervalHours BackupPolicy.Retention BackupPolicy.NextRunAt BackupPolicy.LastAttemptAt
       BackupPolicy.LastSuccessAt BackupPolicy.LastError BackupPolicyJSON.zero].
Ltac operation_norm :=
  cbn [Operation.ID Operation.Kind Operation.State Operation.Error Operation.Backup Operation.StartedAt Operation.FinishedAt
       Operation.AdmissionRejected OperationJSON.zero].
Ltac plan_norm :=
  cbn [Resources.MemoryMB Resources.CPUs zeroResources ResourcePlan.ID ResourcePlan.Name ResourcePlan.Resources zeroPlan].

#[export] Instance backup_wire : Wire 1 backupFields zeroBackup backupJSON backupOK.
Proof.
  intros [i c s] v d [Hi Hs]%andb_prop He [Hd0 Hd]. unfold backupJSON in He. cbn [Backup.ID Backup.CreatedAt Backup.Source] in *.
  enc_inv He. destruct (timeJSON_reads _ _ (d + 1) E) as [Hp Hset]. rewrite (members_end (unless _ _ _)).
  wire_solve backup_norm.
Qed.

(** ** Backup policies *)
Definition policyOK (p : BackupPolicy.t) : bool :=
  intOK (BackupPolicy.IntervalHours p) && intOK (BackupPolicy.Retention p) && validUTF8 (BackupPolicy.LastError p).

#[export] Instance policy_wire : Wire 1 BackupPolicyJSON.fields BackupPolicyJSON.zero BackupPolicyJSON.toJSON policyOK.
Proof.
  intros [e i r n a s l] v d Hok He [Hd0 Hd]. unfold policyOK in Hok. unfold BackupPolicyJSON.toJSON in He.
  cbn [BackupPolicy.Enabled BackupPolicy.IntervalHours BackupPolicy.Retention BackupPolicy.NextRunAt BackupPolicy.LastAttemptAt
       BackupPolicy.LastSuccessAt BackupPolicy.LastError] in *. bool_solve. enc_inv He.
  destruct (timeJSON_reads _ _ (d + 1) E) as [Hp Hset]. destruct (timeJSON_reads _ _ (d + 1) E0) as [Hp0 Hset0].
  destruct (timeJSON_reads _ _ (d + 1) E1) as [Hp1 Hset1]. rewrite (members_end (unless (empty l) _ _)).
  wire_solve policy_norm.
Qed.

(** ** Operations *)
Definition operationOK (o : Operation.t) : bool :=
  forallb validUTF8 [Operation.ID o; Operation.Kind o; Operation.State o; Operation.Error o] &&
  match Operation.Backup o with Some b => backupOK b | None => true end.

#[export] Instance operation_wire : Wire 2 OperationJSON.fields OperationJSON.zero OperationJSON.toJSON operationOK.
Proof.
  intros [i k st sa fa er b ad] v d Hok He [Hd0 Hd]. unfold operationOK in Hok. unfold OperationJSON.toJSON in He.
  cbn [Operation.ID Operation.Kind Operation.State Operation.Error Operation.Backup Operation.StartedAt Operation.FinishedAt
       Operation.AdmissionRejected forallb] in *. bool_solve. enc_inv He.
  destruct (timeJSON_reads _ _ (d + 1) E) as [Hp Hset]. destruct (timeJSON_reads _ _ (d + 1) E0) as [Hp0 Hset0].
  rewrite (members_end (unless (negb ad) _ _)).
  destruct b as [b|]; cbn [OperationJSON.backupMember] in E1.
  - apply bind_Ok in E1 as (vb&Eb&[= <-]).
    edestruct (pointer_reads Operation.Backup (fun v o => Operation.mk (Operation.ID o) (Operation.Kind o) (Operation.State o)
      (Operation.StartedAt o) (Operation.FinishedAt o) (Operation.Error o) v (Operation.AdmissionRejected o)) b vb (d + 1))
      as [Hp1 Hset1]; [done|done|unfold roomFor; lia|]. wire_solve operation_norm.
  - injection E1 as <-. wire_solve operation_norm.
Qed.

(** ** Resources and plans *)
Definition resourcesOK (r : Resources.t) : bool := intOK (Resources.MemoryMB r) && floatReads (Resources.CPUs r).

#[export] Instance resources_wire : Wire 1 resourcesFields zeroResources resourcesJSON resourcesOK.
Proof.
  intros [m c] v d [Hm Hc]%andb_prop He [Hd0 Hd]. unfold resourcesJSON in He. cbn [Resources.MemoryMB Resources.CPUs] in *.
  enc_inv He. destruct (floatJSON_reads _ _ (d + 1) Hc E) as [Hp Hset]. wire_solve plan_norm.
Qed.

Definition planOK (p : ResourcePlan.t) : bool :=
  validUTF8 (ResourcePlan.ID p) && validUTF8 (ResourcePlan.Name p) && resourcesOK (ResourcePlan.Resources p).

#[export] Instance plan_wire : Wire 2 planFields zeroPlan planJSON planOK.
Proof.
  intros [i n r] v d [[Hi Hn]%andb_prop Hr]%andb_prop He [Hd0 Hd]. unfold planJSON in He.
  cbn [ResourcePlan.ID ResourcePlan.Name ResourcePlan.Resources] in *. enc_inv He.
  edestruct (nested_reads ResourcePlan.Resources (fun v p => ResourcePlan.mk (ResourcePlan.ID p) (ResourcePlan.Name p) v) r v0 (d + 1))
    as [Hp Hset]; [done|done|unfold roomFor; lia|]. wire_solve plan_norm.
Qed.

(** ** Sites *)
Definition siteOK (s : Site.t) : bool :=
  forallb validUTF8 [Site.ID s; Site.Domain s; Site.Title s; Site.AdminEmail s; Site.Status s; Site.Error s; Site.HealthError s] &&
  intOK (Site.MemoryMB s) && floatReads (Site.CPUs s) && negb (bool_decide (Site.CPUs s = S754_zero true)) &&
  forallb backupOK (Site.Backups s) && policyOK (Site.BackupPolicy s) &&
  match Site.Operation s with Some o => operationOK o | None => true end.

Lemma zero_float c : bool_decide (c = S754_zero true) = false -> isZeroFloat c = true -> c = S754_zero false.
Proof. intros Hc%bool_decide_eq_false. destruct c as [[]| | |]; done. Qed.

Lemma nil_of {A} (l : list A) : Nat.eqb (length l) 0 = true -> l = [].
Proof. by destruct l. Qed.

Ltac omitted ::=
  let H := fresh in intros H; cbn in H;
  first [apply String.eqb_eq in H as -> | apply Z.eqb_eq in H as -> | apply negb_true_iff in H as ->
        | apply zero_float in H as ->; [|assumption] | apply nil_of in H as -> | idtac]; reflexivity.

(** The facts about a pointer member, whether there is one or not. *)
Lemma operationMember_reads o l d :
  match o with Some o => operationOK o | None => true end = true -> SiteJSON.operationMember o = Ok l -> roomFor 2 d ->
  forall rest, (plainMembers d rest = true -> plainMembers d (l ++ rest)%list = true) /\
  forall T strict (F : list (string * setter T)) (get : T -> option Operation.t) put acc r,
    fieldOf F "operation" = Some (setPointer OperationJSON.fields OperationJSON.zero get put) ->
    get acc = None -> put None acc = acc ->
    decodeFields strict F rest (put o acc) = r -> decodeFields strict F (l ++ rest)%list acc = r.
Proof.
  intros Ho He Hd rest. destruct o as [o|]; cbn [SiteJSON.operationMember] in He.
  - apply bind_Ok in He as (v&Ev&[= <-]). split.
    + intros Hr. apply plain_member; [done| |done]. by destruct (wire o v d Ho Ev Hd) as [[_ ?] _].
    + intros T strict F get put acc r Hf Hg _ Hr. cbn [app]. eapply decode_member; [exact Hf| |exact Hr].
      destruct (pointer_reads get put o v d Ho Ev Hd) as [_ Hs]. by apply Hs.
  - injection He as <-. split; [done|]. intros T strict F get put acc r _ _ Hz <-. by rewrite Hz.
Qed.

Ltac site_norm :=
  cbn [Site.ID Site.Domain Site.Title Site.AdminEmail Site.MemoryMB Site.CPUs Site.Status Site.Error Site.CreatedAt Site.Backups
       Site.BackupPolicy Site.MailEnabled Site.Operation Site.HealthError Site.HealthCheckedAt SiteJSON.zero].

#[export] Instance site_wire : Wire 3 SiteJSON.fields SiteJSON.zero SiteJSON.toJSON siteOK.
Proof.
  intros [i dm ti ae mm cp st er ca ba bp me op he hc] v d Hok He [Hd0 Hd]. unfold siteOK in Hok. unfold SiteJSON.toJSON in He.
  cbn [Site.ID Site.Domain Site.Title Site.AdminEmail Site.MemoryMB Site.CPUs Site.Status Site.Error Site.CreatedAt Site.Backups
       Site.BackupPolicy Site.MailEnabled Site.Operation Site.HealthError Site.HealthCheckedAt forallb] in *.
  apply andb_prop in Hok as [Hok Hop]. apply andb_prop in Hok as [Hok Hbp]. apply andb_prop in Hok as [Hok Hba].
  apply andb_prop in Hok as [Hok Hz]. bool_solve. enc_inv He.
  destruct (floatJSON_reads _ _ (d + 1) ltac:(eassumption) E) as [Hp Hset].
  destruct (timeJSON_reads _ _ (d + 1) E0) as [Hp0 Hset0]. destruct (timeJSON_reads _ _ (d + 1) E4) as [Hp4 Hset4].
  edestruct (structs_reads (T := Site.t) (fun v s => Site.mk (Site.ID s) (Site.Domain s) (Site.Title s) (Site.AdminEmail s) (Site.MemoryMB s) (Site.CPUs s) (Site.Status s) (Site.Error s) (Site.CreatedAt s) v (Site.BackupPolicy s) (Site.MailEnabled s) (Site.Operation s) (Site.HealthError s) (Site.HealthCheckedAt s)) ba _ (d + 1) Hba E1)
    as [Hp1 Hset1]; [split; lia|lia|].
  edestruct (nested_reads Site.BackupPolicy (fun v s => Site.mk (Site.ID s) (Site.Domain s) (Site.Title s) (Site.AdminEmail s) (Site.MemoryMB s) (Site.CPUs s) (Site.Status s) (Site.Error s) (Site.CreatedAt s) (Site.Backups s) v (Site.MailEnabled s) (Site.Operation s) (Site.HealthError s) (Site.HealthCheckedAt s)) bp _ (d + 1) Hbp E2)
    as [Hp2 Hset2]; [split; lia|].
  pose proof (operationMember_reads op _ (d + 1) Hop E3 ltac:(split; lia)) as Hop'.
  split.
  - split; [done|]. apply plain_object; [lia|]. cbn [app]. wire_plain. apply Hop'. wire_plain.
  - wire_steps site_norm. eapply Hop'; [reflexivity..|]. wire_steps site_norm. reflexivity.
Qed.

(** ** Records with text that is not UTF-8

    Such a record is written too; what is read back is the record with U+FFFD
    for the bytes that are no text. *)
Definition validBackup (b : Backup.t) : Backup.t := Backup.mk (toValid (Backup.ID b)) (Backup.CreatedAt b) (toValid (Backup.Source b)).
Definition validPolicy (p : BackupPolicy.t) : BackupPolicy.t :=
  BackupPolicy.mk (BackupPolicy.Enabled p) (BackupPolicy.IntervalHours p) (BackupPolicy.Retention p) (BackupPolicy.NextRunAt p)
    (BackupPolicy.LastAttemptAt p) (BackupPolicy.LastSuccessAt p) (toValid (BackupPolicy.LastError p)).
Definition validOperation (o : Operation.t) : Operation.t :=
  Operation.mk (toValid (Operation.ID o)) (toValid (Operation.Kind o)) (toValid (Operation.State o)) (Operation.StartedAt o) (Operation.FinishedAt o)
    (toValid (Operation.Error o)) (validBackup <$> Operation.Backup o) (Operation.AdmissionRejected o).
Definition validSite (s : Site.t) : Site.t :=
  Site.mk (toValid (Site.ID s)) (toValid (Site.Domain s)) (toValid (Site.Title s)) (toValid (Site.AdminEmail s)) (Site.MemoryMB s) (Site.CPUs s)
    (toValid (Site.Status s)) (toValid (Site.Error s)) (Site.CreatedAt s) (map validBackup (Site.Backups s)) (validPolicy (Site.BackupPolicy s))
    (Site.MailEnabled s) (validOperation <$> Site.Operation s) (toValid (Site.HealthError s)) (Site.HealthCheckedAt s).

(** The encoder writes the same for both, up to the text. *)
Definition writesValid {A} (enc : A -> result json) (fix_ : A -> A) : Prop :=
  forall a v, enc a = Ok v -> enc (fix_ a) = Ok (toValidJSON v).

Lemma timeJSON_valid t v : timeJSON t = Ok v -> toValidJSON v = v.
Proof. intros Ht. destruct (timeJSON_reads t v 0 Ht) as [Hv _]. by apply (plain_printable v 0). Qed.
Lemma floatJSON_valid x v : floatJSON x = Ok v -> toValidJSON v = v.
Proof. unfold floatJSON. by destruct (floatText x); intros [= <-]. Qed.

Definition validMembers : list (string * json) -> list (string * json) := map (fun kv => (toValid kv.1, toValidJSON kv.2)).
Lemma validMembers_app l1 l2 : validMembers (l1 ++ l2) = (validMembers l1 ++ validMembers l2)%list.
Proof. apply map_app. Qed.
Lemma validMembers_cons k v l : toValid k = k -> validMembers ((k, v) :: l) = (k, toValidJSON v) :: validMembers l.
Proof. intros Hk. unfold validMembers. cbn [map fst snd]. by rewrite Hk. Qed.
Lemma validMembers_unless omit k v : toValid k = k -> validMembers (unless omit k v) = unless omit k (toValidJSON v).
Proof. intros Hk. unfold unless, validMembers. destruct omit; [done|]. cbn [map fst snd]. by rewrite Hk. Qed.
Lemma empty_toValid s : empty (toValid s) = empty s.
Proof. apply toValid_empty. Qed.

(** Both encodings of a record, member by member. *)
Ltac valid_members :=
  repeat match goal with
  | H : timeJSON _ = Ok ?v |- _ => rewrite ?(timeJSON_valid _ _ H); clear H
  | H : floatJSON _ = Ok ?v |- _ => rewrite ?(floatJSON_valid _ _ H); clear H
  end; rewrite ?empty_toValid; reflexivity.
Ltac valid_record :=
  cbn [toValidJSON]; fold validMembers;
  repeat first [rewrite validMembers_app | rewrite validMembers_unless by reflexivity | rewrite validMembers_cons by reflexivity];
  cbn [toValidJSON].

Lemma backup_writesValid : writesValid backupJSON validBackup.
Proof.
  intros [i c x] v He. unfold backupJSON, validBackup in *. cbn [Backup.ID Backup.CreatedAt Backup.Source] in *. enc_inv He.
  rewrite E. cbn [mbind result_bind]. do 2 f_equal. valid_record. valid_members.
Qed.

Lemma policy_writesValid : writesValid BackupPolicyJSON.toJSON validPolicy.
Proof.
  intros [e i r n a s l] v He. unfold BackupPolicyJSON.toJSON, validPolicy in *. cbn [BackupPolicy.Enabled BackupPolicy.IntervalHours
    BackupPolicy.Retention BackupPolicy.NextRunAt BackupPolicy.LastAttemptAt BackupPolicy.LastSuccessAt BackupPolicy.LastError] in *. enc_inv He.
  rewrite E, E0, E1. cbn [mbind result_bind]. do 2 f_equal. valid_record. valid_members.
Qed.

Lemma operation_writesValid : writesValid OperationJSON.toJSON validOperation.
Proof.
  intros [i k st sa fa er b ad] v He. unfold OperationJSON.toJSON, validOperation in *. cbn [Operation.ID Operation.Kind Operation.State
    Operation.Error Operation.Backup Operation.StartedAt Operation.FinishedAt Operation.AdmissionRejected] in *. enc_inv He.
  rewrite E, E0. cbn [mbind result_bind].
  assert (OperationJSON.backupMember (validBackup <$> b) = Ok (validMembers v2)) as ->.
  { destruct b as [b|]; cbn [OperationJSON.backupMember option_fmap option_map fmap] in *; [|by injection E1 as <-].
    apply bind_Ok in E1 as (vb&Eb&[= <-]). by rewrite (backup_writesValid _ _ Eb). }
  cbn [mbind result_bind]. do 2 f_equal. valid_record. valid_members.
Qed.

Lemma structs_writesValid {A} (enc : A -> result json) fix_ l v :
  writesValid enc fix_ -> structsJSON enc l = Ok v -> structsJSON enc (map fix_ l) = Ok (toValidJSON v).
Proof.
  intros Hf. unfold structsJSON. intros He. apply bind_Ok in He as (vs&He&[= <-]).
  assert (foldr (fun a acc => v ← enc a; vs ← acc; Ok (v :: vs)) (Ok []) (map fix_ l) = Ok (map toValidJSON vs)) as ->; [|done].
  revert vs He. induction l as [|a l IH]; intros vs He; cbn [foldr map] in *; [by injection He as <-|]. enc_inv He.
  by rewrite (Hf _ _ E), (IH _ E0).
Qed.

Lemma site_writesValid : writesValid SiteJSON.toJSON validSite.
Proof.
  intros [i dm ti ae mm cp st er ca ba bp me op he hc] v He. unfold SiteJSON.toJSON, validSite in *.
  cbn [Site.ID Site.Domain Site.Title Site.AdminEmail Site.MemoryMB Site.CPUs Site.Status Site.Error Site.CreatedAt Site.Backups
       Site.BackupPolicy Site.MailEnabled Site.Operation Site.HealthError Site.HealthCheckedAt] in *. enc_inv He.
  rewrite E, E0, (structs_writesValid _ _ _ _ backup_writesValid E1), (policy_writesValid _ _ E2). cbn [mbind result_bind].
  assert (SiteJSON.operationMember (validOperation <$> op) = Ok (validMembers v4)) as ->.
  { destruct op as [o|]; cbn [SiteJSON.operationMember option_fmap option_map fmap] in *; [|by injection E3 as <-].
    apply bind_Ok in E3 as (vo&Eo&[= <-]). by rewrite (operation_writesValid _ _ Eo). }
  rewrite E4. cbn [mbind result_bind]. do 2 f_equal. valid_record. rewrite length_map. valid_members.
Qed.

(** ** Stored records

    The codec of a record with the wire contract, compact or indented. *)
Section codec.
Context {A : Type} {n : Z} {fields : list (string * setter A)} {zero : A} {enc : A -> result json} {ok : A -> bool}.
Context `{!Wire n fields zero enc ok}.
Definition decodeText (s : string) : result A := v ← parseJSON s; decodeStruct false fields v zero.

Lemma decodeText_print (print : json -> string) a v :
  (forall v, plainValue 0 v = true -> parseJSON (print v) = Ok v) -> n <= maxDepth ->
  ok a = true -> enc a = Ok v -> decodeText (print v) = Ok a.
Proof.
  intros Hp Hn Ho He. destruct (wire a v 0 Ho He ltac:(split; lia)) as [[_ Hv] Hs]. unfold decodeText. by rewrite Hp, <- Hs.
Qed.

Lemma codec_law (print : json -> string) a s :
  (forall v, plainValue 0 v = true -> parseJSON (print v) = Ok v) -> n <= maxDepth ->
  ok a = true -> (v ← enc a; Ok (print v)) = Ok s -> decodeText s = Ok a.
Proof. intros Hp Hn Ho He. apply bind_Ok in He as (v&Hv&[= <-]). by apply decodeText_print. Qed.
End codec.

#[export, refine] Instance operation_codec : Codec Operation.t := {|
  marshal o := v ← OperationJSON.toJSON o; Ok (printJSON v);
  unmarshal s := v ← parseJSON s; decodeStruct false OperationJSON.fields v OperationJSON.zero;
  clean := operationOK;
|}.
Proof. intros o s. apply (codec_law printJSON); [apply parse_print|done]. Defined.

(** ** Requests: what the panel sends, the worker decodes *)
Ltac request_norm :=
  cbn [CreateRequest.Site CreateRequest.DBPassword CreateRequest.AdminPassword BackupRequest.Site BackupRequest.BackupID
       RestoreRequest.Site RestoreRequest.BackupID RestoreRequest.SafetyBackupID UpdateRequest.Site ResourceRequest.Site
       ResourceRequest.Resources DeleteBackupRequest.SiteID DeleteBackupRequest.BackupID FileRequest.SiteID FileRequest.Path
       FileRequest.Destination FileRequest.Content zeroFileRequest SiteRuntime.Status SiteRuntime.Detail SiteRuntime.Operation
       SiteRuntime.Resources zeroRuntime fst snd].

(** The site of a request. *)
Ltac nested_site Ho E get put :=
  let Hp := fresh "Hp" in let Hset := fresh "Hset" in
  match type of E with SiteJSON.toJSON ?s = Ok ?v =>
    match goal with d : Z |- _ =>
      destruct (nested_reads get put s v (d + 1) Ho E ltac:(split; lia)) as [Hp Hset]
    end
  end.

Definition createOK (r : CreateRequest.t) : bool :=
  siteOK (CreateRequest.Site r) && validUTF8 (CreateRequest.DBPassword r) && validUTF8 (CreateRequest.AdminPassword r).
#[export] Instance create_wire : Wire 4 createFields (CreateRequest.mk SiteJSON.zero "" "") createJSON createOK.
Proof.
  intros [s x y] v d [[Hs Hx]%andb_prop Hy]%andb_prop He [Hd0 Hd]. unfold createJSON in He. request_norm. cbn in Hs, Hx, Hy, He.
  enc_inv He. nested_site Hs E CreateRequest.Site (fun v r => CreateRequest.mk v (CreateRequest.DBPassword r) (CreateRequest.AdminPassword r)).
  wire_solve request_norm.
Qed.

Definition backupRequestOK (r : BackupRequest.t) : bool := siteOK (BackupRequest.Site r) && validUTF8 (BackupRequest.BackupID r).
#[export] Instance backup_request_wire :
  Wire 4 backupRequestFields (BackupRequest.mk SiteJSON.zero "") backupRequestJSON backupRequestOK.
Proof.
  intros [s x] v d [Hs Hx]%andb_prop He [Hd0 Hd]. unfold backupRequestJSON in He. cbn in Hs, Hx, He.
  enc_inv He. nested_site Hs E BackupRequest.Site (fun v r => BackupRequest.mk v (BackupRequest.BackupID r)).
  wire_solve request_norm.
Qed.

Definition restoreOK (r : RestoreRequest.t) : bool :=
  siteOK (RestoreRequest.Site r) && validUTF8 (RestoreRequest.BackupID r) && validUTF8 (RestoreRequest.SafetyBackupID r).
#[export] Instance restore_wire : Wire 4 restoreFields (RestoreRequest.mk SiteJSON.zero "" "") restoreJSON restoreOK.
Proof.
  intros [s x y] v d [[Hs Hx]%andb_prop Hy]%andb_prop He [Hd0 Hd]. unfold restoreJSON in He. cbn in Hs, Hx, Hy, He.
  enc_inv He. nested_site Hs E RestoreRequest.Site (fun v r => RestoreRequest.mk v (RestoreRequest.BackupID r) (RestoreRequest.SafetyBackupID r)).
  wire_solve request_norm.
Qed.

#[export] Instance update_wire :
  Wire 4 updateFields (UpdateRequest.mk SiteJSON.zero) updateJSON (fun r => siteOK (UpdateRequest.Site r)).
Proof.
  intros [s] v d Hs He [Hd0 Hd]. unfold updateJSON in He. cbn in Hs, He.
  enc_inv He. nested_site Hs E UpdateRequest.Site (fun v (_ : UpdateRequest.t) => UpdateRequest.mk v). wire_solve request_norm.
Qed.

Definition resourceRequestOK (r : ResourceRequest.t) : bool := siteOK (ResourceRequest.Site r) && resourcesOK (ResourceRequest.Resources r).
#[export] Instance resource_request_wire :
  Wire 4 resourceRequestFields (ResourceRequest.mk SiteJSON.zero zeroResources) resourceRequestJSON resourceRequestOK.
Proof.
  intros [s x] v d [Hs Hx]%andb_prop He [Hd0 Hd]. unfold resourceRequestJSON in He. cbn in Hs, Hx, He.
  enc_inv He. nested_site Hs E ResourceRequest.Site (fun v r => ResourceRequest.mk v (ResourceRequest.Resources r)).
  destruct (nested_reads ResourceRequest.Resources (fun v r => ResourceRequest.mk (ResourceRequest.Site r) v) x v1 (d + 1) Hx E0 ltac:(split; lia))
    as [Hp1 Hset1]. wire_solve request_norm.
Qed.

#[export] Instance delete_backup_wire :
  Wire 1 deleteBackupFields (DeleteBackupRequest.mk "" "") (fun r => Ok (deleteBackupJSON r))
    (fun r => validUTF8 (DeleteBackupRequest.SiteID r) && validUTF8 (DeleteBackupRequest.BackupID r)).
Proof.
  intros [s x] v d [Hs Hx]%andb_prop [= <-] [Hd0 Hd]. cbn in Hs, Hx. unfold deleteBackupJSON. request_norm. wire_solve request_norm.
Qed.

(** File contents are arbitrary bytes. *)
Definition fileRequestOK (r : FileRequest.t) : bool :=
  validUTF8 (FileRequest.SiteID r) && validUTF8 (FileRequest.Path r) && validUTF8 (FileRequest.Destination r).
#[export] Instance file_request_wire :
  Wire 1 fileRequestFields zeroFileRequest (fun r => Ok (fileRequestJSON r)) fileRequestOK.
Proof.
  intros [s p q c] v d [[Hs Hp]%andb_prop Hq]%andb_prop [= <-] [Hd0 Hd]. cbn in Hs, Hp, Hq. unfold fileRequestJSON. request_norm.
  destruct (bytesJSON_reads (fun v r => FileRequest.mk (FileRequest.SiteID r) (FileRequest.Path r) (FileRequest.Destination r) v)
    c (FileRequest.mk s p q "") (d + 1)) as [Hpc Hsc].
  rewrite (members_end (unless (empty c) _ _)). split.
  - split; [done|]. apply plain_object; [lia|]. cbn [app]. wire_plain.
  - wire_steps request_norm. eapply decode_unless; [find_setter|intros _; exact Hsc|omitted|reflexivity].
Qed.

#[export] Instance runtime_request_wire : Wire 1 runtimeRequestFields "" (fun id => Ok (runtimeRequestJSON id)) validUTF8.
Proof. intros s v d Hs [= <-] [Hd0 Hd]. unfold runtimeRequestJSON. wire_solve request_norm. Qed.

#[export] Instance site_ids_wire : Wire 2 siteIDsFields [] (fun ids => Ok (siteIDsJSON ids)) (forallb validUTF8).
Proof.
  intros l v d Hl [= <-] [Hd0 Hd]. unfold siteIDsJSON. split.
  - split; [done|]. apply plain_object; [lia|]. apply plain_member; [done| |done]. cbn [plainValue].
    rewrite (proj2 (Z.leb_gt maxDepth (d + 1))) by lia. cbn [negb andb].
    rewrite forallb_forall in *. intros x (y&<-&Hy)%in_map_iff. by apply Hl.
  - cbn [decodeStruct]. eapply decode_member; [find_setter| |reflexivity]. cbn [setSlice].
    assert (decodeElements (setString (fun v _ => v)) "" (map JStr l) = Ok l) as ->; [|done].
    clear. induction l as [|x l IH]; [done|]. cbn [map decodeElements setString]. by rewrite IH.
Qed.

(** ** The runtime answer *)
Definition runtimeOK (r : SiteRuntime.t) : bool :=
  validUTF8 (SiteRuntime.Status r) && validUTF8 (SiteRuntime.Detail r) &&
  match SiteRuntime.Operation r with Some o => operationOK o | None => true end &&
  match SiteRuntime.Resources r with Some x => resourcesOK x | None => true end.
#[export] Instance runtime_wire : Wire 3 runtimeFields zeroRuntime runtimeJSON runtimeOK.
Proof.
  intros [s t o x] v d [[[Hs Ht]%andb_prop Ho]%andb_prop Hx]%andb_prop He [Hd0 Hd]. unfold runtimeJSON in He.
  cbn [SiteRuntime.Status SiteRuntime.Detail SiteRuntime.Operation SiteRuntime.Resources] in *. enc_inv He.
  pose proof (operationMember_reads o _ (d + 1) Ho E ltac:(split; lia)) as Hop.
  destruct x as [x|]; cbn [resourcesMember] in E0.
  - apply bind_Ok in E0 as (vx&Ex&[= <-]).
    destruct (pointer_reads SiteRuntime.Resources (fun v r => SiteRuntime.mk (SiteRuntime.Status r) (SiteRuntime.Detail r)
      (SiteRuntime.Operation r) v) x vx (d + 1) Hx Ex ltac:(split; lia)) as [Hp1 Hset1].
    split.
    + split; [done|]. apply plain_object; [lia|]. cbn [app]. wire_plain. apply Hop. wire_plain.
    + wire_steps request_norm. eapply Hop; [reflexivity..|]. wire_steps request_norm. reflexivity.
  - injection E0 as <-. split.
    + split; [done|]. apply plain_object; [lia|]. cbn [app]. wire_plain. by apply Hop.
    + wire_steps request_norm. eapply Hop; [reflexivity..|]. reflexivity.
Qed.
