(* ===== verification/Policy.v ===== *)
(** * Policy: package [internal/securitypolicy]

    [Active] decides from Docker's report whether a container runs under the
    writer profile.  The embedded profile [writer-v1.json] is the parameter
    [profile].  Comparing the re-encoded documents is comparing the decoded
    ones: [json.Marshal] of an [any] is determined by the value, map keys
    sorted, and tells different values apart. *)
From S2P Require Import Prelude GoStrings GoFloat Json.
Set Warnings "-register-all".

(** What [json.Unmarshal] stores in an [any]; an object is its map, listed by
    key. *)
Inductive anyValue :=
| ANull
| ABool (b : bool)
| ANum (f : f64)
| AStr (s : string)
| AArr (l : list anyValue)
| AObj (l : list (string * anyValue)).

Fixpoint putKey (k : string) (v : anyValue) (l : list (string * anyValue)) : list (string * anyValue) :=
  match l with
  | [] => [(k, v)]
  | (k', v') :: l' =>
      match String.compare k k' with
      | Lt => (k, v) :: l
      | Eq => (k, v) :: l'
      | Gt => (k', v') :: putKey k v l'
      end
  end.

(** The last of duplicate keys wins; a number outside float64 is an error. *)
Fixpoint toAny (v : json) : option anyValue :=
  match v with
  | JNull => Some ANull
  | JBool b => Some (ABool b)
  | JNum t => match parseFloat t with Ok f => Some (ANum f) | Err _ => None end
  | JStr s => Some (AStr s)
  | JArr l =>
      option_map AArr
        ((fix go l := match l with
                      | [] => Some []
                      | x :: l' => match toAny x, go l' with
                                   | Some a, Some r => Some (a :: r)
                                   | _, _ => None
                                   end
                      end) l)
  | JObj l =>
      option_map AObj
        ((fix go l acc := match l with
                          | [] => Some acc
                          | (k, x) :: l' => match toAny x with
                                            | Some a => go l' (putKey k a acc)
                                            | None => None
                                            end
                          end) l [])
  end.

(** Same encoding; for numbers, same float64 (the encoder tells -0 from 0). *)
Definition sameFloat (x y : f64) : bool :=
  match x, y with
  | S754_zero s, S754_zero s' => Bool.eqb s s'
  | _, _ => feqb x y
  end.

Fixpoint sameAny (a b : anyValue) : bool :=
  match a, b with
  | ANull, ANull => true
  | ABool x, ABool y => Bool.eqb x y
  | ANum x, ANum y => sameFloat x y
  | AStr x, AStr y => String.eqb x y
  | AArr l, AArr l' =>
      (fix go l l' := match l, l' with
                      | [], [] => true
                      | x :: r, y :: r' => sameAny x y && go r r'
                      | _, _ => false
                      end) l l'
  | AObj l, AObj l' =>
      (fix go l l' := match l, l' with
                      | [], [] => true
                      | (k, x) :: r, (k', y) :: r' => String.eqb k k' && sameAny x y && go r r'
                      | _, _ => false
                      end) l l'
  | _, _ => false
  end.

Definition unmarshalAny (s : string) : option anyValue :=
  match parseJSON s with Ok v => toAny v | Err _ => None end.

Definition isNoNewPrivileges (o : string) : bool :=
  String.eqb o "no-new-privileges=true" || String.eqb o "no-new-privileges:true" ||
  String.eqb o "no-new-privileges".

Definition isSeccomp (o : string) : bool := hasPrefix o "seccomp=" || hasPrefix o "seccomp:".

Definition seccompMatches (want : anyValue) (o : string) : bool :=
  match unmarshalAny (drop 8 o) with Some got => sameAny want got | None => false end.

(** The loop over the options; [None] is the early [return false]. *)
Fixpoint activeLoop (want : anyValue) (found nnp : bool) (options : list string) : option (bool * bool) :=
  match options with
  | [] => Some (found, nnp)
  | o :: rest =>
      let nnp := nnp || isNoNewPrivileges o in
      if isSeccomp o then
        if found then None
        else if seccompMatches want o then activeLoop want true nnp rest else None
      else activeLoop want found nnp rest
  end.

Definition Active (profile : string) (options : list string) : bool :=
  match unmarshalAny profile with
  | None => false
  | Some want =>
      match activeLoop want false false options with
      | Some (found, nnp) => found && nnp
      | None => false
      end
  end.

(** ** Specification *)
Lemma activeLoop_found want nnp options :
  activeLoop want true nnp options =
  if existsb isSeccomp options then None else Some (true, nnp || existsb isNoNewPrivileges options).
Proof.
  revert nnp. induction options as [|o l IH]; intros nnp; simpl; [by rewrite orb_false_r|].
  destruct (isSeccomp o); simpl; [done|]. rewrite IH. by rewrite orb_assoc.
Qed.

(** Docker's report counts as the writer policy exactly when it lists one
    seccomp option, whose content is the embedded profile as a JSON document
    (formatting and key order aside), and no-new-privileges; a second seccomp
    option, in any position, makes the answer no. *)
Theorem Active_spec profile options :
  Active profile options = true <->
  exists want o,
    unmarshalAny profile = Some want /\ filter (fun x => isSeccomp x = true) options = [o] /\
    seccompMatches want o = true /\ existsb isNoNewPrivileges options = true.
Proof.
  unfold Active. destruct (unmarshalAny profile) as [want|]; [|split; [done|by intros (?&?&?&_)]].
  assert (forall nnp, match activeLoop want false nnp options with Some (f, n) => f && n | None => false end = true <->
    exists o, filter (fun x => isSeccomp x = true) options = [o] /\ seccompMatches want o = true /\
      nnp || existsb isNoNewPrivileges options = true) as H.
  { induction options as [|o l IH]; intros nnp; simpl; [split; [done|by intros (?&?&_)]|].
    rewrite filter_cons. destruct (isSeccomp o) eqn:Es; case_decide; try done.
    - assert (filter (fun x => isSeccomp x = true) l = [] <-> existsb isSeccomp l = false) as Hnil.
      { clear. induction l as [|x l IH]; simpl; [done|]. rewrite filter_cons.
        destruct (isSeccomp x); case_decide; simpl; done. }
      destruct (seccompMatches want o) eqn:Em.
      + rewrite activeLoop_found. destruct (existsb isSeccomp l).
        * split; [done|]. intros (o'&Ho&_). injection Ho as _ Ho%Hnil. done.
        * rewrite (proj2 Hnil) by done. simpl. rewrite orb_assoc. split; [by exists o|by intros (?&_&_&?)].
      + split; [done|]. intros (o'&Ho&Hm&_). injection Ho as -> _. congruence.
    - rewrite IH. by rewrite orb_assoc. }
  rewrite H. split.
  - intros (o&?&?&?). by exists want, o.
  - intros (want'&o&[= <-]&?&?&?). by exists o.
Qed.
