(* ===== verification/Worker.v ===== *)
(** * Worker: the base of [cmd/worker]

    The worker's immutable configuration, its paths, the durable file write
    [atomicConfig], Docker commands and the JSON readers the other components
    share.  A program of the worker is an [M wop] program over [World]. *)
From S2P Require Import Prelude GoStrings GoPath GoFloat GoRegexp Effects World Core Json.

(** The fields of the [worker] struct that never change, and the embedded
    writer profile.  [docker] is the [OCmd] operation; [storageImage] and
    [toolTimers] are in the [world]. *)
Record config := Config {
  root : string;
  backupsRoot : string;
  routes : string;
  token : string;
  panelDomain : string;
  quotaRoot : string;
  profile : string;   (** [securitypolicy.Bytes()] *)
}.

Section worker.
Context (cfg : config).

(** ** Paths: [filepath.Join] of plain elements ([pathJoin_under]) *)
Definition siteDir (id : string) : string := root cfg +/+ id.
Definition backupDir (site backup : string) : string := backupsRoot cfg +/+ site +/+ backup.
Definition composePath (id : string) : string := siteDir id +/+ "compose.yaml".

Definition composeArgs (id : string) (args : list string) : list string :=
  ["compose"; "-p"; "wph-" +:+ id; "-f"; composePath id] ++ args.

Definition databaseURL (id : string) : string :=
  let base := trimRightChar "/" (panelDomain cfg) in
  let base := if contains base "://" then base else "https://" +:+ base in
  base +:+ "/sites/" +:+ id +:+ "/database/".
End worker.

(** ** Docker *)
Definition dockerRun (args : list string) : M wop unit := _ ← perform (OCmd (CRun args)); mret tt.
Definition dockerOutput (args : list string) : M wop string := perform (OCmd (COutput args)).
Definition dockerInput (stdin : string) (args : list string) : M wop unit :=
  _ ← perform (OCmd (CInput stdin args)); mret tt.

(** ** Files *)

(** [atomicConfig]: a temporary file beside the target, synced and renamed
    over it.  The target changes in one step, the rename; the temporary file
    itself is not in the file system map.  A failure of the last two steps is
    reported although the file has been replaced. *)
Definition atomicConfig (path data : string) : M wop unit :=
  _ ← perform (OTemp (parentOf path));
  _ ← perform (OSys "chmod" path);
  _ ← perform (OSys "writetemp" path);
  _ ← perform (OSys "fsync" path);
  _ ← perform (OSys "close" path);
  _ ← perform (OWrite path data);
  _ ← perform (OSys "opendir" (parentOf path));
  perform (OSys "fsyncdir" (parentOf path)).

(** Is the error [os.ErrNotExist]? *)
Definition absent {A} (r : result A) : bool :=
  match r with Ok _ => false | Err e => isNotExist e end.

(** ** JSON readers *)

(** [readGuardJSON]: one value of at most 4096 bytes, known fields only. *)
Definition decodeOne {T} (strict : bool) (fs : list (string * setter T)) (zero : T) (extra data : string)
  : result T :=
  match nextValue data with
  | Err e => Err e
  | Ok None => Err (EMsg "EOF")
  | Ok (Some (v, rest)) =>
      t ← decodeStruct strict fs v zero;
      if String.eqb (skipWs rest) "" then Ok t else Err (EMsg extra)
  end.

Definition readGuardJSON {T} (fs : list (string * setter T)) (zero : T) (path : string) : M wop T :=
  data ← perform (ORead path);
  if 4096 <? lenZ data then fail (EMsg "oversized quota state")
  else lift (decodeOne true fs zero "extra quota state" data).

(** The values of a stream and the error that ends it, if any: the loop
    [for { err := decoder.Decode(&x); if err == io.EOF { break } ... }].
    [more] says when the loop stops without asking ([decoder.More()]). *)
Fixpoint streamF {T} (fuel : nat) (stop : string -> bool) (fs : list (string * setter T)) (zero : T) (s : string)
  : list T * option error :=
  match fuel with
  | O => ([], Some (EMsg "unreachable"))
  | S f =>
      if stop s then ([], None)
      else match nextValue s with
           | Err e => ([], Some e)
           | Ok None => ([], None)
           | Ok (Some (v, rest)) =>
               match decodeStruct false fs v zero with
               | Err e => ([], Some e)
               | Ok t => let '(ts, e) := streamF f stop fs zero rest in (t :: ts, e)
               end
           end
  end.

Definition decodeStream {T} (fs : list (string * setter T)) (zero : T) (s : string) : list T * option error :=
  streamF (S (String.length s)) (fun _ => false) fs zero s.

(** [for decoder.More()]: also stops before a closing bracket. *)
Definition decodeMore {T} (fs : list (string * setter T)) (zero : T) (s : string) : list T * option error :=
  streamF (S (String.length s))
    (fun s => match skipWs s with
              | EmptyString => true
              | String c _ => Ascii.eqb c "]" || Ascii.eqb c "}"
              end) fs zero s.

Definition streamAll {T} (r : list T * option error) : result (list T) :=
  match r.2 with None => Ok r.1 | Some e => Err e end.

(** ** containerState *)
Module containerState.
Record t := mk {
  Name : string;
  Project : string;
  Service : string;
  Status : string;
  Health : string;
  Memory : Z;
  CPUs : Z;
  Restart : string;
  SecurityOpts : list string;
}.
Definition zero : t := mk "" "" "" "" "" 0 0 "" [].
Definition fields : list (string * setter t) :=
  [("Name", setString (fun v s => mk v (Project s) (Service s) (Status s) (Health s) (Memory s) (CPUs s) (Restart s) (SecurityOpts s)));
   ("Project", setString (fun v s => mk (Name s) v (Service s) (Status s) (Health s) (Memory s) (CPUs s) (Restart s) (SecurityOpts s)));
   ("Service", setString (fun v s => mk (Name s) (Project s) v (Status s) (Health s) (Memory s) (CPUs s) (Restart s) (SecurityOpts s)));
   ("Status", setString (fun v s => mk (Name s) (Project s) (Service s) v (Health s) (Memory s) (CPUs s) (Restart s) (SecurityOpts s)));
   ("Health", setString (fun v s => mk (Name s) (Project s) (Service s) (Status s) v (Memory s) (CPUs s) (Restart s) (SecurityOpts s)));
   ("Memory", setInt64 (fun v s => mk (Name s) (Project s) (Service s) (Status s) (Health s) v (CPUs s) (Restart s) (SecurityOpts s)));
   ("CPUs", setInt64 (fun v s => mk (Name s) (Project s) (Service s) (Status s) (Health s) (Memory s) v (Restart s) (SecurityOpts s)));
   ("restart", setString (fun v s => mk (Name s) (Project s) (Service s) (Status s) (Health s) (Memory s) (CPUs s) v (SecurityOpts s)));
   ("security_opts", setSlice (setString (fun v _ => v)) ""
      (fun v s => mk (Name s) (Project s) (Service s) (Status s) (Health s) (Memory s) (CPUs s) (Restart s) (default [] v)))].
End containerState.

(** The small records Docker's [--format] templates print. *)
Module dockerItem.
Record t := mk { Name : string; Project : string; Service : string; Site : string; Role : string; State : string }.
Definition zero : t := mk "" "" "" "" "" "".
Definition fields : list (string * setter t) :=
  [("Name", setString (fun v s => mk v (Project s) (Service s) (Site s) (Role s) (State s)));
   ("Project", setString (fun v s => mk (Name s) v (Service s) (Site s) (Role s) (State s)));
   ("Service", setString (fun v s => mk (Name s) (Project s) v (Site s) (Role s) (State s)))].
Definition jobFields : list (string * setter t) :=
  fields ++ [("Site", setString (fun v s => mk (Name s) (Project s) (Service s) v (Role s) (State s)));
             ("Role", setString (fun v s => mk (Name s) (Project s) (Service s) (Site s) v (State s)))].
Definition stateFields : list (string * setter t) :=
  fields ++ [("State", setString (fun v s => mk (Name s) (Project s) (Service s) (Site s) (Role s) v))].
Definition toolFields : list (string * setter t) := firstn 2 fields.
End dockerItem.

(** ** Lemmas *)
Section facts.
Context `{Env}.

Lemma causes_docker P args : P (EvCmd (CRun args)) -> causes P (dockerRun args).
Proof. intros Hp. unfold dockerRun. causes_auto. by apply causes_cmd. Qed.

Lemma causes_output P args : P (EvCmd (COutput args)) -> causes P (dockerOutput args).
Proof. intros Hp. by apply causes_cmd. Qed.

Lemma causes_input P d args : P (EvCmd (CInput d args)) -> causes P (dockerInput d args).
Proof. intros Hp. unfold dockerInput. causes_auto. by apply causes_cmd. Qed.

Lemma causes_atomic P path data : P (EvFs (MWrite path data)) -> causes P (atomicConfig path data).
Proof. intros Hp. unfold atomicConfig. causes_auto. by apply causes_write. Qed.

(** A write that reports success has replaced the file, in one event. *)
Lemma exec_atomic_Ok path data w u w' t :
  exec (atomicConfig path data) w = (Ok u, w', t) ->
  w_fs w' = <[path := NFile data]> (w_fs w) /\ t = [EvFs (MWrite path data)].
Proof.
  unfold atomicConfig. intros Hx.
  assert (forall (o : wop (result unit)) w1 r w2 t2, quietOp o = true -> exec (perform o) w1 = (r, w2, t2) ->
            w_fs w2 = w_fs w1 /\ t2 = []) as Hq.
  { intros o w1 r w2 t2 Ho E. pose proof (causes_exec _ _ _ _ _ _ (causes_quiet (fun _ => False) o Ho) E) as Ht.
    destruct t2; [|by inversion Ht]. split; [|done]. by rewrite (exec_fs _ _ _ _ _ E). }
  do 5 (apply exec_bind_Ok in Hx as (?&?&?&?&?%Hq&Hx&->); [|done]; destruct_and!; subst).
  apply exec_bind_Ok in Hx as (?&?&?&?&Hw%exec_write_Ok&Hx&->).
  apply exec_bind_Ok in Hx as (?&?&?&?&?%Hq&?%Hq&->); [|done|done].
  destruct_and!. subst. simpl. split; congruence.
Qed.

Lemma causes_readGuard {T} P (fs : list (string * setter T)) zero path : causes P (readGuardJSON fs zero path).
Proof. unfold readGuardJSON. causes_auto. Qed.
End facts.

#[export] Hint Resolve causes_docker causes_output causes_input causes_atomic causes_readGuard : causes.

(** ** Distinct paths *)
Lemma child_inj (d a b : string) : d +/+ a = d +/+ b -> a = b.
Proof. unfold child. intros Hd. apply app_inj_l_str in Hd. by injection Hd. Qed.

(** Bytes of a path made of the elements of [l]. *)
Definition pathLength (l : list string) : nat := sum_list (map (fun x => S (String.length x)) l).

Lemma prefixesAcc_length l : forall acc q,
  q ∈ prefixesAcc acc l -> (String.length q <= String.length acc + pathLength l)%nat.
Proof.
  induction l as [|x l IH]; intros acc q Hq; [by apply not_elem_of_nil in Hq|]. cbn [prefixesAcc] in Hq.
  assert (String.length (acc +:+ "/" +:+ x) = (String.length acc + S (String.length x))%nat) as Hlen
    by (by rewrite length_app_str).
  change (pathLength (x :: l)) with (S (String.length x) + pathLength l)%nat.
  apply elem_of_cons in Hq as [->|Hq]; [rewrite Hlen; lia|].
  apply IH in Hq. rewrite Hlen in Hq. lia.
Qed.

Lemma split_length c s : pathLength (split c s) = S (String.length s).
Proof.
  unfold pathLength. induction s as [|a s IH]; [done|]. cbn [split].
  destruct (Ascii.eqb a c); [simpl; by rewrite IH|].
  pose proof (split_nonempty c s). destruct (split c s) as [|h t]; [done|]. simpl in *. lia.
Qed.

(** [os.MkdirAll p] creates nothing longer than [p]. *)
Lemma ancestors_length p q : q ∈ ancestors p -> (String.length q <= String.length p)%nat.
Proof.
  unfold ancestors. pose proof (split_length slash p). intros Hq.
  destruct (split slash p) as [|h l]; [by apply not_elem_of_nil in Hq|].
  apply prefixesAcc_length in Hq. unfold pathLength in *. simpl in *. lia.
Qed.
