(* ===== verification/QuotaState.v ===== *)
(** * QuotaState: the per-site quota records, the writer policy and the fence

    [cmd/worker/security.go], the record part of [quota_restart.go] and the
    parts of [runtime.go] that stop a site's helpers. *)
From S2P Require Import Prelude GoStrings GoPath GoRegexp GoFloat Effects World Core Compose Json Policy Worker.

Definition quotaUUID : re := exactly 32 isHexLower.

(** ** Records *)
Module quotaGuard.
Record t := mk { Version : Z; Phase : string; ProjectID : Z; HardBytes : Z; FilesystemUUID : string }.
Definition zero : t := mk 0 "" 0 0 "".
Definition fields : list (string * setter t) :=
  [("version", setInt64 (fun v g => mk v (Phase g) (ProjectID g) (HardBytes g) (FilesystemUUID g)));
   ("phase", setString (fun v g => mk (Version g) v (ProjectID g) (HardBytes g) (FilesystemUUID g)));
   ("project_id", setUint32 (fun v g => mk (Version g) (Phase g) v (HardBytes g) (FilesystemUUID g)));
   ("hard_bytes", setUint64 (fun v g => mk (Version g) (Phase g) (ProjectID g) v (FilesystemUUID g)));
   ("filesystem_uuid", setString (fun v g => mk (Version g) (Phase g) (ProjectID g) (HardBytes g) v))].
Definition toJSON (g : t) : json :=
  JObj [("version", JNum (itoa (Version g))); ("phase", JStr (Phase g)); ("project_id", JNum (itoa (ProjectID g)));
        ("hard_bytes", JNum (itoa (HardBytes g))); ("filesystem_uuid", JStr (FilesystemUUID g))].
End quotaGuard.

Module quotaIntent.
Record t := mk { Version : Z; State : string }.
Definition fields : list (string * setter t) :=
  [("version", setInt64 (fun v i => mk v (State i))); ("state", setString (fun v i => mk (Version i) v))].
Definition toJSON (i : t) : json := JObj [("version", JNum (itoa (Version i))); ("state", JStr (State i))].
End quotaIntent.

Definition validQuotaIntent (state : string) : bool :=
  String.eqb state "running" || String.eqb state "stopped" || String.eqb state "blocked" ||
  String.eqb state "maintenance".

Section quota.
Context (cfg : config) `{Unicode}.

Definition quotaPath (id : string) : string := siteDir cfg id +/+ "quota.json".
Definition planPath (id : string) : string := siteDir cfg id +/+ "quota-plan.json".
Definition intentPath (id : string) : string := siteDir cfg id +/+ "quota-intent.json".
Definition profilePath (id : string) : string := siteDir cfg id +/+ profileFilename.

(** [quotaMarked] returns a flag together with an error: [(true, err)] when
    [Lstat] fails for any reason but absence. *)
Definition quotaMarked (id : string) : M wop (bool * option error) :=
  if negb (ValidID id) then mret (false, Some (EMsg "invalid site ID"))
  else
    r ← try (perform (OStat (quotaPath id)));
    if negb (absent r) then mret (true, err_of r)
    else
      r ← try (perform (OStat (planPath id)));
      if negb (absent r) then mret (true, err_of r) else mret (false, None).

(** [marked || err != nil]. *)
Definition markedOrErr (m : bool * option error) : bool :=
  m.1 || match m.2 with Some _ => true | None => false end.

Definition loadQuotaGuard (id : string) : M wop (option quotaGuard.t) :=
  if negb (ValidID id) then fail (EMsg "invalid site ID")
  else
    r ← try (readGuardJSON quotaGuard.fields quotaGuard.zero (quotaPath id));
    if absent r then
      m ← quotaMarked id;
      if markedOrErr m then fail (EMsg "quota marker is unreadable") else mret None
    else match r with
    | Err e => fail (EWrap "invalid quota record" e)
    | Ok g =>
        if negb (quotaGuard.Version g =? 1) || negb (String.eqb (quotaGuard.Phase g) "ready") ||
           (quotaGuard.ProjectID g =? 0) || (quotaGuard.HardBytes g =? 0) ||
           negb (quotaGuard.HardBytes g mod 512 =? 0) || negb (matchString quotaUUID (quotaGuard.FilesystemUUID g))
        then fail (EMsg "quota record is incomplete or not ready")
        else mret (Some g)
    end.

Definition loadQuotaIntent (id : string) : M wop quotaIntent.t :=
  r ← try (readGuardJSON quotaIntent.fields (quotaIntent.mk 1 "stopped") (intentPath id));
  if absent r then mret (quotaIntent.mk 1 "stopped")
  else match r with
  | Err e => fail e
  | Ok i => if negb (quotaIntent.Version i =? 1) || negb (validQuotaIntent (quotaIntent.State i))
            then fail (EMsg "invalid quota startup intent") else mret i
  end.

Definition saveQuotaIntent (id state : string) : M wop unit :=
  if negb (ValidID id) || negb (validQuotaIntent state) then fail (EMsg "invalid quota intent")
  else
    let write := atomicConfig (intentPath id) (printJSON (quotaIntent.toJSON (quotaIntent.mk 1 state))) in
    current ← try (loadQuotaIntent id);
    match current with
    | Ok i =>
        if String.eqb (quotaIntent.State i) state then
          r ← try (perform (OStat (intentPath id)));
          if is_ok r then mret tt else write
        else write
    | Err _ => write
    end.

Definition setQuotaIntent (id state : string) : M wop unit :=
  m ← quotaMarked id;
  match m with
  | (_, Some e) => fail e
  | (false, None) => mret tt
  | (true, None) => saveQuotaIntent id state
  end.

(** ** The writer policy *)
Definition writeWriterProfile (id : string) : M wop string :=
  if negb (ValidID id) then fail (EMsg "invalid site ID")
  else
    let path := profilePath id in
    r ← try (perform (ORead path));
    match r with
    | Ok current => if String.eqb current (profile cfg) then mret path
                    else _ ← atomicConfig path (profile cfg); mret path
    | Err e => if isNotExist e then _ ← atomicConfig path (profile cfg); mret path else fail e
    end.

(** [writerCompose]: [writerBase], then the restart policy of a marked site. *)
Definition writerCompose (id data : string) : M wop string :=
  text ← lift (writerBase id (profilePath id) data);
  m ← quotaMarked id;
  match m with
  | (_, Some e) => fail e
  | (true, None) => lift (quotaRestartCompose text)
  | (false, None) => mret text
  end.

Definition ensureWriterPolicy (id : string) : M wop unit :=
  let path := composePath cfg id in
  data ← perform (ORead path);
  updated ← writerCompose id data;
  _ ← writeWriterProfile id;
  if String.eqb data updated then mret tt else atomicConfig path updated.

Definition isSiteDir (entry : string * bool) : bool := entry.2 && ValidID entry.1.

(** [os.ReadDir] of a directory that may be missing. *)
Definition readDirOrNone (path : string) : M wop (list (string * bool)) :=
  r ← try (perform (OReadDir path));
  if absent r then mret [] else lift r.

Definition migrateWriterPolicies : M wop unit :=
  entries ← readDirOrNone (root cfg);
  forM (filter (fun e => isSiteDir e = true) entries) tt (fun _ e =>
    _ ← try (ensureWriterPolicy e.1); mret tt).

Definition writerSecurityArgs (id : string) : M wop (list string) :=
  r ← try (writeWriterProfile id);
  match r with
  | Err e => fail (EWrap "writer profile unavailable" e)
  | Ok path => mret ["--security-opt"; "no-new-privileges:true"; "--security-opt"; "seccomp=" +:+ path]
  end.

Definition ensureQuotaRestartCompose (id : string) : M wop unit :=
  _ ← ensureWriterPolicy id;
  let path := composePath cfg id in
  data ← perform (ORead path);
  updated ← lift (quotaRestartCompose data);
  if String.eqb data updated then mret tt else atomicConfig path updated.

(** ** Containers and jobs *)
Definition inspectFormat : string :=
  raw "{`name`:{{json .Name}},`project`:{{json (index .Config.Labels `com.docker.compose.project`)}},`service`:{{json (index .Config.Labels `com.docker.compose.service`)}},`status`:{{json .State.Status}},`restart`:{{json .HostConfig.RestartPolicy.Name}},`security_opts`:{{json .HostConfig.SecurityOpt}}}".

Definition servicePrefix (service : string) : string :=
  if String.eqb service "wordpress" then "/wph-wp-" else if String.eqb service "db" then "/wph-db-"
  else if String.eqb service "phpmyadmin" then "/wph-pma-" else "".

(** Is the container one of the site's own, by project label and name? *)
Definition ownContainer (id : string) (c : containerState.t) : bool :=
  let expected := servicePrefix (containerState.Service c) in
  String.eqb (containerState.Project c) ("wph-" +:+ id) && negb (String.eqb expected "") &&
  String.eqb (containerState.Name c) (expected +:+ id).

Definition quotaContainers (id : string) : M wop (list containerState.t) :=
  out ← dockerOutput ["ps"; "-a"; "--filter"; "label=com.docker.compose.project=wph-" +:+ id; "--format"; "{{.ID}}"];
  let ids := fields out in
  if Nat.eqb (length ids) 0 then mret []
  else if 20 <? Z.of_nat (length ids) then fail (EMsg "unexpected number of quota containers")
  else
    out ← dockerOutput (["inspect"; "--format"; inspectFormat] ++ ids);
    states ← lift (streamAll (decodeStream containerState.fields containerState.zero out));
    mret (filter (fun c => ownContainer id c = true) states).

Definition jobFormat : string :=
  raw "{`name`:{{json .Names}},`project`:{{json (.Label `com.docker.compose.project`)}},`service`:{{json (.Label `com.docker.compose.service`)}},`site`:{{json (.Label `panel4wp.site`)}},`role`:{{json (.Label `panel4wp.role`)}}}".

(** The site a helper container belongs to, when its labels and name agree. *)
Definition jobOwner (job : dockerItem.t) : option string :=
  let id := if String.eqb (dockerItem.Service job) "cli" then trimPrefix (dockerItem.Project job) "wph-"
            else dockerItem.Site job in
  let owned :=
    if String.eqb (dockerItem.Service job) "cli"
    then ValidID id && String.eqb (dockerItem.Project job) ("wph-" +:+ id)
    else String.eqb (dockerItem.Role job) "job" && ValidID id && String.eqb (dockerItem.Name job) ("wph-job-" +:+ id) in
  if owned then Some id else None.

Definition wantedJob (siteID : string) (job : dockerItem.t) : bool :=
  match jobOwner job with
  | Some id => String.eqb siteID "" || String.eqb id siteID
  | None => false
  end.

Definition removeOwnedJobs (siteID : string) : M wop unit :=
  forM ["label=panel4wp.role=job"; "label=com.docker.compose.service=cli"] tt (fun _ filter =>
    out ← dockerOutput ["ps"; "-a"; "--filter"; filter; "--format"; jobFormat];
    let '(jobs, err) := decodeStream dockerItem.jobFields dockerItem.zero out in
    _ ← forM jobs tt (fun _ job =>
          if wantedJob siteID job then dockerRun ["rm"; "-f"; dockerItem.Name job] else mret tt);
    lift (of_err err)).

(** ** The fence *)
Definition mustStop (status : string) : bool :=
  String.eqb status "running" || String.eqb status "restarting" || String.eqb status "paused".

(** Pin and stop every container, collecting the failures. *)
Definition stopContainers (containers : list containerState.t) : M wop (list (option error)) :=
  forM containers [] (fun failures c =>
    let name := trimPrefix (containerState.Name c) "/" in
    r1 ← try (dockerRun ["update"; "--restart"; "no"; name]);
    r2 ← (if mustStop (containerState.Status c) then try (dockerRun ["stop"; "--time"; "20"; name])
          else mret (Ok tt));
    mret (failures ++ [err_of r1; err_of r2])%list).

Definition fenceQuotaSite (id state : string) : M wop unit :=
  intentErr ← try (saveQuotaIntent id state);
  jobsErr ← try (removeOwnedJobs id);
  containers ← try (quotaContainers id);
  match containers with
  | Err e => lift (of_err (errorsJoin [err_of intentErr; err_of jobsErr; Some e]))
  | Ok cs =>
      failures ← stopContainers cs;
      lift (of_err (errorsJoin (failures ++ [err_of intentErr; err_of jobsErr])%list))
  end.

(** The services of a project that Docker reports as this site's. *)
Definition psFormat : string :=
  raw "{`name`:{{json .Names}},`project`:{{json (.Label `com.docker.compose.project`)}},`service`:{{json (.Label `com.docker.compose.service`)}}}".

Definition isService (id service prefix : string) (s : dockerItem.t) : bool :=
  String.eqb (dockerItem.Project s) ("wph-" +:+ id) && String.eqb (dockerItem.Service s) service &&
  String.eqb (dockerItem.Name s) (prefix +:+ id).

Definition quiescedKinds : list string := ["restore"; "update"; "backup"; "prepare-restore"; "resources"].

Definition quiesceSite (id kind : string) : M wop unit :=
  m ← quotaMarked id;
  if markedOrErr m then fenceQuotaSite id "blocked"
  else
    _ ← removeOwnedJobs id;
    if negb (existsb (String.eqb kind) quiescedKinds) then mret tt
    else
      out ← dockerOutput ["ps"; "--filter"; "label=com.docker.compose.project=wph-" +:+ id; "--format"; psFormat];
      services ← lift (streamAll (decodeStream dockerItem.fields dockerItem.zero out));
      _ ← (if existsb (isService id "wordpress" "wph-wp-") services
           then dockerRun ["stop"; "--time"; "20"; "wph-wp-" +:+ id] else mret tt);
      if existsb (isService id "db" "wph-db-") services
      then dockerRun ["stop"; "--time"; "20"; "wph-db-" +:+ id] else mret tt.
End quota.

(** ** Events *)
Section events.
Context (cfg : config) `{Unicode} `{Env}.

Lemma causes_quotaMarked P id : causes P (quotaMarked cfg id).
Proof. unfold quotaMarked. causes_auto. Qed.

Lemma causes_loadQuotaGuard P id : causes P (loadQuotaGuard cfg id).
Proof. unfold loadQuotaGuard. causes_auto. apply causes_quotaMarked. Qed.

Lemma causes_loadQuotaIntent P id : causes P (loadQuotaIntent cfg id).
Proof. unfold loadQuotaIntent. causes_auto. Qed.

(** Only the intent file is written, with one of the four states. *)
Definition intentText (state : string) : string := printJSON (quotaIntent.toJSON (quotaIntent.mk 1 state)).

Lemma causes_saveQuotaIntent (P : event -> Prop) id state :
  (validQuotaIntent state = true -> P (EvFs (MWrite (intentPath cfg id) (intentText state)))) ->
  causes P (saveQuotaIntent cfg id state).
Proof.
  intros Hp. unfold saveQuotaIntent. destruct (ValidID id); cbn [negb orb]; [|causes_auto].
  destruct (validQuotaIntent state); cbn [negb orb]; [|causes_auto].
  causes_auto; first [apply causes_loadQuotaIntent|apply causes_atomic; by apply Hp].
Qed.

Lemma causes_setQuotaIntent (P : event -> Prop) id state :
  (validQuotaIntent state = true -> P (EvFs (MWrite (intentPath cfg id) (intentText state)))) ->
  causes P (setQuotaIntent cfg id state).
Proof.
  intros Hp. unfold setQuotaIntent. causes_auto; first [apply causes_quotaMarked|by apply causes_saveQuotaIntent].
Qed.

Lemma causes_writeWriterProfile (P : event -> Prop) id :
  P (EvFs (MWrite (profilePath cfg id) (profile cfg))) -> causes P (writeWriterProfile cfg id).
Proof. intros Hp. unfold writeWriterProfile. causes_auto; by apply causes_atomic. Qed.

Lemma causes_writerCompose P id data : causes P (writerCompose cfg id data).
Proof. unfold writerCompose. causes_auto. apply causes_quotaMarked. Qed.

Lemma causes_ensureWriterPolicy (P : event -> Prop) id :
  P (EvFs (MWrite (profilePath cfg id) (profile cfg))) ->
  (forall d, P (EvFs (MWrite (composePath cfg id) d))) -> causes P (ensureWriterPolicy cfg id).
Proof.
  intros Hp Hc. unfold ensureWriterPolicy. causes_auto;
    first [apply causes_writerCompose|by apply causes_writeWriterProfile|by apply causes_atomic].
Qed.

Lemma causes_ensureQuotaRestartCompose (P : event -> Prop) id :
  P (EvFs (MWrite (profilePath cfg id) (profile cfg))) ->
  (forall d, P (EvFs (MWrite (composePath cfg id) d))) -> causes P (ensureQuotaRestartCompose cfg id).
Proof.
  intros Hp Hc. unfold ensureQuotaRestartCompose. causes_auto;
    first [by apply causes_ensureWriterPolicy|by apply causes_atomic].
Qed.

Lemma causes_quotaContainers (P : event -> Prop) id :
  (forall args, P (EvCmd (COutput args))) -> causes P (quotaContainers id).
Proof. intros Hp. unfold quotaContainers. causes_auto; by apply causes_output. Qed.

Lemma causes_removeOwnedJobs (P : event -> Prop) id :
  (forall args, P (EvCmd (COutput args))) -> (forall name, P (EvCmd (CRun ["rm"; "-f"; name]))) ->
  causes P (removeOwnedJobs id).
Proof.
  intros Ho Hr. unfold removeOwnedJobs. causes_auto; first [by apply causes_output|by apply causes_docker].
Qed.
End events.

#[export] Hint Resolve causes_quotaMarked causes_loadQuotaGuard causes_loadQuotaIntent causes_writerCompose : causes.
