(* ===== verification/Storage.v ===== *)
(** * Storage: the native storage helper, [cmd/worker/storage.go]

    The helper runs in a throw-away container of the worker's own image; its
    arguments, the ownership checks before it and the decoding of its answer
    are modelled, the helper itself is a Docker command. *)
From S2P Require Import Prelude GoStrings GoPath GoRegexp GoFloat Effects World Core Json Worker.

Definition isHex (c : ascii) : bool := isHexLower c.
Definition dockerContainerID : re := Alt (exactly 12 isHex) (exactly 64 isHex).
Definition dockerImageID : re := Seq (litString "sha256:") (exactly 64 isHex).

Module storageCapability.
Definition zero : StorageCapability.t := StorageCapability.mk "" "" false false false "".
Definition fields : list (string * setter StorageCapability.t) :=
  let wp := StorageCapability.WordPressFilesystem in
  let db := StorageCapability.DatabaseFilesystem in
  let same := StorageCapability.SameFilesystem in
  let acc := StorageCapability.ProjectAccounting in
  let enf := StorageCapability.ProjectEnforcement in
  let reason := StorageCapability.Reason in
  let mk := StorageCapability.mk in
  [("wordpress_filesystem", setString (fun v c => mk v (db c) (same c) (acc c) (enf c) (reason c)));
   ("database_filesystem", setString (fun v c => mk (wp c) v (same c) (acc c) (enf c) (reason c)));
   ("same_filesystem", setBool (fun v c => mk (wp c) (db c) v (acc c) (enf c) (reason c)));
   ("project_accounting", setBool (fun v c => mk (wp c) (db c) (same c) v (enf c) (reason c)));
   ("project_enforcement", setBool (fun v c => mk (wp c) (db c) (same c) (acc c) v (reason c)));
   ("reason", setString (fun v c => mk (wp c) (db c) (same c) (acc c) (enf c) v))].
End storageCapability.

Module volume.
Record t := mk { Name : string; Driver : string; Project : string; Volume : string; Options : bool }.
Definition zero : t := mk "" "" "" "" false.
Definition fields : list (string * setter t) :=
  [("Name", setString (fun v x => mk v (Driver x) (Project x) (Volume x) (Options x)));
   ("Driver", setString (fun v x => mk (Name x) v (Project x) (Volume x) (Options x)));
   ("Project", setString (fun v x => mk (Name x) (Driver x) v (Volume x) (Options x)));
   ("Volume", setString (fun v x => mk (Name x) (Driver x) (Project x) v (Options x)));
   ("Options", setBool (fun v x => mk (Name x) (Driver x) (Project x) (Volume x) v))].
End volume.

Definition storageProbeImage : M wop string :=
  image ← get OGetImage;
  if negb (String.eqb image "") then
    if matchString dockerImageID image then mret image
    else fail (EMsg "invalid cached worker image identity")
  else
    hostname ← try (perform OHostname);
    match hostname with
    | Ok h =>
        if matchString dockerContainerID h then
          out ← dockerOutput ["inspect"; "--format"; "{{.Image}}"; h];
          let image := trimSpace out in
          if negb (matchString dockerImageID image) then fail (EMsg "invalid worker image identity")
          else _ ← get (OSetImage image); mret image
        else fail (EMsg "storage probe requires a Docker worker with its default container hostname")
    | Err _ => fail (EMsg "storage probe requires a Docker worker with its default container hostname")
    end.

Definition volumeFormat : string :=
  raw "{`name`:{{json .Name}},`driver`:{{json .Driver}},`project`:{{json (index .Labels `com.docker.compose.project`)}},`volume`:{{json (index .Labels `com.docker.compose.volume`)}},`options`:{{if .Options}}true{{else}}false{{end}}}".

Definition volumeNames : list string := ["wordpress_data"; "database_data"].

(** The two volumes Docker describes, in order, then the end of the stream. *)
Fixpoint checkVolumes (id : string) (names : list string) (data : string) : result unit :=
  match names with
  | [] => match nextValue data with
          | Ok None => Ok tt
          | _ => Err (EMsg "unexpected volume identity response")
          end
  | n :: names' =>
      match nextValue data with
      | Err e => Err e
      | Ok None => Err (EMsg "EOF")
      | Ok (Some (v, rest)) =>
          x ← decodeStruct false volume.fields v volume.zero;
          if negb (String.eqb (volume.Name x) ("wph-" +:+ id +:+ "_" +:+ n)) ||
             negb (String.eqb (volume.Project x) ("wph-" +:+ id)) || negb (String.eqb (volume.Volume x) n)
          then Err (EVolume "volume-ownership")
          else if negb (String.eqb (volume.Driver x) "local") || volume.Options x
          then Err (EVolume "volume-driver")
          else checkVolumes id names' rest
      end
  end.

Definition helperArgs (id entry : string) (tagging : bool) (mounts : list string) (image : string) : list string :=
  let mode := if tagging then "" else ",readonly" in
  (["run"; "--rm"; "--pull"; "never"; "--network"; "none"; "--read-only"; "--cap-drop"; "ALL"; "--cap-add"; "SYS_ADMIN";
    "--cap-add"; "DAC_READ_SEARCH"; "--security-opt"; "no-new-privileges:true"; "--pids-limit"; "16"; "--memory"; "32m";
    "--cpus"; "0.25"; "--entrypoint"; "/usr/local/bin/" +:+ entry;
    "--mount"; "type=volume,src=wph-" +:+ id +:+ "_wordpress_data,dst=/quota-wordpress" +:+ mode;
    "--mount"; "type=volume,src=wph-" +:+ id +:+ "_database_data,dst=/quota-database" +:+ mode] ++
   (if tagging then ["--cap-add"; "FOWNER"; "--ulimit"; "nofile=16384:16384"; "--name"; "wph-job-" +:+ id;
                     "--label"; "panel4wp.role=job"; "--label"; "panel4wp.site=" +:+ id] else []) ++
   List.concat (map (fun m => ["--mount"; m]) mounts) ++ [image])%list.

Definition runStorageHelper (id entry : string) (mounts arguments : list string) : M wop string :=
  if negb (ValidID id) then fail (EMsg "invalid site ID")
  else if negb (String.eqb entry "storage-probe") && negb (String.eqb entry "storage-authority")
  then fail (EMsg "unknown native storage helper")
  else
    let tagging := String.eqb entry "storage-authority" &&
                   match arguments with a :: _ => String.eqb a "--tag" | [] => false end in
    out ← dockerOutput (["volume"; "inspect"; "--format"; volumeFormat] ++
                        map (fun n => "wph-" +:+ id +:+ "_" +:+ n) volumeNames)%list;
    _ ← lift (checkVolumes id volumeNames out);
    image ← storageProbeImage;
    dockerOutput (helperArgs id entry tagging mounts image ++ arguments)%list.

Definition runStorageProbe (id : string) (arguments : list string) : M wop string :=
  runStorageHelper id "storage-probe" [] arguments.

Definition knownFilesystems : list string := ["xfs"; "ext4"; "btrfs"; "overlay"; "tmpfs"; "other"].
Definition unsupportedReasons : list string :=
  ["filesystem"; "different-filesystems"; "kernel"; "quota-query"; "enforcement-disabled"].

Definition decodeStorageCapability (out : string) : result StorageCapability.t :=
  r ← decodeOne true storageCapability.fields storageCapability.zero "unexpected storage capability response" out;
  if String.eqb (StorageCapability.Reason r) "supported" && negb (SupportsProjectQuotas r)
  then Err (EMsg "inconsistent storage capability response")
  else if negb (String.eqb (StorageCapability.Reason r) "supported") &&
          negb (existsb (String.eqb (StorageCapability.Reason r)) unsupportedReasons)
  then Err (EMsg "invalid storage capability response")
  else if forallb (fun fs => existsb (String.eqb fs) knownFilesystems)
            [StorageCapability.WordPressFilesystem r; StorageCapability.DatabaseFilesystem r]
  then Ok r else Err (EMsg "invalid filesystem type").

Definition storageCapabilityOf (cfg : config) (id : string) : M wop StorageCapability.t :=
  if negb (ValidID id) then fail (EMsg "invalid site ID")
  else
    _ ← perform (OStat (composePath cfg id));
    r ← try (runStorageProbe id []);
    match r with
    | Ok out => lift (decodeStorageCapability out)
    | Err e => match asVolume e with
               | Some reason => mret (StorageCapability.mk "" "" false false false reason)
               | None => fail e
               end
    end.

(** ** Events: Docker is only asked, through [Output] *)
Section events.
Context `{Env} (P : event -> Prop) (Hout : forall args, P (EvCmd (COutput args))).

Lemma causes_storageProbeImage : causes P storageProbeImage.
Proof. unfold storageProbeImage. causes_auto; by apply causes_output. Qed.

Lemma causes_runStorageHelper id entry mounts arguments : causes P (runStorageHelper id entry mounts arguments).
Proof.
  unfold runStorageHelper. causes_auto; first [by apply causes_output|apply causes_storageProbeImage].
Qed.

Lemma causes_runStorageProbe id arguments : causes P (runStorageProbe id arguments).
Proof. apply causes_runStorageHelper. Qed.
End events.
