(* ===== verification/Samples.v ===== *)
(** * Samples: a concrete environment for the witnesses

    No system call fails, the lock is free, the clock stands still and Docker
    answers by a table, so that executions evaluate. *)
From S2P Require Import Prelude GoStrings GoPath GoFloat GoTime Effects World Core CoreFacts Compose Worker.

(** [n] bytes for [crypto/rand] to draw. *)
Fixpoint filler (n : nat) : string := match n with O => "" | S n' => String "a" (filler n') end.
Lemma filler_length n : String.length (filler n) = n.
Proof. induction n as [|n IH]; simpl; [done|by rewrite IH]. Qed.

(** Injectivity of [inr], as a term. *)
Definition inr_inj {A B} (x y : B) (H : @inr A B x = inr y) : x = y := f_equal (fun s => match s with inr b => b | inl _ => x end) H.

(** The environment's state is Docker's table of answers. *)
#[export] Instance scripted : Env := {|
  env := command -> string + string;
  env_sys e _ _ := (e, None);
  env_removed _ _ := true;
  env_cmd e c := (e, e c);
  env_file e c := match e c with inl m => (e, (Some m, None)) | inr d => (e, (None, Some d)) end;
  env_rand e n := (e, inr (filler n));
  env_rand_length e n b H := eq_trans (f_equal String.length (eq_sym (inr_inj _ _ H))) (filler_length n);
  env_now e := (e, 1700000000000000000);
  env_ctx e := (e, None);
  env_flock e := (e, inr true);
  env_hostname e := (e, inr "0123456789ab");
|}.

Definition sampleConfig : config :=
  Config "/srv" "/backups" "/routes" "token" "panel.example" "/xfs" "{}".

Definition sampleID : string := "aaaaaaaaaaaaaaaa".

Definition sampleFiles (extra : list (string * node)) : fsmap :=
  list_to_map (extra ++ [("/srv", NDir); ("/srv/aaaaaaaaaaaaaaaa", NDir);
    ("/srv/aaaaaaaaaaaaaaaa/compose.yaml", NFile (renderCompose sampleID 512 (fofZ 1) "http://x/"))])%list.

Definition imageDigest : string :=
  "sha256:0123456789abcdef0123456789abcdef0123456789abcdef0123456789abcdef".

Definition sampleVolume (name vol : string) : string :=
  raw "{`name`:`" +:+ name +:+ raw "`,`driver`:`local`,`project`:`wph-aaaaaaaaaaaaaaaa`,`volume`:`" +:+ vol +:+
  raw "`,`options`:false}" +:+ NL.

(** Docker's answers: volumes, the worker's image, and [helper] for the rest. *)
Definition answers (helper : list string -> string) (c : command) : string + string :=
  match c with
  | COutput ("volume" :: _) =>
      inr (sampleVolume "wph-aaaaaaaaaaaaaaaa_wordpress_data" "wordpress_data" +:+
           sampleVolume "wph-aaaaaaaaaaaaaaaa_database_data" "database_data")
  | COutput ("inspect" :: "--format" :: "{{.Image}}" :: _) => inr (imageDigest +:+ NL)
  | COutput args => inr (helper args)
  | _ => inr ""
  end.

Definition sampleWorld (extra : list (string * node)) (helper : list string -> string) : world :=
  World _ (sampleFiles extra) (answers helper) "" ∅.
