(* ===== verification/Settings.v ===== *)
(** * Settings: the encrypted mail settings, [internal/settings/store.go]

    One file holds the mail settings under AES-256-GCM with the digest of the
    panel's key; the associated data ties the text to this format's version. *)
From S2P Require Import Prelude GoStrings Utf8Facts GoPath GoSha256 GoBase64 GoAes Effects World Core CoreFacts Json JsonFacts Worker Samples.
Set Warnings "-register-all".

Module Mail.
Record t := mk {
  Enabled : bool;
  Host : string;
  Port : Z;
  Encryption : string;
  Username : string;
  Password : string;
  FromEmail : string;
  FromName : string;
}.
Definition zero : t := mk false "" 0 "" "" "" "" "".
Definition fields : list (string * setter t) :=
  [("enabled", setBool (fun v m => mk v (Host m) (Port m) (Encryption m) (Username m) (Password m) (FromEmail m) (FromName m)));
   ("host", setString (fun v m => mk (Enabled m) v (Port m) (Encryption m) (Username m) (Password m) (FromEmail m) (FromName m)));
   ("port", setInt64 (fun v m => mk (Enabled m) (Host m) v (Encryption m) (Username m) (Password m) (FromEmail m) (FromName m)));
   ("encryption", setString (fun v m => mk (Enabled m) (Host m) (Port m) v (Username m) (Password m) (FromEmail m) (FromName m)));
   ("username", setString (fun v m => mk (Enabled m) (Host m) (Port m) (Encryption m) v (Password m) (FromEmail m) (FromName m)));
   ("password", setString (fun v m => mk (Enabled m) (Host m) (Port m) (Encryption m) (Username m) v (FromEmail m) (FromName m)));
   ("from_email", setString (fun v m => mk (Enabled m) (Host m) (Port m) (Encryption m) (Username m) (Password m) v (FromName m)));
   ("from_name", setString (fun v m => mk (Enabled m) (Host m) (Port m) (Encryption m) (Username m) (Password m) (FromEmail m) v))].
Definition toJSON (m : t) : json :=
  JObj [("enabled", JBool (Enabled m)); ("host", JStr (Host m)); ("port", JNum (itoa (Port m)));
        ("encryption", JStr (Encryption m)); ("username", JStr (Username m)); ("password", JStr (Password m));
        ("from_email", JStr (FromEmail m)); ("from_name", JStr (FromName m))].
End Mail.

Module ApplyRequest.
Record t := mk { SiteID : string; Mail : Mail.t }.
Definition zero : t := mk "" Mail.zero.
Definition fields : list (string * setter t) :=
  [("site_id", setString (fun v r => mk v (Mail r)));
   ("mail", fun v r => m ← decodeStruct false Mail.fields v (Mail r); Ok (mk (SiteID r) m))].
End ApplyRequest.

Module envelope.
Record t := mk { Version : Z; Nonce : string; Data : string }.
Definition zero : t := mk 0 "" "".
Definition fields : list (string * setter t) :=
  [("version", setInt64 (fun v e => mk v (Nonce e) (Data e)));
   ("nonce", setString (fun v e => mk (Version e) v (Data e)));
   ("data", setString (fun v e => mk (Version e) (Nonce e) v))].
Definition toJSON (e : t) : json :=
  JObj [("version", JNum (itoa (Version e))); ("nonce", JStr (Nonce e)); ("data", JStr (Data e))].
End envelope.

(** ** Validation *)
Definition hostSeparators : string := " /\" +:+ TAB +:+ CR +:+ NL +:+ NUL.
Definition lineBreaks : string := CR +:+ NL +:+ NUL.

Definition validHost (host : string) : bool :=
  negb (String.eqb host "") && (lenZ host <=? 253) && negb (containsAny host hostSeparators).
Definition validCredentials (username password : string) : bool :=
  (lenZ username <=? 254) && negb (containsAny username lineBreaks) && (lenZ password <=? 1024) &&
  negb (contains password NUL).
Definition validSender (email : string) : bool :=
  negb (String.eqb email "") && (lenZ email <=? 254) && contains email "@" &&
  negb (containsAny email (" " +:+ TAB +:+ lineBreaks)).
Definition validName (name : string) : bool :=
  negb (String.eqb (trimSpace name) "") && (runeCount name <=? 120) && negb (containsAny name lineBreaks).

Definition ValidateMail (mail : Mail.t) : result unit :=
  if negb (Mail.Enabled mail) then Ok tt
  else if negb (validHost (trimSpace (Mail.Host mail))) then Err (EMsg "invalid SMTP host")
  else if (Mail.Port mail <? 1) || (65535 <? Mail.Port mail) then Err (EMsg "invalid SMTP port")
  else if negb (existsb (String.eqb (Mail.Encryption mail)) ["none"; "starttls"; "tls"])
  then Err (EMsg "invalid SMTP encryption mode")
  else if negb (validCredentials (Mail.Username mail) (Mail.Password mail)) then Err (EMsg "invalid SMTP credentials")
  else if negb (validSender (Mail.FromEmail mail)) then Err (EMsg "invalid sender email")
  else if negb (validName (Mail.FromName mail)) then Err (EMsg "invalid sender name")
  else Ok tt.

Definition trimMail (m : Mail.t) : Mail.t :=
  Mail.mk (Mail.Enabled m) (trimSpace (Mail.Host m)) (Mail.Port m) (Mail.Encryption m) (trimSpace (Mail.Username m))
    (Mail.Password m) (trimSpace (Mail.FromEmail m)) (trimSpace (Mail.FromName m)).

(** ** The store *)
Module SettingsStore.
Record t := mk { path : string; key : string }.
End SettingsStore.

Definition newSettings (path key : string) : result SettingsStore.t :=
  if lenZ key <? 32 then Err (EMsg "settings encryption key must contain at least 32 bytes")
  else Ok (SettingsStore.mk path (Sum256 key)).

Definition additional : string := "panel4wp-settings-v1".
Definition nonceSize : nat := 12.

(** The file's text for [mail]. *)
Definition sealSettings (key nonce : string) (mail : Mail.t) : string :=
  let sealed := Seal key nonce (printJSON (Mail.toJSON mail)) additional in
  printJSON (envelope.toJSON (envelope.mk 1 (RawStdEncode nonce) (RawStdEncode sealed))).

(** The settings in a file's text.  [gcm.Open] panics on a nonce of the wrong
    length; the panic, like every failure here, loads nothing. *)
Definition openSettings (key data : string) : result Mail.t :=
  match (v ← parseJSON data; decodeStruct false envelope.fields v envelope.zero) with
  | Err _ => Err (EMsg "invalid encrypted settings")
  | Ok env =>
      if negb (envelope.Version env =? 1) then Err (EMsg "invalid encrypted settings")
      else match RawStdDecode (envelope.Nonce env), RawStdDecode (envelope.Data env) with
      | None, _ => Err (EMsg "invalid settings nonce")
      | _, None => Err (EMsg "invalid settings data")
      | Some nonce, Some sealed =>
          if negb (Nat.eqb (String.length nonce) nonceSize) then Err (EMsg "crypto/cipher: incorrect nonce length given to GCM")
          else match Open key nonce sealed additional with
          | None => Err (EMsg "unable to decrypt settings")
          | Some plain =>
              match (v ← parseJSON plain; decodeStruct false Mail.fields v Mail.zero) with
              | Ok mail => Ok mail
              | Err _ => Err (EMsg "invalid settings payload")
              end
          end
      end
  end.

Section store.
Variable store : SettingsStore.t.

Definition Save (mail : Mail.t) : M wop unit :=
  let mail := trimMail mail in
  _ ← lift (ValidateMail mail);
  nonce ← perform (ORand nonceSize);
  let path := SettingsStore.path store in
  _ ← perform (OMkdirAll (dir path));
  _ ← perform (OWrite (path +:+ ".tmp") (sealSettings (SettingsStore.key store) nonce mail));
  perform (ORename (path +:+ ".tmp") path).

Definition Load : M wop Mail.t :=
  data ← try (perform (ORead (SettingsStore.path store)));
  match data with
  | Err e => if isNotExist e then mret Mail.zero else fail e
  | Ok data => lift (openSettings (SettingsStore.key store) data)
  end.
End store.

(** ** Saved settings are read back *)

(** Mail settings in valid UTF-8: the encoder replaces any other byte. *)
Definition plainMail (m : Mail.t) : bool :=
  forallb validUTF8 [Mail.Host m; Mail.Encryption m; Mail.Username m; Mail.Password m; Mail.FromEmail m; Mail.FromName m] &&
  (0 <=? Mail.Port m) && (Mail.Port m <=? maxInt64).

Lemma decode_mail m :
  plainMail m = true -> decodeStruct false Mail.fields (Mail.toJSON m) Mail.zero = Ok m.
Proof.
  intros [[_ Hlo%Z.leb_le]%andb_prop Hhi%Z.leb_le]%andb_prop. unfold minInt64 in *. destruct m as [e h p c u w fe fn].
  unfold Mail.toJSON. decode_keys Mail.fields. cbn -[setInt64 itoa maxInt64] in *.
  rewrite setInt64_itoa by (unfold minInt64; lia). done.
Qed.

Lemma decode_envelope nonce data :
  decodeStruct false envelope.fields (envelope.toJSON (envelope.mk 1 nonce data)) envelope.zero = Ok (envelope.mk 1 nonce data).
Proof. unfold envelope.toJSON. decode_keys envelope.fields. reflexivity. Qed.

Lemma RawStdEncode_plain s : validUTF8 (RawStdEncode s) = true.
Proof. by apply validUTF8_ascii, encode64_ascii. Qed.

Lemma parse_envelope nonce data :
  validUTF8 nonce = true -> validUTF8 data = true ->
  (v ← parseJSON (printJSON (envelope.toJSON (envelope.mk 1 nonce data))); decodeStruct false envelope.fields v envelope.zero) =
  Ok (envelope.mk 1 nonce data).
Proof.
  intros Hn Hd. rewrite parse_print; [apply decode_envelope|]. cbn -[validUTF8]. by rewrite Hn, Hd.
Qed.

Lemma mail_plain m : plainMail m = true -> plainValue 0 (Mail.toJSON m) = true.
Proof.
  intros Hm. unfold plainMail in Hm. cbn [forallb] in Hm. bool_solve. unfold Mail.toJSON. cbn -[validUTF8 itoa numberText].
  rewrite numberText_itoa. repeat match goal with H : validUTF8 _ = true |- _ => rewrite H; clear H end. done.
Qed.

Lemma parse_mail m :
  plainMail m = true -> (v ← parseJSON (printJSON (Mail.toJSON m)); decodeStruct false Mail.fields v Mail.zero) = Ok m.
Proof. intros Hm. rewrite parse_print by by apply mail_plain. by apply decode_mail. Qed.

#[local] Opaque Seal Open RawStdEncode RawStdDecode printJSON parseJSON.

Lemma openSettings_sealSettings key nonce m :
  plainMail m = true -> String.length nonce = nonceSize -> openSettings key (sealSettings key nonce m) = Ok m.
Proof.
  intros Hm Hn. unfold openSettings, sealSettings. rewrite parse_envelope by apply RawStdEncode_plain.
  cbn [envelope.Version envelope.Nonce envelope.Data]. rewrite Z.eqb_refl. cbn [negb]. rewrite !RawStd_roundtrip.
  rewrite Hn, Nat.eqb_refl. cbn [negb]. by rewrite Open_Seal, parse_mail.
Qed.

Section save.
Context `{Env} (store : SettingsStore.t).

(** A file that holds [mail] under the store's key. *)
Definition holdsMail (mail : Mail.t) (fs : fsmap) : Prop :=
  exists data, fs !! SettingsStore.path store = Some (NFile data) /\ openSettings (SettingsStore.key store) data = Ok mail.

(** C36: saved mail settings are read back.  After a successful [Save] the file
    decrypts, under the same key, to the settings with their surrounding space
    removed, which passed validation; and a [Load] that can read the file at
    any later time, as long as it is not replaced, returns exactly them. *)
Theorem Save_Load mail w w' t :
  plainMail (trimMail mail) = true -> exec (Save store mail) w = (Ok tt, w', t) ->
  ValidateMail (trimMail mail) = Ok tt /\ holdsMail (trimMail mail) (w_fs w') /\
  forall w2 data w3 t2, w_fs w2 !! SettingsStore.path store = w_fs w' !! SettingsStore.path store ->
    exec (perform (ORead (SettingsStore.path store))) w2 = (Ok data, w3, t2) ->
    exec (Load store) w2 = (Ok (trimMail mail), w3, t2).
Proof.
  intros Hp Hx. unfold Save in Hx. cbv zeta in Hx. rewrite exec_lift_bind in Hx.
  destruct (ValidateMail (trimMail mail)) as [[]|e] eqn:Hv; [split; [done|]|done].
  apply exec_bind_Ok in Hx as (nonce&w1&t1&?&Hr&Hx&->). apply exec_rand_Ok in Hr as (Hn&_&_).
  apply exec_bind_Ok in Hx as (?&w2&t2&?&_&Hx&->). apply exec_bind_Ok in Hx as (?&w3&t3&?&Hw&Hx&->).
  apply exec_write_Ok in Hw as [Hw _]. apply exec_rename_Ok in Hx as [Hx _].
  rewrite Hw, lookup_insert_eq in Hx. pose proof (openSettings_sealSettings (SettingsStore.key store) nonce _ Hp Hn) as Hopen.
  split; [by exists (sealSettings (SettingsStore.key store) nonce (trimMail mail))|].
  intros u data u' t4 Hsame Hread. unfold Load. rewrite exec_bind_eq. unfold try, exec. rewrite run_bind.
  fold (exec (perform (ORead (SettingsStore.path store))) u). rewrite Hread. cbn [run]. rewrite app_nil_r.
  apply exec_read_Ok in Hread as (Hd&_&_). rewrite Hsame, Hx in Hd. injection Hd as <-. rewrite Hopen. cbn. by rewrite app_nil_r.
Qed.
End save.

Definition sampleMail : Mail.t :=
  Mail.mk true " smtp.example.com " 587 "starttls" "user" "secret" "panel@example.com" "Panel".
Definition sampleStore : SettingsStore.t := SettingsStore.mk "/srv/settings.json" (Sum256 "0123456789abcdef0123456789abcdef").

Lemma Save_Load_witness :
  let x := exec (Save sampleStore sampleMail) (sampleWorld [] (fun _ => "")) in
  x.1.1 = Ok tt /\ holdsMail sampleStore (trimMail sampleMail) (w_fs x.1.2).
Proof.
  cbv zeta. assert ((exec (Save sampleStore sampleMail) (sampleWorld [] (fun _ => ""))).1.1 = Ok tt) as Hr
    by (vm_compute; reflexivity).
  split; [exact Hr|].
  apply (Save_Load sampleStore sampleMail (sampleWorld [] (fun _ => "")) _ (exec (Save sampleStore sampleMail) (sampleWorld [] (fun _ => ""))).2).
  - vm_compute. reflexivity.
  - destruct (exec (Save sampleStore sampleMail) (sampleWorld [] (fun _ => ""))) as [[a w'] t]. simpl in *. by rewrite Hr.
Defined.
