(* ===== verification/Ledger.v ===== *)
(** * Ledger: the quota project registry, [cmd/worker/quota_registry.go]

    One ledger per installation records which site owns which project id of
    which file system.  It is written whole, under a lock, and never
    forgets a reservation. *)
From S2P Require Import Prelude GoStrings GoPath GoRegexp GoFloat Effects World Core Compose Json Policy Worker QuotaState Storage.
Set Warnings "-register-all".

Definition quotaLedgerLimit : Z := 1048576.
Definition quotaLedgerSentinel : string := "panel4wp-quota-ledger-v1" +:+ NL.

Module quotaReservation.
Record t := mk { SiteID : string; FilesystemUUID : string; ProjectID : Z }.
Definition zero : t := mk "" "" 0.
Definition fields : list (string * setter t) :=
  [("site_id", setString (fun v r => mk v (FilesystemUUID r) (ProjectID r)));
   ("filesystem_uuid", setString (fun v r => mk (SiteID r) v (ProjectID r)));
   ("project_id", setUint32 (fun v r => mk (SiteID r) (FilesystemUUID r) v))].
Definition toJSON (r : t) : json :=
  JObj [("site_id", JStr (SiteID r)); ("filesystem_uuid", JStr (FilesystemUUID r)); ("project_id", JNum (itoa (ProjectID r)))].
End quotaReservation.

(** [Reservations] distinguishes Go's nil slice. *)
Module quotaLedger.
Record t := mk { Version : Z; Reservations : option (list quotaReservation.t) }.
Definition zero : t := mk 0 None.
Definition fields : list (string * setter t) :=
  [("version", setInt64 (fun v l => mk v (Reservations l)));
   ("reservations", setSlice (decodeStruct true quotaReservation.fields) quotaReservation.zero
                      (fun v l => mk (Version l) v))].
Definition toJSON (l : t) : json :=
  JObj [("version", JNum (itoa (Version l)));
        ("reservations", match Reservations l with
                         | None => JNull
                         | Some rs => JArr (map quotaReservation.toJSON rs)
                         end)].
End quotaLedger.

Module quotaInventory.
Record t := mk {
  Verified : bool;
  Reason : string;
  FilesystemUUID : string;
  ScannedInodes : Z;
  WordPressInodes : Z;
  DatabaseInodes : Z;
  ProjectIDs : option (list Z);
}.
Definition zero : t := mk false "" "" 0 0 0 None.
Definition fields : list (string * setter t) :=
  [("verified", setBool (fun v i => mk v (Reason i) (FilesystemUUID i) (ScannedInodes i) (WordPressInodes i) (DatabaseInodes i) (ProjectIDs i)));
   ("reason", setString (fun v i => mk (Verified i) v (FilesystemUUID i) (ScannedInodes i) (WordPressInodes i) (DatabaseInodes i) (ProjectIDs i)));
   ("filesystem_uuid", setString (fun v i => mk (Verified i) (Reason i) v (ScannedInodes i) (WordPressInodes i) (DatabaseInodes i) (ProjectIDs i)));
   ("scanned_inodes", setUint64 (fun v i => mk (Verified i) (Reason i) (FilesystemUUID i) v (WordPressInodes i) (DatabaseInodes i) (ProjectIDs i)));
   ("wordpress_inodes", setUint64 (fun v i => mk (Verified i) (Reason i) (FilesystemUUID i) (ScannedInodes i) v (DatabaseInodes i) (ProjectIDs i)));
   ("database_inodes", setUint64 (fun v i => mk (Verified i) (Reason i) (FilesystemUUID i) (ScannedInodes i) (WordPressInodes i) v (ProjectIDs i)));
   ("project_ids", setSlice (setUint32 (fun v _ => v)) 0
      (fun v i => mk (Verified i) (Reason i) (FilesystemUUID i) (ScannedInodes i) (WordPressInodes i) (DatabaseInodes i) v))].
End quotaInventory.

(** ** Strict decoding *)

(** [uniqueQuotaKeys] walks the token stream of one value; on a value that
    scans, that is this walk of its tree. *)
Fixpoint uniqueQuotaKeys (depth : Z) (v : json) : result unit :=
  if 32 <? depth then Err (EMsg "quota metadata nesting limit")
  else match v with
  | JArr l =>
      (fix go l := match l with
                   | [] => Ok tt
                   | x :: l' => _ ← uniqueQuotaKeys (depth + 1) x; go l'
                   end) l
  | JObj l =>
      (fix go l (seen : list string) :=
         match l with
         | [] => Ok tt
         | (k, x) :: l' =>
             if bool_decide (k ∈ seen) then Err (EMsg "duplicate quota metadata key")
             else _ ← uniqueQuotaKeys (depth + 1) x; go l' (k :: seen)
         end) l []
  | _ => Ok tt
  end.

Definition strictQuotaJSON {T} (fs : list (string * setter T)) (zero : T) (data : string) : result T :=
  if quotaLedgerLimit <? lenZ data then Err (EMsg "quota metadata exceeds size limit")
  else match nextValue data with
  | Err e => Err e
  | Ok None => Err (EMsg "EOF")
  | Ok (Some (v, rest)) =>
      _ ← uniqueQuotaKeys 0 v;
      t ← decodeStruct true fs v zero;
      if String.eqb (skipWs rest) "" then Ok t else Err (EMsg "extra quota metadata")
  end.

(** [io.ReadAll(io.LimitReader(f, limit))]. *)
Definition readAtMost (limit : Z) (s : string) : string :=
  if lenZ s <=? limit then s else take (Z.to_nat limit) s.

(** [readQuotaMetadata]: no links, regular files only, one byte past the limit
    so that [strictQuotaJSON] refuses an oversized file. *)
Definition readQuotaMetadata (path : string) : M wop string :=
  n ← perform (OStat path);
  match n with
  | NFile _ => data ← perform (ORead path); mret (readAtMost (quotaLedgerLimit + 1) data)
  | _ => fail (EMsg "quota metadata must be a regular file")
  end.

(** ** The ledger's validity *)
Definition reservationKey (r : quotaReservation.t) : string :=
  quotaReservation.FilesystemUUID r +:+ ":" +:+ itoa (quotaReservation.ProjectID r).

Fixpoint validateEntries (ids sites : gset string) (l : list quotaReservation.t) : result unit :=
  match l with
  | [] => Ok tt
  | e :: l' =>
      let key := reservationKey e in
      if negb (ValidID (quotaReservation.SiteID e)) || negb (matchString quotaUUID (quotaReservation.FilesystemUUID e)) ||
         (quotaReservation.ProjectID e =? 0) || bool_decide (key ∈ ids) ||
         bool_decide (quotaReservation.SiteID e ∈ sites)
      then Err (EMsg "invalid or conflicting quota reservation")
      else validateEntries ({[key]} ∪ ids) ({[quotaReservation.SiteID e]} ∪ sites) l'
  end.

Definition validateQuotaLedger (l : quotaLedger.t) : result unit :=
  match quotaLedger.Reservations l with
  | Some rs =>
      if negb (quotaLedger.Version l =? 1) || (4096 <? Z.of_nat (length rs))
      then Err (EMsg "unsupported quota ledger") else validateEntries ∅ ∅ rs
  | None => Err (EMsg "unsupported quota ledger")
  end.

(** ** The census of project identifiers in use *)
Fixpoint increasing (previous : Z) (ids : list Z) : bool :=
  match ids with
  | [] => true
  | id :: ids' => negb (id =? 0) && (previous <? id) && increasing id ids'
  end.

Definition checkInventory (r : quotaInventory.t) : result quotaInventory.t :=
  let big n := (n =? 0) || (1000000 <? n) in
  match quotaInventory.ProjectIDs r with
  | None => Err (EMsg "quota ownership inventory is incomplete or unsafe")
  | Some ids =>
      if negb (quotaInventory.Verified r) || negb (String.eqb (quotaInventory.Reason r) "verified") ||
         negb (matchString quotaUUID (quotaInventory.FilesystemUUID r)) || big (quotaInventory.ScannedInodes r) ||
         big (quotaInventory.WordPressInodes r) || big (quotaInventory.DatabaseInodes r) ||
         (65536 <? Z.of_nat (length ids))
      then Err (EMsg "quota ownership inventory is incomplete or unsafe")
      else if quotaInventory.ScannedInodes r <? quotaInventory.WordPressInodes r + quotaInventory.DatabaseInodes r
      then Err (EMsg "quota inode inventory changed or overlaps")
      else if increasing 0 ids then Ok r else Err (EMsg "invalid quota census identifiers")
  end.

Definition storageInventory (id : string) : M wop quotaInventory.t :=
  out ← runStorageProbe id ["--inventory"];
  r ← lift (strictQuotaJSON quotaInventory.fields quotaInventory.zero out);
  lift (checkInventory r).

(** ** Allocation *)

(** The first free identifier from [p] on.  Each occupied identifier is passed
    at most once, so [size occupied + 1] steps are enough ([allocate_total]). *)
Fixpoint allocateF (fuel : nat) (occupied : gset Z) (p : Z) : result Z :=
  match fuel with
  | O => Err (EMsg "unreachable")
  | S f =>
      if bool_decide (p ∈ occupied) then
        if p =? maxUint32 then Err (EMsg "quota identifiers exhausted") else allocateF f occupied (p + 1)
      else Ok p
  end.
Definition allocate (occupied : gset Z) (p : Z) : result Z := allocateF (S (size occupied)) occupied p.

Definition firstProject : Z := 1000000.

Definition ofSite (id : string) (e : quotaReservation.t) : bool := String.eqb (quotaReservation.SiteID e) id.
Definition ofFilesystem (uuid : string) (e : quotaReservation.t) : bool :=
  String.eqb (quotaReservation.FilesystemUUID e) uuid.

(** The decision in the middle of [reserveQuotaProject]: an existing
    reservation ([inl]) or a new one to append ([inr]). *)
Definition chooseReservation (rs : list quotaReservation.t) (inv : quotaInventory.t) (id : string)
  : result (quotaReservation.t + quotaReservation.t) :=
  let uuid := quotaInventory.FilesystemUUID inv in
  let occupied : gset Z := list_to_set (default [] (quotaInventory.ProjectIDs inv)) in
  match List.find (ofSite id) rs with
  | Some e =>
      if negb (ofFilesystem uuid e) || bool_decide (quotaReservation.ProjectID e ∈ occupied)
      then Err (EMsg "reserved project changed filesystem or became occupied; inspect ownership")
      else Ok (inl e)
  | None =>
      let occupied := occupied ∪ list_to_set (map quotaReservation.ProjectID (List.filter (ofFilesystem uuid) rs)) in
      if 4096 <=? Z.of_nat (length rs) then Err (EMsg "quota ledger reservation limit reached")
      else
        p ← allocate occupied firstProject;
        Ok (inr (quotaReservation.mk id uuid p))
  end.

Section ledger.
Context (cfg : config) `{Unicode}.

Definition lockPath : string := root cfg +/+ ".quota-lock".
Definition quotaDir : string := root cfg +/+ ".quota".
Definition ledgerPath : string := quotaDir +/+ "projects.json".
Definition sentinelPath : string := root cfg +/+ ".quota-initialized".

Definition syncQuotaDirectory (path : string) : M wop unit :=
  _ ← perform (OSys "opendir" path);
  perform (OSys "fsyncdir" path).

(** Opening the lock file creates it; links are refused. *)
Definition openLock : M wop unit :=
  r ← try (perform (OStat lockPath));
  match r with
  | Ok (NFile _) => mret tt
  | Ok _ => fail (EMsg "quota lock must be a regular file")
  | Err e => if isNotExist e then perform (OWrite lockPath "") else fail e
  end.

(** The [flock] loop: 20 ms between attempts and the caller's deadline of five
    minutes bound it to 15000 attempts; past them the context has expired. *)
Definition lockAttempts : nat := Z.to_nat 15000.
Fixpoint flockLoop (fuel : nat) : M wop unit :=
  match fuel with
  | O => fail (EMsg "context deadline exceeded")
  | S f =>
      _ ← perform OCtx;
      acquired ← perform OFlock;
      if acquired : bool then mret tt else flockLoop f
  end.

(** [lockQuotaLedger]; the result says whether the registry is fresh. *)
Definition lockQuotaLedger : M wop bool :=
  _ ← perform OCtx;
  _ ← openLock;
  _ ← flockLoop lockAttempts;
  r ← try (perform (OStat quotaDir));
  fresh ← match r with
          | Ok NDir => mret false
          | Ok _ => fail (EMsg "quota registry directory is not a directory")
          | Err e => if isNotExist e then mret true else fail e
          end;
  _ ← (if fresh : bool then perform (OMkdirAll quotaDir) else mret tt);
  _ ← syncQuotaDirectory (root cfg);
  mret fresh.

Definition emptyLedger : quotaLedger.t := quotaLedger.mk 1 (Some []).

Definition noQuotaMarkers (entries : list (string * bool)) : M wop unit :=
  forM (List.filter (fun e => ValidID e.1) entries) tt (fun _ e =>
    m ← quotaMarked cfg e.1;
    if markedOrErr m then fail (EMsg "existing quota markers require ledger recovery") else mret tt).

Definition writeLedger (l : quotaLedger.t) : M wop unit :=
  atomicConfig ledgerPath (printJSON (quotaLedger.toJSON l)).

Definition loadQuotaLedger (fresh : bool) : M wop quotaLedger.t :=
  data ← try (readQuotaMetadata ledgerPath);
  sentinel ← try (readQuotaMetadata sentinelPath);
  if fresh && absent data && absent sentinel then
    entries ← perform (OReadDir (root cfg));
    _ ← noQuotaMarkers entries;
    _ ← atomicConfig sentinelPath quotaLedgerSentinel;
    _ ← writeLedger emptyLedger;
    mret emptyLedger
  else match data, sentinel with
  | Ok data, Ok sentinel =>
      if negb (String.eqb sentinel quotaLedgerSentinel)
      then fail (EMsg "quota ledger is missing or uninitialized; restore complete installation metadata")
      else
        l ← lift (strictQuotaJSON quotaLedger.fields quotaLedger.zero data);
        _ ← lift (validateQuotaLedger l);
        mret l
  | _, _ => fail (EMsg "quota ledger is missing or uninitialized; restore complete installation metadata")
  end.

Definition reserveQuotaProject (id : string) : M wop quotaReservation.t :=
  if negb (ValidID id) then fail (EMsg "invalid site ID")
  else
    _ ← perform (OStat (composePath cfg id));
    m ← quotaMarked cfg id;
    if markedOrErr m
    then fail (EMsg "quota-managed sites require ownership recovery, not a new reservation")
    else
      fresh ← lockQuotaLedger;
      l ← loadQuotaLedger fresh;
      inventory ← storageInventory id;
      let rs := default [] (quotaLedger.Reservations l) in
      choice ← lift (chooseReservation rs inventory id);
      match choice with
      | inl e => mret e
      | inr e =>
          let l' := quotaLedger.mk (quotaLedger.Version l) (Some (rs ++ [e])%list) in
          if quotaLedgerLimit <? lenZ (printJSON (quotaLedger.toJSON l'))
          then fail (EMsg "quota ledger exceeds size limit")
          else _ ← writeLedger l'; mret e
      end.
End ledger.
