(* ===== verification/LedgerFacts.v ===== *)
(** * LedgerFacts: the quota registry never gives an identifier twice

    The ledger's invariant, the allocator, the journal's round trip, and what
    an execution of [reserveQuotaProject] does to the file. *)
From S2P Require Import Prelude GoStrings Utf8Facts GoPath GoRegexp GoFloat Effects World Core CoreFacts Compose Json JsonFacts Policy Worker QuotaState Storage Ledger Samples.
Set Warnings "-register-all".

#[local] Opaque matchString.

(** ** The invariant *)
Definition reservationOK (r : quotaReservation.t) : Prop :=
  ValidID (quotaReservation.SiteID r) = true /\ matchString quotaUUID (quotaReservation.FilesystemUUID r) = true /\
  quotaReservation.ProjectID r <> 0.

Definition projectOf (r : quotaReservation.t) : string * Z :=
  (quotaReservation.FilesystemUUID r, quotaReservation.ProjectID r).

(** Every entry is well formed, every site has one entry, and no project of a
    file system belongs to two. *)
Record entriesOK (rs : list quotaReservation.t) : Prop := {
  eo_each : Forall reservationOK rs;
  eo_sites : NoDup (map quotaReservation.SiteID rs);
  eo_projects : NoDup (map projectOf rs);
}.

Lemma NoDup_map_weaken {A B C} (f : A -> B) (g : A -> C) l :
  (forall x y, g x = g y -> f x = f y) -> NoDup (map f l) -> NoDup (map g l).
Proof.
  intros Hfg. induction l as [|x l IH]; simpl; [intros; constructor|].
  intros [Hx Hl]%NoDup_cons. apply NoDup_cons. split; [|by apply IH].
  intros (y&Hy&Hin)%list_elem_of_fmap. apply Hx. apply list_elem_of_fmap. exists y. split; [|done]. by apply Hfg.
Qed.

Lemma validateEntries_Ok l : forall ids sites,
  validateEntries ids sites l = Ok tt <->
  Forall reservationOK l /\ NoDup (map quotaReservation.SiteID l) /\ NoDup (map reservationKey l) /\
  (forall r, r ∈ l -> (reservationKey r ∉ ids) /\ (quotaReservation.SiteID r ∉ sites)).
Proof.
  induction l as [|e l IH]; intros ids sites; cbn [validateEntries map].
  - split; [|done]. intros _. split_and!; [constructor|constructor|constructor|].
    intros r Hr. by apply not_elem_of_nil in Hr.
  - unfold reservationOK.
    destruct (ValidID (quotaReservation.SiteID e)) eqn:E1; cbn [negb orb];
      [|split; [done|intros ([(?&_&_) _]%Forall_cons&_); congruence]].
    destruct (matchString quotaUUID (quotaReservation.FilesystemUUID e)) eqn:E2; cbn [negb orb];
      [|split; [done|intros ([(_&?&_) _]%Forall_cons&_); congruence]].
    destruct (Z.eqb_spec (quotaReservation.ProjectID e) 0) as [E3|E3]; cbn [negb orb];
      [split; [done|intros ([(_&_&?) _]%Forall_cons&_); congruence]|].
    case_bool_decide as E4; cbn [orb]; [split; [done|intros (_&_&_&Hd); destruct (Hd e); [left|done]]|].
    case_bool_decide as E5; cbn [orb]; [split; [done|intros (_&_&_&Hd); destruct (Hd e); [left|done]]|].
    rewrite IH, !NoDup_cons, Forall_cons. unfold reservationOK. split.
    + intros (Hf&Hs&Hk&Hd).
      split; [split; [split; [exact E1|split; [exact E2|exact E3]]|exact Hf]|].
      split; [split; [|exact Hs]|split; [split; [|exact Hk]|]].
      * intros (y&Hy&Hin)%list_elem_of_fmap. destruct (Hd y Hin) as [_ Hn].
        apply Hn, elem_of_union_l, elem_of_singleton. congruence.
      * intros (y&Hy&Hin)%list_elem_of_fmap. destruct (Hd y Hin) as [Hn _].
        apply Hn, elem_of_union_l, elem_of_singleton. congruence.
      * intros r [->|Hin]%elem_of_cons; [done|]. destruct (Hd r Hin) as [H1 H2].
        apply not_elem_of_union in H1 as [_ ?], H2 as [_ ?]. done.
    + intros ((_&Hf)&(Hs1&Hs)&(Hk1&Hk)&Hd). split_and!; try done.
      intros r Hin. destruct (Hd r); [by right|]. split.
      * rewrite not_elem_of_union, not_elem_of_singleton. split; [|done]. intros Hr. apply Hk1.
        rewrite <- Hr. by apply list_elem_of_fmap_2.
      * rewrite not_elem_of_union, not_elem_of_singleton. split; [|done]. intros Hr. apply Hs1.
        rewrite <- Hr. by apply list_elem_of_fmap_2.
Qed.

Lemma validateQuotaLedger_Ok l :
  validateQuotaLedger l = Ok tt ->
  quotaLedger.Version l = 1 /\ exists rs, quotaLedger.Reservations l = Some rs /\ Z.of_nat (length rs) <= 4096 /\
    validateEntries ∅ ∅ rs = Ok tt /\ entriesOK rs.
Proof.
  unfold validateQuotaLedger. destruct (quotaLedger.Reservations l) as [rs|]; [|done].
  destruct (Z.eqb_spec (quotaLedger.Version l) 1); simpl; [|done].
  destruct (Z.ltb_spec 4096 (Z.of_nat (length rs))); [done|]. intros Hv. split; [done|].
  exists rs. split_and!; [done|lia|done|]. apply validateEntries_Ok in Hv as (?&?&Hk&_).
  constructor; [done|done|]. eapply NoDup_map_weaken; [|exact Hk].
  intros x y [= Hu Hp]. unfold reservationKey. congruence.
Qed.

(** ** The allocator *)
Lemma allocateF_Ok fuel : forall occupied p q,
  allocateF fuel occupied p = Ok q ->
  p <= q /\ (q ∉ occupied) /\ (forall x, p <= x < q -> x ∈ occupied).
Proof.
  induction fuel as [|f IH]; intros occupied p q Ha; [done|]. cbn [allocateF] in Ha.
  case_bool_decide as Hp; [|by injection Ha as <-; split_and!; [lia|done|lia]].
  destruct (p =? maxUint32); [done|]. apply IH in Ha as (H1&H2&H3).
  split_and!; [lia|done|]. intros x Hx. destruct (Z.eq_dec x p) as [->|]; [done|]. apply H3. lia.
Qed.

(** The fuel is never what stops the loop: only 2^32 - 1 does. *)
Lemma allocateF_total fuel : forall occupied p,
  p + Z.of_nat fuel <= maxUint32 + 1 ->
  (exists q, allocateF fuel occupied p = Ok q) \/ (forall x, p <= x < p + Z.of_nat fuel -> x ∈ occupied).
Proof.
  induction fuel as [|f IH]; intros occupied p Hp; [right; lia|]. cbn [allocateF].
  case_bool_decide as Ho; [|by left; exists p].
  destruct (Z.eqb_spec p maxUint32) as [->|]; [right; intros x Hx; by replace x with maxUint32 by lia|].
  destruct (IH occupied (p + 1) ltac:(lia)) as [?|Hall]; [by left|right].
  intros x Hx. destruct (Z.eq_dec x p) as [->|]; [done|]. apply Hall. lia.
Qed.

Lemma range_size (occupied : gset Z) p n :
  (forall x, p <= x < p + Z.of_nat n -> x ∈ occupied) -> (n <= size occupied)%nat.
Proof.
  intros Hr. assert ((list_to_set (seqZ p (Z.of_nat n)) : gset Z) ⊆ occupied) as Hs.
  { intros x Hx. apply elem_of_list_to_set, elem_of_seqZ in Hx. apply Hr. lia. }
  apply subseteq_size in Hs. rewrite size_list_to_set in Hs by apply NoDup_seqZ.
  rewrite length_seqZ in Hs. lia.
Qed.

(** The allocator returns the smallest free project identifier from its
    start on, and always returns one while fewer identifiers are occupied
    than remain below 2^32: its loop cannot run away. *)
Theorem allocate_first_free occupied p :
  p + Z.of_nat (size occupied) <= maxUint32 ->
  exists q, allocate occupied p = Ok q /\ p <= q <= maxUint32 /\ (q ∉ occupied) /\
    forall x, p <= x < q -> x ∈ occupied.
Proof.
  intros Hp. unfold allocate.
  destruct (allocateF_total (S (size occupied)) occupied p ltac:(lia)) as [[q Hq]|Hall].
  - exists q. destruct (allocateF_Ok _ _ _ _ Hq) as (H1&H2&H3). split_and!; try done.
    destruct (Z.le_gt_cases q maxUint32); [done|].
    assert (S (size occupied) <= size occupied)%nat; [|lia].
    apply (range_size _ p). intros x Hx. apply H3. lia.
  - apply range_size in Hall. lia.
Qed.

Lemma allocate_first_free_witness :
  exists q, allocate {[1000000; 1000001; 1000003]} firstProject = Ok q /\ firstProject <= q <= maxUint32 /\
    (q ∉ ({[1000000; 1000001; 1000003]} : gset Z)) /\
    forall x, firstProject <= x < q -> x ∈ ({[1000000; 1000001; 1000003]} : gset Z).
Proof. apply allocate_first_free. vm_compute. discriminate. Defined.

(** ** Choosing a reservation *)
Lemma increasing_facts ids : forall previous, increasing previous ids = true -> NoDup ids /\ Forall (Z.lt previous) ids.
Proof.
  induction ids as [|x ids IH]; intros previous Hi; [split; constructor|]. cbn [increasing] in Hi.
  apply andb_prop in Hi as [[_ Hx%Z.ltb_lt]%andb_prop Hi]. apply IH in Hi as [Hn Hf]. split.
  - apply NoDup_cons. split; [|done]. intros Hin. rewrite Forall_forall in Hf. specialize (Hf _ Hin). lia.
  - constructor; [done|]. eapply Forall_impl; [exact Hf|]. simpl. lia.
Qed.

Record censusOK (inv : quotaInventory.t) (ids : list Z) : Prop := {
  co_uuid : matchString quotaUUID (quotaInventory.FilesystemUUID inv) = true;
  co_ids : quotaInventory.ProjectIDs inv = Some ids;
  co_length : Z.of_nat (length ids) <= 65536;
}.

Lemma checkInventory_Ok r inv : checkInventory r = Ok inv -> inv = r /\ exists ids, censusOK r ids.
Proof.
  unfold checkInventory. cbv zeta. destruct (quotaInventory.ProjectIDs r) as [ids|] eqn:E; [|done].
  destruct (_ || (65536 <? Z.of_nat (length ids))) eqn:E1; [done|].
  destruct (Z.ltb (quotaInventory.ScannedInodes r) _); [intros [=]|].
  destruct (increasing 0 ids); [|intros [=]]. intros [= <-]. split; [done|].
  exists ids. bool_solve. constructor; [done|done|]. by apply Z.ltb_ge.
Qed.

Lemma find_none_notin {A} (f : A -> bool) l : List.find f l = None -> forall x, x ∈ l -> f x = false.
Proof. intros Hf x Hx. apply (List.find_none _ _ Hf). by apply list_elem_of_In. Qed.

(** The new entry keeps the ledger valid, belongs to the site and to the
    census's file system, and its project is used by nobody. *)
Definition freshReservation (rs : list quotaReservation.t) (inv : quotaInventory.t) (id : string)
    (e : quotaReservation.t) : Prop :=
  quotaReservation.SiteID e = id /\ quotaReservation.FilesystemUUID e = quotaInventory.FilesystemUUID inv /\
  firstProject <= quotaReservation.ProjectID e <= maxUint32 /\
  (quotaReservation.ProjectID e ∉ default [] (quotaInventory.ProjectIDs inv)) /\
  (projectOf e ∉ map projectOf rs) /\ (id ∉ map quotaReservation.SiteID rs).

Lemma occupied_size (ids : list Z) (ps : list Z) :
  Z.of_nat (size (list_to_set ids ∪ list_to_set ps : gset Z)) <= Z.of_nat (length ids) + Z.of_nat (length ps).
Proof.
  assert (forall l : list Z, (size (list_to_set l : gset Z) <= length l)%nat) as Hl.
  { induction l as [|x l IH]; [done|]. simpl. rewrite size_union_alt, size_singleton.
    assert (size ((list_to_set l : gset Z) ∖ {[x]}) <= size (list_to_set l : gset Z))%nat by (apply subseteq_size, subseteq_difference_l; done).
    lia. }
  pose proof (Hl ids). pose proof (Hl ps).
  rewrite size_union_alt.
  assert (size ((list_to_set ps : gset Z) ∖ list_to_set ids) <= size (list_to_set ps : gset Z))%nat
    by (apply subseteq_size, subseteq_difference_l; done).
  lia.
Qed.

Lemma allocate_spec occupied p q :
  allocate occupied p = Ok q -> p <= q /\ (q ∉ occupied).
Proof. intros (?&?&_)%allocateF_Ok. done. Qed.

Lemma allocate_below occupied p q : p <= maxUint32 -> allocate occupied p = Ok q -> q <= maxUint32.
Proof.
  unfold allocate. generalize (S (size occupied)). intros f. revert p.
  induction f as [|f IH]; intros p Hp Ha; [done|]. cbn [allocateF] in Ha.
  case_bool_decide; [|by injection Ha as <-].
  destruct (Z.eqb_spec p maxUint32); [done|]. apply IH in Ha; [done|lia].
Qed.

Lemma chooseReservation_new rs inv id e :
  chooseReservation rs inv id = Ok (inr e) -> freshReservation rs inv id e /\ Z.of_nat (length rs) < 4096.
Proof.
  unfold chooseReservation. destruct (List.find (ofSite id) rs) as [x|] eqn:Ef; [by case_match|].
  destruct (Z.leb_spec 4096 (Z.of_nat (length rs))); [done|].
  destruct (allocate _ _) as [p|] eqn:Ea; [|done]. intros [= <-].
  pose proof (allocate_below _ firstProject _ ltac:(vm_compute; discriminate) Ea) as Hmax. apply allocate_spec in Ea as [Hp Hn].
  apply not_elem_of_union in Hn as [Hn1 Hn2]. rewrite elem_of_list_to_set in Hn1, Hn2.
  split; [|lia]. unfold freshReservation. simpl.
  split; [done|]. split; [done|]. split; [done|]. split; [done|]. split.
  - intros (y&Hy&Hin)%list_elem_of_fmap. apply Hn2. apply list_elem_of_fmap.
    unfold projectOf in Hy. injection Hy as Hu Hq. exists y. split; [done|].
    apply list_elem_of_In, List.filter_In. split; [by apply list_elem_of_In|].
    unfold ofFilesystem. simpl in Hu. by apply String.eqb_eq.
  - intros (y&Hy&Hin)%list_elem_of_fmap. apply (find_none_notin _ _ Ef) in Hin.
    unfold ofSite in Hin. by rewrite <- Hy, String.eqb_refl in Hin.
Qed.

(** C38: with room in the ledger, a site without a reservation always gets one:
    4096 reservations and a census of 65536 identifiers leave the identifiers
    from 1000000 on unexhausted, and the one it gets is used by nobody on that
    file system, in the census or in the ledger. *)
Theorem chooseReservation_total rs inv ids id :
  censusOK inv ids -> Z.of_nat (length rs) < 4096 -> (id ∉ map quotaReservation.SiteID rs) ->
  exists e, chooseReservation rs inv id = Ok (inr e) /\ freshReservation rs inv id e.
Proof.
  intros Hc Hl Hid.
  assert (exists e, chooseReservation rs inv id = Ok (inr e)) as [e He].
  { unfold chooseReservation. destruct (List.find (ofSite id) rs) as [x|] eqn:Ef.
    - apply List.find_some in Ef as [Hin Hx]. destruct Hid. apply list_elem_of_fmap.
      exists x. split; [by apply String.eqb_eq in Hx|by apply list_elem_of_In].
    - destruct (Z.leb_spec 4096 (Z.of_nat (length rs))); [lia|].
      rewrite (co_ids _ _ Hc). cbn [default].
      set (ps := map quotaReservation.ProjectID _).
      assert (length ps <= length rs)%nat by (subst ps; rewrite length_map; apply List.filter_length_le).
      pose proof (co_length _ _ Hc).
      match goal with |- context [allocate ?o _] => set (occ := o) end.
      assert (Z.of_nat (size occ) <= Z.of_nat (length ids) + Z.of_nat (length ps)) by apply (occupied_size ids ps).
      destruct (allocateF_total (S (size occ)) occ firstProject) as [[q Hq]|Hall].
      + unfold firstProject, maxUint32. lia.
      + unfold allocate. rewrite Hq. by eexists.
      + apply range_size in Hall. lia. }
  exists e. split; [done|]. by apply chooseReservation_new in He as [? _].
Qed.

Definition sampleUUID : string := "0123456789abcdef0123456789abcdef".
Definition sampleInventory : quotaInventory.t :=
  quotaInventory.mk true "verified" sampleUUID 10 4 4 (Some [7; 1000000]).
Definition sampleReservation : quotaReservation.t := quotaReservation.mk "aaaaaaaaaaaaaaaa" sampleUUID 1000001.

Lemma chooseReservation_total_witness :
  exists e, chooseReservation [sampleReservation] sampleInventory "bbbbbbbbbbbbbbbb" = Ok (inr e) /\
    freshReservation [sampleReservation] sampleInventory "bbbbbbbbbbbbbbbb" e.
Proof.
  apply (chooseReservation_total [sampleReservation] sampleInventory [7; 1000000] "bbbbbbbbbbbbbbbb").
  - constructor; [vm_compute; reflexivity|reflexivity|vm_compute; discriminate].
  - simpl. lia.
  - apply (bool_decide_unpack _). vm_compute. exact I.
Defined.

(** ** The journal's round trip *)
Lemma isHexLower_ascii c : isHexLower c = true -> isAscii c = true.
Proof.
  unfold isHexLower, isDigit, isAscii. intros [Hc|Hc]%orb_prop; apply inRange_iff in Hc; apply Z.ltb_lt; lia.
Qed.

Lemma ValidID_plain id : ValidID id = true -> validUTF8 id = true.
Proof. intros [_ Hh]%ValidID_iff. eapply validUTF8_ascii, strForall_impl; [apply isHexLower_ascii|done]. Qed.

Lemma uuid_plain u : matchString quotaUUID u = true -> validUTF8 u = true.
Proof. intros [_ Hh]%matchString_exactly. eapply validUTF8_ascii, strForall_impl; [apply isHexLower_ascii|done]. Qed.
#[local] Opaque matchString.

(** Range of the numbers the records hold. *)
Definition projectRange (r : quotaReservation.t) : Prop := 0 <= quotaReservation.ProjectID r <= maxUint32.

Lemma decode_reservation r :
  projectRange r ->
  decodeStruct true quotaReservation.fields (quotaReservation.toJSON r) quotaReservation.zero = Ok r.
Proof.
  intros Hr. destruct r as [s u p]. unfold projectRange in Hr. simpl in Hr.
  unfold quotaReservation.toJSON. simpl quotaReservation.SiteID.
  cbn [decodeStruct decodeFields].
  change (fieldOf quotaReservation.fields "site_id")
    with (Some (setString (fun v r => quotaReservation.mk v (quotaReservation.FilesystemUUID r) (quotaReservation.ProjectID r)))).
  change (fieldOf quotaReservation.fields "filesystem_uuid")
    with (Some (setString (fun v r => quotaReservation.mk (quotaReservation.SiteID r) v (quotaReservation.ProjectID r)))).
  change (fieldOf quotaReservation.fields "project_id")
    with (Some (setUint32 (fun v r => quotaReservation.mk (quotaReservation.SiteID r) (quotaReservation.FilesystemUUID r) v))).
  cbv iota beta. unfold setString at 1 2. cbn -[setUint32 itoa].
  by rewrite setUint32_itoa.
Qed.

Lemma decode_reservations rs :
  Forall projectRange rs ->
  decodeElements (decodeStruct true quotaReservation.fields) quotaReservation.zero (map quotaReservation.toJSON rs) = Ok rs.
Proof.
  induction 1 as [|r rs Hr _ IH]; [done|]. cbn [map decodeElements]. rewrite decode_reservation by done.
  simpl. by rewrite IH.
Qed.

Lemma strict_print {T} (fs : list (string * setter T)) zero v t :
  plainValue 0 v = true -> lenZ (printJSON v) <= quotaLedgerLimit -> uniqueQuotaKeys 0 v = Ok tt ->
  decodeStruct true fs v zero = Ok t -> strictQuotaJSON fs zero (printJSON v) = Ok t.
Proof.
  intros Hp Hl Hu Hd. unfold strictQuotaJSON. rewrite (proj2 (Z.ltb_ge _ _)) by done.
  rewrite nextValue_print by done. rewrite Hu. simpl. by rewrite Hd.
Qed.

Lemma reservation_unique r d : 0 <= d <= 30 -> uniqueQuotaKeys d (quotaReservation.toJSON r) = Ok tt.
Proof.
  intros Hd. unfold quotaReservation.toJSON. cbn [uniqueQuotaKeys].
  rewrite (proj2 (Z.ltb_ge 32 d)) by lia. rewrite (proj2 (Z.ltb_ge 32 (d + 1))) by lia.
  cbn -[bool_decide]. by repeat (case_bool_decide as Hb; [exfalso; clear -Hb; set_solver|simpl]).
Qed.

Lemma reservations_unique rs :
  (fix go l := match l with
               | [] => Ok tt
               | x :: l' => _ ← uniqueQuotaKeys 2 x; go l'
               end) (map quotaReservation.toJSON rs) = Ok tt.
Proof. induction rs as [|r rs IH]; [done|]. cbn [map]. by rewrite reservation_unique. Qed.

Lemma ledger_unique rs : uniqueQuotaKeys 0 (quotaLedger.toJSON (quotaLedger.mk 1 (Some rs))) = Ok tt.
Proof.
  unfold quotaLedger.toJSON. cbn -[bool_decide map quotaReservation.toJSON].
  case_bool_decide as Hb; [exfalso; clear -Hb; set_solver|]. cbn -[bool_decide map quotaReservation.toJSON].
  case_bool_decide as Hb'; [exfalso; clear -Hb'; set_solver|].
  pose proof (reservations_unique rs) as Hr. change (0 + 1 + 1) with 2. by rewrite Hr.
Qed.

Lemma reservation_plain r : reservationOK r -> projectRange r -> plainValue 2 (quotaReservation.toJSON r) = true.
Proof.
  intros (Hs&Hu&_) Hp. unfold quotaReservation.toJSON.
  cbn [plainValue forallb]. unfold fst, snd. cbn [plainValue].
  rewrite (ValidID_plain _ Hs), (uuid_plain _ Hu), numberText_itoa. done.
Qed.

Lemma ledger_plain rs :
  Forall reservationOK rs -> Forall projectRange rs ->
  plainValue 0 (quotaLedger.toJSON (quotaLedger.mk 1 (Some rs))) = true.
Proof.
  intros Ho Hr. unfold quotaLedger.toJSON. cbn -[quotaReservation.toJSON plainValue map]. cbn [plainValue].
  assert (forallb (plainValue (0 + 1 + 1)) (map quotaReservation.toJSON rs) = true) as Hall.
  { apply forallb_forall. intros x (r&<-&Hin)%in_map_iff. apply list_elem_of_In in Hin.
    rewrite Forall_forall in Ho, Hr. by apply reservation_plain; [apply Ho|apply Hr]. }
  cbn [forallb]. unfold fst, snd. cbn [plainValue]. rewrite Hall. done.
Qed.

Lemma decode_ledger rs :
  Forall projectRange rs ->
  decodeStruct true quotaLedger.fields (quotaLedger.toJSON (quotaLedger.mk 1 (Some rs))) quotaLedger.zero =
  Ok (quotaLedger.mk 1 (Some rs)).
Proof.
  intros Hr. unfold quotaLedger.toJSON. cbn [quotaLedger.Reservations quotaLedger.Version decodeStruct decodeFields].
  change (fieldOf quotaLedger.fields "version")
    with (Some (setInt64 (fun v l => quotaLedger.mk v (quotaLedger.Reservations l)))).
  change (fieldOf quotaLedger.fields "reservations")
    with (Some (setSlice (decodeStruct true quotaReservation.fields) quotaReservation.zero
                      (fun v l => quotaLedger.mk (quotaLedger.Version l) v))).
  cbv iota beta. change (setInt64 (fun v l => quotaLedger.mk v (quotaLedger.Reservations l)) (JNum (itoa 1)) quotaLedger.zero)
    with (Ok (quotaLedger.mk 1 None)).
  cbn [mbind result_bind]. unfold setSlice. rewrite decode_reservations by done. done.
Qed.

(** The ledger's encoding is read back exactly by its strict decoder:
    unknown or repeated keys refused, every reservation recovered in order,
    whenever it fits the size limit. *)
Theorem ledger_roundtrip rs :
  Forall reservationOK rs -> Forall projectRange rs ->
  lenZ (printJSON (quotaLedger.toJSON (quotaLedger.mk 1 (Some rs)))) <= quotaLedgerLimit ->
  strictQuotaJSON quotaLedger.fields quotaLedger.zero (printJSON (quotaLedger.toJSON (quotaLedger.mk 1 (Some rs)))) =
  Ok (quotaLedger.mk 1 (Some rs)).
Proof.
  intros Ho Hr Hl. apply strict_print; [by apply ledger_plain|done|apply ledger_unique|by apply decode_ledger].
Qed.

Lemma ledger_roundtrip_witness :
  strictQuotaJSON quotaLedger.fields quotaLedger.zero
    (printJSON (quotaLedger.toJSON (quotaLedger.mk 1 (Some [sampleReservation])))) =
  Ok (quotaLedger.mk 1 (Some [sampleReservation])).
Proof.
  apply (ledger_roundtrip [sampleReservation]).
  - constructor; [|constructor]. repeat split; try (vm_compute; reflexivity). discriminate.
  - constructor; [|constructor]. split; vm_compute; discriminate.
  - vm_compute. discriminate.
Defined.

(** ** What decoding guarantees about numbers *)
Lemma decodeFields_inv {T} (P : T -> Prop) strict (fs : list (string * setter T)) :
  Forall (fun nf => forall v t t', P t -> nf.2 v t = Ok t' -> P t') fs ->
  forall kvs t t', P t -> decodeFields strict fs kvs t = Ok t' -> P t'.
Proof.
  intros Hfs. assert (forall m k set, findField m k fs = Some set -> forall v t t', P t -> set v t = Ok t' -> P t') as Hf.
  { intros m k set. induction Hfs as [|[n f] l Hx _ IH]; simpl; [done|].
    destruct (m n k); [by intros [= <-]|done]. }
  induction kvs as [|[k v] kvs IH]; intros t t' Ht; simpl; [by intros [= <-]|].
  unfold fieldOf. destruct (findField String.eqb k fs) as [set|] eqn:E1; [|destruct (findField sameName k fs) as [set|] eqn:E2].
  - intros (t1&Hs&Hd)%bind_Ok. eapply IH; [|exact Hd]. by eapply Hf.
  - intros (t1&Hs&Hd)%bind_Ok. eapply IH; [|exact Hd]. by eapply Hf.
  - destruct strict; [done|]. by apply IH.
Qed.

Lemma decodeStruct_inv {T} (P : T -> Prop) strict (fs : list (string * setter T)) v t t' :
  Forall (fun nf => forall v t t', P t -> nf.2 v t = Ok t' -> P t') fs ->
  P t -> decodeStruct strict fs v t = Ok t' -> P t'.
Proof.
  intros Hfs Ht. unfold decodeStruct. destruct v; try done; [by intros [= <-]|].
  by apply decodeFields_inv.
Qed.

Lemma setString_inv {T} (P : T -> Prop) put v (t t' : T) :
  (forall s, P t -> P (put s t)) -> P t -> setString put v t = Ok t' -> P t'.
Proof. intros Hp Ht. destruct v; simpl; try done; intros [= <-]; auto. Qed.

Lemma setInt_inv {T} (P : T -> Prop) lo hi put v (t t' : T) :
  (forall n, lo <= n <= hi -> P t -> P (put n t)) -> P t -> setInt lo hi put v t = Ok t' -> P t'.
Proof.
  intros Hp Ht. destruct v; simpl; try done; [by intros [= <-]|].
  destruct text as [|c r]; [done|]. destruct ((0 <=? lo) && Ascii.eqb c "-"); [done|].
  destruct (parseInt (String c r)) as [n|]; [|done].
  destruct ((lo <=? n) && (n <=? hi)) eqn:E; [|done]. intros [= <-]. apply Hp; [|done].
  apply andb_prop in E as [?%Z.leb_le ?%Z.leb_le]. lia.
Qed.

(** One goal per field of a decoding table. *)
Ltac each_field :=
  repeat (apply Forall_cons_2; [cbn [snd]; intros ? ? ?|]); [..|apply Forall_nil_2].

Lemma decode_reservation_range v r :
  decodeStruct true quotaReservation.fields v quotaReservation.zero = Ok r -> projectRange r.
Proof.
  apply decodeStruct_inv; [|unfold projectRange; simpl; unfold maxUint32; lia].
  each_field.
  - by apply setString_inv.
  - by apply setString_inv.
  - apply setInt_inv. intros n Hn _. done.
Qed.

Definition ledgerRange (l : quotaLedger.t) : Prop := forall rs, quotaLedger.Reservations l = Some rs -> Forall projectRange rs.

Lemma decode_ledger_range v l : decodeStruct true quotaLedger.fields v quotaLedger.zero = Ok l -> ledgerRange l.
Proof.
  apply decodeStruct_inv; [|done]. each_field.
  - by apply setInt_inv.
  - rename v0 into x. intros Ht. unfold setSlice. destruct x as [| | | |xs|]; try done; [by intros [= <-]|].
    intros (rs&Hd&[= <-])%bind_Ok rs' [= <-]. clear Ht. revert rs Hd.
    induction xs as [|x xs IH]; cbn [decodeElements]; intros rs Hd; [by injection Hd as <-|].
    apply bind_Ok in Hd as (r&Hr&(rs0&Hrs&[= <-])%bind_Ok). constructor; [|by apply IH].
    by apply decode_reservation_range in Hr.
Qed.

Lemma strict_ledger_range data l :
  strictQuotaJSON quotaLedger.fields quotaLedger.zero data = Ok l -> ledgerRange l.
Proof.
  unfold strictQuotaJSON. destruct (_ <? _); [done|]. destruct (nextValue data) as [[[v rest]|]|]; try done.
  intros Hb. apply bind_Ok in Hb as (u&_&Hd). apply bind_Ok in Hd as (l'&Hd&He). destruct (String.eqb _ _); [|done].
  injection He as <-. by apply decode_ledger_range in Hd.
Qed.

Lemma app_same_length (a b c d : string) :
  String.length a = String.length b -> a +:+ c = b +:+ d -> a = b /\ c = d.
Proof.
  revert b. induction a as [|x a IH]; intros [|y b] Hl Heq; simpl in *; try done.
  injection Heq as -> Heq. apply IH in Heq as [-> ->]; [done|lia].
Qed.

#[local] Transparent matchString.
Lemma uuid_length u : matchString quotaUUID u = true -> String.length u = 32%nat.
Proof. by intros [? _]%matchString_exactly. Qed.
#[local] Opaque matchString.

Lemma itoa_inj n m : 0 <= n -> 0 <= m -> itoa n = itoa m -> n = m.
Proof.
  intros Hn Hm. unfold itoa. rewrite (proj2 (Z.ltb_ge n 0)), (proj2 (Z.ltb_ge m 0)) by done.
  intros Heq. pose proof (digits_parse n Hn) as Hp. rewrite Heq, digits_parse in Hp by done. congruence.
Qed.

Lemma reservationKey_inj x y :
  reservationOK x -> reservationOK y -> projectRange x -> projectRange y ->
  reservationKey x = reservationKey y -> projectOf x = projectOf y.
Proof.
  intros (_&Hx&_) (_&Hy&_) [Px _] [Py _] Hk. unfold reservationKey in Hk.
  apply app_same_length in Hk as [Hu Hk]; [|by rewrite (uuid_length _ Hx), (uuid_length _ Hy)].
  injection Hk as Hk. apply itoa_inj in Hk; [|done|done]. unfold projectOf. congruence.
Qed.

(** ** The file *)
Section effects.
Context (cfg : config) `{Unicode} `{Env}.

(** The ledger file holds exactly the reservations [rs], and passes every
    check a later load makes. *)
Definition ledgerHolds (rs : list quotaReservation.t) (fs : fsmap) : Prop :=
  exists data, fs !! ledgerPath cfg = Some (NFile data) /\
    strictQuotaJSON quotaLedger.fields quotaLedger.zero (readAtMost (quotaLedgerLimit + 1) data) =
      Ok (quotaLedger.mk 1 (Some rs)) /\
    validateQuotaLedger (quotaLedger.mk 1 (Some rs)) = Ok tt.

Lemma readAtMost_limit data : lenZ data <= quotaLedgerLimit -> readAtMost (quotaLedgerLimit + 1) data = data.
Proof. intros Hl. unfold readAtMost. by rewrite (proj2 (Z.leb_le _ _)) by lia. Qed.

Lemma validate_snoc rs inv id e :
  validateQuotaLedger (quotaLedger.mk 1 (Some rs)) = Ok tt -> Forall projectRange rs -> freshReservation rs inv id e ->
  ValidID id = true -> matchString quotaUUID (quotaInventory.FilesystemUUID inv) = true -> Z.of_nat (length rs) < 4096 ->
  validateQuotaLedger (quotaLedger.mk 1 (Some (rs ++ [e])%list)) = Ok tt.
Proof.
  intros Hv Hrange (He1&He2&He3&He4&He5&He6) Hid Hu Hl.
  apply validateQuotaLedger_Ok in Hv as (_&rs'&[= <-]&_&Hv&_). apply validateEntries_Ok in Hv as (Hf&Hs&Hk&_).
  unfold validateQuotaLedger. simpl. rewrite length_app. simpl.
  rewrite (proj2 (Z.ltb_ge 4096 (Z.of_nat (length rs + 1)))) by (clear -Hl; lia). apply validateEntries_Ok.
  assert (reservationOK e) as Hok.
  { unfold reservationOK. rewrite He1, He2. split; [exact Hid|]. split; [exact Hu|]. unfold firstProject in He3. lia. }
  split; [apply Forall_app; split; [exact Hf|apply Forall_singleton; exact Hok]|].
  rewrite !map_app. simpl. split; [|split].
  - apply NoDup_app. split; [exact Hs|]. split; [|apply NoDup_singleton].
    intros x Hx ->%list_elem_of_singleton. rewrite He1 in Hx. done.
  - apply NoDup_app. split; [exact Hk|]. split; [|apply NoDup_singleton].
    intros x Hx ->%list_elem_of_singleton. apply list_elem_of_fmap in Hx as (y&Hy&Hin).
    apply He5. apply list_elem_of_fmap. exists y. split; [|exact Hin].
    rewrite Forall_forall in Hf, Hrange.
    apply reservationKey_inj; [exact Hok|by apply Hf| |by apply Hrange|exact Hy].
    unfold projectRange, firstProject in *. lia.
  - intros r _. split; apply not_elem_of_empty.
Qed.
End effects.

Section reserve.
Context (cfg : config) `{Unicode} `{Env}.

Let leavesLedger : event -> Prop := leaves (ledgerPath cfg).

Lemma ledger_ne (p : string) : String.length p <> String.length (ledgerPath cfg) -> p <> ledgerPath cfg.
Proof. intros Hp ->. done. Qed.

Lemma causes_openLock : causes leavesLedger (openLock cfg).
Proof.
  unfold openLock. causes_auto. apply causes_write. apply ledger_ne.
  unfold lockPath, ledgerPath, quotaDir, child. rewrite !length_app_str. simpl. lia.
Qed.

Lemma causes_flockLoop P n : causes P (flockLoop n).
Proof. induction n as [|n IH]; cbn [flockLoop]; causes_auto. Qed.

Lemma causes_lockQuotaLedger : causes leavesLedger (lockQuotaLedger cfg).
Proof.
  unfold lockQuotaLedger, syncQuotaDirectory.
  causes_auto; first [apply causes_openLock|apply causes_flockLoop|idtac].
  apply causes_mkdir. intros ps Hps Hin. rewrite Forall_forall in Hps. apply Hps, ancestors_length in Hin.
  unfold ledgerPath, child in Hin. rewrite !length_app_str in Hin. simpl in Hin. lia.
Qed.

Lemma causes_storageInventory P id :
  (forall args, P (EvCmd (COutput args))) -> causes P (storageInventory id).
Proof. intros Hp. unfold storageInventory. causes_auto. by apply causes_runStorageProbe. Qed.

(** Reading a file that is there never answers "not found". *)
Lemma exec_readQuotaMetadata path w r w' t :
  exec (readQuotaMetadata path) w = (r, w', t) ->
  w_fs w' = w_fs w /\ t = [] /\ (absent r = true -> w_fs w !! path = None) /\
  (forall d, r = Ok d -> exists data, w_fs w !! path = Some (NFile data) /\ d = readAtMost (quotaLedgerLimit + 1) data).
Proof.
  unfold readQuotaMetadata. intros Hx. apply exec_bind in Hx as [(e&Hs&->)|(n&w1&t1&t2&Hs&Hx&->)].
  - apply exec_stat_absent in Hs as (->&->&Ha). done.
  - apply exec_stat_Ok in Hs as (Hn&Hw&->). destruct n as [d| |]; try by apply exec_ret in Hx as (->&->&->).
    apply exec_bind in Hx as [(e&Hr&->)|(d'&w2&t3&t4&Hr&Hx&->)].
    + apply exec_read_absent in Hr as (->&->&Ha). rewrite Hw in Ha. split_and!; try done.
    + apply exec_read_Ok in Hr as (Hd&Hw2&->). apply exec_ret in Hx as (->&->&->).
      rewrite Hw2, Hw in *. split_and!; try done. intros d0 [= <-]. by exists d'.
Qed.

(** A load with the ledger in place changes nothing and returns it. *)
Lemma exec_loadQuotaLedger rs fresh w r w' t :
  ledgerHolds cfg rs (w_fs w) -> exec (loadQuotaLedger cfg fresh) w = (r, w', t) ->
  w_fs w' = w_fs w /\ t = [] /\ (forall l, r = Ok l -> l = quotaLedger.mk 1 (Some rs)).
Proof.
  intros (data&Hf&Hs&Hv) Hx. unfold loadQuotaLedger in Hx.
  apply exec_bind in Hx as [(e&Hd&_)|(rd&w1&t1&t2&Hd&Hx&->)];
    apply exec_try in Hd as (rd'&[= Hrd]&Hd). subst rd'.
  apply exec_readQuotaMetadata in Hd as (Hw1&->&Ha&Hok).
  apply exec_bind in Hx as [(e&He&_)|(rsn&w2&t3&t4&He&Hx&->)];
    apply exec_try in He as (rsn'&[= Hsn]&He). subst rsn'.
  apply exec_readQuotaMetadata in He as (Hw2&->&_&_).
  destruct (absent rd) eqn:Eab; [by rewrite Hf in Ha; specialize (Ha eq_refl)|].
  rewrite andb_false_r in Hx. cbn [andb] in Hx.
  assert (forall (a : result quotaLedger.t), exec (Ret a) w2 = (r, w', t4) -> (forall l, a = Ok l -> l = quotaLedger.mk 1 (Some rs)) ->
            w_fs w' = w_fs w /\ t4 = [] /\ (forall l, r = Ok l -> l = quotaLedger.mk 1 (Some rs))) as Hret.
  { intros a Hr Hl. apply exec_ret in Hr as (->&->&->). rewrite Hw2, Hw1. done. }
  destruct rd as [d|e]; [|by apply (Hret (Err _) Hx)].
  destruct rsn as [s|e]; [|by apply (Hret (Err _) Hx)].
  destruct (Hok d eq_refl) as (data'&Hd'&->). assert (data' = data) as -> by congruence.
  destruct (negb (String.eqb s quotaLedgerSentinel)); [by apply (Hret (Err _) Hx)|].
  rewrite exec_lift_bind, Hs, exec_lift_bind, Hv in Hx. apply (Hret (Ok (quotaLedger.mk 1 (Some rs)))); [exact Hx|].
  by intros l [= <-].
Qed.

(** What an execution of [reserveQuotaProject] may do to the ledger file:
    nothing, or replace it whole by an extended ledger. *)
Definition extends (rs : list quotaReservation.t) (id : string) (e : event) : Prop :=
  leavesLedger e \/
  exists r data, e = EvFs (MWrite (ledgerPath cfg) data) /\ quotaReservation.SiteID r = id /\
    forall fs, ledgerHolds cfg (rs ++ [r])%list (<[ledgerPath cfg := NFile data]> fs).

Lemma ledgerHolds_same rs fs fs' :
  fs' !! ledgerPath cfg = fs !! ledgerPath cfg -> ledgerHolds cfg rs fs -> ledgerHolds cfg rs fs'.
Proof. intros Hf (data&Hd&Hr). exists data. by rewrite Hf. Qed.

(** Writing the extended ledger. *)
Lemma append_holds rs inv id r :
  validateQuotaLedger (quotaLedger.mk 1 (Some rs)) = Ok tt -> Forall projectRange rs -> freshReservation rs inv id r ->
  ValidID id = true -> matchString quotaUUID (quotaInventory.FilesystemUUID inv) = true -> Z.of_nat (length rs) < 4096 ->
  lenZ (printJSON (quotaLedger.toJSON (quotaLedger.mk 1 (Some (rs ++ [r])%list)))) <= quotaLedgerLimit ->
  forall fs, ledgerHolds cfg (rs ++ [r])%list
    (<[ledgerPath cfg := NFile (printJSON (quotaLedger.toJSON (quotaLedger.mk 1 (Some (rs ++ [r])%list))))]> fs).
Proof.
  intros Hv Hrange Hfr Hid Hu Hl Hsize fs.
  pose proof (validate_snoc _ _ _ _ Hv Hrange Hfr Hid Hu Hl) as Hv'.
  eexists. split; [apply lookup_insert_eq|]. split; [|exact Hv'].
  rewrite readAtMost_limit by done.
  apply validateQuotaLedger_Ok in Hv' as (_&rs'&[= <-]&_&_&[Heach _ _]).
  assert (Forall projectRange (rs ++ [r])%list).
  { apply Forall_app. split; [done|]. apply Forall_singleton. destruct Hfr as (_&_&Hp&_).
    unfold projectRange, firstProject in *. clear -Hp. lia. }
  apply strict_print; [by apply ledger_plain|done|apply ledger_unique|by apply decode_ledger].
Qed.

Lemma exec_reserve_events rs id w :
  ledgerHolds cfg rs (w_fs w) -> Forall (extends rs id) (exec (reserveQuotaProject cfg id) w).2.
Proof.
  intros Hl. unfold reserveQuotaProject.
  destruct (ValidID id) eqn:Eid; cbn [negb]; [|apply from_causes; auto with causes].
  apply from_bind; [apply from_causes; auto with causes|]. intros n w1 t1 H1%exec_stat_Ok.
  apply from_bind; [apply from_causes; auto with causes|]. intros m w2 t2 H2.
  destruct (markedOrErr m); [apply from_causes; auto with causes|].
  apply from_bind.
  { apply from_causes. eapply causes_weaken; [|apply causes_lockQuotaLedger]. by left. }
  intros fresh w3 t3 H3.
  assert (ledgerHolds cfg rs (w_fs w3)) as Hl3.
  { eapply ledgerHolds_same; [|exact Hl]. rewrite (exec_frame _ _ _ _ _ _ causes_lockQuotaLedger H3).
    destruct (quiet_fs (ledgerPath cfg) _ _ _ _ _ (causes_quotaMarked cfg _ id) H2) as [-> _].
    by destruct H1 as (_&->&_). }
  destruct (exec (loadQuotaLedger cfg fresh) w3) as [[l w4] t4] eqn:H4.
  destruct (exec_loadQuotaLedger _ _ _ _ _ _ Hl3 H4) as (Hw4&->&Hlok).
  apply from_bind; [by rewrite H4|]. intros l' w4' t4' H4'. rewrite H4 in H4'. injection H4' as -> <- <-.
  rewrite (Hlok l' eq_refl).
  apply from_bind; [apply from_causes; apply causes_storageInventory; by left|]. intros inv w5 t5 H5.
  assert (exists raw ids, censusOK raw ids /\ inv = raw) as (raw&ids&Hc&->).
  { unfold storageInventory in H5. apply exec_bind_Ok in H5 as (out&?&?&?&_&H5&_).
    rewrite exec_lift_bind in H5. destruct (strictQuotaJSON _ _ _) as [raw|]; [|done].
    apply exec_ret in H5 as (H5&_). symmetry in H5. apply checkInventory_Ok in H5 as (->&ids&Hc). eauto. }
  cbn [quotaLedger.Reservations quotaLedger.Version]. cbv zeta. change (default [] (Some rs)) with rs.
  rewrite exec_lift_bind. destruct (chooseReservation rs raw id) as [[e|e]|] eqn:Ech; [constructor| |constructor].
  apply chooseReservation_new in Ech as [Hfr Hlen].
  destruct (Z.ltb_spec quotaLedgerLimit (lenZ (printJSON (quotaLedger.toJSON (quotaLedger.mk 1 (Some (rs ++ [e])%list))))));
    [constructor|].
  destruct Hl3 as (data&_&Hs&Hv).
  apply from_bind; [|intros; constructor]. apply from_causes, causes_atomic.
  right. eexists e, _. split; [done|]. split; [apply Hfr|].
  eapply append_holds; try done; [by eapply strict_ledger_range|apply Hc].
Qed.

(** C21: reserving a project is append-only and survives a crash at any point.
    Whatever the environment does, and whether or not the call succeeds, after
    every prefix of its effects the ledger file decodes, passes validation and
    holds either exactly the earlier reservations or those plus one for the
    site, last. *)
Theorem reserveQuotaProject_append_only rs id w r w' t :
  ledgerHolds cfg rs (w_fs w) -> exec (reserveQuotaProject cfg id) w = (r, w', t) ->
  forall t1, t1 `prefix_of` t ->
    ledgerHolds cfg rs (replay t1 (w_fs w)) \/
    exists e, quotaReservation.SiteID e = id /\ ledgerHolds cfg (rs ++ [e])%list (replay t1 (w_fs w)).
Proof.
  intros Hl Hx. pose proof (exec_reserve_events rs id w Hl) as Hev. rewrite Hx in Hev.
  apply (replay_prefix (extends rs id)
    (fun fs => ledgerHolds cfg rs fs \/ exists e, quotaReservation.SiteID e = id /\ ledgerHolds cfg (rs ++ [e])%list fs));
    [|exact Hev|by left].
  intros e fs [He|(x&data&->&Hx1&Hx2)] Hi; [|right; exists x; split; [done|]; apply Hx2].
  assert (applyEvent e fs !! ledgerPath cfg = fs !! ledgerPath cfg) as Hsame.
  { destruct e as [m| |]; [|done|done]. by apply applyMutation_frame. }
  destruct Hi as [Hi|(x&Hx1&Hi)]; [left|right; exists x; split; [done|]]; by eapply ledgerHolds_same.
Qed.

(** The registry is in order: the sentinel is there and the ledger holds [rs]. *)
Definition registryOK (rs : list quotaReservation.t) (fs : fsmap) : Prop :=
  ledgerHolds cfg rs fs /\ exists data, fs !! sentinelPath cfg = Some (NFile data) /\
    readAtMost (quotaLedgerLimit + 1) data = quotaLedgerSentinel.

Lemma sentinel_ne_ledger : sentinelPath cfg <> ledgerPath cfg.
Proof.
  unfold sentinelPath, ledgerPath, quotaDir, child. rewrite !app_assoc_str. intros Heq.
  apply app_inj_l_str in Heq. discriminate.
Qed.

Lemma ledgerHolds_empty fs :
  ledgerHolds cfg [] (<[ledgerPath cfg := NFile (printJSON (quotaLedger.toJSON emptyLedger))]> fs).
Proof. eexists. split; [apply lookup_insert_eq|]. split; vm_compute; reflexivity. Qed.

Lemma causes_noQuotaMarkers P entries : causes P (noQuotaMarkers cfg entries).
Proof. unfold noQuotaMarkers. causes_auto. Qed.

Lemma exec_load_fresh w l w' t :
  exec (entries ← perform (OReadDir (root cfg)); _ ← noQuotaMarkers cfg entries;
        _ ← atomicConfig (sentinelPath cfg) quotaLedgerSentinel; _ ← writeLedger cfg emptyLedger;
        mret (M := M wop) emptyLedger) w = (Ok l, w', t) ->
  l = emptyLedger /\ registryOK [] (w_fs w').
Proof.
  intros Hx. apply exec_bind_Ok in Hx as (en&w1&t1&t2&_&Hx&->).
  apply exec_bind_Ok in Hx as (u&w2&t3&t4&_&Hx&->).
  apply exec_bind_Ok in Hx as (u2&w3&t5&t6&[Hs _]%exec_atomic_Ok&Hx&->).
  apply exec_bind_Ok in Hx as (u3&w4&t7&t8&[Hw _]%exec_atomic_Ok&Hx&->).
  apply exec_ret in Hx as ([= <-]&->&->). split; [done|]. rewrite Hw. split; [apply ledgerHolds_empty|].
  exists quotaLedgerSentinel. split; [|vm_compute; reflexivity].
  rewrite lookup_insert_ne by (intros Heq; by apply sentinel_ne_ledger). by rewrite Hs, lookup_insert_eq.
Qed.

Lemma exec_load_Ok fresh w l w' t :
  exec (loadQuotaLedger cfg fresh) w = (Ok l, w', t) ->
  (exists rs, l = quotaLedger.mk 1 (Some rs) /\ registryOK rs (w_fs w')) /\
  (t = [] \/ fresh = true /\ w_fs w !! ledgerPath cfg = None /\ w_fs w !! sentinelPath cfg = None).
Proof.
  intros Hx. unfold loadQuotaLedger in Hx.
  apply exec_bind_Ok in Hx as (rd&w1&t1&t2&Hd&Hx&->). apply exec_try in Hd as (rd'&[= <-]&Hd).
  apply exec_readQuotaMetadata in Hd as (Hw1&->&Ha&Hok).
  apply exec_bind_Ok in Hx as (rsn&w2&t3&t4&Hn&Hx&->). apply exec_try in Hn as (rsn'&[= <-]&Hn).
  apply exec_readQuotaMetadata in Hn as (Hw2&->&Ha2&Hok2). rewrite Hw1 in *. cbn [app].
  destruct (fresh && absent rd && absent rsn) eqn:Ef.
  - apply andb_prop in Ef as [[Hf Hrd]%andb_prop Hrsn]. apply exec_load_fresh in Hx as [-> Hr].
    split; [by exists []|right]. auto.
  - destruct rd as [d|]; [|done]. destruct rsn as [sn|]; [|done].
    destruct (String.eqb_spec sn quotaLedgerSentinel) as [->|]; [|done]. cbn [negb] in Hx.
    rewrite exec_lift_bind in Hx. destruct (strictQuotaJSON _ _ d) as [l0|] eqn:Es; [|done].
    rewrite exec_lift_bind in Hx. destruct (validateQuotaLedger l0) as [[]|] eqn:Ev; [|done].
    apply exec_ret in Hx as ([= <-]&->&->). rewrite Hw2. split; [|by left].
    destruct (Hok d eq_refl) as (data&Hdata&->). destruct (Hok2 _ eq_refl) as (sdata&Hsdata&Hsn).
    pose proof (validateQuotaLedger_Ok _ Ev) as (Hv1&rs&Hrs&_).
    assert (l = quotaLedger.mk 1 (Some rs)) as -> by (destruct l; simpl in *; congruence).
    exists rs. split; [done|]. split; [by exists data|by exists sdata].
Qed.

Lemma storageInventory_census id w inv w' t :
  exec (storageInventory id) w = (Ok inv, w', t) -> exists ids, censusOK inv ids.
Proof.
  unfold storageInventory. intros Hx. apply exec_bind_Ok in Hx as (out&?&?&?&_&Hx&_).
  rewrite exec_lift_bind in Hx. destruct (strictQuotaJSON _ _ _) as [raw|]; [|done].
  apply exec_ret in Hx as (Hx&_). symmetry in Hx. by apply checkInventory_Ok in Hx as (->&?).
Qed.

(** C22: loading fails closed.  A successful load always leaves a registry whose
    sentinel is in place and whose ledger file holds what was returned; it
    starts a new, empty one only when the registry directory was created just
    now and neither file exists.  A lost ledger or sentinel is never replaced. *)
Theorem loadQuotaLedger_fail_closed fresh w l w' t :
  exec (loadQuotaLedger cfg fresh) w = (Ok l, w', t) ->
  (exists rs, l = quotaLedger.mk 1 (Some rs) /\ registryOK rs (w_fs w')) /\
  (t = [] \/ fresh = true /\ w_fs w !! ledgerPath cfg = None /\ w_fs w !! sentinelPath cfg = None).
Proof. apply exec_load_Ok. Qed.

(** C20: a reservation that is handed out is durable and exclusive.  When
    [reserveQuotaProject] succeeds, from any state and with any faults, the
    ledger file decodes to a valid ledger that contains the returned entry for
    the site; in it no two entries share a site, nor a project of one file
    system. *)
Theorem reserveQuotaProject_durable id w e w' t :
  exec (reserveQuotaProject cfg id) w = (Ok e, w', t) ->
  exists rs, ledgerHolds cfg rs (w_fs w') /\ entriesOK rs /\ e ∈ rs /\ quotaReservation.SiteID e = id.
Proof.
  intros Hx. unfold reserveQuotaProject in Hx. destruct (ValidID id) eqn:Eid; [|done]. cbn [negb] in Hx.
  apply exec_bind_Ok in Hx as (n&w1&t1&t2&_&Hx&_).
  apply exec_bind_Ok in Hx as (m&w2&t3&t4&_&Hx&_). destruct (markedOrErr m); [done|].
  apply exec_bind_Ok in Hx as (fresh&w3&t5&t6&_&Hx&_).
  apply exec_bind_Ok in Hx as (l&w4&t7&t8&Hload&Hx&_).
  destruct (exec_load_Ok _ _ _ _ _ Hload) as [(rs&->&Hl&_) _].
  apply exec_bind_Ok in Hx as (inv&w5&t9&t10&Hinv&Hx&_).
  assert (ledgerHolds cfg rs (w_fs w5)) as Hl5.
  { eapply ledgerHolds_same; [|exact Hl]. eapply exec_frame; [|exact Hinv]. by apply causes_storageInventory. }
  destruct (storageInventory_census _ _ _ _ _ Hinv) as [ids Hc].
  cbn [quotaLedger.Reservations quotaLedger.Version] in Hx. cbv zeta in Hx. change (default [] (Some rs)) with rs in Hx.
  rewrite exec_lift_bind in Hx. destruct (chooseReservation rs inv id) as [[x|x]|] eqn:Ech; [| |done].
  - apply exec_ret in Hx as ([= <-]&->&_). exists rs. split; [done|].
    destruct Hl5 as (_&_&_&Hv). apply validateQuotaLedger_Ok in Hv as (_&?&[= <-]&_&_&?). split; [done|].
    unfold chooseReservation in Ech. destruct (List.find (ofSite id) rs) as [y|] eqn:Ef.
    + destruct (_ || _); [done|]. injection Ech as ->. apply List.find_some in Ef as [Hin Hy].
      split; [by apply list_elem_of_In|by apply String.eqb_eq].
    + destruct (_ <=? _); [done|]. by destruct (allocate _ _).
  - apply chooseReservation_new in Ech as [Hfr Hlen].
    destruct (Z.ltb_spec quotaLedgerLimit (lenZ (printJSON (quotaLedger.toJSON (quotaLedger.mk 1 (Some (rs ++ [x])%list))))));
      [done|].
    destruct Hl5 as (data&Hdata&Hs&Hv).
    apply exec_bind_Ok in Hx as (u&w6&t11&t12&Hwr&Hx&_). apply exec_ret in Hx as ([= ->]&->&_).
    exists (rs ++ [x])%list. apply exec_atomic_Ok in Hwr as [-> _].
    pose proof (append_holds rs inv id x Hv ltac:(by eapply strict_ledger_range) Hfr Eid
                  (co_uuid _ _ Hc) Hlen ltac:(done) (w_fs w5)) as Hl6.
    split; [exact Hl6|]. destruct Hl6 as (_&_&_&Hv6). apply validateQuotaLedger_Ok in Hv6 as (_&?&[= <-]&_&_&?).
    split; [done|]. split; [by apply elem_of_app; right; left|apply Hfr].
Qed.
End reserve.

Definition censusAnswer : string :=
  raw "{`verified`:true,`reason`:`verified`,`filesystem_uuid`:`0123456789abcdef0123456789abcdef`,`scanned_inodes`:10,`wordpress_inodes`:4,`database_inodes`:4,`project_ids`:[7,1000000]}".

Definition otherReservation : quotaReservation.t := quotaReservation.mk "bbbbbbbbbbbbbbbb" sampleUUID 1000001.
Definition ledgerText (rs : list quotaReservation.t) : string :=
  printJSON (quotaLedger.toJSON (quotaLedger.mk 1 (Some rs))).

Definition ledgerWorld : world :=
  sampleWorld [("/srv/.quota", NDir); ("/srv/.quota/projects.json", NFile (ledgerText [otherReservation]));
               ("/srv/.quota-initialized", NFile quotaLedgerSentinel)] (fun _ => censusAnswer).

Lemma reserveQuotaProject_append_only_witness :
  exists e w' t, exec (reserveQuotaProject sampleConfig sampleID) ledgerWorld = (Ok e, w', t) /\
    quotaReservation.ProjectID e = 1000002 /\
    (ledgerHolds sampleConfig [otherReservation] (replay t (w_fs ledgerWorld)) \/
     exists e, quotaReservation.SiteID e = sampleID /\
       ledgerHolds sampleConfig ([otherReservation] ++ [e])%list (replay t (w_fs ledgerWorld))).
Proof.
  assert (exists e w' t, exec (reserveQuotaProject sampleConfig sampleID) ledgerWorld = (Ok e, w', t) /\
            quotaReservation.ProjectID e = 1000002) as (e&w'&t&Hx&He).
  { eexists _, _, _. split; [vm_compute; reflexivity|reflexivity]. }
  exists e, w', t. split; [exact Hx|]. split; [exact He|].
  apply (reserveQuotaProject_append_only sampleConfig [otherReservation] sampleID ledgerWorld (Ok e) w' t); [|exact Hx|].
  - exists (ledgerText [otherReservation]). split; [vm_compute; reflexivity|]. split; vm_compute; reflexivity.
  - exists []. by rewrite app_nil_r.
Defined.

Lemma reserveQuotaProject_durable_witness :
  exists e w' t rs, exec (reserveQuotaProject sampleConfig sampleID) ledgerWorld = (Ok e, w', t) /\
    ledgerHolds sampleConfig rs (w_fs w') /\ e ∈ rs.
Proof.
  assert (exists e w' t, exec (reserveQuotaProject sampleConfig sampleID) ledgerWorld = (Ok e, w', t)) as (e&w'&t&Hx)
    by (eexists _, _, _; vm_compute; reflexivity).
  destruct (reserveQuotaProject_durable sampleConfig sampleID ledgerWorld e w' t Hx) as (rs&Hh&_&He&_).
  exists e, w', t, rs. split; [exact Hx|]. split; [exact Hh|exact He].
Defined.

Lemma loadQuotaLedger_fail_closed_witness :
  exists l w' t, exec (loadQuotaLedger sampleConfig false) ledgerWorld = (Ok l, w', t) /\
    exists rs, l = quotaLedger.mk 1 (Some rs) /\ registryOK sampleConfig rs (w_fs w').
Proof.
  assert (exists l w' t, exec (loadQuotaLedger sampleConfig false) ledgerWorld = (Ok l, w', t)) as (l&w'&t&Hx)
    by (eexists _, _, _; vm_compute; reflexivity).
  exists l, w', t. split; [exact Hx|].
  destruct (loadQuotaLedger_fail_closed sampleConfig false ledgerWorld l w' t Hx) as [(rs&Hl&Hr) _].
  exists rs. split; [exact Hl|exact Hr].
Defined.
