(* ===== verification/Capacity.v ===== *)
(** * Capacity: what the host has left, [cmd/worker/resources.go]

    [hostCapacity] adds up what the managed sites are configured for, what
    their containers really have and what other containers use, and asks for
    the free disk space.  Map iteration order, which Go leaves open, is the
    order of [map_to_list]. *)
From S2P Require Import Prelude GoStrings GoPath GoFloat Effects World Core Compose Json GoFloatText Worker QuotaState.

(** ** Decoding *)
Module hostCapacityFields.
Import HostCapacity.
Definition zero : t := mk 0 (fofZ 0) (fofZ 0) 0 (fofZ 0) 0 (fofZ 0) 0 0 0.
Definition setOtherMemory v h := mk v (OtherCPUs h) (CPUs h) (MemoryBytes h) (ReservedCPUs h) (ReservedMemoryBytes h) (AllocatedCPUs h) (AllocatedMemoryBytes h) (DockerDiskFreeBytes h) (DataDiskFreeBytes h).
Definition setOtherCPUs v h := mk (OtherMemoryBytes h) v (CPUs h) (MemoryBytes h) (ReservedCPUs h) (ReservedMemoryBytes h) (AllocatedCPUs h) (AllocatedMemoryBytes h) (DockerDiskFreeBytes h) (DataDiskFreeBytes h).
Definition setCPUs v h := mk (OtherMemoryBytes h) (OtherCPUs h) v (MemoryBytes h) (ReservedCPUs h) (ReservedMemoryBytes h) (AllocatedCPUs h) (AllocatedMemoryBytes h) (DockerDiskFreeBytes h) (DataDiskFreeBytes h).
Definition setMemory v h := mk (OtherMemoryBytes h) (OtherCPUs h) (CPUs h) v (ReservedCPUs h) (ReservedMemoryBytes h) (AllocatedCPUs h) (AllocatedMemoryBytes h) (DockerDiskFreeBytes h) (DataDiskFreeBytes h).
Definition setReservedCPUs v h := mk (OtherMemoryBytes h) (OtherCPUs h) (CPUs h) (MemoryBytes h) v (ReservedMemoryBytes h) (AllocatedCPUs h) (AllocatedMemoryBytes h) (DockerDiskFreeBytes h) (DataDiskFreeBytes h).
Definition setReservedMemory v h := mk (OtherMemoryBytes h) (OtherCPUs h) (CPUs h) (MemoryBytes h) (ReservedCPUs h) v (AllocatedCPUs h) (AllocatedMemoryBytes h) (DockerDiskFreeBytes h) (DataDiskFreeBytes h).
Definition setAllocatedCPUs v h := mk (OtherMemoryBytes h) (OtherCPUs h) (CPUs h) (MemoryBytes h) (ReservedCPUs h) (ReservedMemoryBytes h) v (AllocatedMemoryBytes h) (DockerDiskFreeBytes h) (DataDiskFreeBytes h).
Definition setAllocatedMemory v h := mk (OtherMemoryBytes h) (OtherCPUs h) (CPUs h) (MemoryBytes h) (ReservedCPUs h) (ReservedMemoryBytes h) (AllocatedCPUs h) v (DockerDiskFreeBytes h) (DataDiskFreeBytes h).
Definition setDockerDisk v h := mk (OtherMemoryBytes h) (OtherCPUs h) (CPUs h) (MemoryBytes h) (ReservedCPUs h) (ReservedMemoryBytes h) (AllocatedCPUs h) (AllocatedMemoryBytes h) v (DataDiskFreeBytes h).
Definition setDataDisk v h := mk (OtherMemoryBytes h) (OtherCPUs h) (CPUs h) (MemoryBytes h) (ReservedCPUs h) (ReservedMemoryBytes h) (AllocatedCPUs h) (AllocatedMemoryBytes h) (DockerDiskFreeBytes h) v.
Definition fields : list (string * setter t) :=
  [("other_memory_bytes", setInt64 setOtherMemory); ("other_cpus", setFloat setOtherCPUs); ("cpus", setFloat setCPUs);
   ("memory_bytes", setInt64 setMemory); ("reserved_cpus", setFloat setReservedCPUs);
   ("reserved_memory_bytes", setInt64 setReservedMemory); ("allocated_cpus", setFloat setAllocatedCPUs);
   ("allocated_memory_bytes", setInt64 setAllocatedMemory); ("docker_disk_free_bytes", setInt64 setDockerDisk);
   ("data_disk_free_bytes", setInt64 setDataDisk)].
End hostCapacityFields.

(** A container's limits ([inspect]) and its use ([stats]). *)
Module limitItem.
Record t := mk { Name : string; Memory : Z; CPUs : Z }.
Definition zero : t := mk "" 0 0.
Definition fields : list (string * setter t) :=
  [("Name", setString (fun v x => mk v (Memory x) (CPUs x))); ("Memory", setInt64 (fun v x => mk (Name x) v (CPUs x)));
   ("CPUs", setInt64 (fun v x => mk (Name x) (Memory x) v))].
End limitItem.

Module usageItem.
Record t := mk { Name : string; Memory : string; CPU : string }.
Definition zero : t := mk "" "" "".
Definition fields : list (string * setter t) :=
  [("Name", setString (fun v x => mk v (Memory x) (CPU x))); ("Memory", setString (fun v x => mk (Name x) v (CPU x)));
   ("CPU", setString (fun v x => mk (Name x) (Memory x) v))].
End usageItem.

(** ** Text *)
Definition freeDisk (data : string) : result Z :=
  let ls := split (chrZ 10) (trimSpace data) in
  if Z.of_nat (length ls) <? 2 then Err (EMsg "disk capacity unavailable")
  else match fields (default "" (last ls)) with
  | _ :: _ :: _ :: f3 :: _ =>
      match parseInt f3 with
      | Ok n => if (n <? 0) || (2 ^ 50 <? n) then Err (EMsg "invalid disk capacity") else Ok (wrap64 (n * 1024))
      | Err _ => Err (EMsg "invalid disk capacity")
      end
  | _ => Err (EMsg "invalid disk capacity")
  end.

Fixpoint spanNumber (s : string) : string * string :=
  match s with
  | String c r => if isDigit c || Ascii.eqb c "." then let '(a, b) := spanNumber r in (String c a, b) else ("", s)
  | EmptyString => ("", "")
  end.

Definition unitMultiplier (unit : string) : Z :=
  match unit with
  | "B" => 1
  | "kB" | "KB" => 1000
  | "MB" => 1000000
  | "GB" => 1000000000
  | "TB" => 1000000000000
  | "KiB" => 1024
  | "MiB" => 2 ^ 20
  | "GiB" => 2 ^ 30
  | "TiB" => 2 ^ 40
  | _ => 0
  end.

Definition memoryUsageBytes (rawUsage : string) : result Z :=
  let value := trimSpace (hd "" (splitN2 "/" rawUsage)) in
  let '(number, unit) := spanNumber value in
  if String.eqb number "" then Err (EMsg "invalid container memory usage")
  else match parseFloat number with
  | Ok amount =>
      if fltb amount (fofZ 0) || fgtb amount (fofZ (2 ^ 40)) then Err (EMsg "invalid container memory usage")
      else
        let multiplier := fofZ (unitMultiplier (trimSpace unit)) in
        if feqb multiplier (fofZ 0) || fgtb (fmul amount multiplier) (fofZ (2 ^ 60))
        then Err (EMsg "invalid container memory unit")
        else Ok (fToInt64 (fmul amount multiplier))
  | Err _ => Err (EMsg "invalid container memory usage")
  end.

(** ** The census of containers *)

(** What the three passes over Docker's answers accumulate. *)
Record census := Census {
  c_allocated : gmap string Resources.t;
  c_names : list string;
  c_managed : gset string;
  c_other : gset string;
}.

Definition ownedService (id : string) (c : dockerItem.t) : bool :=
  ValidID id &&
  (String.eqb (dockerItem.Service c) "wordpress" && String.eqb (dockerItem.Name c) ("wph-wp-" +:+ id) ||
   String.eqb (dockerItem.Service c) "db" && String.eqb (dockerItem.Name c) ("wph-db-" +:+ id)).

Definition listContainer (excludeID : string) (s : census) (c : dockerItem.t) : census :=
  let id := trimPrefix (dockerItem.Project c) "wph-" in
  let name := dockerItem.Name c in
  if ownedService id c then
    if String.eqb id excludeID then s
    else Census (c_allocated s) (c_names s ++ [name])%list ({[name]} ∪ c_managed s) (c_other s)
  else if String.eqb (dockerItem.State c) "running"
  then Census (c_allocated s) (c_names s ++ [name])%list (c_managed s) ({[name]} ∪ c_other s)
  else s.

(** [max(r.CPUs, x)] and rounding bytes up to MiB. *)
Definition toMiB (bytes : Z) : Z := Z.quot (wrap64 (bytes + 1024 * 1024 - 1)) (1024 * 1024).
Definition nanoCPUs (n : Z) : f64 := fdiv (fofZ n) (fofZ 1000000000).

(** Containers to sample: which of memory and CPU have no limit. *)
Record tally := Tally {
  t_allocated : gmap string Resources.t;
  t_memory : Z;
  t_cpus : f64;
  t_samples : list (string * (bool * bool));
}.

Definition inspectContainer (s : census) (a : tally) (c : limitItem.t) : result tally :=
  let name := trimPrefix (limitItem.Name c) "/" in
  let m := limitItem.Memory c in
  let n := limitItem.CPUs c in
  if (m <? 0) || (n <? 0) then Err (EMsg "invalid Docker resource limits")
  else if bool_decide (name ∈ c_managed s) then
    if (m <=? 0) || (n <=? 0)
    then Err (EMsg "a managed container has no resource limit; inspect it before allocating capacity")
    else
      let r := default (Resources.mk 0 (fofZ 0)) (t_allocated a !! name) in
      let r := Resources.mk (Z.max (Resources.MemoryMB r) (toMiB m)) (fmax (Resources.CPUs r) (nanoCPUs n)) in
      Ok (Tally (<[name := r]> (t_allocated a)) (t_memory a) (t_cpus a) (t_samples a))
  else if bool_decide (name ∈ c_other s) then
    Ok (Tally (t_allocated a)
          (if 0 <? m then wrap64 (t_memory a + m) else t_memory a)
          (if 0 <? n then fadd (t_cpus a) (nanoCPUs n) else t_cpus a)
          (if (m =? 0) || (n =? 0) then (t_samples a ++ [(name, (m =? 0, n =? 0))])%list else t_samples a))
  else Err (EMsg "unexpected container in capacity inspection").

Fixpoint foldR {A B} (f : A -> B -> result A) (a : A) (l : list B) : result A :=
  match l with
  | [] => Ok a
  | x :: l' => a' ← f a x; foldR f a' l'
  end.

Definition samplesMap (l : list (string * (bool * bool))) : gmap string (bool * bool) :=
  foldl (fun m kv => <[kv.1 := kv.2]> m) ∅ l.

Definition sampleContainer (samples : gmap string (bool * bool)) (a : gset string * Z * f64) (c : usageItem.t)
  : result (gset string * Z * f64) :=
  let '(seen, mem, cpus) := a in
  let name := usageItem.Name c in
  match samples !! name with
  | None => Err (EMsg "unexpected container statistics")
  | Some (needMemory, needCPU) =>
      if bool_decide (name ∈ seen) then Err (EMsg "unexpected container statistics")
      else
        mem' ← (if needMemory : bool then m ← memoryUsageBytes (usageItem.Memory c); Ok (wrap64 (mem + m)) else Ok mem);
        cpus' ← (if needCPU : bool then
                   match parseFloat (trimSuffix (usageItem.CPU c) "%") with
                   | Ok cpu => if isNaN cpu || isInf cpu || fltb cpu (fofZ 0) || fgtb cpu (fofZ 100000)
                               then Err (EMsg "invalid container CPU usage")
                               else Ok (fadd cpus (fdiv cpu (fofZ 100)))
                   | Err _ => Err (EMsg "invalid container CPU usage")
                   end
                 else Ok cpus);
        Ok ({[name]} ∪ seen, mem', cpus')
  end.

Definition psStateFormat : string :=
  raw "{`name`:{{json .Names}},`project`:{{json (.Label `com.docker.compose.project`)}},`service`:{{json (.Label `com.docker.compose.service`)}},`state`:{{json .State}}}".
Definition limitFormat : string := raw "{`name`:{{json .Name}},`memory`:{{.HostConfig.Memory}},`cpus`:{{.HostConfig.NanoCpus}}}".
Definition statsFormat : string := raw "{`name`:{{json .Name}},`memory`:{{json .MemUsage}},`cpu`:{{json .CPUPerc}}}".

Definition sumAllocated (l : list (string * Resources.t)) (a : Z * f64) : Z * f64 :=
  foldl (fun '(m, c) kv => (wrap64 (m + wrap64 (Resources.MemoryMB kv.2 * 1024 * 1024)), fadd c (Resources.CPUs kv.2))) a l.

Section capacity.
Context (cfg : config).

Definition configuredResources (id : string) : M wop Resources.t :=
  if negb (ValidID id) then fail (EMsg "invalid site ID")
  else
    data ← perform (ORead (composePath cfg id));
    r ← lift (composeResources data None);
    mret r.1.

(** Every configured site but the excluded one, under both container names. *)
Definition configuredSites (excludeID : string) (entries : list (string * bool)) : M wop (gmap string Resources.t) :=
  forM entries ∅ (fun allocated e =>
    let id := e.1 in
    if negb (ValidID id) || negb e.2 || String.eqb id excludeID then mret allocated
    else
      r ← try (configuredResources id);
      match r with
      | Ok r => mret (<["wph-db-" +:+ id := r]> (<["wph-wp-" +:+ id := r]> allocated))
      | Err e => if isNotExist e then mret allocated else fail (EWrap ("capacity for site " +:+ id) e)
      end).

(** The statistics of the containers without limits. *)
Definition sampleUsage (a : tally) : M wop tally :=
  match t_samples a with
  | [] => mret a
  | l =>
      out ← dockerOutput (["stats"; "--no-stream"; "--format"; statsFormat] ++ map fst l)%list;
      let '(items, err) := decodeMore usageItem.fields usageItem.zero out in
      let samples := samplesMap l in
      r ← lift (foldR (sampleContainer samples) (∅, t_memory a, t_cpus a) items);
      _ ← lift (of_err err);
      let '(seen, mem, cpus) := r in
      if negb (Nat.eqb (size (seen : gset string)) (size samples))
      then fail (EMsg "container usage changed during capacity inspection; refresh and retry")
      else mret (Tally (t_allocated a) mem cpus (t_samples a))
  end.

(** The nearest existing directory above [path]; a path has at most as many
    ancestors as bytes. *)
Fixpoint existingRoot (fuel : nat) (path : string) : M wop string :=
  match fuel with
  | O => fail (EMsg "panel storage unavailable")
  | S f =>
      r ← try (perform (OStat path));
      if is_ok r then mret path
      else if String.eqb (dir path) path then fail (EMsg "panel storage unavailable")
      else existingRoot f (dir path)
  end.

Definition hostCapacity (excludeID : string) : M wop HostCapacity.t :=
  if negb (String.eqb excludeID "") && negb (ValidID excludeID) then fail (EMsg "invalid site ID")
  else
    info ← dockerOutput ["info"; "--format"; raw "{`cpus`:{{.NCPU}},`memory_bytes`:{{.MemTotal}}}"];
    h ← lift (v ← parseJSON info; decodeStruct false hostCapacityFields.fields v hostCapacityFields.zero);
    if fleb (HostCapacity.CPUs h) (fofZ 0) || (HostCapacity.MemoryBytes h <=? 0)
    then fail (EMsg "Docker host capacity unavailable")
    else
      let h := hostCapacityFields.setReservedMemory (Z.max (512 * 1024 * 1024) (HostCapacity.MemoryBytes h / 5)) h in
      let h := hostCapacityFields.setReservedCPUs (quarter 2) h in
      entries ← readDirOrNone (root cfg);
      allocated ← configuredSites excludeID entries;
      out ← dockerOutput ["ps"; "-a"; "--format"; psStateFormat];
      items ← lift (streamAll (decodeMore dockerItem.stateFields dockerItem.zero out));
      let s := foldl (listContainer excludeID) (Census allocated [] ∅ ∅) items in
      a ← match c_names s with
          | [] => mret (Tally allocated (HostCapacity.OtherMemoryBytes h) (HostCapacity.OtherCPUs h) [])
          | names =>
              out ← dockerOutput (["inspect"; "--format"; limitFormat] ++ names)%list;
              let '(limits, err) := decodeMore limitItem.fields limitItem.zero out in
              a ← lift (foldR (inspectContainer s)
                          (Tally allocated (HostCapacity.OtherMemoryBytes h) (HostCapacity.OtherCPUs h) []) limits);
              _ ← lift (of_err err);
              sampleUsage a
          end;
      let '(mem, cpus) := sumAllocated (map_to_list (t_allocated a))
                            (HostCapacity.AllocatedMemoryBytes h, HostCapacity.AllocatedCPUs h) in
      let h := hostCapacityFields.setOtherMemory (t_memory a) (hostCapacityFields.setOtherCPUs (t_cpus a) h) in
      let h := hostCapacityFields.setAllocatedMemory mem (hostCapacityFields.setAllocatedCPUs cpus h) in
      out ← dockerOutput ["run"; "--rm"; "--name"; "wph-capacity-probe"; "--network"; "none"; "--read-only"; "--memory"; "32m";
                          "--cpus"; "0.25"; "alpine:3.22"; "df"; "-Pk"; "/"];
      docker ← lift (freeDisk out);
      path ← existingRoot (S (String.length (root cfg))) (root cfg);
      out ← perform (OCmd (CExec ["df"; "-Pk"; path]));
      data ← lift (freeDisk out);
      mret (hostCapacityFields.setDataDisk data (hostCapacityFields.setDockerDisk docker h)).

Definition checkCapacity (id : string) (r : Resources.t) : M wop unit :=
  _ ← lift (validateResources r);
  h ← try (hostCapacity id);
  match h with
  | Err e => fail (EWrap "unable to verify host capacity" e)
  | Ok h => match checkHost h r with
            | Err e => fail (ECapacity e)
            | Ok _ => mret tt
            end
  end.
End capacity.

(** ** Events: Docker and the host are only asked *)
Section events.
Context (cfg : config) `{Env} (P : event -> Prop) (Hout : forall args, P (EvCmd (COutput args)))
        (Hexec : forall args, P (EvCmd (CExec args))).

Lemma causes_configuredResources id : causes P (configuredResources cfg id).
Proof. unfold configuredResources. causes_auto. Qed.

Lemma causes_existingRoot fuel path : causes P (existingRoot fuel path).
Proof. revert path. induction fuel as [|f IH]; intros path; cbn [existingRoot]; causes_auto. Qed.

Lemma causes_sampleUsage a : causes P (sampleUsage a).
Proof. unfold sampleUsage. causes_auto; by apply causes_output. Qed.

Lemma causes_configuredSites ex entries : causes P (configuredSites cfg ex entries).
Proof. unfold configuredSites. causes_auto. apply causes_configuredResources. Qed.

Lemma causes_readDirOrNone path : causes P (readDirOrNone path).
Proof. unfold readDirOrNone. causes_auto. Qed.

Lemma causes_hostCapacity ex : causes P (hostCapacity cfg ex).
Proof.
  unfold hostCapacity. causes_auto;
    first [apply causes_readDirOrNone|apply causes_configuredSites|apply causes_sampleUsage
          |apply causes_existingRoot|by apply causes_output|by apply causes_cmd].
Qed.

Lemma causes_checkCapacity id r : causes P (checkCapacity cfg id r).
Proof. unfold checkCapacity. causes_auto. apply causes_hostCapacity. Qed.
End events.
