(* ===== verification/Operations.v ===== *)
(** * Operations: receipts of long operations and the site's runtime state

    [cmd/worker/runtime.go].  The HTTP request is its path, its body and its
    operation header; the closure [trackOperation] returns is the pair of the
    pending receipt and [finishOperation]. *)
From S2P Require Import Prelude GoStrings GoPath GoRegexp GoFloat GoTime Effects World Core Compose Json CoreJson Policy Worker QuotaState Capacity.

Definition pendingOp (op : Operation.t) : bool := String.eqb (Operation.State op) "pending".

Definition withOutcome (op : Operation.t) (state : string) (finished : time) (err : string) : Operation.t :=
  Operation.mk (Operation.ID op) (Operation.Kind op) state (Operation.StartedAt op) finished err
    (Operation.Backup op) (Operation.AdmissionRejected op).

(** The fields of the body a receipt needs. *)
Module receiptBody.
Record t := mk { Site : Site.t; ID : string; Action : string }.
Definition zero : t := mk SiteJSON.zero "" "".
Definition fields : list (string * setter t) :=
  [("Site", setNested SiteJSON.fields Site (fun v b => mk v (ID b) (Action b)));
   ("ID", setString (fun v b => mk (Site b) v (Action b))); ("Action", setString (fun v b => mk (Site b) (ID b) v))].
End receiptBody.

Section operations.
Context (cfg : config) `{Unicode} `{Codec Operation.t}.

Definition operationsDir : string := root cfg +/+ ".operations".
Definition operationPath (id : string) : string := operationsDir +/+ (id +:+ ".json").

Definition saveOperation (id : string) (op : Operation.t) : M wop unit :=
  _ ← perform (OMkdirAll operationsDir);
  data ← lift (marshal op);
  atomicConfig (operationPath id) data.

Definition loadOperation (id : string) : M wop (option Operation.t) :=
  r ← try (perform (ORead (operationPath id)));
  match r with
  | Err e => if isNotExist e then mret None else fail e
  | Ok data => op ← lift (unmarshal data); mret (Some op)
  end.

(** ** Receipts *)
Definition trackedPaths : list string := ["/create"; "/action"; "/backup"; "/restore"; "/update"; "/resources"].

(** The site and the kind a tracked request is about. *)
Definition receiptTarget (path : string) (body : receiptBody.t) : string * string :=
  if String.eqb path "/action" then (receiptBody.ID body, receiptBody.Action body)
  else (Site.ID (receiptBody.Site body), trimPrefix path "/").

(** [trackOperation]: the site, the kind and the pending receipt it stored.
    [raw] is the request's body, or the error of reading it. *)
Definition trackOperation (path operationID : string) (raw : result string) : M wop (string * string * Operation.t) :=
  if negb (ValidID operationID) then fail (EMsg "invalid operation ID")
  else if negb (existsb (String.eqb path) trackedPaths) then fail (EMsg "operation receipt not supported")
  else
  raw ← lift raw;
  match (v ← parseJSON raw; decodeStruct false receiptBody.fields v receiptBody.zero) with
  | Err _ => fail (EMsg "invalid request")
  | Ok body =>
      let '(id, kind) := receiptTarget path body in
      if negb (ValidID id) then fail (EMsg "invalid site ID")
      else
        previous ← loadOperation id;
        if match previous with
           | Some p => String.eqb (Operation.ID p) operationID || pendingOp p
           | None => false
           end
        then fail (EMsg "operation already submitted or unresolved; inspect its receipt")
        else
          now ← get ONow;
          let op := Operation.mk operationID kind "pending" now zeroTime "" None false in
          _ ← saveOperation id op;
          mret (id, kind, op)
  end.

Definition failureText : string := "Worker operation failed; inspect the activity log.".

(** The closure [trackOperation] returns: [outcome] is the operation's result,
    [backup] the backup it may carry. *)
Definition finishOperation (id kind : string) (op : Operation.t) (outcome : option error) (backup : option Backup.t)
  : M wop unit :=
  now ← get ONow;
  let rejected := match outcome with Some e => asAdmission e | None => None end in
  let admitted := String.eqb kind "resources" && match rejected with Some safe => safe | None => false end in
  _ ← match outcome, rejected with
      | Some _, None =>
          r ← try (quiesceSite cfg id kind);
          match r with
          | Err e => fail (EWrap "failed operation could not be fenced" e)
          | Ok _ => mret tt
          end
      | _, _ => mret tt
      end;
  let state := match outcome with Some _ => "failed" | None => "succeeded" end in
  let text := match outcome with Some _ => failureText | None => Operation.Error op end in
  saveOperation id
    (Operation.mk (Operation.ID op) (Operation.Kind op) state (Operation.StartedAt op) now text
       (match backup with Some b => Some b | None => Operation.Backup op end)
       (admitted || Operation.AdmissionRejected op)).

(** ** Runtime snapshot *)
Definition runtimeFormat : string :=
  raw "{`name`:{{json .Name}},`project`:{{json (index .Config.Labels `com.docker.compose.project`)}},`service`:{{json (index .Config.Labels `com.docker.compose.service`)}},`status`:{{json .State.Status}},`memory`:{{.HostConfig.Memory}},`cpus`:{{.HostConfig.NanoCpus}},`restart`:{{json .HostConfig.RestartPolicy.Name}},`security_opts`:{{json .HostConfig.SecurityOpt}},`health`:{{with (index .State `Health`)}}{{json .Status}}{{else}}``{{end}}}".

(** [fmt.Errorf("text: %w", err)] around a result. *)
Definition wrapErr {A} (text : string) (r : result A) : result A :=
  match r with Ok a => Ok a | Err e => Err (EWrap text e) end.

(** The last container of the stream that is this service of this site. *)
Definition findService (id service prefix : string) (cs : list containerState.t) : option containerState.t :=
  last (filter (fun c => String.eqb (containerState.Project c) ("wph-" +:+ id) &&
                         String.eqb (containerState.Service c) service &&
                         String.eqb (containerState.Name c) (prefix +:+ id) = true) cs).

Definition healthy (c : containerState.t) : bool :=
  String.eqb (containerState.Health c) "" || String.eqb (containerState.Health c) "healthy".
Definition running (c : containerState.t) : bool := String.eqb (containerState.Status c) "running".
Definition halted (c : containerState.t) : bool :=
  String.eqb (containerState.Status c) "exited" || String.eqb (containerState.Status c) "created".

Definition limitsMatch (r : Resources.t) (c : containerState.t) : bool :=
  (containerState.Memory c =? wrap64 (Resources.MemoryMB r * 1024 * 1024)) &&
  (containerState.CPUs c =? fToInt64 (fmul (Resources.CPUs r) (fofZ 1000000000))).

Definition settled (status : string) : bool := String.eqb status StatusRunning || String.eqb status StatusStopped.

(** The status and detail Docker's report gives, before the quota records and
    the route are looked at. *)
Definition classify (configured : option Resources.t) (wp db : containerState.t) : string * string :=
  let s :=
    if running wp && running db && healthy wp && healthy db then (StatusRunning, "")
    else if halted wp && halted db then (StatusStopped, "")
    else (StatusUnhealthy, "WordPress: " +:+ containerState.Status wp +:+ " " +:+ containerState.Health wp +:+ "; database: " +:+
            containerState.Status db +:+ " " +:+ containerState.Health db +:+
            ". Start the site and inspect its logs if the problem persists.") in
  let s :=
    match configured with
    | Some r => if settled s.1 && negb (limitsMatch r wp && limitsMatch r db)
                then (StatusUnhealthy, "Configured resources differ from Docker limits. Start the site to apply its saved configuration.")
                else s
    | None => s
    end in
  if settled s.1 && negb (Active (profile cfg) (containerState.SecurityOpts wp) && Active (profile cfg) (containerState.SecurityOpts db))
  then (StatusUnhealthy, "Site services need the current writer security policy. Start the site to apply it with existing volumes.")
  else s.

Definition quotaBlockedDetail : string :=
  "Quota startup is blocked. Verify storage and the saved quota record, then explicitly start the site.".

(** The quota records of a marked site. *)
Definition quotaStatus (id : string) (wp db : containerState.t) (s : string * string) : M wop (string * string) :=
  m ← quotaMarked cfg id;
  if negb (markedOrErr m) then mret s
  else
    guard ← try (loadQuotaGuard cfg id);
    intent ← try (loadQuotaIntent cfg id);
    let ok := match m.2, guard, intent with
              | None, Ok (Some _), Ok i =>
                  negb (String.eqb (quotaIntent.State i) "blocked") && String.eqb (containerState.Restart wp) "no" &&
                  String.eqb (containerState.Restart db) "no"
              | _, _, _ => false
              end in
    mret (if ok then s else (StatusUnhealthy, quotaBlockedDetail)).

Definition routeStatus (id : string) (s : string * string) : M wop (string * string) :=
  if negb (String.eqb s.1 StatusRunning) then mret s
  else
    r ← try (perform (OStat (routes cfg +/+ (id +:+ ".caddy"))));
    match r with
    | Ok _ => mret s
    | Err e => if isNotExist e then mret (StatusUnhealthy, "Domain route is missing. Inspect the server route configuration.")
               else fail e
    end.

(** A pending receipt is fenced and closed before the site is reported on. *)
Definition recoverPending (id : string) (op : option Operation.t) : M wop (option Operation.t) :=
  match op with
  | Some o =>
      if pendingOp o then
        _ ← quiesceSite cfg id (Operation.Kind o);
        now ← get ONow;
        let o := withOutcome o "interrupted" now "Worker restarted before the operation finished." in
        _ ← saveOperation id o;
        mret (Some o)
      else mret op
  | None => mret op
  end.

Definition runtimeSnapshot (id : string) (recover : bool) : M wop SiteRuntime.t :=
  if negb (ValidID id) then fail (EMsg "invalid site ID")
  else
    configured ← try (configuredResources cfg id);
    _ ← match configured with
        | Err e => if isNotExist e then mret tt else fail e
        | Ok _ => mret tt
        end;
      let resources := match configured with Ok r => Some r | Err _ => None end in
      op ← loadOperation id;
      op ← (if recover then recoverPending id op else mret op);
      let answer s := SiteRuntime.mk (fst s) (snd s) op resources in
      out ← dockerOutput ["ps"; "-a"; "--filter"; "label=com.docker.compose.project=wph-" +:+ id; "--format"; "{{.ID}}"];
      match fields out with
      | [] => mret (answer (StatusUnhealthy, "Site containers are missing. Start the site to recreate services with existing volumes."))
      | ids =>
          if 20 <? Z.of_nat (length ids) then fail (EMsg "unexpected number of site containers")
          else
            out ← dockerOutput (["inspect"; "--format"; runtimeFormat] ++ ids)%list;
            cs ← lift (wrapErr "invalid Docker runtime response" (streamAll (decodeStream containerState.fields containerState.zero out)));
            match findService id "wordpress" "/wph-wp-" cs, findService id "db" "/wph-db-" cs with
            | Some wp, Some db =>
                s ← quotaStatus id wp db (classify resources wp db);
                s ← routeStatus id s;
                mret (answer s)
            | _, _ => mret (answer (StatusUnhealthy, "A site service is missing. Start the site to recreate it with existing volumes."))
            end
      end.

Definition runtime (id : string) : M wop SiteRuntime.t := runtimeSnapshot id true.

(** ** Startup *)
Definition toolFormat : string := raw "{ `name`:{{json .Names}},`project`:{{json (.Label `com.docker.compose.project`)}} }".

Definition isTool (t : dockerItem.t) : bool :=
  let id := trimPrefix (dockerItem.Name t) "wph-pma-" in
  ValidID id && String.eqb (dockerItem.Name t) ("wph-pma-" +:+ id) && String.eqb (dockerItem.Project t) ("wph-" +:+ id).

Definition removeStaleDatabaseTools : M wop unit :=
  out ← dockerOutput ["ps"; "-a"; "--filter"; "label=com.docker.compose.service=phpmyadmin"; "--format"; toolFormat];
  let '(tools, err) := decodeStream dockerItem.toolFields dockerItem.zero out in
  _ ← forM tools tt (fun _ t =>
        if isTool t then
          r ← try (dockerRun ["rm"; "-f"; dockerItem.Name t]);
          match r with Err e => fail (EWrap "close previous database session" e) | Ok _ => mret tt end
        else mret tt);
  lift (of_err err).

(** The site a receipt file belongs to. *)
Definition receiptSite (name : string) : option string :=
  let id := trimSuffix name ".json" in
  if ValidID id && String.eqb name (id +:+ ".json") then Some id else None.

Definition recoverInterruptedJobs : M wop unit :=
  _ ← removeOwnedJobs "";
  entries ← readDirOrNone operationsDir;
  forM entries tt (fun _ e =>
    match receiptSite e.1 with
    | None => mret tt
    | Some id =>
        op ← loadOperation id;
        match op with
        | Some o =>
            if pendingOp o then
              _ ← quiesceSite cfg id (Operation.Kind o);
              now ← get ONow;
              saveOperation id
                (withOutcome o "interrupted" now "Worker restarted before the operation finished; remaining jobs were stopped.")
            else mret tt
        | None => mret tt
        end
    end).
End operations.
