(* ===== verification/Quota.v ===== *)
(** * Quota: launching and supervising quota-managed sites

    The protocol of [cmd/worker/quota_restart.go]: every path that launches a
    writer goes through [quotaPreflight], every failure ends in the fence, and
    the supervisor resumes only what was recorded as running. *)
From S2P Require Import Prelude GoStrings GoPath GoRegexp GoFloat GoTime Effects World Core Compose Json Policy Worker QuotaState Storage Capacity Operations.

Module verifyResult.
Record t := mk { Verified : bool; Reason : string }.
Definition zero : t := mk false "".
Definition fields : list (string * setter t) :=
  [("verified", setBool (fun v r => mk v (Reason r))); ("reason", setString (fun v r => mk (Verified r) v))].
End verifyResult.

Section quota.
Context (cfg : config) `{Unicode} `{Codec Operation.t}.

Definition verifyQuotaStorage (id : string) (guard : option quotaGuard.t) : M wop unit :=
  match guard with
  | None => fail (EMsg "quota record disappeared during verification")
  | Some g =>
      out ← try (runStorageProbe id ["--guard"; itoa (quotaGuard.ProjectID g); itoa (quotaGuard.HardBytes g);
                                      quotaGuard.FilesystemUUID g]);
      match out with
      | Err e => fail (EWrap "quota verification failed" e)
      | Ok out =>
          r ← lift (decodeOne true verifyResult.fields verifyResult.zero "extra quota verification output" out);
          if negb (verifyResult.Verified r) || negb (String.eqb (verifyResult.Reason r) "verified")
          then fail (EMsg "quota enforcement, project attributes or hard limit could not be verified")
          else mret tt
      end
  end.

(** A container that the fence may be relied on for. *)
Definition guardedWriter (c : containerState.t) : bool :=
  String.eqb (containerState.Restart c) "no" && Active (profile cfg) (containerState.SecurityOpts c).

(** The checks of [quotaPreflight] on a marked site, without the fence.
    [markErr] is the error of [quotaMarked]: then nothing is launched, but the
    record has been read. *)
Definition preflightChecks (id : string) (markErr : option error) : M wop unit :=
  loaded ← try (loadQuotaGuard cfg id);
  match markErr with
  | Some e => fail e
  | None =>
      guard ← lift loaded;
      match guard with
      | None => fail (EMsg "quota marker disappeared during verification")
      | Some _ =>
          _ ← ensureQuotaRestartCompose cfg id;
          _ ← verifyQuotaStorage id guard;
          states ← quotaContainers id;
          if forallb guardedWriter states then mret tt
          else fail (EMsg "quota writers need restart=no and the current security profile")
      end
  end.

(** [errors.Join(err, w.fenceQuotaSite(ctx, id, state))] when [err] is set. *)
Definition fenced (id state : string) (err : error) : M wop unit :=
  f ← try (fenceQuotaSite cfg id state);
  lift (of_err (errorsJoin [Some err; err_of f])).

Definition orFence (id state : string) (p : M wop unit) : M wop unit :=
  r ← try p;
  match r with Ok _ => mret tt | Err e => fenced id state e end.

Definition quotaPreflight (id : string) : M wop unit :=
  m ← quotaMarked cfg id;
  if negb (markedOrErr m) then mret tt
  else orFence id "blocked" (preflightChecks id m.2).

Definition finishQuotaWrite (id : string) (outcome : result unit) : M wop unit :=
  m ← quotaMarked cfg id;
  if negb (markedOrErr m) then lift outcome
  else match m.2, outcome with
  | None, Err e =>
      match asAdmission e with
      | Some true =>
          r ← try (quotaPreflight id);
          match r with
          | Err pe => fail (EJoin [EMsg (errorText e); pe])
          | Ok _ => fail e
          end
      | _ => fenced id "blocked" e
      end
  | Some me, _ =>
      f ← try (fenceQuotaSite cfg id "blocked");
      lift (of_err (errorsJoin [err_of outcome; Some me; err_of f]))
  | None, Ok _ => quotaPreflight id
  end.

Definition prepareRestore (id : string) : M wop unit :=
  deferred
    (_ ← quotaPreflight id;
     _ ← ensureWriterPolicy cfg id;
     _ ← setQuotaIntent cfg id "maintenance";
     _ ← dockerRun (composeArgs cfg id ["stop"; "wordpress"]);
     dockerRun (composeArgs cfg id ["up"; "-d"; "--wait"; "db"]))
    (finishQuotaWrite id).

Definition isMainService (c : containerState.t) : bool :=
  String.eqb (containerState.Service c) "wordpress" || String.eqb (containerState.Service c) "db".
Definition mainServices (cs : list containerState.t) : list containerState.t :=
  filter (fun c => isMainService c = true) cs.

(** The check after the start, then the record that the site runs. *)
Definition confirmStart (id : string) : M wop unit :=
  states ← quotaContainers id;
  if negb (forallb running (mainServices states)) then fail (EMsg "quota service did not start")
  else if negb (Nat.eqb (length (mainServices states)) 2) then fail (EMsg "quota service is missing after start")
  else saveQuotaIntent cfg id "running".

Definition startArgs (id : string) : list string := composeArgs cfg id ["up"; "-d"; "--wait"; "wordpress"; "db"].

Definition startQuotaSite (id : string) : M wop unit :=
  _ ← fenceQuotaSite cfg id "blocked";
  _ ← quotaPreflight id;
  resources ← configuredResources cfg id;
  _ ← checkCapacity cfg id resources;
  started ← try (dockerRun (startArgs id));
  match started with
  | Err e => fenced id "blocked" e
  | Ok _ =>
      _ ← quotaPreflight id;
      orFence id "blocked" (confirmStart id)
  end.

(** ** The supervisor *)
Definition resolvedOp (op : option Operation.t) : bool :=
  match op with
  | None => true
  | Some o => String.eqb (Operation.State o) "succeeded" ||
              (String.eqb (Operation.Kind o) "resources" && String.eqb (Operation.State o) "failed" &&
               Operation.AdmissionRejected o)
  end.

Definition stoppedWordPress (c : containerState.t) : bool :=
  negb (String.eqb (containerState.Service c) "wordpress") ||
  String.eqb (containerState.Status c) "exited" || String.eqb (containerState.Status c) "created" ||
  String.eqb (containerState.Status c) "dead".

(** Fence a site and hand over the failure to report, if any. *)
Definition fenceReport (id state : string) : M wop (option error) :=
  r ← try (fenceQuotaSite cfg id state); mret (err_of r).

(** One site of [reconcileQuotaSites]: the failure it contributes. *)
Definition reconcileSite (startup : bool) (id : string) : M wop (option error) :=
  m ← quotaMarked cfg id;
  if negb (markedOrErr m) then mret None
  else
    guard ← try (loadQuotaGuard cfg id);
    intent ← try (loadQuotaIntent cfg id);
    op ← try (loadOperation cfg id);
    match m.2, guard, intent, op with
    | None, Ok (Some g), Ok i, Ok o =>
        let state := quotaIntent.State i in
        let maintenance := String.eqb state "maintenance" in
        if negb (resolvedOp o) then fenceReport id "blocked"
        else if negb (String.eqb state "running") && (startup || negb maintenance)
        then fenceReport id (if maintenance then "blocked" else state)
        else
          ready ← try (_ ← ensureQuotaRestartCompose cfg id; verifyQuotaStorage id (Some g));
          match ready with
          | Err _ => fenceReport id "blocked"
          | Ok _ =>
              states ← try (quotaContainers id);
              match states with
              | Err _ => fenceReport id "blocked"
              | Ok cs =>
                  if negb (Nat.leb 2 (length cs) && forallb guardedWriter cs) then fenceReport id "blocked"
                  else if maintenance
                  then (if forallb stoppedWordPress cs then mret None else fenceReport id "blocked")
                  else if forallb running (mainServices cs) && Nat.eqb (length (mainServices cs)) 2 then mret None
                  else _ ← try (startQuotaSite id); mret None
              end
          end
    | _, _, _, _ => fenceReport id "blocked"
    end.

Definition reconcileQuotaSites (startup : bool) : M wop unit :=
  entries ← readDirOrNone (root cfg);
  failures ← forM (filter (fun e => isSiteDir e = true) entries) [] (fun failures e =>
    f ← reconcileSite startup e.1;
    mret (failures ++ [f])%list);
  lift (of_err (errorsJoin failures)).
End quota.
