(* ===== verification/QuotaFacts.v ===== *)
(** * QuotaFacts: the fence holds

    What the fence may do, what a successful fence leaves on disk, and that a
    writer is launched only behind it. *)
From S2P Require Import Prelude GoStrings GoPath GoRegexp GoFloat GoTime Effects World Core CoreFacts Compose Json JsonFacts CoreJson CoreJsonFacts JsonFacts Policy Worker QuotaState Storage Samples Capacity Operations Quota.
Set Warnings "-register-all".

(** A list splits in one way around the only element that violates [P]. *)
Lemma split_unique {A} (P : A -> Prop) (l1 l2 k1 k2 : list A) x y :
  Forall P k1 -> Forall P k2 -> ~ P x -> ~ P y -> (l1 ++ x :: l2 = k1 ++ y :: k2)%list -> l1 = k1 /\ x = y /\ l2 = k2.
Proof.
  intros H1 H2 Hx Hy. revert l1. induction H1 as [|z k1 Hz _ IH]; intros [|u l1]; simpl.
  - by intros [= <- <-].
  - intros [= <- <-]. apply Forall_app in H2 as [_ H2]. by inversion H2.
  - by intros [= <- _].
  - intros [= <- Heq]. by destruct (IH _ Heq) as (->&->&->).
Qed.

Section facts.
Context (cfg : config) `{Unicode} `{Codec Operation.t} `{Env}.

(** ** The fence stays within its site *)

(** A container name of the site. *)
Definition siteContainer (id name : string) : Prop :=
  name = "wph-wp-" +:+ id \/ name = "wph-db-" +:+ id \/ name = "wph-pma-" +:+ id.

(** The commands and writes of a fence of site [id]. *)
Inductive fenceEvent (id state : string) : event -> Prop :=
| fe_intent : fenceEvent id state (EvFs (MWrite (intentPath cfg id) (intentText state)))
| fe_ask args : fenceEvent id state (EvCmd (COutput args))
| fe_job job : wantedJob id job = true -> fenceEvent id state (EvCmd (CRun ["rm"; "-f"; dockerItem.Name job]))
| fe_pin name : siteContainer id name -> fenceEvent id state (EvCmd (CRun ["update"; "--restart"; "no"; name]))
| fe_stop name : siteContainer id name -> fenceEvent id state (EvCmd (CRun ["stop"; "--time"; "20"; name])).

Lemma ownContainer_name id c :
  ownContainer id c = true -> siteContainer id (trimPrefix (containerState.Name c) "/").
Proof.
  unfold ownContainer, siteContainer. intros [[_ Hne]%andb_prop Hn%String.eqb_eq]%andb_prop. rewrite Hn.
  unfold servicePrefix in *.
  destruct (String.eqb _ "wordpress"); [left; apply (trimPrefix_app "/")|].
  destruct (String.eqb _ "db"); [right; left; apply (trimPrefix_app "/")|].
  destruct (String.eqb _ "phpmyadmin"); [right; right; apply (trimPrefix_app "/")|done].
Qed.

(** Answers that only list the site's own containers. *)
Lemma quotaContainers_own id w cs w' t :
  exec (quotaContainers id) w = (Ok cs, w', t) -> Forall (fun c => ownContainer id c = true) cs.
Proof.
  unfold quotaContainers. intros Hx. apply exec_bind_Ok in Hx as (out&w1&t1&t2&_&Hx&_). cbv zeta in Hx.
  destruct (Nat.eqb _ 0); [by apply exec_ret in Hx as ([= ->]&_)|]. destruct (20 <? _); [done|].
  apply exec_bind_Ok in Hx as (out2&w2&t3&t4&_&Hx&_). rewrite exec_lift_bind in Hx.
  destruct (streamAll _) as [sts|]; [|done]. apply exec_ret in Hx as ([= ->]&_).
  apply Forall_forall. intros c Hc. by apply list_elem_of_filter in Hc as [? _].
Qed.

Lemma removeOwnedJobs_events (P : event -> Prop) id :
  (forall args, P (EvCmd (COutput args))) ->
  (forall job, wantedJob id job = true -> P (EvCmd (CRun ["rm"; "-f"; dockerItem.Name job]))) ->
  causes P (removeOwnedJobs id).
Proof.
  intros Ho Hr. unfold removeOwnedJobs. causes_auto.
Qed.

Lemma stopContainers_events (P : event -> Prop) id cs :
  Forall (fun c => ownContainer id c = true) cs ->
  (forall name, siteContainer id name -> P (EvCmd (CRun ["update"; "--restart"; "no"; name]))) ->
  (forall name, siteContainer id name -> P (EvCmd (CRun ["stop"; "--time"; "20"; name]))) ->
  causes P (stopContainers cs).
Proof.
  intros Hcs Hu Hs. unfold stopContainers. apply causes_forM. intros c fs Hc.
  rewrite Forall_forall in Hcs. specialize (Hcs _ Hc). apply ownContainer_name in Hcs.
  causes_auto; apply causes_docker; auto.
Qed.

(** The events of a fence, from any world. *)
Lemma fence_events id state w : Forall (fenceEvent id state) (exec (fenceQuotaSite cfg id state) w).2.
Proof.
  unfold fenceQuotaSite.
  apply from_bind; [apply from_causes, causes_try, causes_saveQuotaIntent; intros; constructor|]. intros ie w1 t1 _.
  apply from_bind; [apply from_causes, causes_try, removeOwnedJobs_events; by constructor|]. intros je w2 t2 _.
  apply from_bind; [apply from_causes, causes_try, causes_quotaContainers; constructor|]. intros cs w3 t3 H3.
  apply exec_try in H3 as (cs'&[= <-]&H3).
  destruct cs as [cs|e]; [|apply from_causes; auto with causes]. apply quotaContainers_own in H3.
  apply from_bind; [apply from_causes; eapply stopContainers_events; eauto; by constructor|].
  intros. apply from_causes. auto with causes.
Qed.

(** ** What a successful fence leaves on disk *)

(** The startup intent a reader finds. *)
Definition intentOnDisk (id state : string) (fs : fsmap) : Prop :=
  exists data i, fs !! intentPath cfg id = Some (NFile data) /\ lenZ data <= 4096 /\
    decodeOne true quotaIntent.fields (quotaIntent.mk 1 "stopped") "extra quota state" data = Ok i /\
    quotaIntent.State i = state.

Lemma exec_readGuard {T} (fs : list (string * setter T)) zero path w r w' t :
  exec (readGuardJSON fs zero path) w = (r, w', t) ->
  w_fs w' = w_fs w /\ t = [] /\
  (forall x, r = Ok x -> exists data, w_fs w !! path = Some (NFile data) /\ lenZ data <= 4096 /\
     decodeOne true fs zero "extra quota state" data = Ok x).
Proof.
  unfold readGuardJSON. intros Hx. apply exec_bind in Hx as [(e&Hr&->)|(d&w1&t1&t2&Hr&Hx&->)].
  - apply exec_read_absent in Hr as (->&->&_). done.
  - apply exec_read_Ok in Hr as (Hd&Hw&->). destruct (Z.ltb_spec 4096 (lenZ d)).
    + by apply exec_ret in Hx as (->&->&->).
    + apply exec_ret in Hx as (->&->&->). split_and!; [done|done|]. intros x Hx. eauto.
Qed.

(** Decoding never answers "not found". *)
Definition plainErrors {T} (fs : list (string * setter T)) : Prop :=
  Forall (fun nf => forall v t e, nf.2 v t = Err e -> isNotExist e = false) fs.

Lemma decodeStruct_plain {T} strict (fs : list (string * setter T)) v t e :
  plainErrors fs -> decodeStruct strict fs v t = Err e -> isNotExist e = false.
Proof.
  intros Hfs. unfold decodeStruct. destruct v; try (by intros [= <-]). revert t.
  assert (forall m k set, findField m k fs = Some set -> forall v t e, set v t = Err e -> isNotExist e = false) as Hf.
  { intros m k set. induction Hfs as [|[n f] fs' Hx _ IH]; simpl; [done|]. destruct (m n k); [by intros [= <-]|done]. }
  induction l as [|[k v] l IH]; intros t; simpl; [done|]. unfold fieldOf.
  destruct (findField String.eqb k fs) as [set|] eqn:E1; [|destruct (findField sameName k fs) as [set|] eqn:E2].
  - destruct (set v t) eqn:Es; simpl; [apply IH|intros [= <-]; by eapply Hf].
  - destruct (set v t) eqn:Es; simpl; [apply IH|intros [= <-]; by eapply Hf].
  - destruct strict; [by intros [= <-]|apply IH].
Qed.

Lemma exec_readGuard_absent {T} (fs : list (string * setter T)) zero path w r w' t :
  plainErrors fs -> exec (readGuardJSON fs zero path) w = (r, w', t) -> absent r = true -> w_fs w !! path = None.
Proof.
  intros Hfs. unfold readGuardJSON. intros Hx. apply exec_bind in Hx as [(e&Hr&->)|(d&w1&t1&t2&Hr&Hx&->)].
  - by apply exec_read_absent in Hr as (_&_&Ha).
  - destruct (4096 <? lenZ d); [by apply exec_ret in Hx as (->&_)|]. apply exec_ret in Hx as (->&_).
    unfold decodeOne. destruct (nextValue d) as [[[v rest]|]|e] eqn:En; try done.
    + destruct (decodeStruct true fs v zero) as [x|e] eqn:Ed; simpl; [by destruct (String.eqb _ _)|].
      apply decodeStruct_plain in Ed; [by rewrite Ed|done].
    + unfold nextValue in En. destruct (String.eqb _ _); [done|]. destruct (scanValue d); [done|].
      by injection En as <-.
Qed.

Lemma intent_plain : plainErrors quotaIntent.fields.
Proof.
  repeat (apply Forall_cons_2; [cbn [snd]; intros v t e|]); [..|apply Forall_nil_2].
  - unfold setInt64, setInt. intros He. repeat case_match; simplify_eq; done.
  - unfold setString. intros He. repeat case_match; simplify_eq; done.
Qed.

Lemma intent_cases state : validQuotaIntent state = true -> In state ["running"; "stopped"; "blocked"; "maintenance"].
Proof. unfold validQuotaIntent. intros Hv. repeat (apply orb_prop in Hv as [Hv|Hv]); apply String.eqb_eq in Hv as ->; simpl; tauto. Qed.

Lemma intentOnDisk_write id state fs :
  validQuotaIntent state = true -> intentOnDisk id state (<[intentPath cfg id := NFile (intentText state)]> fs).
Proof.
  intros Hv. exists (intentText state), (quotaIntent.mk 1 state).
  split; [apply lookup_insert_eq|]. apply intent_cases in Hv. simpl in Hv.
  destruct Hv as [<-|[<-|[<-|[<-|[]]]]]; (split; [vm_compute; discriminate|]; split; vm_compute; reflexivity).
Qed.

Lemma exec_loadQuotaIntent id w i w' t :
  exec (loadQuotaIntent cfg id) w = (Ok i, w', t) ->
  w_fs w' = w_fs w /\ t = [] /\
  (w_fs w !! intentPath cfg id = None /\ i = quotaIntent.mk 1 "stopped" \/
   intentOnDisk id (quotaIntent.State i) (w_fs w)).
Proof.
  unfold loadQuotaIntent. intros Hx. apply exec_bind_Ok in Hx as (r&w1&t1&t2&Hr&Hx&->).
  apply exec_try in Hr as (r'&[= <-]&Hr). pose proof (exec_readGuard_absent _ _ _ _ _ _ _ intent_plain Hr) as Ha.
  apply exec_readGuard in Hr as (Hw&->&Hok). destruct (absent r).
  - apply exec_ret in Hx as ([= ->]&->&->). split; [exact Hw|]. split; [done|]. left. split; [by apply Ha|done].
  - destruct r as [j|e]; [|done]. destruct (negb _ || negb _); [done|].
    apply exec_ret in Hx as ([= ->]&->&->). split; [done|]. split; [done|]. right.
    destruct (Hok j eq_refl) as (data&?&?&?). by exists data, j.
Qed.

(** Saving an intent successfully puts it on disk. *)
Lemma exec_saveQuotaIntent id state w w' t :
  exec (saveQuotaIntent cfg id state) w = (Ok tt, w', t) -> intentOnDisk id state (w_fs w').
Proof.
  unfold saveQuotaIntent. intros Hx. destruct (ValidID id); [|done].
  destruct (validQuotaIntent state) eqn:Ev; [|done]. cbn [negb orb] in Hx. cbv zeta in Hx.
  assert (forall w1 t1, exec (atomicConfig (intentPath cfg id) (intentText state)) w1 = (Ok tt, w', t1) ->
            intentOnDisk id state (w_fs w')) as Hwrite.
  { intros w1 t1 [-> _]%exec_atomic_Ok. by apply intentOnDisk_write. }
  apply exec_bind_Ok in Hx as (cur&w1&t1&t2&Hc&Hx&->). apply exec_try in Hc as (cur'&[= <-]&Hc).
  destruct cur as [i|e]; [|by eapply Hwrite]. apply exec_loadQuotaIntent in Hc as (Hw1&->&Hi).
  destruct (String.eqb_spec (quotaIntent.State i) state) as [Hs|]; [|by eapply Hwrite].
  apply exec_bind_Ok in Hx as (st&w2&t3&t4&Hst&Hx&->). apply exec_try in Hst as (st'&[= <-]&Hst).
  destruct st as [n|e]; [|by eapply Hwrite]. apply exec_stat_Ok in Hst as (Hn&Hw2&->).
  apply exec_ret in Hx as (_&->&->). rewrite Hw2, Hw1.
  destruct Hi as [[Hnone _]|Hi]; [rewrite Hw1 in Hn; congruence|by rewrite Hs in Hi].
Qed.

Lemma intentOnDisk_same id state fs fs' :
  fs' !! intentPath cfg id = fs !! intentPath cfg id -> intentOnDisk id state fs -> intentOnDisk id state fs'.
Proof. intros Hf (d&i&Hd&Hi). exists d, i. by rewrite Hf. Qed.

Lemma errorsJoin_Ok l : of_err (errorsJoin l) = Ok tt -> Forall (fun o => o = None) l.
Proof. intros Hj. apply errorsJoin_None. by destruct (errorsJoin l). Qed.

(** Commands that change containers. *)
Definition notRun (e : event) : Prop := match e with EvCmd (CRun _) => False | _ => True end.

Lemma replay_keeps q t1 t fs : t1 `prefix_of` t -> Forall (leaves q) t -> replay t1 fs !! q = fs !! q.
Proof. intros [t2 ->] Ht. apply Forall_app in Ht as [Ht _]. by apply replay_frame. Qed.

(** The part of a fence after the intent was saved leaves the intent alone. *)
Definition fenceRest (id : string) (intentErr : result unit) : M wop unit :=
  jobsErr ← try (removeOwnedJobs id);
  containers ← try (quotaContainers id);
  match containers with
  | Err e => lift (of_err (errorsJoin [err_of intentErr; err_of jobsErr; Some e]))
  | Ok cs =>
      failures ← stopContainers cs;
      lift (of_err (errorsJoin (failures ++ [err_of intentErr; err_of jobsErr])%list))
  end.

Lemma fenceRest_leaves id ie w : Forall (leaves (intentPath cfg id)) (exec (fenceRest id ie) w).2.
Proof.
  unfold fenceRest.
  apply from_bind; [by apply from_causes, causes_try, removeOwnedJobs_events|]. intros je w2 t2 _.
  apply from_bind; [by apply from_causes, causes_try, causes_quotaContainers|]. intros cs w3 t3 H3.
  apply exec_try in H3 as (cs'&[= <-]&H3).
  destruct cs as [cs|e]; [|apply from_causes; auto with causes]. apply quotaContainers_own in H3.
  apply from_bind; [apply from_causes; by eapply stopContainers_events|]. intros. apply from_causes. auto with causes.
Qed.

Lemma fenceRest_Ok id ie w w' t : exec (fenceRest id ie) w = (Ok tt, w', t) -> ie = Ok tt.
Proof.
  unfold fenceRest. intros Hx. apply exec_bind_Ok in Hx as (je&w2&t3&t4&_&Hx&_).
  apply exec_bind_Ok in Hx as (cs&w3&t5&t6&_&Hx&_).
  assert (err_of ie = None -> ie = Ok tt) as Hie by (destruct ie as [[]|]; done).
  destruct cs as [cs|e].
  - apply exec_bind_Ok in Hx as (fl&w4&t7&t8&_&Hx&_).
    apply exec_ret in Hx as (Hj&_). symmetry in Hj. apply errorsJoin_Ok in Hj.
    apply Forall_app in Hj as [_ Hj]. inversion Hj; subst. auto.
  - apply exec_ret in Hx as (Hj&_). symmetry in Hj. apply errorsJoin_Ok in Hj. inversion Hj; subst. auto.
Qed.

(** A successful fence recorded its state before the first command that
    changes a container, and the record stays. *)
Lemma exec_fence_Ok_trace id state w w' t :
  exec (fenceQuotaSite cfg id state) w = (Ok tt, w', t) ->
  exists t1 t2, t = (t1 ++ t2)%list /\ Forall notRun t1 /\
    forall t3, t3 `prefix_of` t2 -> intentOnDisk id state (replay (t1 ++ t3)%list (w_fs w)).
Proof.
  unfold fenceQuotaSite. intros Hx.
  apply exec_bind_Ok in Hx as (ie&w1&t1&t2&Hi&Hx&->). exists t1, t2. split; [done|].
  fold (fenceRest id ie) in Hx. split.
  { eapply causes_exec; [|exact Hi]. by apply causes_try, causes_saveQuotaIntent. }
  intros t3 Ht3. rewrite replay_app. rewrite <- (exec_fs _ _ _ _ _ Hi).
  pose proof (fenceRest_leaves id ie w1) as Hl. rewrite Hx in Hl.
  apply (intentOnDisk_same _ _ (w_fs w1)); [by eapply replay_keeps|].
  apply fenceRest_Ok in Hx as ->. apply exec_try in Hi as (ie'&[= <-]&Hi). by eapply exec_saveQuotaIntent.
Qed.

Lemma exec_fence_Ok id state w w' t :
  exec (fenceQuotaSite cfg id state) w = (Ok tt, w', t) -> intentOnDisk id state (w_fs w').
Proof.
  intros Hx. rewrite (exec_fs _ _ _ _ _ Hx). apply exec_fence_Ok_trace in Hx as (t1&t2&->&_&Hd). by apply Hd.
Qed.


(** ** Launching *)

(** A Compose command that starts services. *)
Definition launch (e : event) : Prop := exists args, e = EvCmd (CRun ("compose" :: args)) /\ In "up" args.
Definition noLaunch (e : event) : Prop := ~ launch e.

Lemma fenceEvent_noLaunch id state e : fenceEvent id state e -> noLaunch e.
Proof. intros He (args&Hl&_). subst e. inversion He. Qed.

Lemma fence_noLaunch id state : causes noLaunch (fenceQuotaSite cfg id state).
Proof. intros w. eapply Forall_impl; [apply fence_events|]. apply fenceEvent_noLaunch. Qed.

Lemma noLaunch_ask args : noLaunch (EvCmd (COutput args)).
Proof. by intros (?&?&_). Qed.
Lemma noLaunch_exec args : noLaunch (EvCmd (CExec args)).
Proof. by intros (?&?&_). Qed.
Lemma noLaunch_fs m : noLaunch (EvFs m).
Proof. by intros (?&?&_). Qed.

Lemma causes_verifyQuotaStorage (P : event -> Prop) id g :
  (forall args, P (EvCmd (COutput args))) -> causes P (verifyQuotaStorage id g).
Proof. intros Ho. unfold verifyQuotaStorage. causes_auto. by apply causes_runStorageProbe. Qed.

Lemma causes_preflightChecks (P : event -> Prop) id me :
  (forall args, P (EvCmd (COutput args))) ->
  P (EvFs (MWrite (profilePath cfg id) (profile cfg))) ->
  (forall d, P (EvFs (MWrite (composePath cfg id) d))) -> causes P (preflightChecks cfg id me).
Proof.
  intros Ho Hp Hc. unfold preflightChecks. causes_auto;
    first [by apply causes_ensureQuotaRestartCompose|by apply causes_verifyQuotaStorage|by apply causes_quotaContainers].
Qed.

Lemma fenced_noLaunch id state e : causes noLaunch (fenced cfg id state e).
Proof. unfold fenced. causes_auto. apply fence_noLaunch. Qed.

Lemma preflight_noLaunch id : causes noLaunch (quotaPreflight cfg id).
Proof.
  unfold quotaPreflight, orFence. causes_auto; [|apply fenced_noLaunch].
  apply causes_preflightChecks; intros; first [apply noLaunch_ask|apply noLaunch_fs].
Qed.

Lemma intent_ne_compose id : intentPath cfg id <> composePath cfg id.
Proof. unfold intentPath, composePath. intros Heq%child_inj. discriminate. Qed.
Lemma intent_ne_profile id : intentPath cfg id <> profilePath cfg id.
Proof. unfold intentPath, profilePath. intros Heq%child_inj. discriminate. Qed.

Lemma preflightChecks_leaves id me : causes (leaves (intentPath cfg id)) (preflightChecks cfg id me).
Proof.
  apply causes_preflightChecks; [done| |]; intros; cbn [leaves touches]; intros Heq; symmetry in Heq;
    [by apply intent_ne_profile in Heq|by apply intent_ne_compose in Heq].
Qed.

(** A preflight that passes does not fence. *)
Lemma exec_preflight_Ok id w w' t :
  exec (quotaPreflight cfg id) w = (Ok tt, w', t) -> w_fs w' !! intentPath cfg id = w_fs w !! intentPath cfg id.
Proof.
  unfold quotaPreflight. intros Hx. apply exec_bind_Ok in Hx as (m&w1&t1&t2&Hm&Hx&->).
  destruct (quiet_fs (intentPath cfg id) _ _ _ _ _ (causes_quotaMarked cfg _ id) Hm) as [<- _].
  destruct (markedOrErr m); [|by apply exec_ret in Hx as (_&->&_)]. cbn [negb] in Hx.
  unfold orFence in Hx. apply exec_bind_Ok in Hx as (r&w2&t3&t4&Hr&Hx&->).
  apply exec_try in Hr as (r'&[= <-]&Hr). destruct r as [[]|e].
  - apply exec_ret in Hx as (_&->&_). eapply exec_frame; [apply preflightChecks_leaves|exact Hr].
  - exfalso. unfold fenced in Hx. apply exec_bind_Ok in Hx as (f&w3&t5&t6&_&Hx&_).
    apply exec_ret in Hx as (Hj&_). symmetry in Hj. apply errorsJoin_Ok in Hj. by inversion Hj.
Qed.

(** Everything [startQuotaSite] does before it launches. *)
Definition beforeLaunch (id : string) : M wop unit :=
  _ ← fenceQuotaSite cfg id "blocked";
  _ ← quotaPreflight cfg id;
  resources ← configuredResources cfg id;
  checkCapacity cfg id resources.

Lemma beforeLaunch_noLaunch id : causes noLaunch (beforeLaunch id).
Proof.
  unfold beforeLaunch. causes_auto;
    first [apply fence_noLaunch|apply preflight_noLaunch|apply causes_configuredResources
          |apply causes_checkCapacity; [apply noLaunch_ask|apply noLaunch_exec]].
Qed.

Lemma exec_beforeLaunch_Ok id w w' t :
  exec (beforeLaunch id) w = (Ok tt, w', t) -> intentOnDisk id "blocked" (w_fs w').
Proof.
  unfold beforeLaunch. intros Hx.
  apply exec_bind_Ok in Hx as ([]&w1&t1&t2&Hf%exec_fence_Ok&Hx&_).
  apply exec_bind_Ok in Hx as ([]&w2&t3&t4&Hp%exec_preflight_Ok&Hx&_).
  apply exec_bind_Ok in Hx as (r&w3&t5&t6&Hr&Hx&_).
  eapply intentOnDisk_same; [|exact Hf].
  set (P := leaves (intentPath cfg id)).
  assert (causes P (checkCapacity cfg id r)) as Hcap by (by apply causes_checkCapacity).
  assert (causes P (configuredResources cfg id)) as Hres by apply causes_configuredResources.
  by rewrite (exec_frame _ _ _ _ _ _ Hcap Hx), (exec_frame _ _ _ _ _ _ Hres Hr).
Qed.

(** What follows a launch, by its outcome. *)
Definition afterLaunch (id : string) (started : result unit) : M wop unit :=
  match started with
  | Err e => fenced cfg id "blocked" e
  | Ok _ => _ ← quotaPreflight cfg id; orFence cfg id "blocked" (confirmStart cfg id)
  end.

Lemma confirmStart_noLaunch id : causes noLaunch (confirmStart cfg id).
Proof.
  unfold confirmStart. causes_auto;
    first [apply causes_quotaContainers; apply noLaunch_ask|apply causes_saveQuotaIntent; intros; apply noLaunch_fs].
Qed.

Lemma afterLaunch_noLaunch id started : causes noLaunch (afterLaunch id started).
Proof.
  unfold afterLaunch, orFence.
  causes_auto; first [apply fenced_noLaunch|apply preflight_noLaunch|apply confirmStart_noLaunch].
Qed.

Lemma startQuotaSite_phases id :
  peq (startQuotaSite cfg id)
      (_ ← beforeLaunch id; started ← try (dockerRun (startArgs cfg id)); afterLaunch id started).
Proof.
  symmetry. unfold beforeLaunch.
  do 3 (etransitivity; [apply peq_assoc|apply peq_bind; [intros ?|reflexivity]]). reflexivity.
Qed.

Lemma exec_dockerRun args w r w' t :
  exec (dockerRun args) w = (r, w', t) -> t = [EvCmd (CRun args)] /\ w_fs w' = w_fs w.
Proof.
  unfold dockerRun. rewrite exec_bind_eq, exec_perform. cbn [wstep]. unfold ask.
  destruct (env_cmd (w_env w) (CRun args)) as [e' [m|o]]; cbn; by intros [= <- <- <-].
Qed.

(** The three phases of [startQuotaSite] in an execution. *)
Lemma exec_startQuotaSite id w r w' t :
  exec (startQuotaSite cfg id) w = (r, w', t) ->
  (exists e, exec (beforeLaunch id) w = (Err e, w', t) /\ r = Err e) \/
  (exists w1 t1 started w2 t2, exec (beforeLaunch id) w = (Ok tt, w1, t1) /\
     exec (dockerRun (startArgs cfg id)) w1 = (started, w2, [EvCmd (CRun (startArgs cfg id))]) /\
     exec (afterLaunch id started) w2 = (r, w', t2) /\ t = (t1 ++ EvCmd (CRun (startArgs cfg id)) :: t2)%list).
Proof.
  rewrite startQuotaSite_phases. intros [(e&Hb&->)|([]&w1&t1&t2&Hb&Hx&->)]%exec_bind; [left; eauto|right].
  apply exec_bind in Hx as [(e&Hs&_)|(st&w2&t3&t4&Hs&Hx&->)]; apply exec_try in Hs as (st'&[= <-]&Hs).
  destruct (exec_dockerRun _ _ _ _ _ Hs) as [-> _]. exists w1, t1, st, w2, t4. auto.
Qed.

Lemma launch_startArgs id : launch (EvCmd (CRun (startArgs cfg id))).
Proof. eexists. split; [reflexivity|]. simpl. tauto. Qed.

(** C15: a quota site is launched once, and only from behind its fence.  In any
    execution of [startQuotaSite], a launching command is the one Compose start
    of the two services; it runs after a fence, the preflight, the configured
    limits and the capacity check have all succeeded, while the intent on disk
    says blocked, so that a crash from there on does not resume the site. *)
Theorem startQuotaSite_launch id w r w' t :
  exec (startQuotaSite cfg id) w = (r, w', t) ->
  forall t1 e t2, t = (t1 ++ e :: t2)%list -> launch e ->
    e = EvCmd (CRun (startArgs cfg id)) /\ intentOnDisk id "blocked" (replay t1 (w_fs w)) /\
    Forall noLaunch t1 /\ Forall noLaunch t2 /\ exists w1, exec (beforeLaunch id) w = (Ok tt, w1, t1).
Proof.
  intros Hx t1 e t2 Ht Hl. apply exec_startQuotaSite in Hx as [(er&Hb&_)|(w1&u1&st&w2&u2&Hb&Hs&Ha&Hu)].
  - exfalso. pose proof (causes_exec _ _ _ _ _ _ (beforeLaunch_noLaunch id) Hb) as Hn.
    rewrite Ht, Forall_app, Forall_cons in Hn. by destruct Hn as (_&Hn&_).
  - pose proof (causes_exec _ _ _ _ _ _ (beforeLaunch_noLaunch id) Hb) as Hn1.
    pose proof (causes_exec _ _ _ _ _ _ (afterLaunch_noLaunch id st) Ha) as Hn2.
    assert (t1 = u1 /\ e = EvCmd (CRun (startArgs cfg id)) /\ t2 = u2) as (->&->&->).
    { apply (split_unique noLaunch); [done|done| | |congruence]; intros Hno; apply Hno; [done|apply launch_startArgs]. }
    split; [done|]. split; [|split; [done|split; [done|by exists w1]]].
    rewrite <- (exec_fs _ _ _ _ _ Hb). by apply exec_beforeLaunch_Ok in Hb.
Qed.

(** ** The record of a running site *)

Lemma orFence_Ok id state p w w' t : exec (orFence cfg id state p) w = (Ok tt, w', t) -> exec p w = (Ok tt, w', t).
Proof.
  unfold orFence. intros (r&w1&t1&t2&Hr&Hx&->)%exec_bind_Ok. apply exec_try in Hr as (r'&[= <-]&Hr).
  destruct r as [[]|e].
  - apply exec_ret in Hx as (_&->&->). by rewrite app_nil_r.
  - exfalso. unfold fenced in Hx. apply exec_bind_Ok in Hx as (f&w3&t5&t6&_&Hx&_).
    apply exec_ret in Hx as (Hj&_). symmetry in Hj. apply errorsJoin_Ok in Hj. by inversion Hj.
Qed.

Lemma fenced_Err id state e w w' t : exec (fenced cfg id state e) w <> (Ok tt, w', t).
Proof.
  unfold fenced. intros Hx. apply exec_bind_Ok in Hx as (f&w3&t5&t6&_&Hx&_).
  apply exec_ret in Hx as (Hj&_). symmetry in Hj. apply errorsJoin_Ok in Hj. by inversion Hj.
Qed.

(** Both services were seen running by the check after the start. *)
Definition bothRunning (cs : list containerState.t) : Prop :=
  length (mainServices cs) = 2%nat /\ forallb running (mainServices cs) = true.

Lemma exec_confirmStart_Ok id w w' t :
  exec (confirmStart cfg id) w = (Ok tt, w', t) ->
  intentOnDisk id "running" (w_fs w') /\
  exists cs w1 t1, exec (quotaContainers id) w = (Ok cs, w1, t1) /\ bothRunning cs.
Proof.
  unfold confirmStart. intros (cs&w1&t1&t2&Hc&Hx&_)%exec_bind_Ok.
  destruct (forallb running (mainServices cs)) eqn:Er; [|done]. destruct (Nat.eqb_spec (length (mainServices cs)) 2); [|done].
  apply exec_saveQuotaIntent in Hx. split; [done|]. by exists cs, w1, t1.
Qed.

(** A start that reports success left a running site and said so on disk.
    The two services were up when the site's containers were listed after the
    launch, the preflight passed a second time, and the saved intent, which
    decides what the supervisor resumes, says running. *)
Theorem startQuotaSite_running id w w' t :
  exec (startQuotaSite cfg id) w = (Ok tt, w', t) ->
  intentOnDisk id "running" (w_fs w') /\
  exists w1 t1 w2 t2 cs w3 t3,
    exec (dockerRun (startArgs cfg id)) w1 = (Ok tt, w2, t1) /\
    exec (quotaPreflight cfg id) w2 = (Ok tt, w3, t2) /\
    exec (quotaContainers id) w3 = (Ok cs, t3.1, t3.2) /\ bothRunning cs.
Proof.
  intros Hx. apply exec_startQuotaSite in Hx as [(e&_&?)|(w1&u1&st&w2&u2&_&Hs&Ha&_)]; [done|].
  unfold afterLaunch in Ha. destruct st as [[]|e]; [|by apply fenced_Err in Ha].
  apply exec_bind_Ok in Ha as ([]&w3&t1&t2&Hp&Hc&_). apply orFence_Ok in Hc.
  apply exec_confirmStart_Ok in Hc as [Hi (cs&w4&t4&Hc&Hb)]. split; [done|].
  by exists w1, [EvCmd (CRun (startArgs cfg id))], w2, t1, cs, w3, (w4, t4).
Qed.

(** ** What the supervisor resumes *)

(** The quota record a reader accepts. *)
Definition guardOnDisk (id : string) (fs : fsmap) : Prop :=
  exists data g, fs !! quotaPath cfg id = Some (NFile data) /\ lenZ data <= 4096 /\
    decodeOne true quotaGuard.fields quotaGuard.zero "extra quota state" data = Ok g /\
    quotaGuard.Version g = 1 /\ quotaGuard.Phase g = "ready" /\
    quotaGuard.ProjectID g <> 0 /\ quotaGuard.HardBytes g <> 0 /\ quotaGuard.HardBytes g mod 512 = 0.

(** The site's last long operation, if any, left nothing to inspect. *)
Definition receiptResolved (id : string) (fs : fsmap) : Prop :=
  fs !! operationPath cfg id = None \/
  exists data o, fs !! operationPath cfg id = Some (NFile data) /\ unmarshal data = Ok o /\ resolvedOp (Some o) = true.

Definition resumable (id : string) (fs : fsmap) : Prop :=
  guardOnDisk id fs /\ intentOnDisk id "running" fs /\ receiptResolved id fs.

Lemma exec_loadQuotaGuard id w g w' t :
  exec (loadQuotaGuard cfg id) w = (Ok (Some g), w', t) -> guardOnDisk id (w_fs w).
Proof.
  unfold loadQuotaGuard. destruct (ValidID id); [|done]. cbn [negb]. intros (r&w1&t1&t2&Hr&Hx&->)%exec_bind_Ok.
  apply exec_try in Hr as (r'&[= <-]&Hr). apply exec_readGuard in Hr as (Hw&->&Hok). destruct (absent r).
  { apply exec_bind_Ok in Hx as (m&w2&t3&t4&_&Hx&_). by destruct (markedOrErr m). }
  destruct r as [g'|e]; [|done]. destruct (_ || _) eqn:Ec in Hx; [done|]. apply exec_ret in Hx as ([= ->]&_).
  rewrite !orb_false_iff, !negb_false_iff, !Z.eqb_neq, !Z.eqb_eq, String.eqb_eq in Ec.
  destruct Ec as [[[[[? ?] ?] ?] ?] _]. destruct (Hok g' eq_refl) as (data&?&?&?). by exists data, g'.
Qed.

Lemma exec_loadOperation id w o w' t :
  exec (loadOperation cfg id) w = (Ok o, w', t) -> resolvedOp o = true -> receiptResolved id (w_fs w).
Proof.
  unfold loadOperation. intros (r&w1&t1&t2&Hr&Hx&->)%exec_bind_Ok Ho. apply exec_try in Hr as (r'&[= <-]&Hr).
  destruct r as [d|e].
  - apply exec_read_Ok in Hr as (Hd&_&_). rewrite exec_lift_bind in Hx. destruct (unmarshal d) as [o'|e] eqn:Eu; [|done].
    apply exec_ret in Hx as ([= ->]&_). right. by exists d, o'.
  - destruct (isNotExist e) eqn:En; [|done]. apply exec_read_absent in Hr as (_&_&Ha). left. by apply Ha.
Qed.

Lemma fenceReport_noLaunch id state : causes noLaunch (fenceReport cfg id state).
Proof. unfold fenceReport. causes_auto. apply fence_noLaunch. Qed.

#[local] Hint Resolve fenceReport_noLaunch fence_noLaunch : causes.

Lemma noLaunch_from {A} (R : Prop) (p : prog wop A) w :
  causes noLaunch p -> Forall (fun e => launch e -> R) (exec p w).2.
Proof. intros Hp. eapply Forall_impl; [apply Hp|]. intros e Hn Hl. by destruct (Hn Hl). Qed.

Lemma checks_noLaunch id g : causes noLaunch (_ ← ensureQuotaRestartCompose cfg id; verifyQuotaStorage id g).
Proof.
  causes_auto; [apply causes_ensureQuotaRestartCompose|apply causes_verifyQuotaStorage]; intros;
    first [apply noLaunch_ask|apply noLaunch_fs].
Qed.

(** The supervisor's step once the records are read. *)
Definition supervise (startup : bool) (id : string) (markErr : option error) (guard : result (option quotaGuard.t))
  (intent : result quotaIntent.t) (op : result (option Operation.t)) : M wop (option error) :=
  match markErr, guard, intent, op with
  | None, Ok (Some g), Ok i, Ok o =>
      let state := quotaIntent.State i in
      let maintenance := String.eqb state "maintenance" in
      if negb (resolvedOp o) then fenceReport cfg id "blocked"
      else if negb (String.eqb state "running") && (startup || negb maintenance)
      then fenceReport cfg id (if maintenance then "blocked" else state)
      else
        ready ← try (_ ← ensureQuotaRestartCompose cfg id; verifyQuotaStorage id (Some g));
        match ready with
        | Err _ => fenceReport cfg id "blocked"
        | Ok _ =>
            states ← try (quotaContainers id);
            match states with
            | Err _ => fenceReport cfg id "blocked"
            | Ok cs =>
                if negb (Nat.leb 2 (length cs) && forallb (guardedWriter cfg) cs) then fenceReport cfg id "blocked"
                else if maintenance
                then (if forallb stoppedWordPress cs then mret None else fenceReport cfg id "blocked")
                else if forallb running (mainServices cs) && Nat.eqb (length (mainServices cs)) 2 then mret None
                else _ ← try (startQuotaSite cfg id); mret None
            end
        end
  | _, _, _, _ => fenceReport cfg id "blocked"
  end.

Lemma reconcileSite_reads startup id :
  reconcileSite cfg startup id =
  (m ← quotaMarked cfg id;
   if negb (markedOrErr m) then mret None
   else
     guard ← try (loadQuotaGuard cfg id);
     intent ← try (loadQuotaIntent cfg id);
     op ← try (loadOperation cfg id);
     supervise startup id m.2 guard intent op).
Proof. reflexivity. Qed.

Lemma supervise_noLaunch startup id markErr guard intent op :
  (exists g i o, guard = Ok (Some g) /\ intent = Ok i /\ op = Ok o /\
     resolvedOp o = true /\ quotaIntent.State i = "running") \/
  causes noLaunch (supervise startup id markErr guard intent op).
Proof.
  unfold supervise. destruct markErr as [?|]; [right; auto with causes|].
  destruct guard as [[g|]|?]; [|right; auto with causes..]. destruct intent as [i|?]; [|right; auto with causes].
  destruct op as [o|?]; [|right; auto with causes]. cbv zeta.
  destruct (resolvedOp o) eqn:Eo; cbn [negb]; [|right; auto with causes].
  destruct (String.eqb_spec (quotaIntent.State i) "running") as [|Hn]; [by left; exists g, i, o|right].
  cbn [negb andb]. destruct (startup || _) eqn:Ec; [auto with causes|].
  apply orb_false_iff in Ec as [-> ->%negb_false_iff].
  apply causes_bind; [apply causes_try, checks_noLaunch|]. intros [[]|?]; [|auto with causes].
  apply causes_bind; [apply causes_try, causes_quotaContainers, noLaunch_ask|]. intros [cs|?]; [|auto with causes].
  causes_auto; apply fenceReport_noLaunch.
Qed.

(** C16: the supervisor starts only what was recorded as running.  Whenever an
    execution of [reconcileQuotaSites]'s step for a site launches its writers,
    at startup or later, the disk held, when the step began, a ready quota
    record of the site, an intent that says running, and either no receipt of a
    long operation or one whose outcome needs no inspection. *)
Theorem reconcileSite_resumes startup id w e :
  In e (exec (reconcileSite cfg startup id) w).2 -> launch e -> resumable id (w_fs w).
Proof.
  intros Hin Hl. assert (Forall (fun e => launch e -> resumable id (w_fs w))
    (exec (reconcileSite cfg startup id) w).2) as Hall; [|by rewrite List.Forall_forall in Hall; apply (Hall e)].
  clear e Hin Hl. rewrite reconcileSite_reads.
  apply from_bind; [apply from_causes; auto with causes|]. intros m w1 t1 Hm.
  apply quiet_same in Hm as [<- _]; [|apply causes_quotaMarked].
  destruct (markedOrErr m); [cbn [negb]|by apply noLaunch_from; causes_auto].
  apply from_bind; [apply from_causes; causes_auto|]. intros guard w2 t2 Hg. apply exec_try in Hg as (guard'&[= <-]&Hg).
  destruct (quiet_same _ _ _ _ _ (causes_loadQuotaGuard cfg _ id) Hg) as [Hw _].
  apply from_bind; [apply from_causes; causes_auto|]. intros intent w3 t3 Hi. apply exec_try in Hi as (intent'&[= <-]&Hi).
  destruct (quiet_same _ _ _ _ _ (causes_loadQuotaIntent cfg _ id) Hi) as [Hw3 _].
  apply from_bind; [apply from_causes; unfold loadOperation; causes_auto|]. intros op w4 t4 Ho.
  apply exec_try in Ho as (op'&[= <-]&Ho).
  destruct (supervise_noLaunch startup id m.2 guard intent op) as [(g&i&o&->&->&->&Hres&Hst)|Hn]; [|by apply noLaunch_from].
  apply Forall_true. intros e _. apply exec_loadQuotaGuard in Hg. apply exec_loadQuotaIntent in Hi as (_&_&Hi).
  eapply exec_loadOperation in Ho; [|done]. rewrite Hw3, Hw in Ho. rewrite Hst, Hw in Hi.
  split; [done|]. split; [|done]. destruct Hi as [[_ ->]|]; [discriminate Hst|done].
Qed.

(** ** Finishing a write *)

(** C37: an operation on a quota site reports success only when it succeeded
    behind a verified guard.  [finishQuotaWrite] never turns an error into a
    success, whatever the site's records say; and on a marked site it reports
    success only when the marker could be read and the quota preflight passed
    after the write. *)
Theorem finishQuotaWrite_reports id outcome w w' t :
  exec (finishQuotaWrite cfg id outcome) w = (Ok tt, w', t) ->
  outcome = Ok tt /\
  exists m w1, exec (quotaMarked cfg id) w = (Ok m, w1, []) /\
    (m = (false, None) \/ m = (true, None) /\ exec (quotaPreflight cfg id) w1 = (Ok tt, w', t)).
Proof.
  unfold finishQuotaWrite. intros Hx. apply exec_bind_Ok in Hx as ([marked me]&w1&t1&t2&Hm&Hx&->).
  destruct (quiet_same _ _ _ _ _ (causes_quotaMarked cfg _ id) Hm) as [_ ->].
  destruct me as [me|]; simpl in Hx.
  - exfalso. unfold markedOrErr in Hx. rewrite orb_true_r in Hx.
    apply exec_bind_Ok in Hx as (f&w2&t3&t4&_&Hx&_). apply exec_ret in Hx as (Hj&_). symmetry in Hj.
    apply errorsJoin_Ok in Hj. inversion Hj as [|? ? _ Hj']; subst. by inversion Hj'.
  - destruct marked; simpl in Hx.
    + destruct outcome as [[]|e]; [split; [done|]; by eauto 10|]. exfalso.
      destruct (asAdmission e) as [[]|]; [|by apply fenced_Err in Hx..].
      apply exec_bind_Ok in Hx as ([|]&w2&t3&t4&_&Hx&_); done.
    + apply exec_ret in Hx as (->&_). split; [done|]. eauto.
Qed.
End facts.

(** ** Witnesses: a quota site on a sample host *)

#[local] Existing Instance asciiUnicode.

Definition quotaText : string :=
  raw "{`version`:1,`phase`:`ready`,`project_id`:1000000,`hard_bytes`:1073741824,`filesystem_uuid`:`0123456789abcdef0123456789abcdef`}".

Definition sampleContainer (service prefix : string) : string :=
  raw "{`name`:`/" +:+ prefix +:+ raw "aaaaaaaaaaaaaaaa`,`project`:`wph-aaaaaaaaaaaaaaaa`,`service`:`" +:+ service +:+
  raw "`,`status`:`running`,`restart`:`no`,`security_opts`:[`no-new-privileges:true`,`seccomp={}`]}" +:+ NL.

Definition dfText : string := "Filesystem 1024-blocks Used Available" +:+ NL +:+ "overlay 100 0 100000000 0% /" +:+ NL.

(** Docker's answers on a host with room, both services running. *)
Definition quotaHelper (args : list string) : string :=
  match args with
  | "ps" :: "-a" :: "--filter" :: f :: _ =>
      if hasPrefix f "label=com.docker.compose.project=" then "c1 c2" +:+ NL else ""
  | "inspect" :: _ => sampleContainer "wordpress" "wph-wp-" +:+ sampleContainer "db" "wph-db-"
  | "info" :: _ => raw "{`cpus`:4,`memory_bytes`:8589934592}"
  | "run" :: rest => if existsb (String.eqb "df") rest then dfText else raw "{`verified`:true,`reason`:`verified`}"
  | _ => ""
  end.

Definition quotaAnswers (c : command) : string + string :=
  match c with CExec ("df" :: _) => inr dfText | _ => answers quotaHelper c end.

Definition quotaWorld (intent : list (string * node)) : world :=
  World _ (sampleFiles (("/srv/aaaaaaaaaaaaaaaa/quota.json", NFile quotaText) :: intent)) quotaAnswers "" ∅.

Definition startedWorld := exec (startQuotaSite sampleConfig sampleID) (quotaWorld []).

Lemma quotaWorld_starts : (exec (startQuotaSite sampleConfig sampleID) (quotaWorld [])).1.1 = Ok tt.
Proof. vm_compute. reflexivity. Qed.

Lemma quotaWorld_launches :
  exists t1 t2, (exec (startQuotaSite sampleConfig sampleID) (quotaWorld [])).2 =
    (t1 ++ EvCmd (CRun (startArgs sampleConfig sampleID)) :: t2)%list.
Proof.
  destruct (nth_error_split (exec (startQuotaSite sampleConfig sampleID) (quotaWorld [])).2
    20 (a := EvCmd (CRun (startArgs sampleConfig sampleID)))) as (t1&t2&Ht&_); [|by exists t1, t2].
  vm_compute. reflexivity.
Qed.

Lemma startQuotaSite_running_witness :
  (exec (startQuotaSite sampleConfig sampleID) (quotaWorld [])).1.1 = Ok tt /\
  intentOnDisk sampleConfig sampleID "running" (w_fs (exec (startQuotaSite sampleConfig sampleID) (quotaWorld [])).1.2).
Proof.
  split; [exact quotaWorld_starts|].
  apply (startQuotaSite_running sampleConfig sampleID (quotaWorld []) _ _ (exec_parts _ _ _ quotaWorld_starts)).
Defined.

Lemma startQuotaSite_launch_witness :
  exists t1 t2, (exec (startQuotaSite sampleConfig sampleID) (quotaWorld [])).2 =
      (t1 ++ EvCmd (CRun (startArgs sampleConfig sampleID)) :: t2)%list /\
    intentOnDisk sampleConfig sampleID "blocked" (replay t1 (w_fs (quotaWorld []))).
Proof.
  destruct quotaWorld_launches as (t1&t2&Ht). exists t1, t2. split; [exact Ht|].
  apply (startQuotaSite_launch sampleConfig sampleID (quotaWorld []) _ _ _
           (exec_parts _ _ _ quotaWorld_starts) t1 _ t2 Ht).
  apply launch_startArgs.
Defined.


(** A restarted site: recorded as running, its services stopped. *)
Definition stoppedHelper (args : list string) : string :=
  match args with
  | "inspect" :: _ =>
      raw "{`name`:`/wph-wp-aaaaaaaaaaaaaaaa`,`project`:`wph-aaaaaaaaaaaaaaaa`,`service`:`wordpress`,`status`:`exited`,`restart`:`no`,`security_opts`:[`no-new-privileges:true`,`seccomp={}`]}" +:+
      raw "{`name`:`/wph-db-aaaaaaaaaaaaaaaa`,`project`:`wph-aaaaaaaaaaaaaaaa`,`service`:`db`,`status`:`exited`,`restart`:`no`,`security_opts`:[`no-new-privileges:true`,`seccomp={}`]}"
  | _ => quotaHelper args
  end.

Definition restartedWorld : world :=
  World _ (sampleFiles [("/srv/aaaaaaaaaaaaaaaa/quota.json", NFile quotaText);
                        ("/srv/aaaaaaaaaaaaaaaa/quota-intent.json", NFile (intentText "running"))])
    (fun c => match c with CExec ("df" :: _) => inr dfText | _ => answers stoppedHelper c end) "" ∅.

Lemma reconcileSite_resumes_witness :
  exists e, In e (exec (reconcileSite sampleConfig true sampleID) restartedWorld).2 /\ launch e /\
    resumable sampleConfig sampleID (w_fs restartedWorld).
Proof.
  exists (EvCmd (CRun (startArgs sampleConfig sampleID))).
  assert (In (EvCmd (CRun (startArgs sampleConfig sampleID)))
            (exec (reconcileSite sampleConfig true sampleID) restartedWorld).2) as Hin
    by (apply (nth_error_In _ 22); vm_compute; reflexivity).
  split; [exact Hin|]. split; [apply launch_startArgs|].
  apply (reconcileSite_resumes sampleConfig true sampleID restartedWorld _ Hin). apply launch_startArgs.
Defined.

Lemma finishQuotaWrite_reports_witness :
  (exec (finishQuotaWrite sampleConfig sampleID (Ok tt)) (quotaWorld [])).1.1 = Ok tt /\
  exists m w1, exec (quotaMarked sampleConfig sampleID) (quotaWorld []) = (Ok m, w1, []) /\
    (m = (false, None) \/ m = (true, None) /\ (exec (quotaPreflight sampleConfig sampleID) w1).1.1 = Ok tt).
Proof.
  assert ((exec (finishQuotaWrite sampleConfig sampleID (Ok tt)) (quotaWorld [])).1.1 = Ok tt) as Hr
    by (vm_compute; reflexivity).
  split; [exact Hr|].
  destruct (finishQuotaWrite_reports sampleConfig sampleID (Ok tt) (quotaWorld []) _ _ (exec_parts _ _ _ Hr))
    as (_&m&w1&Hm&Hc).
  exists m, w1. split; [exact Hm|]. destruct Hc as [Hc|[Hc Hp]]; [left; exact Hc|right].
  split; [exact Hc|]. rewrite Hp. reflexivity.
Defined.
