(* ===== verification/QuotaPrepare.v ===== *)
(** * QuotaPrepare: claiming and tagging a site's data, [cmd/worker/quota_prepare.go]

    [quotaDataTransition] takes a site from an ordinary one to one whose files
    carry a quota project.  Its steps are separate definitions in the order of
    the code; [transitionBody] composes them and [quotaDataTransition] adds the
    deferred fence.  The mutex and the deadline are not modelled: one program
    runs at a time. *)
From S2P Require Import Prelude GoStrings GoPath GoRegexp GoFloat GoSha256 Effects World Core Compose Json Policy Worker QuotaState Storage Ledger Capacity Operations Quota.
Set Warnings "-register-all".

Definition quotaDigest : re := exactly 64 isHexLower.

Module quotaAuthority.
Record t := mk { Version : Z; Owner : string; Daemon : string; State : string; UUID : string; Phase : string }.
Definition zero : t := mk 0 "" "" "" "" "".
Definition fields : list (string * setter t) :=
  [("version", setInt64 (fun v a => mk v (Owner a) (Daemon a) (State a) (UUID a) (Phase a)));
   ("owner", setString (fun v a => mk (Version a) v (Daemon a) (State a) (UUID a) (Phase a)));
   ("daemon", setString (fun v a => mk (Version a) (Owner a) v (State a) (UUID a) (Phase a)));
   ("state", setString (fun v a => mk (Version a) (Owner a) (Daemon a) v (UUID a) (Phase a)));
   ("filesystem_uuid", setString (fun v a => mk (Version a) (Owner a) (Daemon a) (State a) v (Phase a)));
   ("phase", setString (fun v a => mk (Version a) (Owner a) (Daemon a) (State a) (UUID a) v))].
Definition members (a : t) : list (string * json) :=
  [("version", JNum (itoa (Version a))); ("owner", JStr (Owner a)); ("daemon", JStr (Daemon a));
   ("state", JStr (State a)); ("filesystem_uuid", JStr (UUID a)); ("phase", JStr (Phase a))].
Definition toJSON (a : t) : json := JObj (members a).
Definition withPhase (p : string) (a : t) : t := mk (Version a) (Owner a) (Daemon a) (State a) (UUID a) p.
End quotaAuthority.

(** The fields of an embedded struct are fields of the outer one. *)
Definition embed {A B} (get : B -> A) (put : A -> B -> B) (fs : list (string * setter A)) : list (string * setter B) :=
  map (fun nf => (nf.1, fun v b => a ← nf.2 v (get b); Ok (put a b))) fs.

Module quotaTagPlan.
Record t := mk { authority : quotaAuthority.t; SiteID : string; ProjectID : Z }.
Definition zero : t := mk quotaAuthority.zero "" 0.
Definition fields : list (string * setter t) :=
  (embed authority (fun a p => mk a (SiteID p) (ProjectID p)) quotaAuthority.fields ++
   [("site_id", setString (fun v p => mk (authority p) v (ProjectID p)));
    ("project_id", setUint32 (fun v p => mk (authority p) (SiteID p) v))])%list.
Definition toJSON (p : t) : json :=
  JObj (quotaAuthority.members (authority p) ++
        [("site_id", JStr (SiteID p)); ("project_id", JNum (itoa (ProjectID p)))])%list.
Definition Phase (p : t) : string := quotaAuthority.Phase (authority p).
Definition withPhase (ph : string) (p : t) : t :=
  mk (quotaAuthority.withPhase ph (authority p)) (SiteID p) (ProjectID p).
End quotaTagPlan.

Definition quotaHash (value : string) : string := hexEncode (Sum256 value).

Definition authorityPhases : list string := ["pending"; "prepared"; "tagging"; "tagged"].

Definition validQuotaAuthority (a : quotaAuthority.t) : bool :=
  (quotaAuthority.Version a =? 1) && matchString quotaUUID (quotaAuthority.Owner a) &&
  matchString quotaUUID (quotaAuthority.UUID a) && matchString quotaDigest (quotaAuthority.Daemon a) &&
  matchString quotaDigest (quotaAuthority.State a) &&
  existsb (String.eqb (quotaAuthority.Phase a)) authorityPhases.

(** Equal identity of the plan and the reservation it was made for. *)
Definition planMatches (plan : quotaTagPlan.t) (r : quotaReservation.t) (daemon state : string) : bool :=
  let a := quotaTagPlan.authority plan in
  negb (quotaReservation.ProjectID r =? 0) && String.eqb (quotaAuthority.UUID a) (quotaReservation.FilesystemUUID r) &&
  (quotaTagPlan.ProjectID plan =? quotaReservation.ProjectID r) && String.eqb (quotaAuthority.Daemon a) daemon &&
  String.eqb (quotaAuthority.State a) state.

(** Is the authority file this installation's, in a phase that may go on? *)
Definition authorityMatches (a : quotaAuthority.t) (r : quotaReservation.t) (daemon state : string) : bool :=
  validQuotaAuthority a &&
  (String.eqb (quotaAuthority.Phase a) "pending" || String.eqb (quotaAuthority.Phase a) "prepared") &&
  String.eqb (quotaAuthority.Daemon a) daemon && String.eqb (quotaAuthority.State a) state &&
  String.eqb (quotaAuthority.UUID a) (quotaReservation.FilesystemUUID r).

(** May the plan's phase start this transition? *)
Definition phaseError (tagging : bool) (plan : option quotaTagPlan.t) : option error :=
  let phase := option_map quotaTagPlan.Phase plan in
  if tagging then
    match phase with
    | None | Some "pending" => Some (EMsg "quota tagging requires a prepared journal")
    | _ => None
    end
  else
    match phase with
    | Some "tagging" | Some "tagged" => Some (EMsg "quota tagging recovery requires the tagging transition")
    | _ => None
    end.

Definition haltedWriter (c : containerState.t) : bool :=
  String.eqb (containerState.Restart c) "no" &&
  (String.eqb (containerState.Status c) "exited" || String.eqb (containerState.Status c) "created" ||
   String.eqb (containerState.Status c) "dead").

(** The guard that tagging needs on disk: pending, without a limit. *)
Definition pendingGuard (g : quotaGuard.t) (plan : quotaTagPlan.t) : bool :=
  (quotaGuard.Version g =? 1) && String.eqb (quotaGuard.Phase g) "pending" && (quotaGuard.HardBytes g =? 0) &&
  (quotaGuard.ProjectID g =? quotaTagPlan.ProjectID plan) &&
  String.eqb (quotaGuard.FilesystemUUID g) (quotaAuthority.UUID (quotaTagPlan.authority plan)).

Section prepare.
Context (cfg : config) `{Unicode} `{Codec Operation.t}.

Definition readQuotaPlan (id : string) : M wop (option quotaTagPlan.t) :=
  if negb (ValidID id) then fail (EMsg "invalid quota site")
  else
    data ← try (readQuotaMetadata (planPath cfg id));
    match data with
    | Err e => if isNotExist e then mret None else fail e
    | Ok data =>
        plan ← lift (strictQuotaJSON quotaTagPlan.fields quotaTagPlan.zero data);
        if negb (validQuotaAuthority (quotaTagPlan.authority plan)) || negb (String.eqb (quotaTagPlan.SiteID plan) id) ||
           (quotaTagPlan.ProjectID plan =? 0)
        then fail (EMsg "invalid quota preparation journal") else mret (Some plan)
    end.

Definition daemonSeparators : string := CR +:+ NL +:+ String (chrZ 0) "" +:+ " " +:+ String (chrZ 9) "".

Definition quotaDaemon : M wop string :=
  out ← dockerOutput ["info"; "--format"; "{{.ID}}"];
  let id := trimSpace out in
  if (lenZ id <? 8) || (128 <? lenZ id) || containsAny id daemonSeparators
  then fail (EMsg "invalid Docker daemon identity") else mret (quotaHash id).

Definition quotaRootOK : bool :=
  isAbs (quotaRoot cfg) && String.eqb (GoPath.clean (quotaRoot cfg)) (quotaRoot cfg) && negb (String.eqb (quotaRoot cfg) "/") &&
  negb (containsAny (quotaRoot cfg) ("," +:+ CR +:+ NL +:+ String (chrZ 0) "")).

Definition authorityPath (r : quotaReservation.t) : string :=
  root cfg +/+ ".quota" +/+ ("authority-" +:+ quotaReservation.FilesystemUUID r +:+ ".json").

Definition writeAuthority (r : quotaReservation.t) (a : quotaAuthority.t) : M wop unit :=
  atomicConfig (authorityPath r) (printJSON (quotaAuthority.toJSON a)).
Definition writePlan (id : string) (plan : quotaTagPlan.t) : M wop unit :=
  atomicConfig (planPath cfg id) (printJSON (quotaTagPlan.toJSON plan)).
Definition writeGuard (id : string) (g : quotaGuard.t) : M wop unit :=
  atomicConfig (quotaPath cfg id) (printJSON (quotaGuard.toJSON g)).

(** The reservation of the site, made now when there is no plan yet, read back
    under the ledger's lock and compared with the plan. *)
Definition siteReservation (id : string) (plan : option quotaTagPlan.t) (daemon state : string) : M wop quotaReservation.t :=
  made ← (match plan with
          | None => r ← reserveQuotaProject cfg id; mret (Some r)
          | Some _ => mret None
          end);
  fresh ← lockQuotaLedger cfg;
  ledger ← loadQuotaLedger cfg fresh;
  match plan with
  | None => mret (default quotaReservation.zero made)
  | Some p =>
      let r := default quotaReservation.zero (List.find (ofSite id) (default [] (quotaLedger.Reservations ledger))) in
      if planMatches p r daemon state then mret r
      else fail (EMsg "quota preparation identity or reservation changed")
  end.

(** The installation's authority over the file system: created with a random
    owner on first use, otherwise read and checked. *)
Definition siteAuthority (r : quotaReservation.t) (plan : option quotaTagPlan.t) (daemon state : string)
  : M wop quotaAuthority.t :=
  data ← try (readQuotaMetadata (authorityPath r));
  match absent data, plan with
  | true, None =>
      token ← perform (ORand 16);
      let a := quotaAuthority.mk 1 (hexEncode token) daemon state (quotaReservation.FilesystemUUID r) "pending" in
      _ ← writeAuthority r a;
      mret a
  | _, _ =>
      match data with
      | Err _ => fail (EMsg "quota authority state missing; recover complete metadata")
      | Ok data =>
          a ← lift (strictQuotaJSON quotaAuthority.fields quotaAuthority.zero data);
          if authorityMatches a r daemon state then mret a
          else fail (EMsg "quota authority belongs to another installation or daemon")
      end
  end.

(** The first durable launch fence: a pending guard, then the plan. *)
Definition recordPlan (id : string) (r : quotaReservation.t) (a : quotaAuthority.t) (plan : option quotaTagPlan.t)
  : M wop quotaTagPlan.t :=
  match plan with
  | Some p =>
      if String.eqb (quotaAuthority.Owner (quotaTagPlan.authority p)) (quotaAuthority.Owner a) then mret p
      else fail (EMsg "quota owner changed")
  | None =>
      _ ← writeGuard id (quotaGuard.mk 1 "pending" (quotaReservation.ProjectID r) 0 (quotaReservation.FilesystemUUID r));
      let p := quotaTagPlan.withPhase "pending" (quotaTagPlan.mk a id (quotaReservation.ProjectID r)) in
      _ ← writePlan id p;
      mret p
  end.

(** Nothing writes to the site's volumes. *)
Definition quiesceData (id : string) : M wop unit :=
  _ ← fenceQuotaSite cfg id "blocked";
  _ ← ensureQuotaRestartCompose cfg id;
  states ← quotaContainers id;
  if negb (forallb haltedWriter states) then fail (EMsg "quota writer fencing could not be verified")
  else
    forM volumeNames tt (fun _ volume =>
      out ← dockerOutput ["ps"; "--filter"; "volume=wph-" +:+ id +:+ "_" +:+ volume; "--format"; "{{.ID}}"];
      if String.eqb (trimSpace out) "" then mret tt
      else fail (EMsg "another active container uses quota site data")).

(** What the helper is asked: action, expected reason, mode. *)
Definition helperRequest : Type := string * string * string.

(** The plan to go on with and the request.  Tagging is recorded in the plan
    before the helper can change any inode. *)
Definition startTransition (id : string) (plan : quotaTagPlan.t) (tagging : bool) : M wop (quotaTagPlan.t * helperRequest) :=
  let mode := if String.eqb (quotaTagPlan.Phase plan) "prepared" then "existing" else "claim" in
  if tagging then
    data ← try (readQuotaMetadata (quotaPath cfg id));
    match data with
    | Err _ => fail (EMsg "pending quota guard missing; recover complete metadata")
    | Ok data =>
        guard ← lift (strictQuotaJSON quotaGuard.fields quotaGuard.zero data);
        if negb (pendingGuard guard plan) then fail (EMsg "quota tagging requires the matching pending launch fence")
        else
          let p := quotaTagPlan.withPhase "tagging" plan in
          _ ← writePlan id p;
          mret (p, ("--tag", "tagged", "existing"))
    end
  else mret (plan, ("--prepare", "prepared", mode)).

Definition helperArguments (id : string) (r : quotaReservation.t) (a : quotaAuthority.t) (daemon state action mode : string)
  : list string :=
  [action; quotaAuthority.Owner a; daemon; state; quotaReservation.FilesystemUUID r; id;
   itoa (quotaReservation.ProjectID r); mode].

(** Run the helper and record what it verified. *)
Definition finishTransition (id : string) (r : quotaReservation.t) (a : quotaAuthority.t) (daemon state : string)
  (step : quotaTagPlan.t * helperRequest) : M wop unit :=
  let '(plan, (action, expected, mode)) := step in
  out ← runStorageHelper id "storage-authority" ["type=bind,src=" +:+ quotaRoot cfg +:+ ",dst=/quota-filesystem"]
          (helperArguments id r a daemon state action mode);
  res ← lift (strictQuotaJSON verifyResult.fields verifyResult.zero out);
  if negb (verifyResult.Verified res) || negb (String.eqb (verifyResult.Reason res) expected)
  then fail (EMsg ("quota ownership/journal preparation refused: " +:+ verifyResult.Reason res))
  else
    _ ← writeAuthority r (quotaAuthority.withPhase "prepared" a);
    writePlan id (quotaTagPlan.withPhase expected plan).

Definition transitionBody (id : string) (tagging : bool) : M wop unit :=
  if negb quotaRootOK then fail (EMsg "quota transition requires an explicit dedicated filesystem root")
  else
    daemon ← quotaDaemon;
    let state := quotaHash (GoPath.clean (root cfg)) in
    plan ← readQuotaPlan id;
    match phaseError tagging plan with
    | Some e => fail e
    | None =>
        r ← siteReservation id plan daemon state;
        a ← siteAuthority r plan daemon state;
        p ← recordPlan id r a plan;
        _ ← quiesceData id;
        step ← startTransition id p tagging;
        finishTransition id r a daemon state step
    end.

Definition quotaDataTransition (id : string) (tagging : bool) : M wop unit :=
  if negb (ValidID id) then fail (EMsg "invalid quota site")
  else
    deferred (transitionBody id tagging) (fun r =>
      match r with
      | Ok _ => mret tt
      | Err e => fenced cfg id "blocked" e
      end).

Definition prepareQuotaTagging (id : string) : M wop unit := quotaDataTransition id false.
Definition tagQuotaData (id : string) : M wop unit := quotaDataTransition id true.
End prepare.
