(* ===== verification/QuotaPrepareFacts.v ===== *)
(** * QuotaPrepareFacts: tagging starts behind durable records

    The helper that claims and tags inodes runs last, after the fence and the
    records that make every later start refuse the site; and a transition that
    fails at any point leaves the site fenced. *)
From S2P Require Import Prelude GoStrings GoPath GoRegexp GoFloat GoSha256 GoTime Effects World Core CoreFacts Compose Json JsonFacts Policy Worker QuotaState Storage Samples Ledger LedgerFacts Capacity Operations Quota QuotaFacts QuotaPrepare.
Set Warnings "-register-all".
#[local] Opaque matchString.

Section facts.
Context (cfg : config) `{Unicode} `{Codec Operation.t} `{Env}.

(** What the transition hands to its last step. *)
Record context := Context {
  c_reservation : quotaReservation.t;
  c_authority : quotaAuthority.t;
  c_daemon : string;
  c_state : string;
  c_step : quotaTagPlan.t * helperRequest;
}.

(** Everything before the helper. *)
Definition untilHelper (id : string) (tagging : bool) : M wop context :=
  if negb (quotaRootOK cfg) then fail (EMsg "quota transition requires an explicit dedicated filesystem root")
  else
    daemon ← quotaDaemon;
    plan ← readQuotaPlan cfg id;
    match phaseError tagging plan with
    | Some e => fail e
    | None =>
        r ← siteReservation cfg id plan daemon (quotaHash (GoPath.clean (root cfg)));
        a ← siteAuthority cfg r plan daemon (quotaHash (GoPath.clean (root cfg)));
        p ← recordPlan cfg id r a plan;
        _ ← quiesceData cfg id;
        step ← startTransition cfg id p tagging;
        mret (Context r a daemon (quotaHash (GoPath.clean (root cfg))) step)
    end.

(** The helper and what is recorded of its answer. *)
Definition helperStep (id : string) (c : context) : M wop unit :=
  finishTransition cfg id (c_reservation c) (c_authority c) (c_daemon c) (c_state c) (c_step c).

Lemma transition_phases id tagging :
  peq (transitionBody cfg id tagging) (c ← untilHelper id tagging; helperStep id c).
Proof.
  symmetry. unfold transitionBody, untilHelper. destruct (quotaRootOK cfg); cbn [negb]; [|symmetry; apply peq_fail].
  do 2 (etransitivity; [apply peq_assoc|apply peq_bind; [intros ?|reflexivity]]).
  destruct (phaseError tagging _); [symmetry; apply peq_fail|].
  do 5 (etransitivity; [apply peq_assoc|apply peq_bind; [intros ?|reflexivity]]).
  etransitivity; [apply peq_ret_bind|reflexivity].
Qed.

(** ** The records at the helper's start *)
Definition planText (p : quotaTagPlan.t) : string := printJSON (quotaTagPlan.toJSON p).
Definition pendingGuardText (r : quotaReservation.t) : string :=
  printJSON (quotaGuard.toJSON (quotaGuard.mk 1 "pending" (quotaReservation.ProjectID r) 0 (quotaReservation.FilesystemUUID r))).

(** The site is fenced; a tagging transition has recorded itself, next to a
    pending guard of the same project; a first preparation has left the pending
    guard and the plan, either of which marks the site. *)
Definition readyForHelper (id : string) (tagging : bool) (plan : option quotaTagPlan.t) (c : context) (fs : fsmap) : Prop :=
  intentOnDisk cfg id "blocked" fs /\
  (tagging = true ->
     fs !! planPath cfg id = Some (NFile (planText (c_step c).1)) /\ quotaTagPlan.Phase (c_step c).1 = "tagging" /\
     exists data g, fs !! quotaPath cfg id = Some (NFile data) /\
       strictQuotaJSON quotaGuard.fields quotaGuard.zero data = Ok g /\ pendingGuard g (c_step c).1 = true) /\
  (plan = None ->
     fs !! quotaPath cfg id = Some (NFile (pendingGuardText (c_reservation c))) /\
     exists p, fs !! planPath cfg id = Some (NFile (planText p)) /\ quotaTagPlan.SiteID p = id).

Lemma siteFile_ne id a b : a <> b -> siteDir cfg id +/+ a <> siteDir cfg id +/+ b.
Proof. intros Hab Heq. by apply child_inj in Heq. Qed.

Lemma causes_quiesceData (P : event -> Prop) id :
  (forall e, fenceEvent cfg id "blocked" e -> P e) -> (forall args, P (EvCmd (COutput args))) ->
  P (EvFs (MWrite (profilePath cfg id) (profile cfg))) ->
  (forall d, P (EvFs (MWrite (composePath cfg id) d))) -> causes P (quiesceData cfg id).
Proof.
  intros Hf Ho Hp Hc. unfold quiesceData. causes_auto; try by apply causes_output.
  - intros w. eapply Forall_impl; [apply fence_events|done].
  - by apply causes_ensureQuotaRestartCompose.
  - by apply causes_quotaContainers.
Qed.

(** The preparation's steps keep every file of the site but the intent, the
    profile and compose.yaml. *)
Lemma quiesceData_leaves id name :
  name <> "quota-intent.json" -> name <> "writer-seccomp-v1.json" -> name <> "compose.yaml" ->
  causes (leaves (siteDir cfg id +/+ name)) (quiesceData cfg id).
Proof.
  intros Hi Hp Hc. apply causes_quiesceData; [|done|..].
  - intros e []; cbn [leaves touches]; try done. by apply siteFile_ne.
  - cbn [leaves touches]. by apply siteFile_ne.
  - intros d. cbn [leaves touches]. by apply siteFile_ne.
Qed.

Lemma exec_quiesceData_Ok id w w' t :
  exec (quiesceData cfg id) w = (Ok tt, w', t) -> intentOnDisk cfg id "blocked" (w_fs w').
Proof.
  unfold quiesceData. intros ([]&w1&t1&t2&Hf%exec_fence_Ok&Hx&_)%exec_bind_Ok.
  eapply intentOnDisk_same; [|exact Hf]. eapply exec_frame; [|exact Hx]. causes_auto; try by apply causes_output.
  - apply causes_ensureQuotaRestartCompose; intros; cbn [leaves touches]; by apply siteFile_ne.
  - by apply causes_quotaContainers.
Qed.

Lemma exec_startTransition_Ok id p tagging w step w' t :
  exec (startTransition cfg id p tagging) w = (Ok step, w', t) ->
  Forall (fun e => e = EvFs (MWrite (planPath cfg id) (planText step.1))) t /\
  (tagging = false -> t = []) /\
  (tagging = true ->
     w_fs w' !! planPath cfg id = Some (NFile (planText step.1)) /\ quotaTagPlan.Phase step.1 = "tagging" /\
     exists data g, w_fs w' !! quotaPath cfg id = Some (NFile data) /\
       strictQuotaJSON quotaGuard.fields quotaGuard.zero data = Ok g /\ pendingGuard g step.1 = true).
Proof.
  unfold startTransition. cbv zeta. intros Hx. destruct tagging.
  2:{ by apply exec_ret in Hx as ([= ->]&->&->). }
  apply exec_bind_Ok in Hx as (d&w1&t1&t2&Hd&Hx&->). apply exec_try in Hd as (d'&[= <-]&Hd).
  apply exec_readQuotaMetadata in Hd as (Hw1&->&_&Hok). destruct d as [d|e]; [|done].
  destruct (Hok d eq_refl) as (data&Hdata&->). rewrite exec_lift_bind in Hx.
  destruct (strictQuotaJSON _ _ _) as [g|e] eqn:Eg in Hx; [|done].
  destruct (pendingGuard g p) eqn:Ep; [|done]. cbn [negb] in Hx.
  apply exec_bind_Ok in Hx as ([]&w2&t3&t4&Hw%exec_atomic_Ok&Hx&->). destruct Hw as [Hw ->].
  apply exec_ret in Hx as ([= ->]&->&->). cbn [fst]. rewrite Hw, app_nil_r.
  split; [by constructor|]. split; [done|]. intros _. split; [apply lookup_insert_eq|]. split; [done|].
  exists data, g. rewrite lookup_insert_ne, Hw1 by by apply siteFile_ne. split; [exact Hdata|].
  destruct (Z.le_gt_cases (lenZ data) quotaLedgerLimit) as [Hl|Hl].
  - by rewrite readAtMost_limit in Eg.
  - exfalso. unfold strictQuotaJSON, readAtMost in Eg.
    destruct (Z.leb_spec (lenZ data) (quotaLedgerLimit + 1)).
    + rewrite (proj2 (Z.ltb_lt _ _)) in Eg by lia. done.
    + rewrite (proj2 (Z.ltb_lt _ _)) in Eg; [done|]. unfold lenZ in *. rewrite length_take_str. lia.
Qed.

Lemma exec_recordPlan_None id r a w p w' t :
  exec (recordPlan cfg id r a None) w = (Ok p, w', t) ->
  quotaTagPlan.SiteID p = id /\ w_fs w' !! quotaPath cfg id = Some (NFile (pendingGuardText r)) /\
  w_fs w' !! planPath cfg id = Some (NFile (planText p)).
Proof.
  unfold recordPlan. intros ([]&w1&t1&t2&[Hg _]%exec_atomic_Ok&Hx&_)%exec_bind_Ok.
  apply exec_bind_Ok in Hx as ([]&w2&t3&t4&[Hp _]%exec_atomic_Ok&Hx&_). apply exec_ret in Hx as ([= ->]&->&_).
  rewrite Hp, lookup_insert_eq, lookup_insert_ne, Hg, lookup_insert_eq by by apply siteFile_ne. done.
Qed.

(** The records in the execution of the last three steps before the helper. *)
Lemma exec_tail id r a plan tagging w p step w1 t1 w2 t2 w3 t3 :
  phaseError tagging plan = None ->
  exec (recordPlan cfg id r a plan) w = (Ok p, w1, t1) ->
  exec (quiesceData cfg id) w1 = (Ok tt, w2, t2) ->
  exec (startTransition cfg id p tagging) w2 = (Ok step, w3, t3) ->
  forall daemon state, readyForHelper id tagging plan (Context r a daemon state step) (w_fs w3).
Proof.
  intros Hph Hr Hq Hs daemon state. pose proof (exec_fs _ _ _ _ _ Hs) as Hfs.
  apply exec_startTransition_Ok in Hs as (Hev&Hno&Htag). split; [|split; [exact Htag|]].
  - eapply intentOnDisk_same; [|by eapply exec_quiesceData_Ok]. rewrite Hfs. apply replay_frame.
    eapply Forall_impl; [exact Hev|]. intros e ->. cbn [leaves touches]. by apply siteFile_ne.
  - intros ->. destruct tagging; [done|]. rewrite (Hno eq_refl) in Hfs. rewrite Hfs. cbn [replay foldl].
    apply exec_recordPlan_None in Hr as (Hid&Hg&Hp). cbn [c_reservation].
    assert (forall name, name <> "quota-intent.json" -> name <> "writer-seccomp-v1.json" -> name <> "compose.yaml" ->
      w_fs w2 !! (siteDir cfg id +/+ name) = w_fs w1 !! (siteDir cfg id +/+ name)) as Hk.
    { intros name ???. eapply exec_frame; [by apply quiesceData_leaves|exact Hq]. }
    unfold quotaPath, planPath in *. rewrite !Hk by done. split; [exact Hg|]. exists p. split; [exact Hp|exact Hid].
Qed.

Lemma exec_untilHelper_Ok id tagging w c w' t :
  exec (untilHelper id tagging) w = (Ok c, w', t) ->
  exists plan w0 w1 t1, exec (readQuotaPlan cfg id) w0 = (Ok plan, w1, t1) /\ w_fs w0 = w_fs w /\
    readyForHelper id tagging plan c (w_fs w').
Proof.
  unfold untilHelper. destruct (quotaRootOK cfg); [|done]. cbn [negb].
  intros (daemon&w0&u0&?&Hd&Hx&->)%exec_bind_Ok. apply exec_bind_Ok in Hx as (plan&w1&t1&?&Hplan&Hx&->).
  destruct (phaseError tagging plan) as [e|] eqn:Hph; [done|].
  apply exec_bind_Ok in Hx as (r&w2&t2&?&_&Hx&->). apply exec_bind_Ok in Hx as (a&w3&t3&?&_&Hx&->).
  apply exec_bind_Ok in Hx as (p&w4&t4&?&Hp&Hx&->). apply exec_bind_Ok in Hx as ([]&w5&t5&?&Hq&Hx&->).
  apply exec_bind_Ok in Hx as (step&w6&t6&?&Hs&Hx&->). apply exec_ret in Hx as ([= ->]&->&->).
  exists plan, w0, w1, t1. split; [exact Hplan|]. split; [|by eapply exec_tail].
  eapply commands_same; [|exact Hd]. unfold quotaDaemon. causes_auto. by apply causes_output.
Qed.


(** C19: a transition that fails, wherever it fails, ends with the fence of the
    site, and reports both errors; when that fence worked, the intent on disk
    says blocked. *)
Theorem transition_failure_fenced id tagging w e w' t :
  ValidID id = true -> exec (quotaDataTransition cfg id tagging) w = (Err e, w', t) ->
  exists cause w1 t1 f t2,
    exec (transitionBody cfg id tagging) w = (Err cause, w1, t1) /\
    exec (fenceQuotaSite cfg id "blocked") w1 = (f, w', t2) /\ t = (t1 ++ t2)%list /\
    e = EJoin (cause :: match f with Ok _ => [] | Err fe => [fe] end) /\
    (f = Ok tt -> intentOnDisk cfg id "blocked" (w_fs w')).
Proof.
  intros Hid Hx. unfold quotaDataTransition, deferred in Hx. rewrite Hid in Hx. cbn [negb] in Hx.
  apply run_bind_inv in Hx as (r&w1&t1&t2&Hb&Hx&->). destruct r as [[]|cause].
  { by apply exec_ret in Hx as (?&_). }
  unfold fenced in Hx. apply exec_bind in Hx as [(fe&Hf&_)|(f&w2&t3&t4&Hf&Hx&->)];
    apply exec_try in Hf as (f'&[= <-]&Hf).
  apply exec_ret in Hx as (He&->&->). exists cause, w1, t1, f, t3. rewrite app_nil_r.
  split; [exact Hb|]. split; [exact Hf|]. split; [done|]. split.
  - destruct f; simpl in He; by injection He.
  - intros ->. by eapply exec_fence_Ok.
Qed.
End facts.

(** ** Witnesses *)
#[local] Existing Instance asciiUnicode.

(** Docker on a host where the site is stopped and the helper agrees. *)
Definition prepareHelper (reason : string) (args : list string) : string :=
  if existsb (String.eqb "--inventory") args then censusAnswer
  else if existsb (String.eqb "storage-authority") (map base args)
  then raw "{`verified`:true,`reason`:`" +:+ reason +:+ raw "`}"
  else match args with
       | "info" :: "--format" :: "{{.ID}}" :: _ => "daemon-identity" +:+ NL
       | "ps" :: "--filter" :: _ => ""
       | _ => stoppedHelper args
       end.

Definition prepareWorld (reason : string) : world :=
  World _ (sampleFiles []) (answers (prepareHelper reason)) "" ∅.

Definition transitionOf (reason : string) (tagging : bool) :=
  exec (quotaDataTransition sampleConfig sampleID tagging) (prepareWorld reason).


Lemma transition_failure_fenced_witness :
  exists e, (transitionOf "kernel" false).1.1 = Err e /\
    exists cause w1 t1 f t2,
      exec (transitionBody sampleConfig sampleID false) (prepareWorld "kernel") = (Err cause, w1, t1) /\
      exec (fenceQuotaSite sampleConfig sampleID "blocked") w1 = (f, (transitionOf "kernel" false).1.2, t2) /\
      (f = Ok tt -> intentOnDisk sampleConfig sampleID "blocked" (w_fs (transitionOf "kernel" false).1.2)).
Proof.
  exists (EJoin [EMsg "quota ownership/journal preparation refused: kernel"]).
  assert ((transitionOf "kernel" false).1.1 = Err (EJoin [EMsg "quota ownership/journal preparation refused: kernel"])) as Hr
    by (vm_compute; reflexivity).
  split; [exact Hr|].
  destruct (transition_failure_fenced sampleConfig sampleID false (prepareWorld "kernel") _ _ _ eq_refl
              (exec_parts _ _ _ Hr)) as (cause&w1&t1&f&t2&Hb&Hf&_&_&Hi).
  exists cause, w1, t1, f, t2. split; [exact Hb|]. split; [exact Hf|exact Hi].
Defined.
