(* ===== verification/Sites.v ===== *)
(** * Sites: creating, starting, stopping and changing sites

    The site operations of [cmd/worker/main.go] and [changeResources] of
    [resources.go].  A Go [map] that is ranged over is a list in one order; the
    theorems that need it hold for any order. *)
From S2P Require Import Prelude GoStrings GoPath GoRegexp GoFloat GoTime Effects World Core Compose Json Policy Worker QuotaState Storage Capacity Operations Quota.

Definition wpInstallScript : string :=
  raw "i=0; while { [ ! -f wp-includes/version.php ] || [ ! -s wp-config.php ] || ! grep -q `require_once.*wp-settings\.php` wp-config.php; } && [ `$i` -lt 120 ]; do i=$((i+1)); sleep 1; done; if [ ! -f wp-includes/version.php ] || [ ! -s wp-config.php ] || ! grep -q `require_once.*wp-settings\.php` wp-config.php; then echo `WordPress files and configuration were not ready after 120 seconds` >&2; exit 1; fi; if wp core is-installed >/dev/null 2>&1; then wp user update admin --user_pass=`$(cat /run/secrets/admin_password)` --user_email=`$(cat /run/secrets/admin_email)`; else wp core install --url=`$(cat /run/secrets/site_url)` --title=`$(cat /run/secrets/site_title)` --admin_user=admin --admin_password=`$(cat /run/secrets/admin_password)` --admin_email=`$(cat /run/secrets/admin_email)` --skip-email; fi".

Definition wpUpdateScript : string :=
  raw "set -eu; wp core update; wp core update-db; wp plugin update --all; wp theme update --all".

Definition readyScript : string :=
  raw "$s=@fsockopen(`127.0.0.1`,80);exit($s?0:1);".

(** Change the error a program fails with. *)
Definition mapErr {A} (f : error -> error) (p : M wop A) : M wop A :=
  r ← try p;
  match r with Ok a => mret a | Err e => fail (f e) end.

Definition void {A} (r : result A) : result unit := match r with Ok _ => Ok tt | Err e => Err e end.

Section sites.
Context (cfg : config) `{Unicode} `{Codec Operation.t}.

(** [defer func() { err = w.finishQuotaWrite(ctx, id, err) }()]. *)
Definition finishing {A} (id : string) (p : M wop A) : M wop A :=
  deferred p (fun r => _ ← finishQuotaWrite cfg id (void r); lift r).

(** ** The database manager *)
Definition ensureDatabaseTool (id : string) : M wop unit :=
  data ← perform (ORead (composePath cfg id));
  content ← lift (addDatabaseTool data id (databaseURL cfg id) (profilePath cfg id));
  match content with
  | None => mret tt
  | Some c => atomicConfig (composePath cfg id) c
  end.

Definition removeTool (id : string) : M wop unit :=
  dockerRun (composeArgs cfg id ["rm"; "-sf"; "phpmyadmin"]).

(** The timer of [scheduleDatabaseStop] starts, replacing an earlier one; when
    it fires, 15 minutes later, [expireDatabaseTool] runs. *)
Definition scheduleDatabaseStop (id : string) : M wop unit := get (OTimer id true).
Definition expireDatabaseTool (id : string) : M wop unit :=
  _ ← try (removeTool id);
  get (OTimer id false).

(** The 30 attempts, one second apart, to reach the manager. *)
Fixpoint awaitTool (attempts : nat) (id : string) (readyErr : error) : M wop unit :=
  match attempts with
  | O => fail (EWrap "database manager did not become ready" readyErr)
  | S n =>
      r ← try (dockerRun ["exec"; "wph-pma-" +:+ id; "php"; "-r"; readyScript]);
      match r with
      | Ok _ => mret tt
      | Err e => _ ← perform OCtx; awaitTool n id e
      end
  end.

Definition databaseActionBody (id action : string) : M wop unit :=
  if negb (ValidID id) then fail (EMsg "invalid site ID")
  else
    _ ← perform (OStat (composePath cfg id));
    _ ← ensureDatabaseTool id;
    if String.eqb action "start" then
      _ ← quotaPreflight cfg id;
      _ ← ensureWriterPolicy cfg id;
      _ ← dockerRun (composeArgs cfg id ["--profile"; "tools"; "up"; "-d"; "phpmyadmin"]);
      _ ← awaitTool 30 id (EMsg "");
      scheduleDatabaseStop id
    else if String.eqb action "stop" then
      _ ← get (OTimer id false);
      removeTool id
    else fail (EMsg "invalid database action").

Definition databaseAction (id action : string) : M wop unit :=
  if String.eqb action "start" then finishing id (databaseActionBody id action)
  else databaseActionBody id action.

(** ** Updates *)
Definition cliArgs (id script : string) : list string :=
  composeArgs cfg id ["run"; "--rm"; "--name"; "wph-cli-" +:+ id; "--no-deps"; "cli"; "sh"; "-c"; script].

Definition updateSite (req : UpdateRequest.t) : M wop unit :=
  let site := UpdateRequest.Site req in
  let id := Site.ID site in
  finishing id
    (_ ← quotaPreflight cfg id;
     _ ← lift (ValidateSite site);
     _ ← perform (OStat (composePath cfg id));
     _ ← ensureWriterPolicy cfg id;
     dockerRun (cliArgs id wpUpdateScript)).

(** ** The network migration at startup *)
Definition migrateNetwork (id : string) : M wop unit :=
  r ← try (perform (ORead (composePath cfg id)));
  match r with
  | Err _ => mret tt
  | Ok data =>
      if negb (contains data legacyFrontendNetwork) then mret tt
      else
        _ ← perform (OWrite (composePath cfg id) (replace1 data legacyFrontendNetwork sharedFrontendNetwork));
        running ← try (dockerOutput ["inspect"; "--format"; "{{.State.Running}}"; "wph-wp-" +:+ id]);
        match running with
        | Ok out =>
            if String.eqb (trimSpace out) "true" then
              r ← try (quotaPreflight cfg id);
              match r with
              | Err _ => mret tt
              | Ok _ => _ ← try (dockerRun (composeArgs cfg id ["up"; "-d"; "--wait"])); mret tt
              end
            else mret tt
        | Err _ => mret tt
        end
  end.

Definition migrateLegacyNetworks : M wop unit :=
  entries ← readDirOrNone (root cfg);
  forM (filter (fun e => isSiteDir e = true) entries) tt (fun _ e => migrateNetwork e.1).

(** ** Creation *)
Definition writeSecret (dir name value : string) : M wop unit :=
  if contains value NUL then fail (EMsg "invalid secret") else perform (OWrite (dir +/+ name) value).

Definition siteURL (domain : string) : string :=
  (if hasSuffix domain ".localhost" then "http://" else "https://") +:+ domain.

(** A secret is written when it is missing; only the administrator's password
    is replaced. *)
Definition installSecret (secretDir : string) (secret : string * string) : M wop unit :=
  let '(name, value) := secret in
  st ← try (perform (OStat (secretDir +/+ name)));
  match st with
  | Ok _ => if String.eqb name "admin_password" then writeSecret secretDir name value else mret tt
  | Err e => if isNotExist e then writeSecret secretDir name value else fail e
  end.

Definition routeAddress (domain : string) : string :=
  if hasSuffix domain ".localhost" then "http://" +:+ domain else domain.
Definition routeText (id domain : string) : string :=
  routeAddress domain +:+ " {" +:+ NL +:+ "  reverse_proxy wph-wp-" +:+ id +:+ ":80" +:+ NL +:+ "}" +:+ NL.
Definition routePath (id : string) : string := routes cfg +/+ (id +:+ ".caddy").

(** The root password of the database, drawn only when there is none. *)
Definition rootSecret (secretDir : string) : M wop (list (string * string)) :=
  st ← try (perform (OStat (secretDir +/+ "db_root_password")));
  match st with
  | Ok _ => mret []
  | Err e => if isNotExist e then b ← perform (ORand 24); mret [("db_root_password", randomPassword b)] else fail e
  end.

Definition siteSecrets (req : CreateRequest.t) : list (string * string) :=
  let site := CreateRequest.Site req in
  [("db_password", CreateRequest.DBPassword req); ("admin_password", CreateRequest.AdminPassword req);
   ("site_url", siteURL (Site.Domain site)); ("site_title", Site.Title site); ("admin_email", Site.AdminEmail site)].

Definition create (req : CreateRequest.t) : M wop unit :=
  let site := CreateRequest.Site req in
  let id := Site.ID site in
  m ← quotaMarked cfg id;
  if markedOrErr m then fail (EMsg "quota-managed sites cannot be reprovisioned by the legacy create path")
  else
    _ ← lift (ValidateSite site);
    if (lenZ (CreateRequest.DBPassword req) <? 32) || (lenZ (CreateRequest.AdminPassword req) <? 16)
    then fail (EMsg "weak generated credentials")
    else
      let secretDir := siteDir cfg id +/+ "secrets" in
      _ ← perform (OMkdirAll secretDir);
      extra ← rootSecret secretDir;
      _ ← forM (siteSecrets req ++ extra)%list tt (fun _ s => installSecret secretDir s);
      let '(memory, cpus) := ResourceLimits site in
      hardened ← writerCompose cfg id (renderCompose id memory cpus (quote (databaseURL cfg id)));
      _ ← writeWriterProfile cfg id;
      _ ← atomicConfig (composePath cfg id) hardened;
      _ ← dockerRun (composeArgs cfg id ["up"; "-d"; "--wait"]);
      _ ← perform (OMkdirAll (routes cfg));
      _ ← perform (OWrite (routePath id) (routeText id (Site.Domain site)));
      dockerRun (cliArgs id wpInstallScript).

(** ** Start, stop and delete *)

(** [os.Remove] of a file that may be missing. *)
Definition removeIfPresent (path : string) : M wop unit :=
  r ← try (perform (ORemove path));
  match r with
  | Err e => if isNotExist e then mret tt else fail e
  | Ok _ => mret tt
  end.

Definition removeSiteFiles (id : string) : M wop unit :=
  _ ← perform (ORemoveAll (siteDir cfg id));
  if String.eqb (backupsRoot cfg) "" then mret tt else perform (ORemoveAll (backupsRoot cfg +/+ id)).

(** Deleting a site whose configuration is gone: refused while Docker still
    has containers or volumes of it. *)
Definition finishDeletion (id : string) : M wop unit :=
  containers ← dockerOutput ["ps"; "-a"; "--filter"; "label=com.docker.compose.project=wph-" +:+ id; "--format"; "{{.ID}}"];
  volumes ← dockerOutput ["volume"; "ls"; "--filter"; "label=com.docker.compose.project=wph-" +:+ id; "--format"; "{{.Name}}"];
  if negb (String.eqb (trimSpace containers) "") || negb (String.eqb (trimSpace volumes) "")
  then fail (EMsg "site configuration is missing but Docker resources remain; inspect the server before deleting")
  else
    _ ← removeIfPresent (routePath id);
    removeSiteFiles id.

(** What [stop] and [delete] do first. *)
Definition quietDown (id : string) : M wop unit :=
  m ← quotaMarked cfg id;
  _ ← (if markedOrErr m then fenceQuotaSite cfg id "stopped" else mret tt);
  mapErr (EWrap "stop database manager") (databaseAction id "stop").

Definition startSite (id : string) : M wop unit :=
  m ← quotaMarked cfg id;
  if markedOrErr m then startQuotaSite cfg id
  else
    _ ← ensureWriterPolicy cfg id;
    dockerRun (composeArgs cfg id ["up"; "-d"; "--wait"]).

Definition deleteSite (id : string) : M wop unit :=
  _ ← removeIfPresent (routePath id);
  _ ← dockerRun (composeArgs cfg id ["down"; "--volumes"]);
  removeSiteFiles id.

Definition action (id action : string) : M wop unit :=
  if negb (ValidID id) then fail (EMsg "invalid site ID")
  else
    st ← try (perform (OStat (composePath cfg id)));
    match st with
    | Err e => if String.eqb action "delete" && isNotExist e then finishDeletion id else fail e
    | Ok _ =>
        _ ← (if String.eqb action "stop" || String.eqb action "delete" then quietDown id else mret tt);
        if String.eqb action "prepare-restore" then prepareRestore cfg id
        else if String.eqb action "start" then startSite id
        else if String.eqb action "stop" then dockerRun (composeArgs cfg id ["stop"])
        else if String.eqb action "delete" then deleteSite id
        else fail (EMsg "invalid action")
    end.

(** ** Resource changes *)

(** The deferred classification: what failed before anything changed is an
    [admissionError], safe for a quota site when the failure is a known
    rejection behind a verified guard. *)
Definition classifyError (m : bool * option error) (verified rejected changed : bool) (e : error) : error :=
  if negb changed && ((negb m.1 && match m.2 with None => true | _ => false end) || (verified && rejected))
  then EAdmission e (m.1 && verified && rejected)
  else e.

Definition recreateArgs (status : Status) : list string :=
  if String.eqb status StatusRunning then ["up"; "-d"; "--wait"; "wordpress"; "db"]
  else ["create"; "--force-recreate"; "wordpress"; "db"].

(** The new contents of compose.yaml, with the database manager stopped. *)
Definition prepareResources (id : string) (r : Resources.t) : M wop string :=
  data ← perform (ORead (composePath cfg id));
  updated ← lift (composeResources data (Some r));
  updated ← writerCompose cfg id updated.2;
  _ ← writeWriterProfile cfg id;
  _ ← databaseAction id "stop";
  mret updated.

(** The part that changes the site. *)
Definition applyResources (id updated : string) (status : Status) : M wop unit :=
  _ ← atomicConfig (composePath cfg id) updated;
  _ ← dockerRun (composeArgs cfg id ["stop"; "wordpress"; "db"]);
  dockerRun (composeArgs cfg id (recreateArgs status)).

Definition settledStatus (s : SiteRuntime.t) : M wop unit :=
  if settled (SiteRuntime.Status s) then mret tt
  else fail (EMsg "repair the site's service status before changing resources").

Definition changeResources (req : ResourceRequest.t) : M wop Resources.t :=
  let site := ResourceRequest.Site req in
  let id := Site.ID site in
  let r := ResourceRequest.Resources req in
  finishing id
    (m ← quotaMarked cfg id;
     _ ← mapErr (classifyError m false false false) (quotaPreflight cfg id);
     _ ← mapErr (classifyError m true true false) (lift (ValidateSite site));
     _ ← mapErr (classifyError m true true false) (lift (validateResources r));
     state ← mapErr (classifyError m true false false)
               (s ← runtimeSnapshot cfg id false; _ ← settledStatus s; mret s);
     _ ← mapErr (fun e => classifyError m true (isCapacity e) false e) (checkCapacity cfg id r);
     updated ← mapErr (classifyError m true false false) (prepareResources id r);
     _ ← mapErr (classifyError m true false true) (applyResources id updated (SiteRuntime.Status state));
     mret r).
End sites.
