(* ===== verification/Backups.v ===== *)
(** * Backups: restore points of a site

    [backup], [verifyBackup], [deleteBackup] and [restore] of
    [cmd/worker/main.go].  The database dump and the archive are host files a
    Docker command writes ([OProduce]); their digests are computed from what
    was written. *)
From S2P Require Import Prelude GoStrings GoPath GoRegexp GoFloat GoTime GoSha256 Effects World Core Compose Json Utf8Facts JsonFacts CoreJson CoreJsonFacts Policy Worker QuotaState Storage Capacity Operations Quota Sites.

Module backupManifest.
Record t := mk {
  Version : Z;
  SiteID : string;
  Domain : string;
  CreatedAt : time;
  DatabaseSHA256 : string;
  WordPressSHA256 : string;
}.
Definition zero : t := mk 0 "" "" zeroTime "" "".
Definition fields : list (string * setter t) :=
  [("version", setInt64 (fun v m => mk v (SiteID m) (Domain m) (CreatedAt m) (DatabaseSHA256 m) (WordPressSHA256 m)));
   ("site_id", setString (fun v m => mk (Version m) v (Domain m) (CreatedAt m) (DatabaseSHA256 m) (WordPressSHA256 m)));
   ("domain", setString (fun v m => mk (Version m) (SiteID m) v (CreatedAt m) (DatabaseSHA256 m) (WordPressSHA256 m)));
   ("created_at", setTime (fun v m => mk (Version m) (SiteID m) (Domain m) v (DatabaseSHA256 m) (WordPressSHA256 m)));
   ("database_sha256", setString (fun v m => mk (Version m) (SiteID m) (Domain m) (CreatedAt m) v (WordPressSHA256 m)));
   ("wordpress_sha256", setString (fun v m => mk (Version m) (SiteID m) (Domain m) (CreatedAt m) (DatabaseSHA256 m) v))].
Definition toJSON (m : t) : result json :=
  created ← timeJSON (CreatedAt m);
  Ok (JObj [("version", intJSON (Version m)); ("site_id", JStr (SiteID m)); ("domain", JStr (Domain m)); ("created_at", created);
            ("database_sha256", JStr (DatabaseSHA256 m)); ("wordpress_sha256", JStr (WordPressSHA256 m))]).
Definition ok (m : t) : bool :=
  intOK (Version m) && forallb validUTF8 [SiteID m; Domain m; DatabaseSHA256 m; WordPressSHA256 m].
Ltac norm := cbn [Version SiteID Domain CreatedAt DatabaseSHA256 WordPressSHA256 zero].

#[global] Instance manifest_wire : Wire 1 fields zero toJSON ok.
Proof.
  intros [v s dm c x y] j d Hok He [Hd0 Hd]. unfold ok in Hok. unfold toJSON in He. cbn [forallb] in Hok. norm. cbn in He, Hok.
  bool_solve. enc_inv He. destruct (timeJSON_reads _ _ (d + 1) E) as [Hp Hset]. wire_solve norm.
Qed.
End backupManifest.

(** Manifests are indented. *)
#[export, refine] Instance manifest_codec : Codec backupManifest.t := {|
  marshal m := v ← backupManifest.toJSON m; Ok (printIndent v);
  unmarshal s := v ← parseJSON s; decodeStruct false backupManifest.fields v backupManifest.zero;
  clean := backupManifest.ok;
|}.
Proof. intros m s. apply (codec_law printIndent); [apply parse_printIndent|done]. Defined.

Definition dumpPath : string := "/tmp/wph-backup.sql".
Definition dumpCommand : string :=
  raw "cnf=/tmp/wph-client.cnf; trap 'rm -f `$cnf`' 0; umask 077; printf '[client]\npassword=%s\n' `$(cat /run/secrets/db_root_password)` > `$cnf`; mariadb-dump --defaults-extra-file=`$cnf` --single-transaction --quick --lock-tables=false -u root wordpress > " +:+ dumpPath.
Definition restorePath : string := "/tmp/wph-restore.sql".
Definition restoreDB : string :=
  raw "cnf=/tmp/wph-client.cnf; trap 'rm -f `$cnf`' 0; umask 077; printf '[client]\npassword=%s\n' `$(cat /run/secrets/db_root_password)` > `$cnf`; mariadb --defaults-extra-file=`$cnf` -u root -e 'DROP DATABASE IF EXISTS wordpress; CREATE DATABASE wordpress CHARACTER SET utf8mb4 COLLATE utf8mb4_unicode_ci;' && mariadb --defaults-extra-file=`$cnf` -u root wordpress < " +:+ restorePath.
Definition restoreFiles : string :=
  "rm -rf /target/* /target/.[!.]* /target/..?*; tar -xzf /backup/wordpress.tar.gz -C /target".

Section backups.
Context (cfg : config) `{Unicode} `{Codec Operation.t}.

Definition fileSHA256 (path : string) : M wop string :=
  data ← perform (ORead path);
  mret (hexEncode (Sum256 data)).

(** [os.MkdirTemp]: the first free of at most 10000 random names. *)
Fixpoint mkdirTemp (attempts : nat) (parent prefix : string) : M wop string :=
  match attempts with
  | O => fail (EMsg "file exists")
  | S n =>
      b ← perform (ORand 4);
      let tmp := parent +/+ (prefix +:+ itoa (foldl (fun acc c => acc * 256 + byteZ c) 0 (String.list_ascii_of_string b))) in
      st ← try (perform (OStat tmp));
      match st with
      | Ok _ => mkdirTemp n parent prefix
      | Err e => if isNotExist e then _ ← perform (OMkdirAll tmp); mret tmp else fail e
      end
  end.
Definition tempAttempts : nat := Z.to_nat 10000.

(** A helper container that may touch the site's volumes. *)
Definition jobArgs (id : string) (security rest : list string) : list string :=
  (["run"] ++ security ++ ["--rm"; "--name"; "wph-job-" +:+ id; "--label"; "panel4wp.role=job"; "--label";
    "panel4wp.site=" +:+ id] ++ rest)%list.

Definition dbContainer (id : string) : string := "wph-db-" +:+ id.
Definition volumeOf (id : string) : string := "wph-" +:+ id +:+ "_wordpress_data".

(** Everything between the dump and the rename, in the temporary directory. *)
Definition fillBackup (site : Site.t) (backupID tmp : string) : M wop Backup.t :=
  let id := Site.ID site in
  _ ← perform (OProduce (CRun ["cp"; dbContainer id +:+ ":" +:+ dumpPath; tmp +/+ "database.sql"]) (tmp +/+ "database.sql"));
  security ← writerSecurityArgs cfg id;
  _ ← perform (OProduce (CRun (jobArgs id security ["--volume"; volumeOf id +:+ ":/source:ro"; "--volume"; tmp +:+ ":/backup";
                 "alpine:3.22"; "tar"; "-czf"; "/backup/wordpress.tar.gz"; "-C"; "/source"; "."])) (tmp +/+ "wordpress.tar.gz"));
  dbHash ← fileSHA256 (tmp +/+ "database.sql");
  wpHash ← fileSHA256 (tmp +/+ "wordpress.tar.gz");
  createdAt ← get ONow;
  let manifest := backupManifest.mk 1 id (Site.Domain site) createdAt dbHash wpHash in
  data ← lift (marshal manifest);
  _ ← perform (OWrite (tmp +/+ "manifest.json") data);
  let destination := backupDir cfg id backupID in
  st ← try (perform (OStat destination));
  if negb (absent st) then fail (EMsg "backup already exists")
  else
    _ ← perform (ORename tmp destination);
    mret (Backup.mk backupID createdAt "").

(** [defer f()] with its result dropped. *)
Definition cleanup {A} (p : M wop A) (f : M wop unit) : M wop A :=
  deferred p (fun r => _ ← try f; lift r).

Definition dumpDatabase (id : string) : M wop unit :=
  dockerRun ["exec"; dbContainer id; "sh"; "-c"; dumpCommand].

Definition backup (req : BackupRequest.t) : M wop Backup.t :=
  let site := BackupRequest.Site req in
  let id := Site.ID site in
  _ ← quotaPreflight cfg id;
  _ ← lift (ValidateSite site);
  if negb (ValidBackupID (BackupRequest.BackupID req)) || String.eqb (backupsRoot cfg) ""
  then fail (EMsg "invalid backup request")
  else
    _ ← perform (OStat (composePath cfg id));
    let parent := backupsRoot cfg +/+ id in
    _ ← perform (OMkdirAll parent);
    tmp ← mkdirTemp tempAttempts parent ".creating-";
    cleanup
      (_ ← dumpDatabase id;
       cleanup (fillBackup site (BackupRequest.BackupID req) tmp)
         (dockerRun ["exec"; dbContainer id; "rm"; "-f"; dumpPath]))
      (perform (ORemoveAll tmp)).

(** ** Verification *)
Definition checksum (dir name expected : string) : M wop unit :=
  actual ← try (fileSHA256 (dir +/+ name));
  match actual with
  | Ok a => if String.eqb a expected then mret tt else fail (EMsg ("backup checksum failed for " +:+ name))
  | Err _ => fail (EMsg ("backup checksum failed for " +:+ name))
  end.

Definition verifyBackup (siteID backupID : string) : M wop string :=
  if negb (ValidID siteID) || negb (ValidBackupID backupID) || String.eqb (backupsRoot cfg) ""
  then fail (EMsg "invalid backup")
  else
    let dir := backupDir cfg siteID backupID in
    data ← perform (ORead (dir +/+ "manifest.json"));
    match unmarshal data with
    | Ok m =>
        if negb (backupManifest.Version m =? 1) || negb (String.eqb (backupManifest.SiteID m) siteID)
        then fail (EMsg "invalid backup manifest")
        else
          _ ← checksum dir "database.sql" (backupManifest.DatabaseSHA256 m);
          _ ← checksum dir "wordpress.tar.gz" (backupManifest.WordPressSHA256 m);
          mret dir
    | Err _ => fail (EMsg "invalid backup manifest")
    end.

Definition deleteBackup (req : DeleteBackupRequest.t) : M wop unit :=
  let siteID := DeleteBackupRequest.SiteID req in
  let backupID := DeleteBackupRequest.BackupID req in
  if negb (ValidID siteID) || negb (ValidBackupID backupID) || String.eqb (backupsRoot cfg) ""
  then fail (EMsg "invalid backup delete request")
  else
    let dir := backupDir cfg siteID backupID in
    info ← perform (OStat dir);
    if isDirNode info then perform (ORemoveAll dir) else fail (EMsg "backup is not a directory").

(** ** Restoring *)

(** The destructive part: the files, then the database, then the restart. *)
Definition loadBackup (id dir : string) : M wop unit :=
  security ← writerSecurityArgs cfg id;
  _ ← dockerRun (jobArgs id security ["--volume"; volumeOf id +:+ ":/target"; "--volume"; dir +:+ ":/backup:ro";
                 "alpine:3.22"; "sh"; "-c"; restoreFiles]);
  _ ← dockerRun ["cp"; dir +/+ "database.sql"; dbContainer id +:+ ":" +:+ restorePath];
  cleanup
    (_ ← dockerRun ["exec"; dbContainer id; "sh"; "-c"; restoreDB];
     _ ← dockerRun (composeArgs cfg id ["up"; "-d"; "--wait"; "wordpress"]);
     setQuotaIntent cfg id "running")
    (dockerRun ["exec"; dbContainer id; "rm"; "-f"; restorePath]).

(** Both the restore point and the safety backup, a different one, verify. *)
Definition verifyRestore (req : RestoreRequest.t) : M wop string :=
  let id := Site.ID (RestoreRequest.Site req) in
  dir ← verifyBackup id (RestoreRequest.BackupID req);
  if String.eqb (RestoreRequest.SafetyBackupID req) (RestoreRequest.BackupID req)
  then fail (EMsg "safety backup must differ from restore point")
  else
    _ ← mapErr (EWrap "safety backup is missing or invalid") (verifyBackup id (RestoreRequest.SafetyBackupID req));
    mret dir.

Definition restore (req : RestoreRequest.t) : M wop unit :=
  let site := RestoreRequest.Site req in
  let id := Site.ID site in
  finishing cfg id
    (_ ← quotaPreflight cfg id;
     _ ← lift (ValidateSite site);
     dir ← verifyRestore req;
     _ ← ensureWriterPolicy cfg id;
     _ ← dockerRun (composeArgs cfg id ["stop"; "wordpress"]);
     _ ← dockerRun (composeArgs cfg id ["up"; "-d"; "--wait"; "db"]);
     loadBackup id dir).
End backups.
