(* ===== verification/Files.v ===== *)
(** * Files: the file manager of a site, [cmd/worker/main.go]

    Requests are checked here and carried out by PHP in the site's container,
    under the web server's user and confined to [wp-content]. *)
From S2P Require Import Prelude GoStrings GoPath GoRegexp GoFloat GoTime Effects World Core Json Policy Worker QuotaState Storage Capacity Operations Quota.

Definition fileGuardPHP : string :=
  raw "$root=`/var/www/html/wp-content`;function failPath(){fwrite(STDERR,`invalid file path`);exit(3);}if(is_link($root)||!is_dir($root))failPath();function safePath($rel){global $root;if($rel===``)return $root;$parts=explode(`/`,$rel);$p=$root;foreach($parts as $part){if($part===``||$part===`.`||$part===`..`)failPath();$p.=`/`.$part;clearstatcache(true,$p);if(is_link($p))failPath();}return $p;}".

Definition listFilesPHP : string :=
  fileGuardPHP +:+ raw "$p=safePath($argv[1]??``);if(!is_dir($p))failPath();$out=[];$d=opendir($p);if($d===false)failPath();while(($n=readdir($d))!==false){if($n===`.`||$n===`..`)continue;if(count($out)>=5000){fwrite(STDERR,`directory exceeds 5000 entries`);exit(4);}$f=$p.`/`.$n;$s=@lstat($f);$type=($s===false||@is_link($f))?`link`:(@is_dir($f)?`directory`:`file`);$out[]=[`name`=>$n,`type`=>$type,`size`=>$type===`file`?(int)$s[`size`]:0,`modified`=>$s===false?0:(int)$s[`mtime`]];}usort($out,fn($a,$b)=>($a[`type`]===`directory`?0:1)<=>($b[`type`]===`directory`?0:1)?:strnatcasecmp($a[`name`],$b[`name`]));echo json_encode($out,JSON_UNESCAPED_UNICODE|JSON_INVALID_UTF8_SUBSTITUTE);".

Definition readFilePHP : string :=
  fileGuardPHP +:+ raw "$p=safePath($argv[1]);if(!is_file($p))failPath();$f=fopen($p,`rb`);if($f===false)failPath();$s=fstat($f);if($s[`size`]>10485760){fwrite(STDERR,`file exceeds 10 MB`);exit(4);}$data=stream_get_contents($f,10485761);fclose($f);if($data===false||strlen($data)>10485760){fwrite(STDERR,`file exceeds 10 MB`);exit(4);}echo $data;".

Definition writeFilePHP : string :=
  fileGuardPHP +:+ raw "$target=safePath($argv[1]);$parent=dirname($target);if(!is_dir($parent)||(file_exists($target)&&!is_file($target)))failPath();$data=file_get_contents(`php://stdin`);if(strlen($data)>10485760){fwrite(STDERR,`file exceeds 10 MB`);exit(4);}$tmp=$parent.`/.panel4wp-`.bin2hex(random_bytes(16));$f=fopen($tmp,`xb`);if($f===false){fwrite(STDERR,`write failed`);exit(5);}$written=fwrite($f,$data);$ok=$written===strlen($data)&&fflush($f);fclose($f);safePath($argv[1]);if(!$ok||!rename($tmp,$target)){@unlink($tmp);fwrite(STDERR,`write failed`);exit(5);}chmod($target,0644);".

Definition makeDirPHP : string :=
  fileGuardPHP +:+ raw "$target=safePath($argv[1]);if(!is_dir(dirname($target))||file_exists($target))failPath();if(!mkdir($target,0755)){fwrite(STDERR,`mkdir failed`);exit(5);}".

Definition deleteFilePHP : string :=
  fileGuardPHP +:+ raw "$p=safePath($argv[1]);if(!file_exists($p)||$p===$root)failPath();$ok=is_dir($p)?rmdir($p):unlink($p);if(!$ok){fwrite(STDERR,`delete failed; directories must be empty`);exit(5);}".

Definition moveFilePHP : string :=
  fileGuardPHP +:+ raw "$source=safePath($argv[1]);$target=safePath($argv[2]);if(!file_exists($source)||!is_dir(dirname($target))||file_exists($target))failPath();if(!rename($source,$target)){fwrite(STDERR,`move failed`);exit(5);}".

Module fileEntry.
Import FileEntry.
Definition zero : t := mk "" "" 0 0.
Definition fields : list (string * setter t) :=
  [("name", setString (fun v e => mk v (Type_ e) (Size e) (Modified e)));
   ("type", setString (fun v e => mk (Name e) v (Size e) (Modified e)));
   ("size", setInt64 (fun v e => mk (Name e) (Type_ e) v (Modified e)));
   ("modified", setInt64 (fun v e => mk (Name e) (Type_ e) (Size e) v))].
End fileEntry.

Definition phpArgs (script : string) (rest : list string) : list string :=
  (["php"; "-d"; "display_errors=stderr"; "-d"; "open_basedir=/var/www/html/wp-content"; "-r"; script] ++ rest)%list.

(** [docker exec] in the site's container as the web server's user. *)
Definition execArgs (id : string) (stdin : bool) (script : string) (rest : list string) : list string :=
  (["exec"] ++ (if stdin then ["-i"] else []) ++ ["--user"; "33:33"; "wph-wp-" +:+ id] ++ phpArgs script rest)%list.

Section files.
Context (cfg : config) `{Unicode} `{Codec Operation.t}.

Definition validateFileRequest (req : FileRequest.t) (allowEmpty : bool) : M wop unit :=
  if negb (ValidID (FileRequest.SiteID req)) || negb (ValidRelativePath (FileRequest.Path req) allowEmpty)
  then fail (EMsg "invalid file path")
  else
    st ← try (perform (OStat (composePath cfg (FileRequest.SiteID req))));
    match st with Ok _ => mret tt | Err _ => fail (EMsg "site does not exist") end.

Definition decodeEntries (out : string) : option (list FileEntry.t) :=
  match parseJSON out with
  | Ok JNull => Some []
  | Ok (JArr l) => match decodeElements (decodeStruct false fileEntry.fields) fileEntry.zero l with
                   | Ok es => Some es
                   | Err _ => None
                   end
  | _ => None
  end.

Definition listFiles (req : FileRequest.t) : M wop (list FileEntry.t) :=
  _ ← validateFileRequest req true;
  out ← dockerOutput (execArgs (FileRequest.SiteID req) false listFilesPHP [FileRequest.Path req]);
  if 4 * 2 ^ 20 <? lenZ out then fail (EMsg "invalid or excessive directory listing")
  else match decodeEntries out with
       | Some es => mret es
       | None => fail (EMsg "invalid or excessive directory listing")
       end.

Definition fileLimit : Z := 10 * 2 ^ 20.

Definition readFile (req : FileRequest.t) : M wop FileContent.t :=
  _ ← validateFileRequest req false;
  out ← dockerOutput (execArgs (FileRequest.SiteID req) false readFilePHP [FileRequest.Path req]);
  if fileLimit <? lenZ out then fail (EMsg "file exceeds 10 MB")
  else mret (FileContent.mk (base (FileRequest.Path req)) out).

Definition writeFile (req : FileRequest.t) : M wop unit :=
  _ ← quotaPreflight cfg (FileRequest.SiteID req);
  _ ← validateFileRequest req false;
  if fileLimit <? lenZ (FileRequest.Content req) then fail (EMsg "file exceeds 10 MB")
  else dockerInput (FileRequest.Content req)
         (execArgs (FileRequest.SiteID req) true writeFilePHP [FileRequest.Path req]).

Definition fileAction (req : FileRequest.t) (action : string) : M wop unit :=
  _ ← quotaPreflight cfg (FileRequest.SiteID req);
  _ ← validateFileRequest req false;
  if negb (String.eqb action "mkdir") && negb (String.eqb action "delete") then fail (EMsg "invalid file action")
  else dockerRun (execArgs (FileRequest.SiteID req) false
                    (if String.eqb action "mkdir" then makeDirPHP else deleteFilePHP) [FileRequest.Path req]).

Definition moveFile (req : FileRequest.t) : M wop unit :=
  _ ← quotaPreflight cfg (FileRequest.SiteID req);
  _ ← validateFileRequest req false;
  if negb (ValidRelativePath (FileRequest.Destination req) false) || String.eqb (FileRequest.Destination req) (FileRequest.Path req)
  then fail (EMsg "invalid move destination")
  else dockerRun (execArgs (FileRequest.SiteID req) false moveFilePHP [FileRequest.Path req; FileRequest.Destination req]).
End files.
