(* ===== verification/Usage.v ===== *)
(** * Usage: statistics, storage use and mail of sites, [cmd/worker/main.go]

    Docker's answers are read line by line with [bufio.Scanner]
    ([GoStrings.scanText]). *)
From S2P Require Import Prelude GoStrings GoPath GoRegexp GoFloat GoTime GoBase64 Effects World Core Json Policy Worker QuotaState Storage Capacity Operations Quota Settings.

Definition maxScanToken : Z := 65536.

(** ** Container statistics *)
Module dockerStats.
Record t := mk { Name : string; CPUPerc : string; MemUsage : string; MemPerc : string; NetIO : string; BlockIO : string; PIDs : string }.
Definition zero : t := mk "" "" "" "" "" "" "".
Definition fields : list (string * setter t) :=
  [("Name", setString (fun v s => mk v (CPUPerc s) (MemUsage s) (MemPerc s) (NetIO s) (BlockIO s) (PIDs s)));
   ("CPUPerc", setString (fun v s => mk (Name s) v (MemUsage s) (MemPerc s) (NetIO s) (BlockIO s) (PIDs s)));
   ("MemUsage", setString (fun v s => mk (Name s) (CPUPerc s) v (MemPerc s) (NetIO s) (BlockIO s) (PIDs s)));
   ("MemPerc", setString (fun v s => mk (Name s) (CPUPerc s) (MemUsage s) v (NetIO s) (BlockIO s) (PIDs s)));
   ("NetIO", setString (fun v s => mk (Name s) (CPUPerc s) (MemUsage s) (MemPerc s) v (BlockIO s) (PIDs s)));
   ("BlockIO", setString (fun v s => mk (Name s) (CPUPerc s) (MemUsage s) (MemPerc s) (NetIO s) v (PIDs s)));
   ("PIDs", setString (fun v s => mk (Name s) (CPUPerc s) (MemUsage s) (MemPerc s) (NetIO s) (BlockIO s) v))].
Definition containerStats (s : t) : ContainerStats.t :=
  ContainerStats.mk (CPUPerc s) (MemUsage s) (MemPerc s) (NetIO s) (BlockIO s) (PIDs s).
End dockerStats.

(** The site and service (WordPress?) of a container name. *)
Definition statsOwner (name : string) : option (string * bool) :=
  if hasPrefix name "wph-wp-" then Some (trimPrefix name "wph-wp-", true)
  else if hasPrefix name "wph-db-" then Some (trimPrefix name "wph-db-", false)
  else None.

Definition addStats (ids : list string) (m : gmap string SiteStats.t) (item : dockerStats.t) : gmap string SiteStats.t :=
  match statsOwner (dockerStats.Name item) with
  | Some (id, isWordPress) =>
      if existsb (String.eqb id) ids then
        let site := default (SiteStats.mk None None) (m !! id) in
        let value := Some (dockerStats.containerStats item) in
        <[id := if isWordPress then SiteStats.mk value (SiteStats.Database site)
                else SiteStats.mk (SiteStats.WordPress site) value]> m
      else m
  | None => m
  end.

Definition parseStats (ids : list string) (m : gmap string SiteStats.t) (line : string) : result (gmap string SiteStats.t) :=
  match (v ← parseJSON line; decodeStruct false dockerStats.fields v dockerStats.zero) with
  | Ok item => Ok (addStats ids m item)
  | Err e => Err (EWrap "parse Docker stats" e)
  end.

(** Valid and distinct. *)
Fixpoint requestedIDs (seen ids : list string) : bool :=
  match ids with
  | [] => true
  | id :: ids' => ValidID id && negb (existsb (String.eqb id) seen) && requestedIDs (id :: seen) ids'
  end.

Definition stats (ids : list string) : M wop (gmap string SiteStats.t) :=
  if Nat.eqb (length ids) 0 || (100 <? Z.of_nat (length ids)) then fail (EMsg "stats request must contain 1 to 100 sites")
  else if negb (requestedIDs [] ids) then fail (EMsg "invalid site ID in stats request")
  else
    out ← dockerOutput (["stats"; "--no-stream"; "--format"; "{{json .}}"] ++
                        flat_map (fun id => ["wph-wp-" +:+ id; "wph-db-" +:+ id]) ids)%list;
    let '(ls, err) := scanText maxScanToken out in
    m ← lift (foldR (parseStats ids) ∅ ls);
    _ ← lift (of_err err);
    mret m.

(** ** Storage use *)

(** [filepath.WalkDir] adding up regular files.  A path of more than 4096
    bytes is refused by the system, so no walk is deeper. *)
Definition walkDepth : nat := Z.to_nat 4096.
Fixpoint walkDir (fuel : nat) (path : string) (isDir : bool) : M wop Z :=
  match fuel with
  | O => fail (EMsg "file name too long")
  | S f =>
      if isDir then
        entries ← try (perform (OReadDir path));
        match entries with
        | Ok l => forM l 0 (fun total e => n ← walkDir f (path +/+ e.1) e.2; mret (wrap64 (total + n)))
        | Err e => if isNotExist e then mret 0 else fail e
        end
      else
        n ← perform (OStat path);
        mret (match n with NFile d => lenZ d | _ => 0 end)
  end.

Definition zeroIfAbsent (p : M wop Z) : M wop Z :=
  r ← try p;
  match r with
  | Ok n => mret n
  | Err e => if isNotExist e then mret 0 else fail e
  end.

Definition directorySize (root : string) : M wop Z :=
  zeroIfAbsent (n ← perform (OStat root); walkDir walkDepth root (isDirNode n)).

Definition volumeSize (volume : string) : M wop Z :=
  out ← dockerOutput ["run"; "--rm"; "--volume"; volume +:+ ":/data:ro"; "alpine:3.22"; "du"; "-sk"; "/data"];
  match fields out with
  | [] => fail (EMsg "Docker volume size returned no data")
  | f :: _ => match parseInt f with
              | Ok kib => if kib <? 0 then fail (EMsg "invalid Docker volume size") else mret (wrap64 (kib * 1024))
              | Err _ => fail (EMsg "invalid Docker volume size")
              end
  end.

(** [fmt.Errorf("text: %w", err)] around a program. *)
Definition wrapped {A} (text : string) (p : M wop A) : M wop A :=
  r ← try p; lift (wrapErr text r).

Section usage.
Context (cfg : config) `{Unicode} `{Codec Operation.t}.

(** The loop checks each identifier before its volumes are measured. *)
Fixpoint siteStorage (seen ids : list string) (m : gmap string SiteStorage.t) : M wop (gmap string SiteStorage.t) :=
  match ids with
  | [] => mret m
  | id :: ids' =>
      if negb (ValidID id) || existsb (String.eqb id) seen then fail (EMsg "invalid site ID in storage request")
      else
        wp ← wrapped ("WordPress storage for " +:+ id) (volumeSize ("wph-" +:+ id +:+ "_wordpress_data"));
        db ← wrapped ("database storage for " +:+ id) (volumeSize ("wph-" +:+ id +:+ "_database_data"));
        backups ← wrapped ("backup storage for " +:+ id) (directorySize (backupsRoot cfg +/+ id));
        siteStorage (id :: seen) ids' (<[id := SiteStorage.mk wp db backups]> m)
  end.

Definition storage (ids : list string) : M wop (gmap string SiteStorage.t) :=
  if Nat.eqb (length ids) 0 || (50 <? Z.of_nat (length ids)) then fail (EMsg "storage request must contain 1 to 50 sites")
  else siteStorage [] ids ∅.

(** ** Mail of a site *)
Definition phpValue (value : string) : string := "base64_decode('" +:+ StdEncode value +:+ "')".

Definition mailPlugin : string := "/var/www/html/wp-content/mu-plugins/panel4wp-smtp.php".

Definition mailSecure (encryption : string) : string :=
  if String.eqb encryption "starttls" then "  $mail->SMTPSecure = 'tls'; $mail->SMTPAutoTLS = true;" +:+ NL
  else if String.eqb encryption "tls" then "  $mail->SMTPSecure = 'ssl';" +:+ NL else "".

Definition mailPHP (m : Mail.t) : string :=
  "<?php" +:+ NL +:+
  "add_action('phpmailer_init', static function ($mail) {" +:+ NL +:+
  "  $mail->isSMTP();" +:+ NL +:+
  "  $mail->Host = " +:+ phpValue (Mail.Host m) +:+ ";" +:+ NL +:+
  "  $mail->Port = " +:+ itoa (Mail.Port m) +:+ ";" +:+ NL +:+
  "  $mail->SMTPAuth = " +:+ (if String.eqb (Mail.Username m) "" then "false" else "true") +:+ ";" +:+ NL +:+
  "  $mail->Username = " +:+ phpValue (Mail.Username m) +:+ ";" +:+ NL +:+
  "  $mail->Password = " +:+ phpValue (Mail.Password m) +:+ ";" +:+ NL +:+
  mailSecure (Mail.Encryption m) +:+ "});" +:+ NL +:+
  "add_filter('wp_mail_from', static fn () => " +:+ phpValue (Mail.FromEmail m) +:+ ");" +:+ NL +:+
  "add_filter('wp_mail_from_name', static fn () => " +:+ phpValue (Mail.FromName m) +:+ ");" +:+ NL.

Definition mailCommand : string :=
  "umask 077; mkdir -p /var/www/html/wp-content/mu-plugins; cat > " +:+ mailPlugin +:+ "; chown 33:33 " +:+ mailPlugin +:+
  "; chmod 0600 " +:+ mailPlugin.

Definition applyMail (req : ApplyRequest.t) : M wop unit :=
  let id := ApplyRequest.SiteID req in
  let mail := ApplyRequest.Mail req in
  _ ← quotaPreflight cfg id;
  if negb (ValidID id) then fail (EMsg "invalid site ID")
  else if negb (Mail.Enabled mail) then dockerRun ["exec"; "wph-wp-" +:+ id; "rm"; "-f"; mailPlugin]
  else
    _ ← lift (ValidateMail mail);
    dockerInput (mailPHP mail) ["exec"; "-i"; "wph-wp-" +:+ id; "sh"; "-c"; mailCommand].
End usage.
