(* ===== verification/Server.v ===== *)
(** * Server: the worker's HTTP handler and its life, [cmd/worker/main.go]

    [ServeHTTP] with its token, body limits, receipts and dispatch; [main]'s
    checks and startup sequence; one turn of the quota supervisor.  The
    execution mutex is the flag [busy] (is it held when [TryLock] is called?):
    a request that gets the lock runs alone.  [net/http] parses the request. *)
From S2P Require Import Prelude GoStrings GoPath GoRegexp GoFloat GoTime GoBase64 Effects World Core Compose Json GoFloatText CoreJson JsonFacts CoreJsonFacts Policy Worker QuotaState Storage Capacity Operations Quota Settings Sites Backups Files Usage.

Module request.
Record t := mk { Method : string; Token : string; Path : string; OperationID : string; Body : string }.
End request.

(** [Reload]: Caddy is reloaded two seconds after the reply. *)
Module response.
Record t := mk { Status : Z; Body : string; Reload : bool }.
End response.

(** ** What a successful request answers *)
Definition statsJSON (s : ContainerStats.t) : json :=
  JObj [("cpu", JStr (ContainerStats.CPU s)); ("memory", JStr (ContainerStats.Memory s));
        ("memory_percent", JStr (ContainerStats.MemoryPC s)); ("network_io", JStr (ContainerStats.NetIO s));
        ("block_io", JStr (ContainerStats.BlockIO s)); ("pids", JStr (ContainerStats.PIDs s))].
Definition optional (k : string) (v : option json) : list (string * json) :=
  match v with Some j => [(k, j)] | None => [] end.
Definition siteStatsJSON (s : SiteStats.t) : json :=
  JObj (optional "wordpress" (statsJSON <$> SiteStats.WordPress s) ++ optional "database" (statsJSON <$> SiteStats.Database s))%list.
Definition siteStorageJSON (s : SiteStorage.t) : json :=
  JObj [("wordpress_bytes", intJSON (SiteStorage.WordPressBytes s)); ("database_bytes", intJSON (SiteStorage.DatabaseBytes s));
        ("backup_bytes", intJSON (SiteStorage.BackupBytes s))].

Definition entryJSON (e : FileEntry.t) : json :=
  JObj [("name", JStr (FileEntry.Name e)); ("type", JStr (FileEntry.Type_ e)); ("size", intJSON (FileEntry.Size e));
        ("modified", intJSON (FileEntry.Modified e))].
Definition contentJSON (c : FileContent.t) : json :=
  JObj [("name", JStr (FileContent.Name c)); ("content", bytesJSON (FileContent.Content c))].
Definition capabilityJSON (c : StorageCapability.t) : json :=
  JObj [("wordpress_filesystem", JStr (StorageCapability.WordPressFilesystem c));
        ("database_filesystem", JStr (StorageCapability.DatabaseFilesystem c));
        ("same_filesystem", JBool (StorageCapability.SameFilesystem c));
        ("project_accounting", JBool (StorageCapability.ProjectAccounting c));
        ("project_enforcement", JBool (StorageCapability.ProjectEnforcement c));
        ("reason", JStr (StorageCapability.Reason c))].
Definition capacityJSON (h : HostCapacity.t) : result json :=
  otherCPUs ← floatJSON (HostCapacity.OtherCPUs h); cpus ← floatJSON (HostCapacity.CPUs h);
  reservedCPUs ← floatJSON (HostCapacity.ReservedCPUs h); allocatedCPUs ← floatJSON (HostCapacity.AllocatedCPUs h);
  Ok (JObj [("other_memory_bytes", intJSON (HostCapacity.OtherMemoryBytes h)); ("other_cpus", otherCPUs); ("cpus", cpus);
            ("memory_bytes", intJSON (HostCapacity.MemoryBytes h)); ("reserved_cpus", reservedCPUs);
            ("reserved_memory_bytes", intJSON (HostCapacity.ReservedMemoryBytes h)); ("allocated_cpus", allocatedCPUs);
            ("allocated_memory_bytes", intJSON (HostCapacity.AllocatedMemoryBytes h));
            ("docker_disk_free_bytes", intJSON (HostCapacity.DockerDiskFreeBytes h));
            ("data_disk_free_bytes", intJSON (HostCapacity.DataDiskFreeBytes h))]).

(** The dynamic type of [result any]; [NoAnswer] is [nil]. *)
Inductive answer :=
| NoAnswer
| ABackup (b : Backup.t)
| AResources (r : Resources.t)
| ACapability (c : StorageCapability.t)
| ACapacity (h : HostCapacity.t)
| AStats (m : gmap string SiteStats.t)
| AStorage (m : gmap string SiteStorage.t)
| AEntries (l : list FileEntry.t)
| AContent (c : FileContent.t)
| ARuntime (r : SiteRuntime.t).

(** [json.NewEncoder(resp).Encode(result)]: an error leaves the body empty. *)
Definition answerJSON (a : answer) : result json :=
  match a with
  | NoAnswer => Ok JNull
  | ABackup b => backupJSON b
  | AResources r => resourcesJSON r
  | ACapability c => Ok (capabilityJSON c)
  | ACapacity h => capacityJSON h
  | AStats m => Ok (mapJSON siteStatsJSON m)
  | AStorage m => Ok (mapJSON siteStorageJSON m)
  | AEntries l => Ok (JArr (map entryJSON l))
  | AContent c => Ok (contentJSON c)
  | ARuntime r => runtimeJSON r
  end.

(** [http.Error]. *)
Definition httpError (status : Z) (text : string) : response.t := response.mk status (text +:+ NL) false.
Definition success (a : answer) (reload : bool) : response.t :=
  match a with
  | NoAnswer => response.mk 204 "" reload
  | _ => response.mk 200 (match answerJSON a with Ok v => printJSON v +:+ NL | Err _ => "" end) reload
  end.

(** ** Bodies *)
Definition maxBody (path : string) : Z := if String.eqb path "/files/write" then 15 * 2 ^ 20 else 8192.

(** One [Decode] of a body of which at most [limit] bytes can be read. *)
Definition decodeBody {T} (limit : Z) (fs : list (string * setter T)) (zero : T) (body : string) : result T :=
  match nextValue (if limit <? lenZ body then take (Z.to_nat limit) body else body) with
  | Ok (Some (v, _)) => decodeStruct false fs v zero
  | Ok None => Err (EMsg "EOF")
  | Err e => Err e
  end.
(** [io.ReadAll] of a limited body. *)
Definition readBody (limit : Z) (body : string) : result string :=
  if limit <? lenZ body then Err (EMsg "http: request body too large") else Ok body.

(** ** Dispatch *)

(** A path's handler: the decoded request's program, or the reply to a body it
    refuses, or no handler. *)
Inductive route :=
| Handle (p : M wop answer)
| Invalid (text : string)
| NoRoute.

Section server.
Context (cfg : config) `{Unicode} `{Codec Operation.t}.

Definition decoded {T} (r : result T) (k : T -> M wop answer) : route :=
  match r with Ok t => Handle (k t) | Err _ => Invalid "invalid request" end.
Definition quietly (p : M wop unit) : M wop answer := _ ← p; mret NoAnswer.

Definition createRequest (r : CreateRequest.t) : M wop unit :=
  let site := CreateRequest.Site r in
  _ ← lift (ValidateSite site);
  _ ← checkCapacity cfg (Site.ID site) (SiteResources site);
  create cfg r.

Definition actionRequest (id act : string) : M wop unit :=
  _ ← (if String.eqb act "start" then limits ← configuredResources cfg id; checkCapacity cfg id limits else mret tt);
  action cfg id act.

Definition filePaths : list string := ["/files/list"; "/files/read"; "/files/write"; "/files/delete"; "/files/mkdir"; "/files/move"].

Definition fileRoute (path : string) (r : FileRequest.t) : M wop answer :=
  if String.eqb path "/files/list" then l ← listFiles cfg r; mret (AEntries l)
  else if String.eqb path "/files/read" then c ← readFile cfg r; mret (AContent c)
  else if String.eqb path "/files/write" then quietly (writeFile cfg r)
  else if String.eqb path "/files/delete" then quietly (fileAction cfg r "delete")
  else if String.eqb path "/files/mkdir" then quietly (fileAction cfg r "mkdir")
  else quietly (moveFile cfg r).

Definition dispatch (path body : string) : route :=
  let limit := maxBody path in
  let on p := String.eqb path p in
  if on "/create" then decoded (decodeBody limit createFields (CreateRequest.mk SiteJSON.zero "" "") body)
    (fun r => quietly (createRequest r))
  else if on "/action" then decoded (decodeBody limit idActionFields ("", "") body) (fun r => quietly (actionRequest r.1 r.2))
  else if on "/backup" then decoded (decodeBody limit backupRequestFields (BackupRequest.mk SiteJSON.zero "") body)
    (fun r => b ← backup cfg r; mret (ABackup b))
  else if on "/database" then decoded (decodeBody limit idActionFields ("", "") body) (fun r => quietly (databaseAction cfg r.1 r.2))
  else if on "/resources" then decoded (decodeBody limit resourceRequestFields (ResourceRequest.mk SiteJSON.zero zeroResources) body)
    (fun r => x ← changeResources cfg r; mret (AResources x))
  else if on "/storage/capability" then
    match decodeBody limit runtimeRequestFields "" body with
    | Ok id => if ValidID id then Handle (c ← storageCapabilityOf cfg id; mret (ACapability c)) else Invalid "invalid site ID"
    | Err _ => Invalid "invalid site ID"
    end
  else if on "/capacity" then decoded (decodeBody limit runtimeRequestFields "" body) (fun id => h ← hostCapacity cfg id; mret (ACapacity h))
  else if on "/stats" then decoded (decodeBody limit siteIDsFields [] body) (fun ids => m ← stats ids; mret (AStats m))
  else if on "/update" then decoded (decodeBody limit updateFields (UpdateRequest.mk SiteJSON.zero) body) (fun r => quietly (updateSite cfg r))
  else if on "/storage" then decoded (decodeBody limit siteIDsFields [] body) (fun ids => m ← storage cfg ids; mret (AStorage m))
  else if on "/mail" then decoded (decodeBody limit ApplyRequest.fields ApplyRequest.zero body) (fun r => quietly (applyMail cfg r))
  else if on "/restore" then decoded (decodeBody limit restoreFields (RestoreRequest.mk SiteJSON.zero "" "") body)
    (fun r => quietly (restore cfg r))
  else if on "/backup/delete" then decoded (decodeBody limit deleteBackupFields (DeleteBackupRequest.mk "" "") body)
    (fun r => quietly (deleteBackup cfg r))
  else if existsb (String.eqb path) filePaths then decoded (decodeBody limit fileRequestFields zeroFileRequest body) (fileRoute path)
  else NoRoute.

(** ** Handling *)

(** [result.(core.Backup)]: a failed backup answers the zero backup. *)
Definition backupOf (path : string) (outcome : result answer) : option Backup.t :=
  match outcome with
  | Ok (ABackup b) => Some b
  | Ok _ => None
  | Err _ => if String.eqb path "/backup" then Some zeroBackup else None
  end.

(** Is Caddy to be reloaded after this success? *)
Definition reloads (path body : string) : bool :=
  String.eqb path "/create" ||
  (String.eqb path "/action" &&
   match decodeBody (maxBody path) idActionFields ("", "") body with Ok r => String.eqb r.2 "delete" | Err _ => false end).

(** From the handler's outcome to the reply: the receipt is closed first. *)
Definition conclude (path body : string) (tracked : option (string * string * Operation.t)) (outcome : result answer)
  : M wop response.t :=
  err ← match tracked with
        | None => mret (err_of outcome)
        | Some (id, kind, op) =>
            r ← try (finishOperation cfg id kind op (err_of outcome) (backupOf path outcome));
            mret (match err_of outcome, r with
                  | None, Err e => Some (EWrap "operation completed but receipt could not be saved" e)
                  | o, _ => o
                  end)
        end;
  match err, outcome with
  | None, Ok a => mret (success a (reloads path body))
  | Some e, _ | None, Err e => mret (httpError 500 (errorText e))
  end.

(** [/runtime] carries no receipt. *)
Definition runtimeRequest (busy : bool) (body : string) : M wop response.t :=
  match decodeBody 8192 runtimeRequestFields "" body with
  | Ok id =>
      if negb (ValidID id) then mret (httpError 400 "invalid site ID")
      else if busy then mret (httpError 409 "worker operation in progress")
      else outcome ← try (s ← Operations.runtime cfg id; mret (ARuntime s)); conclude "/runtime" body None outcome
  | Err _ => mret (httpError 400 "invalid site ID")
  end.

Definition perform_route (path body : string) (tracked : option (string * string * Operation.t)) : M wop response.t :=
  match dispatch path body with
  | Handle p => outcome ← try p; conclude path body tracked outcome
  | Invalid text => mret (httpError 400 text)
  | NoRoute => mret (httpError 404 "404 page not found")
  end.

Definition authorized (req : request.t) : bool :=
  String.eqb (request.Method req) "POST" && String.eqb (request.Token req) (token cfg).

Definition ServeHTTP (busy : bool) (req : request.t) : M wop response.t :=
  let path := request.Path req in
  let body := request.Body req in
  if negb (authorized req) then mret (httpError 403 "forbidden")
  else if String.eqb path "/runtime" then runtimeRequest busy body
  else if busy then mret (httpError 409 "worker operation in progress")
  else if String.eqb (request.OperationID req) "" then perform_route path body None
  else
    begun ← try (trackOperation cfg path (request.OperationID req) (readBody (maxBody path) body));
    match begun with
    | Err e => mret (httpError 409 ("cannot record operation: " +:+ errorText e))
    | Ok tracked => perform_route path body (Some tracked)
    end.

(** The goroutine after a reply that asks for it. *)
Definition reloadCaddy : M wop unit :=
  _ ← try (dockerRun ["exec"; "wph-caddy"; "caddy"; "reload"; "--config"; "/etc/caddy/Caddyfile"]); mret tt.

(** ** The process *)

(** [main] before it serves; its environment variables were checked
    ([newWorker]). *)
Definition startup : M wop unit :=
  _ ← recoverInterruptedJobs cfg;
  _ ← reconcileQuotaSites cfg true;
  _ ← migrateLegacyNetworks cfg;
  _ ← removeStaleDatabaseTools;
  migrateWriterPolicies cfg.

(** A tick of [runQuotaSupervisor]: skipped while an operation runs. *)
Definition supervisorTick (busy : bool) : M wop unit :=
  if busy then mret tt else _ ← try (reconcileQuotaSites cfg false); mret tt.
End server.

(** The worker's configuration from its environment; [embedded] is the
    profile compiled into it.  No API sets [quotaRoot]. *)
Definition newWorker (token dataDir panelDomain embedded : string) : result config :=
  if lenZ token <? 32 then Err (EMsg "WORKER_TOKEN must be at least 32 characters")
  else if negb (isAbs dataDir) then Err (EMsg "WPH_DATA_DIR must be an absolute host path")
  else if String.eqb panelDomain "" then Err (EMsg "PANEL_DOMAIN is required")
  else Ok (Config (pathJoin [dataDir; "sites"]) (pathJoin [dataDir; "backups"]) "/routes" token panelDomain "" embedded).
