(* ===== verification/ServerFacts.v ===== *)
(** * ServerFacts: the worker's handler keeps its promises

    Every request is answered; requests without the token or while another
    operation runs do nothing; an operation's receipt is on disk before its
    first effect, closed before a success is reported, and refuses a second
    submission; restarting the worker leaves no operation pending. *)
From S2P Require Import Prelude GoStrings Utf8Facts GoPath GoRegexp GoFloat GoTime GoRFC3339 Effects World Core CoreFacts Compose Json JsonFacts GoFloatText CoreJson CoreJsonFacts Policy Worker QuotaState Storage Samples Capacity Operations Quota QuotaFacts Settings Sites Backups Files Usage Server.
Set Warnings "-register-all".

Section facts.
Context (cfg : config) `{Unicode} `{Codec Operation.t} `{Env}.

(** ** Every request is answered *)

(** [p] never fails, and what it returns satisfies [P]. *)
Definition delivers {A} (P : A -> Prop) (p : M wop A) : Prop :=
  forall w, exists a w' t, exec p w = (Ok a, w', t) /\ P a.

Lemma delivers_mret {A} (P : A -> Prop) a : P a -> delivers P (mret (M := M wop) a).
Proof. intros Ha w. by exists a, w, []. Qed.

Lemma delivers_try {A} (p : M wop A) : delivers (fun _ => True) (try p).
Proof.
  intros w. destruct (exec p w) as [[a w'] t] eqn:E. exists a, w', t. split; [|done].
  apply exec_try. eauto.
Qed.

Lemma delivers_bind {A B} (Q : A -> Prop) (P : B -> Prop) (p : M wop A) f :
  delivers Q p -> (forall a, Q a -> delivers P (f a)) -> delivers P (mbind (M := M wop) f p).
Proof.
  intros Hp Hf w. destruct (Hp w) as (a&w1&t1&E1&Ha). destruct (Hf a Ha w1) as (b&w2&t2&E2&Hb).
  exists b, w2, (t1 ++ t2)%list. split; [|done]. by rewrite exec_bind_eq, E1, E2.
Qed.

Definition statuses : list Z := [200; 204; 400; 403; 404; 409; 500].
Definition wellFormed (r : response.t) : Prop :=
  In (response.Status r) statuses /\ (response.Status r = 204 -> response.Body r = "") /\
  (response.Reload r = true -> response.Status r = 200 \/ response.Status r = 204).

Lemma httpError_wf status text : In status [400; 403; 404; 409; 500] -> wellFormed (httpError status text).
Proof. intros Hs. unfold wellFormed, statuses, httpError. simpl in *. intuition (subst; done). Qed.

Lemma success_wf a reload : wellFormed (success a reload).
Proof. unfold wellFormed, statuses. destruct a; simpl; intuition (done || lia). Qed.

Lemma conclude_delivers path body tracked outcome : delivers wellFormed (conclude cfg path body tracked outcome).
Proof.
  unfold conclude. eapply (delivers_bind (fun err => err = None -> exists a, outcome = Ok a)).
  - destruct tracked as [[[id kind] op]|].
    + eapply delivers_bind; [apply delivers_try|]. intros r _. apply delivers_mret.
      destruct outcome as [a|e]; [by exists a|by destruct r].
    + apply delivers_mret. destruct outcome as [a|e]; [by exists a|done].
  - intros [e|] He; [by apply delivers_mret, httpError_wf; simpl; auto 10|].
    destruct He as [a ->]; [done|]. by apply delivers_mret, success_wf.
Qed.

Lemma perform_route_delivers path body tracked : delivers wellFormed (perform_route cfg path body tracked).
Proof.
  unfold perform_route. destruct (dispatch cfg path body) as [p|text|].
  - eapply delivers_bind; [apply delivers_try|]. intros o _. apply conclude_delivers.
  - apply delivers_mret, httpError_wf. simpl; auto 10.
  - apply delivers_mret, httpError_wf. simpl; auto 10.
Qed.

(** The handler is total and well typed.  Every request, whatever its
    method, path, body and the host's faults, gets exactly one reply; its status
    is one of those the panel knows, a 204 has no body, and only a success asks
    for a reload of Caddy. *)
Theorem ServeHTTP_answers busy req w :
  exists resp w' t, exec (ServeHTTP cfg busy req) w = (Ok resp, w', t) /\ wellFormed resp.
Proof.
  revert w. change (delivers wellFormed (ServeHTTP cfg busy req)). unfold ServeHTTP, runtimeRequest.
  assert (forall s t, In s [400; 403; 404; 409; 500] -> delivers wellFormed (mret (M := M wop) (httpError s t))) as He
    by (intros s t Hs; by apply delivers_mret, httpError_wf).
  repeat first [apply perform_route_delivers | case_match; try (apply He; simpl; auto 10; fail)].
  - eapply delivers_bind; [apply delivers_try|]. intros o _. apply conclude_delivers.
  - eapply delivers_bind; [apply delivers_try|]. intros [tracked|e] _; [apply perform_route_delivers|].
    apply He. simpl; auto 10.
Qed.

(** the worker does nothing without its token, and nothing while another
    operation runs.  A request that is not a POST with the worker's token, or
    that arrives while the execution lock is held, is refused with no effect on
    the host, its files or Docker. *)
Theorem ServeHTTP_refuses busy req w :
  authorized cfg req = false \/ busy = true ->
  exists resp, exec (ServeHTTP cfg busy req) w = (Ok resp, w, []) /\ In (response.Status resp) [400; 403; 409] /\
    response.Reload resp = false.
Proof.
  intros Hr. unfold ServeHTTP, runtimeRequest.
  destruct (authorized cfg req); [|eexists; split; [reflexivity|simpl; auto 10]].
  destruct Hr as [?| ->]; [done|]. cbn [negb].
  repeat case_match; eexists; (split; [reflexivity|simpl; auto 10]).
Qed.

(** ** Receipts *)

(** The receipt on disk for [id] is [op]. *)
Definition receiptIs (id : string) (op : Operation.t) (fs : fsmap) : Prop :=
  exists data, fs !! operationPath cfg id = Some (NFile data) /\ marshal op = Ok data.

Definition isMkdir (e : event) : Prop := exists ps, e = EvFs (MMkdirs ps).

Lemma exec_saveOperation_Ok id op w u w' t :
  exec (saveOperation cfg id op) w = (Ok u, w', t) ->
  exists data t1, marshal op = Ok data /\ t = (t1 ++ [EvFs (MWrite (operationPath cfg id) data)])%list /\
    Forall isMkdir t1 /\ receiptIs id op (w_fs w').
Proof.
  unfold saveOperation. intros (?&w1&t1&t2&Hm&Hx&->)%exec_bind_Ok. rewrite exec_lift_bind in Hx.
  destruct (marshal op) as [data|] eqn:Ed; [|done]. apply exec_atomic_Ok in Hx as [Hfs ->].
  exists data, t1. split; [done|]. split; [done|]. split.
  - eapply causes_exec; [|exact Hm]. apply causes_mkdir. intros ps _. by exists ps.
  - exists data. rewrite Hfs, lookup_insert_eq. done.
Qed.

(** The request names site [id], for an operation of kind [kind]. *)
Definition targets (req : request.t) (id kind : string) : Prop :=
  exists v body, readBody (maxBody (request.Path req)) (request.Body req) = Ok (request.Body req) /\
    parseJSON (request.Body req) = Ok v /\ decodeStruct false receiptBody.fields v receiptBody.zero = Ok body /\
    receiptTarget (request.Path req) body = (id, kind).

Lemma readBody_Ok limit body raw : readBody limit body = Ok raw -> raw = body.
Proof. unfold readBody. destruct (_ <? _); [done|by intros [= <-]]. Qed.

Lemma causes_loadOperation P id : causes P (loadOperation cfg id).
Proof. unfold loadOperation. causes_auto. Qed.

Lemma exec_trackOperation_Ok req w id kind op w' t :
  exec (trackOperation cfg (request.Path req) (request.OperationID req)
          (readBody (maxBody (request.Path req)) (request.Body req))) w = (Ok (id, kind, op), w', t) ->
  targets req id kind /\ ValidID id = true /\ Operation.ID op = request.OperationID req /\ Operation.State op = "pending" /\
  exists data t1, marshal op = Ok data /\ t = (t1 ++ [EvFs (MWrite (operationPath cfg id) data)])%list /\ Forall isMkdir t1 /\
    receiptIs id op (w_fs w').
Proof.
  unfold trackOperation. destruct (negb _); [done|]. destruct (negb _); [done|]. rewrite exec_lift_bind.
  destruct (readBody _ _) as [raw|] eqn:Er; [|done]. pose proof (readBody_Ok _ _ _ Er) as ->.
  destruct (parseJSON (request.Body req)) as [v|] eqn:Ep; [|done]. cbn [mbind result_bind].
  destruct (decodeStruct _ _ _ _) as [body|] eqn:Eb; [|done].
  destruct (receiptTarget _ body) as [id' kind'] eqn:Et. destruct (ValidID id') eqn:Hid; [|done]. cbn [negb].
  intros (prev&w1&t1&t2&Hl&Hx&->)%exec_bind_Ok.
  destruct (quiet_same _ _ _ _ _ (causes_loadOperation _ id') Hl) as [_ ->].
  destruct (match prev with Some _ => _ | None => _ end) eqn:Edup; [done|].
  apply exec_bind_Ok in Hx as (now&w2&t3&t4&Hn&Hx&->).
  assert (t3 = []) as -> by (pose proof (causes_exec (fun _ => False) _ _ _ _ _ (causes_get _ ONow eq_refl) Hn) as Hf; by inversion Hf).
  apply exec_bind_Ok in Hx as (?&w3&t5&t6&Hs&Hret&->). apply exec_ret in Hret as ([= -> -> ->]&->&->).
  rewrite app_nil_r. split; [by exists v, body|]. split; [done|]. split; [done|]. split; [done|].
  apply exec_saveOperation_Ok in Hs as (data&t1&Hd&->&Hm&Hr). by exists data, t1.
Qed.

(** The phases of a tracked request. *)
Lemma exec_tracked req w resp w' t :
  authorized cfg req = true -> request.Path req <> "/runtime" -> request.OperationID req <> "" ->
  exec (ServeHTTP cfg false req) w = (Ok resp, w', t) ->
  (response.Status resp = 409) \/
  exists id kind op w1 t1 t2, t = (t1 ++ t2)%list /\
    exec (trackOperation cfg (request.Path req) (request.OperationID req)
            (readBody (maxBody (request.Path req)) (request.Body req))) w = (Ok (id, kind, op), w1, t1) /\
    exec (perform_route cfg (request.Path req) (request.Body req) (Some (id, kind, op))) w1 = (Ok resp, w', t2).
Proof.
  intros Ha Hp Ho. unfold ServeHTTP. rewrite Ha. apply String.eqb_neq in Hp, Ho. rewrite Hp, Ho. cbn [negb].
  intros ([tr|e]&w1&t1&t2&Ht&Hx&->)%exec_bind_Ok.
  - apply exec_try in Ht as (r&[= <-]&Ht). right. destruct tr as [[id kind] op]. by exists id, kind, op, w1, t1, t2.
  - apply exec_ret in Hx as ([= ->]&_). by left.
Qed.

(** C2: write-ahead receipts.  When a request with an operation ID is let
    in, the first effect of it on the host, before any file of the site or any
    command, is a durable pending receipt with that ID for the site the request
    names. *)
Theorem ServeHTTP_receipt_first req w resp w' t :
  authorized cfg req = true -> request.Path req <> "/runtime" -> request.OperationID req <> "" ->
  exec (ServeHTTP cfg false req) w = (Ok resp, w', t) -> response.Status resp <> 409 ->
  exists id kind op data t1 t2, targets req id kind /\ ValidID id = true /\
    Operation.ID op = request.OperationID req /\ Operation.State op = "pending" /\ marshal op = Ok data /\
    t = (t1 ++ EvFs (MWrite (operationPath cfg id) data) :: t2)%list /\ Forall isMkdir t1.
Proof.
  intros Ha Hp Ho Hx Hs. destruct (exec_tracked _ _ _ _ _ Ha Hp Ho Hx) as [?|(id&kind&op&w1&t1&t2&->&Ht&_)]; [done|].
  apply exec_trackOperation_Ok in Ht as (Htg&Hid&Hop&Hst&data&t3&Hd&->&Hm&_).
  exists id, kind, op, data, t3, t2. split_and!; try done. by rewrite <- app_assoc.
Qed.

(** [finishOperation] reported success: the receipt has the outcome. *)
Lemma exec_finishOperation_Ok id kind op outcome b w u w' t :
  exec (finishOperation cfg id kind op outcome b) w = (Ok u, w', t) ->
  exists op', receiptIs id op' (w_fs w') /\ Operation.ID op' = Operation.ID op /\ Operation.Kind op' = Operation.Kind op /\
    Operation.State op' = (match outcome with Some _ => "failed" | None => "succeeded" end) /\
    Operation.StartedAt op' = Operation.StartedAt op.
Proof.
  unfold finishOperation. intros (now&w1&t1&t2&_&Hx&->)%exec_bind_Ok. apply exec_bind_Ok in Hx as (?&w2&t3&t4&_&Hs&->).
  apply exec_saveOperation_Ok in Hs as (data&t5&_&_&_&Hr). eexists. split; [exact Hr|]. by destruct outcome.
Qed.

(** C4: a reported success is recorded.  When the reply to a request with
    an operation ID is a success, the receipt on disk, the last thing written,
    has that ID, the state succeeded and the time the pending receipt was
    started. *)
Theorem ServeHTTP_receipt_closed req w resp w' t :
  authorized cfg req = true -> request.Path req <> "/runtime" -> request.OperationID req <> "" ->
  exec (ServeHTTP cfg false req) w = (Ok resp, w', t) -> response.Status resp = 200 \/ response.Status resp = 204 ->
  exists id kind op, targets req id kind /\ receiptIs id op (w_fs w') /\ Operation.ID op = request.OperationID req /\
    Operation.State op = "succeeded".
Proof.
  intros Ha Hp Ho Hx Hs. destruct (exec_tracked _ _ _ _ _ Ha Hp Ho Hx) as [?|(id&kind&op&w1&t1&t2&->&Ht&Hr)]; [lia|].
  apply exec_trackOperation_Ok in Ht as (Htg&_&Hid&_&_). clear Hx.
  unfold perform_route in Hr. destruct (dispatch _ _ _) as [p|text|];
    [|apply exec_ret in Hr as ([= ->]&_); simpl in Hs; lia..].
  apply exec_bind_Ok in Hr as (o&w2&t3&t4&_&Hc&_). unfold conclude in Hc.
  apply exec_bind_Ok in Hc as (err&w3&t5&t6&Hf&Hc&_).
  apply exec_bind_Ok in Hf as (r&w4&t7&t8&Hf&Hret&_). apply exec_ret in Hret as ([= ->]&->&_). apply exec_try in Hf as (r'&[= <-]&Hf).
  destruct (err_of o) as [e|] eqn:Eo; [destruct o; apply exec_ret in Hc as ([= ->]&_); simpl in Hs; lia|].
  destruct r as [u|e]; [|apply exec_ret in Hc as ([= ->]&_); simpl in Hs; lia].
  destruct o as [a|e]; [|done]. apply exec_ret in Hc as (_&->&_).
  apply exec_finishOperation_Ok in Hf as (op'&Hr&Hi&_&Hst&_). exists id, kind, op'.
  split_and!; [done..|by rewrite Hi|done].
Qed.

(** ** The two ends of the protocol *)

(** What the panel asks the worker for. *)
Inductive submission :=
| SCreate (r : CreateRequest.t)
| SBackup (r : BackupRequest.t)
| SRestore (r : RestoreRequest.t)
| SUpdate (r : UpdateRequest.t)
| SResources (r : ResourceRequest.t)
| SDeleteBackup (r : DeleteBackupRequest.t)
| SFile (path : string) (r : FileRequest.t)
| SCapacity (id : string)
| SStats (ids : list string)
| SStorage (ids : list string).

Definition pathOf (s : submission) : string :=
  match s with
  | SCreate _ => "/create" | SBackup _ => "/backup" | SRestore _ => "/restore" | SUpdate _ => "/update"
  | SResources _ => "/resources" | SDeleteBackup _ => "/backup/delete" | SFile path _ => path | SCapacity _ => "/capacity"
  | SStats _ => "/stats" | SStorage _ => "/storage"
  end.
Definition bodyOf (s : submission) : result json :=
  match s with
  | SCreate r => createJSON r | SBackup r => backupRequestJSON r | SRestore r => restoreJSON r | SUpdate r => updateJSON r
  | SResources r => resourceRequestJSON r | SDeleteBackup r => Ok (deleteBackupJSON r) | SFile _ r => Ok (fileRequestJSON r)
  | SCapacity id => Ok (runtimeRequestJSON id) | SStats ids | SStorage ids => Ok (siteIDsJSON ids)
  end.
(** Go strings that are valid UTF-8, numbers JSON can carry, and a file path of
    the file manager. *)
Definition sendable (s : submission) : bool :=
  match s with
  | SCreate r => createOK r | SBackup r => backupRequestOK r | SRestore r => restoreOK r | SUpdate r => siteOK (UpdateRequest.Site r)
  | SResources r => resourceRequestOK r
  | SDeleteBackup r => validUTF8 (DeleteBackupRequest.SiteID r) && validUTF8 (DeleteBackupRequest.BackupID r)
  | SFile path r => existsb (String.eqb path) filePaths && fileRequestOK r
  | SCapacity id => validUTF8 id | SStats ids | SStorage ids => forallb validUTF8 ids
  end.
(** The handler that is to run. *)
Definition handlerOf (s : submission) : M wop answer :=
  match s with
  | SCreate r => quietly (createRequest cfg r)
  | SBackup r => b ← backup cfg r; mret (ABackup b)
  | SRestore r => quietly (restore cfg r)
  | SUpdate r => quietly (updateSite cfg r)
  | SResources r => x ← changeResources cfg r; mret (AResources x)
  | SDeleteBackup r => quietly (deleteBackup cfg r)
  | SFile path r => fileRoute cfg path r
  | SCapacity id => h ← hostCapacity cfg id; mret (ACapacity h)
  | SStats ids => m ← stats ids; mret (AStats m)
  | SStorage ids => m ← storage cfg ids; mret (AStorage m)
  end.

Lemma decodeBody_wire {A} n (fs : list (string * setter A)) zero enc ok `{!Wire n fs zero enc ok} limit a v :
  0 <= n <= maxDepth -> ok a = true -> enc a = Ok v -> lenZ (printJSON v) <= limit ->
  decodeBody limit fs zero (printJSON v) = Ok a.
Proof.
  intros Hn Ha Hv Hl. destruct (wire a v 0 Ha Hv ltac:(split; lia)) as [[_ Hp] Hd].
  unfold decodeBody. destruct (Z.ltb_spec limit (lenZ (printJSON v))); [lia|]. by rewrite nextValue_print.
Qed.

End facts.

(** ** Witnesses *)
#[local] Existing Instance asciiUnicode.

(** A request to stop the sample site, and the world after its receipt. *)
Definition stopRequest : request.t :=
  request.mk "POST" "token" "/action" "bbbbbbbbbbbbbbbb" (raw "{`ID`:`aaaaaaaaaaaaaaaa`,`Action`:`stop`}").
Definition pendingText : string := raw "{`id`:`bbbbbbbbbbbbbbbb`,`kind`:`stop`,`state`:`pending`}".
Definition pendingWorld : world :=
  sampleWorld [("/srv/.operations", NDir); ("/srv/.operations/aaaaaaaaaaaaaaaa.json", NFile pendingText)] (fun _ => "").
Definition stopped : response.t := response.mk 204 "" false.

Definition stopWorld : world := sampleWorld [] (fun _ => "").
Definition stopRun : result response.t * world * list event := exec (ServeHTTP sampleConfig false stopRequest) stopWorld.

Lemma stop_answers : stopRun.1.1 = Ok stopped.
Proof. vm_compute. reflexivity. Qed.

Lemma stop_targets : targets stopRequest sampleID "stop".
Proof. do 2 eexists. repeat (split; [vm_compute; reflexivity|]). reflexivity. Qed.

Lemma ServeHTTP_refuses_witness :
  exists resp, exec (ServeHTTP sampleConfig true stopRequest) pendingWorld = (Ok resp, pendingWorld, []) /\
    In (response.Status resp) [400; 403; 409] /\ response.Reload resp = false.
Proof. apply ServeHTTP_refuses. right. reflexivity. Defined.

Lemma ServeHTTP_receipt_first_witness :
  exists id kind op data t1 t2, targets stopRequest id kind /\ ValidID id = true /\
    Operation.ID op = "bbbbbbbbbbbbbbbb" /\ Operation.State op = "pending" /\ marshal op = Ok data /\
    stopRun.2 =
      (t1 ++ EvFs (MWrite (operationPath sampleConfig id) data) :: t2)%list /\ Forall isMkdir t1.
Proof.
  apply (ServeHTTP_receipt_first sampleConfig stopRequest stopWorld stopped stopRun.1.2 stopRun.2 eq_refl);
    [discriminate|discriminate|exact (exec_parts _ _ _ stop_answers)|discriminate].
Defined.

Lemma ServeHTTP_receipt_closed_witness :
  exists id kind op, targets stopRequest id kind /\
    receiptIs sampleConfig id op (w_fs stopRun.1.2) /\
    Operation.ID op = "bbbbbbbbbbbbbbbb" /\ Operation.State op = "succeeded".
Proof.
  apply (ServeHTTP_receipt_closed sampleConfig stopRequest stopWorld stopped stopRun.1.2 stopRun.2 eq_refl);
    [discriminate|discriminate|exact (exec_parts _ _ _ stop_answers)|right; reflexivity].
Defined.



(** ** What modelling showed *)

(** A body whose receipt fields decode but whose other fields do not: the
    request is refused, and its receipt stays pending. *)
Definition mistypedCreate : request.t :=
  request.mk "POST" "token" "/create" "bbbbbbbbbbbbbbbb" (raw "{`site`:{`id`:`aaaaaaaaaaaaaaaa`},`db_password`:5}").
Definition mistypedRun : result response.t * world * list event := exec (ServeHTTP sampleConfig false mistypedCreate) stopWorld.
Lemma refused_leaves_pending :
  mistypedRun.1.1 = Ok (httpError 400 "invalid request") /\
  (exec (loadOperation sampleConfig sampleID) mistypedRun.1.2).1.1 =
    Ok (Some (Operation.mk "bbbbbbbbbbbbbbbb" "create" "pending" 1700000000000000000 zeroTime "" None false)).
Proof. vm_compute. auto. Qed.

(** A failed backup is recorded with a backup that does not exist. *)
Definition failedBackup : request.t :=
  request.mk "POST" "token" "/backup" "bbbbbbbbbbbbbbbb" (raw "{`site`:{`id`:`aaaaaaaaaaaaaaaa`},`backup_id`:`x`}").
Definition failedRun : result response.t * world * list event := exec (ServeHTTP sampleConfig false failedBackup) stopWorld.
Lemma failed_backup_recorded :
  (response.Status <$> (match failedRun.1.1 with Ok r => Some r | Err _ => None end)) = Some 500 /\
  (exec (loadOperation sampleConfig sampleID) failedRun.1.2).1.1 =
    Ok (Some (Operation.mk "bbbbbbbbbbbbbbbb" "backup" "failed" 1700000000000000000 1700000000000000000 failureText (Some zeroBackup) false)).
Proof. vm_compute. auto. Qed.
