(* ===== verification/StartupFacts.v ===== *)
(** * StartupFacts: a restarted worker leaves no operation pending

    What the startup sequence writes, and that every receipt found pending is
    closed before the worker serves its first request. *)
From S2P Require Import Prelude GoStrings GoPath GoRegexp GoFloat GoTime Effects World Core CoreFacts Compose Json JsonFacts CoreJson CoreJsonFacts Policy Worker QuotaState Storage Samples Capacity Operations Quota QuotaFacts Settings Sites Backups Files Usage Server ServerFacts.
Set Warnings "-register-all".

Section facts.
Context (cfg : config) `{Unicode} `{Codec Operation.t} `{Env}.

(** ** Startup writes below the sites' directories *)

(** Commands, and writes of files in a site's directory. *)
Definition inSites (e : event) : Prop :=
  match e with
  | EvFs (MWrite p _) => exists id f, ValidID id = true /\ p = siteDir cfg id +/+ f
  | EvFs _ => False
  | _ => True
  end.

Lemma inSites_write id f d : ValidID id = true -> inSites (EvFs (MWrite (siteDir cfg id +/+ f) d)).
Proof. intros Hid. by exists id, f. Qed.
#[local] Hint Resolve inSites_write : causes.

Section site.
Variables (id : string) (Hid : ValidID id = true).

Lemma fence_inSites state : causes inSites (fenceQuotaSite cfg id state).
Proof.
  intros w. eapply Forall_impl; [apply fence_events|]. intros e He. inversion He; subst; try exact I.
  by apply inSites_write.
Qed.

Lemma ensureCompose_inSites : causes inSites (ensureQuotaRestartCompose cfg id).
Proof. apply causes_ensureQuotaRestartCompose; intros; by apply inSites_write. Qed.

Lemma preflightChecks_inSites me : causes inSites (preflightChecks cfg id me).
Proof. apply causes_preflightChecks; intros; first [exact I|by apply inSites_write]. Qed.

Lemma preflight_inSites : causes inSites (quotaPreflight cfg id).
Proof.
  unfold quotaPreflight, orFence, fenced. causes_auto; first [apply preflightChecks_inSites|apply fence_inSites].
Qed.

Lemma startQuotaSite_inSites : causes inSites (startQuotaSite cfg id).
Proof.
  unfold startQuotaSite, orFence, fenced, confirmStart. causes_auto;
    first [apply preflight_inSites|apply fence_inSites|apply causes_configuredResources
          |apply causes_checkCapacity; intros; exact I|apply causes_docker; exact I
          |apply causes_quotaContainers; intros; exact I|apply causes_saveQuotaIntent; intros; by apply inSites_write].
Qed.

Lemma reconcileSite_inSites startup : causes inSites (reconcileSite cfg startup id).
Proof.
  unfold reconcileSite, fenceReport, loadOperation. causes_auto;
    first [apply fence_inSites|apply startQuotaSite_inSites|apply ensureCompose_inSites
          |apply causes_verifyQuotaStorage; intros; exact I|apply causes_quotaContainers; intros; exact I].
Qed.

Lemma migrateNetwork_inSites : causes inSites (migrateNetwork cfg id).
Proof.
  unfold migrateNetwork. causes_auto; first [apply causes_write; by apply inSites_write|apply preflight_inSites
    |apply causes_docker; exact I|apply causes_output; exact I].
Qed.

Lemma quiesceSite_inSites kind : causes inSites (quiesceSite cfg id kind).
Proof.
  unfold quiesceSite. causes_auto;
    first [apply fence_inSites|apply removeOwnedJobs_events; intros; exact I|apply causes_docker; exact I|apply causes_output; exact I].
Qed.
End site.
Lemma valid_isSiteDir (entries : list (string * bool)) e :
  e ∈ filter (fun e => isSiteDir e = true) entries -> ValidID e.1 = true.
Proof. intros [He _]%list_elem_of_filter. by apply andb_prop in He as [_ ?]. Qed.

(** The sequence after the recovery of receipts. *)
Definition startupRest : M wop unit :=
  _ ← reconcileQuotaSites cfg true; _ ← migrateLegacyNetworks cfg; _ ← removeStaleDatabaseTools; migrateWriterPolicies cfg.

Lemma startupRest_inSites : causes inSites startupRest.
Proof.
  unfold startupRest, reconcileQuotaSites, migrateLegacyNetworks, removeStaleDatabaseTools, migrateWriterPolicies, readDirOrNone.
  causes_auto; try (apply causes_docker; exact I); try (apply causes_output; exact I);
    match goal with He : _ ∈ filter _ _ |- _ => apply valid_isSiteDir in He end;
    first [by apply reconcileSite_inSites|by apply migrateNetwork_inSites
          |apply causes_ensureWriterPolicy; intros; by apply inSites_write].
Qed.

(** ** Receipts are not in the sites' directories *)
Lemma dot_not_valid s : ValidID (String "." s) = false.
Proof. reflexivity. Qed.

Lemma operationPath_ne id id' f : ValidID id = true -> siteDir cfg id +/+ f <> operationPath cfg id'.
Proof.
  unfold operationPath, operationsDir, siteDir, child. intros Hid Heq.
  rewrite !app_assoc_str in Heq. apply app_inj_l_str in Heq. injection Heq as Heq.
  destruct id as [|a id]; [done|]. injection Heq as -> _. by rewrite dot_not_valid in Hid.
Qed.

Lemma inSites_leaves id e : inSites e -> leaves (operationPath cfg id) e.
Proof.
  destruct e as [[p d|ps|ps|mv]| |]; simpl; try done. intros (id'&f&Hid&->) Heq. by eapply operationPath_ne in Heq.
Qed.

Lemma inSites_frame {A} id (p : prog wop A) w a w' t :
  causes inSites p -> exec p w = (a, w', t) -> w_fs w' !! operationPath cfg id = w_fs w !! operationPath cfg id.
Proof.
  intros Hp. apply exec_frame. eapply causes_weaken; [|exact Hp]. apply inSites_leaves.
Qed.
(** ** Directory listings are complete *)
Lemma insertName_elem x y l : x ∈ insertName y l <-> x = y \/ x ∈ l.
Proof.
  induction l as [|z l IH]; cbn [insertName]; [by rewrite !elem_of_cons|].
  destruct (String.compare _ _); rewrite ?elem_of_cons, ?IH, ?elem_of_cons; tauto.
Qed.

Lemma dirEntries_elem d name n fs :
  fs !! (d +/+ name) = Some n -> contains name "/" = false -> (name, isDirNode n) ∈ dirEntries d fs.
Proof.
  intros Hn Hc. unfold dirEntries.
  assert (forall l : list (string * bool), (name, isDirNode n) ∈ l -> (name, isDirNode n) ∈ foldr insertName [] l) as Hf.
  { induction l as [|x l IH]; cbn [foldr]; [done|]. rewrite elem_of_cons, insertName_elem. intuition. }
  apply Hf, list_elem_of_omap. exists (d +/+ name, n). split; [by apply elem_of_map_to_list|].
  unfold child. rewrite <- app_assoc_str, hasPrefix_app, trimPrefix_app, Hc. done.
Qed.

Lemma exec_readDirOrNone_Ok d w l w' t :
  exec (readDirOrNone d) w = (Ok l, w', t) -> w_fs w !! d = Some NDir -> l = dirEntries d (w_fs w) /\ w_fs w' = w_fs w /\ t = [].
Proof.
  unfold readDirOrNone. intros Hx Hd. apply exec_bind_Ok in Hx as (r&w1&t1&t2&Hr&Hx&->). apply exec_try in Hr as (r'&[= <-]&Hr).
  rewrite exec_perform in Hr. cbn [wstep] in Hr. unfold sys in Hr. destruct (env_sys _ _ _) as [e' [m|]].
  - injection Hr as <- <- <-. done.
  - cbn [setEnv w_fs] in Hr. rewrite Hd in Hr. injection Hr as <- <- <-. by injection Hx as <- <- <-.
Qed.

Lemma receipt_listed id data fs :
  ValidID id = true -> fs !! operationPath cfg id = Some (NFile data) -> (id +:+ ".json", false) ∈ dirEntries (operationsDir cfg) fs.
Proof.
  intros Hid Hf. apply (dirEntries_elem _ _ (NFile data)); [exact Hf|]. apply ValidID_iff in Hid as [_ Hid].
  assert (strForall (fun c => negb (Ascii.eqb c slash)) (id +:+ ".json") = true) as Hs.
  { rewrite strForall_app. apply andb_true_intro. split; [|done]. revert Hid. apply strForall_impl. intros c Hc.
    destruct (Ascii.eqb_spec c slash) as [->|]; done. }
  revert Hs. generalize (id +:+ ".json"). induction s as [|c s IH]; cbn [strForall contains]; [done|].
  intros [Hc Hs]%andb_prop. rewrite IH by done. rewrite orb_false_r. destruct (hasPrefix _ _) eqn:E; [|done].
  apply hasPrefix_true in E as [t [= -> _]]. done.
Qed.

Lemma receiptSite_path id : ValidID id = true -> receiptSite (id +:+ ".json") = Some id.
Proof. intros Hid. unfold receiptSite. rewrite trimSuffix_app, Hid, String.eqb_refl. done. Qed.

(** ** The recovery loop *)

(** The receipt in [data] is closed. *)
Definition closedReceipt (data : string) : Prop :=
  exists op, pendingOp op = false /\ (unmarshal data = Ok op \/ marshal op = Ok data).
Definition resolved (id : string) (fs : fsmap) : Prop :=
  forall data, fs !! operationPath cfg id = Some (NFile data) -> closedReceipt data.

Definition recoverEntry (e : string * bool) : M wop unit :=
  match receiptSite e.1 with
  | None => mret tt
  | Some id =>
      op ← loadOperation cfg id;
      match op with
      | Some o =>
          if pendingOp o then
            _ ← quiesceSite cfg id (Operation.Kind o);
            now ← get ONow;
            saveOperation cfg id
              (withOutcome o "interrupted" now "Worker restarted before the operation finished; remaining jobs were stopped.")
          else mret tt
      | None => mret tt
      end
  end.
Lemma operationPath_inj id id' : ValidID id = true -> ValidID id' = true -> operationPath cfg id = operationPath cfg id' -> id = id'.
Proof.
  unfold operationPath. intros [Hl _]%ValidID_iff [Hl' _]%ValidID_iff Heq%child_inj.
  apply (f_equal (take 16)) in Heq. rewrite <- Hl in Heq at 1. rewrite take_app in Heq. rewrite Heq, <- Hl'. by rewrite take_app.
Qed.

Lemma saveOperation_leaves id id' op :
  ValidID id = true -> ValidID id' = true -> id <> id' -> causes (leaves (operationPath cfg id)) (saveOperation cfg id' op).
Proof.
  intros Hid Hid' Hne. unfold saveOperation. causes_auto.
  - apply causes_mkdir. intros ps Hps Hin. rewrite Forall_forall in Hps. apply Hps, ancestors_length in Hin.
    unfold operationPath, child in Hin. rewrite !length_app_str in Hin. simpl in Hin. lia.
  - apply causes_atomic. cbn [leaves touches]. intros Heq. apply Hne. by apply operationPath_inj.
Qed.

Lemma receiptSite_valid name id : receiptSite name = Some id -> ValidID id = true.
Proof. unfold receiptSite. destruct (ValidID _) eqn:Hid; [|done]. destruct (String.eqb _ _); [|done]. by intros [= <-]. Qed.

Lemma resolved_frame id fs fs' : fs' !! operationPath cfg id = fs !! operationPath cfg id -> resolved id fs -> resolved id fs'.
Proof. unfold resolved. by intros ->. Qed.

Lemma exec_loadOperation_resolves id w op w' t :
  exec (loadOperation cfg id) w = (Ok op, w', t) ->
  w_fs w' = w_fs w /\ t = [] /\ (match op with Some o => pendingOp o | None => false end = false -> resolved id (w_fs w)).
Proof.
  intros Hx. destruct (quiet_same _ _ _ _ _ (causes_loadOperation cfg _ id) Hx) as [Hw ->]. split_and!; [done..|].
  unfold loadOperation in Hx. apply exec_bind_Ok in Hx as (r&w1&t1&t2&Hr&Hx&_). apply exec_try in Hr as (r'&[= <-]&Hr).
  destruct r as [d|e].
  - apply exec_read_Ok in Hr as (Hd&_&_). rewrite exec_lift_bind in Hx. destruct (unmarshal d) as [o|] eqn:Eu; [|done].
    apply exec_ret in Hx as ([= ->]&_). intros Ho data Hf. rewrite Hd in Hf. injection Hf as <-. exists o. auto.
  - destruct (isNotExist e) eqn:En; [|done]. apply exec_read_absent in Hr as (_&_&Hn). intros _ data Hf.
    rewrite Hn in Hf by done. done.
Qed.

(** One turn of the loop closes its own receipt and spoils no other. *)
Lemma recoverEntry_resolves e w u w' t id :
  ValidID id = true -> exec (recoverEntry e) w = (Ok u, w', t) ->
  receiptSite e.1 = Some id \/ resolved id (w_fs w) -> resolved id (w_fs w').
Proof.
  intros Hid. unfold recoverEntry. destruct (receiptSite e.1) as [id'|] eqn:Er.
  2: { intros (_&->&_)%exec_ret [?|?]; done. }
  intros (op&w1&t1&t2&Hl&Hx&->)%exec_bind_Ok Hor. apply exec_loadOperation_resolves in Hl as (Hw1&->&Hres).
  apply receiptSite_valid in Er as Hid'.
  destruct (decide (id = id')) as [->|Hne].
  - destruct op as [o|]; [destruct (pendingOp o) eqn:Ep|].
    + apply exec_bind_Ok in Hx as (?&w2&t3&t4&_&Hx&_). apply exec_bind_Ok in Hx as (now&w3&t5&t6&_&Hs&_).
      apply exec_saveOperation_Ok in Hs as (data&t7&_&_&_&(d&Hd&Hm)). intros data' Hf. rewrite Hd in Hf. injection Hf as <-.
      eexists. split; [|by right]. reflexivity.
    + apply exec_ret in Hx as (_&->&_). rewrite Hw1. by apply Hres.
    + apply exec_ret in Hx as (_&->&_). rewrite Hw1. by apply Hres.
  - destruct Hor as [[= ->]|Hor]; [done|]. eapply resolved_frame; [|exact Hor]. rewrite <- Hw1.
    eapply exec_frame; [|exact Hx]. destruct op as [o|]; [|auto with causes]. destruct (pendingOp o); [|auto with causes].
    apply causes_bind; [eapply causes_weaken; [apply inSites_leaves|by apply quiesceSite_inSites]|]. intros ?.
    apply causes_bind; [apply causes_get; reflexivity|]. intros now. by apply saveOperation_leaves.
Qed.

Lemma recoverLoop_resolves id l w u w' t :
  ValidID id = true -> exec (forM l tt (fun _ e => recoverEntry e)) w = (Ok u, w', t) ->
  (exists e, e ∈ l /\ receiptSite e.1 = Some id) \/ resolved id (w_fs w) -> resolved id (w_fs w').
Proof.
  intros Hid. revert w t. induction l as [|e l IH]; intros w t; cbn [forM].
  - intros (_&->&_)%exec_ret [(e&He&_)|?]; [by apply not_elem_of_nil in He|done].
  - intros ([]&w1&t1&t2&He&Hx&->)%exec_bind_Ok Hor. apply (IH _ _ Hx).
    pose proof (recoverEntry_resolves _ _ _ _ _ id Hid He) as Hstep.
    destruct Hor as [(e'&[->|Hin]%elem_of_cons&Hr)|Hor]; [right; auto|left; eauto|right; auto].
Qed.

(** C7: a restarted worker leaves no operation in doubt.  When the startup
    sequence succeeds, every receipt in the operations directory is closed: a
    job a crash interrupted has been stopped and its receipt says so, and
    nothing the rest of the startup does touches a receipt again. *)
Theorem startup_resolves id w w' t :
  ValidID id = true -> w_fs w !! operationsDir cfg = Some NDir -> exec (startup cfg) w = (Ok tt, w', t) -> resolved id (w_fs w').
Proof.
  intros Hid Hdir Hx. unfold startup in Hx. apply exec_bind_Ok in Hx as ([]&w1&t1&t2&Hr&Hx&->).
  eapply resolved_frame; [eapply (inSites_frame id startupRest); [apply startupRest_inSites|exact Hx]|].
  unfold recoverInterruptedJobs in Hr. apply exec_bind_Ok in Hr as (?&w2&t3&t4&Hj&Hr&_).
  assert (w_fs w2 = w_fs w) as Hw2.
  { eapply commands_same; [|exact Hj]. apply removeOwnedJobs_events; intros; exact I. }
  apply exec_bind_Ok in Hr as (l&w3&t5&t6&Hl&Hr&_). apply exec_readDirOrNone_Ok in Hl as (->&Hw3&->); [|by rewrite Hw2].
  eapply recoverLoop_resolves; [exact Hid|exact Hr|]. rewrite Hw3.
  destruct (w_fs w2 !! operationPath cfg id) as [[data| |]|] eqn:Ef; try (right; intros ? Hf; rewrite Ef in Hf; done).
  left. eexists. split; [by eapply receipt_listed|]. by apply receiptSite_path.
Qed.
End facts.

(** ** Witness: a stop that was interrupted *)
#[local] Existing Instance asciiUnicode.

Lemma pending_starts : (exec (startup sampleConfig) pendingWorld).1.1 = Ok tt.
Proof. vm_compute. reflexivity. Qed.

Lemma startup_resolves_witness :
  w_fs pendingWorld !! operationPath sampleConfig sampleID = Some (NFile pendingText) /\
  resolved sampleConfig sampleID (w_fs (exec (startup sampleConfig) pendingWorld).1.2).
Proof.
  split; [reflexivity|].
  apply (startup_resolves sampleConfig sampleID pendingWorld _ (exec (startup sampleConfig) pendingWorld).2);
    [reflexivity|reflexivity|exact (exec_parts _ _ _ pending_starts)].
Defined.
