(* ===== verification/BackupsFacts.v ===== *)
(** * BackupsFacts: restoring is guarded, and a backup can be restored

    Nothing of a site is overwritten before the restore point and a different
    safety backup have both passed verification, and what [backup] reports as
    done passes that verification. *)
From S2P Require Import Prelude GoStrings Utf8Facts GoPath GoRegexp GoFloat GoTime GoSha256 Effects World Core CoreFacts Compose Json JsonFacts CoreJson CoreJsonFacts Policy Worker QuotaState Storage Samples Capacity Operations Quota QuotaFacts Settings Sites Backups Files Usage Server ServerFacts StartupFacts.
Set Warnings "-register-all".

Section facts.
Context (cfg : config) `{Unicode} `{Codec Operation.t} `{Env}.

(** ** What verification establishes *)

(** The file at [path] has the checksum [sum]. *)
Definition hashes (path sum : string) (fs : fsmap) : Prop :=
  exists data, fs !! path = Some (NFile data) /\ hexEncode (Sum256 data) = sum.

(** Backup [bid] of site [id] is complete and intact. *)
Definition intact (id bid : string) (fs : fsmap) : Prop :=
  exists data m, fs !! (backupDir cfg id bid +/+ "manifest.json") = Some (NFile data) /\ unmarshal data = Ok m /\
    backupManifest.Version m = 1 /\ backupManifest.SiteID m = id /\
    hashes (backupDir cfg id bid +/+ "database.sql") (backupManifest.DatabaseSHA256 m) fs /\
    hashes (backupDir cfg id bid +/+ "wordpress.tar.gz") (backupManifest.WordPressSHA256 m) fs.

Lemma causes_checksum P dir name expected : causes P (checksum dir name expected).
Proof. unfold checksum, fileSHA256. causes_auto. Qed.

Lemma causes_verifyBackup P id bid : causes P (verifyBackup cfg id bid).
Proof. unfold verifyBackup. causes_auto; apply causes_checksum. Qed.

Lemma exec_fileSHA256_Ok path w sum w' t :
  exec (fileSHA256 path) w = (Ok sum, w', t) -> hashes path sum (w_fs w) /\ w_fs w' = w_fs w /\ t = [].
Proof.
  unfold fileSHA256. intros (data&w1&t1&t2&Hr&Hx&->)%exec_bind_Ok. apply exec_read_Ok in Hr as (Hd&Hw&->).
  apply exec_ret in Hx as ([= ->]&->&->). split; [by exists data|done].
Qed.

Lemma exec_checksum_Ok dir name expected w u w' t :
  exec (checksum dir name expected) w = (Ok u, w', t) -> hashes (dir +/+ name) expected (w_fs w) /\ w_fs w' = w_fs w.
Proof.
  unfold checksum. intros (r&w1&t1&t2&Hr&Hx&->)%exec_bind_Ok. apply exec_try in Hr as (r'&[= <-]&Hr).
  destruct r as [sum|]; [|done]. apply exec_fileSHA256_Ok in Hr as (Hh&Hw&->).
  destruct (String.eqb_spec sum expected) as [<-|]; [|done]. by apply exec_ret in Hx as (_&->&_).
Qed.

Lemma exec_verifyBackup_Ok id bid w dir w' t :
  exec (verifyBackup cfg id bid) w = (Ok dir, w', t) ->
  ValidID id = true /\ ValidBackupID bid = true /\ dir = backupDir cfg id bid /\ intact id bid (w_fs w) /\ w_fs w' = w_fs w /\ t = [].
Proof.
  intros Hx. destruct (quiet_same _ _ _ _ _ (causes_verifyBackup _ id bid) Hx) as [Hw ->]. unfold verifyBackup in Hx.
  destruct (ValidID id) eqn:Hid; [|done]. destruct (ValidBackupID bid) eqn:Hb; [|done]. destruct (String.eqb (backupsRoot cfg) ""); [done|].
  cbn [negb orb] in Hx. apply exec_bind_Ok in Hx as (data&w1&t1&t2&Hr&Hx&_). apply exec_read_Ok in Hr as (Hd&Hw1&_).
  destruct (unmarshal data) as [m|] eqn:Eu; [|done]. destruct (Z.eqb_spec (backupManifest.Version m) 1) as [Hv|]; [|done].
  destruct (String.eqb_spec (backupManifest.SiteID m) id) as [Hs|]; [|done]. cbn [negb orb] in Hx.
  apply exec_bind_Ok in Hx as (?&w2&t3&t4&Hc1&Hx&_). apply exec_checksum_Ok in Hc1 as [Hc1 Hw2].
  apply exec_bind_Ok in Hx as (?&w3&t5&t6&Hc2&Hx&_). apply exec_checksum_Ok in Hc2 as [Hc2 Hw3].
  apply exec_ret in Hx as ([= ->]&_). rewrite Hw2 in Hc2. rewrite Hw1 in Hc1, Hc2. split_and!; try done. by exists data, m.
Qed.

(** Both backups of a request, different ones. *)
Lemma exec_verifyRestore_Ok req w dir w' t :
  exec (verifyRestore cfg req) w = (Ok dir, w', t) ->
  let id := Site.ID (RestoreRequest.Site req) in
  dir = backupDir cfg id (RestoreRequest.BackupID req) /\ RestoreRequest.SafetyBackupID req <> RestoreRequest.BackupID req /\
  intact id (RestoreRequest.BackupID req) (w_fs w) /\ intact id (RestoreRequest.SafetyBackupID req) (w_fs w) /\
  w_fs w' = w_fs w /\ t = [].
Proof.
  unfold verifyRestore. intros (d&w1&t1&t2&Hv&Hx&->)%exec_bind_Ok. apply exec_verifyBackup_Ok in Hv as (_&_&->&Hi&Hw&->).
  destruct (String.eqb_spec (RestoreRequest.SafetyBackupID req) (RestoreRequest.BackupID req)) as [|Hne]; [done|].
  apply exec_bind_Ok in Hx as (d'&w2&t3&t4&Hv&Hx&->). unfold mapErr in Hv. apply exec_bind_Ok in Hv as (r&w3&t5&t6&Hv&Hr&->).
  apply exec_try in Hv as (r'&[= <-]&Hv). destruct r as [d2|]; [|done]. apply exec_ret in Hr as ([= ->]&->&->).
  apply exec_verifyBackup_Ok in Hv as (_&_&_&Hi2&Hw2&->). apply exec_ret in Hx as ([= ->]&->&->).
  rewrite Hw in Hi2. by rewrite Hw2, Hw.
Qed.

(** ** What a restore does *)

(** The commands that overwrite a site's files or its database. *)
Definition destructive (e : event) : Prop :=
  exists args, e = EvCmd (CRun args) /\
    ((exists rest, args = ("run" :: rest)%list /\ restoreFiles ∈ rest) \/
     exists container, args = ["exec"; container; "sh"; "-c"; restoreDB]).
(** Only commands and files of sites' directories, nothing overwritten. *)
Definition calm (e : event) : Prop := inSites cfg e /\ ~ destructive e.

Lemma calm_write id f d : ValidID id = true -> calm (EvFs (MWrite (siteDir cfg id +/+ f) d)).
Proof. intros Hid. split; [by apply inSites_write|by intros (?&?&_)]. Qed.
Lemma calm_ask args : calm (EvCmd (COutput args)).
Proof. split; [exact I|by intros (?&?&_)]. Qed.
Lemma calm_exec args : calm (EvCmd (CExec args)).
Proof. split; [exact I|by intros (?&?&_)]. Qed.
Lemma calm_run x rest : x <> "run" -> x <> "exec" -> calm (EvCmd (CRun (x :: rest)%list)).
Proof. intros Hr He. split; [exact I|]. intros (args&[= <-]&[(r&[= -> _]&_)|(c&[= -> _])]); done. Qed.
#[local] Hint Resolve calm_ask calm_exec calm_run calm_write : causes.

Section any.
Variable (id : string).

Lemma fence_calm state : causes calm (fenceQuotaSite cfg id state).
Proof.
  destruct (ValidID id) eqn:Hid.
  - intros w. eapply Forall_impl; [apply fence_events|]. intros e He.
    inversion He; subst; first [by apply calm_write|apply calm_ask|by apply calm_run].
  - unfold fenceQuotaSite, saveQuotaIntent, stopContainers. rewrite Hid. cbn [negb orb].
    causes_auto; first [apply removeOwnedJobs_events; intros; first [apply calm_ask|by apply calm_run]
      |apply causes_quotaContainers; apply calm_ask|apply causes_docker; by apply calm_run].
Qed.

Lemma preflight_calm : causes calm (quotaPreflight cfg id).
Proof.
  destruct (ValidID id) eqn:Hid.
  - unfold quotaPreflight, orFence, fenced. causes_auto; [|apply fence_calm].
    apply causes_preflightChecks; intros; first [apply calm_ask|by apply calm_write].
  - assert (forall e, causes calm (orFence cfg id "blocked" (preflightChecks cfg id (Some e)))) as Hx.
    { intros e. unfold orFence, fenced, preflightChecks. causes_auto; apply fence_calm. }
    unfold quotaPreflight, quotaMarked. rewrite Hid. apply Hx.
Qed.

Lemma finishQuotaWrite_calm r : causes calm (finishQuotaWrite cfg id r).
Proof. unfold finishQuotaWrite, fenced. causes_auto; first [apply preflight_calm|apply fence_calm]. Qed.
End any.

Lemma ValidateSite_id s r : ValidateSite s = Ok r -> ValidID (Site.ID s) = true.
Proof. unfold ValidateSite. by destruct (ValidID _). Qed.

Lemma loadBackup_inSites id dir : ValidID id = true -> causes (inSites cfg) (loadBackup cfg id dir).
Proof.
  intros Hid. unfold loadBackup, cleanup, writerSecurityArgs. causes_auto;
    first [apply causes_writeWriterProfile; by apply inSites_write|apply causes_docker; exact I
          |apply causes_setQuotaIntent; intros; by apply inSites_write].
Qed.
Lemma ensureWriterPolicy_calm id : ValidID id = true -> causes calm (ensureWriterPolicy cfg id).
Proof. intros Hid. apply causes_ensureWriterPolicy; intros; by apply calm_write. Qed.

(** What [restore] did by the events [t]: it overwrote nothing, or it did so
    after both backups were seen intact. *)
Definition guardedRestore (req : RestoreRequest.t) (fs : fsmap) (t : list event) : Prop :=
  let id := Site.ID (RestoreRequest.Site req) in
  Forall (inSites cfg) t /\
  (Forall (fun e => ~ destructive e) t \/
   RestoreRequest.SafetyBackupID req <> RestoreRequest.BackupID req /\
   exists t1 t2, t = (t1 ++ t2)%list /\ Forall (fun e => ~ destructive e) t1 /\
     intact id (RestoreRequest.BackupID req) (replay t1 fs) /\ intact id (RestoreRequest.SafetyBackupID req) (replay t1 fs)).

Lemma guarded_calm req fs t : Forall calm t -> guardedRestore req fs t.
Proof. intros Ht. split; [|left]; (eapply Forall_impl; [exact Ht|]); by intros e []. Qed.

Lemma guarded_app req fs t t' : guardedRestore req fs t -> Forall calm t' -> guardedRestore req fs (t ++ t').
Proof.
  intros [Hs Hd] Ht'. assert (Forall (inSites cfg) t' /\ Forall (fun e => ~ destructive e) t') as [Hs' Hd']
    by (split; (eapply Forall_impl; [exact Ht'|]); by intros e []).
  split; [by apply Forall_app|]. destruct Hd as [Hd|(Hne&t1&t2&->&Ha&Hb)]; [left; by apply Forall_app|].
  right. split; [done|]. exists t1, (t2 ++ t')%list. by rewrite app_assoc.
Qed.

Definition restoreBody (req : RestoreRequest.t) : M wop unit :=
  let id := Site.ID (RestoreRequest.Site req) in
  _ ← quotaPreflight cfg id;
  _ ← lift (ValidateSite (RestoreRequest.Site req));
  dir ← verifyRestore cfg req;
  _ ← ensureWriterPolicy cfg id;
  _ ← dockerRun (composeArgs cfg id ["stop"; "wordpress"]);
  _ ← dockerRun (composeArgs cfg id ["up"; "-d"; "--wait"; "db"]);
  loadBackup cfg id dir.

Lemma causes_verifyRestore P req : causes P (verifyRestore cfg req).
Proof. unfold verifyRestore, mapErr. causes_auto; apply causes_verifyBackup. Qed.

(** Everything after the verification. *)
Lemma afterVerify_inSites id dir : ValidID id = true ->
  causes (inSites cfg) (_ ← ensureWriterPolicy cfg id;
    _ ← dockerRun (composeArgs cfg id ["stop"; "wordpress"]);
    _ ← dockerRun (composeArgs cfg id ["up"; "-d"; "--wait"; "db"]);
    loadBackup cfg id dir).
Proof.
  intros Hid. causes_auto; first [by apply loadBackup_inSites|apply causes_docker; exact I
    |apply causes_ensureWriterPolicy; intros; by apply inSites_write].
Qed.

Lemma restoreBody_guarded req w r w' t :
  exec (restoreBody req) w = (r, w', t) -> guardedRestore req (w_fs w) t.
Proof.
  unfold restoreBody. cbv zeta. set (id := Site.ID _). intros Hx. pose proof (preflight_calm id) as Hcalm.
  apply exec_bind in Hx as [(e&Hp&_)|([]&w1&t1&t2&Hp&Hx&->)]; apply (causes_exec _ _ _ _ _ _ Hcalm) in Hp as Ht.
  { by apply guarded_calm. }
  rewrite exec_lift_bind in Hx. destruct (ValidateSite _) as [?|] eqn:Hv; [|injection Hx as <- <- <-; rewrite app_nil_r; by apply guarded_calm].
  apply ValidateSite_id in Hv. apply exec_bind in Hx as [(e&Hr&_)|(dir&w2&t3&t4&Hr&Hx&->)].
  { apply guarded_calm, Forall_app. split; [done|]. eapply causes_exec; [apply causes_verifyRestore|exact Hr]. }
  apply exec_verifyRestore_Ok in Hr as (_&Hne&Hb&Hs&_&->). apply exec_fs in Hp. rewrite Hp in Hb, Hs.
  split.
  - apply Forall_app. split; [eapply Forall_impl; [exact Ht|]; by intros e []|]. simpl.
    by apply (causes_exec _ _ _ _ _ _ (afterVerify_inSites id dir Hv)) in Hx.
  - right. split; [done|]. exists t1, ([] ++ t4)%list. split; [done|]. split; [eapply Forall_impl; [exact Ht|]; by intros e []|done].
Qed.

(** C13: a restore is guarded.  Whatever its outcome, [restore] writes only files
    of the sites' directories; and it overwrites a site's files or database only
    after the restore point and a different safety backup of the same site were
    both complete, with matching checksums. *)
Theorem restore_guarded req w r w' t :
  exec (restore cfg req) w = (r, w', t) -> guardedRestore req (w_fs w) t.
Proof.
  intros Hx. change (restore cfg req) with (finishing cfg (Site.ID (RestoreRequest.Site req)) (restoreBody req)) in Hx.
  apply run_bind_inv in Hx as (r1&w1&t1&t2&Hb&Hf&->). apply restoreBody_guarded in Hb. apply guarded_app; [done|].
  eapply causes_exec; [|exact Hf]. causes_auto. apply finishQuotaWrite_calm.
Qed.
(** ** A finished backup *)

(** Where a moved path ends up holds what it held. *)
Lemma moved_lookup (fs acc : fsmap) moves src dst n :
  (src, dst) ∈ moves -> fs !! src = Some n -> (forall mv, mv ∈ moves -> mv.2 = dst -> mv.1 = src) ->
  foldr (fun '(src, dst) acc => match fs !! src with Some n => <[dst := n]> acc | None => acc end) acc moves !! dst = Some n.
Proof.
  intros Hin Hn Hu. induction moves as [|[s d] moves IH]; cbn [foldr]; [by apply not_elem_of_nil in Hin|].
  destruct (decide (d = dst)) as [->|Hne].
  - assert (s = src) as -> by (apply (Hu (s, dst)); [left|done]). rewrite Hn. apply lookup_insert_eq.
  - apply elem_of_cons in Hin as [[= -> ->]|Hin]; [done|].
    assert (foldr (fun '(src, dst) acc => match fs !! src with Some n => <[dst := n]> acc | None => acc end) acc moves !! dst = Some n)
      as Hx by (apply IH; [done|]; intros mv Hmv; apply Hu; by right).
    destruct (fs !! s); [rewrite lookup_insert_ne by done|]; exact Hx.
Qed.

Lemma below_elem d q n (fs : fsmap) : fs !! q = Some n -> hasPrefix q (d +:+ "/") = true -> q ∈ below d fs.
Proof.
  intros Hq Hp. unfold below. apply list_elem_of_filter. split; [done|]. apply list_elem_of_fmap. exists (q, n).
  split; [done|]. by apply elem_of_map_to_list.
Qed.

(** Renaming a directory takes its files along. *)
Lemma exec_rename_below src dst name n w u w' t :
  exec (perform (ORename src dst)) w = (Ok u, w', t) -> w_fs w !! (src +/+ name) = Some n ->
  w_fs w' !! (dst +/+ name) = Some n.
Proof.
  intros Hx Hn. apply exec_fs in Hx as Hr. apply exec_rename_Ok in Hx as [_ ->]. rewrite Hr.
  unfold replay. cbn [foldl applyEvent applyMutation]. apply (moved_lookup _ _ _ (src +/+ name)); [|exact Hn|].
  - unfold renameMoves. right. apply list_elem_of_fmap. exists (src +/+ name). split.
    + unfold child. by rewrite drop_app.
    + eapply below_elem; [exact Hn|]. unfold child. rewrite <- app_assoc_str. apply hasPrefix_app.
  - unfold renameMoves. intros mv [->|Hin]%elem_of_cons Heq; cbn [fst snd] in *.
    + exfalso. apply (f_equal String.length) in Heq. unfold child in Heq. rewrite !length_app_str in Heq. simpl in Heq. lia.
    + apply list_elem_of_fmap in Hin as (q&->&Hq). cbn [fst snd] in *. apply list_elem_of_filter in Hq as [Hq _].
      apply hasPrefix_true in Hq as [r ->]. unfold child in *. rewrite app_assoc_str, drop_app in Heq. apply app_inj_l_str in Heq.
      rewrite app_assoc_str. by rewrite Heq.
Qed.

(** A temporary directory goes without touching its siblings. *)
Lemma causes_removeAll P p : (forall qs, Forall (fun q => q = p \/ hasPrefix q (p +:+ "/") = true) qs -> P (EvFs (MDelete qs))) ->
  causes P (perform (ORemoveAll p)).
Proof.
  intros Hp. apply emits_perform. intros w. cbn [wstep]. destruct (env_sys _ _ _) as [e' f].
  assert (Forall (fun q => q = p \/ hasPrefix q (p +:+ "/") = true) (below p (w_fs w))) as Hb.
  { apply Forall_forall. intros q Hq. apply list_elem_of_filter in Hq as [Hq _]. by right. }
  destruct f as [m|]; cbn [mutate snd].
  - constructor; [|constructor]. apply Hp, Forall_forall. intros q Hq. apply list_elem_of_filter in Hq as [_ Hq].
    rewrite Forall_forall in Hb. auto.
  - assert (P (EvFs (MDelete (below p (w_fs w) ++ [p])))) as Hall by (apply Hp, Forall_app; split; [done|repeat constructor]).
    destruct (w_fs w !! p), (below p (w_fs w)); cbn [snd]; by repeat constructor.
Qed.

Lemma exec_mkdirTemp_Ok n parent prefix w tmp w' t :
  exec (mkdirTemp n parent prefix) w = (Ok tmp, w', t) -> exists k, tmp = parent +/+ (prefix +:+ k).
Proof.
  revert w t. induction n as [|n IH]; intros w t; cbn [mkdirTemp]; [done|].
  intros (b&w1&t1&t2&_&Hx&_)%exec_bind_Ok. cbv zeta in Hx. apply exec_bind_Ok in Hx as (st&w2&t3&t4&_&Hx&_).
  destruct st as [?|e]; [by eapply IH|]. destruct (isNotExist e); [|done].
  apply exec_bind_Ok in Hx as (?&w3&t5&t6&_&Hx&_). apply exec_ret in Hx as ([= ->]&_). by eexists.
Qed.

Lemma validBackupID_digit bid : ValidBackupID bid = true -> exists c r, bid = String c r /\ isDigit c = true.
Proof.
  unfold ValidBackupID. destruct bid as [|c r]; [done|]. intros Hm. exists c, r. split; [done|].
  destruct (isDigit c) eqn:Hc; [done|]. unfold backupID in Hm. cbn in Hm. by rewrite Hc in Hm.
Qed.
Lemma exec_stat_free p w r w' t :
  exec (perform (OStat p)) w = (r, w', t) -> absent r = true -> w_fs w !! p = None /\ w_fs w' = w_fs w.
Proof. intros Hx Ha. apply exec_stat_absent in Hx as (Hw&_&Hn). split; [|done]. apply Hn. by destruct r. Qed.

Lemma exec_fillBackup_Ok site bid tmp w b w' t :
  ValidID (Site.ID site) = true -> validUTF8 (Site.Domain site) = true ->
  exec (fillBackup cfg site bid tmp) w = (Ok b, w', t) -> Backup.ID b = bid /\ intact (Site.ID site) bid (w_fs w').
Proof.
  intros Hid Hdom. unfold fillBackup. cbv zeta. set (id := Site.ID site).
  intros (?&w1&t1&u1&_&Hx&_)%exec_bind_Ok. apply exec_bind_Ok in Hx as (sec&w2&t2&u2&_&Hx&_).
  apply exec_bind_Ok in Hx as (?&w3&t3&u3&_&Hx&_). apply exec_bind_Ok in Hx as (db&w4&t4&u4&Hdb&Hx&_).
  apply exec_fileSHA256_Ok in Hdb as ((ddb&Hddb&Hsdb)&Hw4&_). apply exec_bind_Ok in Hx as (wp&w5&t5&u5&Hwp&Hx&_).
  apply exec_fileSHA256_Ok in Hwp as ((dwp&Hdwp&Hswp)&Hw5&_). apply exec_bind_Ok in Hx as (now&w6&t6&u6&Hnow&Hx&_).
  destruct (quiet_same _ _ _ _ _ (causes_get _ ONow eq_refl) Hnow) as [Hw6 _]. rewrite exec_lift_bind in Hx.
  destruct (marshal _) as [data|] eqn:Em; [|done]. apply exec_bind_Ok in Hx as (?&w7&t7&u7&Hwr&Hx&_).
  apply exec_write_Ok in Hwr as [Hw7 _]. apply exec_bind_Ok in Hx as (st&w8&t8&u8&Hst&Hx&_).
  apply exec_try in Hst as (st'&[= <-]&Hst). destruct (absent st) eqn:Ea; cbn [negb] in Hx; [|done].
  apply exec_stat_free in Hst as [_ Hw8]; [|done]. apply exec_bind_Ok in Hx as (?&w9&t9&u9&Hren&Hx&_).
  apply exec_ret in Hx as ([= ->]&->&_). split; [done|].
  assert (forall name, name <> "manifest.json" -> w_fs w8 !! (tmp +/+ name) = w_fs w3 !! (tmp +/+ name)) as Hold.
  { intros name Hname. rewrite Hw8, Hw7, lookup_insert_ne, Hw6, Hw5, Hw4; [done|]. by intros Heq%child_inj. }
  pose proof (fun name n => exec_rename_below tmp (backupDir cfg id bid) name n _ _ _ _ Hren) as Hmv.
  eexists data, _. split; [apply Hmv; rewrite Hw8, Hw7; apply lookup_insert_eq|].
  split; [eapply unmarshal_marshal; [|exact Em]|].
  { cbn [clean manifest_codec backupManifest.ok]. unfold backupManifest.ok. cbn -[validUTF8]. by rewrite (id_utf8 id Hid), Hdom, <- Hsdb, <- Hswp, !hex_utf8. }
  cbn. split; [done|]. split; [done|]. split.
  - exists ddb. split; [|done]. apply Hmv. by rewrite Hold.
  - exists dwp. split; [|done]. apply Hmv. rewrite Hold by done. by rewrite <- Hw4.
Qed.
Lemma exec_cleanup_Ok {A} (p : M wop A) f w a w' t :
  exec (cleanup p f) w = (Ok a, w', t) ->
  exists w1 t1 r t2, exec p w = (Ok a, w1, t1) /\ exec f w1 = (r, w', t2).
Proof.
  unfold cleanup, deferred. intros (ra&w1&t1&t2&Hp&Hx&_)%run_bind_inv.
  apply exec_bind_Ok in Hx as (r&w2&t3&t4&Hf&Hx&_). apply exec_try in Hf as (r'&_&Hf).
  destruct ra as [a'|]; [|done]. apply exec_ret in Hx as ([= ->]&->&_). by exists w1, t1, r', t3.
Qed.

Lemma intact_same id bid fs fs' :
  (forall name, fs' !! (backupDir cfg id bid +/+ name) = fs !! (backupDir cfg id bid +/+ name)) ->
  intact id bid fs -> intact id bid fs'.
Proof.
  intros Hf (data&m&Hd&Hu&Hv&Hs&(d1&Hd1&Hh1)&(d2&Hd2&Hh2)). exists data, m. rewrite Hf. split_and!; try done;
    [exists d1|exists d2]; by rewrite Hf.
Qed.

(** Removing the temporary directory leaves the finished backup. *)
Lemma removeTemp_leaves id bid k name :
  ValidBackupID bid = true ->
  causes (leaves (backupDir cfg id bid +/+ name)) (perform (ORemoveAll (backupsRoot cfg +/+ id +/+ (".creating-" +:+ k)))).
Proof.
  intros (c&r&->&Hc)%validBackupID_digit. apply causes_removeAll. intros qs Hqs Hin. rewrite Forall_forall in Hqs.
  apply Hqs in Hin. unfold backupDir, child in Hin. rewrite !app_assoc_str in Hin.
  assert (forall x, (String c r +:+ "/" +:+ name) = String "." x -> False) as Hno by (by intros x [= ->]).
  destruct Hin as [Heq|[x Heq]%hasPrefix_true]; rewrite ?app_assoc_str in Heq;
    do 4 apply app_inj_l_str in Heq; by eapply Hno.
Qed.

(** C14: a finished backup can be restored.  When [backup] succeeds, the backup
    with the requested identifier is complete, its manifest decodes to the
    site's and its checksums match what is on disk, so verification passes. *)
Theorem backup_intact req w b w' t :
  validUTF8 (Site.Domain (BackupRequest.Site req)) = true -> exec (backup cfg req) w = (Ok b, w', t) ->
  Backup.ID b = BackupRequest.BackupID req /\ intact (Site.ID (BackupRequest.Site req)) (BackupRequest.BackupID req) (w_fs w').
Proof.
  intros Hdom. unfold backup. cbv zeta. set (id := Site.ID _). intros (?&w1&t1&u1&_&Hx&_)%exec_bind_Ok.
  rewrite exec_lift_bind in Hx. destruct (ValidateSite _) eqn:Hv; [|done]. apply ValidateSite_id in Hv as Hid.
  destruct (ValidBackupID (BackupRequest.BackupID req)) eqn:Hb; cbn [negb orb] in Hx; [|done].
  destruct (String.eqb (backupsRoot cfg) ""); [done|]. apply exec_bind_Ok in Hx as (?&w2&t2&u2&_&Hx&_).
  apply exec_bind_Ok in Hx as (?&w3&t3&u3&_&Hx&_). apply exec_bind_Ok in Hx as (tmp&w4&t4&u4&Htmp&Hx&_).
  apply exec_mkdirTemp_Ok in Htmp as [k ->]. apply exec_cleanup_Ok in Hx as (w5&t5&r1&u5&Hx&Hrm).
  apply exec_bind_Ok in Hx as (?&w6&t6&u6&_&Hx&_). apply exec_cleanup_Ok in Hx as (w7&t7&r2&u7&Hx&Hrm2).
  apply exec_fillBackup_Ok in Hx as [Hbid Hi]; [|done|done]. split; [done|].
  assert (w_fs w5 = w_fs w7) as Hw5.
  { eapply commands_same; [|exact Hrm2]. apply causes_docker. exact I. }
  eapply intact_same; [|exact Hi]. intros name. rewrite <- Hw5. eapply exec_frame; [|exact Hrm].
  by apply removeTemp_leaves.
Qed.
End facts.

(** ** Witnesses *)
#[local] Existing Instance asciiUnicode.

Definition sampleSite : Site.t :=
  Site.mk sampleID "blog.example.com" "Blog" "a@example.com" 512 (fofZ 1) "running" "" zeroTime [] BackupPolicyJSON.zero false None "" zeroTime.
Definition firstID : string := "20240101T000000Z-00000000".
Definition secondID : string := "20240102T000000Z-00000000".

(** A complete backup with empty files, in the directory [bid]. *)
Definition backupFiles (bid : string) : list (string * node) :=
  let dir := "/backups/aaaaaaaaaaaaaaaa/" +:+ bid in
  let m := backupManifest.mk 1 sampleID "blog.example.com" 0 (hexEncode (Sum256 "")) (hexEncode (Sum256 "")) in
  [(dir, NDir); (dir +/+ "database.sql", NFile ""); (dir +/+ "wordpress.tar.gz", NFile "");
   (dir +/+ "manifest.json", NFile (match marshal m with Ok d => d | Err _ => "" end))].
Definition backupsWorld : world :=
  sampleWorld ([("/backups", NDir); ("/backups/aaaaaaaaaaaaaaaa", NDir)] ++ backupFiles firstID ++ backupFiles secondID)%list (fun _ => "").

Definition sampleRestore : RestoreRequest.t := RestoreRequest.mk sampleSite firstID secondID.
Definition restoreRun : result unit * world * list event := exec (restore sampleConfig sampleRestore) backupsWorld.
Lemma restore_runs : restoreRun.1.1 = Ok tt.
Proof. vm_compute. reflexivity. Qed.

Lemma restore_guarded_witness :
  restoreRun.1.1 = Ok tt /\ guardedRestore sampleConfig sampleRestore (w_fs backupsWorld) restoreRun.2.
Proof.
  split; [exact restore_runs|].
  exact (restore_guarded sampleConfig sampleRestore backupsWorld (Ok tt) restoreRun.1.2 restoreRun.2 (exec_parts _ _ _ restore_runs)).
Defined.

Definition thirdRequest : BackupRequest.t := BackupRequest.mk sampleSite "20240103T000000Z-00000000".
Definition backupRun : result Backup.t * world * list event := exec (backup sampleConfig thirdRequest) backupsWorld.
Definition thirdBackup : Backup.t := Backup.mk "20240103T000000Z-00000000" 1700000000000000000 "".
Lemma backup_runs : backupRun.1.1 = Ok thirdBackup.
Proof. vm_compute. reflexivity. Qed.

Lemma backup_intact_witness :
  intact sampleConfig sampleID "20240103T000000Z-00000000" (w_fs backupRun.1.2).
Proof.
  exact (proj2 (backup_intact sampleConfig thirdRequest backupsWorld thirdBackup backupRun.1.2 backupRun.2 eq_refl
    (exec_parts _ _ _ backup_runs))).
Defined.
