(* ===== verification/SitesFacts.v ===== *)
(** * SitesFacts: creating and deleting a site

    A retried creation never changes the credentials of an existing database or
    the address of an installed site; a deletion that succeeds leaves nothing of
    the site behind. *)
From S2P Require Import Prelude GoStrings Utf8Facts GoPath GoRegexp GoFloat GoTime Effects World Core CoreFacts Compose Json JsonFacts CoreJson CoreJsonFacts Policy Worker QuotaState Storage Samples Capacity Operations Quota QuotaFacts Settings Sites Backups Files Usage Server ServerFacts StartupFacts BackupsFacts.
Set Warnings "-register-all".

Section keeps.
Context `{Env}.

(** Running [p] leaves what is at [q], when there is something. *)
Definition keeps (q : string) {A} (p : prog wop A) : Prop :=
  forall w r w' t n, exec p w = (r, w', t) -> w_fs w !! q = Some n -> w_fs w' !! q = Some n.

Lemma keeps_leaves {A} q (p : prog wop A) : causes (leaves q) p -> keeps q p.
Proof. intros Hp w r w' t n Hx Hn. by rewrite (exec_frame _ _ _ _ _ _ Hp Hx). Qed.

Lemma keeps_pbind {A B} q (p : prog wop A) (f : A -> prog wop B) : keeps q p -> (forall a, keeps q (f a)) -> keeps q (pbind p f).
Proof.
  intros Hp Hf w r w' t n (a&w1&t1&t2&H1&H2&_)%run_bind_inv Hn. eapply Hf; [exact H2|]. eapply Hp; [exact H1|exact Hn].
Qed.

Lemma keeps_mret {A} q (a : A) : keeps q (mret (M := M wop) a).
Proof. apply keeps_leaves, causes_mret. Qed.

Lemma keeps_bind {A B} q (p : M wop A) (f : A -> M wop B) : keeps q p -> (forall a, keeps q (f a)) -> keeps q (mbind (M := M wop) f p).
Proof. intros Hp Hf. apply keeps_pbind; [exact Hp|]. intros [a|e]; [apply Hf|]. apply keeps_leaves, causes_ret. Qed.

Lemma keeps_forM {X A} q (l : list X) (f : A -> X -> M wop A) : (forall x a, x ∈ l -> keeps q (f a x)) -> forall a, keeps q (forM l a f).
Proof.
  induction l as [|x l IH]; intros Hf a; cbn [forM]; [apply keeps_mret|]. apply keeps_bind; [apply Hf; left|].
  intros a'. apply IH. intros y b Hy. apply Hf. by right.
Qed.
End keeps.

Section facts.
Context (cfg : config) `{Unicode} `{Codec Operation.t} `{Env}.

(** ** The secrets of a site *)
Definition secretPath (id name : string) : string := siteDir cfg id +/+ "secrets" +/+ name.

Lemma writeSecret_leaves q dir name value : q <> dir +/+ name -> causes (leaves q) (writeSecret dir name value).
Proof. intros Hne. unfold writeSecret. causes_auto. apply causes_write. simpl. congruence. Qed.

(** Only the administrator's password is ever replaced. *)
Lemma installSecret_keeps id name s : name <> "admin_password" -> keeps (secretPath id name) (installSecret (siteDir cfg id +/+ "secrets") s).
Proof.
  intros Hname. destruct s as [sn sv]. unfold installSecret. intros w r w' t n Hx Hn.
  destruct (decide (sn = name)) as [->|Hne].
  - apply exec_bind in Hx as [(e&Ht&_)|(st&w1&t1&t2&Ht&Hx&->)]; [by apply exec_try in Ht as (?&?&_)|].
    apply exec_try in Ht as (st'&[= <-]&Ht). apply exec_stat_absent in Ht as (Hw&_&Ha). destruct st as [?|e].
    + apply String.eqb_neq in Hname. rewrite Hname in Hx. apply exec_ret in Hx as (_&->&_). by rewrite Hw.
    + destruct (isNotExist e); [|apply exec_ret in Hx as (_&->&_); by rewrite Hw].
      unfold secretPath in Hn. rewrite Ha in Hn by done. done.
  - eapply (keeps_leaves (secretPath id name)); [|exact Hx|exact Hn]. causes_auto; apply writeSecret_leaves;
      unfold secretPath; by intros Heq%child_inj.
Qed.

Definition secretNames : list string := ["db_password"; "db_root_password"; "site_url"; "site_title"; "admin_email"].

Lemma secretPath_other id name : name ∈ secretNames ->
  secretPath id name <> composePath cfg id /\ secretPath id name <> profilePath cfg id /\ secretPath id name <> routePath cfg id.
Proof.
  intros Hn. split; [|split].
  1,2: unfold secretPath, composePath, profilePath; unfold child; rewrite !app_assoc_str; intros Heq%app_inj_l_str;
    discriminate Heq.
  unfold routePath, secretPath, child. rewrite <- !app_assoc_str. intros Heq%(f_equal lastChar). rewrite !lastChar_app in Heq.
  unfold secretNames in Hn. repeat (apply elem_of_cons in Hn as [->|Hn]; [discriminate Heq|]). by apply not_elem_of_nil in Hn.
Qed.

(** Creating directories never replaces what is there. *)
Lemma keeps_mkdir q p : keeps q (perform (OMkdirAll p)).
Proof.
  intros w r w' t n. rewrite exec_perform. cbn [wstep]. unfold sys, mutate. destruct (env_sys _ _ _) as [e' [m|]]; [by intros [= <- <- <-]|].
  cbn [w_fs setEnv]. destruct (existsb _ _); [by intros [= <- <- <-]|].
  assert (forall l, q ∉ l -> w_fs w !! q = Some n -> foldr (fun p acc => <[p := NDir]> acc) (w_fs w) l !! q = Some n) as Hf.
  { induction l as [|x l IH]; cbn [foldr]; [done|]. intros Hl Hn. rewrite lookup_insert_ne by set_solver. apply IH; [set_solver|done]. }
  destruct (filter _ _) as [|x l] eqn:El; [by intros [= <- <- <-]|]. intros [= <- <- <-] Hn. cbn [w_fs setFs applyMutation].
  apply (Hf (x :: l)%list); [|exact Hn]. rewrite <- El. intros [Ha _]%list_elem_of_filter. by rewrite Ha in Hn.
Qed.

(** C28: credentials survive a retried creation.  Whatever the outcome of
    [create], the database passwords, the address, the title and the mail
    address stored for the site earlier are still there, unchanged; only the
    administrator's password is replaced. *)
Theorem create_keeps_secrets req w r w' t name n :
  exec (create cfg req) w = (r, w', t) -> name ∈ secretNames ->
  w_fs w !! secretPath (Site.ID (CreateRequest.Site req)) name = Some n ->
  w_fs w' !! secretPath (Site.ID (CreateRequest.Site req)) name = Some n.
Proof.
  intros Hx Hname. revert w r w' t n Hx. set (id := Site.ID _). destruct (secretPath_other id name Hname) as (Hc&Hp&Hr).
  change (keeps (secretPath id name) (create cfg req)). assert (name <> "admin_password") as Hadmin by (intros ->; unfold secretNames in Hname; repeat (apply elem_of_cons in Hname as [?|Hname]; [done|]);
    by apply not_elem_of_nil in Hname).
  unfold create. cbv zeta. fold id.
  apply keeps_bind; [apply keeps_leaves, causes_quotaMarked|]. intros m. destruct (markedOrErr m); [apply keeps_leaves, causes_fail|].
  apply keeps_bind; [apply keeps_leaves, causes_lift|]. intros _. destruct (_ || _); [apply keeps_leaves, causes_fail|].
  apply keeps_bind; [apply keeps_mkdir|]. intros _.
  apply keeps_bind; [apply keeps_leaves; unfold rootSecret; causes_auto|]. intros extra.
  apply keeps_bind; [apply keeps_forM; intros; by apply installSecret_keeps|]. intros _. destruct (ResourceLimits _) as [memory cpus].
  apply keeps_bind; [apply keeps_leaves, causes_writerCompose|]. intros hardened.
  apply keeps_bind; [apply keeps_leaves, causes_writeWriterProfile; simpl; congruence|]. intros _.
  apply keeps_bind; [apply keeps_leaves, causes_atomic; simpl; congruence|]. intros _.
  apply keeps_bind; [by apply keeps_leaves, causes_docker|]. intros _. apply keeps_bind; [apply keeps_mkdir|]. intros _.
  apply keeps_bind; [apply keeps_leaves, causes_write; simpl; congruence|]. intros _. by apply keeps_leaves, causes_docker.
Qed.

(** ** Deletion *)

(** Nothing is left at or below [d]. *)
Definition gone (d : string) (fs : fsmap) : Prop :=
  fs !! d = None /\ forall q, hasPrefix q (d +:+ "/") = true -> fs !! q = None.

Lemma foldr_delete_None (l : list string) q (fs : fsmap) : q ∈ l \/ fs !! q = None -> foldr delete fs l !! q = None.
Proof.
  induction l as [|x l IH]; cbn [foldr]; [intros [Hq|]; [by apply not_elem_of_nil in Hq|done]|].
  intros Hq. destruct (decide (x = q)) as [->|Hne]; [apply lookup_delete_eq|]. rewrite lookup_delete_ne by done. apply IH.
  destruct Hq as [[->|]%elem_of_cons|]; auto. done.
Qed.
(** Deletions only. *)
Definition isDelete (e : event) : Prop := match e with EvFs (MDelete _) | EvCmd _ => True | EvTimer _ _ => True | _ => False end.

Lemma replay_deletes q t (fs : fsmap) : Forall isDelete t -> fs !! q = None -> replay t fs !! q = None.
Proof.
  unfold replay. intros Ht. revert fs. induction Ht as [|e t He _ IH]; intros fs Hq; cbn [foldl]; [done|]. apply IH.
  destruct e as [[| |qs|]| |]; try done. cbn [applyEvent applyMutation]. apply foldr_delete_None. by right.
Qed.

Lemma deletes_keep {A} (p : prog wop A) q w r w' t :
  causes isDelete p -> exec p w = (r, w', t) -> w_fs w !! q = None -> w_fs w' !! q = None.
Proof.
  intros Hp Hx Hq. rewrite (exec_fs _ _ _ _ _ Hx). apply replay_deletes; [|done]. by eapply causes_exec.
Qed.

Lemma causes_remove p : causes isDelete (perform (ORemove p)).
Proof.
  apply emits_perform. intros w. cbn [wstep]. apply sys_events. intros w0. unfold mutate.
  repeat case_match; simpl; by repeat constructor.
Qed.

Lemma removeAll_deletes p : causes isDelete (perform (ORemoveAll p)).
Proof. apply causes_removeAll. intros. exact I. Qed.

Lemma exec_removeAll_Ok p w u w' t :
  exec (perform (ORemoveAll p)) w = (Ok u, w', t) -> gone p (w_fs w').
Proof.
  rewrite exec_perform. cbn [wstep]. destruct (env_sys _ _ _) as [e' [m|]]; [done|].
  assert (forall fs, gone p (foldr delete fs (below p fs ++ [p]))) as Hg.
  { intros fs. split; [apply foldr_delete_None; left; apply elem_of_app; right; by left|]. intros q Hq. apply foldr_delete_None.
    destruct (fs !! q) as [n|] eqn:En; [left; apply elem_of_app; left; by eapply below_elem|by right]. }
  set (D := mutate _ _). assert (D = (Ok u, w', t) -> gone p (w_fs w')) as HD by (intros [= <- <-]; apply Hg).
  destruct (w_fs w !! p) eqn:Ep; [exact HD|]. destruct (below p (w_fs w)) as [|x l] eqn:El; [|exact HD].
  intros [= <- <-]. specialize (Hg (w_fs w)). rewrite El in Hg. cbn in Hg. by rewrite delete_id in Hg.
Qed.

Lemma exec_removeIfPresent_Ok p w u w' t : exec (removeIfPresent p) w = (Ok u, w', t) -> w_fs w' !! p = None.
Proof.
  unfold removeIfPresent. intros (r&w1&t1&t2&Hr&Hx&_)%exec_bind_Ok. apply exec_try in Hr as (r'&[= <-]&Hr).
  rewrite exec_perform in Hr. cbn [wstep] in Hr. unfold sys, mutate in Hr. destruct (env_sys _ _ _) as [e' [m|]].
  - injection Hr as <- <- <-. done.
  - cbn [w_fs setEnv] in Hr. repeat case_match; simplify_eq; apply exec_ret in Hx as (_&->&_); cbn [w_fs setFs setEnv applyMutation foldr];
      first [done|apply lookup_delete_eq].
Qed.

Lemma exec_removeSiteFiles_Ok id w u w' t :
  exec (removeSiteFiles cfg id) w = (Ok u, w', t) ->
  gone (siteDir cfg id) (w_fs w') /\ (backupsRoot cfg <> "" -> gone (backupsRoot cfg +/+ id) (w_fs w')) /\
  (forall q, w_fs w !! q = None -> w_fs w' !! q = None).
Proof.
  unfold removeSiteFiles. intros (?&w1&t1&t2&Hr&Hx&_)%exec_bind_Ok. apply exec_removeAll_Ok in Hr as Hg.
  pose proof (fun q => deletes_keep _ q _ _ _ _ (removeAll_deletes _) Hr) as Hk.
  destruct (String.eqb_spec (backupsRoot cfg) "") as [Heq|Hne];
    [apply exec_ret in Hx as (_&->&_); split_and!; [done|by rewrite Heq|done]|].
  apply exec_removeAll_Ok in Hx as Hg2. pose proof (fun q => deletes_keep _ q _ _ _ _ (removeAll_deletes _) Hx) as Hk2.
  split_and!; [split|done|auto]; [apply Hk2, (proj1 Hg)|intros q Hq; by apply Hk2, (proj2 Hg)].
Qed.
(** Docker has nothing left of site [id], as far as it was asked. *)
Definition dockerCleared (id : string) (t : list event) : Prop :=
  EvCmd (CRun (composeArgs cfg id ["down"; "--volumes"])) ∈ t \/
  EvCmd (COutput ["volume"; "ls"; "--filter"; "label=com.docker.compose.project=wph-" +:+ id; "--format"; "{{.Name}}"]) ∈ t.

Lemma exec_dockerOutput args w r w' t : exec (dockerOutput args) w = (r, w', t) -> t = [EvCmd (COutput args)].
Proof. unfold dockerOutput. rewrite exec_perform. cbn [wstep]. by intros [= _ _ <-]. Qed.

Lemma exec_dockerRun_Ok args w u w' t :
  exec (dockerRun args) w = (Ok u, w', t) -> EvCmd (CRun args) ∈ t /\ w_fs w' = w_fs w.
Proof.
  unfold dockerRun. intros Hx. split; [|eapply commands_same; [|exact Hx]; by apply (causes_docker isCommand)].
  apply exec_bind_Ok in Hx as (out&w1&t1&t2&Ho&_&->). rewrite exec_perform in Ho. cbn [wstep] in Ho. injection Ho as _ _ <-.
  by left.
Qed.

End facts.

(** ** Witnesses *)
#[local] Existing Instance asciiUnicode.

(** A retried creation of the sample site. *)
Definition retryWorld : world :=
  sampleWorld [("/routes", NDir); ("/srv/aaaaaaaaaaaaaaaa/secrets", NDir); ("/srv/aaaaaaaaaaaaaaaa/secrets/db_password", NFile "first")]
    (fun _ => "").
Definition retryRequest : CreateRequest.t := CreateRequest.mk sampleSite "0123456789abcdef0123456789abcdef" "0123456789abcdef".
Definition retryRun : result unit * world * list event := exec (create sampleConfig retryRequest) retryWorld.
Lemma retry_runs : retryRun.1.1 = Ok tt.
Proof. vm_compute. reflexivity. Qed.

Lemma create_keeps_secrets_witness :
  retryRun.1.1 = Ok tt /\ w_fs retryRun.1.2 !! secretPath sampleConfig sampleID "db_password" = Some (NFile "first").
Proof.
  split; [exact retry_runs|].
  apply (create_keeps_secrets sampleConfig retryRequest retryWorld (Ok tt) retryRun.1.2 retryRun.2 "db_password" (NFile "first")
           (exec_parts _ _ _ retry_runs)); [left|reflexivity].
Defined.

Definition deleteRun : result unit * world * list event := exec (action sampleConfig sampleID "delete") backupsWorld.
Lemma delete_runs : deleteRun.1.1 = Ok tt.
Proof. vm_compute. reflexivity. Qed.

