(* ===== verification/Store.v ===== *)
(** * Store: the panel's metadata, [internal/store]

    [store.go] keeps the sites as one JSON object, [plans.go] the resource
    plans as a JSON array beside it.  Every method holds the store's mutex for
    its whole body, so a method is one program. *)
From S2P Require Import Prelude GoStrings GoPath GoFloat GoTime Effects World Core Json CoreJson Worker.

(** [writeJSON]: the indented encoding in a temporary file that is renamed over
    the target; the directory is synced when it can be.  As in [atomicConfig],
    the temporary file is not in the file system map. *)
Definition writeJSON (path : string) (value : result json) : M wop unit :=
  _ ← perform (OMkdirAll (dir path));
  v ← lift value;
  _ ← perform (OTemp (dir path));
  _ ← perform (OSys "chmod" path);
  _ ← perform (OSys "writetemp" path);
  _ ← perform (OSys "fsync" path);
  _ ← perform (OSys "close" path);
  _ ← perform (OWrite path (printIndent v));
  d ← try (perform (OSys "opendir" (dir path)));
  match d with
  | Ok _ => _ ← try (perform (OSys "fsyncdir" (dir path))); mret tt
  | Err _ => mret tt
  end.

(** ** Sites *)
Definition decodeSites (data : string) : result (gmap string Site.t) :=
  v ← parseJSON data; decodeMap (decodeStruct false SiteJSON.fields) SiteJSON.zero v.
Definition encodeSites (m : gmap string Site.t) : result json := mapJSONR SiteJSON.toJSON m.

(** [sort.Slice] with [After]: the latest first.  The order of equal times is
    left open by Go; here it is that of the identifiers. *)
Fixpoint insertSite (s : Site.t) (l : list Site.t) : list Site.t :=
  match l with
  | [] => [s]
  | x :: l' => if Site.CreatedAt s <? Site.CreatedAt x then x :: insertSite s l' else s :: l
  end.
Definition sortSites (l : list Site.t) : list Site.t := foldr insertSite [] l.

Section store.
Variable path : string.   (** [Store.path] *)

Definition readSites : M wop (gmap string Site.t) :=
  r ← try (perform (ORead path));
  match r with
  | Ok data => lift (decodeSites data)
  | Err e => if isNotExist e then mret ∅ else fail e
  end.

Definition writeSites (m : gmap string Site.t) : M wop unit := writeJSON path (encodeSites m).

Definition List_ : M wop (list Site.t) :=
  m ← readSites; mret (sortSites (map snd (sortedKeys m))).
Definition Get (id : string) : M wop (option Site.t) := m ← readSites; mret (m !! id).
Definition Put (site : Site.t) : M wop unit := m ← readSites; writeSites (<[Site.ID site := site]> m).
Definition Delete (id : string) : M wop unit := m ← readSites; writeSites (delete id m).

(** ** Resource plans *)
Context `{Unicode}.

Definition plansPath : string := pathJoin [dir path; "resource-plans.json"].

(** The loop that refuses invalid and duplicate plans. *)
Fixpoint checkPlans (seen names : gset string) (l : list ResourcePlan.t) : result unit :=
  match l with
  | [] => Ok tt
  | p :: l' =>
      _ ← validateResourcePlan p;
      let name := toLower (ResourcePlan.Name p) in
      if bool_decide (ResourcePlan.ID p ∈ seen) || bool_decide (name ∈ names) then Err (EMsg "duplicate resource plan")
      else checkPlans ({[ResourcePlan.ID p]} ∪ seen) ({[name]} ∪ names) l'
  end.

Definition decodePlans (data : string) : result (list ResourcePlan.t) :=
  v ← parseJSON data;
  l ← match v with
      | JNull => Ok []
      | JArr l => decodeElements (decodeStruct false planFields) zeroPlan l
      | _ => Err typeError
      end;
  if 30 <? Z.of_nat (length l) then Err (EMsg "too many resource plans")
  else _ ← checkPlans ∅ ∅ l; Ok l.

Definition readResourcePlans : M wop (list ResourcePlan.t) :=
  r ← try (perform (ORead plansPath));
  match r with
  | Ok data => lift (decodePlans data)
  | Err e => if isNotExist e then mret [] else fail e
  end.

Definition ListResourcePlans : M wop (list ResourcePlan.t) := readResourcePlans.

Definition samePlan (plan existing : ResourcePlan.t) : bool :=
  String.eqb (ResourcePlan.ID existing) (ResourcePlan.ID plan) || equalFold (ResourcePlan.Name existing) (ResourcePlan.Name plan).

Definition PutResourcePlan (plan : ResourcePlan.t) : M wop unit :=
  _ ← lift (validateResourcePlan plan);
  plans ← readResourcePlans;
  if 30 <=? Z.of_nat (length plans) then fail (EMsg "at most 30 resource plans are supported")
  else if existsb (samePlan plan) plans then fail (EMsg "resource plan already exists")
  else writeJSON plansPath (structsJSON planJSON (plans ++ [plan])%list).

Definition DeleteResourcePlan (id : string) : M wop unit :=
  if negb (ValidID id) then fail (EMsg "invalid resource plan ID")
  else
    plans ← readResourcePlans;
    if negb (existsb (fun p => String.eqb (ResourcePlan.ID p) id) plans) then fail (EMsg "resource plan not found")
    else writeJSON plansPath (structsJSON planJSON (filter (fun p => ResourcePlan.ID p <> id) plans)).
End store.
