(* ===== verification/StoreFacts.v ===== *)
(** * StoreFacts: the metadata file is a map

    Every method of the store refines the operation of a finite map it stands
    for; a failed or interrupted write leaves the old map or the new one. *)
From stdpp Require Import sorting.
From S2P Require Import Prelude GoStrings Utf8Facts GoPath GoFloat GoTime Effects World Core CoreFacts Json JsonFacts GoFloatText CoreJson CoreJsonFacts Worker Samples Store.
Set Warnings "-register-all".

(** ** Maps as JSON objects *)
Section maps.
Context {A : Type}.

Lemma insertKey_perm (x : string * A) l : insertKey x l ≡ₚ x :: l.
Proof.
  induction l as [|y l IH]; cbn [insertKey]; [done|]. destruct (String.compare _ _); [done..|]. rewrite IH. apply Permutation_swap.
Qed.

Lemma sortedKeys_perm (m : gmap string A) : sortedKeys m ≡ₚ map_to_list m.
Proof.
  unfold sortedKeys. generalize (map_to_list m). induction l as [|x l IH]; cbn [foldr]; [done|]. by rewrite insertKey_perm, IH.
Qed.

Lemma sortedKeys_NoDup (m : gmap string A) : NoDup (map fst (sortedKeys m)).
Proof. change (map fst) with (fmap (M := list) (@fst string A)). rewrite sortedKeys_perm. apply NoDup_fst_map_to_list. Qed.

Lemma sortedKeys_Forall (P : string * A -> Prop) (m : gmap string A) :
  (forall k a, m !! k = Some a -> P (k, a)) -> Forall P (sortedKeys m).
Proof. intros Hp. rewrite sortedKeys_perm. apply Forall_forall. intros [k a] Hin%elem_of_map_to_list. auto. Qed.

(** Inserting the members one after the other. *)
Definition insertAll (l : list (string * A)) (acc : gmap string A) : gmap string A :=
  foldl (fun acc kv => <[kv.1 := kv.2]> acc) acc l.

Lemma insertAll_union l acc : NoDup (map fst l) -> insertAll l acc = list_to_map l ∪ acc.
Proof.
  revert acc. induction l as [|[k a] l IH]; intros acc Hl; cbn; [by rewrite (left_id_L ∅ (∪))|].
  inversion Hl as [|? ? Hk Hl']; subst. change (insertAll l (<[k:=a]> acc) = <[k:=a]> (list_to_map l) ∪ acc). rewrite IH by done.
  rewrite <- insert_union_l, insert_union_r; [done|]. by apply not_elem_of_list_to_map_1.
Qed.

Lemma insertAll_sortedKeys (m : gmap string A) : insertAll (sortedKeys m) ∅ = m.
Proof.
  rewrite insertAll_union by apply sortedKeys_NoDup. rewrite (right_id_L ∅ (∪)).
  rewrite (list_to_map_proper (sortedKeys m) (map_to_list m)); [apply list_to_map_to_list|apply sortedKeys_NoDup|apply sortedKeys_perm].
Qed.

Context (n : Z) (fields : list (string * setter A)) (zero : A) (enc : A -> result json) (ok : A -> bool) `{!Wire n fields zero enc ok}.

Definition memberOK (kv : string * A) : Prop := validUTF8 kv.1 = true /\ ok kv.2 = true.

Lemma members_wire l vs acc : roomFor n 1 -> Forall memberOK l -> membersJSON enc l = Ok vs ->
  plainMembers 1 vs = true /\ decodeMembers (decodeStruct false fields) zero vs acc = Ok (insertAll l acc).
Proof.
  intros Hn Hl. revert vs acc. induction Hl as [|[k a] l [Hk Ha] _ IH]; intros vs acc; cbn [membersJSON].
  - by intros [= <-].
  - intros (v&Ev&Hx)%bind_Ok. apply bind_Ok in Hx as (rest&Er&[= <-]).
    destruct (wire a v 1 Ha Ev Hn) as [[_ Hp] Hd]. cbn [decodeMembers]. rewrite Hd. destruct (IH rest (<[k:=a]> acc) Er) as [Hp2 Hd2].
    split; [|exact Hd2]. unfold plainMembers in *. cbn [forallb fst snd] in *. by rewrite Hk, Hp, Hp2.
Qed.

(** An encoded map is read back. *)
Lemma map_wire m v : roomFor n 1 -> (forall k a, m !! k = Some a -> memberOK (k, a)) -> mapJSONR enc m = Ok v ->
  plainValue 0 v = true /\ decodeMap (decodeStruct false fields) zero v = Ok m.
Proof.
  intros Hn Hm. unfold mapJSONR. intros (vs&Ev&[= <-])%bind_Ok.
  destruct (members_wire (sortedKeys m) vs ∅ Hn (sortedKeys_Forall _ m Hm) Ev) as [Hp Hd].
  rewrite insertAll_sortedKeys in Hd. split; [|exact Hd]. apply plain_object; [unfold maxDepth; lia|exact Hp].
Qed.

(** Records with text that is not UTF-8: what is read back. *)
Context (fix_ : A -> A) (Hfix : writesValid enc fix_).

Lemma members_wire_valid l vs acc : roomFor n 1 -> Forall (fun kv => memberOK (kv.1, fix_ kv.2)) l -> membersJSON enc l = Ok vs ->
  forallb (fun kv => printable 1 kv.2) vs = true /\
  decodeMembers (decodeStruct false fields) zero (validMembers vs) acc = Ok (insertAll (map (prod_map id fix_) l) acc).
Proof.
  intros Hn Hl. revert vs acc. induction Hl as [|[k a] l [Hk Ha] _ IH]; intros vs acc; cbn [membersJSON].
  - by intros [= <-].
  - intros (v&Ev&Hx)%bind_Ok. apply bind_Ok in Hx as (rest&Er&[= <-]). cbn [fst snd] in *.
    destruct (wire (fix_ a) (toValidJSON v) 1 Ha (Hfix _ _ Ev) Hn) as [[_ Hp] Hd]. apply plain_printable in Hp as [Hp _].
    rewrite printable_toValid in Hp. rewrite validMembers_cons by (by apply toValid_id). cbn [decodeMembers forallb snd]. rewrite Hd, Hp. cbn [mbind result_bind].
    destruct (IH rest (<[k := fix_ a]> acc) Er) as [-> Hdec]. split; [done|exact Hdec].
Qed.

Lemma map_wire_valid m v : roomFor n 1 -> (forall k a, m !! k = Some a -> memberOK (k, fix_ a)) -> mapJSONR enc m = Ok v ->
  printable 0 v = true /\ decodeMap (decodeStruct false fields) zero (toValidJSON v) = Ok (fix_ <$> m).
Proof.
  intros Hn Hm. unfold mapJSONR. intros (vs&Ev&[= <-])%bind_Ok.
  destruct (members_wire_valid (sortedKeys m) vs ∅ Hn) as [Hp Hd]; [|done|].
  { eapply Forall_impl; [apply (sortedKeys_Forall (fun kv => m !! kv.1 = Some kv.2)); by intros k a|]. intros [k a]. apply Hm. }
  split; [exact Hp|]. cbn [toValidJSON decodeMap]. fold validMembers. rewrite Hd. f_equal.
  rewrite insertAll_union by (rewrite map_map; apply sortedKeys_NoDup). rewrite (right_id_L ∅ (∪)).
  change (map (prod_map id fix_)) with (fmap (M := list) (prod_map (@id string) fix_)). rewrite list_to_map_fmap. f_equal.
  rewrite <- (insertAll_sortedKeys m) at 2. rewrite insertAll_union by apply sortedKeys_NoDup. by rewrite (right_id_L ∅ (∪)).
Qed.
End maps.

(** Sites the store's file can hold. *)
Definition storable (m : gmap string Site.t) : Prop := forall k s, m !! k = Some s -> validUTF8 k = true /\ siteOK s = true.

Lemma sites_roundtrip m v : storable m -> encodeSites m = Ok v -> decodeSites (printIndent v) = Ok m.
Proof.
  intros Hm He. unfold decodeSites. destruct (map_wire 3 SiteJSON.fields SiteJSON.zero SiteJSON.toJSON siteOK m v) as [Hp Hd];
    [split; unfold maxDepth; lia|exact Hm|exact He|]. by rewrite parse_printIndent.
Qed.

(** Sites whose text may be no UTF-8. *)
Lemma validSite_id s : siteOK s = true -> validSite s = s.
Proof.
  assert (forall b, backupOK b = true -> validBackup b = b) as Hb.
  { intros [i c x] [Hi Hx]%andb_prop. unfold validBackup. cbn [Backup.ID Backup.CreatedAt Backup.Source] in *. by rewrite !toValid_id. }
  destruct s as [i dm ti ae mm cp st er ca ba bp me op he hc]. unfold siteOK, validSite.
  cbn [Site.ID Site.Domain Site.Title Site.AdminEmail Site.MemoryMB Site.CPUs Site.Status Site.Error Site.CreatedAt Site.Backups
       Site.BackupPolicy Site.MailEnabled Site.Operation Site.HealthError Site.HealthCheckedAt forallb].
  intros [[[[[[Ht _]%andb_prop _]%andb_prop _]%andb_prop Hba]%andb_prop Hbp]%andb_prop Hop]%andb_prop. bool_solve.
  rewrite !toValid_id by done. f_equal.
  - rewrite forallb_forall in Hba. rewrite <- (map_id ba) at 2. apply map_ext_in. intros x Hx. by apply Hb, Hba.
  - destruct bp as [e h r n a l t]. unfold validPolicy, policyOK in *. cbn -[toValid validUTF8 intOK] in *. bool_solve. by rewrite toValid_id.
  - destruct op as [[oi k sx sa fa oe ob ad]|]; [|done]. unfold operationOK, validOperation in *. cbn -[toValid validUTF8 validBackup backupOK] in *. bool_solve.
    rewrite !toValid_id by done. do 2 f_equal. destruct ob as [b|]; [|done]. cbn [fmap option_fmap option_map]. by rewrite Hb.
Qed.

(** A site that can be read back, once its text is valid. *)
Definition numbersOK (s : Site.t) : bool :=
  intOK (Site.MemoryMB s) && floatReads (Site.CPUs s) && negb (bool_decide (Site.CPUs s = S754_zero true)) &&
  intOK (BackupPolicy.IntervalHours (Site.BackupPolicy s)) && intOK (BackupPolicy.Retention (Site.BackupPolicy s)).

Lemma validSite_OK s : numbersOK s = true -> siteOK (validSite s) = true.
Proof.
  assert (forall b, backupOK (validBackup b) = true) as Hb by (intros b; unfold backupOK, validBackup; cbn [Backup.ID Backup.Source]; by rewrite !toValid_valid).
  destruct s as [i dm ti ae mm cp st er ca ba bp me op he hc]. unfold numbersOK, siteOK, validSite.
  cbn [Site.ID Site.Domain Site.Title Site.AdminEmail Site.MemoryMB Site.CPUs Site.Status Site.Error Site.CreatedAt Site.Backups
       Site.BackupPolicy Site.MailEnabled Site.Operation Site.HealthError Site.HealthCheckedAt forallb].
  intros [[[[-> ->]%andb_prop ->]%andb_prop Hi]%andb_prop Hr]%andb_prop. rewrite !toValid_valid. cbn [andb].
  apply andb_true_intro; split; [apply andb_true_intro; split|].
  - rewrite forallb_forall. intros x (y&<-&_)%in_map_iff. apply Hb.
  - unfold policyOK, validPolicy. cbn [BackupPolicy.IntervalHours BackupPolicy.Retention BackupPolicy.LastError]. by rewrite Hi, Hr, toValid_valid.
  - destruct op as [o|]; [|done]. cbn [fmap option_fmap option_map]. unfold operationOK, validOperation.
    cbn [Operation.ID Operation.Kind Operation.State Operation.Error Operation.Backup forallb]. rewrite !toValid_valid.
    destruct (Operation.Backup o) as [b|]; [apply Hb|done].
Qed.

Lemma sites_roundtrip_valid m s v :
  storable m -> ValidID (Site.ID s) = true -> numbersOK s = true -> encodeSites (<[Site.ID s := s]> m) = Ok v ->
  decodeSites (printIndent v) = Ok (<[Site.ID s := validSite s]> m) /\ storable (<[Site.ID s := validSite s]> m).
Proof.
  intros Hm Hid Hs He. assert (storable (<[Site.ID s := validSite s]> m)) as Hst.
  { intros k x [[<- <-]|[_ Hk]]%lookup_insert_Some; [|by apply Hm]. split; [by apply id_utf8|by apply validSite_OK]. }
  split; [|exact Hst].
  assert (<[Site.ID s := validSite s]> m = validSite <$> <[Site.ID s := s]> m) as ->.
  { rewrite fmap_insert. f_equal. rewrite <- (map_fmap_id m) at 1. apply map_fmap_ext. intros k x Hk. symmetry. by apply validSite_id, (Hm k). }
  destruct (map_wire_valid 3 SiteJSON.fields SiteJSON.zero SiteJSON.toJSON siteOK validSite site_writesValid (<[Site.ID s := s]> m) v) as [Hp Hd];
    [split; unfold maxDepth; lia| |exact He|].
  { intros k x [[<- <-]|[_ Hk]]%lookup_insert_Some; (split; [|cbn [snd]]).
    - by apply id_utf8.
    - by apply validSite_OK.
    - by eapply Hm.
    - rewrite validSite_id; by eapply Hm. }
  unfold decodeSites. by rewrite parse_printIndent_valid.
Qed.

(** ** Writing a file *)
Section write.
Context `{Env}.
Variables (path b : string).
Hypothesis Hpath : path = dir path +/+ b.

Lemma mkdirDir_leaves : causes (leaves path) (perform (OMkdirAll (dir path))).
Proof.
  apply causes_mkdir. intros ps Hps Hin. rewrite Forall_forall in Hps. apply Hps, ancestors_length in Hin.
  rewrite Hpath in Hin at 1. unfold child in Hin. rewrite !length_app_str in Hin. simpl in Hin. lia.
Qed.

(** What [writeJSON] does before the file changes, and after. *)
Definition beforeRename (value : result json) : M wop json :=
  _ ← perform (OMkdirAll (dir path)); v ← lift value; _ ← perform (OTemp (dir path)); _ ← perform (OSys "chmod" path);
  _ ← perform (OSys "writetemp" path); _ ← perform (OSys "fsync" path); _ ← perform (OSys "close" path); mret v.
Definition afterRename : M wop unit :=
  d ← try (perform (OSys "opendir" (dir path)));
  match d with Ok _ => _ ← try (perform (OSys "fsyncdir" (dir path))); mret tt | Err _ => mret tt end.

Lemma afterRename_Ok w r w' t : exec afterRename w = (r, w', t) -> r = Ok tt /\ w_fs w' = w_fs w /\ t = [].
Proof.
  intros Hx. assert (causes (fun _ => False) afterRename) as Hc by (unfold afterRename; causes_auto).
  destruct (quiet_same _ _ _ _ _ Hc Hx) as [-> ->]. split; [|done]. unfold afterRename in Hx.
  apply exec_bind in Hx as [(e&Hd&_)|(d&w1&t1&t2&_&Hx&_)]; [by apply exec_try in Hd as (?&?&_)|].
  destruct d; [|by apply exec_ret in Hx as (->&_)].
  apply exec_bind in Hx as [(e&Hd&_)|(d&w2&t3&t4&_&Hx&_)]; [by apply exec_try in Hd as (?&?&_)|]. by apply exec_ret in Hx as (->&_).
Qed.

Lemma beforeRename_leaves value : causes (leaves path) (beforeRename value).
Proof. unfold beforeRename. causes_auto. apply mkdirDir_leaves. Qed.

Lemma beforeRename_Ok value w v w' t : exec (beforeRename value) w = (Ok v, w', t) -> value = Ok v.
Proof.
  unfold beforeRename. intros (?&w1&t1&u1&_&Hx&_)%exec_bind_Ok. rewrite exec_lift_bind in Hx. destruct value as [v'|]; [|done].
  do 5 (apply exec_bind_Ok in Hx as (?&?&?&?&_&Hx&_)). by apply exec_ret in Hx as ([= ->]&_).
Qed.

Lemma writeJSON_phases value :
  peq (writeJSON path value) (v ← beforeRename value; _ ← perform (OWrite path (printIndent v)); afterRename).
Proof.
  symmetry. unfold writeJSON, beforeRename. do 7 (etransitivity; [apply peq_assoc|apply peq_bind; [intros ?|reflexivity]]).
  etransitivity; [apply peq_ret_bind|reflexivity].
Qed.

(** A write either leaves the file alone and fails, or replaces it in one step
    and succeeds. *)
Lemma exec_writeJSON value w r w' t :
  exec (writeJSON path value) w = (r, w', t) ->
  (exists e, r = Err e /\ Forall (leaves path) t) \/
  (exists v t1, r = Ok tt /\ value = Ok v /\ t = (t1 ++ [EvFs (MWrite path (printIndent v))])%list /\ Forall (leaves path) t1).
Proof.
  rewrite writeJSON_phases. intros [(e&Hb&->)|(v&w1&t1&t2&Hb&Hx&->)]%exec_bind;
    apply (causes_exec _ _ _ _ _ _ (beforeRename_leaves value)) in Hb as Hl; [left; eauto|].
  apply beforeRename_Ok in Hb as ->. apply exec_bind in Hx as [(e&Hw&->)|(?&w2&t3&t4&Hw&Hx&->)].
  - left. exists e. split; [done|]. apply Forall_app. split; [done|]. rewrite exec_perform in Hw. cbn [wstep] in Hw.
    unfold sys, mutate in Hw. destruct (env_sys _ _ _) as [e' [m|]]; [by injection Hw as _ _ <-|].
    repeat case_match; simplify_eq; constructor.
  - right. apply exec_write_Ok in Hw as [_ ->]. apply afterRename_Ok in Hx as (->&_&->). exists v, t1. by rewrite app_nil_r.
Qed.
End write.

(** ** The store refines a map of sites *)
Inductive call := CList | CGet (id : string) | CPut (s : Site.t) | CDelete (id : string).
Inductive reply := ASites (l : list Site.t) | ASite (s : option Site.t) | ADone.

(** The contract: one atomic step on the map. *)
Definition latestFirst : list Site.t -> Prop := Sorted (fun a b => Site.CreatedAt b <= Site.CreatedAt a).
Inductive mapStep (m : gmap string Site.t) : call -> reply -> gmap string Site.t -> Prop :=
| step_list l : l ≡ₚ map snd (map_to_list m) -> latestFirst l -> mapStep m CList (ASites l) m
| step_get id : mapStep m (CGet id) (ASite (m !! id)) m
| step_put s : mapStep m (CPut s) ADone (<[Site.ID s := s]> m)
| step_delete id : mapStep m (CDelete id) ADone (delete id m).

Lemma insertSite_perm s l : insertSite s l ≡ₚ s :: l.
Proof. induction l as [|x l IH]; cbn [insertSite]; [done|]. destruct (_ <? _); [|done]. rewrite IH. apply Permutation_swap. Qed.

Lemma insertSite_sorted s l : latestFirst l -> latestFirst (insertSite s l).
Proof.
  unfold latestFirst. induction l as [|x l IH]; cbn [insertSite]; [by repeat constructor|]. intros Hl.
  inversion Hl as [|? ? Hl' Hx]; subst. destruct (Z.ltb_spec (Site.CreatedAt s) (Site.CreatedAt x)); [|by repeat constructor].
  constructor; [by apply IH|]. destruct l as [|y l]; cbn [insertSite]; [constructor; lia|].
  inversion Hx; subst. destruct (_ <? _); constructor; lia.
Qed.

Lemma sortSites_spec l : sortSites l ≡ₚ l /\ latestFirst (sortSites l).
Proof.
  induction l as [|s l [IH1 IH2]]; cbn [sortSites foldr]; [by repeat constructor|].
  split; [by rewrite insertSite_perm; f_equiv|by apply insertSite_sorted].
Qed.

Section refinement.
Context `{Env}.
Variables (path b : string).
Hypothesis Hpath : path = dir path +/+ b.

Definition runCall (c : call) : M wop reply :=
  match c with
  | CList => l ← List_ path; mret (ASites l)
  | CGet id => s ← Get path id; mret (ASite s)
  | CPut s => _ ← Put path s; mret ADone
  | CDelete id => _ ← Delete path id; mret ADone
  end.

(** The file stands for the map [m]; no file stands for the empty map. *)
Definition represents (m : gmap string Site.t) (fs : fsmap) : Prop :=
  storable m /\ match fs !! path with
                | None => m = ∅
                | Some (NFile data) => decodeSites data = Ok m
                | Some _ => False
                end.
Definition callOK (c : call) : bool := match c with CPut s => siteOK s | _ => true end.

Lemma exec_readSites m w r w' t :
  represents m (w_fs w) -> exec (readSites path) w = (r, w', t) -> w_fs w' = w_fs w /\ t = [] /\ (r = Ok m \/ exists e, r = Err e).
Proof.
  intros [_ Hm] Hx. assert (causes (fun _ => False) (readSites path)) as Hc by (unfold readSites; causes_auto).
  destruct (quiet_same _ _ _ _ _ Hc Hx) as [-> ->]. split_and!; [done..|]. unfold readSites in Hx.
  apply exec_bind in Hx as [(e&Hd&_)|(d&w1&t1&t2&Hr&Hx&_)]; [by apply exec_try in Hd as (?&?&_)|].
  apply exec_try in Hr as (d'&[= <-]&Hr). destruct d as [data|e].
  - apply exec_read_Ok in Hr as (Hd&_&_). rewrite Hd in Hm. apply exec_ret in Hx as (->&_). by left.
  - destruct (isNotExist e) eqn:En; [|apply exec_ret in Hx as (->&_); right; eauto].
    apply exec_read_absent in Hr as (_&_&Hn). rewrite Hn in Hm by done. subst m. apply exec_ret in Hx as (->&_). by left.
Qed.
Lemma represents_same m fs fs' : fs' !! path = fs !! path -> represents m fs -> represents m fs'.
Proof. unfold represents. by intros ->. Qed.

Lemma represents_written m data fs : storable m -> decodeSites data = Ok m -> represents m (<[path := NFile data]> fs).
Proof. intros Hm Hd. split; [done|]. by rewrite lookup_insert_eq. Qed.

Lemma prefix_leaves (t1 t : list event) : t1 `prefix_of` t -> Forall (leaves path) t -> Forall (leaves path) t1.
Proof. intros [k ->] Ht. by apply Forall_app in Ht as [? _]. Qed.

(** Reading the map and writing a changed one, which is read back as [m']. *)
Lemma update_writes (f : gmap string Site.t -> gmap string Site.t) m m' w r w' t :
  represents m (w_fs w) -> storable m' -> (forall v, encodeSites (f m) = Ok v -> decodeSites (printIndent v) = Ok m') ->
  exec (m ← readSites path; writeSites path (f m)) w = (r, w', t) ->
  (r = Ok tt /\ represents m' (w_fs w') \/ (exists e, r = Err e) /\ represents m (w_fs w')) /\
  forall t1, t1 `prefix_of` t -> represents m (replay t1 (w_fs w)) \/ represents m' (replay t1 (w_fs w)).
Proof.
  intros Hm Hf Hback Hx. apply exec_fs in Hx as Hfs.
  assert (forall t1, Forall (leaves path) t1 -> represents m (replay t1 (w_fs w))) as Hold
    by (intros t1 Ht1; eapply represents_same; [by apply replay_frame|exact Hm]).
  assert (forall t1, t1 `prefix_of` t -> Forall (leaves path) t -> represents m (replay t1 (w_fs w))) as Hpre
    by (intros t1 Hp Ht; by apply Hold, (prefix_leaves _ t)).
  apply exec_bind in Hx as [(e&Hr&->)|(m0&w1&t1&t2&Hr&Hx&->)]; apply (exec_readSites m) in Hr as (Hw&Ht&Hm0); [|done| |done].
  - subst t. split; [right; split; [eauto|]; rewrite Hfs; by apply Hold|]. intros t1 Hp. left. by apply Hpre.
  - destruct Hm0 as [[= ->]|[? [=]]]. subst t1. cbn [app] in *.
    apply (exec_writeJSON path b Hpath) in Hx as [(e&->&Hl)|(v&t1&->&Hv&->&Hl)].
    + split; [right; split; [eauto|]; rewrite Hfs; by apply Hold|]. intros t1 Hp. left. by apply Hpre.
    + assert (represents m' (replay (t1 ++ [EvFs (MWrite path (printIndent v))]) (w_fs w))) as Hnew
        by (rewrite replay_app; apply represents_written; auto).
      rewrite <- Hfs in Hnew. split; [left; done|]. intros t0 [k Hk]. destruct k as [|y k _] using rev_ind.
      * right. rewrite app_nil_r in Hk. by rewrite <- Hk, <- Hfs.
      * left. rewrite app_assoc in Hk. apply app_inj_tail in Hk as [-> _]. apply Forall_app in Hl as [Hl _]. by apply Hold.
Qed.

Lemma update_refines (f : gmap string Site.t -> gmap string Site.t) m w r w' t :
  represents m (w_fs w) -> storable (f m) ->
  exec (m ← readSites path; writeSites path (f m)) w = (r, w', t) ->
  (r = Ok tt /\ represents (f m) (w_fs w') \/ (exists e, r = Err e) /\ represents m (w_fs w')) /\
  forall t1, t1 `prefix_of` t -> represents m (replay t1 (w_fs w)) \/ represents (f m) (replay t1 (w_fs w)).
Proof. intros Hm Hf. apply update_writes; [done..|]. intros v. by apply sites_roundtrip. Qed.

Lemma storable_insert m s : storable m -> siteOK s = true -> storable (<[Site.ID s := s]> m).
Proof.
  intros Hm Hs k s' [[<- <-]|[_ Hk]]%lookup_insert_Some; [|by apply Hm]. split; [|done].
  unfold siteOK in Hs. cbn [forallb] in Hs. by destruct (validUTF8 (Site.ID s)).
Qed.

Lemma storable_delete m id : storable m -> storable (delete id m).
Proof. intros Hm k s [_ Hk]%lookup_delete_Some. by apply Hm. Qed.

(** The outcome of a method: its step was made, or nothing changed; and what a
    crash leaves is the map before or after. *)
Definition refines (m : gmap string Site.t) (c : call) (r : result reply) (fs : fsmap) (fs' : fsmap) (t : list event) : Prop :=
  match r with
  | Ok a => exists m', mapStep m c a m' /\ represents m' fs'
  | Err _ => represents m fs'
  end /\
  forall t1, t1 `prefix_of` t -> exists m', (m' = m \/ exists a, mapStep m c a m') /\ represents m' (replay t1 fs).

Lemma refines_update (f : gmap string Site.t -> gmap string Site.t) m c w r w' t :
  represents m (w_fs w) -> storable (f m) -> mapStep m c ADone (f m) ->
  exec (_ ← (m ← readSites path; writeSites path (f m)); mret ADone) w = (r, w', t) -> refines m c r (w_fs w) (w_fs w') t.
Proof.
  intros Hm Hf Hstep Hx. assert (exists r0, exec (m ← readSites path; writeSites path (f m)) w = (r0, w', t) /\
    r = match r0 with Ok _ => Ok ADone | Err e => Err e end) as (r0&Hu&->).
  { rewrite exec_bind_eq in Hx. destruct (exec (m ← readSites path; writeSites path (f m)) w) as [[[u|e] w1] t1].
    - exists (Ok u). cbn in Hx. rewrite app_nil_r in Hx. by injection Hx as <- <- <-.
    - exists (Err e). by injection Hx as <- <- <-. }
  destruct (update_refines f m w r0 w' t Hm Hf Hu) as [Hr Hp]. split.
  - destruct Hr as [[-> Hr]|[[e ->] Hr]]; [by exists (f m)|done].
  - intros t1 Ht. destruct (Hp t1 Ht) as [?|?]; [exists m|exists (f m)]; eauto.
Qed.

Lemma exec_readMap {A} (g : gmap string Site.t -> A) m w r w' t :
  represents m (w_fs w) -> exec (m ← readSites path; mret (g m)) w = (r, w', t) ->
  w_fs w' = w_fs w /\ t = [] /\ (r = Ok (g m) \/ exists e, r = Err e).
Proof.
  intros Hm [(e&Hr&->)|(m0&w2&t3&t4&Hr&(->&->&->)%exec_ret&->)]%exec_bind;
    apply (exec_readSites m) in Hr as (Hw&->&Hm0); [| done| |done].
  - split_and!; eauto.
  - destruct Hm0 as [[= ->]|[? [=]]]. split_and!; eauto.
Qed.

Lemma refines_read {A} (g : gmap string Site.t -> A) (h : A -> reply) m c w r w' t :
  represents m (w_fs w) -> mapStep m c (h (g m)) m ->
  exec (a ← (m ← readSites path; mret (g m)); mret (h a)) w = (r, w', t) -> refines m c r (w_fs w) (w_fs w') t.
Proof.
  intros Hm Hstep Hx. assert (w_fs w' = w_fs w /\ t = [] /\ (r = Ok (h (g m)) \/ exists e, r = Err e)) as (Hw&->&Hr).
  { apply exec_bind in Hx as [(e&Hx&->)|(a&w1&t1&t2&Hx&(->&->&->)%exec_ret&->)];
      apply (exec_readMap g m) in Hx as (Hw&->&Hr); [|done| |done].
    - split_and!; eauto.
    - destruct Hr as [[= ->]|[? [=]]]. split_and!; eauto. }
  split.
  - destruct Hr as [->|[e ->]]; [exists m; by rewrite Hw|by rewrite Hw].
  - intros t1 Ht. apply prefix_nil_inv in Ht as ->. exists m. auto.
Qed.

(** C11: the store refines a map.  From a file that stands for a map of sites,
    every method answers as the map does, a listing holds every site once with
    the latest first, a failed call changes nothing, and a crash at any point of
    a write leaves the map before it or the map after it. *)
Theorem store_refines c m w r w' t :
  callOK c = true -> represents m (w_fs w) -> exec (runCall c) w = (r, w', t) -> refines m c r (w_fs w) (w_fs w') t.
Proof.
  intros Hc Hm. destruct c as [|id|s|id]; cbn [runCall callOK] in *.
  - apply (refines_read (fun m => sortSites (map snd (sortedKeys m))) ASites); [done|]. constructor; [|apply sortSites_spec].
    etransitivity; [apply sortSites_spec|]. apply Permutation_map, sortedKeys_perm.
  - apply (refines_read (fun m => m !! id) ASite); [done|]. constructor.
  - apply (refines_update (fun m => <[Site.ID s := s]> m)); [done| |constructor]. apply storable_insert; [apply Hm|done].
  - apply (refines_update (fun m => delete id m)); [done| |constructor]. apply storable_delete, Hm.
Qed.
End refinement.

(** ** Witness: a site is stored beside another *)
Definition oneSite (id : string) (created : Z) : Site.t :=
  Site.mk id "blog.example.com" "Blog" "a@example.com" 512 (fofZ 1) "running" "" created [] BackupPolicyJSON.zero false None "" zeroTime.
Definition firstSite : Site.t := oneSite "aaaaaaaaaaaaaaaa" 1700000000000000000.
Definition secondSite : Site.t := oneSite "bbbbbbbbbbbbbbbb" 1700000001000000000.
Definition storeMap : gmap string Site.t := {["aaaaaaaaaaaaaaaa" := firstSite]}.
Definition storeWorld : world :=
  World _ (<["/data" := NDir]> (<["/data/sites.json" := NFile (match encodeSites storeMap with Ok v => printIndent v | Err _ => "" end)]> ∅))
    (answers (fun _ => "")) "" ∅.
Definition putRun : result reply * world * list event := exec (runCall "/data/sites.json" (CPut secondSite)) storeWorld.

Lemma put_runs : putRun.1.1 = Ok ADone.
Proof. vm_compute. reflexivity. Qed.

Lemma store_holds : represents "/data/sites.json" storeMap (w_fs storeWorld).
Proof.
  split; [|vm_compute; reflexivity]. intros k s Hk. unfold storeMap in Hk. apply lookup_singleton_Some in Hk as [<- <-]. split; vm_compute; reflexivity.
Qed.

Lemma store_refines_witness :
  exists m, mapStep storeMap (CPut secondSite) ADone m /\ represents "/data/sites.json" m (w_fs putRun.1.2).
Proof.
  exact (proj1 (store_refines "/data/sites.json" "sites.json" eq_refl (CPut secondSite) storeMap storeWorld (Ok ADone) putRun.1.2 putRun.2
    ltac:(vm_compute; reflexivity) store_holds (exec_parts _ _ _ put_runs))).
Defined.

(** ** A plan that is accepted and makes the plans unreadable

    [PutResourcePlan] compares names with [EqualFold], [readResourcePlans] with
    [ToLower].  They disagree on U+0130 (dotted capital I): its lower case is
    [i], but it folds with no other letter. *)
Section dottedI.
#[local] Instance dotted : Unicode :=
  {| toLowerHigh := fun z => if z =? 304 then 105 else z; simpleFoldEq := fun _ _ => false; isPrintHigh := fun _ => true |}.

Definition planOf (id name : string) : ResourcePlan.t := ResourcePlan.mk id name (Resources.mk 512 (fofZ 1)).
Definition dottedPlan : ResourcePlan.t := planOf "bbbbbbbbbbbbbbbb" (encodeRune 304).
Definition plansWorld : world :=
  World _ (<["/data" := NDir]> (<["/data/resource-plans.json" :=
      NFile (match structsJSON planJSON [planOf "aaaaaaaaaaaaaaaa" "i"] with Ok v => printIndent v | Err _ => "" end)]> ∅))
    (answers (fun _ => "")) "" ∅.

Lemma plans_lockout :
  (exec (ListResourcePlans "/data/sites.json") plansWorld).1.1 = Ok [planOf "aaaaaaaaaaaaaaaa" "i"] /\
  (exec (PutResourcePlan "/data/sites.json" dottedPlan) plansWorld).1.1 = Ok tt /\
  (exec (ListResourcePlans "/data/sites.json") (exec (PutResourcePlan "/data/sites.json" dottedPlan) plansWorld).1.2).1.1 =
    Err (EMsg "duplicate resource plan") /\
  (exec (DeleteResourcePlan "/data/sites.json" "bbbbbbbbbbbbbbbb")
    (exec (PutResourcePlan "/data/sites.json" dottedPlan) plansWorld).1.2).1.1 = Err (EMsg "duplicate resource plan").
Proof. vm_compute. auto. Qed.
End dottedI.
