(* ===== verification/ActivityLog.v ===== *)
(** * ActivityLog: the activity log, [internal/audit/log.go]

    One JSON object a line, appended; at 10 MiB the file becomes [.1] and a new
    one starts.  The mutex makes each method one program.  An append that fails
    writes nothing. *)
From S2P Require Import Prelude GoStrings GoPath GoTime Effects World Core Json CoreJson Worker.

Module Entry.
Record t := mk { Time : time; Action : string; SiteID : string; Domain : string; Success : bool; Detail : string }.
Definition zero : t := mk zeroTime "" "" "" false "".
Definition fields : list (string * setter t) :=
  [("time", setTime (fun v e => mk v (Action e) (SiteID e) (Domain e) (Success e) (Detail e)));
   ("action", setString (fun v e => mk (Time e) v (SiteID e) (Domain e) (Success e) (Detail e)));
   ("site_id", setString (fun v e => mk (Time e) (Action e) v (Domain e) (Success e) (Detail e)));
   ("domain", setString (fun v e => mk (Time e) (Action e) (SiteID e) v (Success e) (Detail e)));
   ("success", setBool (fun v e => mk (Time e) (Action e) (SiteID e) (Domain e) v (Detail e)));
   ("detail", setString (fun v e => mk (Time e) (Action e) (SiteID e) (Domain e) (Success e) v))].
Definition toJSON (e : t) : result json :=
  time ← timeJSON (Time e);
  Ok (JObj ([("time", time); ("action", JStr (Action e))] ++ unless (empty (SiteID e)) "site_id" (JStr (SiteID e)) ++
            unless (empty (Domain e)) "domain" (JStr (Domain e)) ++ [("success", JBool (Success e))] ++
            unless (empty (Detail e)) "detail" (JStr (Detail e)))%list).
End Entry.

Definition maxLogBytes : Z := 10 * 2 ^ 20.

(** [clean]: one line, trimmed, at most [limit] bytes. *)
Definition clean (value : string) (limit : Z) : string :=
  let value := trimSpace (replaceAll (replaceAll value NL " ") CR " ") in
  if limit <? lenZ value then take (Z.to_nat limit) value else value.

Definition cleanEntry (e : Entry.t) (now : time) : Entry.t :=
  Entry.mk (if Entry.Time e =? zeroTime then now else Entry.Time e) (clean (Entry.Action e) 80) (clean (Entry.SiteID e) 64)
    (clean (Entry.Domain e) 253) (Entry.Success e) (clean (Entry.Detail e) 500).

Section log.
Variable path : string.   (** [Log.path] *)

(** A log that has grown too large makes room. *)
Definition rotate : M wop unit :=
  info ← try (perform (OStat path));
  match info with
  | Ok (NFile data) =>
      if maxLogBytes <=? lenZ data
      then _ ← try (perform (ORemove (path +:+ ".1"))); perform (ORename path (path +:+ ".1"))
      else mret tt
  | Ok _ => mret tt
  | Err e => if isNotExist e then mret tt else fail e
  end.

Definition Append (e : Entry.t) : M wop unit :=
  now ← (if Entry.Time e =? zeroTime then get ONow else mret (Entry.Time e));
  let e := cleanEntry e now in
  if String.eqb (Entry.Action e) "" then fail (EMsg "audit action is required")
  else
    _ ← perform (OMkdirAll (dir path));
    _ ← rotate;
    data ← lift (Entry.toJSON e);
    perform (OAppend path (printJSON data +:+ NL)).

(** The ring of the last [limit] entries. *)
Fixpoint keepLast (limit : nat) (entries : list Entry.t) (lines : list string) : result (list Entry.t) :=
  match lines with
  | [] => Ok entries
  | line :: lines' =>
      v ← parseJSON line;
      e ← decodeStruct false Entry.fields v Entry.zero;
      keepLast limit (if Nat.eqb (length entries) limit then skipn 1 entries ++ [e] else entries ++ [e])%list lines'
  end.

Definition maxLine : Z := 2 ^ 20.

Definition readEntries (limit : nat) (data : string) : result (list Entry.t) :=
  let '(lines, err) := scanText maxLine data in
  entries ← keepLast limit [] lines;
  match err with
  | Some e => Err e
  | None => Ok (rev entries)
  end.

Definition ListEntries (limit : Z) : M wop (list Entry.t) :=
  if (limit <? 1) || (500 <? limit) then fail (EMsg "audit limit must be between 1 and 500")
  else
    data ← try (perform (ORead path));
    match data with
    | Ok data => lift (readEntries (Z.to_nat limit) data)
    | Err e => if isNotExist e then mret [] else fail e
    end.
End log.
