(* ===== verification/ActivityLogFacts.v ===== *)
(** * ActivityLogFacts: the log answers its latest entries

    Each entry is one line, so the log is the list of entries appended to it;
    a listing is the end of that list, newest first. *)
From S2P Require Import Prelude GoStrings Utf8Facts GoPath GoTime GoRFC3339 Effects World Core CoreFacts Json JsonFacts GoFloatText CoreJson CoreJsonFacts Worker Samples Store StoreFacts ActivityLog.
Set Warnings "-register-all".

(** ** An encoded entry is one line *)
Definition noNL (s : string) : bool := noChar (chrZ 10) s.

Lemma noNL_app s t : noNL (s +:+ t) = noNL s && noNL t.
Proof. apply strForall_app. Qed.

Lemma high_noNL s : strForall (fun c => 128 <=? byteZ c) s = true -> noNL s = true.
Proof.
  apply strForall_impl. intros c Hc. apply Z.leb_le in Hc. destruct (Ascii.eqb_spec c (chrZ 10)) as [->|]; [|done].
  vm_compute in Hc. congruence.
Qed.

(** The bytes of a chunk: one ASCII byte, or bytes above 0x7F. *)
Lemma decodeRune_bytes c s z b r : decodeRune c s = (z, b, r) ->
  (z = byteZ c /\ b = String c "" /\ z < 128) \/ (128 <= z /\ strForall (fun c => 128 <=? byteZ c) b = true).
Proof.
  unfold decodeRune. destruct (Z.ltb_spec (byteZ c) 128) as [Hc|Hc]; [intros [= <- <- _]; by left|].
  intros Hd. right. unfold inRange in Hd.
  repeat (case_match; simplify_eq); cbn [strForall];
    repeat match goal with E : _ && _ = true |- _ => apply andb_prop in E as [? ?] end;
    repeat match goal with E : (_ <=? _) = true |- _ => apply Z.leb_le in E end;
    repeat match goal with E : (_ <? _) = false |- _ => apply Z.ltb_ge in E end;
    repeat match goal with E : (_ =? _) = true |- _ => apply Z.eqb_eq in E end;
    repeat match goal with E : (_ =? _) = false |- _ => apply Z.eqb_neq in E end;
    (split; [unfold runeError; lia|]); rewrite ?andb_true_iff, ?Z.leb_le; repeat split; lia.
Qed.

Lemma hexDigit_noNL z : 0 <= z < 16 -> Ascii.eqb (hexDigit z) (chrZ 10) = false.
Proof.
  intros Hz. assert (z = 0 \/ z = 1 \/ z = 2 \/ z = 3 \/ z = 4 \/ z = 5 \/ z = 6 \/ z = 7 \/ z = 8 \/ z = 9 \/ z = 10 \/ z = 11 \/
    z = 12 \/ z = 13 \/ z = 14 \/ z = 15) as Hor by lia. by repeat (destruct Hor as [->|Hor]; [reflexivity|]); subst.
Qed.

Lemma escapeRune_noNL c s z b r : decodeRune c s = (z, b, r) -> noNL (escapeRune z b) = true.
Proof.
  intros Hd%decodeRune_bytes. pose proof (byteZ_range c) as Hc. unfold escapeRune.
  repeat (match goal with |- noNL (if ?b then _ else _) = true => destruct b eqn:? end; [try reflexivity|]).
  - destruct Hd as [(->&_&_)|[Hz _]]; [|exfalso; lia]. unfold hex2, noNL, noChar. cbn [String.append strForall].
    rewrite !hexDigit_noNL; [reflexivity|apply Z.mod_pos_bound; lia|]. split; [apply Z.div_pos; lia|apply Z.div_lt_upper_bound; lia].
  - destruct Hd as [(->&->&_)|[_ Hh]]; [|by apply high_noNL]. unfold noNL, noChar. cbn [strForall]. rewrite andb_true_r.
    destruct (Ascii.eqb_spec c (chrZ 10)) as [->|]; [|done]. exfalso. vm_compute in Heqb0. discriminate.
Qed.

Lemma noNL_printString s : noNL (printString s) = true.
Proof.
  unfold printString. rewrite !noNL_app. cbn [noNL]. replace (noNL DQ) with true by reflexivity. rewrite andb_true_r. cbn [andb].
  unfold chunks. generalize (String.length s). intros f. revert s.
  induction f as [|f IH]; intros [|c s]; try reflexivity. cbn [chunksFuel]. destruct (decodeRune c s) as [[z b] r] eqn:Ed.
  apply escapeRune_noNL in Ed as Hz. specialize (IH r). cbn [map]. destruct (map _ (chunksFuel f r)) as [|x l] eqn:El; cbn [String.concat].
  - exact Hz.
  - rewrite !noNL_app, Hz. replace (noNL "") with true by reflexivity. exact IH.
Qed.

(** Values without numbers or nesting, such as the members of an entry. *)
Definition flat (v : json) : bool := match v with JStr _ | JBool _ | JNull => true | _ => false end.

Lemma noNL_object l : forallb (fun kv => flat kv.2) l = true -> noNL (printJSON (JObj l)) = true.
Proof.
  intros Hl. cbn [printJSON]. rewrite !noNL_app. replace (noNL "{") with true by reflexivity. replace (noNL "}") with true by reflexivity.
  rewrite andb_true_r. cbn [andb]. apply strForall_join; [reflexivity|]. apply Forall_forall. intros x Hx.
  apply list_elem_of_fmap in Hx as ([k v]&->&Hin). rewrite forallb_forall in Hl. apply list_elem_of_In, Hl in Hin. cbn [fst snd] in *.
  change (noNL (printString k +:+ ":" +:+ printJSON v) = true). rewrite !noNL_app, noNL_printString. destruct v as [|[]| | | |]; try done.
  cbn [printJSON]. by rewrite noNL_printString.
Qed.

Lemma flat_unless omit k v rest : flat v = true -> forallb (fun kv => flat kv.2) rest = true ->
  forallb (fun kv => flat kv.2) (unless omit k v ++ rest) = true.
Proof. intros Hv Hr. unfold unless. destruct omit; cbn [app forallb snd]; by rewrite ?Hv. Qed.

Lemma entry_line e v : Entry.toJSON e = Ok v -> noNL (printJSON v) = true.
Proof.
  unfold Entry.toJSON. intros (t&Ht&[= <-])%bind_Ok. apply noNL_object.
  assert (flat t = true) as Hf by (unfold timeJSON in Ht; apply bind_Ok in Ht as (s&_&[= <-]); done).
  cbn [app forallb snd]. rewrite Hf. cbn [andb flat]. repeat (apply flat_unless; [done|]).
  cbn [app forallb snd flat andb]. rewrite <- (app_nil_r (unless _ "detail" _)). by apply flat_unless.
Qed.

(** ** Decoding an entry *)
Definition entryOK (e : Entry.t) : bool :=
  forallb validUTF8 [Entry.Action e; Entry.SiteID e; Entry.Domain e; Entry.Detail e].
Ltac entry_norm := cbn [Entry.Time Entry.Action Entry.SiteID Entry.Domain Entry.Success Entry.Detail Entry.zero].

#[export] Instance entry_wire : Wire 1 Entry.fields Entry.zero Entry.toJSON entryOK.
Proof.
  intros [t a s dm su de] v d Hok He [Hd0 Hd]. unfold entryOK in Hok. unfold Entry.toJSON in He. cbn [forallb] in Hok. entry_norm.
  cbn -[validUTF8] in He, Hok. bool_solve. enc_inv He. destruct (timeJSON_reads _ _ (d + 1) E) as [Hp Hset].
  rewrite (members_end (unless (empty de) _ _)). wire_solve entry_norm.
Qed.

(** ** The log as a list *)
Definition encodes (e : Entry.t) (line : string) : Prop :=
  exists v, Entry.toJSON e = Ok v /\ line = printJSON v /\ entryOK e = true /\ lenZ line < maxLine.
Definition logText (lines : list string) : string := String.concat "" (map (fun l => l +:+ NL) lines).

Lemma logText_cons l lines : logText (l :: lines) = l +:+ NL +:+ logText lines.
Proof.
  unfold logText. cbn [map]. destruct (map _ lines) as [|x r] eqn:E; cbn [String.concat].
  - by rewrite app_nil_r_str.
  - by rewrite app_assoc_str.
Qed.

Lemma logText_app l1 l2 : logText (l1 ++ l2) = logText l1 +:+ logText l2.
Proof. induction l1 as [|x l1 IH]; [done|]. cbn [app]. by rewrite !logText_cons, IH, !app_assoc_str. Qed.

Lemma encodes_line e line : encodes e line -> noNL line = true /\ line <> "" /\ trimSuffix line CR = line.
Proof.
  intros (v&He&->&_&_). split; [by eapply entry_line|]. unfold Entry.toJSON in He. apply bind_Ok in He as (t&_&[= <-]).
  cbn [printJSON]. split; [done|]. apply trimSuffix_last with (d := "}"%char); [|done].
  by rewrite !lastChar_app.
Qed.

Lemma scanText_log es lines : Forall2 encodes es lines -> scanText maxLine (logText lines) = (lines, None).
Proof.
  unfold scanText. induction 1 as [|e line es lines He _ IH]; [reflexivity|]. rewrite logText_cons.
  destruct (encodes_line _ _ He) as (Hn&Hne&Ht). change (NL +:+ logText lines) with (String (chrZ 10) (logText lines)).
  rewrite split_app_noChar by exact Hn. destruct He as (v&_&_&_&Hl).
  destruct line as [|c line]; [done|]. remember (split (chrZ 10) (logText lines)) as pieces.
  cbn [scanLines]. destruct (Z.leb_spec maxLine (lenZ (String c line))); [lia|]. rewrite IH. by rewrite Ht.
Qed.

Lemma encodes_reads e line : encodes e line -> (v ← parseJSON line; decodeStruct false Entry.fields v Entry.zero) = Ok e.
Proof.
  intros (v&He&->&Hok&_). destruct (wire e v 0 Hok He ltac:(split; unfold maxDepth; lia)) as [[_ Hp] Hd].
  by rewrite parse_print.
Qed.

(** The last [n] elements. *)
Definition lastN {A} (n : nat) (l : list A) : list A := skipn (length l - n) l.

Lemma lastN_snoc {A} n (p : list A) e : (1 <= n)%nat ->
  (if Nat.eqb (length (lastN n p)) n then skipn 1 (lastN n p) ++ [e] else lastN n p ++ [e])%list = lastN n (p ++ [e]).
Proof.
  intros Hn. unfold lastN. rewrite length_skipn, length_app. cbn [length]. destruct (Nat.eqb_spec (length p - (length p - n)) n) as [Hl|Hl].
  - rewrite skipn_skipn, skipn_app. replace (length p + 1 - n)%nat with (1 + (length p - n))%nat by lia.
    by replace (1 + (length p - n) - length p)%nat with 0%nat by lia.
  - replace (length p - n)%nat with 0%nat by lia. by replace (length p + 1 - n)%nat with 0%nat by lia.
Qed.

Lemma keepLast_spec n es lines : (1 <= n)%nat -> Forall2 encodes es lines -> forall p, keepLast n (lastN n p) lines = Ok (lastN n (p ++ es)).
Proof.
  intros Hn. induction 1 as [|e line es lines He _ IH]; intros p; cbn [keepLast]; [by rewrite app_nil_r|].
  apply encodes_reads, bind_Ok in He as (v&Hv&Hd). rewrite Hv. cbn [mbind result_bind]. rewrite Hd. cbn [mbind result_bind].
  rewrite lastN_snoc by done. rewrite IH. by rewrite <- app_assoc.
Qed.

Lemma readEntries_spec n es lines : (1 <= n)%nat -> Forall2 encodes es lines -> readEntries n (logText lines) = Ok (firstn n (rev es)).
Proof.
  intros Hn He. unfold readEntries. rewrite (scanText_log es) by done. pose proof (keepLast_spec n es lines Hn He []) as Hk.
  change (lastN n []) with (@nil Entry.t) in Hk. rewrite Hk. cbn [mbind result_bind app]. unfold lastN. by rewrite firstn_rev.
Qed.

(** ** Appending and listing *)
Section log.
Context `{Env}.
Variables (path b : string).
Hypothesis Hpath : path = dir path +/+ b.

(** The file at [path] is the log of [es]; no file is the empty log. *)
Definition holds (es : list Entry.t) (fs : fsmap) : Prop :=
  match fs !! path with
  | None => es = []
  | Some (NFile d) => exists lines, Forall2 encodes es lines /\ d = logText lines
  | Some _ => False
  end.
Definition logSize (fs : fsmap) : Z := match fs !! path with Some (NFile d) => lenZ d | _ => 0 end.
(** What rotation keeps in the current file. *)
Definition kept (es : list Entry.t) (fs : fsmap) : list Entry.t := if maxLogBytes <=? logSize fs then [] else es.

Lemma length_child (p q : string) : p = q +:+ ".1" -> (String.length q < String.length p)%nat.
Proof. intros ->. rewrite length_app_str. simpl. lia. Qed.

(** The file moved away is no longer at its old name. *)
Lemma exec_rename_gone w u w' t : exec (perform (ORename path (path +:+ ".1"))) w = (Ok u, w', t) -> w_fs w' !! path = None.
Proof.
  intros Hx. apply exec_fs in Hx as Hr. apply exec_rename_Ok in Hx as [_ ->]. rewrite Hr. unfold replay. cbn [foldl applyEvent applyMutation].
  assert (forall moves acc, (forall mv, mv ∈ moves -> mv.2 <> path) -> (acc : fsmap) !! path = None ->
    foldr (fun '(src, dst) acc => match w_fs w !! src with Some n => <[dst := n]> acc | None => acc end) acc moves !! path = None) as Hf.
  { induction moves as [|[x y] moves IH]; intros acc Hm Ha; cbn [foldr]; [done|]. assert (y <> path) by (apply (Hm (x, y)); left).
    destruct (w_fs w !! x); [rewrite lookup_insert_ne by done|]; (apply IH; [intros; apply Hm; by right|done]). }
  apply Hf.
  - unfold renameMoves. intros mv Hmv Heq. assert (String.length path < String.length mv.2)%nat as Hl; [|rewrite Heq in Hl; lia].
    apply elem_of_cons in Hmv as [->|Hmv]; cbn [snd]; [rewrite length_app_str; simpl; lia|].
    apply list_elem_of_fmap in Hmv as (q&->&_). cbn [snd]. rewrite !length_app_str. simpl. lia.
  - unfold renameMoves. cbn [foldr fst]. apply lookup_delete_eq.
Qed.

Lemma rotate_Ok es w u w' t : holds es (w_fs w) -> exec (rotate path) w = (Ok u, w', t) -> holds (kept es (w_fs w)) (w_fs w').
Proof.
  intros Hh Hx. unfold rotate in Hx. apply exec_bind_Ok in Hx as (info&w1&t1&t2&Hi&Hx&_). apply exec_try in Hi as (i&[= <-]&Hi).
  apply exec_stat_absent in Hi as Hw. destruct Hw as (Hw&_&Habs). unfold holds, kept, logSize in *.
  destruct info as [[d| |]|e].
  - apply exec_stat_Ok in Hi as (Hd&_&_). rewrite Hd in *. destruct (maxLogBytes <=? lenZ d).
    + apply exec_bind_Ok in Hx as (?&w2&t3&t4&_&Hx&_). apply exec_rename_gone in Hx. by rewrite Hx.
    + apply exec_ret in Hx as (_&->&_). by rewrite Hw, Hd.
  - apply exec_stat_Ok in Hi as (Hd&_&_). by rewrite Hd in Hh.
  - apply exec_stat_Ok in Hi as (Hd&_&_). by rewrite Hd in Hh.
  - destruct (isNotExist e); [|done]. apply exec_ret in Hx as (_&->&_). rewrite Hw, Habs by done. rewrite Habs in Hh by done. subst es.
    by destruct (_ <=? _).
Qed.

Lemma exec_append_Ok d w u w' t :
  exec (perform (OAppend path d)) w = (Ok u, w', t) ->
  w_fs w' !! path = Some (NFile (match w_fs w !! path with Some (NFile old) => old +:+ d | _ => d end)).
Proof.
  rewrite exec_perform. cbn [wstep]. unfold sys, mutate. destruct (env_sys _ _ _) as [e' [m|]]; [done|]. cbn [w_fs setEnv].
  intros Hx. repeat case_match; simplify_eq; cbn [w_fs setFs applyMutation]; apply lookup_insert_eq.
Qed.

Definition fits (e : Entry.t) : Prop := forall v, Entry.toJSON e = Ok v -> entryOK e = true /\ lenZ (printJSON v) < maxLine.

Lemma Append_Ok es e w u w' t :
  holds es (w_fs w) -> (forall now, fits (cleanEntry e now)) -> exec (Append path e) w = (Ok u, w', t) ->
  exists now, holds (kept es (w_fs w) ++ [cleanEntry e now]) (w_fs w').
Proof.
  intros Hh Hfit. unfold Append. intros (now&w1&t1&u1&Hn&Hx&_)%exec_bind_Ok. exists now.
  assert (w_fs w1 = w_fs w) as Hw1.
  { eapply quiet_same; [|exact Hn]. destruct (_ =? _); [apply causes_get; reflexivity|apply causes_mret]. }
  cbv zeta in Hx. destruct (String.eqb _ ""); [done|]. apply exec_bind_Ok in Hx as (?&w2&t2&u2&Hm&Hx&_).
  apply (exec_frame path) in Hm; [|by eapply mkdirDir_leaves]. apply exec_bind_Ok in Hx as (?&w3&t3&u3&Hr&Hx&_).
  assert (holds es (w_fs w2) /\ kept es (w_fs w2) = kept es (w_fs w)) as [Hh2 Hk]
    by (unfold holds, kept, logSize in *; by rewrite Hm, Hw1).
  apply (rotate_Ok es) in Hr; [|done]. rewrite Hk in Hr. rewrite exec_lift_bind in Hx.
  destruct (Entry.toJSON (cleanEntry e now)) as [v|] eqn:Ev; [|done]. apply exec_append_Ok in Hx. unfold holds. rewrite Hx.
  destruct (Hfit now v Ev) as [Hok Hlen]. assert (encodes (cleanEntry e now) (printJSON v)) as Henc by (by exists v).
  unfold holds in Hr. destruct (w_fs w3 !! path) as [[d| |]|]; try done.
  - destruct Hr as (lines&Hl&->). exists (lines ++ [printJSON v])%list. split; [by apply Forall2_app; [|repeat constructor]|].
    by rewrite logText_app, logText_cons, app_nil_r_str.
  - rewrite Hr. exists [printJSON v]. split; [by repeat constructor|]. by rewrite logText_cons, app_nil_r_str.
Qed.

Lemma ListEntries_Ok es limit w l w' t :
  holds es (w_fs w) -> exec (ListEntries path limit) w = (Ok l, w', t) -> l = firstn (Z.to_nat limit) (rev es).
Proof.
  intros Hh. unfold ListEntries. destruct ((limit <? 1) || (500 <? limit)) eqn:El; [done|]. apply orb_false_iff in El as [El _].
  apply Z.ltb_ge in El. intros (r&w1&t1&t2&Hr&Hx&_)%exec_bind_Ok. apply exec_try in Hr as (r'&[= <-]&Hr). unfold holds in Hh. destruct r as [d|e].
  - apply exec_read_Ok in Hr as (Hd&_&_). rewrite Hd in Hh. destruct Hh as (lines&Hl&->). apply exec_ret in Hx as (Hx&_).
    rewrite (readEntries_spec _ es) in Hx by (done || lia). by injection Hx.
  - destruct (isNotExist e) eqn:En; [|done]. apply exec_read_absent in Hr as (_&_&Hn). rewrite Hn in Hh by done. subst es.
    apply exec_ret in Hx as ([= ->]&_). by rewrite firstn_nil.
Qed.

End log.

(** ** Witness: two entries *)
Definition entryOf (action : string) : Entry.t := Entry.mk 1700000000000000000 action "aaaaaaaaaaaaaaaa" "blog.example.com" true "".
Definition lineOf (e : Entry.t) : string := match Entry.toJSON e with Ok v => printJSON v | Err _ => "" end.
Definition logWorld : world :=
  World _ (<["/data" := NDir]> (<["/data/audit.jsonl" := NFile (logText [lineOf (entryOf "create")])]> ∅)) (answers (fun _ => "")) "" ∅.
Definition appendRun : result unit * world * list event := exec (Append "/data/audit.jsonl" (entryOf " backup")) logWorld.
Definition listRun : result (list Entry.t) * world * list event := exec (ListEntries "/data/audit.jsonl" 20) appendRun.1.2.
Definition listed : list Entry.t := [entryOf "backup"; entryOf "create"].

Lemma append_runs : appendRun.1.1 = Ok tt.
Proof. vm_compute. reflexivity. Qed.
Lemma list_runs : listRun.1.1 = Ok listed.
Proof. vm_compute. reflexivity. Qed.

Lemma log_holds : holds "/data/audit.jsonl" [entryOf "create"] (w_fs logWorld).
Proof.
  exists [lineOf (entryOf "create")]. split; [|reflexivity]. repeat constructor. eexists. split; [vm_compute; reflexivity|].
  split; [vm_compute; reflexivity|]. split; vm_compute; reflexivity.
Qed.

Lemma entry_fits now : fits (cleanEntry (entryOf " backup") now).
Proof. change (cleanEntry (entryOf " backup") now) with (cleanEntry (entryOf " backup") 0). intros v Hv. vm_compute in Hv. injection Hv as <-. split; vm_compute; reflexivity. Qed.

