(* ===== verification/I18n.v ===== *)
(** * I18n: language selection, [internal/i18n/i18n.go]

    The supported languages, tags, the browser's preferences and the saved
    choice. *)
From S2P Require Import Prelude GoStrings GoFloat.

Module Language.
Record t := mk { Code : string; Name : string; Dir : string }.
End Language.

(** Names as UTF-8. *)
Definition utf8 (l : list Z) : string := String.concat "" (map encodeRune l).
Definition languages : list Language.t :=
  [Language.mk "en" "English" "ltr";
   Language.mk "ar" (utf8 [1575; 1604; 1593; 1585; 1576; 1610; 1577]) "rtl";
   Language.mk "fa" (utf8 [1601; 1575; 1585; 1587; 1740]) "rtl";
   Language.mk "es" ("Espa" +:+ utf8 [241] +:+ "ol") "ltr";
   Language.mk "de" "Deutsch" "ltr";
   Language.mk "fr" ("Fran" +:+ utf8 [231] +:+ "ais") "ltr";
   Language.mk "zh" (utf8 [20013; 25991]) "ltr";
   Language.mk "ja" (utf8 [26085; 26412; 35486]) "ltr"].

Definition CookieName : string := "panel4wp_language".

Section i18n.
Context `{Unicode}.

(** A part of a tag: not empty, letters and digits only. *)
Definition tagPart (part : string) : bool :=
  negb (String.eqb part "") && forallb (fun c => (97 <=? c) && (c <=? 122) || (48 <=? c) && (c <=? 57)) (runes part).

Definition Normalize (tag : string) : string :=
  let parts := split "-"%char (toLower (trimSpace tag)) in
  if negb (forallb tagPart parts) then ""
  else match find (fun l => String.eqb (default "" (head parts)) (Language.Code l)) languages with
       | Some l => Language.Code l
       | None => ""
       end.

(** The [q] parameter among an entry's parameters: its value, or none of the
    entry is valid. *)
Fixpoint quality (seen : bool) (acc : f64) (parameters : list string) : option f64 :=
  match parameters with
  | [] => Some acc
  | parameter :: rest =>
      match splitN2 "="%char (trimSpace parameter) with
      | [name; value] =>
          if negb (equalFold name "q") || seen then None
          else
            let value := trimSpace value in
            if String.eqb value "" || containsAny value "eE+-" then None
            else match parseFloat value with
                 | Err _ => None
                 | Ok parsed => if fltb parsed (fofZ 0) || fgtb parsed (fofZ 1) then None else quality true parsed rest
                 end
      | _ => None
      end
  end.

(** One entry of the header: a supported language with a positive weight. *)
Definition preference (item : string) : option (string * f64) :=
  match split ";"%char item with
  | [] => None
  | tag :: parameters =>
      let lang := Normalize tag in
      if String.eqb lang "" then None
      else match quality false (fofZ 1) parameters with
           | Some q => if fgtb q (fofZ 0) then Some (lang, q) else None
           | None => None
           end
  end.

Definition candidates (header : string) : list (string * f64) := omap preference (split ","%char header).

(** [sort.SliceStable], the greater weight first. *)
Fixpoint insertCandidate (x : string * f64) (l : list (string * f64)) : list (string * f64) :=
  match l with
  | [] => [x]
  | y :: l' => if fgtb y.2 x.2 then y :: insertCandidate x l' else x :: l
  end.
Definition sortCandidates (l : list (string * f64)) : list (string * f64) := foldr insertCandidate [] l.

Definition Detect (header : string) : string :=
  match sortCandidates (candidates header) with
  | (lang, _) :: _ => lang
  | [] => "en"
  end.

(** [Resolve]: [cookie] is the saved choice, [header] the browser's. *)
Definition Resolve (cookie : option string) (header : string) : string :=
  match cookie with
  | Some value => let lang := Normalize value in if String.eqb lang "" then Detect header else lang
  | None => Detect header
  end.

Definition Direction (language : string) : string :=
  let lang := Normalize language in
  if String.eqb lang "ar" || String.eqb lang "fa" then "rtl" else "ltr".
End i18n.
