(* ===== verification/Messages.v ===== *)
(** * Messages: the message tables and [T], [internal/i18n]

    One table a language for each of [messages.go], [resources_messages.go] and
    [storage_messages.go], in UTF-8; the package's [init] functions put the
    later tables over the earlier. *)
From S2P Require Import Prelude GoStrings I18n.

Definition table : Type := list (string * string).

Definition messages_en : table :=
  [("refresh_status", "Refresh service status");
   ("status_checked", "Last status check");
   ("status_unknown", "Status unavailable");
   ("status_unhealthy", "Service issue");
   ("status_busy", "Operation in progress");
   ("operation_pending", "The operation has no confirmed result yet. Refresh service status before trying again.");
   ("status_unavailable", "Service status could not be checked. Check the worker and Docker, then refresh.");
   ("status_refreshed", "Service status refreshed");
   ("language", "Language");
   ("collapse_sidebar", "Collapse sidebar");
   ("expand_sidebar", "Expand sidebar");
   ("apply", "Apply");
   ("github_help", "Like this project? Support its development by giving it a star.");
   ("delete_backup", "Delete backup");
   ("created_at", "Created");
   ("type", "Type");
   ("cancel", "Cancel");
   ("copy", "Copy");
   ("delete_backup_warning", "This permanently deletes this backup. The site itself is not changed.");
   ("delete_file_question", "Permanently delete %s?");
   ("workspace", "Workspace");
   ("administrator", "Administrator");
   ("login_title", "Welcome back.");
   ("login_guide", "Sign in to manage your sites.");
   ("password", "Password");
   ("admin_password", "Administrator password");
   ("login", "Log in");
   ("logout", "Log out");
   ("invalid_password", "Invalid password");
   ("private_control", "Private control. Open-source foundation.");
   ("dashboard_title", "Your WordPress workspace");
   ("dashboard_guide", "View sites and resource usage. Choose Manage site to open its tools.");
   ("overview", "Overview");
   ("my_sites", "My sites");
   ("managed_sites", "Managed sites");
   ("hosting_environment", "Hosting environment");
   ("your_server", "Your server");
   ("workspace_access", "Workspace access");
   ("single_administrator", "Single administrator");
   ("manage_site", "Manage site");
   ("add_site", "Add site");
   ("create_site", "Create site");
   ("in_progress", "Working…");
   ("new_title", "Create a WordPress site");
   ("new_guide", "Enter site details and choose resources. Leave the domain blank for a local test.");
   ("new_workspace", "New workspace");
   ("create_description", "A fresh WordPress installation, ready in a few moments.");
   ("domain", "Domain");
   ("site_title", "Site title");
   ("admin_email", "WordPress admin email");
   ("resource_plan", "Resource plan");
   ("small", "Small");
   ("standard", "Standard");
   ("large", "Large");
   ("local_domain_hint", "A blank domain creates a local HTTP site. Public domains need DNS pointing to this server.");
   ("empty_sites_title", "Your first site starts here");
   ("empty_sites_guide", "Create a WordPress site to manage its files, database and backups in one place.");
   ("first_site", "Create your first site");
   ("site_workspace", "Site workspace");
   ("site_title_page", "Manage your site");
   ("site_guide", "Check status and resources, manage email, or choose a tool. Stop pauses the site without deleting data.");
   ("refresh_usage", "Refresh usage");
   ("live_usage", "Live resource usage");
   ("memory", "Memory");
   ("network", "Network");
   ("disk_io", "Disk I/O");
   ("storage", "Storage");
   ("status", "Status");
   ("running", "Running");
   ("stopped", "Stopped");
   ("failed", "Failed");
   ("creating", "Creating");
   ("deleting", "Deleting");
   ("start", "Start");
   ("stop", "Stop");
   ("retry", "Retry");
   ("backups", "Backups");
   ("backup_schedule_title", "Scheduled backups");
   ("backup_schedule_hint", "Create verified backups automatically. Retention removes only older scheduled backups.");
   ("enable_backup_schedule", "Enable scheduled backups");
   ("backup_frequency", "Frequency");
   ("every_6_hours", "Every 6 hours");
   ("every_12_hours", "Every 12 hours");
   ("daily", "Daily");
   ("weekly", "Weekly");
   ("retention_count", "Keep scheduled backups");
   ("retention_hint", "Between 1 and 30 automatic backups. Manual and safety backups are kept separately.");
   ("next_backup", "Next backup");
   ("last_successful_backup", "Last successful backup");
   ("not_scheduled", "Not scheduled");
   ("never", "Never");
   ("save_backup_schedule", "Save backup schedule");
   ("backup_source_scheduled", "Scheduled");
   ("backup_source_manual", "Manual");
   ("backup_source_safety", "Safety");
   ("backups_title", "Backups & recovery");
   ("backups_guide", "Back up before changes. Restoring replaces current files and database; a safety backup is created first.");
   ("backup_now", "Back up now");
   ("restore", "Restore this backup");
   ("available", "Available");
   ("confirm_domain", "Type the domain to confirm");
   ("updates", "Updates");
   ("updates_title", "WordPress updates");
   ("updates_guide", "Update core, plugins and themes together. A verified backup is created first. Keep this page open until completion.");
   ("update_wordpress", "Update WordPress");
   ("database", "Database");
   ("database_title", "Database manager");
   ("database_guide", "Open phpMyAdmin to edit this site's database. Access closes after 15 minutes. Back up before editing.");
   ("open_database", "Open database manager");
   ("files", "Files");
   ("files_title", "File manager");
   ("files_guide", "Manage files inside wp-content. Symbolic links cannot be downloaded, modified or deleted.");
   ("back_to_sites", "Back to your sites");
   ("path", "Path");
   ("parent_directory", "Parent directory");
   ("name", "Name");
   ("size", "Size");
   ("modified", "Modified");
   ("actions", "Actions");
   ("open", "Open");
   ("move", "Move");
   ("destination_folder", "Destination folder");
   ("move_file_hint", "Enter a folder path relative to wp-content. Leave blank to move to its root.");
   ("download", "Download");
   ("delete", "Delete");
   ("confirm_delete", "Confirm delete");
   ("empty_directory", "This directory is empty.");
   ("upload_file", "Upload a file");
   ("select_file", "Select a file");
   ("upload", "Upload · max 10 MB");
   ("create_directory", "Create directory");
   ("directory_name", "Directory name");
   ("create", "Create");
   ("settings", "Settings");
   ("settings_title", "Mail server settings");
   ("settings_guide", "Save your SMTP connection, then enable it from each site's overview.");
   ("smtp_host", "SMTP host");
   ("port", "Port");
   ("encryption", "Encryption");
   ("none", "None");
   ("username", "Username");
   ("from_email", "From email");
   ("sender_name", "Sender name");
   ("keep_password", "Leave blank to keep existing password");
   ("smtp_password", "SMTP password");
   ("password_protected", "The password is encrypted on disk and never sent back to the browser.");
   ("save_mail", "Save mail settings");
   ("send_test", "Send test email");
   ("enabled", "Enabled");
   ("disabled", "Disabled");
   ("enable_smtp", "Enable global SMTP");
   ("disable_smtp", "Disable SMTP");
   ("outgoing_email", "Outgoing email");
   ("site_mail_hint", "Use the encrypted global SMTP configuration for this site.");
   ("start_before_mail", "Start the site before changing mail delivery.");
   ("delete_permanently", "Delete permanently");
   ("delete_warning", "This removes the site, database and all backups. This cannot be undone.");
   ("delete_site", "Delete site and data");
   ("activity", "Activity");
   ("activity_title", "Recent activity");
   ("activity_guide", "Review administrator operations and results. The most recent 20 events are shown.");
   ("events", "Events");
   ("time", "Time");
   ("action", "Action");
   ("site", "Site");
   ("result", "Result");
   ("success", "Success");
   ("activity_empty", "Administrator actions will appear here.");
   ("roadmap", "What's next");
   ("roadmap_title", "On the horizon");
   ("coming_soon", "Coming soon");
   ("roadmap_guide", "These features are planned and are not available yet.");
   ("sftp", "SFTP access");
   ("sftp_hint", "Secure file transfer");
   ("alerts", "Automated alerts");
   ("alerts_hint", "Monitor server health");
   ("image_upgrades", "Image upgrades");
   ("image_upgrades_hint", "Manage container versions");
   ("storage_quotas", "Storage quotas");
   ("storage_quotas_hint", "Usage reporting is live; hard limits are next.");
   ("remote_backups", "Scheduled remote backups");
   ("remote_backups_hint", "Protect data off this server");
   ("customer_accounts", "Customer accounts");
   ("customer_accounts_hint", "Separate customer workspaces");
   ("star_github", "Star on GitHub");
   ("footer", "Built for independent WordPress hosting.")].

Definition messages_ar : table :=
  [("refresh_status", "تحديث حالة الخدمات");
   ("status_checked", "آخر فحص للحالة");
   ("status_unknown", "الحالة غير معروفة");
   ("status_unhealthy", "مشكلة في الخدمة");
   ("status_busy", "العملية قيد التنفيذ");
   ("operation_pending", "لم يتم تأكيد نتيجة العملية بعد. حدّث حالة الخدمات قبل المحاولة مجدداً.");
   ("status_unavailable", "تعذر فحص حالة الخدمات. تحقق من worker وDocker ثم حدّث الحالة.");
   ("status_refreshed", "تم تحديث حالة الخدمات");
   ("language", "اللغة");
   ("collapse_sidebar", "طي الشريط الجانبي");
   ("expand_sidebar", "توسيع الشريط الجانبي");
   ("apply", "تطبيق");
   ("github_help", "إذا أعجبك المشروع، ادعم تطويره بمنحه نجمة.");
   ("delete_backup", "حذف النسخة الاحتياطية");
   ("created_at", "تاريخ الإنشاء");
   ("type", "النوع");
   ("cancel", "إلغاء");
   ("copy", "نسخ");
   ("delete_backup_warning", "سيتم حذف هذه النسخة الاحتياطية نهائيًا. لن يتغير الموقع نفسه.");
   ("delete_file_question", "هل تريد حذف %s نهائيًا؟");
   ("workspace", "مساحة العمل");
   ("administrator", "المسؤول");
   ("login_title", "مرحبًا بعودتك.");
   ("login_guide", "سجّل الدخول لإدارة مواقعك.");
   ("password", "كلمة المرور");
   ("admin_password", "كلمة مرور المسؤول");
   ("login", "تسجيل الدخول");
   ("logout", "تسجيل الخروج");
   ("invalid_password", "كلمة المرور غير صحيحة");
   ("private_control", "تحكم خاص. أساس مفتوح المصدر.");
   ("dashboard_title", "مساحة عمل WordPress الخاصة بك");
   ("dashboard_guide", "اعرض المواقع واستهلاك الموارد. اختر إدارة الموقع لفتح أدواته.");
   ("overview", "نظرة عامة");
   ("my_sites", "مواقعي");
   ("managed_sites", "المواقع المُدارة");
   ("hosting_environment", "بيئة الاستضافة");
   ("your_server", "خادمك");
   ("workspace_access", "الوصول لمساحة العمل");
   ("single_administrator", "مسؤول واحد");
   ("manage_site", "إدارة الموقع");
   ("add_site", "إضافة موقع");
   ("create_site", "إنشاء موقع");
   ("in_progress", "جاري التنفيذ…");
   ("new_title", "إنشاء موقع WordPress");
   ("new_guide", "أدخل تفاصيل الموقع واختر الموارد. اترك النطاق فارغًا للاختبار المحلي.");
   ("new_workspace", "مساحة عمل جديدة");
   ("create_description", "تثبيت WordPress جديد جاهز خلال لحظات.");
   ("domain", "النطاق");
   ("site_title", "عنوان الموقع");
   ("admin_email", "بريد مسؤول WordPress");
   ("resource_plan", "خطة الموارد");
   ("small", "صغير");
   ("standard", "قياسي");
   ("large", "كبير");
   ("local_domain_hint", "النطاق الفارغ ينشئ موقع HTTP محليًا. يجب توجيه DNS للنطاقات العامة إلى هذا الخادم.");
   ("empty_sites_title", "ابدأ موقعك الأول هنا");
   ("empty_sites_guide", "أنشئ موقع WordPress لإدارة ملفاته وقاعدة بياناته ونسخه الاحتياطية في مكان واحد.");
   ("first_site", "أنشئ موقعك الأول");
   ("site_workspace", "مساحة عمل الموقع");
   ("site_title_page", "إدارة موقعك");
   ("site_guide", "تحقق من الحالة والموارد وأدر البريد أو اختر أداة. الإيقاف يوقف الموقع دون حذف البيانات.");
   ("refresh_usage", "تحديث الاستهلاك");
   ("live_usage", "استهلاك الموارد المباشر");
   ("memory", "الذاكرة");
   ("network", "الشبكة");
   ("disk_io", "إدخال وإخراج القرص");
   ("storage", "التخزين");
   ("status", "الحالة");
   ("running", "قيد التشغيل");
   ("stopped", "متوقف");
   ("failed", "فشل");
   ("creating", "جارٍ الإنشاء");
   ("deleting", "جارٍ الحذف");
   ("start", "تشغيل");
   ("stop", "إيقاف");
   ("retry", "إعادة المحاولة");
   ("backups", "النسخ الاحتياطية");
   ("backup_schedule_title", "النسخ الاحتياطية المجدولة");
   ("backup_schedule_hint", "أنشئ نسخًا موثقة تلقائيًا. تحذف سياسة الاحتفاظ النسخ المجدولة القديمة فقط.");
   ("enable_backup_schedule", "تفعيل النسخ المجدولة");
   ("backup_frequency", "التكرار");
   ("every_6_hours", "كل 6 ساعات");
   ("every_12_hours", "كل 12 ساعة");
   ("daily", "يوميًا");
   ("weekly", "أسبوعيًا");
   ("retention_count", "عدد النسخ المجدولة المحفوظة");
   ("retention_hint", "من 1 إلى 30 نسخة تلقائية. تُحفظ النسخ اليدوية ونسخ الأمان بشكل منفصل.");
   ("next_backup", "النسخة التالية");
   ("last_successful_backup", "آخر نسخة ناجحة");
   ("not_scheduled", "غير مجدول");
   ("never", "أبدًا");
   ("save_backup_schedule", "حفظ جدول النسخ");
   ("backup_source_scheduled", "مجدولة");
   ("backup_source_manual", "يدوية");
   ("backup_source_safety", "أمان");
   ("backups_title", "النسخ الاحتياطي والاستعادة");
   ("backups_guide", "أنشئ نسخة قبل التغييرات. الاستعادة تستبدل الملفات وقاعدة البيانات الحالية؛ تُنشأ نسخة أمان أولًا.");
   ("backup_now", "نسخ احتياطي الآن");
   ("restore", "استعادة هذه النسخة");
   ("available", "متاح");
   ("confirm_domain", "اكتب النطاق للتأكيد");
   ("updates", "التحديثات");
   ("updates_title", "تحديثات WordPress");
   ("updates_guide", "حدّث النظام والإضافات والقوالب معًا. تُنشأ نسخة احتياطية متحقق منها أولًا. أبقِ الصفحة مفتوحة حتى الانتهاء.");
   ("update_wordpress", "تحديث WordPress");
   ("database", "قاعدة البيانات");
   ("database_title", "مدير قاعدة البيانات");
   ("database_guide", "افتح phpMyAdmin لتعديل قاعدة بيانات الموقع. يُغلق الوصول بعد 15 دقيقة. أنشئ نسخة قبل التعديل.");
   ("open_database", "فتح مدير قاعدة البيانات");
   ("files", "الملفات");
   ("files_title", "مدير الملفات");
   ("files_guide", "أدر الملفات داخل wp-content. لا يمكن تنزيل الروابط الرمزية أو تعديلها أو حذفها.");
   ("back_to_sites", "العودة للمواقع");
   ("path", "المسار");
   ("parent_directory", "المجلد الأب");
   ("name", "الاسم");
   ("size", "الحجم");
   ("modified", "آخر تعديل");
   ("actions", "الإجراءات");
   ("open", "فتح");
   ("move", "نقل");
   ("destination_folder", "المجلد الوجهة");
   ("move_file_hint", "أدخل مسار مجلد نسبةً إلى wp-content. اتركه فارغًا للنقل إلى الجذر.");
   ("download", "تنزيل");
   ("delete", "حذف");
   ("confirm_delete", "تأكيد الحذف");
   ("empty_directory", "هذا المجلد فارغ.");
   ("upload_file", "رفع ملف");
   ("select_file", "اختر ملفًا");
   ("upload", "رفع · الحد الأقصى 10 MB");
   ("create_directory", "إنشاء مجلد");
   ("directory_name", "اسم المجلد");
   ("create", "إنشاء");
   ("settings", "الإعدادات");
   ("settings_title", "إعدادات خادم البريد");
   ("settings_guide", "احفظ اتصال SMTP ثم فعّله من نظرة عامة لكل موقع.");
   ("smtp_host", "مضيف SMTP");
   ("port", "المنفذ");
   ("encryption", "التشفير");
   ("none", "بدون");
   ("username", "اسم المستخدم");
   ("from_email", "بريد المرسل");
   ("sender_name", "اسم المرسل");
   ("keep_password", "اتركه فارغًا للاحتفاظ بكلمة المرور الحالية");
   ("smtp_password", "كلمة مرور SMTP");
   ("password_protected", "كلمة المرور مشفرة على القرص ولا تُرسل إلى المتصفح.");
   ("save_mail", "حفظ إعدادات البريد");
   ("send_test", "إرسال بريد تجريبي");
   ("enabled", "مفعّل");
   ("disabled", "معطّل");
   ("enable_smtp", "تفعيل SMTP العام");
   ("disable_smtp", "تعطيل SMTP");
   ("outgoing_email", "البريد الصادر");
   ("site_mail_hint", "استخدم إعدادات SMTP العامة المشفرة لهذا الموقع.");
   ("start_before_mail", "شغّل الموقع قبل تغيير تسليم البريد.");
   ("delete_permanently", "حذف نهائي");
   ("delete_warning", "يُحذف الموقع وقاعدة البيانات وكل النسخ الاحتياطية. لا يمكن التراجع.");
   ("delete_site", "حذف الموقع والبيانات");
   ("activity", "النشاط");
   ("activity_title", "النشاط الأخير");
   ("activity_guide", "راجع عمليات المسؤول ونتائجها. تُعرض آخر 20 واقعة.");
   ("events", "الوقائع");
   ("time", "الوقت");
   ("action", "الإجراء");
   ("site", "الموقع");
   ("result", "النتيجة");
   ("success", "نجاح");
   ("activity_empty", "ستظهر إجراءات المسؤول هنا.");
   ("roadmap", "ما القادم");
   ("roadmap_title", "في الأفق");
   ("coming_soon", "قريبًا");
   ("roadmap_guide", "هذه الميزات مخططة وغير متاحة بعد.");
   ("sftp", "وصول SFTP");
   ("sftp_hint", "نقل ملفات آمن");
   ("alerts", "تنبيهات تلقائية");
   ("alerts_hint", "مراقبة صحة الخادم");
   ("image_upgrades", "ترقيات الصور");
   ("image_upgrades_hint", "إدارة إصدارات الحاويات");
   ("storage_quotas", "حصص التخزين");
   ("storage_quotas_hint", "تقارير الاستخدام متاحة؛ الحدود الصارمة قادمة.");
   ("remote_backups", "نسخ بعيدة مجدولة");
   ("remote_backups_hint", "حماية البيانات خارج هذا الخادم");
   ("customer_accounts", "حسابات العملاء");
   ("customer_accounts_hint", "مساحات عمل منفصلة للعملاء");
   ("star_github", "أضف نجمة على GitHub");
   ("footer", "مصمم لاستضافة WordPress المستقلة.")].

Definition messages_fa : table :=
  [("refresh_status", "تازه‌سازی وضعیت سرویس‌ها");
   ("status_checked", "آخرین بررسی وضعیت");
   ("status_unknown", "وضعیت نامشخص");
   ("status_unhealthy", "اختلال سرویس");
   ("status_busy", "عملیات در جریان");
   ("operation_pending", "نتیجهٔ عملیات هنوز تأیید نشده است. پیش از تلاش مجدد وضعیت سرویس‌ها را تازه‌سازی کنید.");
   ("status_unavailable", "بررسی وضعیت سرویس‌ها ممکن نشد. worker و داکر را بررسی و سپس وضعیت را تازه‌سازی کنید.");
   ("status_refreshed", "وضعیت سرویس‌ها تازه‌سازی شد");
   ("language", "زبان");
   ("collapse_sidebar", "بستن نوار کناری");
   ("expand_sidebar", "باز کردن نوار کناری");
   ("apply", "اعمال");
   ("github_help", "اگر این پروژه را دوست دارید، با ستاره دادن از توسعهٔ آن حمایت کنید.");
   ("delete_backup", "حذف نسخهٔ پشتیبان");
   ("created_at", "زمان ایجاد");
   ("type", "نوع");
   ("cancel", "انصراف");
   ("copy", "کپی");
   ("delete_backup_warning", "این نسخهٔ پشتیبان برای همیشه حذف می‌شود. خود سایت تغییری نمی‌کند.");
   ("delete_file_question", "فایل %s برای همیشه حذف شود؟");
   ("workspace", "فضای کاری");
   ("administrator", "مدیر");
   ("login_title", "خوش آمدید.");
   ("login_guide", "برای مدیریت سایت‌ها وارد شوید.");
   ("password", "رمز عبور");
   ("admin_password", "رمز عبور مدیر");
   ("login", "ورود");
   ("logout", "خروج");
   ("invalid_password", "رمز عبور نادرست است");
   ("private_control", "کنترل شخصی، پایهٔ متن‌باز.");
   ("dashboard_title", "فضای کاری وردپرس شما");
   ("dashboard_guide", "سایت‌ها و مصرف منابع را ببینید. برای دسترسی به ابزارها، مدیریت سایت را انتخاب کنید.");
   ("overview", "نمای کلی");
   ("my_sites", "سایت‌های من");
   ("managed_sites", "سایت‌های مدیریت‌شده");
   ("hosting_environment", "محیط میزبانی");
   ("your_server", "سرور شما");
   ("workspace_access", "دسترسی فضای کاری");
   ("single_administrator", "یک مدیر");
   ("manage_site", "مدیریت سایت");
   ("add_site", "افزودن سایت");
   ("create_site", "ساخت سایت");
   ("in_progress", "در حال انجام…");
   ("new_title", "ساخت سایت وردپرسی");
   ("new_guide", "مشخصات سایت و منابع را وارد کنید. برای آزمایش محلی، دامنه را خالی بگذارید.");
   ("new_workspace", "فضای کاری جدید");
   ("create_description", "نصب تازهٔ وردپرس، آماده در چند لحظه.");
   ("domain", "دامنه");
   ("site_title", "عنوان سایت");
   ("admin_email", "ایمیل مدیر وردپرس");
   ("resource_plan", "پلن منابع");
   ("small", "کوچک");
   ("standard", "استاندارد");
   ("large", "بزرگ");
   ("local_domain_hint", "دامنهٔ خالی یک سایت HTTP محلی می‌سازد. DNS دامنهٔ عمومی باید به این سرور اشاره کند.");
   ("empty_sites_title", "اولین سایت شما از اینجا شروع می‌شود");
   ("empty_sites_guide", "سایت وردپرسی بسازید تا فایل‌ها، دیتابیس و بکاپ آن را یک‌جا مدیریت کنید.");
   ("first_site", "اولین سایت را بسازید");
   ("site_workspace", "فضای کاری سایت");
   ("site_title_page", "مدیریت سایت شما");
   ("site_guide", "وضعیت و منابع را بررسی کنید، ایمیل را مدیریت کنید یا ابزار انتخاب کنید. توقف، داده‌ها را حذف نمی‌کند.");
   ("refresh_usage", "تازه‌سازی مصرف منابع");
   ("live_usage", "مصرف زندهٔ منابع");
   ("memory", "حافظه");
   ("network", "شبکه");
   ("disk_io", "ورودی و خروجی دیسک");
   ("storage", "فضای ذخیره‌سازی");
   ("status", "وضعیت");
   ("running", "در حال اجرا");
   ("stopped", "متوقف");
   ("failed", "ناموفق");
   ("creating", "در حال ساخت");
   ("deleting", "در حال حذف");
   ("start", "شروع");
   ("stop", "توقف");
   ("retry", "تلاش مجدد");
   ("backups", "بکاپ‌ها");
   ("backup_schedule_title", "بکاپ‌های زمان‌بندی‌شده");
   ("backup_schedule_hint", "بکاپ‌های تأییدشده به‌صورت خودکار ساخته می‌شوند. retention فقط بکاپ‌های زمان‌بندی‌شدهٔ قدیمی را حذف می‌کند.");
   ("enable_backup_schedule", "فعال‌سازی بکاپ زمان‌بندی‌شده");
   ("backup_frequency", "تناوب");
   ("every_6_hours", "هر ۶ ساعت");
   ("every_12_hours", "هر ۱۲ ساعت");
   ("daily", "روزانه");
   ("weekly", "هفتگی");
   ("retention_count", "تعداد بکاپ‌های زمان‌بندی‌شده");
   ("retention_hint", "بین ۱ تا ۳۰ بکاپ خودکار. بکاپ‌های دستی و ایمنی جداگانه نگهداری می‌شوند.");
   ("next_backup", "بکاپ بعدی");
   ("last_successful_backup", "آخرین بکاپ موفق");
   ("not_scheduled", "زمان‌بندی نشده");
   ("never", "هرگز");
   ("save_backup_schedule", "ذخیرهٔ زمان‌بندی بکاپ");
   ("backup_source_scheduled", "زمان‌بندی‌شده");
   ("backup_source_manual", "دستی");
   ("backup_source_safety", "ایمنی");
   ("backups_title", "بکاپ و بازیابی");
   ("backups_guide", "پیش از تغییرات بکاپ بگیرید. بازیابی فایل‌ها و دیتابیس فعلی را جایگزین می‌کند؛ ابتدا بکاپ ایمنی ساخته می‌شود.");
   ("backup_now", "بکاپ اکنون");
   ("restore", "بازیابی این بکاپ");
   ("available", "موجود");
   ("confirm_domain", "برای تأیید دامنه را وارد کنید");
   ("updates", "به‌روزرسانی‌ها");
   ("updates_title", "به‌روزرسانی وردپرس");
   ("updates_guide", "هسته، افزونه‌ها و قالب‌ها را با هم به‌روز کنید. ابتدا بکاپ تأییدشده ساخته می‌شود. صفحه را تا پایان باز نگه دارید.");
   ("update_wordpress", "به‌روزرسانی وردپرس");
   ("database", "دیتابیس");
   ("database_title", "مدیریت دیتابیس");
   ("database_guide", "برای ویرایش دیتابیس phpMyAdmin را باز کنید. دسترسی پس از ۱۵ دقیقه بسته می‌شود. پیش از ویرایش بکاپ بگیرید.");
   ("open_database", "بازکردن مدیریت دیتابیس");
   ("files", "فایل‌ها");
   ("files_title", "مدیریت فایل");
   ("files_guide", "فایل‌های wp-content را مدیریت کنید. لینک‌های نمادین قابل دانلود، تغییر یا حذف نیستند.");
   ("back_to_sites", "بازگشت به سایت‌ها");
   ("path", "مسیر");
   ("parent_directory", "پوشهٔ بالاتر");
   ("name", "نام");
   ("size", "اندازه");
   ("modified", "آخرین تغییر");
   ("actions", "عملیات");
   ("open", "باز کردن");
   ("move", "انتقال");
   ("destination_folder", "پوشهٔ مقصد");
   ("move_file_hint", "مسیر پوشه را نسبت به wp-content وارد کنید. برای انتقال به ریشه خالی بگذارید.");
   ("download", "دانلود");
   ("delete", "حذف");
   ("confirm_delete", "تأیید حذف");
   ("empty_directory", "این پوشه خالی است.");
   ("upload_file", "آپلود فایل");
   ("select_file", "انتخاب فایل");
   ("upload", "آپلود · حداکثر ۱۰ مگابایت");
   ("create_directory", "ساخت پوشه");
   ("directory_name", "نام پوشه");
   ("create", "ساخت");
   ("settings", "تنظیمات");
   ("settings_title", "تنظیمات سرور ایمیل");
   ("settings_guide", "اتصال SMTP را ذخیره کنید، سپس در نمای کلی هر سایت فعالش کنید.");
   ("smtp_host", "میزبان SMTP");
   ("port", "پورت");
   ("encryption", "رمزگذاری");
   ("none", "هیچ‌کدام");
   ("username", "نام کاربری");
   ("from_email", "ایمیل فرستنده");
   ("sender_name", "نام فرستنده");
   ("keep_password", "برای حفظ رمز فعلی خالی بگذارید");
   ("smtp_password", "رمز عبور SMTP");
   ("password_protected", "رمز روی دیسک رمزگذاری شده و هرگز به مرورگر بازگردانده نمی‌شود.");
   ("save_mail", "ذخیرهٔ تنظیمات ایمیل");
   ("send_test", "ارسال ایمیل آزمایشی");
   ("enabled", "فعال");
   ("disabled", "غیرفعال");
   ("enable_smtp", "فعال‌سازی SMTP سراسری");
   ("disable_smtp", "غیرفعال‌سازی SMTP");
   ("outgoing_email", "ایمیل خروجی");
   ("site_mail_hint", "از تنظیمات رمزگذاری‌شدهٔ SMTP سراسری برای این سایت استفاده کنید.");
   ("start_before_mail", "پیش از تغییر ارسال ایمیل، سایت را روشن کنید.");
   ("delete_permanently", "حذف دائمی");
   ("delete_warning", "سایت، دیتابیس و تمام بکاپ‌ها حذف می‌شوند. این کار برگشت‌پذیر نیست.");
   ("delete_site", "حذف سایت و داده‌ها");
   ("activity", "رخدادها");
   ("activity_title", "رخدادهای اخیر");
   ("activity_guide", "عملیات مدیر و نتایج را مرور کنید. ۲۰ رخداد اخیر نمایش داده می‌شود.");
   ("events", "رخداد");
   ("time", "زمان");
   ("action", "عملیات");
   ("site", "سایت");
   ("result", "نتیجه");
   ("success", "موفق");
   ("activity_empty", "عملیات مدیر اینجا نمایش داده می‌شود.");
   ("roadmap", "برنامهٔ آینده");
   ("roadmap_title", "در راه");
   ("coming_soon", "به‌زودی");
   ("roadmap_guide", "این قابلیت‌ها برنامه‌ریزی شده‌اند و هنوز در دسترس نیستند.");
   ("sftp", "دسترسی SFTP");
   ("sftp_hint", "انتقال امن فایل");
   ("alerts", "هشدارهای خودکار");
   ("alerts_hint", "پایش سلامت سرور");
   ("image_upgrades", "ارتقای ایمیج‌ها");
   ("image_upgrades_hint", "مدیریت نسخهٔ کانتینرها");
   ("storage_quotas", "سهمیهٔ فضای ذخیره‌سازی");
   ("storage_quotas_hint", "گزارش مصرف فعال است؛ محدودیت سخت در راه است.");
   ("remote_backups", "بکاپ زمان‌بندی‌شدهٔ خارجی");
   ("remote_backups_hint", "محافظت از داده خارج از سرور");
   ("customer_accounts", "حساب مشتریان");
   ("customer_accounts_hint", "فضای کاری مجزای مشتریان");
   ("star_github", "در GitHub ستاره بدهید");
   ("footer", "ساخته‌شده برای میزبانی مستقل وردپرس.")].

Definition messages_es : table :=
  [("refresh_status", "Actualizar estado de servicios");
   ("status_checked", "Última comprobación");
   ("status_unknown", "Estado desconocido");
   ("status_unhealthy", "Problema de servicio");
   ("status_busy", "Operación en curso");
   ("operation_pending", "El resultado aún no está confirmado. Actualiza el estado antes de intentarlo de nuevo.");
   ("status_unavailable", "No se pudo comprobar el estado. Revisa el worker y Docker y actualiza.");
   ("status_refreshed", "Estado actualizado");
   ("language", "Idioma");
   ("collapse_sidebar", "Contraer barra lateral");
   ("expand_sidebar", "Expandir barra lateral");
   ("apply", "Aplicar");
   ("github_help", "Si te gusta el proyecto, apoya su desarrollo con una estrella.");
   ("delete_backup", "Eliminar copia");
   ("created_at", "Creada");
   ("type", "Tipo");
   ("cancel", "Cancelar");
   ("copy", "Copiar");
   ("delete_backup_warning", "Esta copia se eliminará permanentemente. El sitio no cambiará.");
   ("delete_file_question", "¿Eliminar %s permanentemente?");
   ("workspace", "Espacio de trabajo");
   ("administrator", "Administrador");
   ("login_title", "Te damos la bienvenida.");
   ("login_guide", "Inicia sesión para gestionar tus sitios.");
   ("password", "Contraseña");
   ("admin_password", "Contraseña del administrador");
   ("login", "Iniciar sesión");
   ("logout", "Cerrar sesión");
   ("invalid_password", "Contraseña incorrecta");
   ("private_control", "Control privado. Base de código abierto.");
   ("dashboard_title", "Tu espacio de WordPress");
   ("dashboard_guide", "Consulta sitios y recursos. Selecciona Gestionar sitio para abrir sus herramientas.");
   ("overview", "Resumen");
   ("my_sites", "Mis sitios");
   ("managed_sites", "Sitios gestionados");
   ("hosting_environment", "Entorno de alojamiento");
   ("your_server", "Tu servidor");
   ("workspace_access", "Acceso al espacio");
   ("single_administrator", "Un administrador");
   ("manage_site", "Gestionar sitio");
   ("add_site", "Añadir sitio");
   ("create_site", "Crear sitio");
   ("in_progress", "Procesando…");
   ("new_title", "Crear un sitio WordPress");
   ("new_guide", "Introduce los datos y elige recursos. Deja el dominio vacío para una prueba local.");
   ("new_workspace", "Nuevo espacio");
   ("create_description", "Una instalación de WordPress lista en unos instantes.");
   ("domain", "Dominio");
   ("site_title", "Título del sitio");
   ("admin_email", "Correo del administrador WordPress");
   ("resource_plan", "Plan de recursos");
   ("small", "Pequeño");
   ("standard", "Estándar");
   ("large", "Grande");
   ("local_domain_hint", "Un dominio vacío crea un sitio HTTP local. Los dominios públicos deben apuntar a este servidor.");
   ("empty_sites_title", "Tu primer sitio empieza aquí");
   ("empty_sites_guide", "Crea un sitio WordPress para gestionar archivos, base de datos y copias en un lugar.");
   ("first_site", "Crea tu primer sitio");
   ("site_workspace", "Espacio del sitio");
   ("site_title_page", "Gestiona tu sitio");
   ("site_guide", "Revisa estado y recursos, gestiona correo o elige una herramienta. Detener conserva los datos.");
   ("refresh_usage", "Actualizar uso");
   ("live_usage", "Uso de recursos en vivo");
   ("memory", "Memoria");
   ("network", "Red");
   ("disk_io", "E/S de disco");
   ("storage", "Almacenamiento");
   ("status", "Estado");
   ("running", "En ejecución");
   ("stopped", "Detenido");
   ("failed", "Fallido");
   ("creating", "Creando");
   ("deleting", "Eliminando");
   ("start", "Iniciar");
   ("stop", "Detener");
   ("retry", "Reintentar");
   ("backups", "Copias de seguridad");
   ("backup_schedule_title", "Copias programadas");
   ("backup_schedule_hint", "Crea copias verificadas automáticamente. La retención elimina solo copias programadas antiguas.");
   ("enable_backup_schedule", "Activar copias programadas");
   ("backup_frequency", "Frecuencia");
   ("every_6_hours", "Cada 6 horas");
   ("every_12_hours", "Cada 12 horas");
   ("daily", "Diaria");
   ("weekly", "Semanal");
   ("retention_count", "Copias programadas conservadas");
   ("retention_hint", "Entre 1 y 30 copias automáticas. Las copias manuales y de seguridad se conservan aparte.");
   ("next_backup", "Próxima copia");
   ("last_successful_backup", "Última copia correcta");
   ("not_scheduled", "Sin programar");
   ("never", "Nunca");
   ("save_backup_schedule", "Guardar programación");
   ("backup_source_scheduled", "Programada");
   ("backup_source_manual", "Manual");
   ("backup_source_safety", "Seguridad");
   ("backups_title", "Copias y recuperación");
   ("backups_guide", "Crea una copia antes de cambiar datos. Restaurar reemplaza archivos y base de datos; primero se crea una copia de seguridad.");
   ("backup_now", "Crear copia ahora");
   ("restore", "Restaurar esta copia");
   ("available", "Disponible");
   ("confirm_domain", "Escribe el dominio para confirmar");
   ("updates", "Actualizaciones");
   ("updates_title", "Actualizaciones WordPress");
   ("updates_guide", "Actualiza núcleo, plugins y temas juntos. Primero se crea una copia verificada. Mantén la página abierta hasta terminar.");
   ("update_wordpress", "Actualizar WordPress");
   ("database", "Base de datos");
   ("database_title", "Gestor de base de datos");
   ("database_guide", "Abre phpMyAdmin para editar la base de datos. El acceso termina en 15 minutos. Haz una copia antes.");
   ("open_database", "Abrir gestor de base de datos");
   ("files", "Archivos");
   ("files_title", "Gestor de archivos");
   ("files_guide", "Gestiona archivos de wp-content. Los enlaces simbólicos no se pueden descargar, modificar ni eliminar.");
   ("back_to_sites", "Volver a tus sitios");
   ("path", "Ruta");
   ("parent_directory", "Directorio superior");
   ("name", "Nombre");
   ("size", "Tamaño");
   ("modified", "Modificado");
   ("actions", "Acciones");
   ("open", "Abrir");
   ("move", "Mover");
   ("destination_folder", "Carpeta de destino");
   ("move_file_hint", "Introduce una ruta relativa a wp-content. Déjala vacía para mover a la raíz.");
   ("download", "Descargar");
   ("delete", "Eliminar");
   ("confirm_delete", "Confirmar eliminación");
   ("empty_directory", "Este directorio está vacío.");
   ("upload_file", "Subir un archivo");
   ("select_file", "Seleccionar archivo");
   ("upload", "Subir · máx. 10 MB");
   ("create_directory", "Crear directorio");
   ("directory_name", "Nombre del directorio");
   ("create", "Crear");
   ("settings", "Ajustes");
   ("settings_title", "Ajustes del servidor de correo");
   ("settings_guide", "Guarda la conexión SMTP y actívala en el resumen de cada sitio.");
   ("smtp_host", "Servidor SMTP");
   ("port", "Puerto");
   ("encryption", "Cifrado");
   ("none", "Ninguno");
   ("username", "Usuario");
   ("from_email", "Correo del remitente");
   ("sender_name", "Nombre del remitente");
   ("keep_password", "Déjalo vacío para conservar la contraseña");
   ("smtp_password", "Contraseña SMTP");
   ("password_protected", "La contraseña se cifra en disco y nunca se devuelve al navegador.");
   ("save_mail", "Guardar ajustes de correo");
   ("send_test", "Enviar correo de prueba");
   ("enabled", "Activado");
   ("disabled", "Desactivado");
   ("enable_smtp", "Activar SMTP global");
   ("disable_smtp", "Desactivar SMTP");
   ("outgoing_email", "Correo saliente");
   ("site_mail_hint", "Usa la configuración SMTP global cifrada para este sitio.");
   ("start_before_mail", "Inicia el sitio antes de cambiar el envío de correo.");
   ("delete_permanently", "Eliminar definitivamente");
   ("delete_warning", "Se eliminarán el sitio, la base de datos y todas las copias. No se puede deshacer.");
   ("delete_site", "Eliminar sitio y datos");
   ("activity", "Actividad");
   ("activity_title", "Actividad reciente");
   ("activity_guide", "Revisa operaciones y resultados. Se muestran los últimos 20 eventos.");
   ("events", "Eventos");
   ("time", "Hora");
   ("action", "Acción");
   ("site", "Sitio");
   ("result", "Resultado");
   ("success", "Correcto");
   ("activity_empty", "Las acciones del administrador aparecerán aquí.");
   ("roadmap", "Próximamente");
   ("roadmap_title", "En el horizonte");
   ("coming_soon", "Próximamente");
   ("roadmap_guide", "Estas funciones están previstas y aún no están disponibles.");
   ("sftp", "Acceso SFTP");
   ("sftp_hint", "Transferencia segura de archivos");
   ("alerts", "Alertas automáticas");
   ("alerts_hint", "Supervisar el servidor");
   ("image_upgrades", "Actualizaciones de imágenes");
   ("image_upgrades_hint", "Gestionar versiones de contenedores");
   ("storage_quotas", "Cuotas de almacenamiento");
   ("storage_quotas_hint", "El informe de uso está activo; los límites llegarán después.");
   ("remote_backups", "Copias remotas programadas");
   ("remote_backups_hint", "Proteger datos fuera del servidor");
   ("customer_accounts", "Cuentas de clientes");
   ("customer_accounts_hint", "Espacios separados para clientes");
   ("star_github", "Dar estrella en GitHub");
   ("footer", "Hecho para alojamiento WordPress independiente.")].

Definition messages_de : table :=
  [("refresh_status", "Dienststatus aktualisieren");
   ("status_checked", "Letzte Statusprüfung");
   ("status_unknown", "Status unbekannt");
   ("status_unhealthy", "Dienstproblem");
   ("status_busy", "Vorgang läuft");
   ("operation_pending", "Das Ergebnis ist noch nicht bestätigt. Aktualisiere den Status vor einem neuen Versuch.");
   ("status_unavailable", "Der Status konnte nicht geprüft werden. Prüfe Worker und Docker und aktualisiere.");
   ("status_refreshed", "Dienststatus aktualisiert");
   ("language", "Sprache");
   ("collapse_sidebar", "Seitenleiste einklappen");
   ("expand_sidebar", "Seitenleiste ausklappen");
   ("apply", "Anwenden");
   ("github_help", "Gefällt dir das Projekt? Unterstütze die Entwicklung mit einem Stern.");
   ("delete_backup", "Backup löschen");
   ("created_at", "Erstellt");
   ("type", "Typ");
   ("cancel", "Abbrechen");
   ("copy", "Kopieren");
   ("delete_backup_warning", "Dieses Backup wird dauerhaft gelöscht. Die Website selbst bleibt unverändert.");
   ("delete_file_question", "%s dauerhaft löschen?");
   ("workspace", "Arbeitsbereich");
   ("administrator", "Administrator");
   ("login_title", "Willkommen zurück.");
   ("login_guide", "Melde dich an, um deine Websites zu verwalten.");
   ("password", "Passwort");
   ("admin_password", "Administratorpasswort");
   ("login", "Anmelden");
   ("logout", "Abmelden");
   ("invalid_password", "Ungültiges Passwort");
   ("private_control", "Private Kontrolle. Open-Source-Basis.");
   ("dashboard_title", "Dein WordPress-Arbeitsbereich");
   ("dashboard_guide", "Sieh Websites und Ressourcenverbrauch an. Öffne die Werkzeuge über Website verwalten.");
   ("overview", "Übersicht");
   ("my_sites", "Meine Websites");
   ("managed_sites", "Verwaltete Websites");
   ("hosting_environment", "Hosting-Umgebung");
   ("your_server", "Dein Server");
   ("workspace_access", "Arbeitsbereichszugriff");
   ("single_administrator", "Ein Administrator");
   ("manage_site", "Website verwalten");
   ("add_site", "Website hinzufügen");
   ("create_site", "Website erstellen");
   ("in_progress", "Wird ausgeführt…");
   ("new_title", "WordPress-Website erstellen");
   ("new_guide", "Gib die Daten ein und wähle Ressourcen. Für einen lokalen Test bleibt die Domain leer.");
   ("new_workspace", "Neuer Arbeitsbereich");
   ("create_description", "Eine neue WordPress-Installation, in wenigen Augenblicken bereit.");
   ("domain", "Domain");
   ("site_title", "Website-Titel");
   ("admin_email", "WordPress-Administrator-E-Mail");
   ("resource_plan", "Ressourcenpaket");
   ("small", "Klein");
   ("standard", "Standard");
   ("large", "Groß");
   ("local_domain_hint", "Eine leere Domain erstellt eine lokale HTTP-Website. Öffentliche Domains müssen per DNS auf diesen Server zeigen.");
   ("empty_sites_title", "Deine erste Website beginnt hier");
   ("empty_sites_guide", "Erstelle eine WordPress-Website und verwalte Dateien, Datenbank und Backups an einem Ort.");
   ("first_site", "Erste Website erstellen");
   ("site_workspace", "Website-Arbeitsbereich");
   ("site_title_page", "Website verwalten");
   ("site_guide", "Prüfe Status und Ressourcen, verwalte E-Mail oder wähle ein Werkzeug. Stoppen löscht keine Daten.");
   ("refresh_usage", "Verbrauch aktualisieren");
   ("live_usage", "Aktueller Ressourcenverbrauch");
   ("memory", "Arbeitsspeicher");
   ("network", "Netzwerk");
   ("disk_io", "Datenträger-E/A");
   ("storage", "Speicherplatz");
   ("status", "Status");
   ("running", "Aktiv");
   ("stopped", "Gestoppt");
   ("failed", "Fehlgeschlagen");
   ("creating", "Wird erstellt");
   ("deleting", "Wird gelöscht");
   ("start", "Starten");
   ("stop", "Stoppen");
   ("retry", "Erneut versuchen");
   ("backups", "Backups");
   ("backup_schedule_title", "Geplante Backups");
   ("backup_schedule_hint", "Erstellt automatisch geprüfte Backups. Die Aufbewahrung löscht nur ältere geplante Backups.");
   ("enable_backup_schedule", "Geplante Backups aktivieren");
   ("backup_frequency", "Häufigkeit");
   ("every_6_hours", "Alle 6 Stunden");
   ("every_12_hours", "Alle 12 Stunden");
   ("daily", "Täglich");
   ("weekly", "Wöchentlich");
   ("retention_count", "Geplante Backups behalten");
   ("retention_hint", "Zwischen 1 und 30 automatische Backups. Manuelle und Sicherheitsbackups bleiben separat erhalten.");
   ("next_backup", "Nächstes Backup");
   ("last_successful_backup", "Letztes erfolgreiches Backup");
   ("not_scheduled", "Nicht geplant");
   ("never", "Nie");
   ("save_backup_schedule", "Backup-Zeitplan speichern");
   ("backup_source_scheduled", "Geplant");
   ("backup_source_manual", "Manuell");
   ("backup_source_safety", "Sicherheit");
   ("backups_title", "Backups und Wiederherstellung");
   ("backups_guide", "Sichere vor Änderungen. Wiederherstellen ersetzt Dateien und Datenbank; vorher wird ein Sicherheitsbackup erstellt.");
   ("backup_now", "Jetzt sichern");
   ("restore", "Dieses Backup wiederherstellen");
   ("available", "Verfügbar");
   ("confirm_domain", "Domain zur Bestätigung eingeben");
   ("updates", "Updates");
   ("updates_title", "WordPress-Updates");
   ("updates_guide", "Aktualisiere Kern, Plugins und Themes gemeinsam. Zuerst wird ein geprüftes Backup erstellt. Lass die Seite bis zum Abschluss geöffnet.");
   ("update_wordpress", "WordPress aktualisieren");
   ("database", "Datenbank");
   ("database_title", "Datenbankverwaltung");
   ("database_guide", "Öffne phpMyAdmin zum Bearbeiten der Datenbank. Der Zugriff endet nach 15 Minuten. Sichere vor Änderungen.");
   ("open_database", "Datenbankverwaltung öffnen");
   ("files", "Dateien");
   ("files_title", "Dateiverwaltung");
   ("files_guide", "Verwalte Dateien in wp-content. Symbolische Links können nicht heruntergeladen, geändert oder gelöscht werden.");
   ("back_to_sites", "Zurück zu den Websites");
   ("path", "Pfad");
   ("parent_directory", "Übergeordnetes Verzeichnis");
   ("name", "Name");
   ("size", "Größe");
   ("modified", "Geändert");
   ("actions", "Aktionen");
   ("open", "Öffnen");
   ("move", "Verschieben");
   ("destination_folder", "Zielordner");
   ("move_file_hint", "Gib einen Pfad relativ zu wp-content ein. Leer lassen, um in das Stammverzeichnis zu verschieben.");
   ("download", "Herunterladen");
   ("delete", "Löschen");
   ("confirm_delete", "Löschen bestätigen");
   ("empty_directory", "Dieses Verzeichnis ist leer.");
   ("upload_file", "Datei hochladen");
   ("select_file", "Datei auswählen");
   ("upload", "Hochladen · max. 10 MB");
   ("create_directory", "Verzeichnis erstellen");
   ("directory_name", "Verzeichnisname");
   ("create", "Erstellen");
   ("settings", "Einstellungen");
   ("settings_title", "Mailserver-Einstellungen");
   ("settings_guide", "Speichere die SMTP-Verbindung und aktiviere sie in der Übersicht jeder Website.");
   ("smtp_host", "SMTP-Host");
   ("port", "Port");
   ("encryption", "Verschlüsselung");
   ("none", "Keine");
   ("username", "Benutzername");
   ("from_email", "Absender-E-Mail");
   ("sender_name", "Absendername");
   ("keep_password", "Leer lassen, um das Passwort beizubehalten");
   ("smtp_password", "SMTP-Passwort");
   ("password_protected", "Das Passwort wird auf dem Datenträger verschlüsselt und nie an den Browser zurückgesendet.");
   ("save_mail", "Mail-Einstellungen speichern");
   ("send_test", "Test-E-Mail senden");
   ("enabled", "Aktiviert");
   ("disabled", "Deaktiviert");
   ("enable_smtp", "Globales SMTP aktivieren");
   ("disable_smtp", "SMTP deaktivieren");
   ("outgoing_email", "Ausgehende E-Mail");
   ("site_mail_hint", "Verwende die verschlüsselte globale SMTP-Konfiguration für diese Website.");
   ("start_before_mail", "Starte die Website vor Änderungen am Mailversand.");
   ("delete_permanently", "Dauerhaft löschen");
   ("delete_warning", "Website, Datenbank und alle Backups werden gelöscht. Dies kann nicht rückgängig gemacht werden.");
   ("delete_site", "Website und Daten löschen");
   ("activity", "Aktivität");
   ("activity_title", "Letzte Aktivitäten");
   ("activity_guide", "Prüfe Administratoraktionen und Ergebnisse. Die letzten 20 Ereignisse werden angezeigt.");
   ("events", "Ereignisse");
   ("time", "Zeit");
   ("action", "Aktion");
   ("site", "Website");
   ("result", "Ergebnis");
   ("success", "Erfolgreich");
   ("activity_empty", "Administratoraktionen erscheinen hier.");
   ("roadmap", "Was kommt als Nächstes");
   ("roadmap_title", "In Planung");
   ("coming_soon", "Demnächst");
   ("roadmap_guide", "Diese Funktionen sind geplant und noch nicht verfügbar.");
   ("sftp", "SFTP-Zugriff");
   ("sftp_hint", "Sichere Dateiübertragung");
   ("alerts", "Automatische Warnungen");
   ("alerts_hint", "Serverzustand überwachen");
   ("image_upgrades", "Image-Upgrades");
   ("image_upgrades_hint", "Containerversionen verwalten");
   ("storage_quotas", "Speicherquoten");
   ("storage_quotas_hint", "Verbrauchsberichte sind verfügbar; feste Grenzen folgen.");
   ("remote_backups", "Geplante externe Backups");
   ("remote_backups_hint", "Daten außerhalb dieses Servers schützen");
   ("customer_accounts", "Kundenkonten");
   ("customer_accounts_hint", "Getrennte Kundenarbeitsbereiche");
   ("star_github", "Auf GitHub mit Stern markieren");
   ("footer", "Für unabhängiges WordPress-Hosting entwickelt.")].

Definition messages_fr : table :=
  [("refresh_status", "Actualiser les services");
   ("status_checked", "Dernière vérification");
   ("status_unknown", "État inconnu");
   ("status_unhealthy", "Problème de service");
   ("status_busy", "Opération en cours");
   ("operation_pending", "Le résultat reste à confirmer. Actualisez les services avant de réessayer.");
   ("status_unavailable", "Impossible de vérifier les services. Vérifiez le worker et Docker puis actualisez.");
   ("status_refreshed", "État des services actualisé");
   ("language", "Langue");
   ("collapse_sidebar", "Réduire la barre latérale");
   ("expand_sidebar", "Développer la barre latérale");
   ("apply", "Appliquer");
   ("github_help", "Vous aimez ce projet ? Soutenez son développement avec une étoile.");
   ("delete_backup", "Supprimer la sauvegarde");
   ("created_at", "Créée le");
   ("type", "Type");
   ("cancel", "Annuler");
   ("copy", "Copier");
   ("delete_backup_warning", "Cette sauvegarde sera définitivement supprimée. Le site ne sera pas modifié.");
   ("delete_file_question", "Supprimer définitivement %s ?");
   ("workspace", "Espace de travail");
   ("administrator", "Administrateur");
   ("login_title", "Bon retour.");
   ("login_guide", "Connectez-vous pour gérer vos sites.");
   ("password", "Mot de passe");
   ("admin_password", "Mot de passe administrateur");
   ("login", "Se connecter");
   ("logout", "Se déconnecter");
   ("invalid_password", "Mot de passe incorrect");
   ("private_control", "Contrôle privé. Fondation open source.");
   ("dashboard_title", "Votre espace WordPress");
   ("dashboard_guide", "Consultez les sites et leurs ressources. Choisissez Gérer le site pour ouvrir ses outils.");
   ("overview", "Vue d’ensemble");
   ("my_sites", "Mes sites");
   ("managed_sites", "Sites gérés");
   ("hosting_environment", "Environnement d’hébergement");
   ("your_server", "Votre serveur");
   ("workspace_access", "Accès à l’espace");
   ("single_administrator", "Un administrateur");
   ("manage_site", "Gérer le site");
   ("add_site", "Ajouter un site");
   ("create_site", "Créer le site");
   ("in_progress", "En cours…");
   ("new_title", "Créer un site WordPress");
   ("new_guide", "Saisissez les détails et choisissez les ressources. Laissez le domaine vide pour un test local.");
   ("new_workspace", "Nouvel espace");
   ("create_description", "Une nouvelle installation WordPress prête en quelques instants.");
   ("domain", "Domaine");
   ("site_title", "Titre du site");
   ("admin_email", "E-mail administrateur WordPress");
   ("resource_plan", "Offre de ressources");
   ("small", "Petit");
   ("standard", "Standard");
   ("large", "Grand");
   ("local_domain_hint", "Un domaine vide crée un site HTTP local. Le DNS des domaines publics doit pointer vers ce serveur.");
   ("empty_sites_title", "Votre premier site commence ici");
   ("empty_sites_guide", "Créez un site WordPress pour gérer fichiers, base de données et sauvegardes au même endroit.");
   ("first_site", "Créez votre premier site");
   ("site_workspace", "Espace du site");
   ("site_title_page", "Gérez votre site");
   ("site_guide", "Vérifiez l’état et les ressources, gérez les e-mails ou choisissez un outil. L’arrêt conserve les données.");
   ("refresh_usage", "Actualiser l’utilisation");
   ("live_usage", "Utilisation des ressources en direct");
   ("memory", "Mémoire");
   ("network", "Réseau");
   ("disk_io", "E/S disque");
   ("storage", "Stockage");
   ("status", "État");
   ("running", "En cours");
   ("stopped", "Arrêté");
   ("failed", "Échec");
   ("creating", "Création en cours");
   ("deleting", "Suppression en cours");
   ("start", "Démarrer");
   ("stop", "Arrêter");
   ("retry", "Réessayer");
   ("backups", "Sauvegardes");
   ("backup_schedule_title", "Sauvegardes planifiées");
   ("backup_schedule_hint", "Crée automatiquement des sauvegardes vérifiées. La rétention supprime uniquement les anciennes sauvegardes planifiées.");
   ("enable_backup_schedule", "Activer les sauvegardes planifiées");
   ("backup_frequency", "Fréquence");
   ("every_6_hours", "Toutes les 6 heures");
   ("every_12_hours", "Toutes les 12 heures");
   ("daily", "Chaque jour");
   ("weekly", "Chaque semaine");
   ("retention_count", "Sauvegardes planifiées conservées");
   ("retention_hint", "Entre 1 et 30 sauvegardes automatiques. Les sauvegardes manuelles et de sécurité sont conservées séparément.");
   ("next_backup", "Prochaine sauvegarde");
   ("last_successful_backup", "Dernière sauvegarde réussie");
   ("not_scheduled", "Non planifiée");
   ("never", "Jamais");
   ("save_backup_schedule", "Enregistrer la planification");
   ("backup_source_scheduled", "Planifiée");
   ("backup_source_manual", "Manuelle");
   ("backup_source_safety", "Sécurité");
   ("backups_title", "Sauvegardes et restauration");
   ("backups_guide", "Sauvegardez avant les modifications. La restauration remplace fichiers et base de données ; une copie de sécurité est créée d’abord.");
   ("backup_now", "Sauvegarder maintenant");
   ("restore", "Restaurer cette sauvegarde");
   ("available", "Disponible");
   ("confirm_domain", "Saisissez le domaine pour confirmer");
   ("updates", "Mises à jour");
   ("updates_title", "Mises à jour WordPress");
   ("updates_guide", "Mettez à jour le cœur, les extensions et les thèmes ensemble. Une sauvegarde vérifiée est créée d’abord. Gardez la page ouverte jusqu’à la fin.");
   ("update_wordpress", "Mettre à jour WordPress");
   ("database", "Base de données");
   ("database_title", "Gestionnaire de base de données");
   ("database_guide", "Ouvrez phpMyAdmin pour modifier la base de données. L’accès se ferme après 15 minutes. Sauvegardez avant toute modification.");
   ("open_database", "Ouvrir le gestionnaire");
   ("files", "Fichiers");
   ("files_title", "Gestionnaire de fichiers");
   ("files_guide", "Gérez les fichiers dans wp-content. Les liens symboliques ne peuvent être téléchargés, modifiés ou supprimés.");
   ("back_to_sites", "Retour aux sites");
   ("path", "Chemin");
   ("parent_directory", "Dossier parent");
   ("name", "Nom");
   ("size", "Taille");
   ("modified", "Modifié");
   ("actions", "Actions");
   ("open", "Ouvrir");
   ("move", "Déplacer");
   ("destination_folder", "Dossier de destination");
   ("move_file_hint", "Saisissez un chemin relatif à wp-content. Laissez vide pour déplacer à la racine.");
   ("download", "Télécharger");
   ("delete", "Supprimer");
   ("confirm_delete", "Confirmer la suppression");
   ("empty_directory", "Ce dossier est vide.");
   ("upload_file", "Envoyer un fichier");
   ("select_file", "Choisir un fichier");
   ("upload", "Envoyer · max. 10 Mo");
   ("create_directory", "Créer un dossier");
   ("directory_name", "Nom du dossier");
   ("create", "Créer");
   ("settings", "Paramètres");
   ("settings_title", "Paramètres du serveur mail");
   ("settings_guide", "Enregistrez la connexion SMTP puis activez-la depuis la vue d’ensemble de chaque site.");
   ("smtp_host", "Hôte SMTP");
   ("port", "Port");
   ("encryption", "Chiffrement");
   ("none", "Aucun");
   ("username", "Nom d’utilisateur");
   ("from_email", "E-mail expéditeur");
   ("sender_name", "Nom de l’expéditeur");
   ("keep_password", "Laissez vide pour conserver le mot de passe");
   ("smtp_password", "Mot de passe SMTP");
   ("password_protected", "Le mot de passe est chiffré sur disque et n’est jamais renvoyé au navigateur.");
   ("save_mail", "Enregistrer les paramètres mail");
   ("send_test", "Envoyer un e-mail de test");
   ("enabled", "Activé");
   ("disabled", "Désactivé");
   ("enable_smtp", "Activer le SMTP global");
   ("disable_smtp", "Désactiver SMTP");
   ("outgoing_email", "E-mails sortants");
   ("site_mail_hint", "Utilisez la configuration SMTP globale chiffrée pour ce site.");
   ("start_before_mail", "Démarrez le site avant de modifier l’envoi d’e-mails.");
   ("delete_permanently", "Supprimer définitivement");
   ("delete_warning", "Le site, la base de données et toutes les sauvegardes seront supprimés. Cette action est irréversible.");
   ("delete_site", "Supprimer le site et ses données");
   ("activity", "Activité");
   ("activity_title", "Activité récente");
   ("activity_guide", "Consultez les opérations et leurs résultats. Les 20 derniers événements sont affichés.");
   ("events", "Événements");
   ("time", "Heure");
   ("action", "Action");
   ("site", "Site");
   ("result", "Résultat");
   ("success", "Réussite");
   ("activity_empty", "Les actions de l’administrateur apparaîtront ici.");
   ("roadmap", "À venir");
   ("roadmap_title", "À l’horizon");
   ("coming_soon", "Bientôt disponible");
   ("roadmap_guide", "Ces fonctionnalités sont prévues et ne sont pas encore disponibles.");
   ("sftp", "Accès SFTP");
   ("sftp_hint", "Transfert sécurisé de fichiers");
   ("alerts", "Alertes automatiques");
   ("alerts_hint", "Surveiller l’état du serveur");
   ("image_upgrades", "Mises à niveau des images");
   ("image_upgrades_hint", "Gérer les versions des conteneurs");
   ("storage_quotas", "Quotas de stockage");
   ("storage_quotas_hint", "Le suivi est disponible ; les limites strictes suivront.");
   ("remote_backups", "Sauvegardes distantes planifiées");
   ("remote_backups_hint", "Protéger les données hors de ce serveur");
   ("customer_accounts", "Comptes clients");
   ("customer_accounts_hint", "Espaces clients séparés");
   ("star_github", "Ajouter une étoile sur GitHub");
   ("footer", "Conçu pour un hébergement WordPress indépendant.")].

Definition messages_zh : table :=
  [("refresh_status", "刷新服务状态");
   ("status_checked", "上次状态检查");
   ("status_unknown", "状态未知");
   ("status_unhealthy", "服务异常");
   ("status_busy", "操作进行中");
   ("operation_pending", "操作结果尚未确认。重试之前请刷新服务状态。");
   ("status_unavailable", "无法检查服务状态。请检查 worker 和 Docker，然后刷新。");
   ("status_refreshed", "服务状态已刷新");
   ("language", "语言");
   ("collapse_sidebar", "收起侧边栏");
   ("expand_sidebar", "展开侧边栏");
   ("apply", "应用");
   ("github_help", "喜欢这个项目？请点亮星标支持开发。");
   ("delete_backup", "删除备份");
   ("created_at", "创建时间");
   ("type", "类型");
   ("cancel", "取消");
   ("copy", "复制");
   ("delete_backup_warning", "此备份将被永久删除。网站本身不会更改。");
   ("delete_file_question", "永久删除 %s？");
   ("workspace", "工作区");
   ("administrator", "管理员");
   ("login_title", "欢迎回来。");
   ("login_guide", "登录以管理您的网站。");
   ("password", "密码");
   ("admin_password", "管理员密码");
   ("login", "登录");
   ("logout", "退出");
   ("invalid_password", "密码错误");
   ("private_control", "私有管理，开源基础。");
   ("dashboard_title", "您的 WordPress 工作区");
   ("dashboard_guide", "查看网站和资源用量。选择管理网站以打开工具。");
   ("overview", "概览");
   ("my_sites", "我的网站");
   ("managed_sites", "托管网站");
   ("hosting_environment", "托管环境");
   ("your_server", "您的服务器");
   ("workspace_access", "工作区访问");
   ("single_administrator", "单管理员");
   ("manage_site", "管理网站");
   ("add_site", "添加网站");
   ("create_site", "创建网站");
   ("in_progress", "处理中…");
   ("new_title", "创建 WordPress 网站");
   ("new_guide", "填写网站信息并选择资源。本地测试可留空域名。");
   ("new_workspace", "新工作区");
   ("create_description", "全新 WordPress 安装，即刻就绪。");
   ("domain", "域名");
   ("site_title", "网站标题");
   ("admin_email", "WordPress 管理员邮箱");
   ("resource_plan", "资源方案");
   ("small", "小型");
   ("standard", "标准");
   ("large", "大型");
   ("local_domain_hint", "域名留空将创建本地 HTTP 网站。公共域名的 DNS 需指向此服务器。");
   ("empty_sites_title", "在这里创建您的第一个网站");
   ("empty_sites_guide", "创建 WordPress 网站，集中管理文件、数据库和备份。");
   ("first_site", "创建首个网站");
   ("site_workspace", "网站工作区");
   ("site_title_page", "管理您的网站");
   ("site_guide", "查看状态和资源，管理邮件或选择工具。停止网站不会删除数据。");
   ("refresh_usage", "刷新用量");
   ("live_usage", "实时资源用量");
   ("memory", "内存");
   ("network", "网络");
   ("disk_io", "磁盘读写");
   ("storage", "存储");
   ("status", "状态");
   ("running", "运行中");
   ("stopped", "已停止");
   ("failed", "失败");
   ("creating", "创建中");
   ("deleting", "删除中");
   ("start", "启动");
   ("stop", "停止");
   ("retry", "重试");
   ("backups", "备份");
   ("backup_schedule_title", "定时备份");
   ("backup_schedule_hint", "自动创建并验证备份。保留策略只删除较旧的定时备份。");
   ("enable_backup_schedule", "启用定时备份");
   ("backup_frequency", "频率");
   ("every_6_hours", "每 6 小时");
   ("every_12_hours", "每 12 小时");
   ("daily", "每天");
   ("weekly", "每周");
   ("retention_count", "保留定时备份数");
   ("retention_hint", "保留 1 至 30 个自动备份。手动备份和安全备份会单独保留。");
   ("next_backup", "下次备份");
   ("last_successful_backup", "上次成功备份");
   ("not_scheduled", "未计划");
   ("never", "从未");
   ("save_backup_schedule", "保存备份计划");
   ("backup_source_scheduled", "定时");
   ("backup_source_manual", "手动");
   ("backup_source_safety", "安全");
   ("backups_title", "备份与恢复");
   ("backups_guide", "更改前请备份。恢复会替换当前文件和数据库，操作前会创建安全备份。");
   ("backup_now", "立即备份");
   ("restore", "恢复此备份");
   ("available", "可用");
   ("confirm_domain", "输入域名以确认");
   ("updates", "更新");
   ("updates_title", "WordPress 更新");
   ("updates_guide", "一起更新核心、插件和主题。首先创建经过验证的备份。完成前请保持页面打开。");
   ("update_wordpress", "更新 WordPress");
   ("database", "数据库");
   ("database_title", "数据库管理器");
   ("database_guide", "打开 phpMyAdmin 编辑数据库。访问将在 15 分钟后关闭。编辑前请备份。");
   ("open_database", "打开数据库管理器");
   ("files", "文件");
   ("files_title", "文件管理器");
   ("files_guide", "管理 wp-content 中的文件。符号链接无法下载、修改或删除。");
   ("back_to_sites", "返回网站列表");
   ("path", "路径");
   ("parent_directory", "上级目录");
   ("name", "名称");
   ("size", "大小");
   ("modified", "修改时间");
   ("actions", "操作");
   ("open", "打开");
   ("move", "移动");
   ("destination_folder", "目标文件夹");
   ("move_file_hint", "输入相对于 wp-content 的文件夹路径。留空则移动到根目录。");
   ("download", "下载");
   ("delete", "删除");
   ("confirm_delete", "确认删除");
   ("empty_directory", "此目录为空。");
   ("upload_file", "上传文件");
   ("select_file", "选择文件");
   ("upload", "上传 · 最大 10 MB");
   ("create_directory", "创建目录");
   ("directory_name", "目录名称");
   ("create", "创建");
   ("settings", "设置");
   ("settings_title", "邮件服务器设置");
   ("settings_guide", "保存 SMTP 连接，然后在各网站概览中启用。");
   ("smtp_host", "SMTP 主机");
   ("port", "端口");
   ("encryption", "加密");
   ("none", "无");
   ("username", "用户名");
   ("from_email", "发件人邮箱");
   ("sender_name", "发件人名称");
   ("keep_password", "留空以保留现有密码");
   ("smtp_password", "SMTP 密码");
   ("password_protected", "密码在磁盘上加密，绝不返回浏览器。");
   ("save_mail", "保存邮件设置");
   ("send_test", "发送测试邮件");
   ("enabled", "已启用");
   ("disabled", "已禁用");
   ("enable_smtp", "启用全局 SMTP");
   ("disable_smtp", "禁用 SMTP");
   ("outgoing_email", "发件邮件");
   ("site_mail_hint", "为此网站使用加密的全局 SMTP 配置。");
   ("start_before_mail", "更改邮件发送设置前请启动网站。");
   ("delete_permanently", "永久删除");
   ("delete_warning", "将删除网站、数据库和全部备份。此操作无法撤销。");
   ("delete_site", "删除网站及数据");
   ("activity", "活动");
   ("activity_title", "近期活动");
   ("activity_guide", "查看管理员操作和结果。显示最近 20 条事件。");
   ("events", "事件");
   ("time", "时间");
   ("action", "操作");
   ("site", "网站");
   ("result", "结果");
   ("success", "成功");
   ("activity_empty", "管理员操作将显示在此处。");
   ("roadmap", "后续计划");
   ("roadmap_title", "即将推出");
   ("coming_soon", "敬请期待");
   ("roadmap_guide", "这些功能已列入计划，目前尚不可用。");
   ("sftp", "SFTP 访问");
   ("sftp_hint", "安全文件传输");
   ("alerts", "自动告警");
   ("alerts_hint", "监控服务器健康");
   ("image_upgrades", "镜像升级");
   ("image_upgrades_hint", "管理容器版本");
   ("storage_quotas", "存储配额");
   ("storage_quotas_hint", "用量报告已上线，硬性限制即将推出。");
   ("remote_backups", "定时远程备份");
   ("remote_backups_hint", "在服务器外保护数据");
   ("customer_accounts", "客户账户");
   ("customer_accounts_hint", "独立客户工作区");
   ("star_github", "在 GitHub 上加星");
   ("footer", "为独立 WordPress 托管而构建。")].

Definition messages_ja : table :=
  [("refresh_status", "サービス状態を更新");
   ("status_checked", "最終状態確認");
   ("status_unknown", "状態不明");
   ("status_unhealthy", "サービスの問題");
   ("status_busy", "処理中");
   ("operation_pending", "処理結果が未確認です。再試行する前にサービス状態を更新してください。");
   ("status_unavailable", "サービス状態を確認できません。worker と Docker を確認して更新してください。");
   ("status_refreshed", "サービス状態を更新しました");
   ("language", "言語");
   ("collapse_sidebar", "サイドバーを折りたたむ");
   ("expand_sidebar", "サイドバーを展開");
   ("apply", "適用");
   ("github_help", "このプロジェクトを気に入ったら、スターで開発を応援してください。");
   ("delete_backup", "バックアップを削除");
   ("created_at", "作成日時");
   ("type", "種類");
   ("cancel", "キャンセル");
   ("copy", "コピー");
   ("delete_backup_warning", "このバックアップは完全に削除されます。サイト自体は変更されません。");
   ("delete_file_question", "%s を完全に削除しますか？");
   ("workspace", "ワークスペース");
   ("administrator", "管理者");
   ("login_title", "おかえりなさい。");
   ("login_guide", "ログインしてサイトを管理します。");
   ("password", "パスワード");
   ("admin_password", "管理者パスワード");
   ("login", "ログイン");
   ("logout", "ログアウト");
   ("invalid_password", "パスワードが正しくありません");
   ("private_control", "自分で管理。オープンソースの基盤。");
   ("dashboard_title", "WordPress ワークスペース");
   ("dashboard_guide", "サイトとリソース使用量を確認します。サイト管理からツールを開けます。");
   ("overview", "概要");
   ("my_sites", "マイサイト");
   ("managed_sites", "管理中のサイト");
   ("hosting_environment", "ホスティング環境");
   ("your_server", "あなたのサーバー");
   ("workspace_access", "ワークスペースへのアクセス");
   ("single_administrator", "単一管理者");
   ("manage_site", "サイト管理");
   ("add_site", "サイト追加");
   ("create_site", "サイト作成");
   ("in_progress", "処理中…");
   ("new_title", "WordPress サイトの作成");
   ("new_guide", "サイト情報とリソースを設定します。ローカルテストではドメインを空欄にします。");
   ("new_workspace", "新しいワークスペース");
   ("create_description", "新しい WordPress をまもなく利用できます。");
   ("domain", "ドメイン");
   ("site_title", "サイト名");
   ("admin_email", "WordPress 管理者メール");
   ("resource_plan", "リソースプラン");
   ("small", "小");
   ("standard", "標準");
   ("large", "大");
   ("local_domain_hint", "空欄ならローカル HTTP サイトを作成します。公開ドメインの DNS はこのサーバーに向けてください。");
   ("empty_sites_title", "最初のサイトをここから");
   ("empty_sites_guide", "WordPress サイトを作成し、ファイル、データベース、バックアップをまとめて管理します。");
   ("first_site", "最初のサイトを作成");
   ("site_workspace", "サイトのワークスペース");
   ("site_title_page", "サイトの管理");
   ("site_guide", "状態とリソースの確認、メール管理、ツールの選択ができます。停止してもデータは削除されません。");
   ("refresh_usage", "使用量を更新");
   ("live_usage", "リアルタイム使用量");
   ("memory", "メモリ");
   ("network", "ネットワーク");
   ("disk_io", "ディスク入出力");
   ("storage", "ストレージ");
   ("status", "状態");
   ("running", "稼働中");
   ("stopped", "停止中");
   ("failed", "失敗");
   ("creating", "作成中");
   ("deleting", "削除中");
   ("start", "開始");
   ("stop", "停止");
   ("retry", "再試行");
   ("backups", "バックアップ");
   ("backup_schedule_title", "定期バックアップ");
   ("backup_schedule_hint", "検証済みバックアップを自動作成します。保持設定は古い定期バックアップだけを削除します。");
   ("enable_backup_schedule", "定期バックアップを有効化");
   ("backup_frequency", "頻度");
   ("every_6_hours", "6時間ごと");
   ("every_12_hours", "12時間ごと");
   ("daily", "毎日");
   ("weekly", "毎週");
   ("retention_count", "保持する定期バックアップ");
   ("retention_hint", "自動バックアップを1～30件保持します。手動および安全バックアップは別に保持されます。");
   ("next_backup", "次回のバックアップ");
   ("last_successful_backup", "最後に成功したバックアップ");
   ("not_scheduled", "未設定");
   ("never", "なし");
   ("save_backup_schedule", "バックアップ設定を保存");
   ("backup_source_scheduled", "定期");
   ("backup_source_manual", "手動");
   ("backup_source_safety", "安全");
   ("backups_title", "バックアップと復元");
   ("backups_guide", "変更前にバックアップしてください。復元は現在のファイルとデータベースを置き換えます。先に安全用バックアップを作成します。");
   ("backup_now", "今すぐバックアップ");
   ("restore", "このバックアップを復元");
   ("available", "利用可能");
   ("confirm_domain", "確認のためドメインを入力");
   ("updates", "更新");
   ("updates_title", "WordPress の更新");
   ("updates_guide", "本体、プラグイン、テーマをまとめて更新します。先に検証済みバックアップを作成します。完了までページを開いておいてください。");
   ("update_wordpress", "WordPress を更新");
   ("database", "データベース");
   ("database_title", "データベース管理");
   ("database_guide", "phpMyAdmin でデータベースを編集できます。15 分後にアクセスが終了します。編集前にバックアップしてください。");
   ("open_database", "データベース管理を開く");
   ("files", "ファイル");
   ("files_title", "ファイル管理");
   ("files_guide", "wp-content 内のファイルを管理します。シンボリックリンクはダウンロード、変更、削除できません。");
   ("back_to_sites", "サイト一覧へ戻る");
   ("path", "パス");
   ("parent_directory", "親ディレクトリ");
   ("name", "名前");
   ("size", "サイズ");
   ("modified", "更新日時");
   ("actions", "操作");
   ("open", "開く");
   ("move", "移動");
   ("destination_folder", "移動先フォルダー");
   ("move_file_hint", "wp-content からの相対パスを入力します。ルートへ移動する場合は空欄にします。");
   ("download", "ダウンロード");
   ("delete", "削除");
   ("confirm_delete", "削除を確認");
   ("empty_directory", "このディレクトリは空です。");
   ("upload_file", "ファイルをアップロード");
   ("select_file", "ファイルを選択");
   ("upload", "アップロード · 最大 10 MB");
   ("create_directory", "ディレクトリ作成");
   ("directory_name", "ディレクトリ名");
   ("create", "作成");
   ("settings", "設定");
   ("settings_title", "メールサーバー設定");
   ("settings_guide", "SMTP 接続を保存し、各サイトの概要で有効にします。");
   ("smtp_host", "SMTP ホスト");
   ("port", "ポート");
   ("encryption", "暗号化");
   ("none", "なし");
   ("username", "ユーザー名");
   ("from_email", "送信元メール");
   ("sender_name", "送信者名");
   ("keep_password", "空欄で現在のパスワードを保持");
   ("smtp_password", "SMTP パスワード");
   ("password_protected", "パスワードはディスク上で暗号化され、ブラウザーには返されません。");
   ("save_mail", "メール設定を保存");
   ("send_test", "テストメール送信");
   ("enabled", "有効");
   ("disabled", "無効");
   ("enable_smtp", "共通 SMTP を有効化");
   ("disable_smtp", "SMTP を無効化");
   ("outgoing_email", "送信メール");
   ("site_mail_hint", "このサイトで暗号化された共通 SMTP 設定を使用します。");
   ("start_before_mail", "メール設定を変更する前にサイトを開始してください。");
   ("delete_permanently", "完全に削除");
   ("delete_warning", "サイト、データベース、すべてのバックアップを削除します。元に戻せません。");
   ("delete_site", "サイトとデータを削除");
   ("activity", "アクティビティ");
   ("activity_title", "最近のアクティビティ");
   ("activity_guide", "管理者の操作と結果を確認します。直近 20 件を表示します。");
   ("events", "イベント");
   ("time", "日時");
   ("action", "操作");
   ("site", "サイト");
   ("result", "結果");
   ("success", "成功");
   ("activity_empty", "管理者の操作がここに表示されます。");
   ("roadmap", "今後の予定");
   ("roadmap_title", "今後の機能");
   ("coming_soon", "近日公開");
   ("roadmap_guide", "これらの機能は計画中で、まだ利用できません。");
   ("sftp", "SFTP アクセス");
   ("sftp_hint", "安全なファイル転送");
   ("alerts", "自動アラート");
   ("alerts_hint", "サーバーの状態を監視");
   ("image_upgrades", "イメージ更新");
   ("image_upgrades_hint", "コンテナーのバージョン管理");
   ("storage_quotas", "ストレージ割り当て");
   ("storage_quotas_hint", "使用量の表示は利用可能です。上限設定は今後対応します。");
   ("remote_backups", "定期リモートバックアップ");
   ("remote_backups_hint", "別の場所でデータを保護");
   ("customer_accounts", "顧客アカウント");
   ("customer_accounts_hint", "顧客ごとのワークスペース");
   ("star_github", "GitHub でスターを付ける");
   ("footer", "独立した WordPress ホスティングのために。")].

Definition resources_en : table :=
  [("resources_title", "Resources");
   ("resources_guide", "Choose CPU and RAM for this site. Capacity is checked again when you save.");
   ("resources_saved", "Site resources updated.");
   ("capacity_unavailable", "Capacity could not be checked. Check Docker and the worker, then reload.");
   ("capacity_title", "Server capacity");
   ("capacity_hint", "Capacity available for this site after other sites and a host reserve. Stopped sites still count. Docker Desktop reports its VM capacity.");
   ("capacity_ram", "Available RAM");
   ("capacity_cpu", "Available CPU");
   ("capacity_total", "Total");
   ("capacity_disk", "Free disk space");
   ("capacity_disk_hint", "At least 2 GiB must remain free.");
   ("plan_custom", "Custom");
   ("resource_memory", "RAM per container (MiB)");
   ("resource_cpu", "CPU per container");
   ("resources_per_container", "Each limit applies separately to WordPress and MariaDB. A site needs twice the selected RAM and CPU allocation.");
   ("resources_change_warning", "Applying changes briefly stops and recreates the two service containers with their existing data. A stopped site stays stopped.");
   ("resources_save", "Save resources");
   ("resources_repair_first", "Refresh or repair the site status before changing resources.")].

Definition resources_fa : table :=
  [("resources_title", "منابع");
   ("resources_guide", "CPU و حافظهٔ سایت را انتخاب کنید. ظرفیت هنگام ذخیره دوباره بررسی می‌شود.");
   ("resources_saved", "منابع سایت به‌روز شد.");
   ("capacity_unavailable", "بررسی ظرفیت ممکن نشد. Docker و worker را بررسی و صفحه را تازه کنید.");
   ("capacity_title", "ظرفیت سرور");
   ("capacity_hint", "ظرفیت قابل تخصیص به این سایت پس از کسر سهم سایر سایت‌ها و ذخیرهٔ میزبان. سایت‌های متوقف هم محاسبه می‌شوند. در Docker Desktop ظرفیت ماشین مجازی نمایش داده می‌شود.");
   ("capacity_ram", "حافظهٔ قابل تخصیص");
   ("capacity_cpu", "CPU قابل تخصیص");
   ("capacity_total", "کل");
   ("capacity_disk", "فضای آزاد دیسک");
   ("capacity_disk_hint", "حداقل ۲ گیبی‌بایت فضای آزاد لازم است.");
   ("plan_custom", "سفارشی");
   ("resource_memory", "حافظهٔ هر کانتینر (MiB)");
   ("resource_cpu", "CPU هر کانتینر");
   ("resources_per_container", "هر محدودیت جداگانه بر وردپرس و MariaDB اعمال می‌شود. کل سهم سایت دو برابر حافظه و CPU انتخاب‌شده است.");
   ("resources_change_warning", "اعمال تغییر، دو کانتینر سرویس را برای مدت کوتاهی متوقف و با داده‌های فعلی بازسازی می‌کند. سایت متوقف، متوقف می‌ماند.");
   ("resources_save", "ذخیرهٔ منابع");
   ("resources_repair_first", "پیش از تغییر منابع، وضعیت سایت را تازه یا مشکل سرویس را برطرف کنید.")].

Definition resources_ar : table :=
  [("resources_title", "الموارد");
   ("resources_guide", "اختر المعالج والذاكرة لهذا الموقع. تُفحص السعة مجددًا عند الحفظ.");
   ("resources_saved", "تم تحديث موارد الموقع.");
   ("capacity_unavailable", "تعذر فحص السعة. تحقق من Docker والعامل ثم أعد تحميل الصفحة.");
   ("capacity_title", "سعة الخادم");
   ("capacity_hint", "السعة المتاحة لهذا الموقع بعد خصم المواقع الأخرى واحتياطي المضيف. تُحتسب المواقع المتوقفة أيضًا. يعرض Docker Desktop سعة الآلة الافتراضية.");
   ("capacity_ram", "الذاكرة المتاحة");
   ("capacity_cpu", "المعالج المتاح");
   ("capacity_total", "الإجمالي");
   ("capacity_disk", "مساحة القرص الحرة");
   ("capacity_disk_hint", "يلزم توفر 2 GiB على الأقل.");
   ("plan_custom", "مخصص");
   ("resource_memory", "ذاكرة كل حاوية (MiB)");
   ("resource_cpu", "المعالج لكل حاوية");
   ("resources_per_container", "يُطبق كل حد منفصلًا على WordPress وMariaDB. يحتاج الموقع إلى ضعف تخصيص الذاكرة والمعالج المختار.");
   ("resources_change_warning", "يوقف التطبيق حاويتي الخدمة مؤقتًا ويعيد إنشاءهما مع بياناتهما الحالية. يبقى الموقع المتوقف متوقفًا.");
   ("resources_save", "حفظ الموارد");
   ("resources_repair_first", "حدّث حالة الموقع أو أصلح خدماته قبل تغيير الموارد.")].

Definition resources_es : table :=
  [("resources_title", "Recursos");
   ("resources_guide", "Elige CPU y RAM. La capacidad se comprueba de nuevo al guardar.");
   ("resources_saved", "Recursos actualizados.");
   ("capacity_unavailable", "No se pudo comprobar la capacidad. Revisa Docker y el worker y recarga.");
   ("capacity_title", "Capacidad del servidor");
   ("capacity_hint", "Capacidad disponible para este sitio tras descontar otros sitios y la reserva del servidor. Los sitios detenidos también cuentan. Docker Desktop muestra la capacidad de su máquina virtual.");
   ("capacity_ram", "RAM disponible");
   ("capacity_cpu", "CPU disponible");
   ("capacity_total", "Total");
   ("capacity_disk", "Espacio libre");
   ("capacity_disk_hint", "Se requieren al menos 2 GiB libres.");
   ("plan_custom", "Personalizado");
   ("resource_memory", "RAM por contenedor (MiB)");
   ("resource_cpu", "CPU por contenedor");
   ("resources_per_container", "Los límites se aplican por separado a WordPress y MariaDB. El sitio necesita el doble de la asignación seleccionada.");
   ("resources_change_warning", "Los cambios detienen y recrean brevemente los dos contenedores conservando los datos. Un sitio detenido permanece detenido.");
   ("resources_save", "Guardar recursos");
   ("resources_repair_first", "Actualiza o repara el estado del sitio antes de cambiar los recursos.")].

Definition resources_de : table :=
  [("resources_title", "Ressourcen");
   ("resources_guide", "CPU und RAM auswählen. Beim Speichern wird die Kapazität erneut geprüft.");
   ("resources_saved", "Ressourcen aktualisiert.");
   ("capacity_unavailable", "Kapazität nicht verfügbar. Docker und Worker prüfen und neu laden.");
   ("capacity_title", "Serverkapazität");
   ("capacity_hint", "Für diese Website verfügbare Kapazität nach Abzug anderer Websites und der Hostreserve. Gestoppte Websites zählen ebenfalls. Docker Desktop zeigt die Kapazität seiner VM.");
   ("capacity_ram", "Verfügbarer RAM");
   ("capacity_cpu", "Verfügbare CPU");
   ("capacity_total", "Gesamt");
   ("capacity_disk", "Freier Speicherplatz");
   ("capacity_disk_hint", "Mindestens 2 GiB müssen frei sein.");
   ("plan_custom", "Benutzerdefiniert");
   ("resource_memory", "RAM je Container (MiB)");
   ("resource_cpu", "CPU je Container");
   ("resources_per_container", "Die Grenzen gelten jeweils für WordPress und MariaDB. Die Website benötigt die doppelte gewählte RAM- und CPU-Zuteilung.");
   ("resources_change_warning", "Die Änderungen stoppen und erstellen beide Container kurzzeitig neu; ihre Daten bleiben erhalten. Eine gestoppte Website bleibt gestoppt.");
   ("resources_save", "Ressourcen speichern");
   ("resources_repair_first", "Den Websitestatus aktualisieren oder reparieren, bevor Ressourcen geändert werden.")].

Definition resources_fr : table :=
  [("resources_title", "Ressources");
   ("resources_guide", "Choisissez CPU et RAM. La capacité est vérifiée à nouveau à l’enregistrement.");
   ("resources_saved", "Ressources mises à jour.");
   ("capacity_unavailable", "Capacité indisponible. Vérifiez Docker et le worker, puis rechargez.");
   ("capacity_title", "Capacité du serveur");
   ("capacity_hint", "Capacité disponible pour ce site après déduction des autres sites et de la réserve du serveur. Les sites arrêtés comptent aussi. Docker Desktop affiche la capacité de sa VM.");
   ("capacity_ram", "RAM disponible");
   ("capacity_cpu", "CPU disponible");
   ("capacity_total", "Total");
   ("capacity_disk", "Espace disque libre");
   ("capacity_disk_hint", "Au moins 2 GiB doivent rester libres.");
   ("plan_custom", "Personnalisé");
   ("resource_memory", "RAM par conteneur (MiB)");
   ("resource_cpu", "CPU par conteneur");
   ("resources_per_container", "Chaque limite s’applique séparément à WordPress et MariaDB. Le site nécessite deux fois l’allocation RAM et CPU choisie.");
   ("resources_change_warning", "Les changements arrêtent et recréent brièvement les deux conteneurs avec leurs données existantes. Un site arrêté reste arrêté.");
   ("resources_save", "Enregistrer les ressources");
   ("resources_repair_first", "Actualisez ou réparez l’état du site avant de modifier les ressources.")].

Definition resources_zh : table :=
  [("resources_title", "资源");
   ("resources_guide", "为此站点选择 CPU 和内存。保存时会再次检查容量。");
   ("resources_saved", "站点资源已更新。");
   ("capacity_unavailable", "无法检查容量。请检查 Docker 和工作进程，然后刷新。");
   ("capacity_title", "服务器容量");
   ("capacity_hint", "扣除其他站点和主机预留量后，此站点可用的容量。已停止的站点也计入。Docker Desktop 显示其虚拟机容量。");
   ("capacity_ram", "可分配内存");
   ("capacity_cpu", "可分配 CPU");
   ("capacity_total", "总计");
   ("capacity_disk", "可用磁盘空间");
   ("capacity_disk_hint", "至少需要 2 GiB 可用空间。");
   ("plan_custom", "自定义");
   ("resource_memory", "每个容器的内存（MiB）");
   ("resource_cpu", "每个容器的 CPU");
   ("resources_per_container", "每个限制分别应用于 WordPress 和 MariaDB。站点需要所选内存和 CPU 配额的两倍。");
   ("resources_change_warning", "应用更改会短暂停止并重建两个服务容器，同时保留现有数据。已停止的站点保持停止状态。");
   ("resources_save", "保存资源");
   ("resources_repair_first", "更改资源前，请刷新或修复站点状态。")].

Definition resources_ja : table :=
  [("resources_title", "リソース");
   ("resources_guide", "サイトの CPU とメモリを選択してください。保存時に容量を再確認します。");
   ("resources_saved", "リソースを更新しました。");
   ("capacity_unavailable", "容量を確認できません。Docker とワーカーを確認して再読み込みしてください。");
   ("capacity_title", "サーバー容量");
   ("capacity_hint", "他のサイトとホスト予約分を除いた、このサイトに割り当て可能な容量です。停止中のサイトも含みます。Docker Desktop は VM の容量を表示します。");
   ("capacity_ram", "割り当て可能なメモリ");
   ("capacity_cpu", "割り当て可能な CPU");
   ("capacity_total", "合計");
   ("capacity_disk", "ディスク空き容量");
   ("capacity_disk_hint", "最低 2 GiB の空き容量が必要です。");
   ("plan_custom", "カスタム");
   ("resource_memory", "コンテナごとのメモリ（MiB）");
   ("resource_cpu", "コンテナごとの CPU");
   ("resources_per_container", "各上限は WordPress と MariaDB に個別に適用されます。サイト全体で選択値の2倍のメモリと CPU 割り当てが必要です。");
   ("resources_change_warning", "変更時に両方のコンテナを一時停止して既存データを保持したまま再作成します。停止中のサイトは停止したままです。");
   ("resources_save", "リソースを保存");
   ("resources_repair_first", "リソース変更前にサイトの状態を更新するか、サービスを修復してください。")].

Definition plans_en : table :=
  [("plans_title", "Resource plans");
   ("plans_hint", "Save named plans for reuse when creating or resizing sites. Deleting a plan leaves existing sites unchanged.");
   ("plan_name", "Plan name");
   ("plan_add", "Add plan");
   ("plan_delete", "Delete plan template");
   ("plans_saved", "Resource plans updated.");
   ("settings_page_guide", "Manage mail delivery and reusable resource plans.")].

Definition plans_fa : table :=
  [("plans_title", "پلن‌های منابع");
   ("plans_hint", "پلن‌های نام‌دار را برای ایجاد یا تغییر منابع سایت‌ها ذخیره کنید. حذف پلن، منابع سایت‌های موجود را تغییر نمی‌دهد.");
   ("plan_name", "نام پلن");
   ("plan_add", "افزودن پلن");
   ("plan_delete", "حذف قالب پلن");
   ("plans_saved", "پلن‌های منابع به‌روز شدند.");
   ("settings_page_guide", "ارسال ایمیل و پلن‌های قابل استفادهٔ مجدد را مدیریت کنید.")].

Definition plans_ar : table :=
  [("plans_title", "خطط الموارد");
   ("plans_hint", "احفظ خططًا مسماة لإنشاء المواقع أو تغيير مواردها. حذف الخطة لا يغير المواقع الحالية.");
   ("plan_name", "اسم الخطة");
   ("plan_add", "إضافة خطة");
   ("plan_delete", "حذف قالب الخطة");
   ("plans_saved", "تم تحديث خطط الموارد.");
   ("settings_page_guide", "إدارة البريد وخطط الموارد القابلة لإعادة الاستخدام.")].

Definition plans_es : table :=
  [("plans_title", "Planes de recursos");
   ("plans_hint", "Guarda planes con nombre para crear o ajustar sitios. Eliminar un plan no modifica los sitios existentes.");
   ("plan_name", "Nombre del plan");
   ("plan_add", "Añadir plan");
   ("plan_delete", "Eliminar plantilla");
   ("plans_saved", "Planes actualizados.");
   ("settings_page_guide", "Gestiona el correo y los planes de recursos reutilizables.")].

Definition plans_de : table :=
  [("plans_title", "Ressourcenpläne");
   ("plans_hint", "Benannte Pläne zum Erstellen oder Anpassen von Websites speichern. Das Löschen eines Plans ändert bestehende Websites nicht.");
   ("plan_name", "Planname");
   ("plan_add", "Plan hinzufügen");
   ("plan_delete", "Planvorlage löschen");
   ("plans_saved", "Ressourcenpläne aktualisiert.");
   ("settings_page_guide", "E-Mail-Versand und wiederverwendbare Ressourcenpläne verwalten.")].

Definition plans_fr : table :=
  [("plans_title", "Plans de ressources");
   ("plans_hint", "Enregistrez des plans nommés pour créer ou redimensionner les sites. Supprimer un plan ne modifie pas les sites existants.");
   ("plan_name", "Nom du plan");
   ("plan_add", "Ajouter un plan");
   ("plan_delete", "Supprimer le modèle");
   ("plans_saved", "Plans mis à jour.");
   ("settings_page_guide", "Gérez les e-mails et les plans de ressources réutilisables.")].

Definition plans_zh : table :=
  [("plans_title", "资源方案");
   ("plans_hint", "保存命名方案以便创建或调整站点资源。删除方案不会更改现有站点。");
   ("plan_name", "方案名称");
   ("plan_add", "添加方案");
   ("plan_delete", "删除方案模板");
   ("plans_saved", "资源方案已更新。");
   ("settings_page_guide", "管理邮件发送和可重复使用的资源方案。")].

Definition plans_ja : table :=
  [("plans_title", "リソースプラン");
   ("plans_hint", "サイト作成やリソース変更用の名前付きプランを保存します。プランを削除しても既存サイトは変わりません。");
   ("plan_name", "プラン名");
   ("plan_add", "プランを追加");
   ("plan_delete", "プランテンプレートを削除");
   ("plans_saved", "プランを更新しました。");
   ("settings_page_guide", "メール配信と再利用可能なリソースプランを管理します。")].

Definition storageKeys : list string :=
  ["disk_quota_title";
   "disk_quota_not_enabled";
   "disk_quota_scope";
   "disk_quota_check_failed";
   "disk_quota_filesystem";
   "disk_quota_backend_supported";
   "disk_quota_development";
   "disk_quota_docs";
   "disk_quota_unsupported";
   "disk_quota_separate_filesystems";
   "disk_quota_driver"].

Definition storage_en : list string :=
  ["Hard disk quota";
   "Not enabled";
   "A site quota must cover both WordPress files and database data. Backups need separate free space.";
   "Storage support could not be verified. Check the worker and Docker, then reload.";
   "Storage (WordPress / database)";
   "The filesystem reports project accounting and enforcement enabled. No quota has been assigned to this site.";
   "Quota activation is in development while isolation and restart/restore safety are tested. No disk limit is currently enforced by the panel.";
   "Storage guide";
   "This storage does not support the proposed quota backend. It requires XFS with project quotas enabled on a supported Linux kernel.";
   "These volumes are on different filesystems; they cannot share one project quota.";
   "This volume driver or its mount options are outside the supported quota backend."].

Definition storage_fa : list string :=
  ["سهمیهٔ سخت دیسک";
   "فعال نشده";
   "سهمیهٔ سایت باید مجموع فایل‌های وردپرس و داده‌های دیتابیس را پوشش دهد. بکاپ‌ها به فضای آزاد جداگانه نیاز دارند.";
   "پشتیبانی ذخیره‌سازی تأیید نشد. worker و Docker را بررسی و صفحه را تازه کنید.";
   "ذخیره‌سازی (وردپرس / دیتابیس)";
   "فایل‌سیستم، محاسبه و اعمال سهمیهٔ پروژه را فعال گزارش می‌کند. هنوز سهمیه‌ای به این سایت اختصاص داده نشده است.";
   "فعال‌سازی سهمیه در حال توسعه است و جداسازی، راه‌اندازی مجدد و بازیابی آن تست می‌شود. فعلاً پنل محدودیتی بر حجم دیسک اعمال نمی‌کند.";
   "راهنمای ذخیره‌سازی";
   "این ذخیره‌سازی از زیرساخت سهمیهٔ پیشنهادی پشتیبانی نمی‌کند. XFS با سهمیهٔ پروژهٔ فعال و کرنل لینوکس سازگار لازم است.";
   "این دو حجم روی فایل‌سیستم‌های متفاوت هستند و نمی‌توانند یک سهمیهٔ پروژهٔ مشترک داشته باشند.";
   "این درایور حجم یا گزینه‌های اتصال آن خارج از زیرساخت سهمیهٔ پشتیبانی‌شده است."].

Definition storage_ar : list string :=
  ["الحصة الصارمة للقرص";
   "غير مفعّلة";
   "يجب أن تشمل حصة الموقع ملفات ووردبريس وبيانات قاعدة البيانات. تحتاج النسخ الاحتياطية إلى مساحة حرة منفصلة.";
   "تعذر التحقق من دعم التخزين. تحقق من العامل وDocker ثم أعد تحميل الصفحة.";
   "التخزين (ووردبريس / قاعدة البيانات)";
   "يشير نظام الملفات إلى تفعيل احتساب حصص المشاريع وتطبيقها. لم تُخصص حصة لهذا الموقع بعد.";
   "تفعيل الحصص قيد التطوير أثناء اختبار العزل وإعادة التشغيل والاستعادة. لا تطبق اللوحة حاليًا حدًا لحجم القرص.";
   "دليل التخزين";
   "هذا التخزين لا يدعم آلية الحصص المقترحة. يلزم XFS مع حصص مشاريع مفعّلة ونواة Linux متوافقة.";
   "وحدتا التخزين على نظامي ملفات مختلفين ولا يمكنهما مشاركة حصة مشروع واحدة.";
   "برنامج تشغيل وحدة التخزين أو خيارات ربطها خارج آلية الحصص المدعومة."].

Definition storage_es : list string :=
  ["Cuota estricta de disco";
   "No activada";
   "La cuota debe cubrir los archivos de WordPress y los datos de la base de datos. Las copias de seguridad necesitan espacio libre aparte.";
   "No se pudo verificar el soporte del almacenamiento. Comprueba el worker y Docker y recarga la página.";
   "Almacenamiento (WordPress / base de datos)";
   "El sistema de archivos indica que el cómputo y la aplicación de cuotas de proyecto están activados. Este sitio aún no tiene cuota asignada.";
   "La activación de cuotas está en desarrollo mientras se prueban el aislamiento, los reinicios y la restauración. El panel no aplica actualmente un límite de disco.";
   "Guía de almacenamiento";
   "Este almacenamiento no admite el mecanismo de cuotas propuesto. Requiere XFS con cuotas de proyecto activadas y un kernel Linux compatible.";
   "Los volúmenes están en sistemas de archivos distintos y no pueden compartir una cuota de proyecto.";
   "El controlador del volumen o sus opciones de montaje están fuera del mecanismo de cuotas admitido."].

Definition storage_de : list string :=
  ["Festes Speicherlimit";
   "Nicht aktiviert";
   "Ein Website-Limit muss WordPress-Dateien und Datenbankdaten zusammen erfassen. Backups benötigen zusätzlichen freien Platz.";
   "Die Speicherunterstützung konnte nicht bestätigt werden. Worker und Docker prüfen und die Seite neu laden.";
   "Speicher (WordPress / Datenbank)";
   "Das Dateisystem meldet aktive Erfassung und Durchsetzung von Projektquoten. Dieser Website wurde noch keine Quote zugewiesen.";
   "Die Aktivierung wird entwickelt; Isolation, Neustart und Wiederherstellung werden getestet. Das Panel setzt derzeit kein Speicherlimit durch.";
   "Speicheranleitung";
   "Dieser Speicher unterstützt das geplante Quota-Verfahren nicht. Erforderlich sind XFS mit aktiven Projektquoten und ein geeigneter Linux-Kernel.";
   "Die Volumes liegen auf unterschiedlichen Dateisystemen und können keine gemeinsame Projektquote verwenden.";
   "Dieser Volume-Treiber oder seine Mount-Optionen werden vom Quota-Verfahren nicht unterstützt."].

Definition storage_fr : list string :=
  ["Quota strict de disque";
   "Non activé";
   "Le quota doit couvrir les fichiers WordPress et les données de la base. Les sauvegardes nécessitent un espace libre distinct.";
   "Le support du stockage n’a pas pu être vérifié. Vérifiez le worker et Docker, puis rechargez la page.";
   "Stockage (WordPress / base de données)";
   "Le système de fichiers indique que le comptage et l’application des quotas de projet sont actifs. Aucun quota n’a encore été attribué à ce site.";
   "L’activation des quotas est en développement pendant les tests d’isolation, de redémarrage et de restauration. Le panneau n’applique actuellement aucune limite de disque.";
   "Guide du stockage";
   "Ce stockage ne prend pas en charge le mécanisme de quotas prévu. Il nécessite XFS avec quotas de projet actifs et un noyau Linux compatible.";
   "Ces volumes sont sur des systèmes de fichiers différents et ne peuvent pas partager un quota de projet.";
   "Ce pilote de volume ou ses options de montage ne sont pas pris en charge par le mécanisme de quotas."].

Definition storage_zh : list string :=
  ["磁盘硬配额";
   "未启用";
   "站点配额必须同时涵盖 WordPress 文件和数据库数据。备份需要独立的可用空间。";
   "无法验证存储支持。请检查工作进程和 Docker，然后刷新页面。";
   "存储（WordPress / 数据库）";
   "文件系统报告已启用项目配额计量和强制执行。此站点尚未分配配额。";
   "配额启用功能正在开发中，隔离、重启和恢复安全性仍在测试。面板目前不强制执行磁盘容量限制。";
   "存储指南";
   "此存储不支持计划中的配额机制。需要启用项目配额的 XFS 和兼容的 Linux 内核。";
   "这两个卷位于不同的文件系统，无法共用一个项目配额。";
   "此卷驱动或其挂载选项不在配额机制支持范围内。"].

Definition storage_ja : list string :=
  ["ディスクのハードクォータ";
   "未有効化";
   "サイトのクォータは WordPress ファイルとデータベースを合わせて制限する必要があります。バックアップには別途空き容量が必要です。";
   "ストレージの対応状況を確認できませんでした。ワーカーと Docker を確認して再読み込みしてください。";
   "ストレージ（WordPress / データベース）";
   "ファイルシステムはプロジェクトクォータの集計と強制適用が有効と報告しています。このサイトにはまだクォータが割り当てられていません。";
   "クォータ有効化は開発中です。分離、再起動、復元の安全性をテストしています。現在、パネルはディスク容量を制限していません。";
   "ストレージガイド";
   "このストレージは予定しているクォータ方式に対応していません。プロジェクトクォータが有効な XFS と対応する Linux カーネルが必要です。";
   "この二つのボリュームは異なるファイルシステムにあり、同じプロジェクトクォータを共有できません。";
   "このボリュームドライバーまたはマウントオプションはクォータ方式の対応範囲外です。"].

Definition aliases : table :=
  [("welcome_back", "login_title");
   ("administrator_password", "admin_password");
   ("log_in", "login");
   ("log_out", "logout");
   ("built_for_hosting", "footer");
   ("github_star_title", "star_github");
   ("github_star_help", "github_help");
   ("whats_next", "roadmap");
   ("create_site_hint", "create_description");
   ("wordpress_admin_email", "admin_email");
   ("plan_small", "small");
   ("plan_standard", "standard");
   ("plan_large", "large");
   ("your_sites", "my_sites");
   ("first_site_title", "empty_sites_title");
   ("first_site_help", "empty_sites_guide");
   ("create_first_site", "first_site");
   ("live_resource_usage", "live_usage");
   ("status_running", "running");
   ("status_stopped", "stopped");
   ("status_failed", "failed");
   ("status_creating", "creating");
   ("status_deleting", "deleting");
   ("backups_recovery", "backups_title");
   ("restore_warning", "backups_guide");
   ("restore_backup", "restore");
   ("type_domain_restore", "confirm_domain");
   ("type_domain_delete", "confirm_domain");
   ("type_domain_confirm", "confirm_domain");
   ("open_database_manager", "open_database");
   ("database_access_hint", "database_guide");
   ("smtp_site_hint", "site_mail_hint");
   ("enable_global_smtp", "enable_smtp");
   ("delete_site_warning", "delete_warning");
   ("delete_site_data", "delete_site");
   ("mail_server_settings", "settings_title");
   ("smtp_global_hint", "settings_guide");
   ("your_company", "sender_name");
   ("password_encrypted_hint", "password_protected");
   ("save_mail_settings", "save_mail");
   ("recent_activity", "activity_title");
   ("on_horizon", "roadmap_title");
   ("roadmap_hint", "roadmap_guide");
   ("sftp_access", "sftp");
   ("secure_file_transfer", "sftp_hint");
   ("automated_alerts", "alerts");
   ("server_health", "alerts_hint");
   ("container_versions", "image_upgrades_hint");
   ("storage_quota_hint", "storage_quotas_hint");
   ("scheduled_remote_backups", "remote_backups");
   ("protect_off_server", "remote_backups_hint");
   ("customer_workspaces", "customer_accounts_hint");
   ("file_manager", "files_title");
   ("back_to_site", "back_to_sites");
   ("directory_empty", "empty_directory");
   ("upload_max", "upload");
   ("file_access_hint", "files_guide")].

(** The tables of a language, the one written last first. *)
Definition tables (code : string) : list table :=
  let all m r p s := [combine storageKeys s; p; r; m] in
  if String.eqb code "en" then all messages_en resources_en plans_en storage_en
  else if String.eqb code "ar" then all messages_ar resources_ar plans_ar storage_ar
  else if String.eqb code "fa" then all messages_fa resources_fa plans_fa storage_fa
  else if String.eqb code "es" then all messages_es resources_es plans_es storage_es
  else if String.eqb code "de" then all messages_de resources_de plans_de storage_de
  else if String.eqb code "fr" then all messages_fr resources_fr plans_fr storage_fr
  else if String.eqb code "zh" then all messages_zh resources_zh plans_zh storage_zh
  else if String.eqb code "ja" then all messages_ja resources_ja plans_ja storage_ja
  else [].

(** A lookup in a Go map: the empty string when the key is absent. *)
Definition entry (key : string) (t : table) : option string := snd <$> find (fun kv => String.eqb kv.1 key) t.
Fixpoint overlay (key : string) (ts : list table) : string :=
  match ts with
  | [] => ""
  | t :: ts => match entry key t with Some v => v | None => overlay key ts end
  end.
Definition dictionaries (code key : string) : string := overlay key (tables code).

Definition unaliased (key : string) : string := let alias := default "" (entry key aliases) in if String.eqb alias "" then key else alias.

(** [i18n.T]: the language's text, or else the English one, or else the key. *)
Definition T `{Unicode} (language key : string) : string :=
  let key := unaliased key in
  let translated := dictionaries (Normalize language) key in
  if negb (String.eqb translated "") then translated
  else
    let translated := dictionaries "en" key in
    if negb (String.eqb translated "") then translated else key.

(** [Keys], before it sorts them. *)
Definition allKeys (code : string) : list string := concat (map (map fst) (tables code)).
