(* ===== verification/I18nFacts.v ===== *)
(** * I18nFacts: the language the browser likes best, and its messages

    Selection always ends with a supported language; among the browser's valid
    preferences it is the first of greatest weight.  Every message is there in
    every language: the tables have the same keys and no empty text, so [T]
    never falls back for a language the panel offers. *)
From Stdlib Require Import SpecFloat.
From S2P Require Import Prelude GoStrings GoFloat CoreFacts I18n Messages.
Set Warnings "-register-all".

(** Weights are positive and finite; their order is that of exponent and
    mantissa. *)
Definition weight (q : f64) : Prop := exists m e, q = S754_finite false m e.

Lemma weight_of q : fltb q (fofZ 0) || fgtb q (fofZ 1) = false -> fgtb q (fofZ 0) = true -> weight q.
Proof.
  unfold fltb, fgtb, SFltb. intros H1 H2. destruct q as [s|s| |s m e].
  - by destruct s.
  - destruct s; [by apply orb_false_elim in H1 as [? _]|by apply orb_false_elim in H1 as [_ ?]].
  - done.
  - destruct s; [done|]. by exists m, e.
Qed.

Lemma weight_lt m1 e1 m2 e2 :
  fltb (S754_finite false m1 e1) (S754_finite false m2 e2) = true <-> e1 < e2 \/ e1 = e2 /\ (Zpos m1 < Zpos m2).
Proof.
  unfold fltb, SFltb. cbn [SFcompare]. destruct (Z.compare_spec e1 e2) as [->|He|He].
  - change (Pos.compare_cont Eq m1 m2) with (m1 ?= m2)%positive. destruct (Pos.compare_spec m1 m2) as [->|Hm|Hm]; split; intros Hx; try done; try lia.
  - split; [by left|done].
  - split; [done|lia].
Qed.

Lemma weight_trans x y z : weight x -> weight y -> weight z -> fltb x y = true -> fltb z y = false -> fltb x z = true.
Proof.
  intros (m1&e1&->) (m2&e2&->) (m3&e3&->) H1 H2. apply weight_lt in H1. apply not_true_iff_false in H2. rewrite weight_lt in H2. apply weight_lt. lia.
Qed.

Section i18n.
Context `{Unicode}.

Lemma quality_weight parameters : forall seen acc q, weight acc \/ fltb acc (fofZ 0) || fgtb acc (fofZ 1) = false ->
  quality seen acc parameters = Some q -> fgtb q (fofZ 0) = true -> weight q.
Proof.
  induction parameters as [|p l IH]; intros seen acc q Hacc; cbn [quality].
  - intros [= <-] Hq. destruct Hacc as [?|?]; [done|by apply weight_of].
  - destruct (splitN2 _ _) as [|name [|value [|]]]; try done. cbv zeta. destruct (negb (equalFold name "q") || seen); [done|]. destruct (String.eqb (trimSpace value) "" || _); [done|].
    destruct (parseFloat _) as [x|]; [|done]. destruct (fltb x (fofZ 0) || fgtb x (fofZ 1)) eqn:Ex; [done|]. intros Hq. eapply IH; [|exact Hq]. by right.
Qed.

Definition supported (lang : string) : Prop := lang ∈ map Language.Code languages.

Lemma Normalize_supported tag : Normalize tag <> "" -> supported (Normalize tag).
Proof.
  unfold Normalize. destruct (negb _); [done|]. destruct (find _ _) as [l|] eqn:E; [|done]. intros _.
  apply find_some in E as [Hin _]. apply list_elem_of_fmap. exists l. split; [done|]. by apply list_elem_of_In.
Qed.

Lemma preference_spec item lang q : preference item = Some (lang, q) -> supported lang /\ weight q.
Proof.
  unfold preference. destruct (split _ item) as [|tag parameters]; [done|]. cbv zeta. destruct (String.eqb_spec (Normalize tag) "") as [|Hn]; [done|].
  destruct (quality _ _ _) as [x|] eqn:Eq; [|done]. destruct (fgtb x (fofZ 0)) eqn:Ep; [|done]. intros [= <- <-].
  split; [by apply Normalize_supported|]. eapply quality_weight; [|exact Eq|exact Ep]. right. reflexivity.
Qed.

(** The first of greatest weight. *)
Definition best (l : list (string * f64)) (x : string * f64) : Prop :=
  exists l1 l2, l = (l1 ++ x :: l2)%list /\ Forall (fun y => fltb y.2 x.2 = true) l1 /\ Forall (fun y => fltb x.2 y.2 = false) l2.

Lemma insert_head x l y l' : insertCandidate x l = y :: l' ->
  (y = x /\ match l with [] => True | z :: _ => fltb x.2 z.2 = false end) \/ (exists l2, l = y :: l2 /\ fltb x.2 y.2 = true).
Proof.
  destruct l as [|z l]; cbn [insertCandidate]; [intros [= <- _]; by left|]. unfold fgtb. fold (fltb x.2 z.2).
  destruct (fltb x.2 z.2) eqn:E; intros [= <- _]; [right; by exists l|by left].
Qed.

Lemma sort_best l : Forall (fun y => weight y.2) l -> match sortCandidates l with [] => l = [] | x :: _ => best l x end.
Proof.
  induction 1 as [|x l Hx Hl IH]; [done|]. cbn [sortCandidates foldr]. fold (sortCandidates l).
  destruct (insertCandidate x (sortCandidates l)) as [|y l'] eqn:E.
  { destruct (sortCandidates l); cbn [insertCandidate] in E; [done|]. by destruct (fgtb _ _). }
  apply insert_head in E as [[-> Hh]|(l2&Es&Hlt)].
  - exists [], l. split_and!; [done|constructor|]. destruct (sortCandidates l) as [|z r]; [subst l; constructor|].
    destruct IH as (a&b&->&Ha&Hb). apply Forall_app in Hl as [Hwa Hwb]. inversion Hwb as [|? ? Hz Hwb']; subst.
    apply Forall_app; split; [|constructor; [done|]]; apply Forall_forall; intros u Hu; rewrite Forall_forall in *; apply not_true_iff_false; intros Hxu.
    + specialize (Ha u Hu). assert (fltb x.2 z.2 = true); [|congruence]. eapply (weight_trans _ u.2); [done|by apply Hwa|done|done|].
      apply not_true_iff_false. intros Hzu. destruct (Hwa u Hu) as (m1&e1&E1), Hz as (m2&e2&E2). rewrite E1, E2 in Ha, Hzu. rewrite weight_lt in Ha, Hzu. lia.
    + assert (fltb x.2 z.2 = true); [|congruence]. eapply (weight_trans _ u.2); [done|by apply Hwb'|done|done|]. by apply Hb.
  - rewrite Es in IH. destruct IH as (a&b&->&Ha&Hb). exists (x :: a), b. split_and!; [done| |done]. by constructor.
Qed.

(** the browser's language.  Whatever the header, detection ends with a
    supported language: the first among the valid preferences of the greatest
    weight, or English when there is none. *)
Theorem Detect_best header :
  supported (Detect header) /\
  match candidates header with
  | [] => Detect header = "en"
  | l => exists q, best l (Detect header, q) /\ weight q
  end.
Proof.
  assert (Forall (fun y => supported y.1 /\ weight y.2) (candidates header)) as Hall.
  { apply Forall_forall. intros [lang q] (item&_&Hp)%list_elem_of_omap. by apply preference_spec in Hp. }
  assert (Forall (fun y => weight y.2) (candidates header)) as Hw by (eapply Forall_impl; [exact Hall|by intros ? [_ ?]]).
  apply sort_best in Hw. unfold Detect. destruct (sortCandidates (candidates header)) as [|[lang q] r].
  - rewrite Hw. split; [|done]. unfold supported. left.
  - destruct (candidates header) as [|c l] eqn:Ec; [by destruct Hw as ([|]&?&?&_)|]. destruct Hw as (a&b&E&Ha&Hb).
    assert (supported lang /\ weight q) as [Hs Hq].
    { rewrite E in Hall. apply Forall_app in Hall as [_ Hall]. by inversion Hall. }
    split; [done|]. exists q. split; [|done]. by exists a, b.
Qed.
End i18n.

(** ** Every message in every language *)

Definition codes : list string := map Language.Code languages.

Definition knownKey (key : string) : bool := existsb (String.eqb key) (allKeys "en").

(** A table of the tables: for every language, every key of every language. *)
Definition completeTables : bool :=
  forallb (fun code => forallb (fun other => forallb (fun key => knownKey key && negb (String.eqb (dictionaries other key) "")) (allKeys code)) codes) codes.

Lemma tables_complete : completeTables = true.
Proof. vm_compute. reflexivity. Qed.

Lemma no_tables key : dictionaries "" key = "".
Proof. reflexivity. Qed.

#[local] Opaque tables.

Lemma entry_None key t : entry key t = None <-> key ∉ map fst t.
Proof.
  unfold entry. induction t as [|[k v] t IH]; cbn; [split; [set_solver|done]|].
  destruct (String.eqb_spec k key) as [->|Hk]; cbn; [split; [done|set_solver]|]. rewrite IH. set_solver.
Qed.

Lemma overlay_absent key ts : key ∉ concat (map (map fst) ts) -> overlay key ts = "".
Proof.
  induction ts as [|t ts IH]; [done|]. cbn [map concat overlay]. rewrite elem_of_app. intros Hk.
  rewrite (proj2 (entry_None key t)) by tauto. apply IH. tauto.
Qed.

Lemma dictionaries_absent code key : key ∉ allKeys code -> dictionaries code key = "".
Proof. exact (overlay_absent key (tables code)). Qed.

Lemma knownKey_spec key : knownKey key = true <-> key ∈ allKeys "en".
Proof.
  unfold knownKey. rewrite existsb_exists, list_elem_of_In.
  split; [intros (k&Hk&->%String.eqb_eq); done|intros Hk; exists key; by rewrite String.eqb_refl].
Qed.

Lemma dictionaries_spec code key :
  code ∈ codes -> if knownKey key then dictionaries code key <> "" else dictionaries code key = "".
Proof.
  intros Hc. pose proof tables_complete as Hall. unfold completeTables in Hall. rewrite forallb_forall in Hall.
  destruct (knownKey key) eqn:Ek.
  - assert (In "en" codes) as Hen by (left; reflexivity). specialize (Hall _ Hen). rewrite forallb_forall in Hall.
    specialize (Hall code ltac:(by apply list_elem_of_In)). rewrite forallb_forall in Hall.
    apply knownKey_spec, list_elem_of_In in Ek. specialize (Hall _ Ek). bool_solve. by apply String.eqb_neq.
  - apply dictionaries_absent. intros Hk. apply list_elem_of_In in Hc. specialize (Hall _ Hc). rewrite forallb_forall in Hall.
    specialize (Hall _ Hc). rewrite forallb_forall in Hall. apply list_elem_of_In in Hk. specialize (Hall _ Hk). bool_solve. congruence.
Qed.

(** a message is shown in the reader's language.  For every language tag and
    key: when the panel has the key (an alias stands for its target), [T]
    answers the text of the tag's language, or the English one for a tag the
    panel does not offer, and that text is never empty; an unknown key is
    returned unchanged. *)
Theorem T_complete `{Unicode} tag key :
  let code := if String.eqb (Normalize tag) "" then "en" else Normalize tag in
  T tag key = (if knownKey (unaliased key) then dictionaries code (unaliased key) else unaliased key) /\
  (knownKey (unaliased key) = true -> T tag key <> "").
Proof.
  cbv zeta. unfold T. set (k := unaliased key). clearbody k.
  assert (dictionaries "" k = "") as Hempty by apply no_tables.
  pose proof (dictionaries_spec "en" k ltac:(left)) as Hen.
  assert (if knownKey k then True else dictionaries (Normalize tag) k = "") as Hnone.
  { destruct (knownKey k) eqn:Ek; [done|]. destruct (String.eqb_spec (Normalize tag) "") as [->|Hn]; [done|].
    pose proof (dictionaries_spec _ k (Normalize_supported tag Hn)) as Hs. by rewrite Ek in Hs. }
  assert (knownKey k = true -> Normalize tag <> "" -> dictionaries (Normalize tag) k <> "") as Hsome.
  { intros Ek Hn. pose proof (dictionaries_spec _ k (Normalize_supported tag Hn)) as Hs. by rewrite Ek in Hs. }
  destruct (knownKey k).
  - destruct (String.eqb_spec (Normalize tag) "") as [Hn|Hn].
    + rewrite Hn, Hempty. cbn [String.eqb negb]. destruct (String.eqb_spec (dictionaries "en" k) ""); [done|by split].
    + specialize (Hsome eq_refl Hn). destruct (String.eqb_spec (dictionaries (Normalize tag) k) ""); [done|by split].
  - rewrite Hnone, Hen. by split.
Qed.
