(* ===== verification/Panel.v ===== *)
(** * Panel: the panel's operations, [cmd/panel]

    The panel keeps the site metadata ([Store]), asks the worker to act and
    resolves what it was not told.  Its operations are those of its own host
    files, calls to the worker, and its in-memory maps, which a mutex guards. *)
From S2P Require Import Prelude GoStrings GoPath GoFloat GoTime GoBase64 Effects World Core Json GoFloatText CoreJson CoreJsonFacts Policy Worker QuotaState Capacity Operations Settings Server Store ActivityLog.

Module flash.
Record t := mk { Message : string; Error : string; Created : time }.
Definition zero : t := mk "" "" zeroTime.
End flash.

(** The maps of [app]. *)
Record pstate := PState { flashes : gmap string flash.t; loginFails : gmap string (list time) }.

Inductive pop : Type -> Type :=
| PHost {R : Type} (o : wop R) : pop R
| PCall (path body operationID : string) : pop (result (Z * string))
| PMemory {R : Type} (f : pstate -> R * pstate) : pop R.

(** What a call was answered: the failure of the exchange, or the status and
    the text of the reply. *)
Definition answered : Type := string + (Z * string).

Inductive pevent := PEv (e : event) | PECall (path body operationID : string) (r : answered).

(** The worker at the other end: the reply's status and text, or a failure of
    the exchange. *)
Class Peer := {
  peer : Type;
  peer_call : peer -> string -> string -> string -> peer * answered;
}.

Record pworld `{Env} `{Peer} := PWorld { p_host : world; p_peer : peer; p_state : pstate }.

Section step.
Context `{Env} `{Peer}.

Definition pstep (R : Type) (o : pop R) (w : pworld) : R * pworld * list pevent :=
  match o in pop R return R * pworld * list pevent with
  | PHost o => let '(r, h, t) := wstep _ o (p_host w) in (r, PWorld _ _ h (p_peer w) (p_state w), map PEv t)
  | PCall path body operationID =>
      let '(p, r) := peer_call (p_peer w) path body operationID in
      (match r with inl m => Err (EMsg m) | inr reply => Ok reply end, PWorld _ _ (p_host w) p (p_state w), [PECall path body operationID r])
  | PMemory f => let '(r, s) := f (p_state w) in (r, PWorld _ _ (p_host w) (p_peer w) s, [])
  end.

Definition pexec {A} (p : prog pop A) (w : pworld) : A * pworld * list pevent := run pstep p w.
End step.

(** Programs of the host, such as the store's methods. *)
Fixpoint host {A} (p : prog wop A) : prog pop A :=
  match p with
  | Ret a => Ret a
  | Vis o k => Vis (PHost o) (fun r => host (k r))
  end.

(** The [app] struct; [configured]: a client and the worker's address are set. *)
Record app := App {
  storePath : string;
  settingsStore : SettingsStore.t;
  auditPath : string;
  configured : bool;
  adminHash : string;
  sessionKey : string;
  secureCookie : bool;
}.

(** ** Updates of a site *)
Definition setOperation (o : option Operation.t) (s : Site.t) : Site.t :=
  Site.mk (Site.ID s) (Site.Domain s) (Site.Title s) (Site.AdminEmail s) (Site.MemoryMB s) (Site.CPUs s) (Site.Status s) (Site.Error s)
    (Site.CreatedAt s) (Site.Backups s) (Site.BackupPolicy s) (Site.MailEnabled s) o (Site.HealthError s) (Site.HealthCheckedAt s).
Definition setStatus (status error : string) (s : Site.t) : Site.t :=
  Site.mk (Site.ID s) (Site.Domain s) (Site.Title s) (Site.AdminEmail s) (Site.MemoryMB s) (Site.CPUs s) status error
    (Site.CreatedAt s) (Site.Backups s) (Site.BackupPolicy s) (Site.MailEnabled s) (Site.Operation s) (Site.HealthError s) (Site.HealthCheckedAt s).
Definition setHealth (error : string) (s : Site.t) : Site.t :=
  Site.mk (Site.ID s) (Site.Domain s) (Site.Title s) (Site.AdminEmail s) (Site.MemoryMB s) (Site.CPUs s) (Site.Status s) (Site.Error s)
    (Site.CreatedAt s) (Site.Backups s) (Site.BackupPolicy s) (Site.MailEnabled s) (Site.Operation s) error (Site.HealthCheckedAt s).
Definition setChecked (at_ : time) (s : Site.t) : Site.t :=
  Site.mk (Site.ID s) (Site.Domain s) (Site.Title s) (Site.AdminEmail s) (Site.MemoryMB s) (Site.CPUs s) (Site.Status s) (Site.Error s)
    (Site.CreatedAt s) (Site.Backups s) (Site.BackupPolicy s) (Site.MailEnabled s) (Site.Operation s) (Site.HealthError s) at_.
Definition setLimits (r : Resources.t) (s : Site.t) : Site.t :=
  Site.mk (Site.ID s) (Site.Domain s) (Site.Title s) (Site.AdminEmail s) (Resources.MemoryMB r) (Resources.CPUs r) (Site.Status s) (Site.Error s)
    (Site.CreatedAt s) (Site.Backups s) (Site.BackupPolicy s) (Site.MailEnabled s) (Site.Operation s) (Site.HealthError s) (Site.HealthCheckedAt s).
Definition setBackups (l : list Backup.t) (s : Site.t) : Site.t :=
  Site.mk (Site.ID s) (Site.Domain s) (Site.Title s) (Site.AdminEmail s) (Site.MemoryMB s) (Site.CPUs s) (Site.Status s) (Site.Error s)
    (Site.CreatedAt s) l (Site.BackupPolicy s) (Site.MailEnabled s) (Site.Operation s) (Site.HealthError s) (Site.HealthCheckedAt s).
Definition setPolicy (p : BackupPolicy.t) (s : Site.t) : Site.t :=
  Site.mk (Site.ID s) (Site.Domain s) (Site.Title s) (Site.AdminEmail s) (Site.MemoryMB s) (Site.CPUs s) (Site.Status s) (Site.Error s)
    (Site.CreatedAt s) (Site.Backups s) p (Site.MailEnabled s) (Site.Operation s) (Site.HealthError s) (Site.HealthCheckedAt s).
Definition setMail (enabled : bool) (s : Site.t) : Site.t :=
  Site.mk (Site.ID s) (Site.Domain s) (Site.Title s) (Site.AdminEmail s) (Site.MemoryMB s) (Site.CPUs s) (Site.Status s) (Site.Error s)
    (Site.CreatedAt s) (Site.Backups s) (Site.BackupPolicy s) enabled (Site.Operation s) (Site.HealthError s) (Site.HealthCheckedAt s).

Definition operationPending (s : Site.t) : bool :=
  match Site.Operation s with Some o => pendingOp o | None => false end.
Definition visibleStatus (s : Site.t) : string :=
  if negb (String.eqb (Site.HealthError s) "") then "unknown" else if operationPending s then "busy" else Site.Status s.

Definition setOutcome (o : Operation.t) (kind state error : string) : Operation.t :=
  Operation.mk (Operation.ID o) kind state (Operation.StartedAt o) (Operation.FinishedAt o) error (Operation.Backup o)
    (Operation.AdmissionRejected o).

Definition unconfirmed : string := "Response was not confirmed. Refresh service status to resolve this operation.".

Section panel.
Context (a : app).

(** ** Calls to the worker *)

(** [callWorkerContext]: a caller that wants a result expects 200 and decodes
    at most 16 MiB of it, one that wants none expects 204.  Deadlines are
    failures of the exchange. *)
Definition callWorkerContext {A} (operationID path : string) (body : result json) (expected : Z) (decode : string -> result A) : M pop A :=
  if negb (configured a) then fail (EMsg "worker is not configured")
  else
    b ← lift body;
    resp ← perform (PCall path (printJSON b) operationID);
    if negb (fst resp =? expected) then fail (EResponse (fst resp) (trimSpace (take 2000 (snd resp))))
    else lift (decode (snd resp)).

Definition resultLimit : Z := 16 * 2 ^ 20.
Definition reads {A} (fs : list (string * setter A)) (zero : A) (text : string) : result A := decodeBody resultLimit fs zero text.
Definition ignored (_ : string) : result unit := Ok tt.

(** [callWorker]. *)
Definition callWorker {A} (path : string) (body : result json) (expected : Z) (decode : string -> result A) : M pop A :=
  callWorkerContext "" path body expected decode.

Definition putSite (s : Site.t) : M pop unit := host (Put (storePath a) s).
Definition now : M pop time := host (get ONow).

(** [callTracked]: the site with its operation, and the result. *)
Definition callTracked {A} (site : Site.t) (kind path : string) (body : result json) (expected : Z) (decode : string -> result A)
  : M pop (Site.t * result A) :=
  b ← try (host (perform (ORand 8)));
  match b with
  | Err e => mret (site, Err e)
  | Ok b =>
      started ← now;
      let op := Operation.mk (newID b) kind "pending" started zeroTime "" None false in
      let site := setOperation (Some op) site in
      saved ← try (putSite site);
      match saved with
      | Err e => mret (site, Err (EWrap "unable to record operation" e))
      | Ok _ =>
          r ← try (callWorkerContext (newID b) path body expected decode);
          match r with
          | Ok x =>
              finished ← now;
              mret (setOperation (Some (Operation.mk (newID b) kind "succeeded" started finished "" None false)) site, Ok x)
          | Err e =>
              let site := setOperation (Some (setOutcome op kind "pending" unconfirmed)) site in
              saved ← try (putSite site);
              mret (site, match saved with
                          | Err e' => Err (EWrap "unable to save operation result" e')
                          | Ok _ => Err e
                          end)
          end
      end
  end.

(** [record]: the outcome of an audit entry is dropped. *)
Definition record_ (action : string) (s : Site.t) (success : bool) (detail : string) : M pop unit :=
  _ ← try (host (Append (auditPath a) (Entry.mk zeroTime action (Site.ID s) (Site.Domain s) success detail)));
  mret tt.
End panel.
