(* ===== verification/GoUrl.v ===== *)
(** * GoUrl: [net/url] as the panel uses it

    Escaping, and the parsing of a reference that starts with one slash. *)
From S2P Require Import Prelude GoStrings GoPath.

Definition upperHex (d : Z) : ascii := if d <? 10 then chrZ (48 + d) else chrZ (55 + d).
Definition percent (c : ascii) : string := String "%" (String (upperHex (byteZ c / 16)) (String (upperHex (byteZ c mod 16)) "")).

Definition alnum (c : ascii) : bool := isDigit c || isLower c || isUpper c.
Definition unreserved (c : ascii) : bool := alnum c || inSet "-_.~" c.
Definition hexValue (c : ascii) : option Z :=
  if isDigit c then Some (byteZ c - 48) else if inRange 97 102 c then Some (byteZ c - 87) else if inRange 65 70 c then Some (byteZ c - 55) else None.

Fixpoint escapeWith (keep : ascii -> bool) (s : string) : string :=
  match s with
  | EmptyString => ""
  | String c r => (if keep c then String c "" else percent c) +:+ escapeWith keep r
  end.

(** [escape(s, encodePath)]: the bytes that stay. *)
Definition pathChar (c : ascii) : bool := unreserved c || inSet "$&+,/:;=@" c.
Definition escapePath : string -> string := escapeWith pathChar.

(** [QueryEscape]. *)
Fixpoint QueryEscape (s : string) : string :=
  match s with
  | EmptyString => ""
  | String c r =>
      (if Ascii.eqb c " " then "+" else if unreserved c then String c "" else percent c) +:+ QueryEscape r
  end.

(** [unescape(s, encodePath)]: every percent sign starts two hexadecimal
    digits. *)
Fixpoint unescape (s : string) : option string :=
  match s with
  | EmptyString => Some ""
  | String c r =>
      if Ascii.eqb c "%" then
        match r with
        | String a (String b r') =>
            match hexValue a, hexValue b, unescape r' with
            | Some x, Some y, Some u => Some (String (chrZ (16 * x + y)) u)
            | _, _, _ => None
            end
        | _ => None
        end
      else option_map (String c) (unescape r)
  end.

(** [validEncoded(s, encodePath)]. *)
Definition encodedChar (c : ascii) : bool := pathChar c || inSet "!'()*[]%" c.

(** [EscapedPath] of a path parsed from [p]. *)
Definition escapedPath (p : string) : option string :=
  match unescape p with
  | None => None
  | Some path => Some (if String.eqb p (escapePath path) || strForall encodedChar p then p else escapePath path)
  end.

(** A control byte makes a URL invalid. *)
Definition controlChar (c : ascii) : bool := (byteZ c <? 32) || (byteZ c =? 127).

(** [strings.Cut]. *)
Definition cut (c : ascii) (s : string) : string * option string :=
  match splitN2 c s with
  | [x; y] => (x, Some y)
  | _ => (s, None)
  end.

(** [url.Parse(raw)] and then [RequestURI] for [raw] that starts with one
    slash: no scheme and no host. *)
Definition localURI (raw : string) : option string :=
  let '(u, fragment) := cut "#" raw in
  if strExists controlChar u then None
  else
    match (match fragment with Some f => unescape f | None => Some "" end) with
    | None => None
    | Some _ =>
        let '(path, query) := cut "?" u in
        match escapedPath path with
        | None => None
        | Some p => Some (p +:+ match query with Some q => "?" +:+ q | None => "" end)
        end
    end.

(** ** [http.Redirect] *)

Definition userInfoChar (c : ascii) : bool := alnum c || inSet "-._:~!$&'()*+,;=%@" c.

(** The host of an authority, after the last [@]; none when it does not
    parse. *)
Fixpoint afterLast (c : ascii) (s : string) : option string :=
  match s with
  | EmptyString => None
  | String d r => match afterLast c r with Some x => Some x | None => if Ascii.eqb c d then Some r else None end
  end.
Definition emptyHost (authority : string) : bool :=
  match afterLast "@" authority with
  | Some host => String.eqb host "" && strForall userInfoChar authority
  | None => String.eqb authority ""
  end.

(** Does a target that starts with a slash parse to one without a host? *)
Definition hostless (target : string) : bool :=
  let '(u, fragment) := cut "#" target in
  let p := fst (cut "?" u) in
  negb (strExists controlChar u) &&
  match unescape (default "" fragment), unescape p with Some _, Some _ => true | _, _ => false end &&
  (if hasPrefix p "//" && negb (hasPrefix p "///") then emptyHost (fst (cut "/" (trimPrefix p "//"))) else true).

Fixpoint escapeNonASCII (s : string) : string :=
  match s with
  | EmptyString => ""
  | String c r => (if byteZ c <? 128 then String c "" else "%" +:+ hexEncode (String c "")) +:+ escapeNonASCII r
  end.

(** The [Location] of a redirect to a target that starts with a slash: a path
    is cleaned, another host's is not. *)
Definition redirectLocation (target : string) : string :=
  escapeNonASCII (
    if hostless target then
      let '(p, query) := cut "?" target in
      let cleaned := clean p in
      (if hasSuffix p "/" && negb (hasSuffix cleaned "/") then cleaned +:+ "/" else cleaned)
      +:+ match query with Some q => "?" +:+ q | None => "" end
    else target).
