(* ===== verification/GoIP.v ===== *)
(** * GoIP: [net.ParseIP], [net.IP.String] and [net.SplitHostPort]

    An address is its eight groups of sixteen bits; an IPv4 address is the
    mapped one, as in the sixteen bytes [ParseIP] returns. *)
From S2P Require Import Prelude GoStrings.

Definition IP : Type := list Z.

Definition v4prefix : IP := [0; 0; 0; 0; 0; 65535].
Definition v4groups (a b c d : Z) : IP := [a * 256 + b; c * 256 + d].

(** ** Parsing *)

(** An octet in decimal, without leading zeros. *)
Definition octet (s : string) : option Z :=
  match s with
  | String c (String _ _) => if Ascii.eqb c "0"%char then None else n ← parseUDigits s; if n <=? 255 then Some n else None
  | _ => parseUDigits s
  end.

Definition parseIPv4Fields (s : string) : option IP :=
  match split "."%char s with
  | [s1; s2; s3; s4] => a ← octet s1; b ← octet s2; c ← octet s3; d ← octet s4; Some (v4groups a b c d)
  | _ => None
  end.

Definition hexValue (c : ascii) : option Z :=
  if isDigit c then Some (byteZ c - 48)
  else if inRange 97 102 c then Some (byteZ c - 87)
  else if inRange 65 70 c then Some (byteZ c - 55)
  else None.

(** The digits at the front of [s]: how many, their value, and what follows;
    [None] for more than four. *)
Fixpoint hexGroup (room : nat) (n acc : Z) (s : string) : option (Z * Z * string) :=
  match s with
  | EmptyString => Some (n, acc, s)
  | String c r =>
      match hexValue c, room with
      | None, _ => Some (n, acc, s)
      | Some _, O => None
      | Some d, S room' => hexGroup room' (n + 1) (acc * 16 + d) r
      end
  end.

(** The groups before the double colon, if there is one, and those after it.
    [room] is how many groups may still come. *)
Fixpoint parseGroups (room : nat) (before : option IP) (groups : IP) (s : string) : option (option IP * IP) :=
  match room with
  | O => if String.eqb s "" then Some (before, groups) else None
  | S room' =>
      '(n, value, rest) ← hexGroup 4 0 0 s;
      if n =? 0 then None
      else match rest with
      | EmptyString => Some (before, (groups ++ [value])%list)
      | String c rest' =>
          if Ascii.eqb c "."%char then
            match before, room' with
            | None, S O | Some _, S _ => last4 ← parseIPv4Fields s; Some (before, (groups ++ last4)%list)
            | _, _ => None
            end
          else if negb (Ascii.eqb c ":"%char) then None
          else match rest' with
          | EmptyString => None
          | String c' rest'' =>
              let groups := (groups ++ [value])%list in
              if Ascii.eqb c' ":"%char then
                match before with
                | Some _ => None
                | None => if String.eqb rest'' "" then Some (Some groups, []) else parseGroups room' (Some groups) [] rest''
                end
              else parseGroups room' before groups rest'
          end
      end
  end.

(** The double colon stands for at least one group of zero. *)
Definition expand (r : option IP * IP) : option IP :=
  match r with
  | (None, groups) => if Nat.eqb (length groups) 8 then Some groups else None
  | (Some before, after) =>
      let n := (length before + length after)%nat in
      if Nat.ltb n 8 then Some (before ++ repeat 0 (8 - n) ++ after)%list else None
  end.

Definition parseIPv6 (s : string) : option IP :=
  if hasPrefix s "::" then
    let s := drop 2 s in
    if String.eqb s "" then Some (repeat 0 8) else parseGroups 8 (Some []) [] s ≫= expand
  else parseGroups 8 None [] s ≫= expand.

(** [net.ParseIP]: [netip.ParseAddr] without a zone. *)
Fixpoint firstOf (set s : string) : option ascii :=
  match s with
  | EmptyString => None
  | String c r => if inSet set c then Some c else firstOf set r
  end.
Definition ParseIP (s : string) : option IP :=
  match firstOf ".:%" s with
  | Some "."%char => app v4prefix <$> parseIPv4Fields s
  | Some ":"%char => if contains s "%" then None else parseIPv6 s
  | _ => None
  end.

(** ** Printing *)
Definition hexText (n : Z) : string :=
  (if n <? 4096 then "" else String (hexDigit (n / 4096)) "") +:+ (if n <? 256 then "" else String (hexDigit (n / 256 mod 16)) "") +:+
  (if n <? 16 then "" else String (hexDigit (n / 16 mod 16)) "") +:+ String (hexDigit (n mod 16)) "".

Fixpoint zeroRun (l : IP) : nat :=
  match l with
  | x :: l' => if x =? 0 then S (zeroRun l') else O
  | [] => O
  end.

(** The first longest run of at least two groups of zero: its start and its
    length. *)
Definition longestRun (ip : IP) : nat * nat :=
  fold_left (fun best i => let n := zeroRun (skipn i ip) in if Nat.leb 2 n && Nat.ltb best.2 n then (i, n) else best)
    (seq 0 (length ip)) (length ip, O).

Definition string6 (ip : IP) : string :=
  let '(start, n) := longestRun ip in
  let groups l := join ":" (map hexText l) in
  if Nat.eqb n 0 then groups ip else groups (firstn start ip) +:+ "::" +:+ groups (skipn (start + n) ip).

(** [net.IP.String]. *)
Definition IPString (ip : IP) : string :=
  match ip with
  | [0; 0; 0; 0; 0; 65535; ab; cd] => join "." (map itoa [ab / 256; ab mod 256; cd / 256; cd mod 256])
  | _ => string6 ip
  end.

(** ** Host and port *)

(** What is before and after the last colon. *)
Fixpoint lastColon (s : string) : option (string * string) :=
  match s with
  | EmptyString => None
  | String c r =>
      match lastColon r with
      | Some (before, after) => Some (String c before, after)
      | None => if Ascii.eqb c ":"%char then Some ("", r) else None
      end
  end.

(** The host of [net.SplitHostPort]; [None] where it reports an error. *)
Definition SplitHost (hostport : string) : option string :=
  '(before, port) ← lastColon hostport;
  match hostport with
  | String "["%char _ =>
      let inner := drop 1 before in
      let host := trimSuffix inner "]" in
      if negb (hasSuffix inner "]") || containsAny host "[]" || containsAny port "[]" then None else Some host
  | _ => if containsAny before ":[]" || containsAny port "[]" then None else Some before
  end.

Example ParseIP_forms :
  map (fun s => IPString <$> ParseIP s)
    ["192.0.2.1"; "::ffff:192.0.2.1"; "2001:DB8:0:0:1:0:0:1"; "::"; "::1"; "fe80::1%eth0"; "1.2.3.04"; "1:2:3:4:5:6:7::"; "1:2:3:4:5:6:7:8::"; "::1.2.3.4"; "12345::"; "host"] =
  [Some "192.0.2.1"; Some "192.0.2.1"; Some "2001:db8::1:0:0:1"; Some "::"; Some "::1"; None; None; Some "1:2:3:4:5:6:7:0"; None; Some "::102:304"; None; None].
Proof. vm_compute. reflexivity. Qed.
Example SplitHost_forms :
  map SplitHost ["172.18.0.2:4711"; "[::1]:80"; "::1:80"; "172.18.0.2"; "[::1]"; "[::1]]:80"; ":80"] =
  [Some "172.18.0.2"; Some "::1"; None; None; None; None; Some ""].
Proof. vm_compute. reflexivity. Qed.
