(* ===== verification/Session.v ===== *)
(** * Session: who may use the panel, [cmd/panel/main.go]

    Requests and replies of the panel, the signed session cookie, the token
    against forged forms, the limit on logins, and the messages carried over a
    redirect.  [net/http] parses the request: its query, its form (or the
    failure to parse it), its cookies. *)
From S2P Require Import Prelude GoStrings GoPath GoFloat GoTime GoSha256 GoBase64 GoAes Effects World Core Json GoFloatText CoreJson CoreJsonFacts Worker Operations Settings Server Store ActivityLog I18n Panel.

(** [ClientIP] is what [loginClientIP] found out; [Upload] the name and
    contents of the form's file, of which at most the limit was read. *)
Module web.
Record request := Request {
  Method : string; Path : string; URI : string; Query : list (string * string); Form : result (list (string * string));
  Cookies : list (string * string); AcceptLanguage : string; ClientIP : string; Upload : option (string * string);
}.

(** A cookie is set, with the seconds or the instant it lasts, or deleted. *)
Record cookie := Cookie { Name : string; Value : string; MaxAge : Z; Expires : time }.

(** The first value of a key. *)
Definition first (key : string) (l : list (string * string)) : option string :=
  snd <$> find (fun kv => String.eqb kv.1 key) l.
Definition FormValue (r : request) (key : string) : string :=
  match Form r with Ok l => default "" (first key l) | Err _ => "" end.
Definition QueryValue (r : request) (key : string) : string := default "" (first key (Query r)).
Definition CookieValue (r : request) (name : string) : option string := first name (Cookies r).
End web.

(** An access to the maps of [app] under their mutex. *)
Definition memory {R} (f : pstate -> R * pstate) : M pop R := get (PMemory f).

(** ** Signatures *)

(** [hmac.New(sha256.New, key)] over a message. *)
Definition hmacBlock (key : string) : list Z :=
  let k := bytesOf (if 64 <? lenZ key then Sum256 key else key) in (k ++ repeat 0 (64 - length k))%list.
Definition hmacSHA256 (key message : string) : string :=
  let k := hmacBlock key in
  Sum256 (ofBytes (map (Z.lxor 92) k) +:+ Sum256 (ofBytes (map (Z.lxor 54) k) +:+ message)).

(** [base64.RawURLEncoding]. *)
Definition urlChar (c : ascii) : ascii := if Ascii.eqb c "+" then "-"%char else if Ascii.eqb c "/" then "_"%char else c.
Fixpoint mapString (f : ascii -> ascii) (s : string) : string :=
  match s with EmptyString => "" | String c r => String (f c) (mapString f r) end.
Definition RawURLEncode (s : string) : string := mapString urlChar (RawStdEncode s).

Section session.
Context (a : app).

Definition sign (payload : string) : string := RawURLEncode (hmacSHA256 (sessionKey a) payload).
Definition csrf (session : string) : string := sign ("csrf:" +:+ session).

Definition sessionCookie : string := "wph_session".

(** [authenticated] at the time [t]. *)
Definition sessionValid (value : string) (t : time) : bool :=
  match split "."%char value with
  | [payload; mac] =>
      match parseInt payload with
      | Ok expires => (unixSeconds t <? expires) && String.eqb (sign payload) mac
      | Err _ => false
      end
  | _ => false
  end.

Definition authenticated (r : web.request) : M pop bool :=
  match web.CookieValue r sessionCookie with
  | Some value => t ← now; mret (sessionValid value t)
  | None => mret false
  end.

Definition checkCSRF (r : web.request) : bool :=
  match web.CookieValue r sessionCookie, web.Form r with
  | Some value, Ok _ => String.eqb (web.FormValue r "csrf") (csrf value)
  | _, _ => false
  end.

(** The cookie of a login at time [t]. *)
Definition newSession (t : time) : web.cookie :=
  let expiry := t + 8 * hour in
  let payload := itoa (unixSeconds expiry) in
  web.Cookie sessionCookie (payload +:+ "." +:+ sign payload) 0 expiry.

(** ** The limit on logins *)
Definition setFails (ip : string) (l : list time) (s : pstate) : pstate := PState (flashes s) (<[ip := l]> (loginFails s)).

Definition recentFails (cutoff : time) (l : list time) : list time := filter (fun t => cutoff < t) l.

Definition keptFails (ip : string) (start : time) (s : pstate) : list time :=
  recentFails (start - 10 * minute) (default [] (loginFails s !! ip)).

(** Eight recent attempts are enough. *)
Definition refuseLogin (ip : string) (start : time) (s : pstate) : bool * pstate :=
  let kept := keptFails ip start s in
  if 8 <=? Z.of_nat (length kept) then (true, setFails ip kept s) else (false, s).
(** The attempt is reserved before the password is looked at. *)
Definition reserveLogin (ip : string) (start at_ : time) (s : pstate) : unit * pstate :=
  (tt, setFails ip (keptFails ip start s ++ [at_])%list s).

Definition loginAllowed (ip : string) : M pop bool :=
  start ← now;
  refused ← memory (refuseLogin ip start);
  match refused with
  | true => mret false
  | false => at_ ← now; _ ← memory (reserveLogin ip start at_); mret true
  end.

(** A login that succeeded forgets the failures. *)
Definition forgetFails (ip : string) : M pop unit := memory (fun s => (tt, PState (flashes s) (delete ip (loginFails s)))).

(** ** Messages over a redirect *)
Definition flashCookie : string := "wph_flash".

Definition putFlash (id : string) (cutoff created : time) (message error : string) (s : pstate) : unit * pstate :=
  (tt, PState (<[id := flash.mk message error created]> (filter (fun kv => ~ flash.Created kv.2 < cutoff) (flashes s))) (loginFails s)).

(** [setFlash]: the cookie. *)
Definition setFlash (message error : string) : M pop web.cookie :=
  b ← host (perform (ORand 8));
  start ← now; created ← now;
  _ ← memory (putFlash (newID b) (start - 5 * minute) created message error);
  mret (web.Cookie flashCookie (newID b) 120 zeroTime).

Definition dropFlash (id : string) (s : pstate) : flash.t * pstate :=
  (default flash.zero (flashes s !! id), PState (delete id (flashes s)) (loginFails s)).

Definition takeFlash (r : web.request) : M pop (flash.t * list web.cookie) :=
  match web.CookieValue r flashCookie with
  | Some value => item ← memory (dropFlash value); mret (item, [web.Cookie flashCookie "" (-1) zeroTime])
  | None => mret (flash.zero, [])
  end.
End session.
