(* ===== verification/Pages.v ===== *)
(** * Pages: what the panel shows, [cmd/panel/main.go]

    Replies, redirects with a message, and [render]: the data a page is filled
    with.  A page is the record its template is given ([Html]). *)
From S2P Require Import Prelude GoStrings GoPath GoFloat GoTime GoUrl GoBase64 Effects World Core Json GoFloatText CoreJson CoreJsonFacts Worker Storage Capacity Operations Settings Files Server Store ActivityLog I18n Messages Panel Session.

(** The part of [view] a handler chooses. *)
Record view := View { v_logged : bool; v_page : string; v_site : string; v_message : string; v_error : string }.
Definition page (name site message error : string) : view := View true name site message error.
(** [view{LoggedIn: true, Error: ...}]. *)
Definition failure (error : string) : view := page "" "" "" error.

(** The filled page. *)
Record shown := Shown {
  s_view : view; s_language : string; s_direction : string; s_current : string; s_title : string; s_guide : string;
  s_sites : list Site.t; s_plans : list ResourcePlan.t; s_capacity : option HostCapacity.t; s_capacityError : string;
  s_disk : option StorageCapability.t; s_mail : Mail.t; s_activity : list Entry.t;
  s_stats : gmap string SiteStats.t; s_storage : gmap string SiteStorage.t; s_statsError : string; s_csrf : string;
}.
Record filesShown := FilesShown {
  f_site : Site.t; f_current : string; f_parent : string; f_entries : list (FileEntry.t * string); f_error : string; f_message : string;
  f_language : string; f_direction : string; f_pagePath : string; f_csrf : string }.

Inductive content := Nothing | Text (s : string) | Page (p : shown) | FilesPage (p : filesShown) | Asset | Download (name bytes : string)
  | Proxied (host path prefix : string) (cookies : list (string * string)).
Record reply := Reply { r_status : Z; r_location : string; r_cookies : list web.cookie; r_content : content }.

Definition errorReply (status : Z) (text : string) : reply := Reply status "" [] (Text text).
Definition withCookies (cs : list web.cookie) (r : reply) : reply := Reply (r_status r) (r_location r) (cs ++ r_cookies r)%list (r_content r).
Definition redirect (target : string) (cookies : list web.cookie) : reply := Reply 303 (redirectLocation target) cookies Nothing.

(** ** The worker's answers *)
Definition containerStatsFields : list (string * setter ContainerStats.t) :=
  let mk := ContainerStats.mk in
  [("cpu", setString (fun v s => mk v (ContainerStats.Memory s) (ContainerStats.MemoryPC s) (ContainerStats.NetIO s) (ContainerStats.BlockIO s) (ContainerStats.PIDs s)));
   ("memory", setString (fun v s => mk (ContainerStats.CPU s) v (ContainerStats.MemoryPC s) (ContainerStats.NetIO s) (ContainerStats.BlockIO s) (ContainerStats.PIDs s)));
   ("memory_percent", setString (fun v s => mk (ContainerStats.CPU s) (ContainerStats.Memory s) v (ContainerStats.NetIO s) (ContainerStats.BlockIO s) (ContainerStats.PIDs s)));
   ("network_io", setString (fun v s => mk (ContainerStats.CPU s) (ContainerStats.Memory s) (ContainerStats.MemoryPC s) v (ContainerStats.BlockIO s) (ContainerStats.PIDs s)));
   ("block_io", setString (fun v s => mk (ContainerStats.CPU s) (ContainerStats.Memory s) (ContainerStats.MemoryPC s) (ContainerStats.NetIO s) v (ContainerStats.PIDs s)));
   ("pids", setString (fun v s => mk (ContainerStats.CPU s) (ContainerStats.Memory s) (ContainerStats.MemoryPC s) (ContainerStats.NetIO s) (ContainerStats.BlockIO s) v))].
Definition zeroContainerStats : ContainerStats.t := ContainerStats.mk "" "" "" "" "" "".
Definition siteStatsFields : list (string * setter SiteStats.t) :=
  [("wordpress", setPointer containerStatsFields zeroContainerStats SiteStats.WordPress (fun v s => SiteStats.mk v (SiteStats.Database s)));
   ("database", setPointer containerStatsFields zeroContainerStats SiteStats.Database (fun v s => SiteStats.mk (SiteStats.WordPress s) v))].
Definition siteStorageFields : list (string * setter SiteStorage.t) :=
  [("wordpress_bytes", setInt64 (fun v s => SiteStorage.mk v (SiteStorage.DatabaseBytes s) (SiteStorage.BackupBytes s)));
   ("database_bytes", setInt64 (fun v s => SiteStorage.mk (SiteStorage.WordPressBytes s) v (SiteStorage.BackupBytes s)));
   ("backup_bytes", setInt64 (fun v s => SiteStorage.mk (SiteStorage.WordPressBytes s) (SiteStorage.DatabaseBytes s) v))].
Definition contentFields : list (string * setter FileContent.t) :=
  [("name", setString (fun v c => FileContent.mk v (FileContent.Content c))); ("content", setBytes (fun v c => FileContent.mk (FileContent.Name c) v))].

(** One value of an answer that is not a struct. *)
Definition readsValue {A} (decode : json -> result A) (text : string) : result A :=
  match nextValue (if resultLimit <? lenZ text then take (Z.to_nat resultLimit) text else text) with
  | Ok (Some (v, _)) => decode v
  | Ok None => Err (EMsg "EOF")
  | Err e => Err e
  end.
Definition readsMap {A} (fs : list (string * setter A)) (zero : A) : string -> result (gmap string A) :=
  readsValue (decodeMap (decodeStruct false fs) zero).
Definition readsList {A} (fs : list (string * setter A)) (zero : A) : string -> result (list A) :=
  readsValue (fun v => match v with JNull => Ok [] | JArr l => decodeElements (decodeStruct false fs) zero l | _ => Err typeError end).

(** Consecutive pieces of at most [n]. *)
Fixpoint batches {A} (fuel n : nat) (l : list A) : list (list A) :=
  match fuel, l with
  | O, _ | _, [] => []
  | S fuel', _ => firstn n l :: batches fuel' n (skipn n l)
  end.

Section pages.
Context (a : app) `{Unicode}.

Definition language (r : web.request) : string := Resolve (web.CookieValue r CookieName) (web.AcceptLanguage r).
Definition say (r : web.request) (key : string) : string := T (language r) key.

Definition redirectWithFlashTo (target message error : string) : M pop reply :=
  c ← try (setFlash message error);
  mret (match c with
        | Err _ => errorReply 500 "unable to create result message"
        | Ok c => redirect target [c]
        end).
Definition redirectWithFlash : string -> string -> M pop reply := redirectWithFlashTo "/".

(** Usage of the running sites, batch by batch, up to the first that fails. *)
Fixpoint gather {A} (path what : string) (decode : string -> result (gmap string A)) (l : list (list string)) (acc : gmap string A)
  : M pop (gmap string A * string) :=
  match l with
  | [] => mret (acc, "")
  | ids :: rest =>
      b ← try (callWorker a path (Ok (siteIDsJSON ids)) 200 decode);
      match b with
      | Err e => mret (acc, what +:+ errorText e)
      | Ok batch => gather path what decode rest (batch ∪ acc)
      end
  end.

Definition isRunning (s : Site.t) : bool := String.eqb (Site.Status s) StatusRunning.

Definition usage (sites : list Site.t) : M pop (gmap string SiteStats.t * gmap string SiteStorage.t * string) :=
  let ids := map Site.ID (filter (fun s => isRunning s = true) sites) in
  stats ← gather "/stats" "Unable to load live usage: " (readsMap siteStatsFields (SiteStats.mk None None)) (batches (length ids) 100 ids) ∅;
  storage ← gather "/storage" "Unable to load storage usage: " (readsMap siteStorageFields (SiteStorage.mk 0 0 0)) (batches (length ids) 50 ids) ∅;
  mret (fst stats, fst storage, if String.eqb (snd storage) "" then snd stats else snd storage).

Definition capacityOf (site : string) : M pop HostCapacity.t :=
  callWorker a "/capacity" (Ok (runtimeRequestJSON site)) 200 (reads hostCapacityFields.fields hostCapacityFields.zero).

(** The capacity a form is shown with: none when the answer has no host. *)
Definition shownCapacity (r : web.request) (v : view) : M pop (option HostCapacity.t * string) :=
  if String.eqb (v_page v) "new" || String.eqb (v_page v) "resources" then
    c ← try (capacityOf (v_site v));
    mret (match c with
          | Err _ => (None, say r "capacity_unavailable")
          | Ok c => (if (0 <? HostCapacity.MemoryBytes c) && fgtb (HostCapacity.CPUs c) (fofZ 0) then Some c else None, "")
          end)
  else mret (None, "").

Definition shownDisk (v : view) : M pop (option StorageCapability.t) :=
  if String.eqb (v_page v) "resources" then
    c ← try (callWorker a "/storage/capability" (Ok (runtimeRequestJSON (v_site v))) 200
      (reads storageCapability.fields (StorageCapability.mk "" "" false false false "")));
    mret (match c with Ok c => Some c | Err _ => None end)
  else mret None.

(** The title and the guide of a page; none for another name. *)
Definition headings (page : string) : string * string :=
  match page with
  | "dashboard" => ("dashboard_title", "dashboard_guide")
  | "new" => ("new_title", "new_guide")
  | "settings" => ("settings", "settings_page_guide")
  | "activity" => ("activity_title", "activity_guide")
  | "site" => ("site_title_page", "site_guide")
  | "backups" => ("backups_title", "backups_guide")
  | "updates" => ("updates_title", "updates_guide")
  | "database" => ("database_title", "database_guide")
  | "resources" => ("resources_title", "resources_guide")
  | "roadmap" => ("roadmap_title", "roadmap_guide")
  | _ => ("", "")
  end.

(** [render], the page being [v] with its default name. *)
Definition render (r : web.request) (v : view) : M pop reply :=
  let v := View (v_logged v) (if String.eqb (v_page v) "" then "dashboard" else v_page v) (v_site v) (v_message v) (v_error v) in
  let lang := language r in
  let show := Shown v lang (Direction lang) (web.URI r) (T lang (fst (headings (v_page v)))) (T lang (snd (headings (v_page v)))) in
  if negb (v_logged v) then mret (Reply 200 "" [] (Page (show [] [] None "" None Mail.zero [] ∅ ∅ "" "")))
  else
    sites ← try (host (List_ (storePath a)));
    match sites with
    | Err _ => mret (errorReply 500 "unable to read sites")
    | Ok sites =>
        plans ← try (host (ListResourcePlans (storePath a)));
        match plans with
        | Err _ => mret (errorReply 500 "unable to read resource plans")
        | Ok plans =>
            let sites := if String.eqb (v_site v) "" then sites else filter (fun s => Site.ID s = v_site v) sites in
            if negb (String.eqb (v_site v) "") && Nat.eqb (length sites) 0 then mret (errorReply 404 "404 page not found")
            else
              capacity ← shownCapacity r v;
              disk ← shownDisk v;
              mail ← try (host (Load (settingsStore a)));
              activity ← try (host (ListEntries (auditPath a) 20));
              use ← (if String.eqb (web.QueryValue r "stats") "1" then usage sites else mret (∅, ∅, ""));
              mret (Reply 200 "" []
                (Page (show sites plans (fst capacity) (snd capacity) disk (match mail with Ok m => m | Err _ => Mail.zero end)
                         (match activity with Ok l => l | Err _ => [] end) (fst (fst use)) (snd (fst use)) (snd use)
                         (match web.CookieValue r sessionCookie with Some c => csrf a c | None => "" end))))
        end
    end.
End pages.
