(* ===== verification/Link.v ===== *)
(** * Link: the panel and the worker, connected

    The worker at the panel's other end is the program of [Server] on a host of
    its own; the network between them delivers, loses the reply, or loses the
    request. *)
From S2P Require Import Prelude GoStrings GoPath GoFloat GoTime GoBase64 Effects World Core Json GoFloatText CoreJson CoreJsonFacts Policy Worker QuotaState Capacity Operations Settings Server Store ActivityLog Panel.

Inductive fate := Delivered | ReplyLost | RequestLost.

Section link.
Context (cfg : config) `{Unicode} `{Env}.

(** The worker's host and what becomes of the next calls; further calls are
    delivered. *)
Record linked := Linked { l_worker : world; l_fates : list fate }.

(** [a.client.Do(req)] with [callWorkerContext]'s headers: the worker's token
    is the panel's. *)
Definition workerCall (l : linked) (path body operationID : string) : linked * answered :=
  let fate := match l_fates l with [] => Delivered | f :: _ => f end in
  let fates := match l_fates l with [] => [] | _ :: fates => fates end in
  match fate with
  | RequestLost => (Linked (l_worker l) fates, inl "connection refused")
  | _ =>
      let '(r, w, _) := exec (ServeHTTP cfg false (request.mk "POST" (token cfg) path operationID body)) (l_worker l) in
      (Linked w fates,
       match fate, r with
       | ReplyLost, _ => inl "context deadline exceeded"
       | _, Ok resp => inr (response.Status resp, response.Body resp)
       | _, Err e => inl (errorText e)
       end)
  end.

Definition workerPeer : Peer := {| peer := linked; peer_call := workerCall |}.
End link.
