(* ===== verification/PanelFacts.v ===== *)
(** * PanelFacts: the marker is durable before the side effect

    The host's programs inside the panel's, what a call leaves in the store,
    and [callTracked]: its pending marker is stored before the worker is asked
    and stays until a handler or a reconciliation replaces it.  The panel and
    the worker of the witnesses. *)
From S2P Require Import Prelude GoStrings Utf8Facts GoPath GoFloat GoTime GoBase64 Effects World Core CoreFacts Json JsonFacts GoFloatText CoreJson CoreJsonFacts Worker Samples Policy QuotaState Capacity Operations Settings Server Store StoreFacts ActivityLog Panel Link.
Set Warnings "-register-all".

(** What happened on the host, and what the worker was asked. *)
Definition hostEvents (t : list pevent) : list event := omap (fun e => match e with PEv e => Some e | PECall _ _ _ _ => None end) t.
Definition asked (t : list pevent) : list (string * string * string * answered) :=
  omap (fun e => match e with PEv _ => None | PECall p b i r => Some (p, b, i, r) end) t.

Section exec.
Context `{Env} `{Peer}.

Lemma hostEvents_app t1 t2 : hostEvents (t1 ++ t2) = (hostEvents t1 ++ hostEvents t2)%list.
Proof. apply omap_app. Qed.
Lemma asked_app t1 t2 : asked (t1 ++ t2) = (asked t1 ++ asked t2)%list.
Proof. apply omap_app. Qed.
Lemma hostEvents_host t : hostEvents (map PEv t) = t.
Proof. unfold hostEvents. induction t as [|e t IH]; [done|]. cbn. by rewrite IH. Qed.
Lemma asked_host t : asked (map PEv t) = [].
Proof. unfold asked. induction t as [|e t IH]; [done|]. cbn. by rewrite IH. Qed.

Lemma pexec_bind {A B} (p : M pop A) (f : A -> M pop B) w r w' t :
  pexec (mbind (M := M pop) f p) w = (r, w', t) ->
  (exists e, pexec p w = (Err e, w', t) /\ r = Err e) \/
  (exists a w1 t1 t2, pexec p w = (Ok a, w1, t1) /\ pexec (f a) w1 = (r, w', t2) /\ t = (t1 ++ t2)%list).
Proof.
  unfold pexec. intros Hr. change (mbind f p) with (pbind p (fun r => match r with Ok a => f a | Err e => Ret (Err e) end)) in Hr.
  apply run_bind_inv in Hr as ([a|e]&w1&t1&t2&H1&H2&->).
  - right. by exists a, w1, t1, t2.
  - left. exists e. injection H2 as <- <- <-. by rewrite app_nil_r.
Qed.

Lemma pexec_try {A} (p : M pop A) w r w' t :
  pexec (try p) w = (r, w', t) <-> exists a, r = Ok a /\ pexec p w = (a, w', t).
Proof.
  unfold try, pexec. rewrite run_bind. destruct (run pstep p w) as [[a w1] t1]. simpl. rewrite app_nil_r.
  split; [intros [= <- <- <-]; eauto|intros (a'&->&[= <- <- <-]); done].
Qed.

(** After a [try] the program goes on. *)
Lemma pexec_try_bind {A B} (p : M pop A) (f : result A -> M pop B) w r w' t :
  pexec (mbind (M := M pop) f (try p)) w = (r, w', t) ->
  exists a w1 t1 t2, pexec p w = (a, w1, t1) /\ pexec (f a) w1 = (r, w', t2) /\ t = (t1 ++ t2)%list.
Proof.
  intros [(e&(a&?&_)%pexec_try&_)|(a&w1&t1&t2&(a'&[= <-]&Hp)%pexec_try&Hf&->)]%pexec_bind; [done|]. by exists a, w1, t1, t2.
Qed.

Lemma pexec_ret {A} (a : A) w r w' t : pexec (Ret a) w = (r, w', t) -> r = a /\ w' = w /\ t = [].
Proof. by intros [= <- <- <-]. Qed.

(** A host program changes the host only, and does there what it does alone. *)
Lemma pexec_host {A} (p : prog wop A) w :
  pexec (host p) w = (let '(r, h, t) := exec p (p_host w) in (r, PWorld _ _ h (p_peer w) (p_state w), map PEv t)).
Proof.
  unfold pexec, exec. revert w. induction p as [a|R o k IH]; intros w; cbn [host run pstep]; [by destruct w|].
  destruct (wstep R o (p_host w)) as [[r h] t]. rewrite IH. cbn [p_host p_peer p_state].
  destruct (run wstep (k r) h) as [[r' h'] t']. by rewrite map_app.
Qed.

Lemma pexec_host_inv {A} (p : prog wop A) w r w' t :
  pexec (host p) w = (r, w', t) ->
  exists th, exec p (p_host w) = (r, p_host w', th) /\ t = map PEv th /\ p_peer w' = p_peer w /\ p_state w' = p_state w.
Proof.
  rewrite pexec_host. destruct (exec p (p_host w)) as [[a h] th]. intros [= <- <- <-]. cbn. by exists th.
Qed.

(** The panel's file system is the replay of its events. *)
Lemma pexec_replay {A} (p : prog pop A) w : w_fs (p_host (pexec p w).1.2) = replay (hostEvents (pexec p w).2) (w_fs (p_host w)).
Proof.
  unfold pexec. revert w. induction p as [a|R o k IH]; intros w; cbn [run]; [done|].
  assert (w_fs (p_host (pstep R o w).1.2) = replay (hostEvents (pstep R o w).2) (w_fs (p_host w))) as Hs.
  { destruct o; cbn [pstep].
    - pose proof (wstep_replay _ o (p_host w)) as Hw. destruct (wstep _ o (p_host w)) as [[r h] t]. cbn in *. by rewrite hostEvents_host.
    - by destruct (peer_call _ _ _ _) as [q r].
    - by destruct (f (p_state w)). }
  destruct (pstep R o w) as [[r w1] t1]. specialize (IH r w1). destruct (run pstep (k r) w1) as [[a w2] t2]. cbn in *.
  rewrite hostEvents_app. unfold replay in *. by rewrite foldl_app, IH, Hs.
Qed.

Lemma pexec_fs {A} (p : prog pop A) w a w' t :
  pexec p w = (a, w', t) -> w_fs (p_host w') = replay (hostEvents t) (w_fs (p_host w)).
Proof. intros E. pose proof (pexec_replay p w) as Hr. by rewrite E in Hr. Qed.

Lemma pexec_now w r w' t : pexec now w = (r, w', t) -> exists n, r = Ok n /\ w_fs (p_host w') = w_fs (p_host w) /\ t = [] /\ p_peer w' = p_peer w.
Proof.
  intros (th&Hx&->&Hp&_)%pexec_host_inv. destruct (quiet_same (get ONow) _ _ _ _ (causes_get _ ONow eq_refl) Hx) as [-> ->].
  unfold exec, get in Hx. cbn [run wstep] in Hx. destruct (env_now _) as [e n]. injection Hx as <- _. by exists n.
Qed.

Lemma pexec_now_bind {B} (f : time -> M pop B) w r w' t :
  pexec (mbind (M := M pop) f now) w = (r, w', t) ->
  exists n w1, pexec (f n) w1 = (r, w', t) /\ w_fs (p_host w1) = w_fs (p_host w) /\ p_peer w1 = p_peer w.
Proof.
  intros [(e&(n&[=]&_)%pexec_now&_)|(n&w1&t1&t2&(m&[= <-]&Hw&->&Hp)%pexec_now&Hf&->)]%pexec_bind. by exists n, w1.
Qed.
End exec.

Lemma prefix_of_app {A} (t0 t1 t2 : list A) :
  t0 `prefix_of` (t1 ++ t2)%list -> t0 `prefix_of` t1 \/ exists t, t0 = (t1 ++ t)%list /\ t `prefix_of` t2.
Proof.
  revert t0. induction t1 as [|x t1 IH]; intros t0 Hp; [by right; exists t0|].
  destruct t0 as [|y t0]; [left; apply prefix_nil|]. cbn in Hp. apply prefix_cons_inv_1 in Hp as Hy. subst y.
  apply prefix_cons_inv_2 in Hp. destruct (IH _ Hp) as [Ht|(t&->&Ht)]; [left; by apply prefix_cons|right; by exists t].
Qed.

Lemma prefix_map_PEv t0 th : t0 `prefix_of` map PEv th -> exists th0, t0 = map PEv th0 /\ th0 `prefix_of` th.
Proof.
  intros [k Hk]. apply map_eq_app in Hk as (th0&th1&->&<-&_). exists th0. split; [done|by exists th1].
Qed.

(** The meaning of a reply, for a caller that expects [expected]. *)
Definition answerOf {A} (expected : Z) (decode : string -> result A) (r : answered) : result A :=
  match r with
  | inl m => Err (EMsg m)
  | inr (status, text) => if negb (status =? expected) then Err (EResponse status (trimSpace (take 2000 text))) else decode text
  end.

(** ** The activity log leaves the store alone *)

(** [q] is neither [p] nor below it. *)
Definition apart (q p : string) : bool := negb (String.eqb q p) && negb (hasPrefix q (p +:+ "/")).

(** The store's file and the log's files do not meet. *)
Definition separate (a : app) : bool :=
  apart (storePath a) (auditPath a) && apart (storePath a) (auditPath a +:+ ".1") &&
  negb (existsb (String.eqb (storePath a)) (ancestors (dir (auditPath a)))).

Lemma causes_rename_apart `{Env} q src dst : apart q src = true -> apart q dst = true -> causes (leaves q) (perform (ORename src dst)).
Proof.
  unfold apart. rewrite !andb_true_iff, !negb_true_iff, !String.eqb_neq. intros [Hs1 Hs2] [Hd1 Hd2].
  apply emits_perform. intros w. cbn [wstep]. apply sys_events. intros w0. unfold mutate. repeat case_match; simpl; repeat constructor; simpl.
  all: intros [Hin|Hin]; apply elem_of_cons in Hin as [->|Hin]; try done.
  all: apply list_elem_of_fmap in Hin as (y&->&Hy); apply list_elem_of_fmap in Hy as (z&->&Hz); cbn [fst snd] in *;
    apply list_elem_of_filter in Hz as [Hz _]; try congruence.
  all: apply hasPrefix_true in Hz as [r ->]; rewrite app_assoc_str, drop_app in Hd2; by rewrite <- app_assoc_str, hasPrefix_app in Hd2.
Qed.

Lemma Append_leaves `{Env} a e : separate a = true -> causes (leaves (storePath a)) (Append (auditPath a) e).
Proof.
  unfold separate. intros Hs. bool_solve. unfold Append, rotate.
  assert (storePath a <> auditPath a) as Hne by (unfold apart in *; bool_solve; by apply String.eqb_neq).
  assert (storePath a <> auditPath a +:+ ".1") as Hne1 by (unfold apart in *; bool_solve; by apply String.eqb_neq).
  causes_auto; try by apply causes_rename_apart.
  - apply causes_mkdir. intros ps Hps Hin. rewrite Forall_forall in Hps. apply Hps in Hin.
    match goal with H : existsb _ _ = false |- _ => apply not_true_iff_false in H; apply H end.
    apply existsb_exists. exists (storePath a). split; [by apply list_elem_of_In|apply String.eqb_refl].
  - apply emits_perform. intros w. cbn [wstep]. apply sys_events. intros w0. unfold mutate. repeat case_match; simpl; repeat constructor; simpl;
      intros Hin%list_elem_of_singleton; done.
  - apply causes_append. intros d. simpl. congruence.
Qed.

Section store.
Context `{Env} `{Peer} (a : app) (b : string).
Hypothesis Hpath : storePath a = dir (storePath a) +/+ b.

(** The panel's store stands for the map [m]. *)
Definition holds (m : gmap string Site.t) (w : pworld) : Prop := represents (storePath a) m (w_fs (p_host w)).

(** Storing a site: it is stored or the store is as it was, and so after a
    crash. *)
Lemma exec_putSite s m w r w' t :
  holds m w -> siteOK s = true -> pexec (putSite a s) w = (r, w', t) ->
  asked t = [] /\ p_peer w' = p_peer w /\
  (r = Ok tt /\ holds (<[Site.ID s := s]> m) w' \/ (exists e, r = Err e) /\ holds m w') /\
  forall t0, t0 `prefix_of` t -> asked t0 = [] /\
    (represents (storePath a) m (replay (hostEvents t0) (w_fs (p_host w))) \/
     represents (storePath a) (<[Site.ID s := s]> m) (replay (hostEvents t0) (w_fs (p_host w)))).
Proof.
  intros Hm Hs (th&Hx&->&Hp&_)%pexec_host_inv. pose proof (storable_insert m s (proj1 Hm) Hs) as Hst.
  destruct (update_refines (storePath a) b Hpath (fun m => <[Site.ID s := s]> m) m _ _ _ _ Hm Hst Hx) as [Hr Hpre].
  split; [apply asked_host|]. split; [done|]. split; [exact Hr|].
  intros t0 (th0&->&Hth)%prefix_map_PEv. rewrite asked_host, hostEvents_host. split; [done|]. by apply Hpre.
Qed.

(** A call asks at most once and changes nothing of the panel's. *)
Lemma exec_call {A} operationID path body expected (decode : string -> result A) w r w' t :
  pexec (callWorkerContext a operationID path body expected decode) w = (r, w', t) ->
  p_host w' = p_host w /\ p_state w' = p_state w /\
  ((t = [] /\ p_peer w' = p_peer w /\ exists e, r = Err e) \/
   exists j reply, body = Ok j /\ t = [PECall path (printJSON j) operationID reply] /\ r = answerOf expected decode reply /\
     peer_call (p_peer w) path (printJSON j) operationID = (p_peer w', reply)).
Proof.
  unfold callWorkerContext. destruct (configured a); cbn [negb]; [|intros (->&->&->)%pexec_ret; split; [done|split; [done|left; eauto]]].
  intros [(e&(<-&->&->)%pexec_ret&->)|(j&w1&t1&t2&(<-&->&->)%pexec_ret&Hx&->)]%pexec_bind; [split; [done|split; [done|left; eauto]]|].
  unfold pexec in Hx. cbn [mbind M_bind pbind perform run pstep] in Hx. destruct (peer_call _ _ _ _) as [q reply] eqn:Hq.
  assert (exists x, (r, w', t2) = (x, PWorld _ _ (p_host w) q (p_state w), [PECall path (printJSON j) operationID reply]) /\
    x = answerOf expected decode reply) as (x&[= -> -> ->]&->).
  { eexists. split; [|reflexivity]. rewrite <- Hx. destruct reply as [m|[status text]]; cbn; [done|]. by destruct (negb _). }
  split; [done|]. split; [done|]. right. by exists j, reply.
Qed.

(** The site with a pending marker. *)
Definition markedBy (site : Site.t) (op : Operation.t) (m : gmap string Site.t) : gmap string Site.t :=
  <[Site.ID site := setOperation (Some op) site]> m.

(** What the store may hold while the worker has been asked [l]: nothing new
    before it was asked, and from then on a pending marker with the identifier
    the worker was given. *)
Definition covered (site : Site.t) (kind : string) (m : gmap string Site.t) (l : list (string * string * string * answered)) (fs : fsmap) : Prop :=
  (l = [] /\ represents (storePath a) m fs) \/
  exists op, pendingOp op = true /\ Operation.Kind op = kind /\ ValidID (Operation.ID op) = true /\
    Forall (fun q => q.1.2 = Operation.ID op) l /\ represents (storePath a) (markedBy site op m) fs.

Lemma siteOK_marked site id kind state started finished error :
  siteOK site = true -> ValidID id = true -> validUTF8 kind = true -> validUTF8 state = true -> validUTF8 error = true ->
  siteOK (setOperation (Some (Operation.mk id kind state started finished error None false)) site) = true.
Proof.
  intros Hs Hi%id_utf8 Hk Hst He. unfold siteOK, setOperation in *.
  cbn [Site.ID Site.Domain Site.Title Site.AdminEmail Site.Status Site.Error Site.HealthError Site.MemoryMB Site.CPUs Site.Backups
       Site.BackupPolicy Site.Operation] in *.
  apply andb_prop in Hs as [-> _]. unfold operationOK. cbn [Operation.ID Operation.Kind Operation.State Operation.Error Operation.Backup forallb].
  by rewrite Hi, Hk, Hst, He.
Qed.

Lemma markedBy_again site op op' m : markedBy site op' (markedBy site op m) = markedBy site op' m.
Proof. apply insert_insert_eq. Qed.

(** The store from the marker on: it was stored with [op1], the worker was
    asked (or could not be), and it is stored with [op2]. *)
Lemma covered_again site kind m op1 op2 l tp fs :
  pendingOp op1 = true -> pendingOp op2 = true -> Operation.Kind op1 = kind -> Operation.Kind op2 = kind ->
  Operation.ID op2 = Operation.ID op1 -> ValidID (Operation.ID op1) = true -> Forall (fun q => q.1.2 = Operation.ID op1) l ->
  (forall t0, t0 `prefix_of` tp -> asked t0 = [] /\
    (represents (storePath a) (markedBy site op1 m) (replay (hostEvents t0) fs) \/
     represents (storePath a) (markedBy site op2 (markedBy site op1 m)) (replay (hostEvents t0) fs))) ->
  forall t0, t0 `prefix_of` tp -> covered site kind m (l ++ asked t0)%list (replay (hostEvents t0) fs).
Proof.
  intros Hp1 Hp2 Hk1 Hk2 Hi Hv Hl Hpre t0 Ht. destruct (Hpre t0 Ht) as [-> Hr]. rewrite app_nil_r. right.
  rewrite markedBy_again in Hr. destruct Hr as [Hr|Hr]; [by exists op1|]. exists op2. by rewrite Hi.
Qed.

(** The worker is asked between two states of the store, both marked. *)
Lemma covered_asked {A} site kind m op operationID path body expected (decode : string -> result A) w r w' t :
  holds (markedBy site op m) w -> pendingOp op = true -> Operation.Kind op = kind -> ValidID (Operation.ID op) = true ->
  operationID = Operation.ID op -> pexec (callWorkerContext a operationID path body expected decode) w = (r, w', t) ->
  p_host w' = p_host w /\ hostEvents t = [] /\ Forall (fun q => q.1.2 = Operation.ID op) (asked t) /\
  (forall t0, t0 `prefix_of` t -> covered site kind m (asked t0) (replay (hostEvents t0) (w_fs (p_host w)))) /\
  (asked t = [] /\ (exists e, r = Err e) \/
   exists j reply, body = Ok j /\ asked t = [(path, printJSON j, Operation.ID op, reply)] /\ r = answerOf expected decode reply).
Proof.
  intros Hm Hp Hk Hv -> (Hh&_&[(->&_&e&->)|(j&reply&->&->&->&_)])%exec_call; (split; [done|]).
  - split_and!; try done; [|left; eauto]. intros t0 ->%prefix_nil_inv. right. by exists op.
  - split_and!; try done; [by repeat constructor| |right; by exists j, reply]. intros t0 [k Hk0]. right. exists op. split_and!; try done;
      destruct t0 as [|x t0]; try (by constructor); try done; injection Hk0 as <- Hk0; symmetry in Hk0; apply app_nil in Hk0 as [-> _];
      [by repeat constructor|done].
Qed.


(** What holds on the way of two traces holds on the way of both. *)
Lemma prefixes_app (P : list (string * string * string * answered) -> fsmap -> Prop) t1 t2 fs :
  (forall t0, t0 `prefix_of` t1 -> P (asked t0) (replay (hostEvents t0) fs)) ->
  (forall t0, t0 `prefix_of` t2 -> P (asked t1 ++ asked t0)%list (replay (hostEvents t0) (replay (hostEvents t1) fs))) ->
  forall t0, t0 `prefix_of` (t1 ++ t2)%list -> P (asked t0) (replay (hostEvents t0) fs).
Proof.
  intros H1 H2 t0 [Ht|(t&->&Ht)]%prefix_of_app; [by apply H1|]. rewrite asked_app, hostEvents_app, replay_app. by apply H2.
Qed.

(** [callTracked] once its marker [op1] is stored. *)
Definition afterMarker {A} (site : Site.t) (op1 : Operation.t) path body expected (decode : string -> result A) : M pop (Site.t * result A) :=
  r ← try (callWorkerContext a (Operation.ID op1) path body expected decode);
  match r with
  | Ok x =>
      finished ← now;
      mret (setOperation (Some (Operation.mk (Operation.ID op1) (Operation.Kind op1) "succeeded" (Operation.StartedAt op1) finished "" None false)) site, Ok x)
  | Err e =>
      let site := setOperation (Some (setOutcome op1 (Operation.Kind op1) "pending" unconfirmed)) site in
      saved ← try (putSite a site);
      mret (site, match saved with
                  | Err e' => Err (EWrap "unable to save operation result" e')
                  | Ok _ => Err e
                  end)
  end.

(** What it returns, given what the worker was asked. *)
Definition outcomeOf {A} (site : Site.t) (kind path : string) (body : result json) (expected : Z) (decode : string -> result A)
    (l : list (string * string * string * answered)) (r : result (Site.t * result A)) : Prop :=
  (l = [] \/ exists j id reply, body = Ok j /\ l = [(path, printJSON j, id, reply)]) /\
  exists site' outcome, r = Ok (site', outcome) /\
    match outcome with
    | Ok x => exists op q reply, site' = setOperation (Some op) site /\ Operation.State op = "succeeded" /\ Operation.Kind op = kind /\ operationOK op = true /\
        l = [(q, Operation.ID op, reply)] /\ answerOf expected decode reply = Ok x
    | Err _ => site' = site \/ exists op, site' = setOperation (Some op) site /\ pendingOp op = true
    end.

Lemma exec_afterMarker {A} site op1 path body expected (decode : string -> result A) m w r w' t :
  holds (markedBy site op1 m) w -> siteOK site = true -> validUTF8 (Operation.Kind op1) = true -> ValidID (Operation.ID op1) = true ->
  pendingOp op1 = true -> Operation.Backup op1 = None -> Operation.AdmissionRejected op1 = false ->
  pexec (afterMarker site op1 path body expected decode) w = (r, w', t) ->
  (forall t0, t0 `prefix_of` t -> covered site (Operation.Kind op1) m (asked t0) (replay (hostEvents t0) (w_fs (p_host w)))) /\
  outcomeOf site (Operation.Kind op1) path body expected decode (asked t) r.
Proof.
  destruct op1 as [id kind state started finished error backup rejected].
  cbn [Operation.ID Operation.Kind Operation.Backup Operation.AdmissionRejected] in *. intros Hm Hs Hk Hid Hpend -> ->. unfold afterMarker.
  cbn [Operation.ID Operation.Kind Operation.StartedAt]. set (op1 := Operation.mk id kind state started finished error None false) in *. intros (x&w1&t1&t2&Hcall&Hx&->)%pexec_try_bind.
  eapply (covered_asked _ kind m op1) in Hcall as (Hw1&Hh&Hall&Hcov&Hout); [|done..].
  destruct x as [x|e].
  - apply pexec_now_bind in Hx as (n&w2&(->&->&->)%pexec_ret&_&_). rewrite app_nil_r. split; [exact Hcov|].
    destruct Hout as [[_ [e [=]]]|(j&reply&Hj&Hl&Hr)]. rewrite Hl. split; [right; eauto|]. eexists _, _. split; [reflexivity|].
    eexists _, _, _. split; [reflexivity|]. split_and!; try done. unfold operationOK.
    cbn [Operation.ID Operation.Kind Operation.State Operation.Error Operation.Backup forallb]. by rewrite (id_utf8 id Hid), Hk.
  - apply pexec_try_bind in Hx as (saved&w2&t3&t4&Hput&(->&->&->)%pexec_ret&->). rewrite app_nil_r.
    set (op2 := setOutcome op1 kind "pending" unconfirmed) in *.
    apply (exec_putSite _ (markedBy site op1 m)) in Hput as (Ht3&_&_&Hpre);
      [|unfold holds; by rewrite Hw1|by apply siteOK_marked]. rewrite Hw1 in Hpre. split.
    + apply prefixes_app; [exact Hcov|]. rewrite Hh. cbn [replay foldl]. eapply (covered_again site _ m op1 op2); try done.
    + rewrite asked_app, Ht3, app_nil_r. split; [destruct Hout as [[-> _]|(j&reply&Hj&->&_)]; [by left|right; eauto]|].
      eexists _, _. split; [reflexivity|]. destruct saved; right; by exists op2.
Qed.

(** A tracked call, from the store it starts with. *)
Lemma exec_callTracked {A} site kind path body expected (decode : string -> result A) m w r w' t :
  holds m w -> siteOK site = true -> validUTF8 kind = true ->
  pexec (callTracked a site kind path body expected decode) w = (r, w', t) ->
  (forall t0, t0 `prefix_of` t -> covered site kind m (asked t0) (replay (hostEvents t0) (w_fs (p_host w)))) /\
  outcomeOf site kind path body expected decode (asked t) r.
Proof.
  intros Hm Hs Hk. unfold callTracked. intros (bytes&w1&t1&t2&Hrand&Hx&->)%pexec_try_bind.
  apply pexec_host_inv in Hrand as (th&Hrand&->&_&_).
  destruct (quiet_same _ _ _ _ _ (causes_quiet _ (ORand 8) eq_refl) Hrand) as [Hw1 ->]. cbn [map List.app].
  destruct bytes as [bytes|e].
  2: { apply pexec_ret in Hx as (->&->&->). split; [|split; [by left|exists site, (Err e); auto]].
       intros t0 ->%prefix_nil_inv. by left. }
  apply exec_rand_Ok in Hrand as (Hlen&_&_). apply pexec_now_bind in Hx as (started&w2&Hx&Hw2&_). rewrite <- Hw1, <- Hw2.
  assert (holds m w2) as Hm2 by (unfold holds; by rewrite Hw2, Hw1). clear w w1 Hm Hw1 Hw2.
  pose proof (newID_valid bytes Hlen) as Hid. set (id := newID bytes) in *. clearbody id. clear bytes Hlen.
  set (op1 := Operation.mk id kind "pending" started zeroTime "" None false) in *.
  apply pexec_try_bind in Hx as (saved&w1&t1&t3&Hput&Hx&->). apply pexec_fs in Hput as Hfs.
  apply (exec_putSite (setOperation (Some op1) site) m) in Hput as (Ht1&_&Hput&Hpre1); [|done|by apply siteOK_marked].
  assert (forall t0, t0 `prefix_of` t1 -> covered site kind m (asked t0) (replay (hostEvents t0) (w_fs (p_host w2)))) as Hcov1.
  { intros t0 Ht0. destruct (Hpre1 t0 Ht0) as [-> [Hr|Hr]]; [by left|right; by exists op1]. }
  destruct saved as [u|e].
  - destruct Hput as [[_ Hm1]|[[e [=]] _]]. change (pexec (afterMarker site op1 path body expected decode) w1 = (r, w', t3)) in Hx.
    eapply (exec_afterMarker site op1) in Hx as [Hcov Hout]; [|done..]. rewrite asked_app, Ht1. split; [|exact Hout].
    apply prefixes_app; [exact Hcov1|]. by rewrite Ht1, <- Hfs.
  - apply pexec_ret in Hx as (->&->&->). rewrite app_nil_r, Ht1. split; [exact Hcov1|]. split; [by left|].
    eexists _, _. split; [reflexivity|]. right. by exists op1.
Qed.

(** C1: the marker is durable before the side effect.  Whatever fails and
    wherever the panel stops: the worker is asked at most once, with the path
    and the encoded body, and from the moment it has been asked the stored site
    carries a pending operation with the identifier it was given; before that
    the store is as it was, or so marked.  The call always returns, a success
    only for a good reply. *)
Theorem callTracked_marker_first {A} site kind path body expected (decode : string -> result A) m w r w' t :
  holds m w -> siteOK site = true -> validUTF8 kind = true ->
  pexec (callTracked a site kind path body expected decode) w = (r, w', t) ->
  (forall t0, t0 `prefix_of` t -> covered site kind m (asked t0) (replay (hostEvents t0) (w_fs (p_host w)))) /\
  outcomeOf site kind path body expected decode (asked t) r.
Proof. apply exec_callTracked. Qed.

(** An activity entry changes nothing of the store. *)
Lemma exec_record act s success detail m w r w' t :
  separate a = true -> holds m w -> pexec (record_ a act s success detail) w = (r, w', t) ->
  r = Ok tt /\ holds m w' /\ asked t = [].
Proof.
  intros Hsep Hm. unfold record_. intros (x&w1&t1&t2&Hx&(->&->&->)%pexec_ret&->)%pexec_try_bind.
  apply pexec_host_inv in Hx as (th&Hx&->&_&_). rewrite app_nil_r, asked_host. split_and!; try done.
  unfold holds. eapply represents_same; [|exact Hm]. eapply exec_frame; [|exact Hx]. by apply Append_leaves.
Qed.
End store.

(** ** Witness: a stop whose reply is lost *)
#[local] Existing Instance asciiUnicode.

(** The worker of [Samples] at the other end. *)
Definition samplePeer : Peer := workerPeer sampleConfig.

Definition sampleApp : app :=
  App "/data/sites.json" (SettingsStore.mk "/data/settings.json" (filler 32)) "/data/audit.jsonl" true "hash" (filler 32) true.

(** The panel's disk with the sites of a map. *)
Definition panelFiles (m : gmap string Site.t) : fsmap :=
  <["/data" := NDir]> (<["/data/sites.json" := NFile (match encodeSites m with Ok v => printIndent v | Err _ => "" end)]> ∅).

(** A panel with these sites, a worker's host, and the fates of the calls. *)
Definition panelWorld (m : gmap string Site.t) (fates : list fate) (w : world) : @pworld scripted samplePeer :=
  @PWorld scripted samplePeer (World _ (panelFiles m) (answers (fun _ => "")) "" ∅) (Linked w fates) (PState ∅ ∅).

(** A [stop] of site [sampleID], as [siteAction] asks for it. *)
Definition stopBody : result json := Ok (idActionJSON sampleID "stop").

#[local] Existing Instance samplePeer.

Definition lostWorld : pworld := panelWorld storeMap [ReplyLost] (sampleWorld [] (fun _ => "")).
Definition lostRun : result (Site.t * result unit) * pworld * list pevent :=
  pexec (callTracked sampleApp firstSite "stop" "/action" stopBody 204 ignored) lostWorld.

Lemma sampleApp_separate : separate sampleApp = true.
Proof. vm_compute. reflexivity. Qed.

Lemma pexec_parts `{Env} `{Peer} {A} (p : prog pop A) w : pexec p w = ((pexec p w).1.1, (pexec p w).1.2, (pexec p w).2).
Proof. by destruct (pexec p w) as [[a w'] t]. Qed.

Lemma callTracked_marker_first_witness :
  (forall t0, t0 `prefix_of` lostRun.2 ->
     covered sampleApp firstSite "stop" storeMap (asked t0) (replay (hostEvents t0) (w_fs (p_host lostWorld)))) /\
  outcomeOf firstSite "stop" "/action" stopBody 204 ignored (asked lostRun.2) lostRun.1.1.
Proof.
  exact (callTracked_marker_first sampleApp "sites.json" eq_refl firstSite "stop" "/action" stopBody 204 ignored storeMap lostWorld
    lostRun.1.1 lostRun.1.2 lostRun.2 store_holds ltac:(vm_compute; reflexivity) eq_refl (pexec_parts _ _)).
Defined.
