(* ===== verification/Reconcile.v ===== *)
(** * Reconcile: how the panel learns what the worker did, [cmd/panel/runtime.go]

    [reconcileOne] is the decision for one site and one answer of the worker;
    [reconcileRuntime] is the pass over all sites. *)
From S2P Require Import Prelude GoStrings GoPath GoFloat GoTime GoBase64 Effects World Core Json GoFloatText CoreJson CoreJsonFacts Worker Capacity Operations Server Store ActivityLog Panel.

(** What becomes of a site: the pass stops, the site is gone, or it is stored
    again, with an activity entry when an operation was resolved. *)
Inductive verdict :=
| Refused (e : error)
| Gone (s : Site.t)
| Kept (s : Site.t) (resolved : option (bool * string)).

Definition knownStatus (status : string) : bool :=
  String.eqb status StatusRunning || String.eqb status StatusStopped || String.eqb status StatusUnhealthy.

Definition sourceOf (kind : string) : string :=
  if String.eqb kind "scheduled-backup" then BackupSourceScheduled
  else if String.eqb kind "safety-backup" then BackupSourceSafety else BackupSourceManual.

(** The backup a successful receipt reports joins the list once. *)
Definition addBackup (kind : string) (receipt : Operation.t) (l : list Backup.t) : list Backup.t :=
  match Operation.Backup receipt with
  | Some b =>
      if String.eqb (Operation.State receipt) "succeeded" && negb (existsb (fun x => String.eqb (Backup.ID x) (Backup.ID b)) l)
      then l ++ [Backup.mk (Backup.ID b) (Backup.CreatedAt b) (sourceOf kind)]
      else l
  | None => l
  end.

(** A pending operation takes the outcome of the receipt with its identifier;
    without one it was interrupted. *)
Definition takeReceipt (op : Operation.t) (receipt : option Operation.t) (s : Site.t) : Site.t * Operation.t :=
  match receipt with
  | Some r =>
      if String.eqb (Operation.ID r) (Operation.ID op) then
        let o := setOutcome r (Operation.Kind op) (Operation.State r) (Operation.Error r) in
        (setBackups (addBackup (Operation.Kind op) r (Site.Backups s)) (setOperation (Some o) s), o)
      else
        let o := setOutcome op (Operation.Kind op) "interrupted" "Operation was interrupted before a confirmed worker result." in
        (setOperation (Some o) s, o)
  | None =>
      let o := setOutcome op (Operation.Kind op) "interrupted" "Operation was interrupted before a confirmed worker result." in
      (setOperation (Some o) s, o)
  end.

Definition retryCreation : string := "Site creation response was interrupted. Retry creation to finish installation and obtain a new WordPress administrator password. Existing data and database credentials are preserved.".
Definition inspectSite : string := "A restore, update, or resource change was interrupted. Inspect the saved configuration and site before continuing; restore a retained safety backup if data recovery is needed.".

(** The status after an operation was resolved. *)
Definition resolveStatus (o : Operation.t) (snapshot : SiteRuntime.t) (s : Site.t) : Site.t :=
  let kind := Operation.Kind o in
  let ok := String.eqb (Operation.State o) "succeeded" in
  if String.eqb kind "create" then setStatus StatusFailed retryCreation s
  else if String.eqb kind "restore" || String.eqb kind "update" || String.eqb kind "resources" then
    setStatus (SiteRuntime.Status snapshot) (if ok then SiteRuntime.Detail snapshot else inspectSite) s
  else
    setStatus (SiteRuntime.Status snapshot)
      (if ok then SiteRuntime.Detail snapshot else Operation.Error o +:+ " Inspect the site before trying the operation again.") s.

(** The status of a site without a pending operation. *)
Definition refreshStatus (snapshot : SiteRuntime.t) (s : Site.t) : Site.t :=
  if String.eqb (Site.Status s) StatusCreating then
    setStatus StatusFailed "Site creation was interrupted. Retry creation to finish installation and obtain a new administrator password." s
  else if String.eqb (Site.Status s) StatusDeleting then
    setStatus StatusUnhealthy "Deletion was interrupted. Inspect the site, then confirm Delete again if required." s
  else if String.eqb (Site.Status s) StatusFailed then s
  else
    let confirmed := match Site.Operation s with Some o => String.eqb (Operation.State o) "succeeded" | None => true end in
    setStatus (SiteRuntime.Status snapshot) (if confirmed then SiteRuntime.Detail snapshot else Site.Error s) s.

Definition applyLimits (snapshot : SiteRuntime.t) (s : Site.t) : Site.t :=
  match SiteRuntime.Resources snapshot with Some r => setLimits r s | None => s end.

Definition reconcileOne (site : Site.t) (snapshot : SiteRuntime.t) : verdict :=
  if negb (knownStatus (SiteRuntime.Status snapshot)) then Refused (EMsg "invalid worker service status")
  else
    match (match SiteRuntime.Resources snapshot with Some r => validateResources r | None => Ok tt end) with
    | Err e => Refused e
    | Ok _ =>
        let site := applyLimits snapshot (setHealth "" site) in
        match Site.Operation site with
        | Some op =>
            if pendingOp op then
              let '(site, o) := takeReceipt op (SiteRuntime.Operation snapshot) site in
              let ok := String.eqb (Operation.State o) "succeeded" in
              if String.eqb (Operation.Kind o) "delete" && ok then Gone site
              else Kept (resolveStatus o snapshot site) (Some (ok, Operation.Kind o +:+ ": " +:+ Operation.State o))
            else Kept (refreshStatus snapshot site) None
        | None => Kept (refreshStatus snapshot site) None
        end
    end.

Definition unchecked : string := "Service status could not be checked. Refresh status after the worker and Docker are available.".

Section pass.
Context (a : app).

Definition runtimeOf (id : string) : M pop SiteRuntime.t :=
  callWorker a "/runtime" (Ok (runtimeRequestJSON id)) 200 (reads runtimeFields zeroRuntime).

(** The pass stops without an error when the worker is busy. *)
Definition isConflict (e : error) : bool := match e with EResponse status _ => status =? 409 | _ => false end.

Definition storeChecked (site : Site.t) : M pop unit := checked ← now; putSite a (setChecked checked site).

Fixpoint reconcileSites (sites : list Site.t) (firstError : option error) : M pop (option error) :=
  match sites with
  | [] => mret firstError
  | site :: rest =>
      r ← try (runtimeOf (Site.ID site));
      match r with
      | Err e =>
          if isConflict e then mret None
          else
            _ ← storeChecked (setHealth unchecked site);
            reconcileSites rest (match firstError with None => Some e | _ => firstError end)
      | Ok snapshot =>
          match reconcileOne site snapshot with
          | Refused e => mret (Some e)
          | Gone site =>
              _ ← host (Delete (storePath a) (Site.ID site));
              _ ← record_ a "operation-recovered" site true "confirmed deletion";
              reconcileSites rest firstError
          | Kept site resolved =>
              _ ← match resolved with
                  | Some (ok, text) => record_ a "operation-recovered" site ok text
                  | None => mret tt
                  end;
              _ ← storeChecked site;
              reconcileSites rest firstError
          end
      end
  end.

Definition reconcileRuntime (busy : bool) : M pop unit :=
  if busy then fail (EMsg "An operation is in progress. Try refreshing status when it finishes.")
  else
    sites ← host (List_ (storePath a));
    r ← reconcileSites sites None;
    lift (of_err r).

(** [runRuntimeReconciler]: a pass at once and one for every tick, each with
    the mutex held or free; their errors are logged. *)
Fixpoint runRuntimeReconciler (busy : bool) (ticks : list bool) : M pop unit :=
  _ ← try (reconcileRuntime busy);
  match ticks with
  | [] => mret tt
  | busy' :: rest => runRuntimeReconciler busy' rest
  end.
End pass.
