(* ===== verification/ReconcileFacts.v ===== *)
(** * ReconcileFacts: an operation is resolved by what the worker confirms

    The decision for one site, then the pass: every site is left alone, marked
    unreachable, or becomes what the worker's answer makes of it. *)
From S2P Require Import Prelude GoStrings Utf8Facts GoPath GoFloat GoTime GoBase64 Effects World Core CoreFacts Json JsonFacts GoFloatText CoreJson CoreJsonFacts Worker Samples Capacity Operations Server Store StoreFacts ActivityLog Panel Link PanelFacts Reconcile.
Set Warnings "-register-all".

(** ** One site *)

(** What the worker must have said for an operation to have succeeded. *)
Definition confirmed (op : Operation.t) (snapshot : SiteRuntime.t) : Prop :=
  exists r, SiteRuntime.Operation snapshot = Some r /\ Operation.ID r = Operation.ID op /\ Operation.State r = "succeeded".

(** The backups of a site after a receipt: those it had, and perhaps the one
    the receipt of a success reports. *)
Definition grownBy (l l' : list Backup.t) (op : Operation.t) (snapshot : SiteRuntime.t) : Prop :=
  l' = l \/ exists r b, SiteRuntime.Operation snapshot = Some r /\ Operation.ID r = Operation.ID op /\ Operation.State r = "succeeded" /\
    Operation.Backup r = Some b /\ (Backup.ID b ∉ map Backup.ID l) /\
    l' = (l ++ [Backup.mk (Backup.ID b) (Backup.CreatedAt b) (sourceOf (Operation.Kind op))])%list.

Lemma addBackup_grows op r snapshot l :
  SiteRuntime.Operation snapshot = Some r -> Operation.ID r = Operation.ID op -> grownBy l (addBackup (Operation.Kind op) r l) op snapshot.
Proof.
  intros Hr Hi. unfold addBackup, grownBy. destruct (Operation.Backup r) as [b|] eqn:Eb; [|by left].
  destruct (String.eqb (Operation.State r) "succeeded") eqn:Es; cbn [andb]; [|by left]. apply String.eqb_eq in Es.
  destruct (existsb _ l) eqn:Ex; cbn [negb]; [by left|]. right. exists r, b. split_and!; try done.
  intros (x&Hx&Hin)%list_elem_of_fmap. assert (existsb (fun x => String.eqb (Backup.ID x) (Backup.ID b)) l = true) as Hy; [|by rewrite Hy in Ex].
  apply existsb_exists. exists x. split; [by apply list_elem_of_In|]. by apply String.eqb_eq.
Qed.

(** What a receipt, or its absence, does to a pending operation. *)
Lemma takeReceipt_spec op snapshot s s' o :
  takeReceipt op (SiteRuntime.Operation snapshot) s = (s', o) ->
  Site.Operation s' = Some o /\ Operation.ID o = Operation.ID op /\ Operation.Kind o = Operation.Kind op /\
  (Operation.State o = "succeeded" -> confirmed op snapshot) /\ grownBy (Site.Backups s) (Site.Backups s') op snapshot /\
  (Operation.State o = "interrupted" \/ exists r, SiteRuntime.Operation snapshot = Some r /\ Operation.State o = Operation.State r).
Proof.
  unfold takeReceipt. destruct (SiteRuntime.Operation snapshot) as [r|] eqn:Er; [destruct (String.eqb_spec (Operation.ID r) (Operation.ID op)) as [Hi|Hi]|];
    intros [= <- <-]; cbn; split_and!; try done; try (by left).
  - intros Hs. by exists r.
  - by apply addBackup_grows.
  - right. by exists r.
Qed.

(** What a reconciliation never changes of a site. *)
Definition identity (s : Site.t) : string * string * string * string * time * BackupPolicy.t * bool :=
  (Site.ID s, Site.Domain s, Site.Title s, Site.AdminEmail s, Site.CreatedAt s, Site.BackupPolicy s, Site.MailEnabled s).

Lemma identity_applyLimits snapshot s : identity (applyLimits snapshot (setHealth "" s)) = identity s.
Proof. unfold applyLimits. by destruct (SiteRuntime.Resources snapshot). Qed.
Lemma operation_applyLimits snapshot s : Site.Operation (applyLimits snapshot (setHealth "" s)) = Site.Operation s.
Proof. unfold applyLimits. by destruct (SiteRuntime.Resources snapshot). Qed.
Lemma backups_applyLimits snapshot s : Site.Backups (applyLimits snapshot (setHealth "" s)) = Site.Backups s.
Proof. unfold applyLimits. by destruct (SiteRuntime.Resources snapshot). Qed.
Lemma resolveStatus_keeps o snapshot s :
  identity (resolveStatus o snapshot s) = identity s /\ Site.Operation (resolveStatus o snapshot s) = Site.Operation s /\
  Site.Backups (resolveStatus o snapshot s) = Site.Backups s.
Proof. unfold resolveStatus. by repeat case_match. Qed.
Lemma refreshStatus_keeps snapshot s :
  identity (refreshStatus snapshot s) = identity s /\ Site.Operation (refreshStatus snapshot s) = Site.Operation s /\
  Site.Backups (refreshStatus snapshot s) = Site.Backups s.
Proof. unfold refreshStatus. by repeat case_match. Qed.
Lemma takeReceipt_keeps op receipt s s' o : takeReceipt op receipt s = (s', o) -> identity s' = identity s.
Proof. unfold takeReceipt. repeat case_match; by intros [= <- _]. Qed.

(** The four outcomes of a reconciliation. *)
Lemma reconcileOne_cases s snapshot (s1 := applyLimits snapshot (setHealth "" s)) :
  (exists e, reconcileOne s snapshot = Refused e) \/
  (operationPending s = false /\ reconcileOne s snapshot = Kept (refreshStatus snapshot s1) None) \/
  (exists op s2 o, Site.Operation s = Some op /\ pendingOp op = true /\ takeReceipt op (SiteRuntime.Operation snapshot) s1 = (s2, o) /\
     (Operation.Kind o = "delete" /\ Operation.State o = "succeeded" /\ reconcileOne s snapshot = Gone s2 \/
      exists how, reconcileOne s snapshot = Kept (resolveStatus o snapshot s2) how)).
Proof.
  unfold reconcileOne, operationPending. destruct (negb _); [left; eauto|].
  destruct (match SiteRuntime.Resources snapshot with Some r => _ | None => _ end) as [?|e]; [|left; eauto]. right.
  change (applyLimits snapshot (setHealth "" s)) with s1.
  assert (Site.Operation s1 = Site.Operation s) as -> by apply operation_applyLimits.
  destruct (Site.Operation s) as [op|]; [|by left]. destruct (pendingOp op) eqn:Ep; [|by left]. right.
  destruct (takeReceipt op _ s1) as [s2 o] eqn:Et. exists op, s2, o. split_and!; [done..|].
  destruct (String.eqb (Operation.Kind o) "delete" && _) eqn:Ed; [left|right; eauto].
  apply andb_prop in Ed as [?%String.eqb_eq ?%String.eqb_eq]. done.
Qed.

(** The receipt the worker shows is closed. *)
Definition closed (snapshot : SiteRuntime.t) : Prop :=
  match SiteRuntime.Operation snapshot with Some r => pendingOp r = false | None => True end.

Lemma closed_notPending snapshot o :
  Operation.State o = "interrupted" \/ (exists r, SiteRuntime.Operation snapshot = Some r /\ Operation.State o = Operation.State r) ->
  closed snapshot -> pendingOp o = false.
Proof. unfold closed, pendingOp. by intros [->|(r&->&->)]. Qed.

(** C5: an operation is what the worker confirms.  A pending operation becomes
    succeeded, its site is forgotten after a deletion, and a backup joins the
    list, only when the worker's receipt carries the operation's identifier and
    says succeeded; with a closed receipt, another one or none the operation is
    no longer pending.  Its identifier and kind, the site's identity and the
    backups listed before stay; a site without a pending operation keeps its
    operation and its backups. *)
Theorem reconcileOne_confirmed s snapshot :
  match reconcileOne s snapshot with
  | Refused _ => True
  | Gone _ => exists op, Site.Operation s = Some op /\ pendingOp op = true /\ Operation.Kind op = "delete" /\ confirmed op snapshot
  | Kept s' _ =>
      identity s' = identity s /\
      (if operationPending s
       then exists op o, Site.Operation s = Some op /\ Site.Operation s' = Some o /\
         Operation.ID o = Operation.ID op /\ Operation.Kind o = Operation.Kind op /\
         (Operation.State o = "succeeded" -> confirmed op snapshot) /\ grownBy (Site.Backups s) (Site.Backups s') op snapshot /\
         (closed snapshot -> pendingOp o = false)
       else Site.Operation s' = Site.Operation s /\ Site.Backups s' = Site.Backups s)
  end.
Proof.
  pose proof (identity_applyLimits snapshot s) as Hid. pose proof (backups_applyLimits snapshot s) as Hbk.
  destruct (reconcileOne_cases s snapshot) as [[e ->]|[[Hp ->]|(op&s2&o&Hop&Hp&Ht&Hout)]]; [done| |].
  - rewrite Hp. destruct (refreshStatus_keeps snapshot (applyLimits snapshot (setHealth "" s))) as (->&->&->).
    by rewrite operation_applyLimits.
  - pose proof (takeReceipt_keeps _ _ _ _ _ Ht) as Hid2. apply takeReceipt_spec in Ht as (Ho&Hi&Hk&Hs&Hb&Hst). rewrite Hbk in Hb.
    destruct Hout as [(Hd&Hok&->)|[how ->]]; [exists op; rewrite <- Hk; auto|].
    destruct (resolveStatus_keeps o snapshot s2) as (->&->&->). split; [congruence|]. unfold operationPending. rewrite Hop, Hp.
    exists op, o. split_and!; try done. by apply closed_notPending.
Qed.

Lemma reconcileOne_resolves s snapshot s' how : reconcileOne s snapshot = Kept s' how -> closed snapshot -> operationPending s' = false.
Proof.
  intros Hr Hc. unfold operationPending. destruct (reconcileOne_cases s snapshot) as [[e He]|[[Hp He]|(op&s2&o&Hop&Hp&Ht&[(_&_&He)|[how' He]])]];
    rewrite He in Hr; try done; injection Hr as <- _.
  - destruct (refreshStatus_keeps snapshot (applyLimits snapshot (setHealth "" s))) as (_&->&_). by rewrite operation_applyLimits.
  - destruct (resolveStatus_keeps o snapshot s2) as (_&->&_). apply takeReceipt_spec in Ht as (->&_&_&_&_&Hst). by eapply closed_notPending.
Qed.

(** What the pass stores can be stored. *)
Lemma siteOK_parts s s' :
  siteOK s = true -> identity s' = identity s -> (Site.MemoryMB s', Site.CPUs s') = (Site.MemoryMB s, Site.CPUs s) ->
  validUTF8 (Site.Status s') = true -> validUTF8 (Site.Error s') = true -> validUTF8 (Site.HealthError s') = true ->
  forallb backupOK (Site.Backups s') = true -> match Site.Operation s' with Some o => operationOK o | None => true end = true ->
  siteOK s' = true.
Proof.
  intros Hs [= Hi Hd Ht Ha Hc Hp Hm] [= Hmm Hcc] H1 H2 H3 H4 H5. unfold siteOK in *. cbn [forallb] in *.
  rewrite Hi, Hd, Ht, Ha, Hmm, Hcc, Hp, H1, H2, H3, H4, H5. bool_solve.
  repeat match goal with H : _ = true |- _ => rewrite H; clear H | H : _ = false |- _ => rewrite H; clear H end. done.
Qed.

Lemma siteOK_split s : siteOK s = true ->
  forallb backupOK (Site.Backups s) = true /\ match Site.Operation s with Some o => operationOK o | None => true end = true /\
  validUTF8 (Site.Status s) = true /\ validUTF8 (Site.Error s) = true.
Proof. unfold siteOK. cbn [forallb]. intros Hs. bool_solve. auto. Qed.

Lemma siteOK_health s : siteOK s = true -> validUTF8 (Site.HealthError s) = true.
Proof. unfold siteOK. cbn [forallb]. intros Hs. by bool_solve. Qed.

Lemma siteOK_limits r s : siteOK s = true -> resourcesOK r = true -> validateResources r = Ok tt -> siteOK (setLimits r s) = true.
Proof.
  intros Hs Hr Hv. unfold resourcesOK in Hr. apply andb_prop in Hr as [Hm Hc].
  assert (bool_decide (Resources.CPUs r = S754_zero true) = false) as Hz.
  { apply bool_decide_eq_false. intros Hz. unfold validateResources in Hv. rewrite Hz in Hv. destruct (_ || _); done. }
  unfold siteOK, setLimits in *. cbn -[validUTF8 floatReads] in *. rewrite Hm, Hc, Hz. cbn [negb]. bool_solve.
  repeat match goal with H : _ = true |- _ => rewrite H; clear H end. done.
Qed.

Lemma operationOK_split o : operationOK o = true <->
  validUTF8 (Operation.ID o) = true /\ validUTF8 (Operation.Kind o) = true /\ validUTF8 (Operation.State o) = true /\
  validUTF8 (Operation.Error o) = true /\ match Operation.Backup o with Some b => backupOK b | None => true end = true.
Proof.
  unfold operationOK. cbn [forallb]. split; [intros Ho; bool_solve; auto|]. by intros (->&->&->&->&->).
Qed.

Lemma siteOK_status status error s :
  siteOK s = true -> validUTF8 status = true -> validUTF8 error = true -> siteOK (setStatus status error s) = true.
Proof. intros Hs H1 H2. apply siteOK_split in Hs as Hp. apply (siteOK_parts s); try done; try apply Hp. by apply siteOK_health in Hs. Qed.

Lemma takeReceipt_siteOK op snapshot s s' o :
  siteOK s = true -> operationOK op = true -> runtimeOK snapshot = true ->
  takeReceipt op (SiteRuntime.Operation snapshot) s = (s', o) -> siteOK s' = true /\ operationOK o = true.
Proof.
  intros Hs Hop Hr Ht. assert (operationOK o = true) as Ho.
  { unfold runtimeOK in Hr. apply operationOK_split in Hop as (H1&H2&H3&H4&H5). unfold takeReceipt in Ht.
    destruct (SiteRuntime.Operation snapshot) as [r|]; [destruct (String.eqb _ _)|]; injection Ht as _ <-; apply operationOK_split; cbn [setOutcome
      Operation.ID Operation.Kind Operation.State Operation.Error Operation.Backup]; [|by split_and!..].
    bool_solve. match goal with H : operationOK r = true |- _ => apply operationOK_split in H as (?&?&?&?&?) end. by split_and!. }
  split; [|exact Ho]. apply siteOK_split in Hs as Hp. destruct Hp as (Hb&_&H3&H4). pose proof (siteOK_health s Hs) as Hh.
  assert (Site.Operation s' = Some o /\ identity s' = identity s /\ (Site.MemoryMB s', Site.CPUs s') = (Site.MemoryMB s, Site.CPUs s) /\
    Site.Status s' = Site.Status s /\ Site.Error s' = Site.Error s /\ Site.HealthError s' = Site.HealthError s) as (E1&E2&E3&E4&E5&E6)
    by (unfold takeReceipt in Ht; repeat case_match; by simplify_eq).
  apply (siteOK_parts s); rewrite ?E1, ?E4, ?E5, ?E6; try done.
  unfold takeReceipt in Ht. destruct (SiteRuntime.Operation snapshot) as [r|] eqn:Er; [destruct (String.eqb _ _)|];
    injection Ht as <- <-; try exact Hb. cbn [Site.Backups setBackups setOperation]. unfold addBackup.
  destruct (Operation.Backup r) as [bk|] eqn:Eb; [|exact Hb]. destruct (_ && _); [|exact Hb]. rewrite forallb_app, Hb. cbn [forallb andb].
  apply operationOK_split in Ho as (_&_&_&_&Hbk). cbn in Hbk. rewrite Eb in Hbk. unfold backupOK in *. cbn [Backup.ID Backup.Source].
  apply andb_prop in Hbk as [-> _]. unfold sourceOf. by repeat case_match.
Qed.

(** A reconciled site can be stored. *)
Lemma reconcileOne_siteOK s snapshot s' how :
  siteOK s = true -> runtimeOK snapshot = true -> reconcileOne s snapshot = Kept s' how -> siteOK s' = true.
Proof.
  intros Hs Hr. unfold reconcileOne. destruct (negb _); [done|].
  destruct (match SiteRuntime.Resources snapshot with Some r => _ | None => _ end) eqn:Ev; [|done].
  assert (siteOK (setHealth "" s) = true) as Hh.
  { apply siteOK_split in Hs as Hp. by apply (siteOK_parts s); try apply Hp. }
  assert (validUTF8 (SiteRuntime.Status snapshot) = true /\ validUTF8 (SiteRuntime.Detail snapshot) = true) as [Hst Hdt]
    by (unfold runtimeOK in Hr; bool_solve; auto).
  assert (siteOK (applyLimits snapshot (setHealth "" s)) = true) as Hl.
  { unfold applyLimits. unfold runtimeOK in Hr. destruct (SiteRuntime.Resources snapshot); [|done]. destruct a. bool_solve. by apply siteOK_limits. }
  set (s1 := applyLimits snapshot (setHealth "" s)) in *. clearbody s1. clear Ev Hh Hs.
  assert (siteOK (refreshStatus snapshot s1) = true) as Hrefresh.
  { apply siteOK_split in Hl as Hp. unfold refreshStatus. repeat case_match; try done; apply siteOK_status; try done; apply Hp. }
  destruct (Site.Operation s1) as [op|] eqn:Eop; [|by intros [= <- _]]. destruct (pendingOp op); [|by intros [= <- _]].
  destruct (takeReceipt op _ s1) as [s2 o] eqn:Et. apply takeReceipt_siteOK in Et as [Hs2 Ho]; [|done| |done].
  2: { apply siteOK_split in Hl as (_&Hop&_). by rewrite Eop in Hop. }
  destruct (_ && _); [done|]. intros [= <- _]. apply operationOK_split in Ho as (_&_&_&He&_). unfold resolveStatus.
  repeat case_match; apply siteOK_status; try done. by apply validUTF8_app.
Qed.

(** ** The pass *)

(** The worker was asked for site [id]'s runtime and answered [snapshot]. *)
Definition reported (l : list (string * string * string * answered)) (id : string) (snapshot : SiteRuntime.t) : Prop :=
  exists text, ("/runtime", printJSON (runtimeRequestJSON id), "", inr (200, text)) ∈ l /\ reads runtimeFields zeroRuntime text = Ok snapshot.

(** What the worker's answer makes of a site of the store. *)
Inductive resolvedBy (l : list (string * string * string * answered)) (s : Site.t) : option Site.t -> Prop :=
| resolved_kept snapshot s' how checked :
    reported l (Site.ID s) snapshot -> reconcileOne s snapshot = Kept s' how -> resolvedBy l s (Some (setChecked checked s'))
| resolved_gone snapshot s' :
    reported l (Site.ID s) snapshot -> reconcileOne s snapshot = Gone s' -> resolvedBy l s None.

(** What a pass may leave of a site of the store. *)
Inductive settles (l : list (string * string * string * answered)) (s : Site.t) : option Site.t -> Prop :=
| settles_untouched : settles l s (Some s)
| settles_unreachable checked : settles l s (Some (setChecked checked (setHealth unchecked s)))
| settles_resolved o : resolvedBy l s o -> settles l s o.

Lemma reported_mono l l' id snapshot : l ⊆ l' -> reported l id snapshot -> reported l' id snapshot.
Proof. intros Hl (text&Hin&Hr). exists text. auto. Qed.
Lemma resolvedBy_mono l l' s o : l ⊆ l' -> resolvedBy l s o -> resolvedBy l' s o.
Proof. intros Hl [? ? ? ? Hr He|? ? Hr He]; econstructor; eauto using reported_mono. Qed.
Lemma settles_mono l l' s o : l ⊆ l' -> settles l s o -> settles l' s o.
Proof. intros Hl [| |? Hr]; [constructor|constructor|]. by apply settles_resolved, (resolvedBy_mono l). Qed.

(** Every question was answered with a snapshot. *)
Definition allAnswered (l : list (string * string * string * answered)) : Prop :=
  Forall (fun q => exists text snapshot, q.2 = inr (200, text) /\ reads runtimeFields zeroRuntime text = Ok snapshot) l.

Section pass.
Context `{Env} `{Peer} (a : app) (b : string).
Hypothesis Hpath : storePath a = dir (storePath a) +/+ b.
Hypothesis Hsep : separate a = true.
Hypothesis Hconf : configured a = true.

(** The answers are such that their sites can be stored. *)
Definition wellAnswered (l : list (string * string * string * answered)) : Prop :=
  forall id snapshot, reported l id snapshot -> runtimeOK snapshot = true.

Lemma siteOK_checked checked s : siteOK s = true -> siteOK (setChecked checked s) = true.
Proof. done. Qed.
Lemma siteOK_unreachable s : siteOK s = true -> siteOK (setHealth unchecked s) = true.
Proof. intros Hs. apply siteOK_split in Hs as Hp. by apply (siteOK_parts s); try apply Hp. Qed.

(** One call for the runtime. *)
Lemma exec_runtimeOf id w r w' t :
  pexec (runtimeOf a id) w = (r, w', t) ->
  p_host w' = p_host w /\ hostEvents t = [] /\
  match r with
  | Ok snapshot => reported (asked t) id snapshot
  | Err e => ~ allAnswered (asked t)
  end.
Proof.
  unfold runtimeOf, callWorker, callWorkerContext. rewrite Hconf. cbn [negb].
  change (mbind (M := M pop) ?f (lift (Ok ?x))) with (f x). intros Hx. unfold pexec in Hx. cbn [mbind M_bind pbind perform run pstep] in Hx.
  destruct (peer_call _ _ _ _) as [q reply]. destruct reply as [m|[status text]]; cbn in Hx.
  - injection Hx as <- <- <-. split_and!; try done. intros Ha. by inversion Ha as [|? ? (?&?&?&_) _].
  - destruct (Z.eqb_spec status 200) as [->|Hne]; cbn [negb] in Hx; cbn in Hx.
    + injection Hx as <- <- <-. split_and!; try done. destruct (reads _ _ text) as [snapshot|e] eqn:Er.
      * exists text. split; [left|done].
      * intros Ha. inversion Ha as [|? ? (text2&snapshot&Heq&Hr) _]. injection Heq as <-. congruence.
    + injection Hx as <- <- <-. split_and!; try done. intros Ha. inversion Ha as [|? ? (?&?&Heq&_) _]. by injection Heq.
Qed.

Lemma exec_storeChecked s m w r w' t :
  holds a m w -> siteOK s = true -> pexec (storeChecked a s) w = (r, w', t) ->
  asked t = [] /\ (exists checked, r = Ok tt /\ holds a (<[Site.ID s := setChecked checked s]> m) w') \/
  asked t = [] /\ (exists e, r = Err e) /\ holds a m w'.
Proof.
  intros Hm Hs. unfold storeChecked. intros (n&w1&Hx&Hw1&_)%pexec_now_bind.
  apply (exec_putSite a b Hpath (setChecked n s) m) in Hx as (Ht&_&Hx&_); [|unfold holds; by rewrite Hw1|by apply siteOK_checked].
  destruct Hx as [[-> Hx]|[[e ->] Hx]]; [left; split; [done|]; by exists n|right; eauto].
Qed.

(** The map before and after a pass over [l], given what the worker was asked;
    [complete] when every site of it was resolved. *)
Definition passed (l : list Site.t) (m m' : gmap string Site.t) (q : list (string * string * string * answered)) (complete : Prop) : Prop :=
  (forall id, id ∉ map Site.ID l -> m' !! id = m !! id) /\
  (forall s, s ∈ l -> settles q s (m' !! Site.ID s)) /\
  (complete -> forall s, s ∈ l -> resolvedBy q s (m' !! Site.ID s)).

Lemma passed_stop l m q complete : ~ complete \/ l = [] -> (forall s, s ∈ l -> m !! Site.ID s = Some s) -> passed l m m q complete.
Proof.
  intros Hc Hl. split_and!; [done|intros s Hs; rewrite (Hl s Hs); constructor|]. intros Hd s Hs. destruct Hc as [Hc| ->]; [by destruct Hc|inversion Hs].
Qed.

Lemma passed_cons s l m m1 m' q1 q2 c1 c2 :
  NoDup (map Site.ID (s :: l)) -> passed [s] m m1 q1 c1 -> passed l m1 m' q2 c2 -> passed (s :: l) m m' (q1 ++ q2)%list (c1 /\ c2).
Proof.
  intros Hnd (Ha1&Hs1&Hr1) (Ha2&Hs2&Hr2). inversion Hnd as [|? ? Hni _]; subst. split_and!.
  - intros id Hid. cbn [map] in Hid. apply not_elem_of_cons in Hid as [Hne Hid]. rewrite Ha2 by done. apply Ha1. by intros Hin%list_elem_of_singleton.
  - intros x [->|Hx]%elem_of_cons; [|by apply (settles_mono q2); [set_solver|apply Hs2]].
    rewrite Ha2 by done. apply (settles_mono q1); [set_solver|apply Hs1; left].
  - intros [Hc1 Hc2] x [->|Hx]%elem_of_cons; [|by apply (resolvedBy_mono q2); [set_solver|apply Hr2]].
    rewrite Ha2 by done. apply (resolvedBy_mono q1); [set_solver|apply Hr1; [done|left]].
Qed.

(** The head of the list was stored, or forgotten. *)
Lemma passed_one s m m1 q c :
  (forall id, id <> Site.ID s -> m1 !! id = m !! id) -> settles q s (m1 !! Site.ID s) -> (c -> resolvedBy q s (m1 !! Site.ID s)) ->
  passed [s] m m1 q c.
Proof.
  intros Ha Hs Hr. split_and!.
  - intros id Hid. apply Ha. intros ->. apply Hid. left.
  - intros x ->%list_elem_of_singleton. done.
  - intros Hc x ->%list_elem_of_singleton. auto.
Qed.

Lemma passed_weaken l m m' q (c c' : Prop) : (c' -> c) -> passed l m m' q c -> passed l m m' q c'.
Proof. intros Hc (H1&H2&H3). split_and!; auto. Qed.

Lemma exec_deleteSite id m w r w' t :
  holds a m w -> pexec (host (Delete (storePath a) id)) w = (r, w', t) ->
  asked t = [] /\ (r = Ok tt /\ holds a (delete id m) w' \/ (exists e, r = Err e) /\ holds a m w').
Proof.
  intros Hm (th&Hx&->&_&_)%pexec_host_inv. split; [apply asked_host|].
  by destruct (update_refines (storePath a) b Hpath (delete id) m _ _ _ _ Hm (storable_delete m id (proj1 Hm)) Hx) as [Hr _].
Qed.

Lemma reconcileOne_id s snapshot :
  match reconcileOne s snapshot with Refused _ => True | Gone s' | Kept s' _ => Site.ID s' = Site.ID s end.
Proof.
  assert (forall x y, identity x = identity y -> Site.ID x = Site.ID y) as Hx by (by intros x y [= -> _ _ _ _ _ _]).
  pose proof (identity_applyLimits snapshot s) as Hid.
  destruct (reconcileOne_cases s snapshot) as [[e ->]|[[Hp ->]|(op&s2&o&Hop&Hp&Ht&Hout)]]; [done| |].
  - destruct (refreshStatus_keeps snapshot (applyLimits snapshot (setHealth "" s))) as (Hf&_). apply Hx. congruence.
  - apply takeReceipt_keeps in Ht. destruct (resolveStatus_keeps o snapshot s2) as (Hr&_).
    destruct Hout as [(_&_&->)|[how ->]]; apply Hx; congruence.
Qed.

Lemma exec_optional_record resolved act s m w r w' t :
  holds a m w -> pexec (match resolved with Some (ok, text) => record_ a act s ok text | None => mret (M := M pop) tt end) w = (r, w', t) ->
  r = Ok tt /\ holds a m w' /\ asked t = [].
Proof.
  intros Hm. destruct resolved as [[ok text]|]; [by apply exec_record|]. by intros (->&->&->)%pexec_ret.
Qed.

Lemma insert_others (m : gmap string Site.t) k s' id : id <> k -> <[k := s']> m !! id = m !! id.
Proof. intros Hne. by apply lookup_insert_ne. Qed.

(** The continuation [k] after a step that stored [m1], or the step's failure. *)
Definition afterStep {A} (m m1 : gmap string Site.t) (k : M pop A) (r : result A) (w' : pworld) (t : list pevent) : Prop :=
  ((exists e, r = Err e) /\ holds a m w') \/ exists w2 t2, holds a m1 w2 /\ asked t2 = asked t /\ pexec k w2 = (r, w', t2).

Lemma step_gone {A} s m (k : M pop A) w r w' t :
  holds a m w ->
  pexec (_ ← host (Delete (storePath a) (Site.ID s)); _ ← record_ a "operation-recovered" s true "confirmed deletion"; k) w = (r, w', t) ->
  afterStep m (delete (Site.ID s) m) k r w' t.
Proof.
  intros Hm [(e&Hdel&->)|(u&w2&t3&t4&Hdel&Hx&->)]%pexec_bind; apply (exec_deleteSite (Site.ID s) m) in Hdel as (Ht&Hdel); try done.
  - destruct Hdel as [[[=] _]|[_ Hm2]]. left. eauto.
  - destruct Hdel as [[_ Hm2]|[[e [=]] _]]. apply pexec_bind in Hx as [(e&Hrec&->)|(u'&w3&t5&t6&Hrec&Hx&->)];
      apply (exec_record a _ _ _ _ (delete (Site.ID s) m)) in Hrec as (Hu&Hm3&Ht5); try done.
    right. exists w3, t6. by rewrite !asked_app, Ht, Ht5.
Qed.

Lemma step_store {A} s m (k : M pop A) w r w' t :
  holds a m w -> siteOK s = true -> pexec (_ ← storeChecked a s; k) w = (r, w', t) ->
  exists checked, afterStep m (<[Site.ID s := setChecked checked s]> m) k r w' t.
Proof.
  intros Hm Hs [(e&Hput&->)|(u&w2&t3&t4&Hput&Hx&->)]%pexec_bind; apply (exec_storeChecked s m) in Hput as [(Ht&n&Hn&Hm2)|(Ht&He&Hm2)]; try done.
  - exists 0. left. eauto.
  - exists n. right. exists w2, t4. by rewrite asked_app, Ht.
  - by destruct He as [? [=]].
Qed.

Lemma step_kept {A} s how m (k : M pop A) w r w' t :
  holds a m w -> siteOK s = true ->
  pexec (_ ← match how with Some (ok, text) => record_ a "operation-recovered" s ok text | None => mret (M := M pop) tt end;
         _ ← storeChecked a s; k) w = (r, w', t) ->
  exists checked, afterStep m (<[Site.ID s := setChecked checked s]> m) k r w' t.
Proof.
  intros Hm Hs [(e&Hrec&->)|(u&w2&t3&t4&Hrec&Hx&->)]%pexec_bind; apply (exec_optional_record _ _ _ m) in Hrec as (Hu&Hm2&Ht); try done.
  apply (step_store s m) in Hx as (n&Hx); [|done..]. exists n. unfold afterStep in *. by rewrite asked_app, Ht.
Qed.

(** The head of the list is done with [m1], the rest goes on from there. *)
Lemma passed_step s l m m1 (k : M pop (option error)) q r w' t c :
  NoDup (map Site.ID (s :: l)) -> (forall x, x ∈ s :: l -> m !! Site.ID x = Some x) ->
  (forall id, id <> Site.ID s -> m1 !! id = m !! id) -> settles q s (m1 !! Site.ID s) -> (c -> resolvedBy q s (m1 !! Site.ID s)) ->
  (forall w2 t2, holds a m1 w2 -> asked t2 = asked t -> pexec k w2 = (r, w', t2) -> (forall x, x ∈ l -> m1 !! Site.ID x = Some x) ->
    exists m', holds a m' w' /\ passed l m1 m' (asked t) (r = Ok None /\ allAnswered (asked t))) ->
  afterStep m m1 k r w' t ->
  exists m', holds a m' w' /\ passed (s :: l) m m' (q ++ asked t)%list (c /\ r = Ok None /\ allAnswered (asked t)).
Proof.
  intros Hnd Hl Ho Hs Hr Hk [[[e ->] Hm]|(w2&t2&Hm&Ht&Hx)].
  - exists m. split; [done|]. apply passed_stop; [|done]. left. by intros (_&[=]&_).
  - inversion Hnd as [|? ? Hni Hnd']; subst. destruct (Hk w2 t2) as (m'&Hm'&Hp); [done..| |].
    + intros x Hx'. rewrite Ho; [by apply Hl; right|]. intros Heq. apply Hni. rewrite <- Heq. by apply list_elem_of_fmap_2.
    + exists m'. split; [done|]. eapply passed_cons; [done| |done]. by apply passed_one.
Qed.

Lemma reconcileSites_passed l fe m w r w' t :
  holds a m w -> NoDup (map Site.ID l) -> (forall s, s ∈ l -> m !! Site.ID s = Some s) -> wellAnswered (asked t) ->
  pexec (reconcileSites a l fe) w = (r, w', t) ->
  exists m', holds a m' w' /\ passed l m m' (asked t) (r = Ok None /\ allAnswered (asked t)).
Proof.
  revert fe m w t. induction l as [|s l IH]; intros fe m w t Hm Hnd Hl Hwell; cbn [reconcileSites].
  { intros (->&->&->)%pexec_ret. exists m. split; [done|]. apply passed_stop; [by right|done]. }
  intros (x&w1&t1&t2&Hrt&Hx&->)%pexec_try_bind. apply exec_runtimeOf in Hrt as (Hw1&_&Hrt).
  assert (holds a m w1) as Hm1 by (unfold holds; by rewrite Hw1). clear w Hm Hw1. rewrite asked_app in *.
  assert (siteOK s = true) as Hs by (apply (proj1 Hm1 (Site.ID s)), Hl; left).
  assert (wellAnswered (asked t1) /\ wellAnswered (asked t2)) as [Hwell1 Hwell2]
    by (split; intros id sn Hr; apply (Hwell id); eapply reported_mono; try exact Hr; set_solver).
  assert (forall c : Prop, ~ c -> exists m', holds a m' w1 /\ passed (s :: l) m m' (asked t1 ++ asked t2)%list c) as Hstop
    by (intros c Hc; exists m; split; [done|]; apply passed_stop; [by left|done]).
  assert (allAnswered (asked t1 ++ asked t2)%list -> allAnswered (asked t1) /\ allAnswered (asked t2)) as Hall by (by intros ?%Forall_app).
  assert (forall fe m1 c, (forall id, id <> Site.ID s -> m1 !! id = m !! id) -> settles (asked t1) s (m1 !! Site.ID s) ->
    (c -> resolvedBy (asked t1) s (m1 !! Site.ID s)) -> (allAnswered (asked t1) -> c) -> afterStep m m1 (reconcileSites a l fe) r w' t2 ->
    exists m', holds a m' w' /\ passed (s :: l) m m' (asked t1 ++ asked t2)%list (r = Ok None /\ allAnswered (asked t1 ++ asked t2)%list)) as Hgo.
  { intros fe' m1 c Ho Hst Hr Hc Hx'. edestruct (passed_step s l m m1 (reconcileSites a l fe') (asked t1) r w' t2 c Hnd Hl Ho Hst Hr) as (m'&Hm'&Hp); [|exact Hx'|].
    - intros w2 t3 Hm2 Ht Hx2 Hl2. rewrite <- Ht. inversion Hnd; subst. eapply IH; [exact Hm2|done|exact Hl2|by rewrite Ht|exact Hx2].
    - exists m'. split; [done|]. eapply passed_weaken; [|exact Hp]. intros [? [??]%Hall]. auto. }
  clear IH Hwell. destruct x as [snapshot|e].
  - pose proof (Hwell1 _ _ Hrt) as Hok. pose proof (reconcileOne_id s snapshot) as Hid. destruct (reconcileOne s snapshot) as [e|s1|s1 how] eqn:Er.
    + apply pexec_ret in Hx as (->&->&->). apply Hstop. by intros [[=] _].
    + apply (step_gone s1 m) in Hx; [|done]. rewrite Hid in Hx. assert (resolvedBy (asked t1) s (delete (Site.ID s) m !! Site.ID s)) as Hr
        by (rewrite lookup_delete_eq; by eapply resolved_gone).
      eapply (Hgo _ _ True); [intros; by apply lookup_delete_ne|by apply settles_resolved|done|done|exact Hx].
    + apply (step_kept s1 how m) in Hx as (n&Hx); [|done|by eapply reconcileOne_siteOK]. rewrite Hid in Hx.
      assert (resolvedBy (asked t1) s (<[Site.ID s := setChecked n s1]> m !! Site.ID s)) as Hr
        by (rewrite lookup_insert_eq; by eapply resolved_kept).
      eapply (Hgo _ _ True); [intros; by apply lookup_insert_ne|by apply settles_resolved|done|done|exact Hx].
  - destruct (isConflict e).
    { apply pexec_ret in Hx as (->&->&->). apply Hstop. intros [_ [? _]%Hall]. done. }
    apply (step_store (setHealth unchecked s) m) in Hx as (n&Hx); [|done|by apply siteOK_unreachable].
    eapply (Hgo _ _ False); [intros; by apply lookup_insert_ne| |done|done|exact Hx].
    change (Site.ID (setHealth unchecked s)) with (Site.ID s). rewrite lookup_insert_eq. apply settles_unreachable.
Qed.

(** The sites are stored under their identifiers. *)
Definition keyed (m : gmap string Site.t) : Prop := forall k s, m !! k = Some s -> Site.ID s = k.

Lemma listed_perm m : sortSites (map snd (sortedKeys m)) ≡ₚ map snd (map_to_list m).
Proof. etransitivity; [apply sortSites_spec|]. apply Permutation_map, sortedKeys_perm. Qed.

Lemma listed_elem m s : s ∈ sortSites (map snd (sortedKeys m)) <-> exists k, m !! k = Some s.
Proof.
  rewrite listed_perm. rewrite list_elem_of_fmap. split.
  - intros ([k s']&->&Hin%elem_of_map_to_list). by exists k.
  - intros [k Hk]. exists (k, s). split; [done|]. by apply elem_of_map_to_list.
Qed.

Lemma listed_NoDup m : keyed m -> NoDup (map Site.ID (sortSites (map snd (sortedKeys m)))).
Proof.
  intros Hk. change (map Site.ID) with (fmap (M := list) Site.ID). rewrite listed_perm.
  assert (Site.ID <$> map snd (map_to_list m) = fst <$> map_to_list m) as ->; [|apply NoDup_fst_map_to_list].
  change (map snd (map_to_list m)) with (snd <$> map_to_list m). rewrite <- list_fmap_compose. apply list_fmap_ext.
  intros i [k s] Hin%list_elem_of_lookup_2%elem_of_map_to_list. cbn. by apply Hk.
Qed.

(** C6: a reconciliation pass.  The panel's store before and after, whatever the
    worker answers and whatever fails: a site is as it was, is marked as not
    checked, or is what the worker's answer about it makes of it; no other site
    appears.  When the pass reports no error and every question was answered,
    every site is what its answer makes of it, and if the receipts shown are
    closed, as the worker's are, no site of the store is pending any longer. *)
Theorem reconcileRuntime_settles m w r w' t :
  holds a m w -> keyed m -> wellAnswered (asked t) -> pexec (reconcileRuntime a false) w = (r, w', t) ->
  exists m', holds a m' w' /\
    (forall id, match m !! id with Some s => settles (asked t) s (m' !! id) | None => m' !! id = None end) /\
    (r = Ok tt -> allAnswered (asked t) -> (forall id s, m !! id = Some s -> resolvedBy (asked t) s (m' !! id)) /\
      ((forall id snapshot, reported (asked t) id snapshot -> closed snapshot) -> forall id s, m' !! id = Some s -> operationPending s = false)).
Proof.
  intros Hm Hk Hwell. unfold reconcileRuntime. cbv iota. intros [(e&Hlist&->)|(sites&w1&t1&t2&Hlist&Hx&->)]%pexec_bind;
    apply pexec_host_inv in Hlist as (th&Hlist&->&_&_);
    apply (exec_readMap (storePath a) (fun m => sortSites (map snd (sortedKeys m))) m) in Hlist as (Hw&->&Hs); try done.
  - exists m. unfold holds. rewrite Hw. split; [done|]. split; [|done]. intros id. destruct (m !! id) eqn:E; [|done]. constructor.
  - destruct Hs as [[= ->]|[? [=]]]. cbn [map List.app] in *. assert (holds a m w1) as Hm1 by (unfold holds; by rewrite Hw).
    set (l := sortSites (map snd (sortedKeys m))) in *.
    assert (forall s, s ∈ l -> m !! Site.ID s = Some s) as Hl by (intros s [k Hks]%listed_elem; by rewrite (Hk _ _ Hks)).
    assert (exists o t3 w3, pexec (reconcileSites a l None) w1 = (o, w', t2) /\ (r = Ok tt -> o = Ok None) /\ t3 = t2 /\ w3 = w') as (o&_&_&Hp&Ho&_).
    { apply pexec_bind in Hx as [(e&Hx&->)|(o&w2&t3&t4&Hx&(->&->&->)%pexec_ret&->)]; eexists _, _, _; (split; [rewrite ?app_nil_r; exact Hx|]);
        (split; [|done]); [done|]. by destruct o. }
    apply (reconcileSites_passed l None m) in Hp as (m'&Hm'&Ho1&Ho2&Ho3); [|done|by apply listed_NoDup|done|done].
    assert (forall id, m !! id = None -> m' !! id = None) as Hnone.
    { intros id E. rewrite Ho1; [done|]. intros (s&->&[k Hks]%listed_elem)%list_elem_of_fmap. rewrite (Hk _ _ Hks) in E. congruence. }
    exists m'. split; [done|]. split.
    + intros id. destruct (m !! id) as [s|] eqn:E; [|auto]. rewrite <- (Hk _ _ E). apply Ho2, listed_elem. eauto.
    + intros Hr Ha. assert (forall id s, m !! id = Some s -> resolvedBy (asked t2) s (m' !! id)) as Hres.
      { intros id s E. rewrite <- (Hk _ _ E). apply Ho3; [auto|]. apply listed_elem. eauto. }
      split; [exact Hres|]. intros Hcl id s' Hs'. destruct (m !! id) as [s|] eqn:E; [|rewrite Hnone in Hs'; congruence].
      specialize (Hres id s E). rewrite Hs' in Hres. inversion Hres as [snapshot s1 how checked Hrep Hone Heq|]; subst.
      by apply (reconcileOne_resolves s snapshot s1 how Hone), (Hcl (Site.ID s)).
Qed.
End pass.

(** The worker's own answers carry closed receipts. *)
Lemma runtime_closed cfg `{Unicode} `{Codec Operation.t} `{Env} id w snapshot w' t :
  exec (Operations.runtime cfg id) w = (Ok snapshot, w', t) -> closed snapshot.
Proof.
  unfold Operations.runtime, runtimeSnapshot. destruct (negb (ValidID id)); [done|].
  intros (configured&w1&t1&t2&_&Hx&_)%exec_bind_Ok. apply exec_bind_Ok in Hx as (?&w2&t3&t4&_&Hx&_). cbv zeta in Hx.
  apply exec_bind_Ok in Hx as (op&w3&t5&t6&_&Hx&_). apply exec_bind_Ok in Hx as (op'&w4&t7&t8&Hrec&Hx&_).
  assert (forall s, closed (SiteRuntime.mk (fst s) (snd s) op' (match configured with Ok r => Some r | Err _ => None end))) as Hc.
  { intros s. unfold closed. cbn [SiteRuntime.Operation]. unfold recoverPending in Hrec.
    destruct op as [o|]; [|by apply exec_ret in Hrec as ([= ->]&_)].
    destruct (pendingOp o) eqn:Ep; [|by apply exec_ret in Hrec as ([= ->]&_)].
    do 3 (apply exec_bind_Ok in Hrec as (?&?&?&?&_&Hrec&_)). by apply exec_ret in Hrec as ([= ->]&_). }
  clear Hrec. apply exec_bind_Ok in Hx as (out&w5&t9&t10&_&Hx&_).
  destruct (fields out) as [|f fs]; [apply exec_ret in Hx as ([= ->]&_); apply (Hc (_, _))|]. destruct (20 <? _); [done|].
  do 2 (apply exec_bind_Ok in Hx as (?&?&?&?&_&Hx&_)). destruct (findService _ _ _ _); [|by apply exec_ret in Hx as ([= ->]&_); apply (Hc (_, _))].
  destruct (findService _ _ _ _); [|by apply exec_ret in Hx as ([= ->]&_); apply (Hc (_, _))].
  do 2 (apply exec_bind_Ok in Hx as (?&?&?&?&_&Hx&_)). apply exec_ret in Hx as ([= ->]&_). apply Hc.
Qed.

(** ** Witnesses: the lost stop is resolved *)
#[local] Existing Instance asciiUnicode.
#[local] Existing Instance samplePeer.

Definition stopMarker : Operation.t := Operation.mk "6161616161616161" "stop" "pending" 1700000000000000000 zeroTime unconfirmed None false.
Definition pendingMap : gmap string Site.t := {[sampleID := setOperation (Some stopMarker) firstSite]}.
Definition reconcileWorld : pworld := panelWorld pendingMap [] (l_worker (p_peer lostRun.1.2)).
Definition reconcileRun : result unit * pworld * list pevent := pexec (reconcileRuntime sampleApp false) reconcileWorld.

Lemma pending_lookup k s : pendingMap !! k = Some s -> k = sampleID /\ s = setOperation (Some stopMarker) firstSite.
Proof. unfold pendingMap. by intros [<- <-]%lookup_singleton_Some. Qed.

Lemma pending_holds : holds sampleApp pendingMap reconcileWorld.
Proof.
  split; [|vm_compute; reflexivity]. intros k s [-> ->]%pending_lookup. split; vm_compute; reflexivity.
Qed.

Definition runtimeReply : string := match asked reconcileRun.2 with [(_, inr (_, text))] => text | _ => "" end.
Lemma reconcile_asked : asked reconcileRun.2 = [("/runtime", printJSON (runtimeRequestJSON sampleID), "", inr (200, runtimeReply))].
Proof. vm_compute. reflexivity. Qed.
Definition readSnapshot : SiteRuntime.t := match reads runtimeFields zeroRuntime runtimeReply with Ok s => s | Err _ => zeroRuntime end.
Lemma reconcile_snapshot : reads runtimeFields zeroRuntime runtimeReply = Ok readSnapshot /\ runtimeOK readSnapshot = true /\
  closed readSnapshot /\ SiteRuntime.Operation readSnapshot =
    Some (Operation.mk "6161616161616161" "stop" "succeeded" 1700000000000000000 1700000000000000000 "" None false).
Proof. split_and!; vm_compute; reflexivity. Qed.

Lemma wellAnswered_one body text snapshot :
  reads runtimeFields zeroRuntime text = Ok snapshot -> runtimeOK snapshot = true ->
  wellAnswered [("/runtime", body, "", inr (200, text))].
Proof.
  intros Hr Hok id sn (text'&Hin&Hr'). apply list_elem_of_singleton in Hin. injection Hin as _ ->. congruence.
Qed.

Lemma reconcile_wellAnswered : wellAnswered (asked reconcileRun.2).
Proof.
  rewrite reconcile_asked. destruct reconcile_snapshot as (Hs&Hok&_). by apply (wellAnswered_one _ _ readSnapshot).
Qed.

Lemma reconcileRuntime_settles_witness :
  exists m', holds sampleApp m' reconcileRun.1.2 /\
    (forall id, match pendingMap !! id with Some s => settles (asked reconcileRun.2) s (m' !! id) | None => m' !! id = None end) /\
    (reconcileRun.1.1 = Ok tt -> allAnswered (asked reconcileRun.2) ->
      (forall id s, pendingMap !! id = Some s -> resolvedBy (asked reconcileRun.2) s (m' !! id)) /\
      ((forall id snapshot, reported (asked reconcileRun.2) id snapshot -> closed snapshot) ->
        forall id s, m' !! id = Some s -> operationPending s = false)).
Proof.
  exact (reconcileRuntime_settles sampleApp "sites.json" eq_refl sampleApp_separate eq_refl pendingMap reconcileWorld
    reconcileRun.1.1 reconcileRun.1.2 reconcileRun.2 pending_holds
    ltac:(intros k s Hk; destruct (pending_lookup k s Hk) as [-> ->]; reflexivity) reconcile_wellAnswered (pexec_parts _ _)).
Defined.
