(* ===== verification/Schedule.v ===== *)
(** * Schedule: backups of the panel, [cmd/panel/main.go]

    The scheduled backups, their retention, and the requests that change a
    site's backups.  The operations mutex is held for each of them. *)
From S2P Require Import Prelude GoStrings GoPath GoFloat GoTime GoBase64 Effects World Core Json GoFloatText CoreJson CoreJsonFacts Worker Capacity Operations Server Store ActivityLog Panel.

Definition isScheduled (b : Backup.t) : bool := String.eqb (Backup.Source b) BackupSourceScheduled.

Definition scheduledBackupCount (l : list Backup.t) : Z := Z.of_nat (length (filter (fun b => isScheduled b = true) l)).

(** The loop of [oldestScheduledBackup]: [best] is the index found so far with
    its time, [index] the current one. *)
Fixpoint oldestFrom (index : nat) (best : option (nat * time)) (l : list Backup.t) : option (nat * time) :=
  match l with
  | [] => best
  | b :: l' =>
      oldestFrom (S index)
        (if negb (isScheduled b) then best
         else match best with
              | None => Some (index, Backup.CreatedAt b)
              | Some (_, t) => if Backup.CreatedAt b <? t then Some (index, Backup.CreatedAt b) else best
              end) l'
  end.
Definition oldestScheduledBackup (l : list Backup.t) : option nat := fst <$> oldestFrom 0 None l.

Definition truncateText (value : string) (limit : Z) : string :=
  if lenZ value <=? limit then value else take (Z.to_nat limit) value.

Definition setLastError (text : string) (p : BackupPolicy.t) : BackupPolicy.t :=
  BackupPolicy.mk (BackupPolicy.Enabled p) (BackupPolicy.IntervalHours p) (BackupPolicy.Retention p) (BackupPolicy.NextRunAt p)
    (BackupPolicy.LastAttemptAt p) (BackupPolicy.LastSuccessAt p) text.

(** [time.Duration(hours) * time.Hour]. *)
Definition hours (n : Z) : Z := wrap64 (n * 3600000000000).

Section schedule.
Context (a : app).

Definition deleteBackupCall (site backupID : string) : M pop unit :=
  callWorker a "/backup/delete" (Ok (deleteBackupJSON (DeleteBackupRequest.mk site backupID))) 204 ignored.

(** [pruneScheduledBackups]: every turn removes one backup, so [fuel] turns
    are enough for a list of that length. *)
Fixpoint pruneLoop (fuel : nat) (site : Site.t) : M pop Site.t :=
  match fuel with
  | O => mret site
  | S n =>
      if scheduledBackupCount (Site.Backups site) <=? BackupPolicy.Retention (Site.BackupPolicy site) then mret site
      else
        match oldestScheduledBackup (Site.Backups site) with
        | None => mret site
        | Some index =>
            let id := match Site.Backups site !! index with Some b => Backup.ID b | None => "" end in
            r ← try (deleteBackupCall (Site.ID site) id);
            match r with
            | Err e =>
                let site := setPolicy (setLastError (truncateText ("retention cleanup: " +:+ errorText e) 500) (Site.BackupPolicy site)) site in
                _ ← try (putSite a site);
                _ ← record_ a "scheduled-backup-retention" site false (errorText e);
                mret site
            | Ok _ =>
                let site := setBackups (delete index (Site.Backups site)) site in
                saved ← try (putSite a site);
                match saved with
                | Err e => _ ← record_ a "scheduled-backup-retention" site false ("metadata: " +:+ errorText e); mret site
                | Ok _ => _ ← record_ a "scheduled-backup-retention" site true id; pruneLoop n site
                end
            end
        end
  end.
Definition pruneScheduledBackups (site : Site.t) : M pop Site.t := pruneLoop (S (length (Site.Backups site))) site.

(** [performBackup]: the site with its operation, and the backup. *)
Definition performBackup (site : Site.t) (source : string) (at_ : time) : M pop (Site.t * result Backup.t) :=
  r ← try (host (perform (ORand 4)));
  match r with
  | Err _ => mret (site, Err (EMsg "unable to generate backup ID"))
  | Ok b =>
      tracked ← callTracked a site (source +:+ "-backup") "/backup" (backupRequestJSON (BackupRequest.mk site (newBackupID at_ b))) 200
        (reads backupFields zeroBackup);
      mret (fst tracked, match snd tracked with
                         | Ok b => Ok (Backup.mk (Backup.ID b) (Backup.CreatedAt b) source)
                         | Err e => Err e
                         end)
  end.

Definition attempted (p : BackupPolicy.t) (at_ : time) : BackupPolicy.t :=
  BackupPolicy.mk (BackupPolicy.Enabled p) (BackupPolicy.IntervalHours p) (BackupPolicy.Retention p)
    (at_ + hours (BackupPolicy.IntervalHours p)) at_ (BackupPolicy.LastSuccessAt p) (BackupPolicy.LastError p).
Definition succeeded (p : BackupPolicy.t) (created : time) : BackupPolicy.t :=
  BackupPolicy.mk (BackupPolicy.Enabled p) (BackupPolicy.IntervalHours p) (BackupPolicy.Retention p) (BackupPolicy.NextRunAt p)
    (BackupPolicy.LastAttemptAt p) created "".

(** A scheduled backup that did not happen. *)
Definition missed (site : Site.t) (policy : BackupPolicy.t) (text : string) : M pop unit :=
  let site := setPolicy (setLastError text policy) site in
  _ ← try (putSite a site);
  record_ a "scheduled-backup" site false text.

Definition runScheduledBackup (site : Site.t) (at_ : time) : M pop unit :=
  let policy := attempted (Site.BackupPolicy site) at_ in
  if negb (String.eqb (Site.Status site) StatusRunning) then missed site policy "site is not running"
  else
    r ← performBackup site BackupSourceScheduled at_;
    let '(site, outcome) := r in
    match outcome with
    | Err e => missed site policy (truncateText (errorText e) 500)
    | Ok backup =>
        let site := setBackups (Site.Backups site ++ [backup]) (setPolicy (succeeded policy (Backup.CreatedAt backup)) site) in
        saved ← try (putSite a site);
        match saved with
        | Err e => record_ a "scheduled-backup" site false ("metadata: " +:+ errorText e)
        | Ok _ => _ ← record_ a "scheduled-backup" site true (Backup.ID backup); _ ← pruneScheduledBackups site; mret tt
        end
    end.

(** Is a scheduled backup due? *)
Definition due (p : BackupPolicy.t) (at_ : time) : bool :=
  is_ok (ValidateBackupPolicy p) && BackupPolicy.Enabled p && negb (BackupPolicy.NextRunAt p =? zeroTime) &&
  negb (at_ <? BackupPolicy.NextRunAt p).

(** The turn of a candidate, with the operations mutex: the site is read again
    and backed up if that is still due. *)
Definition scheduledCandidate (at_ : time) (candidate : Site.t) : M pop unit :=
  r ← try (host (Get (storePath a) (Site.ID candidate)));
  match r with
  | Ok (Some site) =>
      if negb (operationPending site) && String.eqb (Site.HealthError site) "" && BackupPolicy.Enabled (Site.BackupPolicy site) &&
         negb (at_ <? BackupPolicy.NextRunAt (Site.BackupPolicy site))
      then runScheduledBackup site at_ else mret tt
  | _ => mret tt
  end.

Definition runScheduledBackups (at_ : time) : M pop unit :=
  sites ← try (host (List_ (storePath a)));
  match sites with
  | Err _ => mret tt
  | Ok sites =>
      forM sites tt (fun _ candidate => if negb (due (Site.BackupPolicy candidate) at_) then mret tt else scheduledCandidate at_ candidate)
  end.

(** [runBackupScheduler]: the scheduler up to the ticks given; its context is
    never done. *)
Definition runBackupScheduler (ticks : list time) : M pop unit := forM ticks tt (fun _ at_ => runScheduledBackups at_).
End schedule.
