(* ===== verification/ScheduleFacts.v ===== *)
(** * ScheduleFacts: retention removes scheduled backups, the oldest first *)
From stdpp Require Import sorting.
From S2P Require Import Prelude GoStrings Utf8Facts GoPath GoFloat GoTime GoBase64 Effects World Core CoreFacts Json JsonFacts GoFloatText CoreJson CoreJsonFacts Worker Samples Capacity Operations Server Store StoreFacts ActivityLog Panel Link PanelFacts ReconcileFacts Schedule.
Set Warnings "-register-all".

(** ** The oldest scheduled backup *)

(** [best] is the first of the scheduled backups before [index] with the least
    time. *)
Definition bestBefore (l : list Backup.t) (index : nat) (best : option (nat * time)) : Prop :=
  match best with
  | None => forall i b, l !! i = Some b -> (i < index)%nat -> isScheduled b = false
  | Some (i, t) => (i < index)%nat /\ (exists b, l !! i = Some b /\ isScheduled b = true /\ Backup.CreatedAt b = t) /\
      forall j b, l !! j = Some b -> (j < index)%nat -> isScheduled b = true -> t <= Backup.CreatedAt b
  end.

Lemma oldestFrom_spec pre l best :
  bestBefore (pre ++ l) (length pre) best -> bestBefore (pre ++ l) (length (pre ++ l)) (oldestFrom (length pre) best l).
Proof.
  revert pre best. induction l as [|b l IH]; intros pre best Hb; cbn [oldestFrom]; [by rewrite app_nil_r in *|].
  specialize (IH (pre ++ [b])%list). rewrite <- app_assoc, length_app in IH. cbn [List.app length] in IH. rewrite Nat.add_1_r in IH.
  assert ((pre ++ b :: l)%list !! length pre = Some b) as Hhere by (by rewrite lookup_app_r, Nat.sub_diag by lia).
  assert (forall j x, (pre ++ b :: l)%list !! j = Some x -> (j < S (length pre))%nat -> x = b \/ (j < length pre)%nat) as Hj.
  { intros j x Hx Hlt. destruct (decide (j = length pre)) as [->|]; [left; congruence|right; lia]. }
  apply IH. clear IH. destruct (isScheduled b) eqn:Es; cbn [negb].
  - destruct best as [[i t]|]; cbn [bestBefore] in *.
    + destruct Hb as (Hi&(x&Hx&Hxs&Hxt)&Hall). destruct (Z.ltb_spec (Backup.CreatedAt b) t); split_and!; try lia; eauto.
      * intros j y Hy Hlt Hys. destruct (Hj j y Hy Hlt) as [->|Hlt']; [lia|]. specialize (Hall j y Hy Hlt' Hys). lia.
      * intros j y Hy Hlt Hys. destruct (Hj j y Hy Hlt) as [->|Hlt']; [lia|]. eauto.
    + split_and!; [lia|by exists b|]. intros j y Hy Hlt Hys. destruct (Hj j y Hy Hlt) as [->|Hlt']; [lia|]. by rewrite (Hb j y Hy Hlt') in Hys.
  - destruct best as [[i t]|]; cbn [bestBefore] in *.
    + destruct Hb as (Hi&Hx&Hall). split_and!; [lia|done|]. intros j y Hy Hlt Hys. destruct (Hj j y Hy Hlt) as [->|Hlt']; [congruence|eauto].
    + intros j y Hy Hlt. destruct (Hj j y Hy Hlt) as [->|Hlt']; [done|eauto].
Qed.

Lemma oldest_spec l i : oldestScheduledBackup l = Some i ->
  exists b, l !! i = Some b /\ isScheduled b = true /\ forall x, x ∈ l -> isScheduled x = true -> Backup.CreatedAt b <= Backup.CreatedAt x.
Proof.
  unfold oldestScheduledBackup. intros ([j t]&Ht&->)%fmap_Some. pose proof (oldestFrom_spec [] l None) as Ho. cbn [List.app length] in Ho.
  rewrite Ht in Ho. destruct Ho as (Hj&(b&Hb&Hs&<-)&Hall); [by intros ? ? ? ?%Nat.nlt_0_r|]. exists b. split_and!; try done.
  intros x [k Hk]%list_elem_of_lookup Hx. apply (Hall k x Hk); [|done]. by apply lookup_lt_Some in Hk.
Qed.

Lemma oldest_exists l : 0 < scheduledBackupCount l -> oldestScheduledBackup l <> None.
Proof.
  unfold oldestScheduledBackup, scheduledBackupCount. intros Hc Hn. pose proof (oldestFrom_spec [] l None) as Ho. cbn [List.app length] in Ho.
  destruct (oldestFrom 0 None l); [done|]. cbn [bestBefore] in Ho.
  destruct (filter (fun b => isScheduled b = true) l) as [|x f] eqn:Ef; [done|].
  assert (x ∈ filter (fun b => isScheduled b = true) l) as [Hx [i Hi]%list_elem_of_lookup]%list_elem_of_filter by (rewrite Ef; left).
  rewrite (Ho ltac:(by intros ? ? ? ?%Nat.nlt_0_r) i x Hi) in Hx; [done|]. by apply lookup_lt_Some in Hi.
Qed.

(** ** What a pruning removes *)

(** The worker was asked to delete backup [b] of [site]. *)
Definition deletion (site : string) (b : Backup.t) (r : answered) : string * string * string * answered :=
  ("/backup/delete", printJSON (deleteBackupJSON (DeleteBackupRequest.mk site (Backup.ID b))), "", r).

(** From the backups [l], with these confirmed deletions, to [l']. *)
Inductive prunes (site : string) (retention : Z) : list Backup.t -> list (string * string * string * answered) -> list Backup.t -> Prop :=
| prunes_none l : prunes site retention l [] l
| prunes_one l i b text qs l' :
    retention < scheduledBackupCount l -> oldestScheduledBackup l = Some i -> l !! i = Some b ->
    prunes site retention (delete i l) qs l' -> prunes site retention l (deletion site b (inr (204, text)) :: qs) l'.

Lemma count_delete l i b : l !! i = Some b -> isScheduled b = true -> scheduledBackupCount (delete i l) = scheduledBackupCount l - 1.
Proof.
  intros Hi Hs. unfold scheduledBackupCount. rewrite <- (take_drop_middle l i b Hi) at 2. rewrite delete_take_drop, !filter_app, filter_cons_True by done.
  rewrite !length_app. cbn [length]. lia.
Qed.

(** A pruning removes scheduled backups only, never more than are over the
    limit, and none that is later than a scheduled one it keeps. *)
Lemma prunes_spec site retention l qs l' : 0 <= retention -> prunes site retention l qs l' ->
  l' `sublist_of` l /\ filter (fun b => isScheduled b = false) l' = filter (fun b => isScheduled b = false) l /\
  scheduledBackupCount l' = scheduledBackupCount l - Z.of_nat (length qs) /\
  (qs <> [] -> retention <= scheduledBackupCount l') /\
  forall q, q ∈ qs -> exists b r, q = deletion site b r /\ b ∈ l /\ isScheduled b = true /\
    forall x, x ∈ l' -> isScheduled x = true -> Backup.CreatedAt b <= Backup.CreatedAt x.
Proof.
  intros Hr. induction 1 as [l|l i b text qs l' Hc Ho Hi Hp IH].
  { split_and!; try done; [cbn [length]; lia|]. intros q Hq. inversion Hq. }
  destruct IH as (Hsub&Hf&Hn&Hfloor&Hq). destruct (oldest_spec l i Ho) as (b'&Hb'&Hs&Hold). rewrite Hi in Hb'. injection Hb' as <-.
  pose proof (count_delete l i b Hi Hs) as Hcd. assert (delete i l `sublist_of` l) as Hdel by apply sublist_delete.
  split_and!.
  - by etransitivity.
  - rewrite Hf. rewrite <- (take_drop_middle l i b Hi) at 2. rewrite delete_take_drop, !filter_app, filter_cons_False; [done|congruence].
  - cbn [length]. lia.
  - intros _. destruct qs as [|q qs]; [inversion Hp; subst; lia|by apply Hfloor].
  - intros q [->|Hin]%elem_of_cons.
    + exists b, (inr (204, text)). split_and!; try done; [by eapply list_elem_of_lookup_2|]. intros x Hx Hxs. apply Hold; [|done].
      eapply elem_of_sublist; [|exact Hdel]. by eapply elem_of_sublist.
    + destruct (Hq q Hin) as (b2&r&->&Hb2&Hs2&Hle). exists b2, r. split_and!; try done. by eapply elem_of_sublist.
Qed.

Section prune.
Context `{Env} `{Peer} (a : app) (b : string).
Hypothesis Hpath : storePath a = dir (storePath a) +/+ b.
Hypothesis Hsep : separate a = true.

(** The deletion was not confirmed. *)
Definition unconfirmedReply (q : string * string * string * answered) : Prop :=
  match q.2 with inr (status, _) => status <> 204 | inl _ => True end.

Lemma exec_deleteCall site bk w r w' t :
  pexec (deleteBackupCall a site (Backup.ID bk)) w = (r, w', t) ->
  p_host w' = p_host w /\
  (r = Ok tt /\ (exists text, asked t = [deletion site bk (inr (204, text))]) \/
   (exists e, r = Err e) /\ (asked t = [] \/ exists reply, asked t = [deletion site bk reply] /\ unconfirmedReply (deletion site bk reply))).
Proof.
  unfold deleteBackupCall, callWorker. intros (Hh&_&[(->&_&e&->)|(j&reply&[= <-]&->&->&_)])%exec_call; (split; [done|]).
  - right. split; [eauto|by left].
  - destruct reply as [m|[status text]]; cbn [answerOf]; [right; split; [eauto|]; right; by exists (inl m)|].
    destruct (Z.eqb_spec status 204) as [->|Hne]; cbn [negb]; [left; split; [done|by exists text]|].
    right. split; [eauto|]. right. by exists (inr (status, text)).
Qed.

Lemma exec_record_asks act s success detail w r w' t :
  pexec (record_ a act s success detail) w = (r, w', t) -> r = Ok tt /\ asked t = [].
Proof.
  unfold record_. intros (x&w1&t1&t2&Hx&(->&->&->)%pexec_ret&->)%pexec_try_bind.
  apply pexec_host_inv in Hx as (th&Hx&->&_&_). by rewrite app_nil_r, asked_host.
Qed.

Lemma siteOK_delete i s : siteOK s = true -> siteOK (setBackups (delete i (Site.Backups s)) s) = true.
Proof.
  intros Hs. pose proof (siteOK_health s Hs) as Hh. apply siteOK_split in Hs as Hp. destruct Hp as (Hb&Hop&Hst&He).
  apply (siteOK_parts s); try done. cbn [Site.Backups setBackups]. rewrite forallb_forall in *. intros x Hx. apply Hb.
  apply list_elem_of_In. eapply elem_of_sublist; [by apply list_elem_of_In|apply sublist_delete].
Qed.

(** How a pruning of a site stored in [m] ends: within its limit and stored;
    with a confirmed deletion that could not be stored; or with a deletion the
    worker did not confirm. *)
Inductive pruneEnd (m : gmap string Site.t) (w' : pworld) (site' : Site.t) : list (string * string * string * answered) -> Prop :=
| end_within : scheduledBackupCount (Site.Backups site') <= BackupPolicy.Retention (Site.BackupPolicy site') ->
    holds a (<[Site.ID site' := site']> m) w' -> pruneEnd m w' site' []
| end_unsaved i prev : site' = setBackups (delete i (Site.Backups prev)) prev -> holds a (<[Site.ID site' := prev]> m) w' -> pruneEnd m w' site' []
| end_refused rest : Forall unconfirmedReply rest -> (length rest <= 1)%nat -> pruneEnd m w' site' rest.

Lemma pruneLoop_end fuel site m w r w' t :
  (length (Site.Backups site) < fuel)%nat -> 0 <= BackupPolicy.Retention (Site.BackupPolicy site) ->
  holds a (<[Site.ID site := site]> m) w -> siteOK site = true ->
  pexec (pruneLoop a fuel site) w = (r, w', t) ->
  exists site' qs rest, r = Ok site' /\ asked t = (qs ++ rest)%list /\ Site.ID site' = Site.ID site /\
    prunes (Site.ID site) (BackupPolicy.Retention (Site.BackupPolicy site)) (Site.Backups site) qs (Site.Backups site') /\
    pruneEnd m w' site' rest.
Proof.
  revert site w t. induction fuel as [|fuel IH]; intros site w t Hfuel Hret Hm Hs; [lia|]. cbn [pruneLoop].
  destruct (Z.leb_spec (scheduledBackupCount (Site.Backups site)) (BackupPolicy.Retention (Site.BackupPolicy site))) as [Hle|Hgt].
  { intros (->&->&->)%pexec_ret. exists site, [], []. split_and!; try done; [constructor|by constructor]. }
  destruct (oldestScheduledBackup (Site.Backups site)) as [i|] eqn:Eo; [|by apply oldest_exists in Eo; [|lia]].
  destruct (oldest_spec _ _ Eo) as (bk&Hi&_&_). rewrite Hi. intros (x&w1&t1&t2&Hdel&Hx&->)%pexec_try_bind.
  apply exec_deleteCall in Hdel as (Hw1&Hdel). assert (holds a (<[Site.ID site := site]> m) w1) as Hm1 by (unfold holds; by rewrite Hw1).
  rewrite asked_app. destruct Hdel as [[-> [text ->]]|[[e ->] Hq]].
  - (* the worker confirmed the deletion *)
    set (site1 := setBackups (delete i (Site.Backups site)) site) in *.
    assert (siteOK site1 = true) as Hs1 by by apply siteOK_delete.
    apply pexec_try_bind in Hx as (saved&w2&t3&t4&Hput&Hx&->).
    apply (exec_putSite a b Hpath site1 (<[Site.ID site := site]> m)) in Hput as (Ht3&_&Hput&_); [|done|done].
    change (Site.ID site1) with (Site.ID site) in Hput. rewrite insert_insert_eq in Hput. rewrite asked_app, Ht3. cbn [List.app].
    destruct saved as [u|e].
    + destruct Hput as [[_ Hm2]|[[e [=]] _]]. apply pexec_bind in Hx as [(e&Hrec&->)|(u'&w3&t5&t6&Hrec&Hx&->)];
        apply (exec_record a _ _ _ _ (<[Site.ID site := site1]> m)) in Hrec as (Hu&Hm3&Ht5); try done.
      rewrite asked_app, Ht5. cbn [List.app]. apply IH in Hx as (site'&qs&rest&->&Hq&Hid&Hp&Hend); try done.
      * exists site', (deletion (Site.ID site) bk (inr (204, text)) :: qs), rest. rewrite Hq. split_and!; try done. by econstructor.
      * apply lookup_lt_Some in Hi as Hlt. cbn [Site.Backups setBackups site1]. rewrite length_delete by by eexists. lia.
    + destruct Hput as [[[=] _]|[_ Hm2]]. apply pexec_bind in Hx as [(e'&Hrec&->)|(u'&w3&t5&t6&Hrec&(->&->&->)%pexec_ret&->)];
        apply (exec_record a _ _ _ _ (<[Site.ID site := site]> m)) in Hrec as (Hu&Hm3&Ht5); try done.
      rewrite app_nil_r, Ht5. exists site1, [deletion (Site.ID site) bk (inr (204, text))], []. split_and!; try done.
      * eapply prunes_one; [lia|done|done|constructor].
      * by eapply (end_unsaved _ _ _ i site).
  - (* it did not *)
    apply pexec_try_bind in Hx as (saved&w2&t3&t4&Hput&Hx&->).
    assert (asked t3 = []) as Ht3 by (apply pexec_host_inv in Hput as (th&_&->&_); apply asked_host).
    apply pexec_bind in Hx as [(e'&Hrec&->)|(u'&w3&t5&t6&Hrec&(->&->&->)%pexec_ret&->)]; apply exec_record_asks in Hrec as [Hu Ht5]; [done|].
    rewrite app_nil_r, asked_app, Ht3, Ht5. cbn [List.app]. rewrite app_nil_r. eexists _, [], (asked t1). split_and!; [done|done|done|constructor|]. apply end_refused.
    + destruct Hq as [->|(reply&->&Hr)]; [constructor|by constructor].
    + destruct Hq as [->|(reply&->&_)]; cbn [length]; lia.
Qed.

(** C34: retention.  Pruning the backups of a stored site always ends.  It asks
    the worker to delete scheduled backups only, never one that is later than a
    scheduled backup it keeps, and stops at the limit: every other backup stays
    listed, in its order.  It ends within the limit and stored, or with the
    first deletion that was not confirmed or not stored. *)
Theorem pruneScheduledBackups_retention site m w r w' t :
  0 <= BackupPolicy.Retention (Site.BackupPolicy site) -> holds a m w -> m !! Site.ID site = Some site -> siteOK site = true ->
  pexec (pruneScheduledBackups a site) w = (r, w', t) ->
  exists site' qs rest, r = Ok site' /\ asked t = (qs ++ rest)%list /\ pruneEnd m w' site' rest /\
    Site.Backups site' `sublist_of` Site.Backups site /\
    filter (fun b => isScheduled b = false) (Site.Backups site') = filter (fun b => isScheduled b = false) (Site.Backups site) /\
    scheduledBackupCount (Site.Backups site') = scheduledBackupCount (Site.Backups site) - Z.of_nat (length qs) /\
    (qs <> [] -> BackupPolicy.Retention (Site.BackupPolicy site) <= scheduledBackupCount (Site.Backups site')) /\
    forall q, q ∈ qs -> exists b r, q = deletion (Site.ID site) b r /\ b ∈ Site.Backups site /\ isScheduled b = true /\
      forall x, x ∈ Site.Backups site' -> isScheduled x = true -> Backup.CreatedAt b <= Backup.CreatedAt x.
Proof.
  intros Hret Hm Hin Hs Hx. unfold pruneScheduledBackups in Hx. rewrite <- (insert_id m (Site.ID site) site) in Hm by done.
  apply (pruneLoop_end _ site m) in Hx as (site'&qs&rest&->&Hq&_&Hp&Hend); try done; [|lia].
  exists site', qs, rest. do 3 (split; [done|]). by apply prunes_spec in Hp.
Qed.
End prune.

(** ** Witness: two scheduled backups, one may stay *)
#[local] Existing Instance asciiUnicode.
#[local] Existing Instance samplePeer.

Definition crowdedSite : Site.t :=
  setPolicy (BackupPolicy.mk true 24 1 1800000000000000000 zeroTime zeroTime "")
    (setBackups [Backup.mk "20231103T000000Z-61616161" 1698969600000000000 BackupSourceManual;
                 Backup.mk "20231105T000000Z-61616161" 1699142400000000000 BackupSourceScheduled;
                 Backup.mk "20231104T000000Z-61616161" 1699056000000000000 BackupSourceScheduled] firstSite).
Definition crowdedMap : gmap string Site.t := {[sampleID := crowdedSite]}.
Definition oldBackup : string * node := ("/backups/aaaaaaaaaaaaaaaa/20231104T000000Z-61616161", NDir).
Definition crowdedWorld : pworld := panelWorld crowdedMap [] (sampleWorld [oldBackup] (fun _ => "")).
Definition pruneRun : result Site.t * pworld * list pevent := pexec (pruneScheduledBackups sampleApp crowdedSite) crowdedWorld.

Lemma prune_removes : exists site', pruneRun.1.1 = Ok site' /\
  map Backup.ID (Site.Backups site') = ["20231103T000000Z-61616161"; "20231105T000000Z-61616161"].
Proof. eexists. split; vm_compute; reflexivity. Qed.

Lemma crowded_holds : holds sampleApp crowdedMap crowdedWorld.
Proof.
  split; [|vm_compute; reflexivity]. intros k s Hk. unfold crowdedMap in Hk. apply lookup_singleton_Some in Hk as [<- <-]. split; vm_compute; reflexivity.
Qed.

Lemma pruneScheduledBackups_retention_witness :
  exists site' qs rest, pruneRun.1.1 = Ok site' /\ asked pruneRun.2 = (qs ++ rest)%list /\ pruneEnd sampleApp crowdedMap pruneRun.1.2 site' rest.
Proof.
  destruct (pruneScheduledBackups_retention sampleApp "sites.json" eq_refl sampleApp_separate crowdedSite crowdedMap crowdedWorld
    pruneRun.1.1 pruneRun.1.2 pruneRun.2 ltac:(vm_compute; discriminate) crowded_holds ltac:(vm_compute; reflexivity)
    ltac:(vm_compute; reflexivity) (pexec_parts _ _)) as (site'&qs&rest&H1&H2&H3&_).
  exists site', qs, rest. exact (conj H1 (conj H2 H3)).
Defined.

(** A backup that is gone from the worker's disk is never gone from the list:
    the worker refuses to delete it and every pruning stops there. *)
Definition staleRun : result Site.t * pworld * list pevent :=
  pexec (pruneScheduledBackups sampleApp crowdedSite) (panelWorld crowdedMap [] (sampleWorld [] (fun _ => ""))).
Lemma stale_backup_stuck :
  match staleRun.1.1 with
  | Ok site => Site.Backups site = Site.Backups crowdedSite /\ contains (BackupPolicy.LastError (Site.BackupPolicy site)) "retention cleanup" = true
  | Err _ => False
  end.
Proof. vm_compute. auto. Qed.
