(* ===== verification/Views.v ===== *)
(** * Views: the helpers of the templates

    The functions of [cmd/panel] the templates call on their data, and
    [fmt.Sprintf] as they use it.  The server's time zone is the class [Zone]. *)
From S2P Require Import Prelude GoStrings GoFloat GoTime GoFloatText Core I18n Messages Pages.

(** Seconds east of UTC at an instant, in the zone [time.Local]. *)
Class Zone := { localOffset : time -> Z }.

(** [t.Local().Format(...)] with the layout [2006-01-02 15:04]. *)
Definition formatTime `{Zone} (t : time) : string :=
  let s := unixSeconds t + localOffset t in
  let '(y, m, d) := civil (s / 86400) in
  let sod := s mod 86400 in
  formatYear y +:+ "-" +:+ padZero 2 m +:+ "-" +:+ padZero 2 d +:+ " " +:+ padZero 2 (sod / 3600) +:+ ":" +:+ padZero 2 ((sod / 60) mod 60).
Definition formatUnixTime `{Zone} (ts : Z) : string := formatTime (ts * second).
Definition formatOptionalTime `{Zone} (t : time) (fallback : string) : string := if t =? zeroTime then fallback else formatTime t.

Definition backupIntervalValue (p : BackupPolicy.t) : Z := if BackupPolicy.IntervalHours p =? 0 then 24 else BackupPolicy.IntervalHours p.
Definition backupRetentionValue (p : BackupPolicy.t) : Z := if BackupPolicy.Retention p =? 0 then 7 else BackupPolicy.Retention p.

Definition backupSourceKey (source : string) : string :=
  if String.eqb source BackupSourceScheduled then "backup_source_scheduled"
  else if String.eqb source BackupSourceSafety then "backup_source_safety"
  else "backup_source_manual".

(** [fmt.Sprintf("%.*f", places, x)] of a finite number. *)
Definition formatFixed (places : nat) (x : f64) : string :=
  let scale := 10 ^ Z.of_nat places in
  match x with
  | S754_nan => "NaN"
  | S754_infinity s => if s then "-Inf" else "+Inf"
  | S754_zero s => (if s then "-" else "") +:+ "0." +:+ padZero places 0
  | S754_finite s m e =>
      let c := if 0 <=? e then Zpos m * 2 ^ e * scale else roundDivEven (Zpos m * scale) (2 ^ (- e)) in
      (if s then "-" else "") +:+ digits (c / scale) +:+ "." +:+ padZero places (c mod scale)
  end.

(** [fmt.Sprintf("%g", x)]: the shortest digits, with an exponent of at least
    two digits below 1e-4 and from 1e6 on. *)
Definition formatG (x : f64) : string :=
  match x with
  | S754_nan => "NaN"
  | S754_infinity s => if s then "-Inf" else "+Inf"
  | S754_zero s => if s then "-0" else "0"
  | S754_finite s m e =>
      let '(c, e10) := shortest m e in
      let '(c, e10) := stripZeros 17 c e10 in
      let n := lenZ (digits c) in
      let x := n - 1 + e10 in
      (if s then "-" else "") +:+
      (if (x <? -4) || (6 <=? x)
       then take 1 (digits c) +:+ (if n =? 1 then "" else "." +:+ drop 1 (digits c)) +:+ (if x <? 0 then "e-" else "e+") +:+ padZero 2 (Z.abs x)
       else plainDecimal c e10)
  end.

Definition formatBytes (n : Z) : string :=
  if n <? 1024 then itoa n +:+ " B"
  else if n <? 1024 * 1024 then formatFixed 1 (fdiv (fofZ n) (fofZ 1024)) +:+ " KiB"
  else if n <? 1024 * 1024 * 1024 then formatFixed 1 (fdiv (fofZ n) (fofZ (1024 * 1024))) +:+ " MiB"
  else formatFixed 2 (fdiv (fofZ n) (fofZ (1024 * 1024 * 1024))) +:+ " GiB".

Definition isSitePage (name : string) : bool :=
  existsb (String.eqb name) ["dashboard"; "new"; "site"; "backups"; "updates"; "database"; "files"; "resources"].

Definition sitePublicURL (domain : string) : string := (if hasSuffix domain ".localhost" then "http://" else "https://") +:+ domain.

Definition mailAction (enabled : bool) : string := if enabled then "/mail-disable" else "/mail-enable".
Definition portValue (port : Z) : string := if port =? 0 then "" else itoa port.
Definition passwordPlaceholder `{Unicode} (lang : string) (set : bool) : string := T lang (if set then "keep_password" else "smtp_password").

Definition resourcePlan (r : Resources.t) : string :=
  if resourcesEqb r (Resources.mk 384 (fscale 1 (-1))) then "small"
  else if resourcesEqb r (Resources.mk 768 (fofZ 1)) then "standard"
  else if resourcesEqb r (Resources.mk 1536 (fofZ 2)) then "large"
  else "custom".

Definition diskCapabilityReasonKey (reason : string) : string :=
  if existsb (String.eqb reason) ["filesystem"; "kernel"; "enforcement-disabled"] then "disk_quota_unsupported"
  else if String.eqb reason "different-filesystems" then "disk_quota_separate_filesystems"
  else if String.eqb reason "volume-driver" then "disk_quota_driver"
  else "disk_quota_check_failed".

Example formatBytes_units : map formatBytes [0; 1023; 1024; 1536; 5242880; 1610612736] =
  ["0 B"; "1023 B"; "1.0 KiB"; "1.5 KiB"; "5.0 MiB"; "1.50 GiB"].
Proof. vm_compute. reflexivity. Qed.
Example formatG_values : map formatG [fscale 1 (-1); fofZ 2; fratio 3 4; fofZ 100000; fofZ 123456789; fratio 1 100000] = ["0.5"; "2"; "0.75"; "100000"; "1.23456789e+08"; "1e-05"].
Proof. vm_compute. reflexivity. Qed.
Example formatTime_zone :
  let zone := {| localOffset := fun _ => 7200 |} in
  formatTime (1700000000 * second) = "2023-11-15 00:13" /\ formatOptionalTime zeroTime "never" = "never".
Proof. vm_compute. split; reflexivity. Qed.
