(* ===== verification/Html.v ===== *)
(** * Html: what the templates write, and how it is read

    A template's output is a list of pieces: its own text, and values that the
    library [github.com/a-h/templ] escapes.  The library is the class [Templ];
    the class [TemplLaws] holds what its documentation promises.  [tokens] reads
    tags from the bytes, for markup with double-quoted attributes as the
    templates write it. *)
From S2P Require Import Prelude GoStrings.

(** What a [class] attribute is given: a name, a name under a condition
    ([templ.KV]), several ([templ.Classes]). *)
Inductive cssClass := Class_ (name : string) | KV (name : string) (on : bool) | Classes (l : list cssClass).

Class Templ := {
  EscapeString : string -> string;
  ResolveAttributeValue : string -> string;
  URL : string -> string;                     (** [templ.URL] *)
  CSSClasses : list cssClass -> string;       (** [templ.CSSClasses(l).String()] *)
  RenderCSSItems : list cssClass -> string;
  JoinInt : Z -> string;                      (** [templ.JoinStringErrs] of an [int] *)
}.

(** The bytes that are not written as they are. *)
Definition special (c : ascii) : bool := inSet (raw "<>&'`") c.
Definition plain (s : string) : bool := strForall (fun c => negb (special c)) s.
(** No byte that ends a text or a double-quoted value. *)
Definition inert (s : string) : bool := strForall (fun c => negb (inSet (raw "<>`") c)) s.

Class TemplLaws `{Templ} := {
  Escape_inert s : inert (EscapeString s) = true;
  Escape_app s t : EscapeString (s +:+ t) = EscapeString s +:+ EscapeString t;
  Escape_plain s : plain s = true -> EscapeString s = s;
  Attribute_inert s : inert (ResolveAttributeValue s) = true;
  Attribute_plain s : plain s = true -> ResolveAttributeValue s = s;
  (** A URL is kept, or replaced by one that leads nowhere. *)
  URL_safe s : URL s = s \/ URL s = "about:invalid#TemplFailedSanitizationURL";
  (** Class names have no style sheet to write. *)
  CSSItems_none l : RenderCSSItems l = "";
}.

(** ** Output *)
Inductive piece := Lit (s : string) | Esc (s : string) | Href (s : string) | Attr (s : string) | Css (l : list cssClass).
Definition html : Type := list piece.

(** The parts of a template in their order. *)
Definition seq_ (l : list html) : html := concat l.
Definition lit (s : string) : html := [Lit (raw s)].
Definition text (s : string) : html := [Esc s].
Definition url (s : string) : html := [Href s].
Definition attr (s : string) : html := [Attr s].
Definition css (l : list cssClass) : html := [Css l].
Definition when (b : bool) (h : html) : html := if b then h else [].
Definition each {A} (l : list A) (f : A -> html) : html := concat (map f l).

Section bytes.
Context `{Templ}.

Definition class_ (l : list cssClass) : html := attr (CSSClasses l).

Definition pieceBytes (p : piece) : string :=
  match p with
  | Lit s => s
  | Esc s | Href s => EscapeString s
  | Attr s => ResolveAttributeValue s
  | Css l => RenderCSSItems l
  end.
Definition bytes (h : html) : string := String.concat "" (map pieceBytes h).
End bytes.

(** The same output with every value left out. *)
Definition blankPiece (p : piece) : piece :=
  match p with Lit s => Lit s | Esc _ => Esc "" | Href _ => Href "" | Attr _ => Attr "" | Css l => Css l end.
Definition blank (h : html) : html := map blankPiece h.

(** ** Reading tags *)
Record htmlTag := Tag { t_name : string; t_attrs : list (string * string) }.

(** In a text ([rawText]: of a script or a style), in a tag's name, in a tag,
    in a value. *)
Inductive reader :=
| InText (rawText : bool)
| InName (name : string)
| InTag (name word : string) (attrs : list (string * string))
| InValue (name word : string) (attrs : list (string * string)) (value : string)
| Bad.

Definition quoteChar : ascii := chrZ 34.
Definition snoc (s : string) (c : ascii) : string := s +:+ String c "".
Definition isRaw (name : string) : bool := String.eqb name "script" || String.eqb name "style".
Definition endWord (word : string) (attrs : list (string * string)) : list (string * string) :=
  if String.eqb word "" then attrs else (attrs ++ [(word, "")])%list.

(** One byte: the tag it completes, if any, and the state after it. *)
Definition step (s : reader) (c : ascii) : list htmlTag * reader :=
  match s with
  | Bad => ([], Bad)
  | InText r => if Ascii.eqb c "<"%char then ([], InName "") else ([], InText r)
  | InName n =>
      if Ascii.eqb c ">"%char then ([Tag n []], InText (isRaw n))
      else if Ascii.eqb c " "%char then ([], InTag n "" [])
      else if inSet (raw "<`'") c then ([], Bad)
      else ([], InName (snoc n c))
  | InTag n w l =>
      if Ascii.eqb c ">"%char then ([Tag n (endWord w l)], InText (isRaw n))
      else if Ascii.eqb c " "%char then ([], InTag n "" (endWord w l))
      else if Ascii.eqb c quoteChar then ([], if hasSuffix w "=" then InValue n w l "" else Bad)
      else if inSet "<'" c then ([], Bad)
      else ([], InTag n (snoc w c) l)
  | InValue n w l v =>
      if Ascii.eqb c quoteChar then ([], InTag n "" (l ++ [(w, v)])%list)
      else ([], InValue n w l (snoc v c))
  end.

Fixpoint tokens (s : reader) (text : string) : list htmlTag * reader :=
  match text with
  | "" => ([], s)
  | String c rest =>
      let '(t, s') := step s c in
      let '(ts, s'') := tokens s' rest in (t ++ ts, s'')%list
  end.

(** A document: every tag is closed by its [>], no value is left open. *)
Definition document (text : string) : option (list htmlTag) :=
  match tokens (InText false) text with
  | (ts, InText _) => Some ts
  | _ => None
  end.

(** A tag without its values. *)
Definition skeleton (t : htmlTag) : string * list string := (t_name t, map fst (t_attrs t)).

(** ** What a page must not have *)

Fixpoint starts (s p : string) : bool :=
  match p, s with
  | "", _ => true
  | String c p', String d s' => Ascii.eqb d c && starts s' p'
  | _, "" => false
  end.

(** Where a link or a form may lead: the panel itself, the web, or nowhere. *)
Definition leads (v : string) : bool :=
  (starts v "/" && negb (starts v "//")) || starts v "https://" || starts v "http://" || starts v "about:".

Definition attrOK (a : string * string) : bool :=
  let '(w, v) := a in
  if starts w "on" then String.eqb v "this.form.submit()"
  else if String.eqb w "src=" then starts v "/assets/"
  else if existsb (String.eqb w) ["href="; "action="; "formaction="] then leads v
  else negb (existsb (String.eqb w) ["style="; "srcdoc="; "data="]).
(** No script but the panel's own, no link elsewhere than [leads]. *)
Definition tagOK (t : htmlTag) : bool := forallb attrOK (t_attrs t).

(** ** Forms *)
Definition attribute (name : string) (t : htmlTag) : option string :=
  snd <$> find (fun a => String.eqb a.1 (name +:+ "=")) (t_attrs t).
Definition attributeIs (name value : string) (t : htmlTag) : bool :=
  match attribute name t with Some v => String.eqb v value | None => false end.

(** Outside of a form; in one, whether it still needs the token. *)
Inductive form := Outside | Inside (needs : bool).

(** Is a field's value the session's token? *)
Definition sameToken (v token : string) : bool := String.eqb v token.

Section forms.
Variable token : string.

(** A form that posts needs the field [csrf], the login apart; forms do not
    nest. *)
Definition formStep (f : form) (t : htmlTag) : option form :=
  if String.eqb (t_name t) "form" then
    match f with
    | Outside => Some (Inside (attributeIs "method" "post" t && negb (attributeIs "action" "/login" t)))
    | Inside _ => None
    end
  else if String.eqb (t_name t) "/form" then match f with Inside false => Some Outside | _ => None end
  else if String.eqb (t_name t) "input" && attributeIs "name" "csrf" t then
    match f with
    | Inside _ => if attributeIs "type" "hidden" t && sameToken (default "" (attribute "value" t)) token then Some (Inside false) else None
    | Outside => None
    end
  else Some f.

Fixpoint formRun (f : form) (ts : list htmlTag) : option form :=
  match ts with
  | [] => Some f
  | t :: rest => match formStep f t with Some f' => formRun f' rest | None => None end
  end.
Definition protected (ts : list htmlTag) : bool :=
  match formRun Outside ts with Some Outside => true | _ => false end.
End forms.

Example document_example :
  let text := raw "<p class=`a b` hidden>x &lt; y<br></p>" in
  document text = Some [Tag "p" [("class=", "a b"); ("hidden", "")]; Tag "br" []; Tag "/p" []] /\
  document (raw "<a href=`x") = None.
Proof. vm_compute. split; reflexivity. Qed.
