(* ===== verification/HtmlFacts.v ===== *)
(** * HtmlFacts: a page is its template's markup, whatever its data

    [run] reads the pieces of an output; what it finds is what [tokens] finds in
    the bytes, and data changes no tag.  [walks] is what the components of a
    page have in common, with a rule for each way to put templates together. *)
From S2P Require Import Prelude GoStrings Utf8Facts Html.
Set Warnings "-register-all".

(** ** Reading *)
Lemma tokens_app s a b :
  tokens s (a +:+ b) = let '(t1, s1) := tokens s a in let '(t2, s2) := tokens s1 b in ((t1 ++ t2)%list, s2).
Proof.
  revert s. induction a as [|c a IH]; intros s; cbn; [by destruct (tokens s b)|].
  destruct (step s c) as [t s']. rewrite IH. destruct (tokens s' a) as [t1 s1], (tokens s1 b) as [t2 s2].
  by rewrite app_assoc.
Qed.

Lemma inSet_miss set c a : inSet set c = false -> inSet set a = true -> Ascii.eqb c a = false.
Proof. intros Hc Ha. destruct (Ascii.eqb_spec c a) as [->|]; [congruence|done]. Qed.

Lemma inert_cons c x : inert (String c x) = true -> inSet (raw "<>`") c = false /\ inert x = true.
Proof. unfold inert. cbn [strForall]. intros [Hc Hx]%andb_prop. by apply negb_true_iff in Hc. Qed.
Lemma inert_text x : inert x = true -> tokens (InText false) x = ([], InText false).
Proof.
  induction x as [|c x IH]; [done|]. intros [Hc Hx]%inert_cons. cbn [tokens step].
  rewrite (inSet_miss _ _ "<"%char Hc eq_refl), (IH Hx). done.
Qed.
Lemma snoc_app v c x : snoc v c +:+ x = v +:+ String c x.
Proof. unfold snoc. by rewrite app_assoc_str. Qed.
Lemma inert_value n w l v x : inert x = true -> tokens (InValue n w l v) x = ([], InValue n w l (v +:+ x)).
Proof.
  revert v. induction x as [|c x IH]; intros v; [by rewrite app_nil_r_str|]. intros [Hc Hx]%inert_cons. cbn [tokens step].
  rewrite (inSet_miss _ _ quoteChar Hc eq_refl), (IH _ Hx). by rewrite snoc_app.
Qed.

(** The state without its values. *)
Definition shape (s : reader) : reader :=
  match s with
  | InTag n w l => InTag n w (map (fun a => (fst a, "")) l)
  | InValue n w l _ => InValue n w (map (fun a => (fst a, "")) l) ""
  | _ => s
  end.
Lemma map_fst_erased (l l' : list (string * string)) :
  map (fun a => (fst a, "")) l = map (fun a => (fst a, "")) l' -> map fst l = map fst l'.
Proof.
  intros Hl. apply (f_equal (map fst)) in Hl. rewrite !map_map in Hl. exact Hl.
Qed.

(** Which tags come, and the state's shape, do not depend on the values. *)
Lemma step_shape s s' c :
  shape s = shape s' ->
  map skeleton (fst (step s c)) = map skeleton (fst (step s' c)) /\ shape (snd (step s c)) = shape (snd (step s' c)).
Proof.
  intros Hs. destruct s as [r|n|n w l|n w l v|], s' as [r'|n'|n' w' l'|n' w' l' v'|]; try discriminate Hs;
    cbn [shape] in Hs; simplify_eq; cbn [step]; try done.
  - assert (map fst (endWord w' l) = map fst (endWord w' l')) as Hw
      by (unfold endWord; case_match; [|rewrite !map_app; f_equal]; by apply map_fst_erased).
    assert (shape (InTag n' "" (endWord w' l)) = shape (InTag n' "" (endWord w' l'))) as He.
    { unfold endWord. case_match; cbn [shape]; f_equal; [done|]. rewrite !map_app. by f_equal. }
    repeat case_match; cbn [fst snd map shape]; try done; split; unfold skeleton; cbn [t_name t_attrs]; congruence.
  - case_match; cbn [fst snd map shape]; split; try done; [|congruence]. rewrite !map_app. cbn [map fst]. congruence.
Qed.
Lemma tokens_shape x : forall s s', shape s = shape s' ->
  map skeleton (fst (tokens s x)) = map skeleton (fst (tokens s' x)) /\ shape (snd (tokens s x)) = shape (snd (tokens s' x)).
Proof.
  induction x as [|c x IH]; intros s s' Hs; [done|]. cbn [tokens]. destruct (step_shape s s' c Hs) as [Ht Hs'].
  destruct (step s c) as [t1 s1], (step s' c) as [t2 s2]. cbn [fst snd] in *. destruct (IH _ _ Hs') as [Hu Hs''].
  destruct (tokens s1 x), (tokens s2 x). cbn [fst snd] in *. rewrite !map_app. split; congruence.
Qed.


(** ** Pieces *)
Section run.
Context `{TemplLaws}.

Definition runPiece (s : reader) (p : piece) : option (list htmlTag * reader) :=
  match p, s with
  | Lit x, _ => Some (tokens s x)
  | Esc _, InText false => Some ([], s)
  | Href x, InValue n w l v => Some ([], InValue n w l (v +:+ EscapeString x))
  | Attr x, InValue n w l v => Some ([], InValue n w l (v +:+ ResolveAttributeValue x))
  | Css _, _ => Some ([], s)
  | _, _ => None
  end.
Fixpoint run (s : reader) (h : html) : option (list htmlTag * reader) :=
  match h with
  | [] => Some ([], s)
  | p :: h' => '(t, s1) ← runPiece s p; '(ts, s2) ← run s1 h'; Some ((t ++ ts)%list, s2)
  end.

Lemma run_app s h h' :
  run s (h ++ h')%list = '(t, s1) ← run s h; '(ts, s2) ← run s1 h'; Some ((t ++ ts)%list, s2).
Proof.
  revert s. induction h as [|p h IH]; intros s; cbn [run app].
  - cbn. by destruct (run s h') as [[? ?]|].
  - destruct (runPiece s p) as [[t s1]|]; [|done]. cbn. rewrite IH. destruct (run s1 h) as [[t1 s2]|]; [|done]. cbn.
    destruct (run s2 h') as [[t2 s3]|]; [|done]. cbn. by rewrite app_assoc.
Qed.

Lemma runPiece_bytes s p ts s' : runPiece s p = Some (ts, s') -> tokens s (pieceBytes p) = (ts, s').
Proof.
  destruct p as [x|x|x|x|l]; cbn [runPiece pieceBytes].
  - by intros [= ->].
  - destruct s as [[]| | | |]; try done. intros [= <- <-]. apply inert_text, Escape_inert.
  - destruct s; try done. intros [= <- <-]. apply inert_value, Escape_inert.
  - destruct s; try done. intros [= <- <-]. apply inert_value, Attribute_inert.
  - intros [= <- <-]. by rewrite CSSItems_none.
Qed.
Lemma run_bytes h : forall s ts s', run s h = Some (ts, s') -> tokens s (bytes h) = (ts, s').
Proof.
  unfold bytes. induction h as [|p h IH]; intros s ts s'; cbn [run map]; [by intros [= <- <-]|]. rewrite concat_cons, tokens_app.
  destruct (runPiece s p) as [[t s1]|] eqn:Hp; [|done]. cbn. destruct (run s1 h) as [[t1 s2]|] eqn:Hh; [|done]. cbn.
  intros [= <- <-]. apply runPiece_bytes in Hp. apply IH in Hh.
  by rewrite Hp, Hh.
Qed.

Lemma runPiece_blank s p ts s' s0 :
  runPiece s p = Some (ts, s') -> shape s = shape s0 ->
  exists ts0 s0', runPiece s0 (blankPiece p) = Some (ts0, s0') /\ map skeleton ts0 = map skeleton ts /\ shape s0' = shape s'.
Proof.
  intros Hp Hs. destruct p as [x|x|x|x|l]; cbn [runPiece blankPiece] in *.
  - injection Hp as Hp. destruct (tokens_shape x s s0 Hs) as [Ht Hs']. rewrite Hp in Ht, Hs'.
    destruct (tokens s0 x) as [ts0 s0'] eqn:E. eauto.
  - destruct s as [[]| | | |], s0 as [[]| | | |]; try done. injection Hp as <- <-. eauto.
  - destruct s, s0; try done. injection Hp as <- <-. eexists _, _. split_and!; [reflexivity..|]. cbn [shape] in *. congruence.
  - destruct s, s0; try done. injection Hp as <- <-. eexists _, _. split_and!; [reflexivity..|]. cbn [shape] in *. congruence.
  - injection Hp as <- <-. eauto.
Qed.
Lemma run_blank h : forall s ts s' s0,
  run s h = Some (ts, s') -> shape s = shape s0 ->
  exists ts0 s0', run s0 (blank h) = Some (ts0, s0') /\ map skeleton ts0 = map skeleton ts /\ shape s0' = shape s'.
Proof.
  induction h as [|p h IH]; intros s ts s' s0; cbn [run blank map]; [intros [= <- <-]; eauto|].
  destruct (runPiece s p) as [[t s1]|] eqn:Hp; [|done]. cbn. destruct (run s1 h) as [[t1 s2]|] eqn:Hh; [|done]. cbn.
  intros [= <- <-] Hs. destruct (runPiece_blank _ _ _ _ _ Hp Hs) as (u&s3&Hu&Hsk&Hs3).
  destruct (IH _ _ _ s3 Hh) as (u1&s4&Hu1&Hsk1&Hs4); [done|]. fold (blank h). rewrite Hu. cbn. rewrite Hu1. cbn.
  eexists _, _. split; [done|]. rewrite !map_app. split; [congruence|done].
Qed.

(** A page whose pieces read as a document is one, with the tags of its blank
    form. *)
Lemma run_document h ts r :
  run (InText false) h = Some (ts, InText r) ->
  document (bytes h) = Some ts /\ exists ts0, document (bytes (blank h)) = Some ts0 /\ map skeleton ts0 = map skeleton ts.
Proof.
  intros Hr. unfold document. rewrite (run_bytes _ _ _ _ Hr). split; [done|].
  destruct (run_blank _ _ _ _ (InText false) Hr) as (ts0&s0&Hr0&Hsk&Hs0); [done|].
  rewrite (run_bytes _ _ _ _ Hr0). destruct s0; try done. eauto.
Qed.
End run.

(** ** Walking through a template

    From form state [f] and reader [s], the output [h] is read without an
    obstacle up to [f'] and [s']: every tag is [tagOK], and the forms are those
    [formStep] admits. *)
Section walks.
Context `{TemplLaws} (token : string).

Definition walks (f : form) (s : reader) (h : html) (f' : form) (s' : reader) : Prop :=
  exists ts, run s h = Some (ts, s') /\ forallb tagOK ts = true /\ formRun token f ts = Some f'.

Lemma formRun_app f ts us : formRun token f (ts ++ us) = f' ← formRun token f ts; formRun token f' us.
Proof. revert f. induction ts as [|t ts IH]; intros f; [done|]. cbn. destruct (formStep token f t); [apply IH|done]. Qed.

Lemma walks_nil f s : walks f s [] f s.
Proof. by exists []. Qed.
Lemma walks_app f s h f1 s1 h' f2 s2 :
  walks f s h f1 s1 -> walks f1 s1 h' f2 s2 -> walks f s (h ++ h')%list f2 s2.
Proof.
  intros (ts&Hr&Hk&Hf) (us&Hr'&Hk'&Hf'). exists (ts ++ us)%list. rewrite run_app, Hr. cbn. rewrite Hr'. split; [done|].
  rewrite forallb_app, Hk, Hk', formRun_app, Hf. done.
Qed.

(** The parts in their order; a part that is a sequence is spliced in. *)
Lemma walks_cons f s h f1 s1 r f2 s2 :
  walks f s h f1 s1 -> walks f1 s1 (seq_ r) f2 s2 -> walks f s (seq_ (h :: r)) f2 s2.
Proof. apply walks_app. Qed.
Lemma walks_seq f s l r f2 s2 : walks f s (seq_ (l ++ r)) f2 s2 -> walks f s (seq_ (seq_ l :: r)) f2 s2.
Proof. unfold seq_. cbn [concat]. by rewrite concat_app. Qed.
Lemma walks_seq2 f s h l r f2 s2 : walks f s (seq_ (h :: (l ++ r))) f2 s2 -> walks f s (seq_ (h :: seq_ l :: r)) f2 s2.
Proof. unfold seq_. cbn [concat]. by rewrite concat_app. Qed.
Lemma walks_one f s h f2 s2 : walks f s (seq_ [h]) f2 s2 -> walks f s h f2 s2.
Proof. unfold seq_. cbn [concat]. by rewrite app_nil_r. Qed.

(** The template's own text. *)
Lemma walks_lit x ts f1 s1 f s r f2 s2 :
  tokens s (raw x) = (ts, s1) -> forallb tagOK ts = true -> formRun token f ts = Some f1 ->
  walks f1 s1 (seq_ r) f2 s2 -> walks f s (seq_ (lit x :: r)) f2 s2.
Proof.
  intros Ht Hk Hf. apply walks_cons. exists ts. cbn [lit run runPiece]. rewrite Ht. cbn. by rewrite app_nil_r.
Qed.

(** Values, of which nothing is known but where they may stand. *)
Lemma walks_text x f r f2 s2 :
  walks f (InText false) (seq_ r) f2 s2 -> walks f (InText false) (seq_ (text x :: r)) f2 s2.
Proof. apply walks_cons. by exists []. Qed.
Lemma walks_attr x f n w l r f2 s2 :
  (forall v, walks f (InValue n w l v) (seq_ r) f2 s2) -> walks f (InValue n w l "") (seq_ (attr x :: r)) f2 s2.
Proof. intros Hr. eapply walks_cons; [|apply (Hr (ResolveAttributeValue x))]. by exists []. Qed.
Lemma walks_url x f n w l r f2 s2 :
  leads (EscapeString x) = true ->
  (forall v, leads v = true -> walks f (InValue n w l v) (seq_ r) f2 s2) -> walks f (InValue n w l "") (seq_ (url x :: r)) f2 s2.
Proof. intros Hx Hr. eapply walks_cons; [|apply (Hr (EscapeString x) Hx)]. by exists []. Qed.
Lemma walks_css x f s r f2 s2 : walks f s (seq_ r) f2 s2 -> walks f s (seq_ (css x :: r)) f2 s2.
Proof. apply walks_cons. by exists []. Qed.
(** The session's token. *)
Lemma walks_token x f n w l r f2 s2 :
  ResolveAttributeValue x = token ->
  walks f (InValue n w l token) (seq_ r) f2 s2 -> walks f (InValue n w l "") (seq_ (attr x :: r)) f2 s2.
Proof. intros <-. apply walks_cons. by exists []. Qed.

(** A choice inside a tag is decided when the text after it is read. *)
Lemma walks_when b h x r f s f1 s1 f2 s2 :
  walks f s (seq_ [h; lit x]) f1 s1 -> walks f s (seq_ [lit x]) f1 s1 -> walks f1 s1 (seq_ r) f2 s2 ->
  walks f s (seq_ (when b h :: lit x :: r)) f2 s2.
Proof.
  intros Ht Hf Hr. unfold seq_ in *. cbn [concat] in *. rewrite app_nil_r in Ht, Hf. rewrite app_assoc.
  eapply walks_app; [|exact Hr]. by destruct b.
Qed.
(** A choice of whole elements. *)
Lemma walks_if (b : bool) h h' r f s f2 s2 :
  walks f s h f s -> walks f s h' f s -> walks f s (seq_ r) f2 s2 -> walks f s (seq_ ((if b then h else h') :: r)) f2 s2.
Proof. intros Hh Hh'. apply walks_cons. by destruct b. Qed.
Lemma walks_when_whole b h r f s f2 s2 :
  walks f s h f s -> walks f s (seq_ r) f2 s2 -> walks f s (seq_ (when b h :: r)) f2 s2.
Proof. intros Hh. apply walks_cons. destruct b; [done|apply walks_nil]. Qed.
Lemma walks_match {A} (o : option A) h h' r f s f2 s2 :
  (forall a, walks f s (h a) f s) -> walks f s h' f s -> walks f s (seq_ r) f2 s2 ->
  walks f s (seq_ (match o with Some a => h a | None => h' end :: r)) f2 s2.
Proof. intros Hh Hh'. apply walks_cons. by destruct o. Qed.
Lemma walks_each {A} (l : list A) g r f s f2 s2 :
  (forall a, walks f s (g a) f s) -> walks f s (seq_ r) f2 s2 -> walks f s (seq_ (each l g :: r)) f2 s2.
Proof.
  intros Hg. apply walks_cons. unfold each. induction l as [|a l IH]; [apply walks_nil|]. cbn [map concat]. by eapply walks_app.
Qed.

(** A whole page. *)
Lemma walks_document h :
  walks Outside (InText false) h Outside (InText false) ->
  exists ts ts0, document (bytes h) = Some ts /\ document (bytes (blank h)) = Some ts0 /\
    map skeleton ts = map skeleton ts0 /\ forallb tagOK ts = true /\ protected token ts = true.
Proof.
  intros (ts&Hr&Hk&Hf). destruct (run_document _ _ _ Hr) as (Hd&ts0&Hd0&Hs). exists ts, ts0. unfold protected. by rewrite Hf.
Qed.
End walks.

(** ** Where links lead *)
Lemma starts_app p s q : (String.length q <= String.length p)%nat -> starts (p +:+ s) q = starts p q.
Proof.
  revert q. induction p as [|c p IH]; intros [|d q] Hn; try done; cbn [String.length] in Hn; try lia.
  - by destruct s.
  - change (String c p +:+ s) with (String c (p +:+ s)). cbn [starts]. by rewrite IH by lia.
Qed.
Lemma starts_length p q : starts p q = true -> (String.length q <= String.length p)%nat.
Proof.
  revert q. induction p as [|c p IH]; intros [|d q]; cbn [starts String.length]; try done; [lia|].
  intros [_ Hp%IH]%andb_prop. lia.
Qed.
Lemma starts_grow p s q : starts p q = true -> starts (p +:+ s) q = true.
Proof. intros Hp. by rewrite starts_app by (by apply starts_length). Qed.
Lemma leads_app p s : leads p = true -> (2 <= String.length p)%nat -> leads (p +:+ s) = true.
Proof.
  unfold leads. intros Hl Hn. rewrite !orb_true_iff, andb_true_iff in *. rewrite (starts_app p s "//") by done.
  destruct Hl as [[[[Hs Hd]|Hl]|Hl]|Hl]; eauto 6 using starts_grow.
Qed.

Section leads.
Context `{TemplLaws}.

Lemma leads_escape p s :
  plain p = true -> leads p = true -> (2 <= String.length p)%nat -> leads (EscapeString (p +:+ s)) = true.
Proof. intros Hp Hl Hn. rewrite Escape_app, (Escape_plain p Hp). by apply leads_app. Qed.
Lemma leads_URL p s :
  plain p = true -> leads p = true -> (2 <= String.length p)%nat -> leads (EscapeString (URL (p +:+ s))) = true.
Proof.
  intros Hp Hl Hn. destruct (URL_safe (p +:+ s)) as [->| ->]; [by apply leads_escape|]. rewrite Escape_plain; reflexivity.
Qed.
End leads.
