(* ===== verification/Templates.v ===== *)
(** * Templates: the pages, [cmd/panel/views_templ.go]

    One definition for each component of [views.templ], from the Go that templ
    generated for it; a component of more than a page is given in parts.  A
    component's parameters are the function's, [shown] and [filesShown] are
    [view] and [filesView].  Not modelled: a failure to write and the end of the
    request's context, which cut the output short. *)
From S2P Require Import Prelude GoStrings GoFloat GoTime GoUrl Core Settings Files Panel ActivityLog I18n Messages Pages Views Html.

Section templates.
Context `{Templ} `{Unicode} `{Zone}.

Definition isSome {A} (o : option A) : bool := match o with Some _ => true | None => false end.
Definition view_T (v : shown) (key : string) : string := T (s_language v) key.
Definition filesView_T (v : filesShown) (key : string) : string := T (f_language v) key.

Definition iconShape (name : string) : html :=
  (if String.eqb name "login" then lit "<path d=`M10 17l5-5-5-5`></path><path d=`M15 12H3`></path><path d=`M15 3h4a2 2 0 0 1 2 2v14a2 2 0 0 1-2 2h-4`></path>"
  else if String.eqb name "logout" then lit "<path d=`M14 8l4 4-4 4`></path><path d=`M18 12H7`></path><path d=`M10 4H5a2 2 0 0 0-2 2v12a2 2 0 0 0 2 2h5`></path>"
  else if String.eqb name "sites" then lit "<rect x=`3` y=`3` width=`7` height=`7` rx=`1`></rect><rect x=`14` y=`3` width=`7` height=`7` rx=`1`></rect><rect x=`3` y=`14` width=`7` height=`7` rx=`1`></rect><rect x=`14` y=`14` width=`7` height=`7` rx=`1`></rect>"
  else if String.eqb name "settings" then lit "<path d=`M4 7h10`></path><path d=`M18 7h2`></path><circle cx=`16` cy=`7` r=`2`></circle><path d=`M4 17h2`></path><path d=`M10 17h10`></path><circle cx=`8` cy=`17` r=`2`></circle>"
  else if String.eqb name "activity" then lit "<circle cx=`12` cy=`12` r=`9`></circle><path d=`M12 7v5l3 2`></path>"
  else if String.eqb name "roadmap" then lit "<path d=`m12 3 1.2 3.1L16 7.5l-2.8 1.4L12 12l-1.2-3.1L8 7.5l2.8-1.4L12 3Z`></path><path d=`m18.5 13 .8 2 1.7.8-1.7.9-.8 2.1-.8-2.1-1.7-.9 1.7-.8.8-2Z`></path><path d=`m5.5 14 .8 2 1.7.8-1.7.9-.8 2.1-.8-2.1-1.7-.9 1.7-.8.8-2Z`></path>"
  else if String.eqb name "plus" then lit "<path d=`M12 5v14`></path><path d=`M5 12h14`></path>"
  else if String.eqb name "manage" then lit "<circle cx=`12` cy=`12` r=`3`></circle><path d=`M19.4 15a1.7 1.7 0 0 0 .3 1.9l.1.1-2.8 2.8-.1-.1a1.7 1.7 0 0 0-1.9-.3 1.7 1.7 0 0 0-1 1.6v.2h-4V21a1.7 1.7 0 0 0-1-1.6 1.7 1.7 0 0 0-1.9.3l-.1.1L4.2 17l.1-.1a1.7 1.7 0 0 0 .3-1.9A1.7 1.7 0 0 0 3 14H2.8v-4H3a1.7 1.7 0 0 0 1.6-1 1.7 1.7 0 0 0-.3-1.9L4.2 7 7 4.2l.1.1A1.7 1.7 0 0 0 9 4.6 1.7 1.7 0 0 0 10 3V2.8h4V3a1.7 1.7 0 0 0 1 1.6 1.7 1.7 0 0 0 1.9-.3l.1-.1L19.8 7l-.1.1a1.7 1.7 0 0 0-.3 1.9 1.7 1.7 0 0 0 1.6 1h.2v4H21a1.7 1.7 0 0 0-1.6 1Z`></path>"
  else if String.eqb name "dashboard" then lit "<rect x=`3` y=`3` width=`18` height=`18` rx=`2`></rect><path d=`M9 3v18`></path><path d=`M9 9h12`></path>"
  else if String.eqb name "backup" then lit "<path d=`M4 7h16v13H4z`></path><path d=`M3 3h18v4H3z`></path><path d=`M9 12h6`></path>"
  else if String.eqb name "refresh" then lit "<path d=`M20 11a8 8 0 0 0-14.9-4L3 10`></path><path d=`M3 4v6h6`></path><path d=`M4 13a8 8 0 0 0 14.9 4L21 14`></path><path d=`M21 20v-6h-6`></path>"
  else if String.eqb name "database" then lit "<ellipse cx=`12` cy=`5` rx=`8` ry=`3`></ellipse><path d=`M4 5v7c0 1.7 3.6 3 8 3s8-1.3 8-3V5`></path><path d=`M4 12v7c0 1.7 3.6 3 8 3s8-1.3 8-3v-7`></path>"
  else if String.eqb name "files" then lit "<path d=`M3 6a2 2 0 0 1 2-2h5l2 3h7a2 2 0 0 1 2 2v9a2 2 0 0 1-2 2H5a2 2 0 0 1-2-2V6Z`></path>"
  else if String.eqb name "stop" then lit "<rect x=`6` y=`6` width=`12` height=`12` rx=`2`></rect>"
  else if String.eqb name "play" then lit "<path d=`m8 5 11 7-11 7V5Z`></path>"
  else if String.eqb name "mail" then lit "<rect x=`3` y=`5` width=`18` height=`14` rx=`2`></rect><path d=`m4 7 8 6 8-6`></path>"
  else if String.eqb name "trash" then lit "<path d=`M4 7h16`></path><path d=`M10 11v6`></path><path d=`M14 11v6`></path><path d=`m6 7 1 14h10l1-14`></path><path d=`M9 7V4h6v3`></path>"
  else if String.eqb name "restore" then lit "<path d=`M3 12a9 9 0 1 0 3-6.7L3 8`></path><path d=`M3 3v5h5`></path><path d=`M12 7v5l3 2`></path>"
  else if String.eqb name "download" then lit "<path d=`M12 3v12`></path><path d=`m7 10 5 5 5-5`></path><path d=`M4 21h16`></path>"
  else if String.eqb name "upload" then lit "<path d=`M12 16V4`></path><path d=`m7 9 5-5 5 5`></path><path d=`M4 20h16`></path>"
  else if String.eqb name "folder-plus" then lit "<path d=`M3 6a2 2 0 0 1 2-2h5l2 3h7a2 2 0 0 1 2 2v9a2 2 0 0 1-2 2H5a2 2 0 0 1-2-2V6Z`></path><path d=`M12 11v6`></path><path d=`M9 14h6`></path>"
  else if String.eqb name "arrow-left" then lit "<path d=`m15 18-6-6 6-6`></path><path d=`M9 12h11`></path>"
  else if String.eqb name "arrow-up" then lit "<path d=`m6 10 6-6 6 6`></path><path d=`M12 4v16`></path>"
  else if String.eqb name "check" then lit "<path d=`m5 12 4 4L19 6`></path>"
  else if String.eqb name "close" then lit "<path d=`M6 6l12 12`></path><path d=`M18 6 6 18`></path>"
  else if String.eqb name "copy" then lit "<rect x=`8` y=`8` width=`11` height=`11` rx=`2`></rect><path d=`M16 8V6a2 2 0 0 0-2-2H6a2 2 0 0 0-2 2v8a2 2 0 0 0 2 2h2`></path>"
  else if String.eqb name "move" then lit "<path d=`M12 3v18`></path><path d=`m8 7 4-4 4 4`></path><path d=`m8 17 4 4 4-4`></path><path d=`M3 12h18`></path><path d=`m7 8-4 4 4 4`></path><path d=`m17 8 4 4-4 4`></path>"
  else if String.eqb name "open" then lit "<path d=`M5 12h14`></path><path d=`m13 6 6 6-6 6`></path>"
  else if String.eqb name "file" then lit "<path d=`M6 2h8l4 4v16H6z`></path><path d=`M14 2v5h5`></path>"
  else if String.eqb name "link" then lit "<path d=`M10 13a5 5 0 0 0 7.5.5l2-2a5 5 0 0 0-7-7l-1.1 1.1`></path><path d=`M14 11a5 5 0 0 0-7.5-.5l-2 2a5 5 0 0 0 7 7l1.1-1.1`></path>"
  else if String.eqb name "panel-close" then lit "<rect x=`3` y=`4` width=`18` height=`16` rx=`2`></rect><path d=`M9 4v16`></path><path d=`m15 9-3 3 3 3`></path>"
  else if String.eqb name "panel-open" then lit "<rect x=`3` y=`4` width=`18` height=`16` rx=`2`></rect><path d=`M9 4v16`></path><path d=`m13 9 3 3-3 3`></path>"
  else []).

Definition icon (name : string) : html :=
  seq_ [
    css [Class_ ("icon icon-" +:+ name)];
    lit "<svg class=`";
    class_ [Class_ ("icon icon-" +:+ name)];
    lit "` aria-hidden=`true` viewBox=`0 0 24 24`>";
    iconShape name;
    lit "</svg>"].

Definition languageSwitcher (lang : string) (currentPath : string) (languages : list Language.t) (t : string -> string) : html :=
  seq_ [
    lit "<form class=`language-switcher` action=`/language` method=`get`><input type=`hidden` name=`next` value=`";
    attr currentPath;
    lit "`> <label for=`language-select`>";
    text (t "language");
    lit "</label> <select id=`language-select` name=`lang` onchange=`this.form.submit()` aria-label=`";
    attr (t "language");
    lit "`>";
    each languages (fun option =>
      seq_ [
        lit "<option value=`";
        attr (Language.Code option);
        lit "`";
        when (String.eqb (Language.Code option) lang) (lit " selected");
        lit ">";
        text (Language.Name option);
        lit "</option>"]);
    lit "</select><noscript><button class=`secondary language-submit` type=`submit`>";
    icon "check";
    lit "<span class=`button-label`>";
    text (t "apply");
    lit "</span></button></noscript></form>"].

Definition logoMark : html :=
  lit "<span class=`brand-mark` aria-hidden=`true`><svg viewBox=`0 0 40 40` fill=`none`><circle cx=`20` cy=`20` r=`17.5` fill=`#4355d6`></circle><circle cx=`20` cy=`20` r=`13` stroke=`white` stroke-width=`1.5` opacity=`.55`></circle><path d=`M15.5 29V11.5h6.2a6 6 0 0 1 0 12h-6.2m0-7h5.7a1 1 0 0 1 0 2h-5.7` stroke=`white` stroke-width=`3` stroke-linecap=`round` stroke-linejoin=`round`></path></svg></span>".

Definition brand : html :=
  seq_ [
    lit "<a class=`brand` href=`/`>";
    logoMark;
    lit "<span class=`brand-name`>panel4wp</span></a>"].

Definition githubCTA (t : string -> string) : html :=
  seq_ [
    lit "<a class=`github-cta` href=`https://github.com/kazemsoft/panel4wp` target=`_blank` rel=`noopener`><svg aria-hidden=`true` viewBox=`0 0 24 24` fill=`currentColor`><path d=`M12 2a10 10 0 0 0-3.16 19.49c.5.09.68-.22.68-.48v-1.7c-2.78.6-3.37-1.18-3.37-1.18-.45-1.15-1.11-1.46-1.11-1.46-.91-.62.07-.61.07-.61 1 .07 1.53 1.03 1.53 1.03.89 1.52 2.34 1.08 2.91.83.09-.64.35-1.08.64-1.33-2.22-.25-4.55-1.11-4.55-4.94 0-1.09.39-1.99 1.03-2.69-.1-.25-.45-1.27.1-2.65 0 0 .84-.27 2.75 1.03a9.58 9.58 0 0 1 5 0c1.91-1.3 2.75-1.03 2.75-1.03.55 1.38.2 2.4.1 2.65.64.7 1.03 1.6 1.03 2.69 0 3.84-2.34 4.68-4.57 4.93.36.31.68.92.68 1.85v2.58c0 .27.18.58.69.48A10 10 0 0 0 12 2Z`></path></svg> <strong>";
    text (t "github_star_title");
    lit "</strong> <small>";
    text (t "github_star_help");
    lit "</small></a>"].

Definition sidebarNav (t : string -> string) (pageName : string) : html :=
  seq_ [
    lit "<aside class=`sidebar` id=`app-sidebar`><div class=`sidebar-header`>";
    brand;
    lit "<button class=`sidebar-toggle secondary` type=`button` data-sidebar-toggle data-collapse-label=`";
    attr (t "collapse_sidebar");
    lit "` data-expand-label=`";
    attr (t "expand_sidebar");
    lit "` aria-controls=`app-sidebar` aria-expanded=`true`>";
    icon "panel-close";
    icon "panel-open";
    lit "</button></div><nav><div class=`eyebrow`>";
    text (t "workspace");
    lit "</div>";
    css [Classes [Class_ "nav-link"; KV "active" (isSitePage pageName)]];
    lit "<a class=`";
    class_ [Classes [Class_ "nav-link"; KV "active" (isSitePage pageName)]];
    lit "` href=`/` title=`";
    attr (t "my_sites");
    lit "`>";
    icon "sites";
    lit "<span class=`nav-label`>";
    text (t "my_sites");
    lit "</span></a> ";
    css [Classes [Class_ "nav-link"; KV "active" (String.eqb pageName "settings")]];
    lit "<a class=`";
    class_ [Classes [Class_ "nav-link"; KV "active" (String.eqb pageName "settings")]]].

Definition sidebarLinks (t : string -> string) (pageName : string) : html :=
  seq_ [
    lit "` href=`/settings` title=`";
    attr (t "settings");
    lit "`>";
    icon "settings";
    lit "<span class=`nav-label`>";
    text (t "settings");
    lit "</span></a> ";
    css [Classes [Class_ "nav-link"; KV "active" (String.eqb pageName "activity")]];
    lit "<a class=`";
    class_ [Classes [Class_ "nav-link"; KV "active" (String.eqb pageName "activity")]];
    lit "` href=`/activity` title=`";
    attr (t "activity");
    lit "`>";
    icon "activity";
    lit "<span class=`nav-label`>";
    text (t "activity");
    lit "</span></a> ";
    css [Classes [Class_ "nav-link"; Class_ "roadmap-nav"; KV "active" (String.eqb pageName "roadmap")]];
    lit "<a class=`";
    class_ [Classes [Class_ "nav-link"; Class_ "roadmap-nav"; KV "active" (String.eqb pageName "roadmap")]];
    lit "` href=`/roadmap` title=`";
    attr (t "whats_next");
    lit "`>";
    icon "roadmap";
    lit "<span class=`nav-label`>"].

Definition sidebarFooter (language : string) (currentPath : string) (t : string -> string) (csrf : string) : html :=
  seq_ [
    text (t "whats_next");
    lit "</span></a></nav><div class=`sidebar-footer`>";
    languageSwitcher language currentPath languages t;
    githubCTA t;
    lit "<form action=`/logout` method=`post`><input type=`hidden` name=`csrf` value=`";
    attr csrf;
    lit "`><button class=`secondary` title=`";
    attr (t "log_out");
    lit "`>";
    icon "logout";
    lit "<span class=`button-label`>";
    text (t "log_out");
    lit "</span></button></form></div></aside>"].

Definition sidebar (language : string) (currentPath : string) (languages : list Language.t) (t : string -> string) (csrf : string) (pageName : string) : html :=
  seq_ [
    sidebarNav t pageName;
    sidebarLinks t pageName;
    sidebarFooter language currentPath t csrf].

Definition documentHead (v : shown) : html :=
  seq_ [
    lit "<head><meta charset=`utf-8`><meta name=`viewport` content=`width=device-width, initial-scale=1`><title>panel4wp · ";
    text (view_T v "workspace");
    lit "</title><link rel=`stylesheet` href=`/assets/app.css?v=11`><script src=`/assets/htmx.min.js?v=7` defer></script><script src=`/assets/app.js?v=10` defer></script></head>"].

Definition alerts (err : string) (message : string) : html :=
  seq_ [
    when (negb (String.eqb err "")) (seq_ [
      lit "<p class=`error` role=`alert`>";
      text err;
      lit "</p>"]);
    when (negb (String.eqb message "")) (seq_ [
      lit "<p class=`success` role=`status`>";
      text message;
      lit "</p>"])].

Definition dashboardMetrics (v : shown) : html :=
  seq_ [
    lit "<div class=`overview`><div class=`metric`><span>";
    text (view_T v "managed_sites");
    lit "</span><strong>";
    text (JoinInt (Z.of_nat (length (s_sites v))));
    lit "</strong></div><div class=`metric`><span>";
    text (view_T v "hosting_environment");
    lit "</span><strong>";
    text (view_T v "your_server");
    lit "</strong></div><div class=`metric`><span>";
    text (view_T v "workspace_access");
    lit "</span><strong>";
    text (view_T v "single_administrator");
    lit "</strong></div></div>"].

Definition capacityTitle (v : shown) : html :=
  seq_ [
    lit "<section class=`capacity-summary`><h3>";
    text (view_T v "capacity_title");
    lit "</h3><p class=`hint`>";
    text (view_T v "capacity_hint");
    lit "</p>"].

Definition capacityMetrics (v : shown) (c : HostCapacity.t) : html :=
  seq_ [
    lit "<div class=`overview`><div class=`metric`><span>";
    text (view_T v "capacity_ram");
    lit "</span><strong>";
    text (formatBytes (AvailableMemoryBytes c));
    lit "</strong><small>";
    text (view_T v "capacity_total");
    lit ": ";
    text (formatBytes (HostCapacity.MemoryBytes c));
    lit "</small></div><div class=`metric`><span>";
    text (view_T v "capacity_cpu");
    lit "</span><strong>";
    text (formatFixed 2 (AvailableCPUs c));
    lit "</strong><small>";
    text (view_T v "capacity_total");
    lit ": ";
    text (formatG (HostCapacity.CPUs c));
    lit "</small></div><div class=`metric`><span>";
    text (view_T v "capacity_disk");
    lit "</span><strong>";
    text (formatBytes (Z.min (HostCapacity.DockerDiskFreeBytes c) (HostCapacity.DataDiskFreeBytes c)));
    lit "</strong><small>"].

Definition capacityOverview (v : shown) : html :=
  seq_ [
    capacityTitle v;
    match s_capacity v with
    | Some c =>
        seq_ [
          capacityMetrics v c;
          text (view_T v "capacity_disk_hint");
          lit "</small></div></div>"]
    | None =>
        seq_ [
          lit "<p class=`error`>";
          text (s_capacityError v);
          lit "</p>"]
    end;
    lit "</section>"].

Definition planOptions (v : shown) (r : Resources.t) : html :=
  seq_ [
    lit "<label>";
    text (view_T v "resource_plan");
    lit "<select name=`plan` data-resource-plan><option value=`small`";
    when ((Resources.MemoryMB r =? 384) && feqb (Resources.CPUs r) (fscale 1 (-1))) (lit " selected");
    lit ">";
    text (view_T v "plan_small");
    lit " · 384 MiB · 0.5 CPU</option><option value=`standard`";
    when ((Resources.MemoryMB r =? 768) && feqb (Resources.CPUs r) (fofZ 1)) (lit " selected");
    lit ">";
    text (view_T v "plan_standard");
    lit " · 768 MiB · 1 CPU</option><option value=`large`";
    when ((Resources.MemoryMB r =? 1536) && feqb (Resources.CPUs r) (fofZ 2)) (lit " selected");
    lit ">";
    text (view_T v "plan_large");
    lit " · 1536 MiB · 2 CPUs</option>"].

Definition resourceInputs (v : shown) (r : Resources.t) : html :=
  seq_ [
    each (s_plans v) (fun plan =>
      seq_ [
        lit "<option value=`";
        attr ("saved-" +:+ ResourcePlan.ID plan);
        lit "`>";
        text (ResourcePlan.Name plan);
        lit " · ";
        text (itoa (Resources.MemoryMB (ResourcePlan.Resources plan)));
        lit " MiB · ";
        text (formatG (Resources.CPUs (ResourcePlan.Resources plan)));
        lit " CPU</option> "]);
    lit "<option value=`custom`";
    when (String.eqb (resourcePlan r) "custom") (lit " selected");
    lit ">";
    text (view_T v "plan_custom");
    lit "</option></select></label><div class=`form-grid` data-custom-resources><label>";
    text (view_T v "resource_memory");
    lit "<input name=`memory_mb` type=`number` min=`256` max=`8192` step=`1` required value=`";
    attr (itoa (Resources.MemoryMB r));
    lit "`></label> <label>";
    text (view_T v "resource_cpu");
    lit "<input name=`cpus` type=`number` min=`0.25` max=`8` step=`0.25` required value=`";
    attr (formatG (Resources.CPUs r));
    lit "`></label></div><p class=`hint`>"].

Definition resourceFields (v : shown) (r : Resources.t) : html :=
  seq_ [
    planOptions v r;
    resourceInputs v r;
    text (view_T v "resources_per_container");
    lit "</p>"].

Definition newSiteFields (v : shown) : html :=
  seq_ [
    lit "<section id=`create-site` class=`form-card`><div class=`eyebrow`>";
    text (view_T v "new_workspace");
    lit "</div><h2>";
    text (view_T v "create_site");
    lit "</h2><p class=`hint`>";
    text (view_T v "create_site_hint");
    lit "</p>";
    capacityOverview v;
    lit "<form action=`/sites` method=`post` data-disable-on-submit data-progress-label=`";
    attr (view_T v "in_progress");
    lit "`><input type=`hidden` name=`csrf` value=`";
    attr (s_csrf v);
    lit "`> <label>";
    text (view_T v "domain");
    lit "<input name=`domain` placeholder=`example.com`></label> <label>";
    text (view_T v "site_title");
    lit "<input name=`title` required maxlength=`120`></label> <label>";
    text (view_T v "wordpress_admin_email");
    lit "<input type=`email` name=`email` required></label>";
    resourceFields v (Resources.mk 768 (fofZ 1));
    lit "<p><button";
    when (negb (isSome (s_capacity v))) (lit " disabled");
    lit ">";
    icon "plus"].

Definition newSiteSubmit (v : shown) : html :=
  seq_ [
    lit "<span class=`button-label`>";
    text (view_T v "create_site");
    lit "</span></button></p></form><small>";
    text (view_T v "local_domain_hint");
    lit "</small></section>"].

Definition newSite (v : shown) : html :=
  seq_ [
    newSiteFields v;
    newSiteSubmit v].

Definition actionForm (csrf : string) (action : string) (className : string) (iconName : string) (label : string) (progressLabel : string) : html :=
  seq_ [
    lit "<form class=`inline` action=`";
    url action;
    lit "` method=`post` data-disable-on-submit data-progress-label=`";
    attr progressLabel;
    lit "`><input type=`hidden` name=`csrf` value=`";
    attr csrf;
    lit "`>";
    css [Class_ className];
    lit "<button class=`";
    class_ [Class_ className];
    lit "`>";
    icon iconName;
    lit "<span class=`button-label`>";
    text label;
    lit "</span></button></form>"].

Definition diskQuotaState (v : shown) : html :=
  seq_ [
    lit "<section class=`resources-form disk-capability`><h3>";
    text (view_T v "disk_quota_title");
    lit " <span class=`badge`>";
    text (view_T v "disk_quota_not_enabled");
    lit "</span></h3><p class=`hint`>";
    text (view_T v "disk_quota_scope");
    lit "</p>";
    match s_disk v with
    | Some d =>
        seq_ [
          when (negb (String.eqb (StorageCapability.WordPressFilesystem d) "")) (seq_ [
            lit "<p class=`hint`>";
            text (view_T v "disk_quota_filesystem");
            lit ": <b dir=`ltr`>";
            text (StorageCapability.WordPressFilesystem d +:+ " / " +:+ StorageCapability.DatabaseFilesystem d);
            lit "</b></p>"]);
          lit " ";
          (if SupportsProjectQuotas d then
            seq_ [
              lit "<p class=`hint`>";
              text (view_T v "disk_quota_backend_supported");
              lit "</p>"]
          else
            seq_ [
              lit "<p class=`hint`>";
              text (view_T v (diskCapabilityReasonKey (StorageCapability.Reason d)));
              lit "</p>"])]
    | None =>
        seq_ [
          lit "<p class=`form-error` role=`status`>";
          text (view_T v "disk_quota_check_failed");
          lit "</p>"]
    end;
    lit "<p class=`hint`>"].

Definition diskQuotaLink (v : shown) : html :=
  seq_ [
    text (view_T v "disk_quota_development");
    lit "</p><a class=`button secondary` href=`https://github.com/kazemsoft/panel4wp/blob/main/docs/RESOURCES.md#hard-disk-quotas` target=`_blank` rel=`noopener noreferrer`>";
    icon "link";
    lit "<span>";
    text (view_T v "disk_quota_docs");
    lit "</span></a></section>"].

Definition diskQuotaCapability (v : shown) : html :=
  seq_ [
    diskQuotaState v;
    diskQuotaLink v].

Definition resourcesCard (v : shown) (site : Site.t) : html :=
  seq_ [
    lit "<section class=`resources-form`><h3>";
    text (view_T v "resources_title");
    lit "</h3>";
    capacityOverview v;
    lit "<p class=`hint`>";
    text (view_T v "resources_change_warning");
    lit "</p>";
    (if negb (operationPending site) && String.eqb (Site.HealthError site) "" && (String.eqb (Site.Status site) StatusRunning || String.eqb (Site.Status site) StatusStopped) then
      seq_ [
        lit "<form action=`";
        url ("/sites/" +:+ Site.ID site +:+ "/resources");
        lit "` method=`post` data-disable-on-submit data-progress-label=`";
        attr (view_T v "in_progress");
        lit "`><input type=`hidden` name=`csrf` value=`";
        attr (s_csrf v);
        lit "`>";
        resourceFields v (SiteResources site);
        lit "<button class=`form-submit`";
        when (negb (isSome (s_capacity v))) (lit " disabled");
        lit ">";
        icon "check";
        lit "<span class=`button-label`>";
        text (view_T v "resources_save");
        lit "</span></button></form>"]
    else
      seq_ [
        lit "<p class=`hint`>";
        text (view_T v "resources_repair_first");
        lit "</p>"])].

Definition siteResourcesForm (v : shown) (site : Site.t) : html :=
  seq_ [
    resourcesCard v site;
    lit "</section>";
    diskQuotaCapability v].

Definition scheduleHead (v : shown) (site : Site.t) : html :=
  seq_ [
    lit "<section class=`backup-schedule`><div class=`roadmap-head`><h3>";
    text (view_T v "backup_schedule_title");
    lit "</h3>";
    (if BackupPolicy.Enabled (Site.BackupPolicy site) then
      seq_ [
        lit "<span class=`badge running`>";
        text (view_T v "enabled");
        lit "</span>"]
    else
      seq_ [
        lit "<span class=`badge`>";
        text (view_T v "disabled");
        lit "</span>"]);
    lit "</div><p class=`hint`>";
    text (view_T v "backup_schedule_hint");
    lit "</p><form action=`";
    url ("/sites/" +:+ Site.ID site +:+ "/backup-schedule");
    lit "` method=`post`><input type=`hidden` name=`csrf` value=`";
    attr (s_csrf v);
    lit "`> <label class=`checkbox-label`><input type=`checkbox` name=`enabled`";
    when (BackupPolicy.Enabled (Site.BackupPolicy site)) (lit " checked");
    lit "> ";
    text (view_T v "enable_backup_schedule");
    lit "</label><div class=`schedule-grid`><label>";
    text (view_T v "backup_frequency");
    lit "<select name=`interval_hours`><option value=`6`";
    when (backupIntervalValue (Site.BackupPolicy site) =? 6) (lit " selected")].

Definition scheduleFrequency (v : shown) (site : Site.t) : html :=
  seq_ [
    lit ">";
    text (view_T v "every_6_hours");
    lit "</option><option value=`12`";
    when (backupIntervalValue (Site.BackupPolicy site) =? 12) (lit " selected");
    lit ">";
    text (view_T v "every_12_hours");
    lit "</option><option value=`24`";
    when (backupIntervalValue (Site.BackupPolicy site) =? 24) (lit " selected");
    lit ">";
    text (view_T v "daily");
    lit "</option><option value=`168`";
    when (backupIntervalValue (Site.BackupPolicy site) =? 168) (lit " selected");
    lit ">";
    text (view_T v "weekly");
    lit "</option></select></label> <label>";
    text (view_T v "retention_count");
    lit "<input type=`number` name=`retention` min=`1` max=`30` value=`";
    attr (itoa (backupRetentionValue (Site.BackupPolicy site)));
    lit "`><small>";
    text (view_T v "retention_hint");
    lit "</small></label></div><div class=`schedule-status`><span><strong>";
    text (view_T v "next_backup");
    lit "</strong>"].

Definition scheduleStatus (v : shown) (site : Site.t) : html :=
  seq_ [
    text (formatOptionalTime (BackupPolicy.NextRunAt (Site.BackupPolicy site)) (view_T v "not_scheduled"));
    lit "</span><span><strong>";
    text (view_T v "last_successful_backup");
    lit "</strong>";
    text (formatOptionalTime (BackupPolicy.LastSuccessAt (Site.BackupPolicy site)) (view_T v "never"));
    lit "</span></div>";
    when (negb (String.eqb (BackupPolicy.LastError (Site.BackupPolicy site)) "")) (seq_ [
      lit "<p class=`error schedule-error`>";
      text (BackupPolicy.LastError (Site.BackupPolicy site));
      lit "</p>"]);
    lit "<button class=`form-submit`>";
    icon "check";
    lit "<span class=`button-label`>";
    text (view_T v "save_backup_schedule");
    lit "</span></button></form></section>"].

Definition backupSchedule (v : shown) (site : Site.t) : html :=
  seq_ [
    scheduleHead v site;
    scheduleFrequency v site;
    scheduleStatus v site].

Definition confirmDialogHead (v : shown) (site : Site.t) (dialogID : string) (action : string) (title : string) (warning : string) (iconName : string) : html :=
  seq_ [
    lit "<dialog id=`";
    attr dialogID;
    lit "` class=`confirm-dialog` aria-labelledby=`";
    attr (dialogID +:+ "-title");
    lit "`><div class=`dialog-header`><div class=`dialog-title`>";
    icon iconName;
    lit "<h3 id=`";
    attr (dialogID +:+ "-title");
    lit "`>";
    text title;
    lit "</h3></div><button class=`secondary icon-button` type=`button` data-modal-close aria-label=`";
    attr (view_T v "cancel");
    lit "`>";
    icon "close";
    lit "</button></div><p class=`dialog-warning`>";
    text warning;
    lit "</p><form action=`";
    url action;
    lit "` method=`post` data-confirm-domain=`";
    attr (Site.Domain site);
    lit "` data-disable-on-submit data-progress-label=`";
    attr (view_T v "in_progress");
    lit "`><input type=`hidden` name=`csrf` value=`"].

Definition confirmDialogFields (v : shown) (site : Site.t) (backup : Backup.t) (dialogID : string) (title : string) : html :=
  seq_ [
    attr (s_csrf v);
    lit "`><input type=`hidden` name=`backup_id` value=`";
    attr (Backup.ID backup);
    lit "`> <label for=`";
    attr (dialogID +:+ "-confirm");
    lit "`>";
    text (view_T v "confirm_domain");
    lit "</label><span class=`domain-copy`><code class=`confirmation-domain`>";
    text (Site.Domain site);
    lit "</code><button class=`secondary copy-domain` type=`button` data-copy-text=`";
    attr (Site.Domain site);
    lit "` title=`";
    attr (view_T v "copy");
    lit "`>";
    icon "copy";
    lit "<span>";
    text (view_T v "copy");
    lit "</span></button></span><input id=`";
    attr (dialogID +:+ "-confirm");
    lit "` name=`confirm` required autocomplete=`off` spellcheck=`false` data-confirm-input><div class=`dialog-actions`><button class=`secondary` type=`button` data-modal-close>";
    text (view_T v "cancel");
    lit "</button><button class=`danger` type=`submit` data-confirm-submit disabled>"].

Definition backupConfirmDialog (v : shown) (site : Site.t) (backup : Backup.t) (operation : string) : html :=
  let isRestore := String.eqb operation "restore" in
  let dialogID := operation +:+ "-" +:+ Backup.ID backup in
  let action := if isRestore then "/sites/" +:+ Site.ID site +:+ "/restore" else "/sites/" +:+ Site.ID site +:+ "/backup-delete" in
  let title := if isRestore then view_T v "restore_backup" else view_T v "delete_backup" in
  let warning := if isRestore then view_T v "restore_warning" else view_T v "delete_backup_warning" in
  let iconName := if isRestore then "restore" else "trash" in
  seq_ [
    confirmDialogHead v site dialogID action title warning iconName;
    confirmDialogFields v site backup dialogID title;
    icon iconName;
    lit "<span class=`button-label`>";
    text title;
    lit "</span></button></div></form></dialog>"].

Definition backupListHead (v : shown) (site : Site.t) : html :=
  seq_ [
    lit "<section class=`backup-list`><div class=`backup-list-head`><div><h3>";
    text (view_T v "backups_recovery");
    lit "</h3><p class=`hint`>";
    text (view_T v "restore_warning");
    lit "</p></div><span class=`badge`>";
    text (itoa (Z.of_nat (length (Site.Backups site))) +:+ " " +:+ (view_T v "available"));
    lit "</span></div><div class=`table-wrap`><table class=`backup-table`><thead><tr><th>";
    text (view_T v "created_at");
    lit "</th><th>ID</th><th>";
    text (view_T v "type");
    lit "</th><th>";
    text (view_T v "actions");
    lit "</th></tr></thead><tbody>"].

Definition backupRows (v : shown) (site : Site.t) : html :=
  each (Site.Backups site) (fun backup =>
    seq_ [
      lit "<tr><td><time>";
      text (formatTime (Backup.CreatedAt backup));
      lit "</time></td><td><code>";
      text (Backup.ID backup);
      lit "</code></td><td><span class=`badge`>";
      text (view_T v (backupSourceKey (Backup.Source backup)));
      lit "</span></td><td><div class=`backup-row-actions`><button class=`secondary icon-button` type=`button` data-modal-open=`";
      attr ("restore-" +:+ Backup.ID backup);
      lit "` aria-label=`";
      attr (view_T v "restore_backup");
      lit "` title=`";
      attr (view_T v "restore_backup");
      lit "`>";
      icon "restore";
      lit "</button><button class=`danger icon-button` type=`button` data-modal-open=`";
      attr ("delete-" +:+ Backup.ID backup);
      lit "` aria-label=`";
      attr (view_T v "delete_backup");
      lit "` title=`";
      attr (view_T v "delete_backup");
      lit "`>";
      icon "trash";
      lit "</button></div></td></tr>"]).

Definition backupList (v : shown) (site : Site.t) : html :=
  seq_ [
    backupListHead v site;
    backupRows v site;
    lit "</tbody></table></div>";
    each (Site.Backups site) (fun backup =>
      seq_ [
        backupConfirmDialog v site backup "restore";
        lit " ";
        backupConfirmDialog v site backup "delete"]);
    lit "</section>"].

Definition siteMail (v : shown) (site : Site.t) : html :=
  seq_ [
    lit "<details><summary>";
    text (view_T v "outgoing_email");
    lit " ";
    when (Site.MailEnabled site) (seq_ [
      lit "<span class=`badge running`>";
      text (view_T v "enabled");
      lit "</span>"]);
    lit "</summary><p class=`hint`>";
    text (view_T v "smtp_site_hint");
    lit "</p>";
    (if String.eqb (Site.Status site) StatusRunning && negb (operationPending site) && String.eqb (Site.HealthError site) "" then
      seq_ [
        lit "<form action=`";
        url ("/sites/" +:+ Site.ID site +:+ mailAction (Site.MailEnabled site));
        lit "` method=`post`><input type=`hidden` name=`csrf` value=`";
        attr (s_csrf v);
        lit "`><button class=`secondary`>";
        icon "mail";
        lit "<span class=`button-label`>";
        (if Site.MailEnabled site then
          text (view_T v "disable_smtp")
        else
          text (view_T v "enable_global_smtp"));
        lit "</span></button></form>"]
    else
      seq_ [
        lit "<p class=`hint`>";
        text (view_T v "start_before_mail");
        lit "</p>"]);
    lit "</details>"].

Definition deleteSite (v : shown) (site : Site.t) : html :=
  seq_ [
    lit "<details class=`danger-zone`><summary>";
    text (view_T v "delete_permanently");
    lit "</summary><p class=`hint`>";
    text (view_T v "delete_site_warning");
    lit "</p><form action=`";
    url ("/sites/" +:+ Site.ID site +:+ "/delete");
    lit "` method=`post`><input type=`hidden` name=`csrf` value=`";
    attr (s_csrf v);
    lit "`><label>";
    text (view_T v "type_domain_confirm");
    lit "<input name=`confirm` required placeholder=`";
    attr (Site.Domain site);
    lit "`></label><p><button class=`danger`>";
    icon "trash";
    lit "<span class=`button-label`>";
    text (view_T v "delete_site_data");
    lit "</span></button></p></form></details>"].

Definition workspaceLinks (v : shown) (site : Site.t) : html :=
  seq_ [
    lit "<div class=`site-actions`><a class=`button secondary` href=`";
    url (URL ("/sites/" +:+ Site.ID site +:+ "/resources"));
    lit "`>";
    icon "settings";
    lit "<span class=`button-label`>";
    text (view_T v "resources_title");
    lit "</span></a> <a class=`button secondary` href=`";
    url (URL ("/sites/" +:+ Site.ID site));
    lit "`>";
    icon "dashboard";
    lit "<span class=`button-label`>";
    text (view_T v "overview");
    lit "</span></a><a class=`button secondary` href=`";
    url (URL ("/sites/" +:+ Site.ID site +:+ "/backups"));
    lit "`>";
    icon "backup";
    lit "<span class=`button-label`>";
    text (view_T v "backups");
    lit "</span></a><a class=`button secondary` href=`";
    url (URL ("/sites/" +:+ Site.ID site +:+ "/updates"));
    lit "`>";
    icon "refresh";
    lit "<span class=`button-label`>";
    text (view_T v "updates");
    lit "</span></a><a class=`button secondary` href=`"].

Definition workspaceActions (v : shown) (site : Site.t) : html :=
  seq_ [
    url (URL ("/sites/" +:+ Site.ID site +:+ "/database"));
    lit "`>";
    icon "database";
    lit "<span class=`button-label`>";
    text (view_T v "database");
    lit "</span></a><a class=`button secondary` href=`";
    url (URL ("/sites/" +:+ Site.ID site +:+ "/files"));
    lit "`>";
    icon "files";
    lit "<span class=`button-label`>";
    text (view_T v "files");
    lit "</span></a></div><div class=`site-actions`>";
    when (String.eqb (v_page (s_view v)) "backups" && String.eqb (Site.Status site) StatusRunning && negb (operationPending site) && String.eqb (Site.HealthError site) "") (actionForm (s_csrf v) ("/sites/" +:+ Site.ID site +:+ "/backup") "" "backup" (view_T v "backup_now") (view_T v "in_progress"));
    when (String.eqb (v_page (s_view v)) "updates" && String.eqb (Site.Status site) StatusRunning && negb (operationPending site) && String.eqb (Site.HealthError site) "") (actionForm (s_csrf v) ("/sites/" +:+ Site.ID site +:+ "/update") "secondary" "refresh" (view_T v "update_wordpress") (view_T v "in_progress"));
    when (String.eqb (v_page (s_view v)) "database" && String.eqb (Site.Status site) StatusRunning && negb (operationPending site) && String.eqb (Site.HealthError site) "") (seq_ [
      actionForm (s_csrf v) ("/sites/" +:+ Site.ID site +:+ "/database-start") "secondary" "database" (view_T v "open_database_manager") (view_T v "in_progress");
      lit " <small>";
      text (view_T v "database_access_hint");
      lit "</small> "]);
    when (String.eqb (v_page (s_view v)) "site" && String.eqb (Site.Status site) StatusFailed && negb (operationPending site)) (actionForm (s_csrf v) ("/sites/" +:+ Site.ID site +:+ "/retry") "" "refresh" (view_T v "retry") (view_T v "in_progress"));
    lit "</div><div class=`site-details`>";
    when (String.eqb (v_page (s_view v)) "resources") (siteResourcesForm v site);
    when (String.eqb (v_page (s_view v)) "backups") (seq_ [
      backupSchedule v site;
      lit " ";
      when (0 <? Z.of_nat (length (Site.Backups site))) (backupList v site)])].

Definition siteWorkspace (v : shown) (site : Site.t) : html :=
  seq_ [
    workspaceLinks v site;
    workspaceActions v site;
    when (String.eqb (v_page (s_view v)) "site") (seq_ [
      siteMail v site;
      lit " ";
      deleteSite v site]);
    lit "</div>"].

Definition cardHead (v : shown) (site : Site.t) : html :=
  seq_ [
    lit "<article class=`card site-card`><div class=`site-head`><div class=`site-icon`>W</div><div class=`site-meta`><h3>";
    text (Site.Title site);
    lit "</h3><a href=`";
    url (URL (sitePublicURL (Site.Domain site)));
    lit "` target=`_blank` rel=`noopener`>";
    text (Site.Domain site);
    lit "</a><small>";
    text (Site.ID site);
    lit " · ";
    text (itoa (Site.MemoryMB site) +:+ " MB · " +:+ formatG (Site.CPUs site) +:+ " CPU");
    lit "</small></div><div class=`site-status`>";
    css [Class_ ("badge " +:+ visibleStatus site)];
    lit "<span class=`";
    class_ [Class_ ("badge " +:+ visibleStatus site)];
    lit "`>";
    text (view_T v ("status_" +:+ visibleStatus site));
    lit "</span> ";
    when (String.eqb (v_page (s_view v)) "site" && String.eqb (Site.Status site) StatusRunning && negb (operationPending site) && String.eqb (Site.HealthError site) "") (actionForm (s_csrf v) ("/sites/" +:+ Site.ID site +:+ "/stop") "secondary status-action" "stop" (view_T v "stop") (view_T v "in_progress"));
    when (((String.eqb (v_page (s_view v)) "site" && (String.eqb (Site.Status site) StatusStopped || String.eqb (Site.Status site) StatusUnhealthy)) && negb (operationPending site)) && String.eqb (Site.HealthError site) "") (actionForm (s_csrf v) ("/sites/" +:+ Site.ID site +:+ "/start") "status-action" "play" (view_T v "start") (view_T v "in_progress"));
    lit "</div></div><div class=`site-details`>"].

Definition usageWordPress (v : shown) (stats : SiteStats.t) : html :=
  seq_ [
    lit "<details><summary>";
    text (view_T v "live_resource_usage");
    lit "</summary> ";
    match SiteStats.WordPress stats with
    | Some wp =>
        seq_ [
          lit "<p><small><strong>WordPress</strong> · CPU ";
          text (ContainerStats.CPU wp);
          lit " · ";
          text (view_T v "memory");
          lit " ";
          text (ContainerStats.Memory wp);
          lit " (";
          text (ContainerStats.MemoryPC wp);
          lit ") · ";
          text (view_T v "network");
          lit " ";
          text (ContainerStats.NetIO wp);
          lit " · ";
          text (view_T v "disk_io");
          lit " ";
          text (ContainerStats.BlockIO wp);
          lit " · PIDs ";
          text (ContainerStats.PIDs wp);
          lit "</small></p>"]
    | None =>
        []
    end].

Definition usageDatabase (v : shown) (stats : SiteStats.t) : html :=
  match SiteStats.Database stats with
  | Some db =>
      seq_ [
        lit "<p><small><strong>";
        text (view_T v "database");
        lit "</strong> · CPU ";
        text (ContainerStats.CPU db);
        lit " · ";
        text (view_T v "memory");
        lit " ";
        text (ContainerStats.Memory db);
        lit " (";
        text (ContainerStats.MemoryPC db);
        lit ") · ";
        text (view_T v "network");
        lit " ";
        text (ContainerStats.NetIO db);
        lit " · ";
        text (view_T v "disk_io");
        lit " ";
        text (ContainerStats.BlockIO db);
        lit " · PIDs ";
        text (ContainerStats.PIDs db);
        lit "</small></p>"]
  | None =>
      []
  end.

Definition usageStorage (v : shown) (storage_ : option SiteStorage.t) : html :=
  seq_ [
    match storage_ with
    | Some storage =>
        seq_ [
          lit "<p><small><strong>";
          text (view_T v "storage");
          lit "</strong> · WordPress ";
          text (formatBytes (SiteStorage.WordPressBytes storage));
          lit " · ";
          text (view_T v "database");
          lit " ";
          text (formatBytes (SiteStorage.DatabaseBytes storage));
          lit " · ";
          text (view_T v "backups");
          lit " ";
          text (formatBytes (SiteStorage.BackupBytes storage));
          lit "</small></p>"]
    | None => []
    end;
    lit "</details> "].

Definition cardDetails (v : shown) (site : Site.t) : html :=
  seq_ [
    when (negb (Site.HealthCheckedAt site =? zeroTime)) (seq_ [
      lit "<p class=`hint`>";
      text (view_T v "status_checked");
      lit ": ";
      text (formatTime (Site.HealthCheckedAt site));
      lit "</p>"]);
    when (negb (String.eqb (Site.HealthError site) "")) (seq_ [
      lit "<p class=`error`>";
      text (view_T v "status_unavailable");
      lit "</p>"]);
    when (operationPending site) (seq_ [
      lit "<p class=`hint`>";
      text (view_T v "operation_pending");
      lit "</p>"]);
    when (negb (String.eqb (Site.Error site) "")) (seq_ [
      lit "<p class=`error`>";
      text (Site.Error site);
      lit "</p>"]);
    lit "</div>";
    (if String.eqb (v_page (s_view v)) "dashboard" then
      seq_ [
        lit "<div class=`site-actions`><a class=`button secondary` href=`";
        url (URL ("/sites/" +:+ Site.ID site));
        lit "`>";
        icon "manage";
        lit "<span class=`button-label`>";
        text (view_T v "manage_site");
        lit "</span></a></div>"]
    else
      siteWorkspace v site)].

Definition siteCard (v : shown) (site : Site.t) : html :=
  let stats := default (SiteStats.mk None None) (s_stats v !! Site.ID site) in
  let storage_ := s_storage v !! Site.ID site in
  seq_ [
    cardHead v site;
    when (isSome (SiteStats.WordPress stats) || isSome (SiteStats.Database stats)) (seq_ [
      usageWordPress v stats;
      usageDatabase v stats;
      usageStorage v storage_]);
    cardDetails v site;
    lit "</article>"].

Definition sitesHead (v : shown) : html :=
  seq_ [
    lit "<section class=`sites-section` id=`sites`><div class=`section-head`><div><h2>";
    (if String.eqb (v_page (s_view v)) "dashboard" then
      seq_ [
        text (view_T v "your_sites");
        lit " <span class=`badge`>";
        text (JoinInt (Z.of_nat (length (s_sites v))));
        lit "</span>"]
    else
      text (view_T v "site_workspace"));
    lit "</h2></div>";
    actionForm (s_csrf v) ("/reconcile?next=" +:+ QueryEscape (s_current v)) "secondary" "refresh" (view_T v "refresh_status") (view_T v "in_progress");
    (if String.eqb (v_page (s_view v)) "dashboard" then
      seq_ [
        lit "<a class=`button` href=`/sites/new`>";
        icon "plus";
        lit "<span class=`button-label`>";
        text (view_T v "add_site");
        lit "</span></a>"]
    else
      seq_ [
        lit "<a class=`icon-link` href=`";
        url (URL ("/sites/" +:+ v_site (s_view v) +:+ "?stats=1"));
        lit "`>";
        icon "refresh";
        lit "<span>";
        text (view_T v "refresh_usage");
        lit "</span></a>"]);
    lit "</div>"].

Definition sitesList (v : shown) : html :=
  seq_ [
    (if (Z.of_nat (length (s_sites v)) =? 0) then
      seq_ [
        lit "<div class=`empty`><h3>";
        text (view_T v "first_site_title");
        lit "</h3><p>";
        text (view_T v "first_site_help");
        lit "</p><a href=`/sites/new`>";
        text (view_T v "create_first_site");
        lit " →</a></div>"]
    else
      seq_ [
        when (negb (String.eqb (s_statsError v) "")) (seq_ [
          lit "<p class=`error`>";
          text (s_statsError v);
          lit "</p>"]);
        each (s_sites v) (fun site =>
          siteCard v site)]);
    lit "</section>"].

Definition sites (v : shown) : html :=
  seq_ [
    sitesHead v;
    sitesList v].

Definition planForm (v : shown) : html :=
  seq_ [
    lit "<section class=`form-card resources-plan-settings`><h2>";
    text (view_T v "plans_title");
    lit "</h2><p class=`hint`>";
    text (view_T v "plans_hint");
    lit "</p><form action=`/settings/resource-plans` method=`post` data-disable-on-submit data-progress-label=`";
    attr (view_T v "in_progress");
    lit "`><input type=`hidden` name=`csrf` value=`";
    attr (s_csrf v);
    lit "`><input type=`hidden` name=`plan` value=`custom`> <label>";
    text (view_T v "plan_name");
    lit "<input name=`name` required maxlength=`60`></label><div class=`form-grid`><label>";
    text (view_T v "resource_memory");
    lit "<input name=`memory_mb` type=`number` min=`256` max=`8192` required value=`512`></label><label>";
    text (view_T v "resource_cpu");
    lit "<input name=`cpus` type=`number` min=`0.25` max=`8` step=`0.25` required value=`0.5`></label></div><p class=`hint`>";
    text (view_T v "resources_per_container");
    lit "</p><button class=`form-submit`>";
    icon "plus";
    lit "<span class=`button-label`>";
    text (view_T v "plan_add");
    lit "</span></button></form>"].

Definition planTableHead (v : shown) : html :=
  seq_ [
    lit "<div class=`table-wrap`><table><thead><tr><th>";
    text (view_T v "plan_name");
    lit "</th><th>";
    text (view_T v "resource_memory");
    lit "</th><th>";
    text (view_T v "resource_cpu");
    lit "</th><th>";
    text (view_T v "actions");
    lit "</th></tr></thead><tbody>"].

Definition planRows (v : shown) : html :=
  seq_ [
    each (s_plans v) (fun plan =>
      seq_ [
        lit "<tr><td>";
        text (ResourcePlan.Name plan);
        lit "</td><td>";
        text (itoa (Resources.MemoryMB (ResourcePlan.Resources plan)));
        lit " MiB</td><td>";
        text (formatG (Resources.CPUs (ResourcePlan.Resources plan)));
        lit "</td><td><form action=`/settings/resource-plans/delete` method=`post` data-disable-on-submit data-progress-label=`";
        attr (view_T v "in_progress");
        lit "`><input type=`hidden` name=`csrf` value=`";
        attr (s_csrf v);
        lit "`><input type=`hidden` name=`id` value=`";
        attr (ResourcePlan.ID plan);
        lit "`><button class=`danger icon-button` title=`";
        attr (view_T v "plan_delete");
        lit "` aria-label=`";
        attr (view_T v "plan_delete");
        lit "`>";
        icon "trash";
        lit "</button></form></td></tr>"]);
    lit "</tbody></table></div>"].

Definition resourcePlanSettings (v : shown) : html :=
  seq_ [
    planForm v;
    when (0 <? Z.of_nat (length (s_plans v))) (seq_ [
      planTableHead v;
      planRows v]);
    lit "</section>"].

Definition mailHead (v : shown) : html :=
  seq_ [
    lit "<section id=`settings`><div class=`roadmap-head`><h2>";
    text (view_T v "mail_server_settings");
    lit "</h2>";
    (if Mail.Enabled (s_mail v) then
      seq_ [
        lit "<span class=`badge running`>";
        text (view_T v "enabled");
        lit "</span>"]
    else
      seq_ [
        lit "<span class=`badge`>";
        text (view_T v "disabled");
        lit "</span>"]);
    lit "</div><p class=`hint`>";
    text (view_T v "smtp_global_hint");
    lit "</p><form action=`/settings/mail` method=`post`><input type=`hidden` name=`csrf` value=`";
    attr (s_csrf v);
    lit "`><label class=`checkbox-label`><input type=`checkbox` name=`enabled`";
    when (Mail.Enabled (s_mail v)) (lit " checked");
    lit "> ";
    text (view_T v "enable_global_smtp");
    lit "</label><div class=`file-tools`><div><label>";
    text (view_T v "smtp_host");
    lit "<input name=`smtp_host` value=`";
    attr (Mail.Host (s_mail v));
    lit "` placeholder=`smtp.example.com` autocomplete=`off`></label><label>"].

Definition mailServer (v : shown) : html :=
  seq_ [
    text (view_T v "encryption");
    lit "<select name=`smtp_encryption`><option value=`starttls`";
    when (String.eqb (Mail.Encryption (s_mail v)) "starttls") (lit " selected");
    lit ">STARTTLS</option><option value=`tls`";
    when (String.eqb (Mail.Encryption (s_mail v)) "tls") (lit " selected");
    lit ">TLS</option><option value=`none`";
    when (String.eqb (Mail.Encryption (s_mail v)) "none") (lit " selected");
    lit ">";
    text (view_T v "none");
    lit "</option></select></label><label>";
    text (view_T v "username");
    lit "<input name=`smtp_username` value=`";
    attr (Mail.Username (s_mail v));
    lit "` autocomplete=`off`></label><label>";
    text (view_T v "from_email");
    lit "<input type=`email` name=`smtp_from_email` value=`";
    attr (Mail.FromEmail (s_mail v));
    lit "` placeholder=`hello@example.com`></label></div><div><label>";
    text (view_T v "port");
    lit "<input type=`number` name=`smtp_port` value=`";
    attr (portValue (Mail.Port (s_mail v)));
    lit "` placeholder=`587` min=`1` max=`65535`></label><label>"].

Definition mailSender (v : shown) : html :=
  seq_ [
    text (view_T v "sender_name");
    lit "<input name=`smtp_from_name` value=`";
    attr (Mail.FromName (s_mail v));
    lit "` placeholder=`";
    attr (view_T v "your_company");
    lit "`></label><label>";
    text (view_T v "password");
    lit "<input type=`password` name=`smtp_password` autocomplete=`new-password` placeholder=`";
    attr (passwordPlaceholder (s_language v) (negb (String.eqb (Mail.Password (s_mail v)) "")));
    lit "`></label><p class=`hint`>";
    text (view_T v "password_encrypted_hint");
    lit "</p></div></div><button class=`form-submit`>";
    icon "check";
    lit "<span class=`button-label`>";
    text (view_T v "save_mail_settings");
    lit "</span></button></form></section>";
    resourcePlanSettings v].

Definition settingsPage (v : shown) : html :=
  seq_ [
    mailHead v;
    mailServer v;
    mailSender v].

Definition activityHead (v : shown) : html :=
  seq_ [
    lit "<section id=`activity`><div class=`roadmap-head`><h2>";
    text (view_T v "recent_activity");
    lit "</h2><span class=`badge`>";
    text (itoa (Z.of_nat (length (s_activity v))) +:+ " " +:+ (view_T v "events"));
    lit "</span></div>"].

Definition activityPage (v : shown) : html :=
  seq_ [
    activityHead v;
    (if 0 <? Z.of_nat (length (s_activity v)) then
      seq_ [
        lit "<div class=`table-wrap`><table><thead><tr><th>";
        text (view_T v "time");
        lit "</th><th>";
        text (view_T v "action");
        lit "</th><th>";
        text (view_T v "site");
        lit "</th><th>";
        text (view_T v "result");
        lit "</th></tr></thead><tbody>";
        each (s_activity v) (fun entry =>
          seq_ [
            lit "<tr><td>";
            text (formatTime (Entry.Time entry));
            lit "</td><td>";
            text (Entry.Action entry);
            lit "</td><td>";
            (if negb (String.eqb (Entry.Domain entry) "") then
              text (Entry.Domain entry)
            else
              lit "—");
            lit "</td><td>";
            (if Entry.Success entry then
              text (view_T v "success")
            else
              text (view_T v "failed"));
            lit "</td></tr>"]);
        lit "</tbody></table></div>"]
    else
      seq_ [
        lit "<p class=`hint`>";
        text (view_T v "activity_empty");
        lit "</p>"]);
    lit "</section>"].

Definition future (title : string) (help : string) : html :=
  seq_ [
    lit "<div class=`future`>";
    text title;
    lit "<span>";
    text help;
    lit "</span></div>"].

Definition roadmapPage (v : shown) : html :=
  seq_ [
    lit "<section class=`roadmap` id=`roadmap`><div class=`roadmap-head`><h2>";
    text (view_T v "on_horizon");
    lit "</h2><span class=`badge`>";
    text (view_T v "coming_soon");
    lit "</span></div><p class=`hint`>";
    text (view_T v "roadmap_hint");
    lit "</p><div class=`roadmap-grid`>";
    future (view_T v "sftp_access") (view_T v "secure_file_transfer");
    future (view_T v "automated_alerts") (view_T v "server_health");
    future (view_T v "image_upgrades") (view_T v "container_versions");
    future (view_T v "storage_quotas") (view_T v "storage_quota_hint");
    future (view_T v "scheduled_remote_backups") (view_T v "protect_off_server");
    future (view_T v "customer_accounts") (view_T v "customer_workspaces");
    lit "</div></section>"].

Definition appShell (v : shown) : html :=
  seq_ [
    lit "<div class=`shell`>";
    sidebar (s_language v) (s_current v) languages (view_T v) (s_csrf v) (v_page (s_view v));
    lit "<div class=`workspace`><header class=`topbar`><div><div class=`eyebrow`>";
    text (view_T v "overview");
    lit "</div><h1>";
    text (s_title v);
    lit "</h1><p>";
    text (s_guide v);
    lit "</p></div><span class=`admin-chip`><span class=`dot`></span>";
    text (view_T v "administrator");
    lit "</span></header>";
    alerts (v_error (s_view v)) (v_message (s_view v));
    when (String.eqb (v_page (s_view v)) "dashboard") (dashboardMetrics v);
    lit "<main class=`page-content`>";
    (if String.eqb (v_page (s_view v)) "new" then newSite v
    else if existsb (String.eqb (v_page (s_view v))) ["dashboard"; "site"; "backups"; "updates"; "database"; "resources"] then sites v
    else if String.eqb (v_page (s_view v)) "settings" then settingsPage v
    else if String.eqb (v_page (s_view v)) "activity" then activityPage v
    else if String.eqb (v_page (s_view v)) "roadmap" then roadmapPage v
    else []);
    lit "</main><p class=`hint`>panel4wp · ";
    text (view_T v "built_for_hosting");
    lit "</p></div></div>"].

Definition loginPage (v : shown) : html :=
  seq_ [
    lit "<div class=`login-language`>";
    languageSwitcher (s_language v) (s_current v) languages (view_T v);
    lit "</div><div class=`login-layout`><section class=`login-card`>";
    brand;
    lit "<div class=`eyebrow`>";
    text (view_T v "workspace");
    lit "</div><h1>";
    text (view_T v "welcome_back");
    lit "</h1><p class=`muted`>";
    text (view_T v "login_guide");
    lit "</p>";
    alerts (v_error (s_view v)) (v_message (s_view v));
    lit "<form action=`/login` method=`post`><label>";
    text (view_T v "administrator_password");
    lit "<input type=`password` name=`password` autocomplete=`current-password` required autofocus></label> <button>";
    icon "login";
    lit "<span class=`button-label`>";
    text (view_T v "log_in");
    lit "</span></button></form><p class=`hint login-note`>";
    text (view_T v "private_control");
    lit "</p></section></div>"].

Definition page (v : shown) : html :=
  seq_ [
    lit "<!doctype html><html lang=`";
    attr (s_language v);
    lit "` dir=`";
    attr (s_direction v);
    lit "`>";
    documentHead v;
    lit "<body>";
    (if v_logged (s_view v) then
      appShell v
    else
      loginPage v);
    lit "</body></html>"].

Definition fileContextMenu (v : filesShown) : html :=
  seq_ [
    lit "<div class=`file-context-menu` role=`menu` hidden data-file-context-menu><button type=`button` role=`menuitem` data-context-open>";
    icon "open";
    lit "<span>";
    text (filesView_T v "open");
    lit "</span></button> <button type=`button` role=`menuitem` data-context-download>";
    icon "download";
    lit "<span>";
    text (filesView_T v "download");
    lit "</span></button> <button type=`button` role=`menuitem` data-context-mutable data-modal-open=`file-move-modal`>";
    icon "move";
    lit "<span>";
    text (filesView_T v "move");
    lit "</span></button> <button class=`danger` type=`button` role=`menuitem` data-context-mutable data-modal-open=`file-delete-modal`>";
    icon "trash";
    lit "<span>";
    text (filesView_T v "delete");
    lit "</span></button></div>"].

Definition dialogsUpload (v : filesShown) : html :=
  seq_ [
    lit "<dialog id=`file-upload-modal` class=`confirm-dialog file-dialog` aria-labelledby=`file-upload-title`><div class=`dialog-header`><div class=`dialog-title`>";
    icon "upload";
    lit "<h3 id=`file-upload-title`>";
    text (filesView_T v "upload_file");
    lit "</h3></div><button class=`secondary icon-button` type=`button` data-modal-close aria-label=`";
    attr (filesView_T v "cancel");
    lit "`>";
    icon "close";
    lit "</button></div><form action=`";
    url ("/sites/" +:+ Site.ID (f_site v) +:+ "/upload");
    lit "` method=`post` enctype=`multipart/form-data` data-disable-on-submit data-progress-label=`";
    attr (filesView_T v "in_progress");
    lit "`><input type=`hidden` name=`csrf` value=`";
    attr (f_csrf v);
    lit "`><input type=`hidden` name=`path` value=`";
    attr (f_current v);
    lit "`><label>";
    text (filesView_T v "select_file");
    lit "<input type=`file` name=`file` required></label><div class=`dialog-actions`><button class=`secondary` type=`button` data-modal-close>";
    text (filesView_T v "cancel");
    lit "</button><button type=`submit`>";
    icon "upload";
    lit "<span class=`button-label`>"].

Definition dialogsFolder (v : filesShown) : html :=
  seq_ [
    text (filesView_T v "upload_max");
    lit "</span></button></div></form></dialog> <dialog id=`folder-create-modal` class=`confirm-dialog file-dialog` aria-labelledby=`folder-create-title`><div class=`dialog-header`><div class=`dialog-title`>";
    icon "folder-plus";
    lit "<h3 id=`folder-create-title`>";
    text (filesView_T v "create_directory");
    lit "</h3></div><button class=`secondary icon-button` type=`button` data-modal-close aria-label=`";
    attr (filesView_T v "cancel");
    lit "`>";
    icon "close";
    lit "</button></div><form action=`";
    url ("/sites/" +:+ Site.ID (f_site v) +:+ "/mkdir");
    lit "` method=`post` data-disable-on-submit data-progress-label=`";
    attr (filesView_T v "in_progress");
    lit "`><input type=`hidden` name=`csrf` value=`";
    attr (f_csrf v);
    lit "`><input type=`hidden` name=`path` value=`";
    attr (f_current v);
    lit "`><label>";
    text (filesView_T v "directory_name");
    lit "<input name=`name` required maxlength=`120` placeholder=`directory-name`></label><div class=`dialog-actions`><button class=`secondary` type=`button` data-modal-close>";
    text (filesView_T v "cancel");
    lit "</button><button type=`submit`>";
    icon "folder-plus"].

Definition dialogsMove (v : filesShown) : html :=
  seq_ [
    lit "<span class=`button-label`>";
    text (filesView_T v "create");
    lit "</span></button></div></form></dialog> <dialog id=`file-move-modal` class=`confirm-dialog file-dialog` aria-labelledby=`file-move-title`><div class=`dialog-header`><div class=`dialog-title`>";
    icon "move";
    lit "<h3 id=`file-move-title`>";
    text (filesView_T v "move");
    lit "</h3></div><button class=`secondary icon-button` type=`button` data-modal-close aria-label=`";
    attr (filesView_T v "cancel");
    lit "`>";
    icon "close";
    lit "</button></div><form action=`";
    url ("/sites/" +:+ Site.ID (f_site v) +:+ "/file-move");
    lit "` method=`post` data-disable-on-submit data-progress-label=`";
    attr (filesView_T v "in_progress");
    lit "`><input type=`hidden` name=`csrf` value=`";
    attr (f_csrf v);
    lit "`><input type=`hidden` name=`path` data-selected-path><p class=`selected-file` data-selected-name></p><label>";
    text (filesView_T v "destination_folder");
    lit "<input name=`destination` autocomplete=`off` placeholder=`uploads/2026`></label><p class=`hint`>";
    text (filesView_T v "move_file_hint");
    lit "</p><div class=`dialog-actions`><button class=`secondary` type=`button` data-modal-close>";
    text (filesView_T v "cancel");
    lit "</button><button type=`submit`>"].

Definition dialogsDelete (v : filesShown) : html :=
  seq_ [
    icon "move";
    lit "<span class=`button-label`>";
    text (filesView_T v "move");
    lit "</span></button></div></form></dialog> <dialog id=`file-delete-modal` class=`confirm-dialog file-dialog` aria-labelledby=`file-delete-title`><div class=`dialog-header`><div class=`dialog-title`>";
    icon "trash";
    lit "<h3 id=`file-delete-title`>";
    text (filesView_T v "confirm_delete");
    lit "</h3></div><button class=`secondary icon-button` type=`button` data-modal-close aria-label=`";
    attr (filesView_T v "cancel");
    lit "`>";
    icon "close";
    lit "</button></div><p class=`dialog-warning` data-delete-question-template=`";
    attr (filesView_T v "delete_file_question");
    lit "` data-delete-question></p><form action=`";
    url ("/sites/" +:+ Site.ID (f_site v) +:+ "/file-delete");
    lit "` method=`post` data-disable-on-submit data-progress-label=`";
    attr (filesView_T v "in_progress");
    lit "`><input type=`hidden` name=`csrf` value=`";
    attr (f_csrf v);
    lit "`><input type=`hidden` name=`path` data-selected-path><div class=`dialog-actions`><button class=`secondary` type=`button` data-modal-close>";
    text (filesView_T v "cancel");
    lit "</button><button class=`danger` type=`submit`>";
    icon "trash";
    lit "<span class=`button-label`>"].

Definition fileManagerDialogs (v : filesShown) : html :=
  seq_ [
    dialogsUpload v;
    dialogsFolder v;
    dialogsMove v;
    dialogsDelete v;
    text (filesView_T v "confirm_delete");
    lit "</span></button></div></form></dialog>"].

Definition filesHead (v : filesShown) : html :=
  seq_ [
    lit "<!doctype html><html lang=`";
    attr (f_language v);
    lit "` dir=`";
    attr (f_direction v);
    lit "`><head><meta charset=`utf-8`><meta name=`viewport` content=`width=device-width, initial-scale=1`><title>panel4wp · ";
    text (filesView_T v "file_manager");
    lit "</title><link rel=`stylesheet` href=`/assets/app.css?v=9`><script src=`/assets/htmx.min.js?v=8` defer></script><script src=`/assets/app.js?v=8` defer></script></head><body><div class=`shell`>";
    sidebar (f_language v) (f_pagePath v) languages (filesView_T v) (f_csrf v) "files";
    lit "<div class=`workspace`><header class=`file-topbar`><a class=`icon-link` href=`";
    url (URL ("/sites/" +:+ Site.ID (f_site v)));
    lit "`>";
    icon "arrow-left";
    lit "<span>";
    text (filesView_T v "back_to_site");
    lit "</span></a><div class=`eyebrow file-eyebrow`>";
    text (filesView_T v "site_workspace");
    lit "</div><h1>";
    text (filesView_T v "file_manager");
    lit "</h1><p class=`muted`>";
    text (Site.Domain (f_site v));
    lit " · wp-content</p></header>";
    alerts (f_error v) (f_message v);
    lit "<section class=`file-manager`><div class=`file-toolbar`><button type=`button` data-modal-open=`file-upload-modal`>";
    icon "upload";
    lit "<span class=`button-label`>"].

Definition filesToolbar (v : filesShown) : html :=
  seq_ [
    text (filesView_T v "upload_file");
    lit "</span></button> <button class=`secondary` type=`button` data-modal-open=`folder-create-modal`>";
    icon "folder-plus";
    lit "<span class=`button-label`>";
    text (filesView_T v "create_directory");
    lit "</span></button><form class=`inline` action=`";
    url ("/sites/" +:+ Site.ID (f_site v) +:+ "/download");
    lit "` method=`post` data-file-download-form><input type=`hidden` name=`csrf` value=`";
    attr (f_csrf v);
    lit "`><input type=`hidden` name=`path` data-selected-path><button class=`secondary` disabled data-selection-action data-requires-file>";
    icon "download";
    lit "<span class=`button-label`>";
    text (filesView_T v "download");
    lit "</span></button></form><button class=`secondary` type=`button` disabled data-selection-action data-requires-mutable data-modal-open=`file-move-modal`>";
    icon "move";
    lit "<span class=`button-label`>";
    text (filesView_T v "move");
    lit "</span></button> <button class=`danger` type=`button` disabled data-selection-action data-requires-mutable data-modal-open=`file-delete-modal`>";
    icon "trash";
    lit "<span class=`button-label`>";
    text (filesView_T v "delete");
    lit "</span></button></div><div class=`file-location`><div class=`path`>";
    text (filesView_T v "path");
    lit ": <code>/wp-content "].

Definition filesLocation (v : filesShown) : html :=
  seq_ [
    when (negb (String.eqb (f_current v) "")) (seq_ [
      lit "/";
      text (f_current v)]);
    lit "</code></div>";
    when (negb (String.eqb (f_current v) "")) (seq_ [
      lit "<a class=`button secondary` href=`";
      url (URL ("/sites/" +:+ Site.ID (f_site v) +:+ "/files?path=" +:+ QueryEscape (f_parent v)));
      lit "`>";
      icon "arrow-up";
      lit "<span class=`button-label`>";
      text (filesView_T v "parent_directory");
      lit "</span></a>"]);
    lit "</div><div class=`table-wrap`><table class=`file-table`><thead><tr><th>";
    text (filesView_T v "name");
    lit "</th><th>";
    text (filesView_T v "size");
    lit "</th><th>";
    text (filesView_T v "modified");
    lit "</th><th>";
    text (filesView_T v "type");
    lit "</th></tr></thead><tbody>"].

Definition fileRow (v : filesShown) (entry : FileEntry.t * string) : html :=
  seq_ [
    lit "<tr tabindex=`0` aria-selected=`false` data-file-row data-file-path=`";
    attr (snd entry);
    lit "` data-file-name=`";
    attr (FileEntry.Name (fst entry));
    lit "` data-file-type=`";
    attr (FileEntry.Type_ (fst entry));
    lit "`";
    when (String.eqb (FileEntry.Type_ (fst entry)) "directory") (seq_ [
      lit " data-file-open=`";
      attr ("/sites/" +:+ Site.ID (f_site v) +:+ "/files?path=" +:+ QueryEscape (snd entry));
      lit "`"]);
    lit "><td>";
    css [Class_ ("file-entry file-entry-" +:+ FileEntry.Type_ (fst entry))];
    lit "<span class=`";
    class_ [Class_ ("file-entry file-entry-" +:+ FileEntry.Type_ (fst entry))];
    lit "`>";
    (if String.eqb (FileEntry.Type_ (fst entry)) "directory" then
      icon "files"
    else
      if String.eqb (FileEntry.Type_ (fst entry)) "file" then
        icon "file"
      else
        icon "link");
    lit "<span>";
    text (FileEntry.Name (fst entry));
    lit "</span></span></td><td>";
    (if String.eqb (FileEntry.Type_ (fst entry)) "file" then
      text (formatBytes (FileEntry.Size (fst entry)))
    else
      lit "—")].

Definition fileRowEnd (entry : FileEntry.t * string) : html :=
  seq_ [
    lit "</td><td>";
    text (formatUnixTime (FileEntry.Modified (fst entry)));
    lit "</td><td>";
    text (FileEntry.Type_ (fst entry));
    lit "</td></tr>"].

Definition filesEnd (v : filesShown) : html :=
  seq_ [
    when (Z.of_nat (length (f_entries v)) =? 0) (seq_ [
      lit "<tr><td colspan=`4`>";
      text (filesView_T v "directory_empty");
      lit "</td></tr>"]);
    lit "</tbody></table></div><p class=`hint file-manager-hint`>";
    text (filesView_T v "file_access_hint");
    lit "</p></section>";
    fileContextMenu v;
    fileManagerDialogs v;
    lit "</div></div></body></html>"].

Definition filesPage (v : filesShown) : html :=
  seq_ [
    filesHead v;
    filesToolbar v;
    filesLocation v;
    each (f_entries v) (fun entry =>
      seq_ [
        fileRow v entry;
        fileRowEnd entry]);
    filesEnd v].

(** The page a reply is rendered to. *)
Definition contentHtml (c : content) : option html :=
  match c with
  | Page p => Some (page p)
  | FilesPage p => Some (filesPage p)
  | _ => None
  end.
End templates.
