(* ===== verification/TemplatesFacts.v ===== *)
(** * TemplatesFacts: what every page is

    The pages are read tag by tag: data opens no tag and ends no value, no
    script but the panel's runs, links stay on the panel or lead to the web, and
    every form that posts carries the session's token. *)
From S2P Require Import Prelude GoStrings GoFloat GoTime GoUrl Core Settings Files Panel ActivityLog I18n Messages Pages Views Html HtmlFacts Templates.
Set Warnings "-register-all".

(** The address of a site. *)
Lemma leads_public `{TemplLaws} domain : leads (EscapeString (URL (sitePublicURL domain))) = true.
Proof. unfold sitePublicURL. case_match; apply leads_URL; first [reflexivity|cbn; lia]. Qed.

Lemma sameToken_refl v : sameToken v v = true.
Proof. apply String.eqb_refl. Qed.

(** ** The walk *)
Create HintDb walks discriminated.

Ltac leads_known :=
  repeat match goal with
  | H : leads ?v = true |- context [leads ?v] => rewrite H
  | |- context [leads ?v] => change (leads v) with true
  end.
Ltac walk_lit :=
  match goal with
  | |- walks ?tok ?f ?s (seq_ (lit ?x :: _)) _ _ =>
      let r := eval vm_compute in (tokens s (raw x)) in
      lazymatch r with
      | (?ts, ?s1) =>
          refine (walks_lit _ x ts _ s1 f s _ _ _ _ _ _ _);
          [vm_compute; reflexivity
          |cbv -[leads]; leads_known; reflexivity
          |cbv -[sameToken]; rewrite ?sameToken_refl; reflexivity
          |]
      end
  end.
(** Links: a text of the panel's own in front. *)
Ltac leads_prefix L p := apply (L _ _ p); [reflexivity|reflexivity|cbn; lia].
Ltac leads_local :=
  try match goal with |- leads (EscapeString (if ?b then _ else _)) = _ => destruct b end;
  first [assumption
        |leads_prefix leads_escape "/sites/"
        |leads_prefix leads_URL "/sites/"
        |leads_prefix leads_escape "/reconcile?next="
        |apply leads_public].
(** The definition a call is of. *)
Ltac head_of h := lazymatch h with ?g _ => head_of g | _ => h end.
Ltac walk_whole walk :=
  lazymatch goal with
  | |- walks _ _ _ (seq_ (when _ _ :: _)) _ _ => apply walks_when_whole; [solve [walk]|]
  | |- walks _ _ _ (seq_ (match _ with _ => _ end :: _)) _ _ => first [apply walks_if; [solve [walk]|solve [walk]|]|apply walks_match; [solve [intros ?; walk]|solve [walk]|]]
  | |- walks _ _ _ (seq_ (each _ _ :: _)) _ _ => apply walks_each; [solve [intros ?; walk]|]
  end.
Ltac walk_step walk :=
  lazymatch goal with
  | |- walks _ _ _ (seq_ []) _ _ => apply walks_nil
  | |- walks _ _ _ [] _ _ => apply walks_nil
  | |- walks _ _ _ (seq_ (seq_ _ :: _)) _ _ => apply walks_seq; cbn [Datatypes.app]
  | |- walks _ _ _ (seq_ ([] :: _)) _ _ => eapply walks_cons; [apply walks_nil|]
  | |- walks _ _ _ (seq_ (lit _ :: _)) _ _ => walk_lit
  | |- walks _ _ _ (seq_ (text _ :: _)) _ _ => apply walks_text
  | |- walks _ _ _ (seq_ (css _ :: _)) _ _ => apply walks_css
  | |- walks _ _ _ (seq_ (class_ _ :: _)) _ _ => unfold class_
  | |- walks _ _ _ (seq_ (attr _ :: _)) _ _ => first [eapply walks_token; [eassumption|]|apply walks_attr; intros ?]
  | |- walks _ _ _ (seq_ (url _ :: _)) _ _ => apply walks_url; [leads_local|intros ? ?]
  | |- walks _ _ (InText _) (seq_ (?h :: _)) _ _ =>
      first [walk_whole walk
            |eapply walks_cons; [solve [eauto with walks]|]
            |let d := head_of h in unfold d; cbv zeta]
  | |- walks _ _ _ (seq_ (when _ _ :: lit _ :: _)) _ _ => eapply walks_when; [solve [walk]|solve [walk]|]
  | |- walks _ _ _ (seq_ (when _ _ :: seq_ _ :: _)) _ _ => apply walks_seq2; cbn [Datatypes.app]
  | |- walks _ _ _ (seq_ (when _ _ :: ?h :: _)) _ _ => let d := head_of h in unfold d; cbv zeta
  | |- walks _ _ _ (seq_ (?h :: _)) _ _ => let d := head_of h in unfold d; cbv zeta
  | |- walks _ _ _ (seq_ ?l) _ _ => fail "stuck"
  | |- walks _ _ _ _ _ _ => apply walks_one
  end.
Ltac walk := repeat walk_step walk.

Section templates.
Context `{TemplLaws} `{Unicode} `{Zone} (token : string).

Abbreviation whole f h := (walks token f (InText false) h f (InText false)).

Lemma walks_icon f name : whole f (icon name).
Proof. unfold icon; cbv zeta. walk. Qed.
#[local] Hint Resolve walks_icon : walks.
Lemma walks_languageSwitcher lang path languages t : whole Outside (languageSwitcher lang path languages t).
Proof. unfold languageSwitcher; cbv zeta. walk. Qed.
#[local] Hint Resolve walks_languageSwitcher : walks.
Lemma walks_logoMark f  : whole f logoMark.
Proof. unfold logoMark; cbv zeta. walk. Qed.
#[local] Hint Resolve walks_logoMark : walks.
Lemma walks_brand f  : whole f brand.
Proof. unfold brand; cbv zeta. walk. Qed.
#[local] Hint Resolve walks_brand : walks.
Lemma walks_githubCTA f t : whole f (githubCTA t).
Proof. unfold githubCTA; cbv zeta. walk. Qed.
#[local] Hint Resolve walks_githubCTA : walks.
Lemma walks_sidebar lang path languages t csrf pageName : ResolveAttributeValue csrf = token -> whole Outside (sidebar lang path languages t csrf pageName).
Proof. intros. unfold sidebar; cbv zeta. walk. Qed.
#[local] Hint Resolve walks_sidebar : walks.
Lemma walks_documentHead f (v : shown) : whole f (documentHead v).
Proof. unfold documentHead; cbv zeta. walk. Qed.
#[local] Hint Resolve walks_documentHead : walks.
Lemma walks_alerts f error message : whole f (alerts error message).
Proof. unfold alerts; cbv zeta. walk. Qed.
#[local] Hint Resolve walks_alerts : walks.
Lemma walks_actionForm csrf action className iconName label progress : ResolveAttributeValue csrf = token -> leads (EscapeString action) = true -> whole Outside (actionForm csrf action className iconName label progress).
Proof. intros. unfold actionForm; cbv zeta. walk. Qed.
#[local] Hint Resolve walks_actionForm : walks.
Lemma walks_dashboardMetrics f (v : shown) : whole f (dashboardMetrics v).
Proof. unfold dashboardMetrics; cbv zeta. walk. Qed.
#[local] Hint Resolve walks_dashboardMetrics : walks.
Lemma walks_capacityOverview f (v : shown) : whole f (capacityOverview v).
Proof. unfold capacityOverview; cbv zeta. walk. Qed.
#[local] Hint Resolve walks_capacityOverview : walks.
Lemma walks_resourceFields f (v : shown) r : whole f (resourceFields v r).
Proof. unfold resourceFields; cbv zeta. walk. Qed.
#[local] Hint Resolve walks_resourceFields : walks.
Lemma walks_newSite (v : shown) : ResolveAttributeValue (s_csrf v) = token -> whole Outside (newSite v).
Proof. intros. unfold newSite; cbv zeta. walk. Qed.
#[local] Hint Resolve walks_newSite : walks.
Lemma walks_diskQuotaCapability f (v : shown) : whole f (diskQuotaCapability v).
Proof. unfold diskQuotaCapability; cbv zeta. walk. Qed.
#[local] Hint Resolve walks_diskQuotaCapability : walks.
Lemma walks_siteResourcesForm (v : shown) (site : Site.t) : ResolveAttributeValue (s_csrf v) = token -> whole Outside (siteResourcesForm v site).
Proof. intros. unfold siteResourcesForm; cbv zeta. walk. Qed.
#[local] Hint Resolve walks_siteResourcesForm : walks.
Lemma walks_backupSchedule (v : shown) (site : Site.t) : ResolveAttributeValue (s_csrf v) = token -> whole Outside (backupSchedule v site).
Proof. intros. unfold backupSchedule; cbv zeta. walk. Qed.
#[local] Hint Resolve walks_backupSchedule : walks.
Lemma walks_backupConfirmDialog (v : shown) (site : Site.t) backup operation : ResolveAttributeValue (s_csrf v) = token -> whole Outside (backupConfirmDialog v site backup operation).
Proof. intros. unfold backupConfirmDialog; cbv zeta. walk. Qed.
#[local] Hint Resolve walks_backupConfirmDialog : walks.
Lemma walks_backupList (v : shown) (site : Site.t) : ResolveAttributeValue (s_csrf v) = token -> whole Outside (backupList v site).
Proof. intros. unfold backupList; cbv zeta. walk. Qed.
#[local] Hint Resolve walks_backupList : walks.
Lemma walks_siteMail (v : shown) (site : Site.t) : ResolveAttributeValue (s_csrf v) = token -> whole Outside (siteMail v site).
Proof. intros. unfold siteMail; cbv zeta. walk. Qed.
#[local] Hint Resolve walks_siteMail : walks.
Lemma walks_deleteSite (v : shown) (site : Site.t) : ResolveAttributeValue (s_csrf v) = token -> whole Outside (deleteSite v site).
Proof. intros. unfold deleteSite; cbv zeta. walk. Qed.
#[local] Hint Resolve walks_deleteSite : walks.
Lemma walks_siteWorkspace (v : shown) (site : Site.t) : ResolveAttributeValue (s_csrf v) = token -> whole Outside (siteWorkspace v site).
Proof. intros. unfold siteWorkspace; cbv zeta. walk. Qed.
#[local] Hint Resolve walks_siteWorkspace : walks.
Lemma walks_siteCard (v : shown) (site : Site.t) : ResolveAttributeValue (s_csrf v) = token -> whole Outside (siteCard v site).
Proof. intros. unfold siteCard; cbv zeta. walk. Qed.
#[local] Hint Resolve walks_siteCard : walks.
Lemma walks_sites (v : shown) : ResolveAttributeValue (s_csrf v) = token -> whole Outside (sites v).
Proof. intros. unfold sites; cbv zeta. walk. Qed.
#[local] Hint Resolve walks_sites : walks.
Lemma walks_resourcePlanSettings (v : shown) : ResolveAttributeValue (s_csrf v) = token -> whole Outside (resourcePlanSettings v).
Proof. intros. unfold resourcePlanSettings; cbv zeta. walk. Qed.
#[local] Hint Resolve walks_resourcePlanSettings : walks.
Lemma walks_settingsPage (v : shown) : ResolveAttributeValue (s_csrf v) = token -> whole Outside (settingsPage v).
Proof. intros. unfold settingsPage; cbv zeta. walk. Qed.
#[local] Hint Resolve walks_settingsPage : walks.
Lemma walks_activityPage f (v : shown) : whole f (activityPage v).
Proof. unfold activityPage; cbv zeta. walk. Qed.
#[local] Hint Resolve walks_activityPage : walks.
Lemma walks_future f title help : whole f (future title help).
Proof. unfold future; cbv zeta. walk. Qed.
#[local] Hint Resolve walks_future : walks.
Lemma walks_roadmapPage f (v : shown) : whole f (roadmapPage v).
Proof. unfold roadmapPage; cbv zeta. walk. Qed.
#[local] Hint Resolve walks_roadmapPage : walks.
Lemma walks_appShell (v : shown) : ResolveAttributeValue (s_csrf v) = token -> whole Outside (appShell v).
Proof. intros. unfold appShell; cbv zeta. walk. Qed.
#[local] Hint Resolve walks_appShell : walks.
Lemma walks_loginPage (v : shown) : whole Outside (loginPage v).
Proof. unfold loginPage; cbv zeta. walk. Qed.
#[local] Hint Resolve walks_loginPage : walks.
(** A page without a session has the login's form only. *)
Lemma walks_page (v : shown) : (v_logged (s_view v) = true -> ResolveAttributeValue (s_csrf v) = token) -> whole Outside (page v).
Proof. intros Hv. unfold page. destruct (v_logged _); [specialize (Hv eq_refl)|clear Hv]; walk. Qed.
Lemma walks_fileContextMenu f (v : filesShown) : whole f (fileContextMenu v).
Proof. unfold fileContextMenu; cbv zeta. walk. Qed.
#[local] Hint Resolve walks_fileContextMenu : walks.
Lemma walks_fileManagerDialogs (v : filesShown) : ResolveAttributeValue (f_csrf v) = token -> whole Outside (fileManagerDialogs v).
Proof. intros. unfold fileManagerDialogs; cbv zeta. walk. Qed.
#[local] Hint Resolve walks_fileManagerDialogs : walks.
Lemma walks_filesPage (v : filesShown) : ResolveAttributeValue (f_csrf v) = token -> whole Outside (filesPage v).
Proof. intros. unfold filesPage. walk. Qed.

(** Every page there is. *)
Lemma walks_content c h :
  match c with
  | Page p => v_logged (s_view p) = true -> ResolveAttributeValue (s_csrf p) = token
  | FilesPage p => ResolveAttributeValue (f_csrf p) = token
  | _ => True
  end -> contentHtml c = Some h -> whole Outside h.
Proof. destruct c; try done; intros Hc [= <-]; [by apply walks_page|by apply walks_filesPage]. Qed.
End templates.
