(* ===== verification/Web.v ===== *)
(** * Web: the panel's requests, [cmd/panel/main.go] and [cmd/panel/resources.go]

    One program per form.  The operations mutex is the flag [busy] (is it held
    when [TryLock] is called?); a handler that got it runs alone. *)
From S2P Require Import Prelude GoStrings GoPath GoFloat GoTime GoUrl GoBase64 Effects World Core Json GoFloatText CoreJson CoreJsonFacts Worker Storage Capacity Operations Settings Files Server Store ActivityLog I18n Messages Panel Reconcile Schedule Session Pages.

(** [bcrypt.CompareHashAndPassword], of golang.org/x/crypto. *)
Class Passwords := { passwordMatches : string -> string -> bool }.

Definition busyText : string := "An operation is in progress. Try again when it finishes.".
Definition NotFound : reply := errorReply 404 "404 page not found".

(** The number [strconv.Atoi] returns, with its error too. *)
Definition atoiValue (s : string) : Z :=
  match parseInt s with
  | Ok n => n
  | Err (EMsg m) => if String.eqb m "value out of range" then (if hasPrefix s "-" then minInt64 else maxInt64) else 0
  | Err _ => 0
  end.

Section web.
Context (a : app) `{Unicode} `{Passwords}.

(** ** Resource limits of a form *)
Definition planLimits (r : web.request) : result Resources.t :=
  let value := web.FormValue r "plan" in
  limits ← (if String.eqb value "small" then Ok (Resources.mk 384 (fscale 1 (-1)))
            else if String.eqb value "" || String.eqb value "standard" then Ok (Resources.mk 768 (fofZ 1))
            else if String.eqb value "large" then Ok (Resources.mk 1536 (fofZ 2))
            else if String.eqb value "custom" then
              match parseInt (web.FormValue r "memory_mb") with
              | Err _ => Err (EMsg "invalid memory limit")
              | Ok m => match parseFloat (web.FormValue r "cpus") with
                        | Err _ => Err (EMsg "invalid CPU limit")
                        | Ok c => Ok (Resources.mk m c)
                        end
              end
            else Err (EMsg "invalid resource plan"));
  _ ← validateResources limits; Ok limits.

Definition formResources (r : web.request) : M pop Resources.t :=
  let value := web.FormValue r "plan" in
  if negb (hasPrefix value "saved-") then lift (planLimits r)
  else
    let id := trimPrefix value "saved-" in
    if negb (ValidID id) then fail (EMsg "invalid resource plan")
    else
      plans ← host (ListResourcePlans (storePath a));
      match find (fun p => String.eqb (ResourcePlan.ID p) id) plans with
      | Some p => lift (_ ← validateResources (ResourcePlan.Resources p); Ok (ResourcePlan.Resources p))
      | None => fail (EMsg "resource plan no longer exists; reload the page")
      end.

Definition sitePath (site : Site.t) : string := "/sites/" +:+ Site.ID site.
Definition running_ (s : Site.t) : Site.t := setHealth "" (setStatus StatusRunning "" s).

(** A site that must be stored, or the request ends with status 500. *)
Definition storedOr (site : Site.t) (text : string) (k : M pop reply) : M pop reply :=
  saved ← try (putSite a site);
  match saved with Err _ => mret (errorReply 500 text) | Ok _ => k end.

(** The tracked request of a handler. *)
Definition track {A} (site : Site.t) (kind path : string) (body : result json) (decode : string -> result A) : M pop (Site.t * result A) :=
  callTracked a site kind path body 200 decode.
Definition trackUnit (site : Site.t) (kind path : string) (body : result json) : M pop (Site.t * result unit) :=
  callTracked a site kind path body 204 ignored.

(** ** Creating a site *)
Definition newSite (r : web.request) (id domain : string) (limits : Resources.t) (at_ : time) : Site.t :=
  Site.mk id domain (trimSpace (web.FormValue r "title")) (trimSpace (web.FormValue r "email")) (Resources.MemoryMB limits) (Resources.CPUs limits)
    StatusCreating "" at_ [] BackupPolicyJSON.zero false None "" zeroTime.

(** [createSite] once the site is stored: the call, and its outcome. *)
Definition installSite (r : web.request) (site : Site.t) (dbPassword adminPassword : string) : M pop reply :=
  tracked ← trackUnit site "create" "/create" (createJSON (CreateRequest.mk site (randomPassword dbPassword) (randomPassword adminPassword)));
  let '(site, outcome) := tracked in
  match outcome with
  | Err e =>
      let site := setStatus StatusFailed (errorText e) site in
      _ ← try (putSite a site);
      shown ← render a r (failure ("Site creation failed: " +:+ errorText e));
      _ ← record_ a "create" site false (errorText e);
      mret shown
  | Ok _ =>
      let site := running_ site in
      storedOr site "site created but status could not be saved" (
        _ ← record_ a "create" site true "";
        redirectWithFlash ("Site created. WordPress username: admin. Password (save now): " +:+ randomPassword adminPassword) "")
  end.

(** [createSite] once the site is checked: capacity and credentials. *)
Definition submitSite (r : web.request) (site : Site.t) (limits : Resources.t) : M pop reply :=
  capacity ← try (capacityOf a "");
  match capacity with
  | Err _ => render a r (page "new" "" "" (say r "capacity_unavailable"))
  | Ok capacity =>
      match checkHost capacity limits with
      | Err e => render a r (page "new" "" "" (errorText e))
      | Ok _ =>
          passwords ← try (dbPassword ← host (perform (ORand 24)); adminPassword ← host (perform (ORand 24)); mret (dbPassword, adminPassword));
          match passwords with
          | Ok (dbPassword, adminPassword) =>
              storedOr site "unable to save site" (installSite r site dbPassword adminPassword)
          | Err _ => mret (errorReply 500 "unable to create credentials")
          end
      end
  end.

Definition createSite (busy : bool) (r : web.request) : M pop reply :=
  if busy then mret (errorReply 409 busyText)
  else
    b ← try (host (perform (ORand 8)));
    match b with
    | Err _ => render a r (failure "Unable to generate site ID")
    | Ok b =>
        let id := newID b in
        let domain := web.FormValue r "domain" in
        match NormalizeDomain (if String.eqb (trimSpace domain) "" then id +:+ ".localhost" else domain) with
        | Err e => render a r (failure (errorText e))
        | Ok domain =>
            limits ← try (formResources r);
            match limits with
            | Err e => render a r (page "new" "" "" (errorText e))
            | Ok limits =>
                created ← now;
                let site := newSite r id domain limits created in
                match ValidateSite site with
                | Err e => render a r (failure (errorText e))
                | Ok _ =>
                    sites ← try (host (List_ (storePath a)));
                    match sites with
                    | Err _ => mret (errorReply 500 "unable to read sites")
                    | Ok sites =>
                        if existsb (fun s => String.eqb (Site.Domain s) domain) sites then render a r (failure "Domain already belongs to a site")
                        else submitSite r site limits
                    end
                end
            end
        end
    end.

(** ** Backups *)
Definition backupsPath (site : Site.t) : string := sitePath site +:+ "/backups".
Definition addToList (b : Backup.t) (site : Site.t) : Site.t := setBackups (Site.Backups site ++ [b])%list site.

Definition backupSite (r : web.request) (site : Site.t) : M pop reply :=
  if negb (isRunning site) then mret (errorReply 409 "site must be running")
  else
    at_ ← now;
    made ← performBackup a site BackupSourceManual at_;
    let '(site, outcome) := made in
    match outcome with
    | Err e => _ ← record_ a "backup" site false (errorText e); render a r (failure ("Backup failed: " +:+ errorText e))
    | Ok backup =>
        let site := addToList backup site in
        storedOr site "backup completed but metadata could not be saved" (
          _ ← record_ a "backup" site true (Backup.ID backup);
          redirectWithFlashTo (backupsPath site) "Backup completed and verified" "")
    end.

(** The schedule a form asks for. *)
Definition formSchedule (r : web.request) (p : BackupPolicy.t) : BackupPolicy.t :=
  let enabled := String.eqb (web.FormValue r "enabled") "on" in
  let number key standard := match parseInt (web.FormValue r key) with
                             | Ok n => n
                             | Err _ => if enabled then atoiValue (web.FormValue r key) else standard
                             end in
  BackupPolicy.mk enabled (number "interval_hours" 24) (number "retention" 7) (BackupPolicy.NextRunAt p) (BackupPolicy.LastAttemptAt p)
    (BackupPolicy.LastSuccessAt p) (BackupPolicy.LastError p).
Definition scheduled (p : BackupPolicy.t) (next : time) : BackupPolicy.t :=
  BackupPolicy.mk (BackupPolicy.Enabled p) (BackupPolicy.IntervalHours p) (BackupPolicy.Retention p) next (BackupPolicy.LastAttemptAt p)
    (BackupPolicy.LastSuccessAt p) "".
Definition scheduleText (p : BackupPolicy.t) : string :=
  "enabled=" +:+ (if BackupPolicy.Enabled p then "true" else "false") +:+ " interval=" +:+ itoa (BackupPolicy.IntervalHours p) +:+ "h retention=" +:+
  itoa (BackupPolicy.Retention p).

Definition saveBackupSchedule (r : web.request) (site : Site.t) : M pop reply :=
  let policy := formSchedule r (Site.BackupPolicy site) in
  match ValidateBackupPolicy policy with
  | Err e => render a r (page "backups" (Site.ID site) "" (errorText e))
  | Ok _ =>
      next ← (if BackupPolicy.Enabled policy then at_ ← now; mret (at_ + hours (BackupPolicy.IntervalHours policy)) else mret zeroTime);
      let site := setPolicy (scheduled policy next) site in
      storedOr site "unable to save backup schedule" (
        _ ← record_ a "backup-schedule" site true (scheduleText policy);
        redirectWithFlashTo (backupsPath site) "Backup schedule saved" "")
  end.

Definition hasBackup (id : string) (site : Site.t) : bool := existsb (fun b => String.eqb (Backup.ID b) id) (Site.Backups site).

Definition deleteBackup (r : web.request) (site : Site.t) : M pop reply :=
  let id := web.FormValue r "backup_id" in
  if negb (String.eqb (web.FormValue r "confirm") (Site.Domain site)) || negb (ValidBackupID id)
  then render a r (failure "Domain confirmation or backup ID did not match")
  else if negb (hasBackup id site) then mret (errorReply 400 "unknown backup")
  else
    done ← try (deleteBackupCall a (Site.ID site) id);
    match done with
    | Err e => _ ← record_ a "backup-delete" site false (errorText e); render a r (failure ("Backup deletion failed: " +:+ errorText e))
    | Ok _ =>
        let site := setBackups (filter (fun b => Backup.ID b <> id) (Site.Backups site)) site in
        storedOr site "backup deleted but metadata could not be saved" (
          _ ← record_ a "backup-delete" site true id;
          redirectWithFlashTo (backupsPath site) "Backup deleted" "")
    end.

(** ** Updates and restores *)
Definition safetyBackup (at_ : time) : M pop string := b ← host (perform (ORand 4)); mret (newBackupID at_ b).

(** The safety backup of a site is made, listed and stored before [k]. *)
Definition withSafety (r : web.request) (site : Site.t) (id what : string) (onError : Site.t -> error -> M pop unit) (k : Site.t -> M pop reply)
  : M pop reply :=
  made ← track site "safety-backup" "/backup" (backupRequestJSON (BackupRequest.mk site id)) (reads backupFields zeroBackup);
  let '(site, outcome) := made in
  match outcome with
  | Err e => _ ← onError site e; render a r (failure (what +:+ " stopped because the safety backup failed: " +:+ errorText e))
  | Ok safety =>
      let site := addToList (Backup.mk (Backup.ID safety) (Backup.CreatedAt safety) BackupSourceSafety) site in
      saved ← try (putSite a site);
      match saved with
      | Err _ => render a r (failure (what +:+ " stopped because safety backup metadata could not be saved"))
      | Ok _ => k site
      end
  end.

Definition updateSite (r : web.request) (site : Site.t) : M pop reply :=
  if negb (isRunning site) then mret (errorReply 409 "site must be running")
  else
    at_ ← now;
    id ← try (safetyBackup at_);
    match id with
    | Err _ => mret (errorReply 500 "unable to generate safety backup ID")
    | Ok id =>
        withSafety r site id "Update" (fun site e => record_ a "update" site false (errorText e)) (fun site =>
          done ← trackUnit site "update" "/update" (updateJSON (UpdateRequest.mk site));
          let '(site, outcome) := done in
          match outcome with
          | Err e =>
              _ ← record_ a "update" site false (errorText e);
              render a r (failure ("WordPress update failed. Safety backup retained: " +:+ id +:+ ". " +:+ errorText e))
          | Ok _ =>
              storedOr site "operation completed but metadata could not be saved" (
                _ ← record_ a "update" site true ("safety backup " +:+ id);
                redirectWithFlashTo (sitePath site +:+ "/updates")
                  ("WordPress core, database, plugins, and themes updated. Safety backup retained: " +:+ id) "")
          end)
    end.

Definition restorable (s : Site.t) : bool :=
  String.eqb (Site.Status s) StatusRunning || String.eqb (Site.Status s) StatusStopped || String.eqb (Site.Status s) StatusUnhealthy.

(** A restore: the site is prepared, backed up, and only then overwritten. *)
Definition restoreSite (r : web.request) (site : Site.t) : M pop reply :=
  let backupID := web.FormValue r "backup_id" in
  if negb (restorable site) then mret (errorReply 409 "site services cannot be restored in the current state")
  else if negb (String.eqb (web.FormValue r "confirm") (Site.Domain site)) then render a r (failure "Domain confirmation did not match")
  else if negb (hasBackup backupID site) || negb (ValidBackupID backupID) then mret (errorReply 400 "unknown backup")
  else
    at_ ← now;
    safetyID ← try (safetyBackup at_);
    match safetyID with
    | Err _ => mret (errorReply 500 "unable to generate safety backup ID")
    | Ok safetyID =>
        prepared ← trackUnit site "restore-prepare" "/action" (Ok (idActionJSON (Site.ID site) "prepare-restore"));
        let '(site, outcome) := prepared in
        match outcome with
        | Err e => render a r (failure ("Restore preparation failed: " +:+ errorText e))
        | Ok _ =>
            let site := setStatus StatusStopped (Site.Error site) site in
            withSafety r site safetyID "Restore" (fun _ _ => mret tt) (fun site =>
              done ← trackUnit site "restore" "/restore" (restoreJSON (RestoreRequest.mk site backupID safetyID));
              let '(site, outcome) := done in
              match outcome with
              | Err e =>
                  _ ← record_ a "restore" site false (errorText e);
                  render a r (failure ("Restore failed. A safety backup was retained: " +:+ safetyID +:+ ". " +:+ errorText e))
              | Ok _ =>
                  let site := setStatus StatusRunning "" site in
                  storedOr site "operation completed but metadata could not be saved" (
                    _ ← record_ a "restore" site true backupID;
                    redirectWithFlashTo (backupsPath site) ("Backup restored. Safety backup retained: " +:+ safetyID) "")
              end)
        end
    end.

(** ** Resources and mail *)
Definition saveResources (r : web.request) (site : Site.t) : M pop reply :=
  let target := sitePath site +:+ "/resources" in
  if negb (String.eqb (Site.HealthError site) "") || negb (String.eqb (Site.Status site) StatusRunning || String.eqb (Site.Status site) StatusStopped)
  then mret (errorReply 409 "verify or repair the site's service status before changing resources")
  else
    limits ← try (formResources r);
    match limits with
    | Err e => redirectWithFlashTo target "" (errorText e)
    | Ok limits =>
        done ← track site "resources" "/resources" (resourceRequestJSON (ResourceRequest.mk site limits)) (reads resourcesFields zeroResources);
        let '(site, outcome) := done in
        match outcome with
        | Err e => _ ← record_ a "resources" site false (errorText e); redirectWithFlashTo target "" (errorText e)
        | Ok applied =>
            if negb (resourcesEqb applied limits) then mret (errorReply 502 "resource change result was inconsistent; refresh service status")
            else
              let site := setHealth "" (setStatus (Site.Status site) "" (setLimits applied site)) in
              storedOr site "resources applied but metadata could not be saved; refresh service status" (
                _ ← record_ a "resources" site true "";
                redirectWithFlashTo target (say r "resources_saved") "")
        end
    end.

Definition resourcePlansAction (r : web.request) : M pop reply :=
  done ← try (
    if String.eqb (web.Path r) "/settings/resource-plans/delete" then host (DeleteResourcePlan (storePath a) (web.FormValue r "id"))
    else
      limits ← lift (planLimits r);
      b ← host (perform (ORand 8));
      host (PutResourcePlan (storePath a) (ResourcePlan.mk (newID b) (trimSpace (web.FormValue r "name")) limits)));
  match done with
  | Err e => redirectWithFlashTo "/settings" "" (errorText e)
  | Ok _ =>
      _ ← record_ a "resource-plans" SiteJSON.zero true "";
      redirectWithFlashTo "/settings" (say r "plans_saved") ""
  end.

Definition enableMail (enabled : bool) (m : Mail.t) : Mail.t :=
  Mail.mk enabled (Mail.Host m) (Mail.Port m) (Mail.Encryption m) (Mail.Username m) (Mail.Password m) (Mail.FromEmail m) (Mail.FromName m).
Definition applyJSON (id : string) (m : Mail.t) : json := JObj [("site_id", JStr id); ("mail", Mail.toJSON m)].

Definition applySiteMail (site : Site.t) (enabled : bool) : M pop unit :=
  mail ← host (Load (settingsStore a));
  if enabled && negb (Mail.Enabled mail) then fail (EMsg "configure and enable the global mail server first")
  else if negb (isRunning site) then fail (EMsg "site must be running")
  else callWorker a "/mail" (Ok (applyJSON (Site.ID site) (enableMail enabled mail))) 204 ignored.

(** Every running site with mail gets the new settings; the failures are
    counted. *)
Fixpoint applyAll (enabled : bool) (sites : list Site.t) (failed : Z) : M pop Z :=
  match sites with
  | [] => mret failed
  | site :: rest =>
      if negb (isRunning site) || operationPending site || negb (Site.MailEnabled site) then applyAll enabled rest failed
      else
        done ← try (applySiteMail site enabled);
        match done with
        | Err e => _ ← record_ a "mail-apply" site false (errorText e); applyAll enabled rest (failed + 1)
        | Ok _ => applyAll enabled rest failed
        end
  end.

Definition formMail (r : web.request) (port : Z) (existing : Mail.t) : Mail.t :=
  let value := web.FormValue r in
  Mail.mk (String.eqb (value "enabled") "on") (value "smtp_host") port (value "smtp_encryption") (value "smtp_username")
    (if String.eqb (value "smtp_password") "" then Mail.Password existing else value "smtp_password") (value "smtp_from_email") (value "smtp_from_name").

Definition saveMailSettings (r : web.request) : M pop reply :=
  existing ← try (host (Load (settingsStore a)));
  match existing with
  | Err e => render a r (failure ("Unable to load mail settings: " +:+ errorText e))
  | Ok existing =>
      let port := parseInt (web.FormValue r "smtp_port") in
      if negb (is_ok port) && String.eqb (web.FormValue r "enabled") "on" then render a r (failure "SMTP port must be a number")
      else
        let mail := formMail r (atoiValue (web.FormValue r "smtp_port")) existing in
        saved ← try (host (Save (settingsStore a) mail));
        match saved with
        | Err e => render a r (failure ("Invalid mail settings: " +:+ errorText e))
        | Ok _ =>
            sites ← try (host (List_ (storePath a)));
            failed ← applyAll (Mail.Enabled mail) (match sites with Ok l => l | Err _ => [] end) 0;
            _ ← try (host (Append (auditPath a) (Entry.mk zeroTime "mail-settings" "" "" (failed =? 0) ("updated; " +:+ itoa failed +:+ " site failures"))));
            if 0 <? failed then redirectWithFlashTo "/settings" "Mail settings saved" ("Could not apply settings to " +:+ itoa failed +:+ " running sites")
            else redirectWithFlashTo "/settings" "Mail settings saved and applied" ""
        end
  end.

(** ** Files *)
Definition joinRelative (directory name : string) : result string :=
  if negb (ValidRelativePath directory true) || negb (String.eqb (base name) name) || negb (ValidRelativePath name false)
  then Err (EMsg "invalid file name")
  else if String.eqb directory "" then Ok name
  else
    let joined := directory +:+ "/" +:+ name in
    if negb (ValidRelativePath joined false) then Err (EMsg "invalid file path") else Ok joined.

(** [path.Dir], the current directory being the root. *)
Definition parentDir (p : string) : string := if String.eqb (dir p) "." then "" else dir p.

(** The entries whose path the file manager can name. *)
Definition listed (current : string) (l : list FileEntry.t) : list (FileEntry.t * string) :=
  filter (fun x => ValidRelativePath x.2 false = true)
    (map (fun e => (e, if String.eqb current "" then FileEntry.Name e else current +:+ "/" +:+ FileEntry.Name e)) l).

Definition fileCall (path : string) (req : FileRequest.t) : M pop unit := callWorker a path (Ok (fileRequestJSON req)) 204 ignored.

Definition renderFiles (r : web.request) (site : Site.t) (current viewError : string) : M pop reply :=
  entries ← try (callWorker a "/files/list" (Ok (fileRequestJSON (FileRequest.mk (Site.ID site) current "" ""))) 200 (readsList fileEntry.fields fileEntry.zero));
  mret (match entries with
        | Err e => errorReply 502 ("unable to list files: " +:+ errorText e)
        | Ok l =>
            Reply 200 "" [] (FilesPage (FilesShown site current (if String.eqb current "" then "" else parentDir current) (listed current l) viewError ""
              (language r) (Direction (language r)) (web.URI r) (match web.CookieValue r sessionCookie with Some c => csrf a c | None => "" end)))
        end).

Definition siteIDFromFilesPath (path : string) : option string :=
  match split slash (trimPrefix path "/sites/") with
  | [id; name] => if String.eqb name "files" && ValidID id then Some id else None
  | _ => None
  end.

Definition showFiles (r : web.request) : M pop reply :=
  match siteIDFromFilesPath (web.Path r) with
  | None => mret NotFound
  | Some id =>
      site ← try (host (Get (storePath a) id));
      match site with
      | Ok (Some site) =>
          if negb (isRunning site) then mret (errorReply 404 "running site not found")
          else
            let current := web.QueryValue r "path" in
            if negb (ValidRelativePath current true) then mret (errorReply 400 "invalid path") else renderFiles r site current ""
      | _ => mret (errorReply 404 "running site not found")
      end
  end.

Definition redirectFiles (id directory : string) : reply :=
  redirect ("/sites/" +:+ id +:+ "/files" +:+ (if String.eqb directory "" then "" else "?path=" +:+ QueryEscape directory)) [].

Definition uploadLimit : Z := 10 * 2 ^ 20.

(** A change of a file, and the listing of [directory] after it. *)
Definition changeFile (r : web.request) (site : Site.t) (path : string) (req : FileRequest.t) (directory what : string) : M pop reply :=
  done ← try (fileCall path req);
  match done with
  | Err e => renderFiles r site directory (what +:+ " failed: " +:+ errorText e)
  | Ok _ => mret (redirectFiles (Site.ID site) directory)
  end.

Definition fileAction (r : web.request) (site : Site.t) (action : string) : M pop reply :=
  let id := Site.ID site in
  let path := web.FormValue r "path" in
  if negb (isRunning site) then mret (errorReply 409 "site must be running")
  else if String.eqb action "upload" then
    match web.Upload r with
    | None => mret (errorReply 400 "invalid upload")
    | Some (name, bytes) =>
        match joinRelative path name with
        | Err e => mret (errorReply 400 (errorText e))
        | Ok target =>
            if uploadLimit <? lenZ bytes then mret (errorReply 413 "file exceeds 10 MB")
            else changeFile r site "/files/write" (FileRequest.mk id target "" bytes) path "Upload"
        end
    end
  else if String.eqb action "mkdir" then
    match joinRelative path (trimSpace (web.FormValue r "name")) with
    | Err e => mret (errorReply 400 (errorText e))
    | Ok target => changeFile r site "/files/mkdir" (FileRequest.mk id target "" "") path "Create directory"
    end
  else if negb (ValidRelativePath path false) then mret (errorReply 400 "invalid path")
  else if String.eqb action "file-delete" then changeFile r site "/files/delete" (FileRequest.mk id path "" "") (parentDir path) "Delete"
  else if String.eqb action "file-move" then
    let directory := trimChar slash (trimSpace (web.FormValue r "destination")) in
    if negb (ValidRelativePath directory true) then mret (errorReply 400 "invalid destination")
    else
      match joinRelative directory (base path) with
      | Err _ => mret (errorReply 400 "invalid destination")
      | Ok destination =>
          if String.eqb destination path then mret (errorReply 400 "invalid destination")
          else changeFile r site "/files/move" (FileRequest.mk id path destination "") (parentDir path) "Move"
      end
  else if String.eqb action "download" then
    file ← try (callWorker a "/files/read" (Ok (fileRequestJSON (FileRequest.mk id path "" ""))) 200 (reads contentFields (FileContent.mk "" "")));
    match file with
    | Err e => renderFiles r site (parentDir path) ("Download failed: " +:+ errorText e)
    | Ok file => mret (Reply 200 "" [] (Download (FileContent.Name file) (FileContent.Content file)))
    end
  else mret NotFound.
End web.
