(* ===== verification/PanelEffects.v ===== *)
(** * PanelEffects: what a program of the panel may cause

    A condition on the events of a program is found by walking through it; the
    parts of the panel that only look are shown to cause nothing but questions
    without an operation. *)
From S2P Require Import Prelude GoStrings GoPath GoFloat GoTime GoBase64 Effects World Core Json GoFloatText CoreJson CoreJsonFacts Worker Storage Operations Settings Files Server Store ActivityLog I18n Messages Panel PanelFacts Session Pages.
Set Warnings "-register-all".

Section raises.
Context `{Env} `{Peer}.

(** Every event of [p] satisfies [P]. *)
Definition raises {A} (P : pevent -> Prop) (p : prog pop A) : Prop := emits pstep P p.

Lemma raises_ret {A} P (x : A) : raises P (Ret x).
Proof. apply emits_ret. Qed.
Lemma raises_mret {A} P (x : A) : raises P (mret (M := M pop) x).
Proof. apply emits_ret. Qed.
Lemma raises_bind {A B} P (p : M pop A) (f : A -> M pop B) : raises P p -> (forall x, raises P (f x)) -> raises P (mbind (M := M pop) f p).
Proof. apply emits_mbind. Qed.
Lemma raises_try {A} P (p : M pop A) : raises P p -> raises P (try p).
Proof. intros Hp. apply emits_bind; [exact Hp|]. intros x. apply emits_ret. Qed.
Lemma raises_memory {R} P (f : pstate -> R * pstate) : raises P (memory f).
Proof. intros w. cbn. by destruct (f (p_state w)). Qed.

Lemma raises_host {A} P (p : prog wop A) : causes (fun e => P (PEv e)) p -> raises P (host p).
Proof.
  intros Hp w. pose proof (pexec_host p w) as Hx. unfold pexec in Hx. rewrite Hx. specialize (Hp (p_host w)). unfold exec.
  destruct (run wstep p (p_host w)) as [[r h] t]. cbn in *. by apply Forall_map.
Qed.

(** A program that looks at the host causes no event. *)
Lemma raises_look {A} P (p : prog wop A) : causes (fun _ => False) p -> raises P (host p).
Proof. intros Hp. apply raises_host. eapply emits_weaken; [|exact Hp]. done. Qed.

Lemma raises_now P : raises P now.
Proof. apply raises_look. by apply causes_get. Qed.

Lemma raises_call {A} P a operationID path body expected (decode : string -> result A) :
  (forall j reply, body = Ok j -> P (PECall path (printJSON j) operationID reply)) ->
  raises P (callWorkerContext a operationID path body expected decode).
Proof.
  intros HP w. destruct (run pstep _ w) as [[r w'] t] eqn:Hx. apply exec_call in Hx as (_&_&[(->&_)|(j&reply&Hj&->&_)]); [constructor|].
  constructor; [by apply HP|constructor].
Qed.

Lemma raises_exec {A} P (p : prog pop A) w r w' t : raises P p -> pexec p w = (r, w', t) -> Forall P t.
Proof. apply emits_run. Qed.

(** A program that causes nothing. *)
Lemma raises_nothing {A} (p : prog pop A) w r w' t :
  raises (fun _ => False) p -> pexec p w = (r, w', t) -> t = [] /\ w_fs (p_host w') = w_fs (p_host w).
Proof.
  intros Hp Hx. pose proof (raises_exec _ _ _ _ _ _ Hp Hx) as Ht. apply pexec_fs in Hx. destruct t; [done|by inversion Ht].
Qed.
End raises.

Create HintDb raises.
#[export] Hint Resolve raises_ret raises_mret raises_now raises_memory : raises.
#[export] Hint Extern 1 (raises _ (lift _)) => apply raises_ret : raises.
#[export] Hint Extern 1 (raises _ (fail _)) => apply raises_ret : raises.

(** Walk through a panel program; what is left is about host programs, calls
    and named parts. *)
Ltac raises_step :=
  first
    [ match goal with
      | |- raises _ (mbind _ _) => apply raises_bind; [|intros ?]
      | |- raises _ (try _) => apply raises_try
      | |- raises _ (match ?x with _ => _ end) => destruct x eqn:?
      | |- raises _ (if ?x then _ else _) => destruct x eqn:?
      | |- raises _ (let '_ := ?x in _) => destruct x eqn:?
      end; cbv zeta
    | solve [auto 1 with raises] ].
Ltac raises_auto := cbv zeta; repeat raises_step.

(** ** Looking *)
Definition looking : list string := ["/capacity"; "/storage/capability"; "/stats"; "/storage"; "/files/list"].

(** A question to the worker that changes nothing there and is no operation. *)
Definition harmless (e : pevent) : Prop :=
  match e with
  | PEv _ => False
  | PECall path _ operationID _ => operationID = "" /\ path ∈ looking
  end.

Section look.
Context `{Env} `{Peer} (a : app) `{Unicode}.

Lemma look_sites P : raises P (host (List_ (storePath a))).
Proof. apply raises_look. unfold List_, readSites. causes_auto. Qed.
Lemma look_site P id : raises P (host (Get (storePath a) id)).
Proof. apply raises_look. unfold Get, readSites. causes_auto. Qed.
Lemma look_plans P : raises P (host (ListResourcePlans (storePath a))).
Proof. apply raises_look. unfold ListResourcePlans, readResourcePlans. causes_auto. Qed.
Lemma look_mail P : raises P (host (Load (settingsStore a))).
Proof. apply raises_look. unfold Load. causes_auto. Qed.
Lemma look_log P n : raises P (host (ListEntries (auditPath a) n)).
Proof. apply raises_look. unfold ListEntries. causes_auto. Qed.
Lemma look_rand P n : raises P (host (perform (ORand n))).
Proof. apply raises_look. by apply causes_quiet. Qed.

(** A program that only looks keeps every condition harmless events have. *)
Definition looks {A} (p : M pop A) : Prop := forall P : pevent -> Prop, (forall e, harmless e -> P e) -> raises P p.

Lemma raises_question {A} (P : pevent -> Prop) path body expected (decode : string -> result A) :
  (forall e, harmless e -> P e) -> path ∈ looking -> raises P (callWorker a path body expected decode).
Proof. intros HP Hp. apply raises_call. intros j reply _. by apply HP. Qed.
End look.

#[export] Hint Resolve look_sites look_site look_plans look_mail look_log look_rand : raises.
#[export] Hint Extern 1 (raises _ (callWorker _ _ _ _ _)) => apply raises_question; [assumption|unfold looking; set_solver] : raises.

Section pages.
Context `{Env} `{Peer} (a : app) `{Unicode}.

Lemma gather_looks {A} path what (decode : string -> result (gmap string A)) l acc P :
  (forall e, harmless e -> P e) -> path ∈ looking -> raises P (gather a path what decode l acc).
Proof.
  intros HP Hp. revert acc. induction l as [|ids l IH]; intros acc; cbn [gather]; raises_auto; by apply raises_question.
Qed.

Lemma render_looks r v P : (forall e, harmless e -> P e) -> raises P (render a r v).
Proof.
  intros HP. unfold render, shownCapacity, shownDisk, capacityOf, usage. raises_auto; (apply gather_looks; [done|set_solver]).
Qed.

Lemma flash_quiet {A} P target message error (k : reply -> M pop A) :
  (forall x, raises P (k x)) -> raises P (mbind (M := M pop) k (redirectWithFlashTo target message error)).
Proof. intros Hk. unfold redirectWithFlashTo, setFlash. raises_auto. Qed.
Lemma redirect_quiet P target message error : raises P (redirectWithFlashTo target message error).
Proof. unfold redirectWithFlashTo, setFlash. raises_auto. Qed.
End pages.

#[export] Hint Extern 1 (raises _ (render _ _ _)) => apply render_looks; assumption : raises.
#[export] Hint Resolve redirect_quiet : raises.

(** ** What a program answers *)
Section always.
Context `{Env} `{Peer}.

(** [p] never fails, and what it answers satisfies [Q]. *)
Definition always {A} (Q : A -> Prop) (p : M pop A) : Prop := forall w, exists x, (pexec p w).1.1 = Ok x /\ Q x.

Lemma always_mret {A} (Q : A -> Prop) x : Q x -> always Q (mret (M := M pop) x).
Proof. intros HQ w. by exists x. Qed.

Lemma always_bind_of {A B} (R : A -> Prop) (Q : B -> Prop) (p : M pop A) (f : A -> M pop B) :
  always R p -> (forall x, R x -> always Q (f x)) -> always Q (mbind (M := M pop) f p).
Proof.
  intros Hp Hf w. destruct (Hp w) as (x&Hx&HR). destruct (pexec p w) as [[x' w1] t1] eqn:E1. cbn in Hx. subst x'.
  destruct (Hf x HR w1) as (y&Hy&HQ). exists y. split; [|done].
  change (mbind f p) with (pbind p (fun r => match r with Ok a => f a | Err e => Ret (Err e) end)).
  unfold pexec in *. rewrite run_bind, E1. cbn. destruct (run pstep (f x) w1) as [[y' w2] t2]. exact Hy.
Qed.

Lemma always_bind {A B} (Q : B -> Prop) (p : M pop A) (f : A -> M pop B) :
  always (fun _ => True) p -> (forall x, always Q (f x)) -> always Q (mbind (M := M pop) f p).
Proof. intros Hp Hf. eapply always_bind_of; [exact Hp|]. intros x _. apply Hf. Qed.

Lemma always_weaken {A} (R Q : A -> Prop) p : (forall x, R x -> Q x) -> always R p -> always Q p.
Proof. intros HRQ Hp w. destruct (Hp w) as (x&Hx&HR). exists x. auto. Qed.

Lemma always_try {A} (p : M pop A) : always (fun _ => True) (try p).
Proof. intros w. unfold try, pexec. rewrite run_bind. destruct (run pstep p w) as [[x w1] t1]. by exists x. Qed.

Lemma always_memory {R} (f : pstate -> R * pstate) : always (fun _ => True) (memory f).
Proof. intros w. cbn. destruct (f (p_state w)) as [x s]. by exists x. Qed.

Lemma always_now : always (fun _ => True) now.
Proof. intros w. destruct (pexec now w) as [[r w'] t] eqn:Hx. apply pexec_now in Hx as (n&->&_). by exists n. Qed.

Lemma always_exec {A} (Q : A -> Prop) p w r w' t : always Q p -> pexec p w = (r, w', t) -> exists x, r = Ok x /\ Q x.
Proof. intros Hp Hx. destruct (Hp w) as (x&Hr&HQ). rewrite Hx in Hr. by exists x. Qed.
End always.

Create HintDb always.
#[export] Hint Resolve always_try always_memory always_now : always.

(** A reply that gives no session. *)
Definition noSession (rep : reply) : Prop := Forall (fun c => web.Name c = sessionCookie -> web.Value c = "") (r_cookies rep).

(** The form token of the request's session, and a page that has it. *)
Definition tokenFor (a : app) (r : web.request) : string :=
  match web.CookieValue r sessionCookie with Some c => csrf a c | None => "" end.
Definition tokenOf (a : app) (r : web.request) (c : content) : Prop :=
  match c with
  | Page p => v_logged (s_view p) = true -> s_csrf p = tokenFor a r
  | FilesPage p => f_csrf p = tokenFor a r
  | _ => True
  end.

(** What every reply to [r] is, a login's apart. *)
Definition proper (a : app) (r : web.request) (rep : reply) : Prop := noSession rep /\ tokenOf a r (r_content rep).

(** A reply without cookies and page. *)
Definition bare (rep : reply) : bool :=
  match r_cookies rep, r_content rep with [], (Page _ | FilesPage _) => false | [], _ => true | _, _ => false end.
Lemma proper_bare a r rep : bare rep = true -> proper a r rep.
Proof. unfold bare, proper, noSession, tokenOf. destruct (r_cookies rep); [|done]. intros Hb. split; [constructor|]. by destruct (r_content rep). Qed.

Ltac always_step :=
  first
    [ match goal with
      | |- always _ (mbind _ _) => apply always_bind; [|intros ?]
      | |- always _ (mret _) => apply always_mret
      | |- always _ (match ?x with _ => _ end) => destruct x eqn:?
      | |- always _ (if ?x then _ else _) => destruct x eqn:?
      | |- always _ (let '_ := ?x in _) => destruct x eqn:?
      end; cbv zeta
    | solve [auto 1 with always] ].
Ltac always_auto := cbv zeta; repeat always_step.

Section replies.
Context `{Env} `{Peer} (a : app) `{Unicode}.

Lemma always_tracked {A} site kind path body expected (decode : string -> result A) :
  always (fun _ => True) (callTracked a site kind path body expected decode).
Proof. unfold callTracked. always_auto; done. Qed.

Lemma always_record action site success detail : always (fun _ => True) (record_ a action site success detail).
Proof. unfold record_. always_auto; done. Qed.

Lemma always_gather {A} path what (decode : string -> result (gmap string A)) l acc : always (fun _ => True) (gather a path what decode l acc).
Proof. revert acc. induction l as [|ids l IH]; intros acc; cbn [gather]; always_auto; done. Qed.

Lemma render_proper r v : always (proper a r) (render a r v).
Proof.
  unfold render, shownCapacity, shownDisk, usage. always_auto; try apply always_gather; try done; (split; [constructor|]); cbn [tokenOf r_content s_view s_csrf v_logged]; try done.
  cbn [v_logged] in *. intros Hl. by rewrite Hl in *.
Qed.

Lemma redirect_proper r target message error : always (proper a r) (redirectWithFlashTo target message error).
Proof.
  intros w. unfold redirectWithFlashTo. destruct (pexec _ w) as [[x0 w'] t] eqn:Hx.
  apply pexec_try_bind in Hx as (x&w1&t1&t2&Hc&(->&_&_)%pexec_ret&_). cbn [fst]. eexists. split; [reflexivity|].
  destruct x as [c|e]; [|split; [constructor|done]]. split; [|done]. constructor; [|constructor]. unfold setFlash in Hc.
  apply pexec_bind in Hc as [(?&_&[=])|(b&w2&t3&t4&_&Hc&_)]. apply pexec_now_bind in Hc as (n&w3&Hc&_&_).
  apply pexec_now_bind in Hc as (n'&w4&Hc&_&_). apply pexec_bind in Hc as [(?&_&[=])|(u&w5&t5&t6&_&([= ->]&_&_)%pexec_ret&_)].
  done.
Qed.
End replies.

#[export] Hint Resolve always_tracked always_record render_proper redirect_proper : always.

(** The walk through a handler: a rendered page gives no session either. *)
Ltac reply_step :=
  first
    [ match goal with
      | |- always (proper _ _) (mbind _ (render _ _ _)) => eapply always_bind_of; [apply render_proper|intros ? ?]
      | |- always _ (mbind _ _) => apply always_bind; [|intros ?]
      | |- always _ (mret _) => apply always_mret
      | |- always _ (match ?x with _ => _ end) => destruct x eqn:?
      | |- always _ (if ?x then _ else _) => destruct x eqn:?
      | |- always _ (let '_ := ?x in _) => destruct x eqn:?
      end; cbv zeta
    | solve [auto 1 with always] ].
Ltac reply_auto := cbv zeta; repeat reply_step.
