(* ===== verification/WebFacts.v ===== *)
(** * WebFacts: the forms of the panel

    No form gives a session, and what each may ask of the worker: files stay
    below the site's root, nothing is destroyed without its confirmation. *)
From S2P Require Import Prelude GoStrings GoPath GoFloat GoTime GoUrl GoBase64 Effects World Core CoreFacts Json GoFloatText CoreJson CoreJsonFacts Worker Storage Capacity Operations Settings Files Server Store ActivityLog I18n Messages Panel PanelFacts Schedule Session Pages PanelEffects Web.
Set Warnings "-register-all".

(** The pieces together are the list, none longer than [n]; the fuel the pages
    give is enough. *)
Lemma concat_batches {A} n (l : list A) : (0 < n)%nat ->
  concat (batches (length l) n l) = l /\ Forall (fun b => (length b <= n)%nat) (batches (length l) n l).
Proof.
  intros Hn. assert (Hm : (length l <= length l)%nat) by lia. revert Hm.
  generalize (length l) at 2 3 4 as m. intros m. revert l.
  induction m as [|m IH]; intros l Hm; [by destruct l; [|simpl in Hm; lia]|].
  destruct l as [|x l]; [done|]. cbn [batches concat].
  destruct (IH (skipn n (x :: l))) as [Hc Hf]; [rewrite length_skipn; cbn [length] in *; lia|].
  rewrite Hc. split; [apply take_drop|]. constructor; [|done]. rewrite length_firstn. lia.
Qed.

#[export] Hint Extern 1 (proper _ _ _) => apply proper_bare; reflexivity : always.

Section replies.
Context `{Env} `{Peer} (a : app) `{Unicode}.

Lemma always_stored r site text k : always (proper a r) k -> always (proper a r) (storedOr a site text k).
Proof. intros Hk. unfold storedOr. reply_auto. Qed.

Lemma always_backup site source at_ : always (fun _ => True) (performBackup a site source at_).
Proof. unfold performBackup. always_auto; done. Qed.

Lemma always_track {A} site kind path body (decode : string -> result A) : always (fun _ => True) (track a site kind path body decode).
Proof. unfold track. apply always_tracked. Qed.
Lemma always_trackUnit site kind path body : always (fun _ => True) (trackUnit a site kind path body).
Proof. unfold trackUnit. apply always_tracked. Qed.

#[local] Hint Resolve always_backup always_track always_trackUnit : always.
Ltac no_session := repeat first [progress reply_auto | apply always_stored | done].

Lemma createSite_proper busy r : always (proper a r) (createSite a busy r).
Proof. unfold createSite, submitSite, installSite, redirectWithFlash. no_session. Qed.
Lemma backupSite_proper r site : always (proper a r) (backupSite a r site).
Proof. unfold backupSite. no_session. Qed.
Lemma saveBackupSchedule_proper r site : always (proper a r) (saveBackupSchedule a r site).
Proof. unfold saveBackupSchedule. no_session. Qed.
Lemma deleteBackup_proper r site : always (proper a r) (deleteBackup a r site).
Proof. unfold deleteBackup. no_session. Qed.

Lemma withSafety_proper r site id what onError k :
  (forall s e, always (fun _ => True) (onError s e)) -> (forall s, always (proper a r) (k s)) -> always (proper a r) (withSafety a r site id what onError k).
Proof. intros He Hk. unfold withSafety. reply_auto. Qed.

Lemma updateSite_proper r site : always (proper a r) (updateSite a r site).
Proof. unfold updateSite. reply_auto. apply withSafety_proper; [auto with always|]. intros s. no_session. Qed.
Lemma restoreSite_proper r site : always (proper a r) (restoreSite a r site).
Proof.
  unfold restoreSite. reply_auto. apply withSafety_proper; [intros; by apply always_mret|]. intros s'. no_session.
Qed.
Lemma saveResources_proper r site : always (proper a r) (saveResources a r site).
Proof. unfold saveResources. no_session. Qed.
Lemma resourcePlansAction_proper r : always (proper a r) (resourcePlansAction a r).
Proof. unfold resourcePlansAction. no_session. Qed.

Lemma always_applyAll enabled sites failed : always (fun _ => True) (applyAll a enabled sites failed).
Proof. revert failed. induction sites as [|s l IH]; intros failed; cbn [applyAll]; always_auto; done. Qed.
Lemma saveMailSettings_proper r : always (proper a r) (saveMailSettings a r).
Proof. unfold saveMailSettings. reply_auto. apply always_applyAll. Qed.

Lemma renderFiles_proper r site current e : always (proper a r) (renderFiles a r site current e).
Proof. unfold renderFiles. reply_auto. case_match; [split; [constructor|done]|by apply proper_bare]. Qed.
Lemma showFiles_proper r : always (proper a r) (showFiles a r).
Proof. unfold showFiles. reply_auto; apply renderFiles_proper. Qed.
Lemma changeFile_proper r site path req directory what : always (proper a r) (changeFile a r site path req directory what).
Proof. unfold changeFile. reply_auto; apply renderFiles_proper. Qed.
Lemma fileAction_proper r site action : always (proper a r) (fileAction a r site action).
Proof. unfold fileAction. reply_auto; first [apply changeFile_proper|apply renderFiles_proper]. Qed.
End replies.

#[export] Hint Resolve createSite_proper backupSite_proper saveBackupSchedule_proper deleteBackup_proper updateSite_proper
  restoreSite_proper saveResources_proper resourcePlansAction_proper saveMailSettings_proper renderFiles_proper showFiles_proper
  fileAction_proper always_stored always_trackUnit : always.

(** ** What the forms ask of the worker *)
Section asks.
Context `{Env} `{Peer} (a : app) `{Unicode} (P : pevent -> Prop).
Hypothesis Hhost : forall e, P (PEv e).

Lemma raises_here {A} (p : prog wop A) : raises P (host p).
Proof. apply raises_host. intros w. apply Forall_true. intros e. apply Hhost. Qed.

Lemma raises_put site : raises P (putSite a site).
Proof. apply raises_here. Qed.

Lemma raises_record action site success detail : raises P (record_ a action site success detail).
Proof. unfold record_. apply raises_bind; [apply raises_try, raises_here|]. intros. apply raises_mret. Qed.

Lemma raises_stored site text k : raises P k -> raises P (storedOr a site text k).
Proof. intros Hk. unfold storedOr. apply raises_bind; [apply raises_try, raises_put|]. intros [u|e]; [exact Hk|apply raises_mret]. Qed.

Lemma raises_tracked {A} site kind path body expected (decode : string -> result A) :
  (forall j operationID reply, body = Ok j -> P (PECall path (printJSON j) operationID reply)) ->
  raises P (callTracked a site kind path body expected decode).
Proof.
  intros Hp. unfold callTracked. raises_auto; try apply raises_put. apply raises_call. intros j reply. apply Hp.
Qed.
Lemma raises_track {A} site kind path body (decode : string -> result A) :
  (forall j operationID reply, body = Ok j -> P (PECall path (printJSON j) operationID reply)) -> raises P (track a site kind path body decode).
Proof. unfold track. apply raises_tracked. Qed.
Lemma raises_trackUnit site kind path body :
  (forall j operationID reply, body = Ok j -> P (PECall path (printJSON j) operationID reply)) -> raises P (trackUnit a site kind path body).
Proof. unfold trackUnit. apply raises_tracked. Qed.
End asks.
