(* ===== verification/Handler.v ===== *)
(** * Handler: the panel's server, [cmd/panel/main.go]

    [siteAction] and [panelServeHTTP], the source's [app.ServeHTTP]: the
    dispatch of every request behind the session and the form token.  A request
    for the database manager is answered by what the reverse proxy is given;
    the assets are left to [net/http], as are the headers of a reply other than
    its cookies and its location. *)
From S2P Require Import Prelude GoStrings GoPath GoFloat GoTime GoUrl GoBase64 Effects World Core Json GoFloatText CoreJson CoreJsonFacts Worker Operations Settings Files Server Store ActivityLog I18n Messages Panel Reconcile Schedule Session Pages Web.

Definition oneOf (x : string) (l : list string) : bool := existsb (String.eqb x) l.

Section handler.
Context (a : app) `{Unicode} `{Passwords}.

(** ** The actions on a site *)
Definition saveText : string := "unable to save site operation".

(** The end of an action the worker did not confirm. *)
Definition actionFailed (r : web.request) (action : string) (site : Site.t) (e : error) : M pop reply :=
  let site := setStatus (if String.eqb action "retry" then StatusFailed else StatusUnhealthy) (errorText e) site in
  storedOr a site saveText (
    _ ← record_ a action site false (errorText e);
    render a r (failure (errorText e))).

(** A password, or none when there was no randomness. *)
Definition somePassword : M pop string :=
  b ← try (host (perform (ORand 24)));
  mret (match b with Ok b => randomPassword b | Err _ => "" end).

Definition retrySite (r : web.request) (site : Site.t) : M pop reply :=
  if negb (String.eqb (Site.Status site) StatusFailed) then mret (errorReply 409 "not a failed site")
  else
    dbPassword ← somePassword; adminPassword ← somePassword;
    let site := setStatus StatusCreating "" site in
    storedOr a site saveText (
      tracked ← trackUnit a site "create" "/create" (createJSON (CreateRequest.mk site dbPassword adminPassword));
      let '(site, outcome) := tracked in
      match outcome with
      | Err e => actionFailed r "retry" site e
      | Ok _ =>
          let site := running_ site in
          storedOr a site saveText (
            _ ← record_ a "retry" site true "";
            redirectWithFlashTo (sitePath site)
              ("Site creation retried. WordPress username: admin. New password (save now): " +:+ adminPassword) "")
      end).

(** What the store keeps of an action the worker confirmed. *)
Definition actionStored (action : string) (site : Site.t) (k : Site.t -> M pop reply) : M pop reply :=
  if String.eqb action "delete" then
    deleted ← try (host (Delete (storePath a) (Site.ID site)));
    match deleted with
    | Err _ => mret (errorReply 500 "site deleted but metadata could not be saved")
    | Ok _ => k site
    end
  else
    let site := setHealth "" (setStatus (if String.eqb action "stop" then StatusStopped else StatusRunning) "" site) in
    storedOr a site saveText (k site).

(** A started site gets its mail settings again; a failure is recorded. *)
Definition startedMail (action : string) (site : Site.t) : M pop unit :=
  if String.eqb action "start" && Site.MailEnabled site then
    applied ← try (applySiteMail a site true);
    match applied with
    | Err e => record_ a "mail-apply" site false (errorText e)
    | Ok _ => mret tt
    end
  else mret tt.

(** Start, stop and delete. *)
Definition serviceAction (r : web.request) (site : Site.t) (action : string) : M pop reply :=
  let ask site :=
    tracked ← trackUnit a site action "/action" (Ok (idActionJSON (Site.ID site) action));
    let '(site, outcome) := tracked in
    match outcome with
    | Err e => actionFailed r action site e
    | Ok _ =>
        actionStored action site (fun site =>
          _ ← startedMail action site;
          _ ← record_ a action site true "";
          redirectWithFlashTo (if String.eqb action "delete" then "/" else sitePath site) "Site action completed" "")
    end in
  if String.eqb action "delete" then
    let site := setStatus StatusDeleting (Site.Error site) site in
    storedOr a site saveText (ask site)
  else ask site.

(** The database manager is started or stopped. *)
Definition databaseManager (r : web.request) (site : Site.t) (action : string) : M pop reply :=
  let dbAction := trimPrefix action "database-" in
  done ← try (callWorker a "/database" (Ok (idActionJSON (Site.ID site) dbAction)) 204 ignored);
  match done with
  | Err e => _ ← record_ a action site false (errorText e); render a r (failure ("Database manager: " +:+ errorText e))
  | Ok _ =>
      _ ← record_ a action site true "";
      if String.eqb dbAction "start" then mret (redirect (sitePath site +:+ "/database/") [])
      else redirectWithFlashTo (sitePath site +:+ "/database") "Database manager stopped" ""
  end.

Definition mailSiteAction (r : web.request) (site : Site.t) (action : string) : M pop reply :=
  let enabled := String.eqb action "mail-enable" in
  done ← try (applySiteMail a site enabled);
  match done with
  | Err e => _ ← record_ a action site false (errorText e); render a r (failure ("Mail settings: " +:+ errorText e))
  | Ok _ =>
      let site := setMail enabled site in
      storedOr a site saveText (
        _ ← record_ a action site true "";
        redirectWithFlashTo (sitePath site) ("Outgoing mail settings updated for " +:+ Site.Domain site) "")
  end.

Definition isFileAction (action : string) : bool := oneOf action ["upload"; "download"; "mkdir"; "file-delete"; "file-move"].

(** The action on a stored site without an unresolved operation. *)
Definition chosenAction (r : web.request) (site : Site.t) (action : string) : M pop reply :=
  if String.eqb action "resources" then saveResources a r site
  else if isFileAction action then fileAction a r site action
  else if String.eqb action "database-start" || String.eqb action "database-stop" then databaseManager r site action
  else if String.eqb action "mail-enable" || String.eqb action "mail-disable" then mailSiteAction r site action
  else if String.eqb action "delete" && negb (String.eqb (web.FormValue r "confirm") (Site.Domain site))
  then render a r (failure "Domain confirmation did not match")
  else if String.eqb action "backup" then backupSite a r site
  else if String.eqb action "backup-schedule" then saveBackupSchedule a r site
  else if String.eqb action "backup-delete" then deleteBackup a r site
  else if String.eqb action "update" then updateSite a r site
  else if String.eqb action "restore" then restoreSite a r site
  else if String.eqb action "retry" then retrySite r site
  else if String.eqb action "start" || String.eqb action "stop" || String.eqb action "delete" then serviceAction r site action
  else mret NotFound.

(** The site and the action a path names. *)
Definition actionOf (path : string) : option (string * string) :=
  match split slash (trimPrefix path "/sites/") with
  | [id; action] => if ValidID id then Some (id, action) else None
  | _ => None
  end.

Definition siteAction (busy : bool) (r : web.request) : M pop reply :=
  if busy then mret (errorReply 409 busyText)
  else
    match actionOf (web.Path r) with
    | None => mret NotFound
    | Some (id, action) =>
        site ← try (host (Get (storePath a) id));
        match site with
        | Ok (Some site) =>
            if operationPending site then mret (errorReply 409 "An operation is unresolved. Refresh service status before trying again.")
            else chosenAction r site action
        | _ => mret NotFound
        end
    end.

(** ** Local targets *)
Definition safeLanguageNext (raw : string) : string :=
  if String.eqb raw "" || negb (hasPrefix raw "/") || hasPrefix raw "//" then "/" else default "/" (localURI raw).

(** [i18n.SetCookie]: the cookie of a supported language. *)
Definition languageCookie (language : string) : option web.cookie :=
  let lang := Normalize language in
  if String.eqb lang "" then None else Some (web.Cookie CookieName lang (365 * 24 * 60 * 60) zeroTime).

Definition switchLanguage (r : web.request) : reply :=
  match languageCookie (web.QueryValue r "lang") with
  | None => errorReply 400 "unsupported language"
  | Some c => redirect (safeLanguageNext (web.QueryValue r "next")) [c]
  end.

(** ** Sessions *)
Definition login (r : web.request) : M pop reply :=
  let ip := web.ClientIP r in
  allowed ← loginAllowed ip;
  match allowed with
  | false => mret (errorReply 429 "too many attempts")
  | true =>
      if negb (is_ok (web.Form r) && passwordMatches (adminHash a) (web.FormValue r "password"))
      then render a r (View false "" "" "" (say r "invalid_password"))
      else
        _ ← forgetFails ip;
        t ← now;
        mret (redirect "/" [newSession a t])
  end.

Definition logout : reply := redirect "/" [web.Cookie sessionCookie "" (-1) zeroTime].

(** ** The database manager *)

(** [removePanelCookies]. *)
Definition removePanelCookies (cookies : list (string * string)) : list (string * string) :=
  filter (fun c => oneOf c.1 ["wph_session"; "wph_flash"; CookieName] = false) cookies.

Definition databaseOf (path : string) : option string :=
  match cut slash (trimPrefix path "/sites/") with
  | (id, Some rest) =>
      match cut slash rest with
      | (name, Some _) => if ValidID id && String.eqb name "database" then Some id else None
      | _ => None
      end
  | _ => None
  end.

Definition proxyDatabase (r : web.request) : M pop reply :=
  match databaseOf (web.Path r) with
  | None => mret NotFound
  | Some id =>
      site ← try (host (Get (storePath a) id));
      match site with
      | Ok (Some site) =>
          if negb (isRunning site) then mret NotFound
          else
            let prefix := sitePath site +:+ "/database" in
            let path := trimPrefix (web.Path r) prefix in
            mret (Reply 200 "" [] (Proxied ("wph-pma-" +:+ Site.ID site) (if String.eqb path "" then "/" else path) prefix (removePanelCookies (web.Cookies r))))
      | _ => mret NotFound
      end
  end.

(** ** Pages *)

(** The page of a path, with the site it shows. *)
Definition pageOf (path : string) : option (string * string) :=
  if String.eqb path "/sites/new" then Some ("new", "")
  else if String.eqb path "/settings" then Some ("settings", "")
  else if String.eqb path "/activity" then Some ("activity", "")
  else if String.eqb path "/roadmap" then Some ("roadmap", "")
  else if hasPrefix path "/sites/" then
    match split slash (trimPrefix path "/sites/") with
    | [id] => Some ("site", id)
    | [id; name] => if oneOf name ["backups"; "updates"; "database"; "resources"] then Some (name, id) else None
    | _ => None
    end
  else None.

(** A page with the message carried over. *)
Definition flashed (r : web.request) (v : flash.t -> view) : M pop reply :=
  taken ← takeFlash r;
  shown ← render a r (v taken.1);
  mret (withCookies taken.2 shown).

Definition showPage (r : web.request) : M pop reply :=
  match pageOf (web.Path r) with
  | Some (name, site) => flashed r (fun item => page name site (flash.Message item) (flash.Error item))
  | None => if hasPrefix (web.Path r) "/sites/" && hasSuffix (web.Path r) "/files" then showFiles a r else mret NotFound
  end.

(** The dashboard, or the login form. *)
Definition showRoot (r : web.request) : M pop reply :=
  taken ← takeFlash r;
  logged ← authenticated a r;
  shown ← render a r (View logged "" "" (flash.Message taken.1) (flash.Error taken.1));
  mret (withCookies taken.2 shown).

Definition refresh (busy : bool) (r : web.request) : M pop reply :=
  let target := safeLanguageNext (web.QueryValue r "next") in
  done ← try (reconcileRuntime a busy);
  match done with
  | Err e => redirectWithFlashTo target "" (errorText e)
  | Ok _ => redirectWithFlashTo target (say r "status_refreshed") ""
  end.

(** A form with a valid token. *)
Definition submitted (busy : bool) (r : web.request) : M pop reply :=
  let path := web.Path r in
  if String.eqb path "/logout" then mret logout
  else if String.eqb path "/reconcile" then refresh busy r
  else if String.eqb path "/sites" then createSite a busy r
  else if String.eqb path "/settings/resource-plans" || String.eqb path "/settings/resource-plans/delete" then resourcePlansAction a r
  else if String.eqb path "/settings/mail" then saveMailSettings a r
  else if hasPrefix path "/sites/" then siteAction busy r
  else mret NotFound.

(** A request with a session. *)
Definition withSession (busy : bool) (r : web.request) : M pop reply :=
  let path := web.Path r in
  if contains path "/database/" && hasPrefix path "/sites/" then proxyDatabase r
  else if String.eqb (web.Method r) "GET" then showPage r
  else if negb (String.eqb (web.Method r) "POST") || negb (checkCSRF a r) then mret (errorReply 403 "forbidden")
  else submitted busy r.

(** [app.ServeHTTP]. *)
Definition panelServeHTTP (busy : bool) (r : web.request) : M pop reply :=
  let path := web.Path r in
  let get := String.eqb (web.Method r) "GET" in
  if String.eqb path "/health" then mret (Reply 204 "" [] Nothing)
  else if get && hasPrefix path "/assets/" then mret (Reply 200 "" [] Asset)
  else if get && String.eqb path "/language" then mret (switchLanguage r)
  else if get && String.eqb path "/" then showRoot r
  else if String.eqb (web.Method r) "POST" && String.eqb path "/login" then login r
  else
    valid ← authenticated a r;
    match valid with
    | false => mret (errorReply 401 "unauthorized")
    | true => withSession busy r
    end.
End handler.
