(* ===== verification/Process.v ===== *)
(** * Process: the panel as a process, [main] of [cmd/panel/main.go]

    The two ways to start the program, who a request comes from ([proxy.go]),
    and the running process as a step relation: requests, rounds of the
    reconciler and the scheduler in any order, and crashes.  Listening, logging
    and the timeouts of the server are not modelled. *)
From S2P Require Import Prelude GoStrings GoPath GoFloat GoTime GoUrl GoIP GoBase64 Effects World Core Json GoFloatText CoreJson CoreJsonFacts Worker Operations Settings Server Store ActivityLog I18n Messages Panel PanelFacts Reconcile Schedule Session Pages Web Handler.

(** ** [panel hash-password] *)

(** [generate] is [bcrypt.GenerateFromPassword]; at most 1024 bytes of the
    input are read. *)
Definition hashPassword (generate : string -> result string) (stdin : string) : result string :=
  let password := take 1024 stdin in
  if lenZ password <? 12 then Err (EMsg "password must contain at least 12 bytes")
  else generate (trimSpace password).

(** ** Starting the panel *)
Module environment.
Record t := mk { PANEL_ADMIN_HASH : string; PANEL_SESSION_KEY : string; WORKER_TOKEN : string; PANEL_DOMAIN : string }.
End environment.

Section main.
Context `{Env}.

(** The [app] of [main]. *)
Definition newApp (env : environment.t) : result app :=
  let key := environment.PANEL_SESSION_KEY env in
  _ ← guardR (negb (String.eqb (environment.PANEL_ADMIN_HASH env) "" || (lenZ key <? 32) || (lenZ (environment.WORKER_TOKEN env) <? 32)))
        (EMsg "PANEL_ADMIN_HASH, PANEL_SESSION_KEY and WORKER_TOKEN are required");
  settings ← newSettings "/data/settings.json" key;
  let domain := environment.PANEL_DOMAIN env in
  mret (App "/data/sites.json" settings "/data/audit.jsonl" true (environment.PANEL_ADMIN_HASH env) key
          (negb (hasPrefix domain "http://localhost") && negb (hasPrefix domain "http://127.0.0.1"))).

(** Up to the point where the panel listens: it does not start on a site file
    it cannot read. *)
Definition panelMain (env : environment.t) : M wop app :=
  a ← lift (newApp env);
  _ ← List_ (storePath a);
  mret a.
End main.

(** ** Who asks *)

(** The two headers of the proxy, and the peer's address. *)
Record origin := Origin { X_Panel_Proxy_Token : string; X_Panel_Client_IP : string; RemoteAddr : string }.

Definition loginClientIP (a : app) (o : origin) : string :=
  let direct := match SplitHost (RemoteAddr o) with Some ip => ip | None => RemoteAddr o end in
  if (32 <=? lenZ (sessionKey a)) && String.eqb (X_Panel_Proxy_Token o) (sessionKey a) then
    match ParseIP (X_Panel_Client_IP o) with
    | Some ip => IPString ip
    | None => direct
    end
  else direct.

Definition comesFrom (a : app) (o : origin) (r : web.request) : web.request :=
  web.Request (web.Method r) (web.Path r) (web.URI r) (web.Query r) (web.Form r) (web.Cookies r) (web.AcceptLanguage r)
    (loginClientIP a o) (web.Upload r).

(** ** The running process *)

(** What the server and the two goroutines of [main] do, each while the others
    wait for the mutex or find it held: a request, a round of
    [runRuntimeReconciler], a candidate of a round of [runBackupScheduler], which
    takes the mutex for each. *)
Inductive activity :=
| Request (busy : bool) (r : web.request)
| Reconciliation (busy : bool)
| Candidate (at_ : time) (site : Site.t).

Section process.
Context `{Env} `{Peer} `{Unicode} `{Passwords} (a : app).

Definition act (x : activity) : M pop unit :=
  match x with
  | Request busy r => _ ← try (panelServeHTTP a busy r); mret tt
  | Reconciliation busy => _ ← try (reconcileRuntime a busy); mret tt
  | Candidate at_ site => _ ← try (scheduledCandidate a at_ site); mret tt
  end.

(** A crash ends an activity after any of its events, and the panel starts
    again with empty maps; the worker, the clock and the other files change by
    themselves. *)
Inductive panelStep (w : pworld) : pworld -> Prop :=
| step_act x r w' t : pexec (act x) w = (r, w', t) -> panelStep w w'
| step_crash x r w1 t t0 w' :
    pexec (act x) w = (r, w1, t) -> t0 `prefix_of` t -> w_fs (p_host w') = replay (hostEvents t0) (w_fs (p_host w)) ->
    p_state w' = PState ∅ ∅ -> panelStep w w'
| step_outside w' :
    w_fs (p_host w') !! storePath a = w_fs (p_host w) !! storePath a -> p_state w' = p_state w -> panelStep w w'.
End process.

(** ** What holds of it *)

(** The proxy's headers count only with the session key: whoever reaches the
    panel directly is known by the address it connects from. *)
Lemma loginClientIP_direct a token token' ip ip' addr :
  token <> sessionKey a -> token' <> sessionKey a ->
  loginClientIP a (Origin token ip addr) = loginClientIP a (Origin token' ip' addr).
Proof.
  intros Ht Ht'. unfold loginClientIP. cbn [X_Panel_Proxy_Token RemoteAddr].
  apply String.eqb_neq in Ht as ->. apply String.eqb_neq in Ht' as ->. by rewrite !andb_false_r.
Qed.

(** What [main] requires of its environment. *)
Lemma newApp_Ok env a :
  newApp env = Ok a -> 32 <= lenZ (sessionKey a) /\ adminHash a <> "" /\ configured a = true.
Proof.
  unfold newApp. rewrite guardR_seq. intros [Hg (s&_&[= <-])%bind_Ok]. cbn [sessionKey adminHash configured].
  bool_solve. split_and!; [lia| |done]. by apply String.eqb_neq.
Qed.

(** A site file that was read is one that decodes. *)
Lemma List_reads `{Env} path w sites w' t data :
  exec (List_ path) w = (Ok sites, w', t) -> w_fs w !! path = Some (NFile data) -> is_ok (decodeSites data) = true.
Proof.
  intros (m&w1&t1&t2&Hm&_&_)%exec_bind_Ok Hd. unfold readSites in Hm.
  apply exec_bind_Ok in Hm as (r&w2&t3&t4&Hr&Hm&_). apply exec_try in Hr as (r'&[= <-]&Hr). destruct r as [d|e].
  - apply exec_read_Ok in Hr as [Hf _]. rewrite Hf in Hd. injection Hd as <-.
    apply exec_ret in Hm as (Hm&_). by rewrite <- Hm.
  - destruct (isNotExist e) eqn:En; [|by apply exec_ret in Hm as ([=]&_)].
    apply exec_read_absent in Hr as (_&_&Hn). by rewrite Hn in Hd.
Qed.

(** A panel that listens has a key long enough to sign with and to trust its
    proxy by, and a password's hash, and it could read the sites it finds;
    starting it has changed nothing. *)
Lemma panelMain_ready `{Env} env w a w' t :
  exec (panelMain env) w = (Ok a, w', t) ->
  32 <= lenZ (sessionKey a) /\ adminHash a <> "" /\ configured a = true /\ w_fs w' = w_fs w /\ t = [] /\
  forall data, w_fs w !! storePath a = Some (NFile data) -> is_ok (decodeSites data) = true.
Proof.
  intros Hx. assert (causes (fun _ => False) (panelMain env)) as Hc
    by (unfold panelMain, List_, readSites; causes_auto).
  destruct (quiet_same _ _ _ _ _ Hc Hx) as [Hw ->]. clear Hc. unfold panelMain in Hx. rewrite exec_lift_bind in Hx.
  destruct (newApp env) as [b|] eqn:Ha; [|done]. apply exec_bind_Ok in Hx as (sites&w2&t3&t4&Hs&Hx&_).
  apply exec_ret in Hx as ([= <-]&_). apply newApp_Ok in Ha as (?&?&?). split_and!; try done.
  intros data. by apply (List_reads _ _ _ _ _ _ Hs).
Qed.

(** The length is checked before the spaces are cut off. *)
Example hashPassword_short : hashPassword Ok "a           " = Ok "a".
Proof. reflexivity. Qed.
Example loginClientIP_forms :
  let a := App "" (SettingsStore.mk "" "") "" true "" "0123456789abcdef0123456789abcdef" true in
  map (loginClientIP a)
    [Origin "0123456789abcdef0123456789abcdef" "192.0.2.1" "172.18.0.2:80"; Origin "forged" "192.0.2.1" "172.18.0.2:80";
     Origin "0123456789abcdef0123456789abcdef" "2001:DB8:0::1" "172.18.0.2:80"; Origin "0123456789abcdef0123456789abcdef" "nobody" "[::1]:80"; Origin "" "" "socket"] =
  ["192.0.2.1"; "172.18.0.2"; "2001:db8::1"; "::1"; "socket"].
Proof. vm_compute. reflexivity. Qed.
