(* ===== verification/HandlerFacts.v ===== *)
(** * HandlerFacts: what the panel does for whom

    The gate of [panelServeHTTP]: without a session nothing is shown or
    caused, without the form's token nothing is changed, and only the password
    gives a session. *)
From S2P Require Import Prelude GoStrings GoPath GoFloat GoTime GoUrl GoBase64 Effects World Core CoreFacts Json GoFloatText CoreJson CoreJsonFacts Worker Storage Capacity Operations Settings Files Server Store ActivityLog I18n Messages Panel PanelFacts Reconcile Schedule Session Pages PanelEffects Web WebFacts Handler.
Set Warnings "-register-all".

Section handler.
Context `{Env} `{Peer} (a : app) `{Unicode} `{Passwords}.

(** ** Only the password gives a session *)

Lemma actionFailed_proper r action site e : always (proper a r) (actionFailed a r action site e).
Proof. unfold actionFailed. apply always_stored. reply_auto. Qed.

Lemma actionStored_proper r action site k : (forall s, always (proper a r) (k s)) -> always (proper a r) (actionStored a action site k).
Proof. intros Hk. unfold actionStored. reply_auto. apply always_stored. auto. Qed.

Lemma retrySite_proper r site : always (proper a r) (retrySite a r site).
Proof.
  unfold retrySite, somePassword. reply_auto; [done..|]. apply always_stored. reply_auto; [|apply actionFailed_proper].
  apply always_stored. reply_auto.
Qed.

Lemma always_startedMail action site : always (fun _ => True) (startedMail a action site).
Proof. unfold startedMail. always_auto; done. Qed.

Lemma serviceAction_proper r site action : always (proper a r) (serviceAction a r site action).
Proof.
  unfold serviceAction. reply_auto; repeat first [apply always_stored | apply actionFailed_proper | apply actionStored_proper; intros ? | apply always_startedMail | progress reply_auto].
Qed.

Lemma chosenAction_proper r site action : always (proper a r) (chosenAction a r site action).
Proof.
  unfold chosenAction, databaseManager, mailSiteAction.
  reply_auto; repeat first [apply retrySite_proper | apply serviceAction_proper | apply always_stored | progress reply_auto].
Qed.

Lemma submitted_proper busy r : always (proper a r) (submitted a busy r).
Proof. unfold submitted, refresh, siteAction. reply_auto; try apply chosenAction_proper. repeat constructor. Qed.

Lemma always_takeFlash r : always (fun taken => Forall (fun c => web.Name c = sessionCookie -> web.Value c = "") taken.2) (takeFlash r).
Proof.
  unfold takeFlash. destruct (web.CookieValue r flashCookie); [|apply always_mret; constructor].
  apply always_bind; [apply always_memory|]. intros item. apply always_mret. by repeat constructor.
Qed.

Lemma always_shown r v taken :
  Forall (fun c => web.Name c = sessionCookie -> web.Value c = "") taken ->
  always (proper a r) (shown ← render a r v; mret (withCookies taken shown)).
Proof.
  intros Ht. eapply always_bind_of; [apply render_proper|]. intros rep [Hrep Ht']. apply always_mret. split; [by apply Forall_app_2|done].
Qed.

Lemma always_authenticated r : always (fun _ => True) (authenticated a r).
Proof. unfold authenticated. always_auto; done. Qed.

Lemma showRoot_proper r : always (proper a r) (showRoot a r).
Proof.
  unfold showRoot. eapply always_bind_of; [apply always_takeFlash|]. intros taken Ht. apply always_bind; [apply always_authenticated|].
  intros logged. by apply always_shown.
Qed.

Lemma showPage_proper r : always (proper a r) (showPage a r).
Proof.
  unfold showPage. destruct (pageOf _) as [[name site]|]; [|reply_auto].
  unfold flashed. eapply always_bind_of; [apply always_takeFlash|]. intros taken Ht. by apply always_shown.
Qed.

Lemma withSession_proper busy r : always (proper a r) (withSession a busy r).
Proof.
  unfold withSession, proxyDatabase. reply_auto; first [apply showPage_proper | apply submitted_proper].
Qed.

(** A login with the password. *)
Definition loggedIn (r : web.request) (c : web.cookie) : Prop :=
  web.Method r = "POST" /\ web.Path r = "/login" /\ is_ok (web.Form r) = true /\
  passwordMatches (adminHash a) (web.FormValue r "password") = true /\ exists t, c = newSession a t.

(** A session in a reply is the one of a login. *)
Definition sessionOf (r : web.request) (rep : reply) : Prop :=
  Forall (fun c => web.Name c = sessionCookie -> web.Value c <> "" -> loggedIn r c) (r_cookies rep).

Lemma proper_sessionOf r rep : proper a r rep -> sessionOf r rep.
Proof. unfold proper, noSession, sessionOf. intros [Hf _]. eapply Forall_impl; [exact Hf|]. intros c Hc Hn Hv. destruct (Hv (Hc Hn)). Qed.

Lemma always_loginAllowed ip : always (fun _ => True) (loginAllowed ip).
Proof. unfold loginAllowed. always_auto; done. Qed.

Lemma login_sessionOf r : web.Method r = "POST" -> web.Path r = "/login" -> always (sessionOf r) (login a r).
Proof.
  intros Hm Hp. unfold login. cbv zeta. apply always_bind; [apply always_loginAllowed|]. intros [|]; [|apply always_mret; constructor].
  destruct (is_ok (web.Form r)) eqn:Ef; [destruct (passwordMatches _ _) eqn:Ep|]; cbn [andb negb].
  2, 3: eapply always_weaken; [apply proper_sessionOf|apply render_proper].
  apply always_bind; [apply always_memory|]. intros _. apply always_bind; [apply always_now|]. intros t. apply always_mret.
  constructor; [|constructor]. intros _ _. unfold loggedIn. split_and!; eauto.
Qed.

Lemma login_token r : always (fun rep => tokenOf a r (r_content rep)) (login a r).
Proof.
  unfold login. cbv zeta. apply always_bind; [apply always_loginAllowed|]. intros [|]; [|by apply always_mret].
  destruct (_ && _); cbn [negb]; [|eapply always_weaken; [|apply render_proper]; by intros x [_ Hx]].
  apply always_bind; [apply always_memory|]. intros _. apply always_bind; [apply always_now|]. intros t. by apply always_mret.
Qed.

(** Every page carries the form token of the request's session. *)
Lemma panelServeHTTP_token busy r w rep w' t :
  pexec (panelServeHTTP a busy r) w = (Ok rep, w', t) -> tokenOf a r (r_content rep).
Proof.
  intros Hx. enough (always (fun rep => tokenOf a r (r_content rep)) (panelServeHTTP a busy r)) as Ha
    by (destruct (always_exec _ _ _ _ _ _ Ha Hx) as (x&[= ->]&?); done).
  assert (forall p, always (proper a r) p -> always (fun rep => tokenOf a r (r_content rep)) p) as Hp
    by (intros p; apply always_weaken; by intros x [_ ?]).
  unfold panelServeHTTP. cbv zeta. destruct (String.eqb _ "/health"); [by apply always_mret|].
  destruct (_ && hasPrefix _ _); [by apply always_mret|].
  destruct (_ && String.eqb _ "/language"); [apply always_mret; by unfold switchLanguage; case_match|].
  destruct (_ && String.eqb _ "/"); [apply Hp, showRoot_proper|]. destruct (_ && String.eqb _ "/login"); [apply login_token|].
  apply always_bind; [apply always_authenticated|]. intros [|]; [apply Hp, withSession_proper|by apply always_mret].
Qed.

End handler.

(** ** The gate *)
Section gate.
Context `{Env} `{Peer} (a : app) `{Unicode} `{Passwords}.

(** What a reply may show without a session. *)
Definition public (c : content) : Prop :=
  match c with
  | Nothing | Asset => True
  | Text s => s ∈ ["unsupported language"; "too many attempts"; "unauthorized"]
  | Page p => exists v lang uri, v_logged v = false /\ p = Shown v lang (Direction lang) uri (T lang (fst (headings (v_page v)))) (T lang (snd (headings (v_page v)))) [] [] None "" None Mail.zero [] ∅ ∅ "" ""
  | _ => False
  end.

Lemma authenticated_state r w w' t x :
  pexec (authenticated a r) w = (x, w', t) -> t = [] /\ exists valid, x = Ok valid.
Proof.
  unfold authenticated. destruct (web.CookieValue r sessionCookie) as [value|].
  - intros (n&w1&(->&->&->)%pexec_ret&_)%pexec_now_bind. eauto.
  - intros (->&->&->)%pexec_ret. eauto.
Qed.

(** The session is looked at after the message of the last redirect was
    taken, which changes nothing it depends on. *)
Lemma authenticated_after_flash r w w1 t1 taken :
  pexec (takeFlash r) w = (Ok taken, w1, t1) ->
  t1 = [] /\ (pexec (authenticated a r) w1).1.1 = (pexec (authenticated a r) w).1.1.
Proof.
  unfold takeFlash. destruct (web.CookieValue r flashCookie) as [value|].
  - intros [(?&_&[=])|(item&w2&t2&t3&Hm&(_&->&->)%pexec_ret&->)]%pexec_bind.
    unfold pexec, memory, get in Hm. cbn in Hm. injection Hm as _ <- <-. split; [done|].
    unfold authenticated. destruct (web.CookieValue r sessionCookie) as [s|]; [|done].
    unfold now, get, pexec. cbn. by destruct (env_now _).
  - intros (_&->&->)%pexec_ret. done.
Qed.

Lemma render_public r v w : v_logged v = false ->
  exists p, pexec (render a r v) w = (Ok (Reply 200 "" [] (Page p)), w, []) /\ public (Page p).
Proof.
  intros Hv. unfold render. cbn [v_logged]. rewrite Hv. cbn [negb]. eexists. split; [reflexivity|]. eexists _, _, _. split; [|reflexivity]. reflexivity.
Qed.

Lemma login_harmless r P : (forall e, harmless e -> P e) -> raises P (login a r).
Proof. intros HP. unfold login, loginAllowed, forgetFails. raises_auto. Qed.
Lemma showRoot_harmless r P : (forall e, harmless e -> P e) -> raises P (showRoot a r).
Proof. intros HP. unfold showRoot, takeFlash, authenticated. raises_auto. Qed.
Lemma showPage_harmless r P : (forall e, harmless e -> P e) -> raises P (showPage a r).
Proof. intros HP. unfold showPage, flashed, takeFlash, showFiles, renderFiles. raises_auto. Qed.
Lemma proxyDatabase_harmless r P : raises P (proxyDatabase a r).
Proof. unfold proxyDatabase. raises_auto. Qed.

Lemma pexec_loginAllowed ip w x w' t : pexec (loginAllowed ip) w = (x, w', t) -> t = [] /\ exists ok, x = Ok ok.
Proof.
  intros Hx. split.
  - eapply (raises_exec (fun _ => False)) in Hx; [|unfold loginAllowed; raises_auto]. destruct t; [done|by inversion Hx].
  - destruct (always_exec _ _ _ _ _ _ (always_loginAllowed ip) Hx) as (ok&->&_). by exists ok.
Qed.

Lemma login_public r w x w' t : pexec (login a r) w = (x, w', t) -> t = [] /\ exists rep, x = Ok rep /\ public (r_content rep).
Proof.
  unfold login. cbv zeta. intros [(?&(_&?&[=])%pexec_loginAllowed&_)|(ok&w1&t1&t2&(->&_)%pexec_loginAllowed&Hx&->)]%pexec_bind.
  destruct ok; [|apply pexec_ret in Hx as (->&->&->); split; [done|eexists; split; [reflexivity|cbn; set_solver]]].
  destruct (negb _).
  - destruct (render_public r (View false "" "" "" (say r "invalid_password")) w1 eq_refl) as (p&Hp&Hpub). rewrite Hp in Hx. injection Hx as <- <- <-.
    split; [done|]. by eexists.
  - apply pexec_bind in Hx as [(?&Hm&->)|(u&w2&t3&t4&Hm&Hx&->)].
    { destruct (always_exec _ _ _ _ _ _ (always_memory _) Hm) as (?&[=]&_). }
    apply pexec_now_bind in Hx as (n&w3&Hx&_&_). apply pexec_ret in Hx as (->&_&->).
    unfold pexec, forgetFails, memory, get in Hm. cbn in Hm. injection Hm as _ _ <-. split; [done|]. by eexists.
Qed.

Lemma showRoot_public r w x w' t :
  pexec (showRoot a r) w = (x, w', t) -> (pexec (authenticated a r) w).1.1 = Ok false -> t = [] /\ exists rep, x = Ok rep /\ public (r_content rep).
Proof.
  unfold showRoot. intros Hx Hno. apply pexec_bind in Hx as [(?&Ht&->)|(taken&w1&t1&t2&Ht&Hx&->)].
  { destruct (always_exec _ _ _ _ _ _ (always_takeFlash r) Ht) as (?&[=]&_). }
  destruct (authenticated_after_flash _ _ _ _ _ Ht) as [-> Ha]. rewrite Hno in Ha.
  apply pexec_bind in Hx as [(?&Hv&->)|(valid&w2&t3&t4&Hv&Hx&->)]; rewrite Hv in Ha; [done|]. cbn in Ha. injection Ha as ->.
  destruct (authenticated_state _ _ _ _ _ Hv) as [-> _].
  match type of Hx with context [render a r ?v] => destruct (render_public r v w2 eq_refl) as (p&Hp&Hpub) end.
  apply pexec_bind in Hx as [(?&Hr&_)|(rep&w3&t5&t6&Hr&(->&->&->)%pexec_ret&->)]; rewrite Hp in Hr; [done|]. injection Hr as <- <- <-.
  split; [done|]. by eexists.
Qed.

End gate.

(** ** Where a redirect leads *)

(** [cut] takes a prefix; what follows it is the separator. *)
Lemma cut_prefix c s : exists rest, s = fst (cut c s) +:+ rest /\ (rest = "" \/ exists r, rest = String c r).
Proof.
  unfold cut. induction s as [|d s IH]; [exists ""; by split; [|left]|]. cbn [splitN2]. destruct (Ascii.eqb_spec d c) as [->|Hd].
  - exists (String c s). split; [done|right; eauto].
  - destruct IH as (rest&Heq&Hrest). destruct (splitN2 c s) as [|x [|y [|z l]]] eqn:E; cbn in *; try (exists ""; split; [by rewrite app_nil_r_str|by left]).
    exists rest. split; [by rewrite Heq at 1|done].
Qed.

(** A target whose path is encoded stays on the panel. *)
Lemma safeLanguageNext_local raw :
  strForall encodedChar (fst (cut "?" (fst (cut "#" raw)))) = true -> hasPrefix (safeLanguageNext raw) "//" = false.
Proof.
  intros He. unfold safeLanguageNext. destruct (String.eqb raw "" || negb (hasPrefix raw "/") || hasPrefix raw "//") eqn:Hr; [done|].
  bool_solve. unfold localURI. destruct (cut_prefix "#" raw) as (r1&Hraw&Hr1). destruct (cut "#" raw) as [u fragment]. cbn [fst] in *.
  destruct (strExists controlChar u); [done|]. destruct (match fragment with Some f => unescape f | None => _ end); [|done].
  destruct (cut_prefix "?" u) as (r2&Hu&Hr2). destruct (cut "?" u) as [p query]. cbn [fst] in *. unfold escapedPath.
  destruct (unescape p) as [path|]; [|done]. rewrite He, orb_true_r. cbn [default]. set (q := match query with Some q => "?" +:+ q | None => "" end).
  assert (forall c, hasPrefix q (String "/" c) = false) as Hq by (intros c; unfold q; by destruct query).
  change (hasPrefix (p +:+ q) "//" = false). subst u. subst raw. destruct p as [|c [|d p]]; [apply Hq|..].
  - change (String c "" +:+ q) with (String c q). unfold hasPrefix in *. cbn [String.prefix]. by destruct (ascii_dec "/" c).
  - unfold hasPrefix in *. cbn [String.prefix String.append] in *. destruct (ascii_dec "/" c); [|done].
    destruct (ascii_dec "/" d); [|done]. assert (forall s, String.prefix "" s = true) as Hp by (by intros []). by rewrite Hp in *.
Qed.

(** But one with a byte that is not, is parsed, and encoded again from its
    decoded form: an encoded slash comes back as a slash, and the redirect leads
    to another host. *)
Lemma open_redirect :
  safeLanguageNext "/%2Fevil.example/<" = "//evil.example/%3C" /\
  r_location (redirect (safeLanguageNext "/%2Fevil.example/<") []) = "//evil.example/%3C".
Proof. split; vm_compute; reflexivity. Qed.
