(* ===== verification/SessionFacts.v ===== *)
(** * SessionFacts: sessions end, and guesses are counted

    A session cookie is accepted exactly when it was signed and until it
    expires; one address gets at most eight guesses of the password in ten
    minutes. *)
From S2P Require Import Prelude GoStrings GoPath GoFloat GoTime GoSha256 GoBase64 GoAes Effects World Core CoreFacts Json GoFloatText CoreJson CoreJsonFacts Worker Samples Operations Settings Server Store ActivityLog I18n Messages Panel PanelFacts Link Session Pages PanelEffects Web WebFacts Handler HandlerFacts.
Set Warnings "-register-all".

(** ** Session cookies *)

Lemma strForall_map p f s : strForall p (mapString f s) = strForall (fun c => p (f c)) s.
Proof. induction s as [|c s IH]; [done|]. cbn. by rewrite IH. Qed.

(** No dot in a signature. *)
Lemma sign_noDot a payload : noChar "." (sign a payload) = true.
Proof.
  unfold noChar, sign, RawURLEncode. rewrite strForall_map. apply encode64_chars; [|done]. intros n Hn.
  assert (forallb (fun i => negb (Ascii.eqb (urlChar (encodeChar (Z.of_nat i))) ".")) (seq 0 64) = true) as Hall by (vm_compute; reflexivity).
  rewrite forallb_forall in Hall. rewrite <- (Z2Nat.id n) by lia. apply Hall, in_seq. lia.
Qed.

(** Nor in a number. *)
Lemma parseDigits_noDot s : forall acc n, parseDigits s acc = Some n -> noChar "." s = true.
Proof.
  induction s as [|c s IH]; intros acc n; cbn; [done|]. destruct (isDigit c) eqn:Ec; [|done]. intros Hs. apply IH in Hs.
  unfold noChar in Hs. rewrite Hs, andb_true_r. apply negb_true_iff, Ascii.eqb_neq. intros ->. by vm_compute in Ec.
Qed.

Lemma parseUDigits_noDot s n : parseUDigits s = Some n -> noChar "." s = true.
Proof. destruct s; [done|]. apply parseDigits_noDot. Qed.

Lemma parseInt_noDot s n : parseInt s = Ok n -> noChar "." s = true.
Proof.
  unfold parseInt. destruct s as [|c r]; [done|]. destruct (Ascii.eqb_spec c "-") as [->|]; [|destruct (Ascii.eqb_spec c "+") as [->|]].
  all: destruct (parseUDigits _) as [v|] eqn:E; [|done]; intros _; apply parseUDigits_noDot in E; done.
Qed.

(** C27: a session lasts until it expires.  A session cookie is accepted exactly
    when it is a decimal number, a dot and the signature of that number under
    the panel's key, and the number is a second still to come; so the cookie of
    a login is accepted until eight hours after it and never again. *)
Theorem session_until_expiry a :
  (forall value t, sessionValid a value t = true <->
     exists payload expires, value = payload +:+ "." +:+ sign a payload /\ parseInt payload = Ok expires /\ unixSeconds t < expires) /\
  (forall start t, inInt64 (unixSeconds (start + 8 * hour)) = true ->
     sessionValid a (web.Value (newSession a start)) t = (unixSeconds t <? unixSeconds (start + 8 * hour))).
Proof.
  assert (forall payload expires t, parseInt payload = Ok expires ->
    sessionValid a (payload +:+ "." +:+ sign a payload) t = (unixSeconds t <? expires)) as Hvalid.
  { intros payload expires t Hp. unfold sessionValid. change ("." +:+ sign a payload) with (String "." (sign a payload)).
    rewrite split_app_noChar by (by eapply parseInt_noDot). rewrite split_single by apply sign_noDot. by rewrite Hp, String.eqb_refl, andb_true_r. }
  split.
  - intros value t. split; [|intros (payload&expires&->&Hp&Ht); rewrite (Hvalid _ expires) by done; by apply Z.ltb_lt].
    unfold sessionValid. destruct (split _ _) as [|payload [|mac [|]]] eqn:Es; try done. destruct (parseInt payload) as [expires|] eqn:Ep; [|done].
    intros [Ht%Z.ltb_lt <-%String.eqb_eq]%andb_prop. exists payload, expires. split_and!; try done. by rewrite <- (join_split "." value), Es.
  - intros start t Hr. cbn [newSession web.Value]. apply Hvalid. by apply parseInt_itoa.
Qed.

Lemma session_until_expiry_witness :
  sessionValid sampleApp (web.Value (newSession sampleApp 0)) (8 * hour - 1) = true /\
  sessionValid sampleApp (web.Value (newSession sampleApp 0)) (8 * hour) = false.
Proof.
  destruct (session_until_expiry sampleApp) as [_ Hx].
  split; rewrite (Hx 0) by (vm_compute; reflexivity); vm_compute; reflexivity.
Defined.

(** ** The limit on guesses *)

Definition failsOf (ip : string) (s : pstate) : list time := default [] (loginFails s !! ip).

Section guesses.
Context `{Env} `{Peer} (a : app) `{Unicode} `{Passwords} (ip : string).

(** [loginAllowed] with its two readings of the clock. *)
Lemma loginAllowed_run (w : pworld) e1 e2 start at_ :
  env_now (w_env (p_host w)) = (e1, start) -> env_now e1 = (e2, at_) ->
  exists w' t ok, pexec (loginAllowed ip) w = (Ok ok, w', t) /\
    ok = negb (8 <=? Z.of_nat (length (keptFails ip start (p_state w)))) /\
    failsOf ip (p_state w') = (keptFails ip start (p_state w) ++ if ok then [at_] else [])%list.
Proof.
  intros Hs He. set (kept := keptFails ip start (p_state w)).
  assert (refuseLogin ip start (p_state w) = if 8 <=? Z.of_nat (length kept) then (true, setFails ip kept (p_state w)) else (false, p_state w)) as Href by done.
  unfold loginAllowed, now, get, memory, pexec. cbn [mbind M_bind pbind host run pstep wstep]. rewrite Hs. cbn -[refuseLogin reserveLogin]. rewrite Href.
  destruct (8 <=? _); cbn -[reserveLogin].
  - eexists _, _, _. split; [reflexivity|]. split; [done|]. unfold failsOf, setFails. cbn. by rewrite lookup_insert_eq, app_nil_r.
  - rewrite He. cbn. eexists _, _, _. split; [reflexivity|]. split; [done|]. unfold failsOf, setFails. cbn. by rewrite lookup_insert_eq.
Qed.

(** A wrong guess changes of the panel's memory what [loginAllowed] changes;
    it was looked at unless the reply is a refusal. *)
Lemma wrong_guess r w e1 e2 start at_ rep w' t :
  web.ClientIP r = ip -> is_ok (web.Form r) && passwordMatches (adminHash a) (web.FormValue r "password") = false ->
  env_now (w_env (p_host w)) = (e1, start) -> env_now e1 = (e2, at_) -> pexec (login a r) w = (Ok rep, w', t) ->
  let looked := negb (r_status rep =? 429) in
  looked = negb (8 <=? Z.of_nat (length (keptFails ip start (p_state w)))) /\
  failsOf ip (p_state w') = (keptFails ip start (p_state w) ++ if looked then [at_] else [])%list.
Proof.
  intros Hip Hwrong Hs He. unfold login. cbv zeta. rewrite Hip, Hwrong. cbn [negb].
  destruct (loginAllowed_run w e1 e2 start at_ Hs He) as (w1&t1&ok&Hok&Hval&Hfails). intros [(?&Hx&_)|(ok'&w2&t2&t3&Hx&Hr&->)]%pexec_bind;
    rewrite Hok in Hx; [done|]. injection Hx as <- <- <-. destruct ok.
  - destruct (render_public a r (View false "" "" "" (say r "invalid_password")) w1 eq_refl) as (p&Hp&_). rewrite Hp in Hr. injection Hr as <- <- <-.
    by cbn.
  - apply pexec_ret in Hr as ([= ->]&->&->). by cbn.
Qed.

(** The panel after some requests, at a time, with the guesses of the address
    that were looked at since its last success.  The clock does not go back;
    every other request leaves the address' record alone. *)
Inductive guesses : pworld -> time -> list time -> Prop :=
| guesses_none w t : failsOf ip (p_state w) = [] -> guesses w t []
| guesses_wrong w t l r e1 e2 start at_ rep w' tr :
    guesses w t l -> web.ClientIP r = ip -> is_ok (web.Form r) && passwordMatches (adminHash a) (web.FormValue r "password") = false ->
    env_now (w_env (p_host w)) = (e1, start) -> env_now e1 = (e2, at_) -> t <= start <= at_ ->
    pexec (login a r) w = (Ok rep, w', tr) -> guesses w' at_ (if negb (r_status rep =? 429) then l ++ [at_] else l)%list
| guesses_other w t l w' : guesses w t l -> failsOf ip (p_state w') = failsOf ip (p_state w) -> guesses w' t l.

Definition window : Z := 10 * minute.
(** The guesses within ten minutes from [c]. *)
Definition within (c : time) (l : list time) : list time := filter (fun x => c < x <= c + window) l.

Lemma recent_recent c d l : d <= c -> recentFails c (recentFails d l) = recentFails c l.
Proof.
  intros Hd. unfold recentFails. rewrite list_filter_filter. apply list_filter_iff. intros x. lia.
Qed.

Lemma within_recent c d l : d <= c -> (length (within c l) <= length (recentFails d l))%nat.
Proof.
  intros Hd. unfold within, recentFails. induction l as [|x l IH]; [done|]. rewrite !filter_cons. unfold time in *. repeat case_decide; cbn [length]; lia.
Qed.

Lemma guesses_record w t l :
  guesses w t l -> (forall c, t - window <= c -> recentFails c (failsOf ip (p_state w)) = recentFails c l) /\
    forall c, (length (within c l) <= 8)%nat.
Proof.
  induction 1 as [w t Hno|w t l r e1 e2 start at_ rep w' tr _ [Hrec Hmax] Hip Hwrong Hs He Ht Hx|w t l w' _ [Hrec Hmax] Heq].
  - rewrite Hno. split; [done|]. intros c. cbn. lia.
  - destruct (wrong_guess r w e1 e2 start at_ rep w' tr Hip Hwrong Hs He Hx) as [Hlook Hfails]. cbv zeta in *.
    set (looked := negb (r_status rep =? 429)) in *. clearbody looked. unfold keptFails in *. fold (failsOf ip (p_state w)) in *.
    fold window in *. unfold time in *. rewrite (Hrec (start - window)) in * by lia. split.
    + intros c Hc. rewrite Hfails. unfold recentFails at 1. rewrite filter_app. change (filter _ (recentFails _ l)) with (recentFails c (recentFails (start - window) l)).
      rewrite recent_recent by lia. destruct looked; [|apply app_nil_r]. unfold recentFails. by rewrite filter_app.
    + intros c. destruct looked; [|apply Hmax]. specialize (Hmax c). unfold within, time in *. rewrite filter_app, length_app.
      rewrite filter_cons, filter_nil. case_decide as Hc; cbn [length]; [|lia]. pose proof (within_recent c (start - window) l ltac:(lia)) as Hle. unfold within, recentFails, time in *.
      symmetry in Hlook. apply negb_true_iff, Z.leb_gt in Hlook. lia.
  - by rewrite Heq.
Qed.

End guesses.

(** ** Witness: the ninth guess is refused *)
#[local] Existing Instance asciiUnicode.
#[local] Existing Instance samplePeer.
#[local] Instance samplePasswords : Passwords := {| passwordMatches _ password := String.eqb password "the right password" |}.

Definition guesser : string := "203.0.113.5".
Definition guessForm : web.request := web.Request "POST" "/login" "/login" [] (Ok [("password", "a guess")]) [] "" guesser None.
Definition guessTime : time := 1700000000000000000.
Definition guessRun (n : nat) : result reply * pworld * list pevent :=
  Nat.iter n (fun x => pexec (login sampleApp guessForm) x.1.2) (Ok NotFound, panelWorld ∅ [] (sampleWorld [] (fun _ => "")), []).
Definition guessStatus (n : nat) : option Z := match (guessRun n).1.1 with Ok rep => Some (r_status rep) | Err _ => None end.

Lemma guess_next n l s :
  guesses sampleApp guesser (guessRun n).1.2 guessTime l -> guessStatus (S n) = Some s ->
  guesses sampleApp guesser (guessRun (S n)).1.2 guessTime (if negb (s =? 429) then (l ++ [guessTime])%list else l).
Proof.
  unfold guessStatus. intros Hg. destruct ((guessRun (S n)).1.1) as [rep|e] eqn:Hr; [|done]. intros [= <-].
  eapply (guesses_wrong sampleApp guesser _ guessTime l guessForm _ _ guessTime guessTime rep); try done.
  change (guessRun (S n)) with (pexec (login sampleApp guessForm) (guessRun n).1.2) in *. rewrite <- Hr. apply pexec_parts.
Qed.

Lemma eight_guesses : guesses sampleApp guesser (guessRun 9).1.2 guessTime (repeat guessTime 8).
Proof.
  assert (guesses sampleApp guesser (guessRun 0).1.2 guessTime []) as Hg by (apply guesses_none; reflexivity).
  do 8 (apply (guess_next _ _ 200) in Hg; [|vm_compute; reflexivity]). apply (guess_next _ _ 429) in Hg; [exact Hg|vm_compute; reflexivity].
Qed.

