(* ===== verification/PageFacts.v ===== *)
(** * PageFacts: the pages a browser gets

    No value changes a page's markup, and the forms of a page are the ones the
    panel will accept from the session it was shown to. *)
From S2P Require Import Prelude GoStrings GoPath GoFloat GoTime GoSha256 GoBase64 GoAes Effects World Core CoreFacts Json GoFloatText CoreJson CoreJsonFacts Worker Samples Operations Settings Server Store ActivityLog I18n Messages Panel PanelFacts Link Session Pages PanelEffects Web WebFacts Handler HandlerFacts SessionFacts Views Html HtmlFacts Templates TemplatesFacts.
Set Warnings "-register-all".

(** ** Markup *)

(** The token in a page's forms. *)
Definition contentToken `{Templ} (c : content) : string :=
  match c with
  | Page p => ResolveAttributeValue (s_csrf p)
  | FilesPage p => ResolveAttributeValue (f_csrf p)
  | _ => ""
  end.

(** C32: no data becomes markup.  Whatever a page is filled with, site titles,
    domains, error texts, file names, what the activity log says, the browser
    reads the tags and attribute names of the template: the page with every
    value left out has the same.  No value is a script, every event handler and
    script address is the panel's own, and a link or a form leads to a path of
    the panel, to the web, or nowhere. *)
Theorem page_confined `{TemplLaws} `{Unicode} `{Zone} c h :
  contentHtml c = Some h ->
  exists ts ts0, document (bytes h) = Some ts /\ document (bytes (blank h)) = Some ts0 /\
    map skeleton ts = map skeleton ts0 /\ forallb tagOK ts = true.
Proof.
  intros Hh. destruct (walks_document (contentToken c) h) as (ts&ts0&?&?&?&?&_); [|by exists ts, ts0].
  apply (walks_content _ c); [by destruct c|done].
Qed.

(** ** Forms *)

(** A token has nothing to escape. *)
Lemma token_plain a r : plain (tokenFor a r) = true.
Proof.
  unfold tokenFor. destruct (web.CookieValue r sessionCookie); [|done]. unfold plain, csrf, sign, RawURLEncode.
  rewrite strForall_map. apply encode64_chars; [|done]. intros n Hn.
  assert (forallb (fun k => negb (special (urlChar (encodeChar (Z.of_nat k))))) (seq 0 64) = true) as Hall by (vm_compute; reflexivity).
  rewrite forallb_forall in Hall. rewrite <- (Z2Nat.id n) by lia. apply Hall, in_seq. lia.
Qed.

(** C33: the forms of a page are accepted.  Every form that posts, on any page
    the panel answers a request with, carries the form token of the session the
    request came with (the login form needs none, and forms do not nest); and
    what is sent back with that token and the same session passes the check
    against forged requests. *)
Theorem page_forms_accepted `{TemplLaws} `{Unicode} `{Zone} `{Passwords} `{Env} `{Peer} a busy r w rep w' t h :
  pexec (panelServeHTTP a busy r) w = (Ok rep, w', t) -> contentHtml (r_content rep) = Some h ->
  (exists ts, document (bytes h) = Some ts /\ protected (tokenFor a r) ts = true) /\
  (forall r' session, web.CookieValue r sessionCookie = Some session -> web.CookieValue r' sessionCookie = Some session ->
     is_ok (web.Form r') = true -> web.FormValue r' "csrf" = tokenFor a r -> checkCSRF a r' = true).
Proof.
  intros Hx Hh. split.
  - destruct (walks_document (tokenFor a r) h) as (ts&ts0&?&_&_&_&?); [|by exists ts].
    assert (tokenOf a r (r_content rep)) as Ht by (by eapply panelServeHTTP_token).
    apply (walks_content _ (r_content rep)); [|done].
    destruct (r_content rep); try done; cbn [tokenOf] in Ht; [intros Hl; rewrite (Ht Hl)|rewrite Ht]; apply Attribute_plain, token_plain.
  - intros r' session Hc Hc' Hf Hv. unfold checkCSRF. rewrite Hc'. destruct (web.Form r') eqn:Ef; [|done].
    unfold tokenFor in Hv. rewrite Hc in Hv. rewrite Hv. apply String.eqb_refl.
Qed.

(** ** A library of the kind *)

(** [html.EscapeString], classes one after the other, URLs kept. *)
Definition escapeChar (c : ascii) : string :=
  if Ascii.eqb c "<" then "&lt;" else if Ascii.eqb c ">" then "&gt;" else if Ascii.eqb c "&" then "&amp;"
  else if Ascii.eqb c "'" then "&#39;" else if Ascii.eqb c quoteChar then "&#34;" else String c "".
Fixpoint escape (s : string) : string := match s with "" => "" | String c r => escapeChar c +:+ escape r end.
Fixpoint className (c : cssClass) : string :=
  match c with
  | Class_ n => n
  | KV n on => if on then n else ""
  | Classes l => join " " (map className l)
  end.
Definition sampleTempl : Templ := {|
  EscapeString := escape; ResolveAttributeValue := escape; URL s := s;
  CSSClasses l := className (Classes l); RenderCSSItems _ := ""; JoinInt := itoa |}.

Lemma inert_app s t : inert (s +:+ t) = inert s && inert t.
Proof. apply strForall_app. Qed.
Lemma escapeChar_inert c : inert (escapeChar c) = true.
Proof. by destruct c as [[] [] [] [] [] [] [] []]. Qed.
Lemma escapeChar_plain c : special c = false -> escapeChar c = String c "".
Proof. by destruct c as [[] [] [] [] [] [] [] []]. Qed.
Lemma escape_inert s : inert (escape s) = true.
Proof. induction s as [|c s IH]; [done|]. cbn [escape]. by rewrite inert_app, escapeChar_inert, IH. Qed.
Lemma escape_plain s : plain s = true -> escape s = s.
Proof.
  unfold plain. induction s as [|c s IH]; [done|]. cbn [escape strForall]. intros [Hc Hs]%andb_prop. apply negb_true_iff in Hc.
  by rewrite (escapeChar_plain _ Hc), IH.
Qed.
Lemma escape_app s t : escape (s +:+ t) = escape s +:+ escape t.
Proof. induction s as [|c s IH]; [done|]. cbn. by rewrite IH, app_assoc_str. Qed.

Lemma sampleLaws : @TemplLaws sampleTempl.
Proof.
  split; cbn; [apply escape_inert|apply escape_app|apply escape_plain|apply escape_inert|apply escape_plain|by left|done].
Qed.

#[local] Existing Instance asciiUnicode.
#[local] Existing Instance sampleTempl.
#[local] Existing Instance sampleLaws.
#[local] Instance utc : Zone := {| localOffset _ := 0 |}.
#[local] Instance anyPassword : Passwords := {| passwordMatches _ _ := false |}.

(** The settings, asked for by a session of the sample panel. *)
Definition sampleSession : string := web.Value (newSession sampleApp 1700000000000000000).
Definition settingsRequest : web.request :=
  web.Request "GET" "/settings" "/settings" [] (Ok []) [(sessionCookie, sampleSession)] "en" "192.0.2.1" None.
Definition settingsWorld : @pworld scripted samplePeer := panelWorld ∅ [] (sampleWorld [] (fun _ => "")).
Definition settingsRun : result reply * @pworld scripted samplePeer * list pevent := pexec (panelServeHTTP sampleApp false settingsRequest) settingsWorld.
Definition settingsReply : reply := match fst (fst settingsRun) with Ok rep => rep | Err _ => NotFound end.
Definition settingsHtml : html := default [] (contentHtml (r_content settingsReply)).

Lemma triple_eq {A B C} (x : A * B * C) r : x.1.1 = r -> x = (r, x.1.2, x.2).
Proof. destruct x as [[? ?] ?]. cbn. by intros ->. Qed.
Lemma settings_ok : (pexec (panelServeHTTP sampleApp false settingsRequest) settingsWorld).1.1 = Ok settingsReply.
Proof. vm_compute. reflexivity. Qed.
Lemma settings_answered :
  pexec (panelServeHTTP sampleApp false settingsRequest) settingsWorld = (Ok settingsReply, settingsRun.1.2, settingsRun.2).
Proof. unfold settingsRun. apply triple_eq. exact settings_ok. Qed.
Lemma settings_html : contentHtml (r_content settingsReply) = Some settingsHtml.
Proof. vm_compute. reflexivity. Qed.

(** A login page whose message is an attack. *)
Definition attacked : content :=
  Page (Shown (View false "dashboard" "" "" (raw "`><script>alert(1)</script>")) "en" "ltr" (raw "/?a=`<b>") "" "" [] [] None "" None Mail.zero [] ∅ ∅ "" "").
Definition attackedHtml : html := default [] (contentHtml attacked).

Lemma page_confined_witness :
  contentHtml attacked = Some attackedHtml /\ contains (bytes attackedHtml) "&gt;&lt;script&gt;alert(1)" = true /\
  exists ts ts0, document (bytes attackedHtml) = Some ts /\ document (bytes (blank attackedHtml)) = Some ts0 /\
    map skeleton ts = map skeleton ts0 /\ forallb tagOK ts = true.
Proof. split; [reflexivity|]. split; [vm_compute; reflexivity|]. apply (page_confined attacked). reflexivity. Defined.

Lemma page_forms_accepted_witness :
  contentHtml (r_content settingsReply) = Some settingsHtml /\
  exists ts, document (bytes settingsHtml) = Some ts /\ protected (tokenFor sampleApp settingsRequest) ts = true.
Proof.
  split; [exact settings_html|].
  exact (proj1 (page_forms_accepted sampleApp false settingsRequest settingsWorld settingsReply _ _ settingsHtml settings_answered settings_html)).
Defined.
