(* ===== verification/ActionFacts.v ===== *)
(** * ActionFacts: what the actions on a site may do

    Every action looks at the stored site first, and what it asks the worker to
    destroy or overwrite was confirmed in the form.  What the file manager asks
    about always names a valid relative path, also when it shows a directory
    again after a failure. *)
From S2P Require Import Prelude GoStrings GoPath GoFloat GoTime GoUrl GoBase64 Effects World Core CoreFacts Json GoFloatText CoreJson CoreJsonFacts Worker Storage Capacity Operations Settings Files Server Store ActivityLog I18n Messages Panel PanelFacts Reconcile Schedule Session Pages PanelEffects Web WebFacts Handler.
Set Warnings "-register-all".

(** The requests to the worker that neither delete nor overwrite. *)
Definition ordinary : list string :=
  looking ++ ["/create"; "/backup"; "/update"; "/resources"; "/database"; "/mail"; "/files/write"; "/files/mkdir"; "/files/delete"; "/files/move"; "/files/read"].

Definition confirmedBy (r : web.request) (site : Site.t) : Prop := web.FormValue r "confirm" = Site.Domain site.

(** A backup of the form that the panel lists. *)
Definition listedBackup (r : web.request) (site : Site.t) : Prop :=
  hasBackup (web.FormValue r "backup_id") site = true /\ ValidBackupID (web.FormValue r "backup_id") = true.

(** What an action on [site] may ask. *)
Definition permitted (r : web.request) (site : Site.t) (e : pevent) : Prop :=
  match e with
  | PEv _ => True
  | PECall path body _ _ =>
      path ∈ ordinary \/
      path = "/action" /\ (exists act, body = printJSON (idActionJSON (Site.ID site) act) /\
        (act ∈ ["start"; "stop"; "prepare-restore"] \/ act = "delete" /\ confirmedBy r site)) \/
      path = "/backup/delete" /\ confirmedBy r site /\ listedBackup r site \/
      path = "/restore" /\ confirmedBy r site /\ listedBackup r site
  end.

Section actions.
Context `{Env} `{Peer} (a : app) `{Unicode} `{Passwords} (r : web.request) (site : Site.t).

Let P := permitted r site.

Lemma permitted_harmless e : harmless e -> P e.
Proof. destruct e as [e|path body id reply]; [done|]. intros [_ Hp]. left. unfold ordinary. apply elem_of_app. by left. Qed.

Lemma permitted_ordinary path body id reply : bool_decide (path ∈ ordinary) = true -> P (PECall path body id reply).
Proof. intros Hp%bool_decide_eq_true. by left. Qed.

Lemma permitted_host e : P (PEv e).
Proof. done. Qed.
End actions.

(** The walk through a handler for [permitted]. *)
Ltac permitted_call := try (apply permitted_ordinary; vm_compute; reflexivity).
Ltac permitted_step :=
  match goal with
  | |- raises _ (storedOr _ _ _ _) => apply raises_stored; [done|]
  | |- raises _ (record_ _ _ _ _ _) => apply raises_record; done
  | |- raises _ (putSite _ _) => apply raises_put; done
  | |- raises _ (trackUnit _ _ _ _ _) => apply raises_trackUnit; [done|intros; permitted_call]
  | |- raises _ (track _ _ _ _ _ _) => apply raises_track; [done|intros; permitted_call]
  | |- raises _ (callTracked _ _ _ _ _ _ _) => apply raises_tracked; [done|intros; permitted_call]
  | |- raises _ (callWorker _ _ _ _ _) => apply raises_call; intros; permitted_call
  | |- raises _ (render _ _ _) => apply render_looks; apply permitted_harmless
  | |- raises _ (redirectWithFlashTo _ _ _) => apply redirect_quiet
  | |- raises _ (host _) => apply raises_here; done
  | |- _ => raises_step
  end.
Ltac permitted_auto := cbv zeta; repeat permitted_step.

Section handlers.
Context `{Env} `{Peer} (a : app) `{Unicode} `{Passwords} (r : web.request).

Lemma backupSite_permitted s s' : raises (permitted r s) (backupSite a r s').
Proof. unfold backupSite, performBackup. permitted_auto. Qed.
Lemma saveBackupSchedule_permitted s s' : raises (permitted r s) (saveBackupSchedule a r s').
Proof. unfold saveBackupSchedule. permitted_auto. Qed.
Lemma saveResources_permitted s s' : raises (permitted r s) (saveResources a r s').
Proof. unfold saveResources, formResources. permitted_auto. Qed.

Lemma deleteBackup_permitted s : raises (permitted r s) (deleteBackup a r s).
Proof.
  unfold deleteBackup. cbv zeta. destruct (String.eqb_spec (web.FormValue r "confirm") (Site.Domain s)) as [Hc|]; cbn [negb orb]; [|permitted_auto].
  destruct (ValidBackupID _) eqn:Hv; cbn [negb]; [|permitted_auto]. destruct (hasBackup _ s) eqn:Hb; cbn [negb]; [|permitted_auto].
  unfold deleteBackupCall. permitted_auto. right. right. left. done.
Qed.

Lemma withSafety_permitted s s' id what onError k :
  (forall s' e, raises (permitted r s) (onError s' e)) -> (forall s', raises (permitted r s) (k s')) -> raises (permitted r s) (withSafety a r s' id what onError k).
Proof. intros He Hk. unfold withSafety. permitted_auto. Qed.

Lemma updateSite_permitted s s' : raises (permitted r s) (updateSite a r s').
Proof.
  unfold updateSite, safetyBackup. permitted_auto. apply withSafety_permitted; [intros; permitted_auto|]. intros. permitted_auto.
Qed.

Lemma restoreSite_permitted s : raises (permitted r s) (restoreSite a r s).
Proof.
  unfold restoreSite, safetyBackup. cbv zeta. destruct (negb (restorable s)); [permitted_auto|].
  destruct (String.eqb_spec (web.FormValue r "confirm") (Site.Domain s)) as [Hc|]; cbn [negb orb]; [|permitted_auto].
  destruct (hasBackup _ s) eqn:Hb; [destruct (ValidBackupID _) eqn:Hv|]; cbn [negb orb]; [|permitted_auto..].
  permitted_auto.
  - right. left. split; [done|]. match goal with E : Ok _ = Ok _ |- _ => injection E as <- end. eexists. split; [reflexivity|]. left. set_solver.
  - apply withSafety_permitted; [intros; permitted_auto|]. intros. permitted_auto. right. right. right. done.
Qed.

Lemma fileAction_permitted s s' action : raises (permitted r s) (fileAction a r s' action).
Proof. unfold fileAction, changeFile, fileCall, renderFiles. permitted_auto. Qed.

Lemma applySiteMail_permitted s s' enabled : raises (permitted r s) (applySiteMail a s' enabled).
Proof. unfold applySiteMail. permitted_auto. Qed.

Lemma actionFailed_permitted s s' action e : raises (permitted r s) (actionFailed a r action s' e).
Proof. unfold actionFailed. permitted_auto. Qed.

Lemma retrySite_permitted s s' : raises (permitted r s) (retrySite a r s').
Proof. unfold retrySite, somePassword. permitted_auto. apply actionFailed_permitted. Qed.

Lemma serviceAction_permitted s action :
  action ∈ ["start"; "stop"] \/ action = "delete" /\ confirmedBy r s -> raises (permitted r s) (serviceAction a r s action).
Proof.
  intros Ha. unfold serviceAction, actionStored, startedMail.
  assert (forall s' : Site.t, Site.ID s' = Site.ID s -> raises (permitted r s) (trackUnit a s' action "/action" (Ok (idActionJSON (Site.ID s') action)))) as Hask.
  { intros s' Hid. apply raises_trackUnit; [done|]. intros j operationID reply [= <-]. right. left. split; [done|]. exists action. rewrite Hid.
    split; [done|]. destruct Ha as [Ha|Ha]; [left; set_solver|by right]. }
  cbv zeta. destruct (String.eqb action "delete"); [apply raises_stored; [done|]|]; (apply raises_bind; [by apply Hask|]);
    intros [s' [u|e]]; permitted_auto; first [apply actionFailed_permitted | apply applySiteMail_permitted].
Qed.

Lemma chosenAction_permitted s action : raises (permitted r s) (chosenAction a r s action).
Proof.
  unfold chosenAction. destruct (String.eqb action "resources"); [apply saveResources_permitted|].
  destruct (isFileAction action); [apply fileAction_permitted|].
  destruct (String.eqb action "database-start" || _); [unfold databaseManager; permitted_auto|].
  destruct (String.eqb action "mail-enable" || _); [unfold mailSiteAction; permitted_auto; apply applySiteMail_permitted|].
  destruct (String.eqb action "delete" && negb _) eqn:Hd; [permitted_auto|].
  destruct (String.eqb action "backup"); [apply backupSite_permitted|].
  destruct (String.eqb action "backup-schedule"); [apply saveBackupSchedule_permitted|].
  destruct (String.eqb action "backup-delete"); [apply deleteBackup_permitted|].
  destruct (String.eqb action "update"); [apply updateSite_permitted|].
  destruct (String.eqb action "restore"); [apply restoreSite_permitted|].
  destruct (String.eqb action "retry"); [apply retrySite_permitted|].
  destruct (_ || String.eqb action "delete") eqn:Ha; [|permitted_auto].
  apply serviceAction_permitted. apply orb_true_iff in Ha as [Ha|Ha].
  { left. apply orb_true_iff in Ha as [->%String.eqb_eq| ->%String.eqb_eq]; set_solver. }
  right.
  rewrite Ha in Hd. apply String.eqb_eq in Ha. apply negb_false_iff, String.eqb_eq in Hd. done.
Qed.

End handlers.

(** ** The file manager's forms stay below the site *)


(** *** The directory of a valid path *)
Lemma contains_slash s : contains s "/" = negb (noChar slash s).
Proof.
  unfold noChar. induction s as [|c s IH]; [done|]. cbn [contains strForall]. rewrite IH, negb_andb, negb_involutive. unfold hasPrefix. cbn [String.prefix].
  destruct (ascii_dec "/" c) as [<-|Hc]; [by rewrite Ascii.eqb_refl; destruct s|].
  destruct (Ascii.eqb_spec c slash) as [->|]; done.
Qed.

Lemma noChar_app c s t : noChar c (s +:+ t) = noChar c s && noChar c t.
Proof. apply strForall_app. Qed.

Lemma upToSlash_none x : noChar slash x = true -> upToSlash x = "".
Proof. destruct x as [|c x]; [done|]. intros Hx. cbn [upToSlash]. by rewrite contains_slash, Hx. Qed.

Lemma upToSlash_app s x : noChar slash x = true -> upToSlash (s +:+ "/" +:+ x) = s +:+ "/".
Proof.
  intros Hx. induction s as [|c s IH].
  - change ("" +:+ "/" +:+ x) with (String slash x). cbn [upToSlash]. rewrite contains_slash. cbn. by rewrite upToSlash_none.
  - change (String c s +:+ "/" +:+ x) with (String c (s +:+ "/" +:+ x)). cbn [upToSlash]. rewrite contains_slash.
    change (String c (s +:+ "/" +:+ x)) with (String c s +:+ "/" +:+ x). rewrite !noChar_app. rewrite IH. by rewrite andb_false_r.
Qed.

Lemma clean_trailing l :
  l <> [] -> forallb plainElem l = true -> Forall (fun x => noChar slash x = true) l -> hasPrefix (join "/" l) "/" = false ->
  GoPath.clean (join "/" l +:+ "/") = join "/" l.
Proof.
  intros Hne Hp Hn Habs. unfold GoPath.clean. assert (join "/" l <> "") as Hj.
  { destruct l as [|x [|y l]]; [done| |].
    - unfold join. cbn. intros ->. cbn in Hp. done.
    - unfold join. cbn [String.concat]. intros He. destruct x; discriminate He. }
  destruct (String.eqb_spec (join "/" l +:+ "/") "") as [He|_]; [destruct (join "/" l); discriminate He|]. cbv zeta.
  assert (isAbs (join "/" l +:+ "/") = false) as ->.
  { unfold isAbs, hasPrefix in *. destruct (join "/" l) as [|c s]; [done|]. change (String c s +:+ "/") with (String c (s +:+ "/")).
    cbn [String.prefix] in *. destruct (ascii_dec "/" c); [by destruct s|done]. }
  assert (split slash (join "/" l +:+ "/") = (l ++ [""])%list) as ->.
  { rewrite <- (split_join slash (l ++ [""])%list); [|by destruct l|by apply Forall_app_2; [|repeat constructor]].
    change (String slash "") with "/". rewrite (join_app_slash l [""]) by done. f_equal. }
  assert (cleanElems false (l ++ [""])%list = l) as ->.
  { pose proof (cleanElems_plain false l Hp) as Hl. unfold cleanElems in *. rewrite foldl_app. cbn [foldl]. unfold cleanStep at 1. exact Hl. }
  by destruct (String.eqb_spec (join "/" l) "").
Qed.

Lemma containsAny_app s t chars : containsAny (s +:+ t) chars = containsAny s chars || containsAny t chars.
Proof. unfold containsAny. induction s as [|c s IH]; [done|]. cbn. by rewrite IH, orb_assoc. Qed.

Lemma parentDir_valid p : ValidRelativePath p false = true -> ValidRelativePath (parentDir p) true = true.
Proof.
  intros (Hne&Hlen&Hbad&Hplain)%ValidRelativePath_plain. rewrite ValidRelativePath_empty.
  pose proof (split_noChar slash p) as Hno. pose proof (join_split slash p) as Hj. pose proof (split_nonempty slash p) as Hsn.
  destruct (exists_last Hsn) as (l&x&Hl). rewrite Hl in *. apply Forall_app in Hno as [Hno Hx]. rewrite Forall_singleton in Hx.
  rewrite forallb_app in Hplain. apply andb_prop in Hplain as [Hplain _]. change (String slash "") with "/" in Hj.
  unfold parentDir, dir. destruct l as [|y l]; [unfold join in Hj; cbn in Hj; subst p; by rewrite (upToSlash_none x)|].
  rewrite join_app_slash in Hj by done. change (join "/" [x]) with x in Hj. set (d := join "/" (y :: l)) in *.
  assert (split slash d = y :: l) as Hd by (by apply split_join).
  assert (d <> "") as Hdn by (intros E; rewrite E in Hd; injection Hd as <- <-; done).
  assert (hasPrefix d "/" = false) as Hpre by (apply hasPrefix_slash_split; [done|by rewrite Hd]).
  rewrite <- Hj, upToSlash_app by done. unfold d at 1 2 3 4. rewrite clean_trailing by done. fold d.
  rewrite plainElem_not_dot by (by rewrite Hd). apply orb_true_iff. right. apply ValidRelativePath_plain. rewrite Hd. split_and!; try done.
  - rewrite <- Hj in Hlen. unfold lenZ in *. rewrite length_app_str in Hlen. lia.
  - rewrite <- Hj, containsAny_app in Hbad. by apply orb_false_elim in Hbad as [? _].
Qed.

(** ** What is asked about files *)

(** A question about a file of [site]: its paths are valid, the root being the
    empty one for a listing only, and its contents within the limit. *)
Definition confined (site : Site.t) (e : pevent) : Prop :=
  match e with
  | PEv _ => False
  | PECall path body operationID _ =>
      operationID = "" /\ path ∈ ["/files/list"; "/files/write"; "/files/mkdir"; "/files/delete"; "/files/move"; "/files/read"] /\
      exists req, body = printJSON (fileRequestJSON req) /\ FileRequest.SiteID req = Site.ID site /\
        ValidRelativePath (FileRequest.Path req) (String.eqb path "/files/list") = true /\
        (FileRequest.Destination req = "" \/ ValidRelativePath (FileRequest.Destination req) false = true) /\
        lenZ (FileRequest.Content req) <= uploadLimit
  end.

Lemma joinRelative_valid directory name p :
  joinRelative directory name = Ok p -> ValidRelativePath directory true = true /\ ValidRelativePath p false = true.
Proof.
  unfold joinRelative. destruct (ValidRelativePath directory true); [|done]. destruct (String.eqb (base name) name); [|done].
  destruct (ValidRelativePath name false) eqn:Hn; [|done]. cbn [negb orb]. destruct (String.eqb directory ""); [by intros [= <-]|]. cbv zeta.
  destruct (ValidRelativePath (_ +:+ "/" +:+ _) false) eqn:Hj; [|done]. by intros [= <-].
Qed.

Section files.
Context `{Env} `{Peer} (a : app) `{Unicode} (r : web.request) (site : Site.t).

Lemma call_confined {A} path req expected (decode : string -> result A) :
  path ∈ ["/files/list"; "/files/write"; "/files/mkdir"; "/files/delete"; "/files/move"; "/files/read"] -> FileRequest.SiteID req = Site.ID site ->
  ValidRelativePath (FileRequest.Path req) (String.eqb path "/files/list") = true ->
  FileRequest.Destination req = "" \/ ValidRelativePath (FileRequest.Destination req) false = true -> lenZ (FileRequest.Content req) <= uploadLimit ->
  raises (confined site) (callWorker a path (Ok (fileRequestJSON req)) expected decode).
Proof. intros Hp Hs Hv Hd Hc. apply raises_call. intros j reply [= <-]. split; [done|]. split; [done|]. by exists req. Qed.

Lemma renderFiles_confined current e : ValidRelativePath current true = true -> raises (confined site) (renderFiles a r site current e).
Proof.
  intros Hc. unfold renderFiles. apply raises_bind; [|intros; apply raises_mret]. apply raises_try, call_confined; try done; [set_solver|by left].
Qed.

Lemma changeFile_confined path req directory what :
  path ∈ ["/files/write"; "/files/mkdir"; "/files/delete"; "/files/move"] -> FileRequest.SiteID req = Site.ID site ->
  ValidRelativePath (FileRequest.Path req) false = true -> ValidRelativePath directory true = true ->
  FileRequest.Destination req = "" \/ ValidRelativePath (FileRequest.Destination req) false = true -> lenZ (FileRequest.Content req) <= uploadLimit ->
  raises (confined site) (changeFile a r site path req directory what).
Proof.
  intros Hp Hs Hv Hdir Hd Hc. unfold changeFile. apply raises_bind; [|intros [u|e]; [apply raises_mret|by apply renderFiles_confined]].
  apply raises_try, call_confined; try done; [set_solver|]. assert (String.eqb path "/files/list" = false) as -> by (apply String.eqb_neq; set_solver). done.
Qed.

#[local] Ltac file_call := first [done | by (vm_compute; discriminate) | by left | by right | set_solver].

(** C31: the panel's file manager stays inside the site.  Whatever the form says
    and whatever the worker answers, an action on files asks about this site
    only, only with paths that stay below its root (also when it shows a
    directory again after a failure), with at most ten mebibytes, under no
    operation, and changes nothing on the panel's host. *)
Theorem fileAction_confined action w : Forall (confined site) (pexec (fileAction a r site action) w).2.
Proof.
  enough (raises (confined site) (fileAction a r site action)) as Hr by apply Hr.
  unfold fileAction. cbv zeta. set (path := web.FormValue r "path"). destruct (negb (isRunning site)); [apply raises_mret|].
  destruct (String.eqb action "upload").
  { destruct (web.Upload r) as [[name bytes]|]; [|apply raises_mret]. destruct (joinRelative path name) as [p|e] eqn:Hj; [|apply raises_mret].
    apply joinRelative_valid in Hj as [Hdir Hp]. destruct (Z.ltb_spec uploadLimit (lenZ bytes)); [apply raises_mret|].
    apply changeFile_confined; file_call. }
  destruct (String.eqb action "mkdir").
  { destruct (joinRelative path _) as [p|e] eqn:Hj; [|apply raises_mret]. apply joinRelative_valid in Hj as [Hdir Hp].
    apply changeFile_confined; file_call. }
  destruct (ValidRelativePath path false) eqn:Hp; cbn [negb]; [|apply raises_mret]. pose proof (parentDir_valid path Hp) as Hdir.
  destruct (String.eqb action "file-delete"); [apply changeFile_confined; file_call|].
  destruct (String.eqb action "file-move").
  { destruct (negb _); [apply raises_mret|]. destruct (joinRelative _ (base path)) as [p|e] eqn:Hj; [|apply raises_mret].
    apply joinRelative_valid in Hj as [_ Hd]. destruct (String.eqb p path); [apply raises_mret|].
    apply changeFile_confined; file_call. }
  destruct (String.eqb action "download"); [|apply raises_mret].
  apply raises_bind; [|intros [f|e]; [apply raises_mret|by apply renderFiles_confined]].
  apply raises_try, call_confined; file_call.
Qed.
End files.
