(* ===== verification/SafetyFacts.v ===== *)
(** * SafetyFacts: nothing is overwritten before it is saved

    A restore and an update are asked of the worker only when a safety backup
    was confirmed and the stored site lists it. *)
From S2P Require Import Prelude GoStrings Utf8Facts GoPath GoFloat GoTime GoUrl GoBase64 Effects World Core CoreFacts Json GoFloatText CoreJson CoreJsonFacts Worker Samples Storage Capacity Operations Settings Files Server Store StoreFacts ActivityLog I18n Messages Panel PanelFacts Link ReconcileFacts Schedule Session Pages PanelEffects Web WebFacts.
Set Warnings "-register-all".

(** ** An event of a sequence of traces *)
Lemma event_after {A} (X Y t1 t2 : list A) e :
  e ∉ X -> (X ++ Y = t1 ++ e :: t2)%list -> exists t1', t1 = (X ++ t1')%list /\ Y = (t1' ++ e :: t2)%list.
Proof.
  revert t1. induction X as [|x X IH]; intros t1 He Heq; [by exists t1|].
  destruct t1 as [|y t1]; injection Heq as -> Heq; [set_solver|]. destruct (IH t1) as (t1'&->&->); [set_solver|done|]. by exists t1'.
Qed.

Lemma event_before {A} (X Y t1 t2 : list A) e :
  e ∉ Y -> (X ++ Y = t1 ++ e :: t2)%list -> exists t2', X = (t1 ++ e :: t2')%list.
Proof.
  revert X. induction t1 as [|y t1 IH]; intros X He Heq; destruct X as [|x X]; cbn in *.
  - subst Y. set_solver.
  - injection Heq as -> _. by exists X.
  - subst Y. set_solver.
  - injection Heq as -> Heq. destruct (IH X He Heq) as (t2'&->). by exists t2'.
Qed.

(** A trace without calls of [path]. *)
Definition notAsked (path : string) (e : pevent) : Prop := match e with PEv _ => True | PECall p _ _ _ => p <> path end.

Lemma notAsked_spec path t body id reply : Forall (notAsked path) t -> PECall path body id reply ∉ t.
Proof. intros Ht Hin. rewrite Forall_forall in Ht. by apply Ht in Hin. Qed.

Lemma notAsked_harmless path e : path ∉ looking -> harmless e -> notAsked path e.
Proof. destruct e; [done|]. intros Hp [_ Hl] ->. done. Qed.

Lemma not_looking path : bool_decide (path ∈ looking) = false -> path ∉ looking.
Proof. by intros Hp%bool_decide_eq_false. Qed.

Lemma in_trace {A} (e : A) t1 t2 : e ∈ (t1 ++ e :: t2)%list.
Proof. apply elem_of_app. right. left. Qed.

Section safety.
Context `{Env} `{Peer} (a : app) `{Unicode} (b : string).
Hypothesis Hpath : storePath a = dir (storePath a) +/+ b.

(** The store lists the safety backup [s] of the site [id], whose marker names
    the operation [operationID]. *)
Definition saved (id operationID : string) (backups : list Backup.t) (s : Backup.t) (fs : fsmap) : Prop :=
  exists m site op, represents (storePath a) m fs /\ m !! id = Some site /\ Site.Backups site = (backups ++ [s])%list /\
    Site.Operation site = Some op /\ pendingOp op = true /\ Operation.ID op = operationID.

(** The worker confirmed the safety backup [s] of [site] in [t]. *)
Definition confirmedSafety (site : Site.t) (s : Backup.t) (t : list pevent) : Prop :=
  exists site' id operationID j text x, Site.ID site' = Site.ID site /\ Site.Backups site' = Site.Backups site /\
    backupRequestJSON (BackupRequest.mk site' id) = Ok j /\ PECall "/backup" (printJSON j) operationID (inr (200, text)) ∈ t /\
    reads backupFields zeroBackup text = Ok x /\ s = Backup.mk (Backup.ID x) (Backup.CreatedAt x) BackupSourceSafety.

(** A tracked call that succeeded: the stored site is the one given, with the
    marker, and the site returned differs in its operation only. *)
Lemma tracked_Ok {A} site kind path body expected (decode : string -> result A) m w site' x w' t :
  holds a m w -> siteOK site = true -> validUTF8 kind = true ->
  pexec (callTracked a site kind path body expected decode) w = (Ok (site', Ok x), w', t) ->
  exists op op' j reply, body = Ok j /\ asked t = [(path, printJSON j, Operation.ID op, reply)] /\ answerOf expected decode reply = Ok x /\
    site' = setOperation (Some op) site /\ operationOK op = true /\ holds a (markedBy site op' m) w'.
Proof.
  intros Hm Hs Hk Hx. apply pexec_fs in Hx as Hfs. eapply (exec_callTracked a b Hpath) in Hx as [Hcov (Hl&site''&outcome&[= <- <-]&Hout)]; [|done..].
  destruct Hout as (op&q&reply&->&_&_&Hok&Hq&Hans). destruct Hl as [Hl|(j&id&reply'&->&Hl)]; rewrite Hq in Hl; [done|]. injection Hl as -> <- <-.
  destruct (Hcov t) as [[Hnil _]|(op'&_&_&_&_&Hrep)]; [done|by rewrite Hq in Hnil|]. exists op, op', j, reply. split_and!; try done.
  unfold holds. by rewrite Hfs.
Qed.

(** When a tracked call asks, the marker is in the store. *)
Lemma tracked_marker {A} site kind path body expected (decode : string -> result A) m w r w' t1 t2 q j id reply :
  holds a m w -> siteOK site = true -> validUTF8 kind = true ->
  pexec (callTracked a site kind path body expected decode) w = (r, w', (t1 ++ PECall q j id reply :: t2)%list) ->
  exists op, pendingOp op = true /\ Operation.ID op = id /\
    represents (storePath a) (markedBy site op m) (replay (hostEvents t1) (w_fs (p_host w))).
Proof.
  intros Hm Hs Hk Hx. eapply (exec_callTracked a b Hpath) in Hx as [Hcov _]; [|done..].
  destruct (Hcov (t1 ++ [PECall q j id reply])%list) as [[Hnil _]|(op&Hp&_&_&Hid&Hrep)].
  { exists t2. by rewrite <- app_assoc. }
  { rewrite asked_app in Hnil. by apply app_nil in Hnil as [_ Hnil]. }
  rewrite asked_app, Forall_app in Hid. destruct Hid as [_ Hid]. apply Forall_cons_1 in Hid as [Hid _]. cbn in Hid.
  exists op. split_and!; try done. rewrite hostEvents_app in Hrep. cbn in Hrep. by rewrite app_nil_r in Hrep.
Qed.

Lemma siteOK_operation o s : siteOK s = true -> operationOK o = true -> siteOK (setOperation (Some o) s) = true.
Proof. intros Hs Ho. apply siteOK_split in Hs as Hp. apply siteOK_health in Hs as Hh. by apply (siteOK_parts s); try apply Hp. Qed.

Lemma siteOK_listed x s : siteOK s = true -> backupOK x = true -> siteOK (addToList x s) = true.
Proof.
  intros Hs Hx. apply siteOK_split in Hs as Hp. apply siteOK_health in Hs as Hh. destruct Hp as (Hb&?&?&?). apply (siteOK_parts s); try done.
  change (Site.Backups (addToList x s)) with (Site.Backups s ++ [x])%list. rewrite forallb_app, Hb. cbn [forallb]. by rewrite Hx.
Qed.

Lemma answerOf_Ok {A} (decode : string -> result A) reply x : answerOf 200 decode reply = Ok x -> exists text, reply = inr (200, text) /\ decode text = Ok x.
Proof.
  destruct reply as [|[status text]]; [done|]. cbn. destruct (Z.eqb_spec status 200) as [->|]; [|done]. intros Hd. by exists text.
Qed.

(** [withSafety] reaches its continuation only with the safety backup
    confirmed, and stored when its identifier can be. *)
Lemma withSafety_first r site id what onError k path m w x w' t1 t2 body operationID reply :
  holds a m w -> siteOK site = true -> path ∉ looking -> path <> "/backup" -> (forall s e, raises (notAsked path) (onError s e)) ->
  pexec (withSafety a r site id what onError k) w = (x, w', (t1 ++ PECall path body operationID reply :: t2)%list) ->
  exists s op ta t1' w2, confirmedSafety site s ta /\ operationOK op = true /\ t1 = (ta ++ t1')%list /\
    let site2 := addToList s (setOperation (Some op) site) in
    pexec (k site2) w2 = (x, w', (t1' ++ PECall path body operationID reply :: t2)%list) /\
    w_fs (p_host w2) = replay (hostEvents ta) (w_fs (p_host w)) /\
    (backupOK s = true -> exists m2, holds a m2 w2).
Proof.
  intros Hm Hs Hlook Hnb Herr Hx. unfold withSafety in Hx. remember (t1 ++ PECall path body operationID reply :: t2)%list as t eqn:Ht.
  apply pexec_bind in Hx as [(e&Hx&_)|([site1 outcome]&w1&ta&tb&Htr&Hx&->)].
  { destruct (always_exec _ _ _ _ _ _ (always_track a site "safety-backup" "/backup" _ _) Hx) as (?&[=]&_). }
  assert (PECall path body operationID reply ∉ ta) as Hna.
  { apply (notAsked_spec path). eapply raises_exec; [|exact Htr]. apply raises_track; [done|]. intros j o rep _. cbn. congruence. }
  apply event_after in Ht as (t1'&->&->); [|done]. pose proof (pexec_fs _ _ _ _ _ Htr) as Hfs.
  destruct outcome as [x0|e].
  2: { exfalso. apply (notAsked_spec path (t1' ++ PECall path body operationID reply :: t2) body operationID reply); [|apply in_trace].
    eapply raises_exec; [|exact Hx]. apply raises_bind; [apply Herr|]. intros _. apply render_looks. intros e'. by apply notAsked_harmless. }
  unfold track in Htr. eapply tracked_Ok in Htr as (op&op'&j&rep&Hj&Hasked&Hans&->&Hop&Hm1); [|done..].
  apply answerOf_Ok in Hans as (text&->&Hread). set (s := Backup.mk (Backup.ID x0) (Backup.CreatedAt x0) BackupSourceSafety) in *.
  set (site2 := addToList s (setOperation (Some op) site)) in *. cbv zeta in Hx.
  apply pexec_try_bind in Hx as (saved_&w2&tp&tc&Hput&Hx&Heq).
  assert (asked tp = []) as Hpn.
  { unfold putSite in Hput. apply pexec_host_inv in Hput as (th&_&->&_&_). apply asked_host. }
  assert (PECall path body operationID reply ∉ tp) as Hnp.
  { intros Hin. apply list_elem_of_split in Hin as (l1&l2&->). rewrite asked_app in Hpn. by apply app_nil in Hpn as [_ Hpn]. }
  symmetry in Heq. apply event_after in Heq as (t1''&->&->); [|done]. pose proof (pexec_fs _ _ _ _ _ Hput) as Hfs2.
  destruct saved_ as [u|e].
  2: { exfalso. apply (notAsked_spec path (t1'' ++ PECall path body operationID reply :: t2) body operationID reply); [|apply in_trace].
    eapply raises_exec; [|exact Hx]. apply render_looks. intros e'. by apply notAsked_harmless. }
  exists s, op, (ta ++ tp)%list, t1'', w2. split_and!; try done.
  - exists site, id, (Operation.ID op), j, text, x0. split_and!; try done. apply elem_of_app. left.
    assert (("/backup", printJSON j, Operation.ID op, inr (200, text)) ∈ asked ta) as Hin by (rewrite Hasked; set_solver).
    unfold asked in Hin. apply list_elem_of_omap in Hin as ([ev|p0 b0 i0 r0]&Hin&[=]). by subst.
  - by rewrite app_assoc.
  - cbv zeta. split; [exact Hx|]. split; [by rewrite hostEvents_app, replay_app, <- Hfs, <- Hfs2|]. intros Hb. eapply (exec_putSite a b Hpath site2) in Hput as (_&_&[[_ Hh]|[[e [=]] _]]&_); [|exact Hm1|by apply siteOK_listed, Hb; apply siteOK_operation].
    by eexists.
Qed.

(** The operation that overwrites: its marker is stored over the safety
    backup. *)
Lemma overwrite_after {A} site kind path body (rest : Site.t * result unit -> M pop A) m w x w' t1 t2 j id reply :
  holds a m w -> siteOK site = true -> validUTF8 kind = true -> (forall v, raises (notAsked path) (rest v)) ->
  pexec (v ← trackUnit a site kind path body; rest v) w = (x, w', (t1 ++ PECall path j id reply :: t2)%list) ->
  exists op, pendingOp op = true /\ Operation.ID op = id /\
    represents (storePath a) (markedBy site op m) (replay (hostEvents t1) (w_fs (p_host w))).
Proof.
  intros Hm Hs Hk Hrest Hx. remember (t1 ++ PECall path j id reply :: t2)%list as t eqn:Ht.
  apply pexec_bind in Hx as [(e&Hx&_)|(v&w1&ta&tb&Htr&Hx&->)].
  { destruct (always_exec _ _ _ _ _ _ (always_trackUnit a site kind path body) Hx) as (?&[=]&_). }
  apply event_before in Ht as (t2'&->); [|eapply notAsked_spec, raises_exec; [apply Hrest|exact Hx]].
  unfold trackUnit in Htr. by eapply tracked_marker in Htr.
Qed.

Lemma confirmedSafety_later site s t t' : (forall e, e ∈ t -> e ∈ t') -> confirmedSafety site s t -> confirmedSafety site s t'.
Proof. intros Ht (s'&id&o&j&text&x&?&?&?&Hin&?&?). exists s', id, o, j, text, x. split_and!; auto. Qed.

(** The stored site with the marker of the operation lists the backup. *)
Lemma saved_marked site op s m op' fs :
  represents (storePath a) (markedBy (addToList s (setOperation (Some op) site)) op' m) fs -> pendingOp op' = true ->
  saved (Site.ID site) (Operation.ID op') (Site.Backups site) s fs.
Proof.
  intros Hrep Hp. eexists _, _, op'. split; [exact Hrep|]. split; [apply lookup_insert_eq|]. by split_and!.
Qed.


(** The walk through what comes after. *)
#[local] Ltac tail_step :=
  match goal with
  | |- raises _ (storedOr _ _ _ _) => apply raises_stored; [done|]
  | |- raises _ (record_ _ _ _ _ _) => apply raises_record; done
  | |- raises _ (render _ _ _) => apply render_looks; intros ?; apply notAsked_harmless
  | |- raises _ (redirectWithFlashTo _ _ _) => apply redirect_quiet
  | |- _ => raises_step
  end.
#[local] Ltac tail := intros; cbv zeta; repeat tail_step; by apply not_looking.

Lemma restore_safety r site m w x w' t1 t2 body id reply :
  holds a m w -> siteOK site = true ->
  pexec (restoreSite a r site) w = (x, w', (t1 ++ PECall "/restore" body id reply :: t2)%list) ->
  exists s, confirmedSafety site s t1 /\
    (backupOK s = true -> saved (Site.ID site) id (Site.Backups site) s (replay (hostEvents t1) (w_fs (p_host w)))).
Proof.
  intros Hm Hs Hx. unfold restoreSite in Hx. cbv zeta in Hx. remember (t1 ++ PECall "/restore" body id reply :: t2)%list as t eqn:Ht.
  destruct (negb (restorable site)); [apply pexec_ret in Hx as (_&_&->); by destruct t1|].
  assert (forall P t v, (forall e, harmless e -> P e) -> pexec (render a r v) w = (x, w', t) -> Forall P t) as Hrender.
  { intros P t' v HP He. eapply raises_exec; [|exact He]. by apply render_looks. }
  destruct (negb (String.eqb _ _)).
  { exfalso. apply (notAsked_spec "/restore" t body id reply); [|subst t; apply in_trace]. eapply Hrender; [|exact Hx]. intros e. by apply notAsked_harmless, not_looking. }
  destruct (negb _ || negb _); [apply pexec_ret in Hx as (_&_&->); by destruct t1|].
  apply pexec_now_bind in Hx as (n&w0&Hx&Hw0&_). apply pexec_try_bind in Hx as (sid&w1&ta&tb&Hrand&Hx&->).
  apply raises_nothing in Hrand as [-> Hw1]; [|unfold safetyBackup; raises_auto]. cbn [List.app] in Ht. subst tb.
  destruct sid as [sid|e]; [|apply pexec_ret in Hx as (_&_&Hx); by destruct t1].
  assert (holds a m w1) as Hm1 by (unfold holds; by rewrite Hw1, Hw0). rewrite <- Hw0, <- Hw1.
  remember (t1 ++ PECall "/restore" body id reply :: t2)%list as t eqn:Ht.
  apply pexec_bind in Hx as [(e&Hx&_)|([site1 outcome]&w2&ta&tb&Htr&Hx&->)].
  { destruct (always_exec _ _ _ _ _ _ (always_trackUnit a site _ _ _) Hx) as (?&[=]&_). }
  assert (Forall (notAsked "/restore") ta) as Hna by (eapply raises_exec; [|exact Htr]; by apply raises_trackUnit).
  apply event_after in Ht as (t1'&->&->); [|by eapply notAsked_spec]. pose proof (pexec_fs _ _ _ _ _ Htr) as Hfs.
  destruct outcome as [[]|e].
  2: { exfalso. apply (notAsked_spec "/restore" (t1' ++ PECall "/restore" body id reply :: t2) body id reply); [|apply in_trace].
    eapply raises_exec; [|exact Hx]. apply render_looks. intros e'. by apply notAsked_harmless, not_looking. }
  unfold trackUnit in Htr. eapply tracked_Ok in Htr as (op&op'&j&rep&_&_&_&->&Hop&Hm2); [|done..].
  set (site1 := setStatus StatusStopped _ _) in Hx.
  assert (siteOK site1 = true) as Hs1.
  { apply siteOK_split in Hs as Hp. apply siteOK_status; [by apply siteOK_operation|done|apply Hp]. }
  eapply withSafety_first in Hx as (s&op2&tc&t1''&w3&Hconf&Hop2&->&Hx&Hfs3&Hm3); [|exact Hm2|exact Hs1|by apply not_looking|done|intros; apply raises_mret].
  exists s. change (confirmedSafety site s tc) in Hconf. split; [eapply confirmedSafety_later; [|exact Hconf]; intros e'; rewrite !elem_of_app; tauto|]. intros Hb. destruct (Hm3 Hb) as (m3&Hm3'). cbv zeta in Hx.
  eapply overwrite_after in Hx as (op3&Hp3&<-&Hrep); [|exact Hm3'|by apply siteOK_listed; [apply siteOK_operation|]|done|].
  - rewrite Hfs3 in Hrep. rewrite !hostEvents_app, !replay_app, <- Hfs. apply (saved_marked site1 op2 s m3 op3 _ Hrep Hp3).
  - intros [s' [u|e]]; tail.
Qed.

Lemma update_safety r site m w x w' t1 t2 body id reply :
  holds a m w -> siteOK site = true ->
  pexec (updateSite a r site) w = (x, w', (t1 ++ PECall "/update" body id reply :: t2)%list) ->
  exists s, confirmedSafety site s t1 /\
    (backupOK s = true -> saved (Site.ID site) id (Site.Backups site) s (replay (hostEvents t1) (w_fs (p_host w)))).
Proof.
  intros Hm Hs Hx. unfold updateSite in Hx. remember (t1 ++ PECall "/update" body id reply :: t2)%list as t eqn:Ht.
  destruct (negb (isRunning site)); [apply pexec_ret in Hx as (_&_&->); by destruct t1|].
  apply pexec_now_bind in Hx as (n&w0&Hx&Hw0&_). apply pexec_try_bind in Hx as (sid&w1&ta&tb&Hrand&Hx&->).
  apply raises_nothing in Hrand as [-> Hw1]; [|unfold safetyBackup; raises_auto]. cbn [List.app] in Ht. subst tb.
  destruct sid as [sid|e]; [|apply pexec_ret in Hx as (_&_&Hx); by destruct t1].
  assert (holds a m w1) as Hm1 by (unfold holds; by rewrite Hw1, Hw0). rewrite <- Hw0, <- Hw1.
  eapply withSafety_first in Hx as (s&op2&tc&t1''&w3&Hconf&Hop2&->&Hx&Hfs3&Hm3); [|exact Hm1|exact Hs|by apply not_looking|done|intros; by apply raises_record].
  exists s. split; [eapply confirmedSafety_later; [|exact Hconf]; intros e'; rewrite !elem_of_app; tauto|]. intros Hb.
  destruct (Hm3 Hb) as (m3&Hm3'). cbv zeta in Hx.
  eapply overwrite_after in Hx as (op3&Hp3&<-&Hrep); [|exact Hm3'|by apply siteOK_listed; [apply siteOK_operation|]|done|].
  - rewrite Hfs3 in Hrep. rewrite !hostEvents_app, !replay_app. apply (saved_marked site op2 s m3 op3 _ Hrep Hp3).
  - intros [s' [u|e]]; tail.
Qed.

(** C8: nothing is overwritten before it is saved.  When the panel asks the worker
    to restore a site or to update it, whatever the worker answered before: it
    has confirmed a safety backup of this site (a good reply to a backup request
    for it, earlier in the same action), and at that moment the stored site lists
    that backup after the ones it listed and carries the pending marker of the
    operation asked for (the backup's identifier being text the store can keep, as
    the worker's are). *)
Theorem safety_backup_first r site path m w x w' t1 t2 body id reply :
  holds a m w -> siteOK site = true ->
  (path = "/restore" /\ pexec (restoreSite a r site) w = (x, w', (t1 ++ PECall path body id reply :: t2)%list) \/
   path = "/update" /\ pexec (updateSite a r site) w = (x, w', (t1 ++ PECall path body id reply :: t2)%list)) ->
  exists s, confirmedSafety site s t1 /\
    (backupOK s = true -> saved (Site.ID site) id (Site.Backups site) s (replay (hostEvents t1) (w_fs (p_host w)))).
Proof. intros Hm Hs [[-> Hx]|[-> Hx]]; [by eapply restore_safety in Hx|by eapply update_safety in Hx]. Qed.
End safety.

(** ** Witness: a restore *)
#[local] Existing Instance asciiUnicode.

(** The first call of a path in a trace. *)
Fixpoint splitAt (path : string) (t : list pevent) : option (list pevent * (string * string * answered) * list pevent) :=
  match t with
  | [] => None
  | PECall p body id reply :: t' =>
      if String.eqb p path then Some ([], (body, id, reply), t')
      else match splitAt path t' with Some (t1, c, t2) => Some (PECall p body id reply :: t1, c, t2) | None => None end
  | e :: t' => match splitAt path t' with Some (t1, c, t2) => Some (e :: t1, c, t2) | None => None end
  end.

Lemma splitAt_spec path t : forall t1 body id reply t2,
  splitAt path t = Some (t1, (body, id, reply), t2) -> t = (t1 ++ PECall path body id reply :: t2)%list.
Proof.
  induction t as [|[e|p b0 i0 r0] t IH]; intros t1 body id reply t2; cbn [splitAt]; [done|..].
  - destruct (splitAt path t) as [[[u1 [[b i] rr]] u2]|] eqn:E; [|done]. intros [= <- <- <- <- <-]. by rewrite (IH _ _ _ _ _ eq_refl) at 1.
  - destruct (String.eqb_spec p path) as [->|]; [by intros [= <- <- <- <- <-]|].
    destruct (splitAt path t) as [[[u1 [[b i] rr]] u2]|] eqn:E; [|done]. intros [= <- <- <- <- <-]. by rewrite (IH _ _ _ _ _ eq_refl) at 1.
Qed.

(** A worker that confirms everything. *)
Definition willing : Peer := {|
  peer := unit;
  peer_call _ path _ _ :=
    (tt, if String.eqb path "/backup" then inr (200, raw "{`id`:`20240102T030405Z-0a1b2c3d`,`created_at`:`2024-01-02T03:04:05Z`}") else inr (204, ""));
|}.
#[local] Existing Instance willing.

Definition savedSite : Site.t := setBackups [Backup.mk "20240101T030405Z-0a1b2c3d" 1700000000000000000 "manual"] (setStatus StatusRunning "" firstSite).
Definition restoreForm : web.request :=
  web.Request "POST" "/sites/aaaaaaaaaaaaaaaa/restore" "/sites/aaaaaaaaaaaaaaaa/restore" []
    (Ok [("confirm", Site.Domain savedSite); ("backup_id", "20240101T030405Z-0a1b2c3d")]) [] "" "203.0.113.5" None.
Definition savedMap : gmap string Site.t := {["aaaaaaaaaaaaaaaa" := savedSite]}.
Definition restoreWorld : pworld := PWorld _ _ (World _ (panelFiles savedMap) (answers (fun _ => "")) "" ∅) tt (PState ∅ ∅).
Definition restoreRun : result reply * pworld * list pevent := pexec (restoreSite sampleApp restoreForm savedSite) restoreWorld.

Lemma saved_holds : holds sampleApp savedMap restoreWorld.
Proof.
  split; [|vm_compute; reflexivity]. intros k s Hk. unfold savedMap in Hk. apply lookup_singleton_Some in Hk as [<- <-]. split; vm_compute; reflexivity.
Qed.

Lemma safety_backup_first_witness :
  match splitAt "/restore" restoreRun.2 with
  | Some (t1, (body, id, reply), t2) =>
      exists s, confirmedSafety savedSite s t1 /\
        (backupOK s = true -> saved sampleApp (Site.ID savedSite) id (Site.Backups savedSite) s (replay (hostEvents t1) (w_fs (p_host restoreWorld))))
  | None => False
  end.
Proof.
  destruct (splitAt "/restore" restoreRun.2) as [[[t1 [[body id] reply]] t2]|] eqn:E; [|vm_compute in E; discriminate E].
  apply splitAt_spec in E.
  refine (safety_backup_first sampleApp "sites.json" eq_refl restoreForm savedSite "/restore" savedMap restoreWorld restoreRun.1.1 restoreRun.1.2 t1 t2 body id reply
    saved_holds ltac:(vm_compute; reflexivity) (or_introl (conj eq_refl _))).
  rewrite <- E. apply pexec_parts.
Defined.
