(* ===== verification/ProcessFacts.v ===== *)
(** * ProcessFacts: the site file of a running panel

    What the panel stores is in order whatever it goes through: a logic for
    conditions on the site file that hold at every point of a program, the walk
    through every request, round and scheduled backup, and rule induction over
    the steps of [Process]. *)
From Stdlib Require Import SpecFloat.
From S2P Require Import Prelude GoStrings Utf8Facts GoPath GoFloat GoTime GoUrl GoBase64 Effects World Core CoreFacts Json JsonFacts GoFloatText GoFloatFacts CoreJson CoreJsonFacts Worker Samples Storage Capacity Operations Settings Files Server Store StoreFacts ActivityLog I18n Messages Panel PanelFacts Reconcile Schedule Session Pages PanelEffects Web WebFacts Handler HandlerFacts Process.
Set Warnings "-register-all".

(** ** Good numbers *)
Definition goodLimits (r : Resources.t) : Prop := validateResources r = Ok tt /\ canonical (Resources.CPUs r) = true.

Definition goodPolicy (p : BackupPolicy.t) : Prop :=
  ValidateBackupPolicy p = Ok tt /\ intOK (BackupPolicy.IntervalHours p) = true /\ intOK (BackupPolicy.Retention p) = true.

Definition limitsOf (s : Site.t) : Resources.t := Resources.mk (Site.MemoryMB s) (Site.CPUs s).

Lemma goodLimits_read r : goodLimits r -> intOK (Resources.MemoryMB r) = true /\ floatReads (Resources.CPUs r) = true /\ Resources.CPUs r <> S754_zero true.
Proof.
  intros [Hv Hc]. unfold validateResources in Hv. destruct (_ || _) eqn:Em in Hv; [done|]. destruct (_ || _) eqn:Ec in Hv; [done|].
  apply orb_false_iff in Ec as [Ec _]. split_and!.
  - unfold intOK, inInt64. bool_solve. unfold minInt64, maxInt64. lia.
  - by apply cpus_read.
  - intros Hz. rewrite Hz in Ec. vm_compute in Ec. done.
Qed.

(** Equal to a limit is the limit. *)
Lemma SFeqb_eq s m e x : SFeqb x (S754_finite s m e) = true -> x = S754_finite s m e.
Proof.
  unfold SFeqb, SFcompare. destruct x as [| | |s' m' e']; [by destruct s|by destruct s0|done|].
  assert (Pos.compare_cont Eq m' m = Eq -> m' = m) as Hm by (apply Pos.compare_eq).
  destruct s', s; try done; destruct (Z.compare_spec e' e) as [->| |]; try done; intros Hp; f_equal; apply Hm; by destruct (Pos.compare_cont Eq m' m).
Qed.

Lemma goodLimits_eq r r' : goodLimits r -> resourcesEqb r' r = true -> r' = r.
Proof.
  intros [Hv Hc] [Hm He]%andb_prop. apply Z.eqb_eq in Hm. unfold validateResources in Hv.
  destruct (_ || _) in Hv; [done|]. destruct (_ || _) eqn:Ec in Hv; [done|]. apply orb_false_iff in Ec as [Ec _].
  destruct (limit_canonical _ Hc Ec) as (m&k&Hx&_). unfold limitFloat in Hx. destruct r as [mem c], r' as [mem' c'].
  cbn [Resources.MemoryMB Resources.CPUs] in *. subst. f_equal. by apply SFeqb_eq.
Qed.

(** Records read from JSON. *)
Definition fieldKeeps {T} (P : T -> Prop) (f : string * setter T) : Prop := forall v x y, f.2 v x = Ok y -> P x -> P y.

Lemma findField_in {T} eqb key (fs : list (string * setter T)) set : findField eqb key fs = Some set -> exists k, (k, set) ∈ fs.
Proof.
  induction fs as [|[k f] fs IH]; [done|]. cbn [findField]. destruct (eqb _ _); [intros [= <-]; exists k; left|].
  intros (k'&Hin)%IH. exists k'. by right.
Qed.

Lemma decodeFields_keeps {T} (P : T -> Prop) strict (fs : list (string * setter T)) kvs t t' :
  Forall (fieldKeeps P) fs -> decodeFields strict fs kvs t = Ok t' -> P t -> P t'.
Proof.
  intros Hf. revert t. induction kvs as [|[k v] kvs IH]; intros t; cbn [decodeFields]; [by intros [= <-]|].
  destruct (fieldOf fs k) as [set|] eqn:Ek; [|destruct strict; [done|apply IH]].
  intros (t1&Hset&Hd)%bind_Ok Ht. apply (IH t1 Hd). assert (exists k', (k', set) ∈ fs) as [k' Hin].
  { unfold fieldOf in Ek. destruct (findField String.eqb k fs) as [x|] eqn:E1; [injection Ek as <-|]; by eapply findField_in. }
  rewrite Forall_forall in Hf. by apply (Hf _ Hin v t t1).
Qed.

Lemma decodeStruct_keeps {T} (P : T -> Prop) strict (fs : list (string * setter T)) v t t' :
  Forall (fieldKeeps P) fs -> decodeStruct strict fs v t = Ok t' -> P t -> P t'.
Proof. intros Hf. destruct v; try done; [by intros [= <-]|]. by apply decodeFields_keeps. Qed.

(** Setters of other fields, and of the number itself. *)
Lemma setString_keeps {T} (P : T -> Prop) put k : (forall s x, P x -> P (put s x)) -> fieldKeeps P (k, setString put).
Proof. intros Hp v x y. destruct v; cbn; try done; intros [= <-]; auto. Qed.
Lemma setInt64_keeps {T} (P : T -> Prop) put k : (forall n x, P x -> P (put n x)) -> fieldKeeps P (k, setInt64 put).
Proof. intros Hp v x y. cbn. unfold setInt64, setInt. repeat case_match; try done; intros [= <-]; auto. Qed.
Lemma setFloat_keeps {T} (P : T -> Prop) put k : (forall f x, canonical f = true -> P x -> P (put f x)) -> fieldKeeps P (k, setFloat put).
Proof.
  intros Hp v x y. cbn. unfold setFloat. destruct v; try done; [by intros [= <-]|]. destruct (parseFloat _) as [f|] eqn:Ef; [|done].
  intros [= <-]. apply Hp. by apply parse_canonical in Ef.
Qed.

Definition cpusCanonical (r : Resources.t) : Prop := canonical (Resources.CPUs r) = true.

Lemma resources_canonical : Forall (fieldKeeps cpusCanonical) resourcesFields.
Proof.
  unfold resourcesFields, cpusCanonical. repeat constructor; [by apply setInt64_keeps|by apply setFloat_keeps].
Qed.

Lemma plan_canonical v p : decodeStruct false planFields v zeroPlan = Ok p -> cpusCanonical (ResourcePlan.Resources p).
Proof.
  intros Hd. apply (decodeStruct_keeps (fun p => cpusCanonical (ResourcePlan.Resources p)) _ _ _ _ _) in Hd; [done| |done].
  unfold planFields. repeat constructor; [by apply setString_keeps..|]. intros w x y. cbn. unfold setNested.
  intros (r&Hr&[= <-])%bind_Ok. apply (decodeStruct_keeps _ _ _ _ _ _ resources_canonical Hr).
Qed.

Definition runtimeCanonical (s : SiteRuntime.t) : Prop := forall r, SiteRuntime.Resources s = Some r -> cpusCanonical r.

Lemma runtime_canonical v s : decodeStruct false runtimeFields v zeroRuntime = Ok s -> runtimeCanonical s.
Proof.
  intros Hd. apply (decodeStruct_keeps runtimeCanonical _ _ _ _ _) in Hd; [done| |done].
  unfold runtimeFields, runtimeCanonical. repeat constructor; [by apply setString_keeps..| |].
  - intros w x y. cbn. unfold setPointer. destruct w; [intros [= <-]|..]; try (intros (o&_&[= <-])%bind_Ok); auto.
  - intros w x y. cbn. unfold setPointer. assert (forall q, decodeStruct false resourcesFields w (default zeroResources (SiteRuntime.Resources x)) = Ok q ->
      (forall r, SiteRuntime.Resources x = Some r -> cpusCanonical r) -> cpusCanonical q) as Hq.
    { intros q Hq Hx. apply (decodeStruct_keeps _ _ _ _ _ _ resources_canonical Hq). destruct (SiteRuntime.Resources x) as [r|]; [by apply Hx|done]. }
    destruct w; [by intros [= <-]|..]; intros (q&Hd'&[= <-])%bind_Ok Hx r0; cbn [SiteRuntime.Resources]; intros [= <-]; by apply Hq.
Qed.

(** ** Sites the panel keeps *)

(** The identifiers of the sites and their domains. *)
Notation identities := (gmap string string).

Definition goodSite (s : Site.t) : Prop := goodLimits (limitsOf s) /\ goodPolicy (Site.BackupPolicy s).
Definition kept (ids : identities) (s : Site.t) : Prop := ids !! Site.ID s = Some (Site.Domain s) /\ goodSite s.

Definition lawful `{Unicode} (ids : identities) : Prop := forall id d, ids !! id = Some d -> ValidID id = true /\ NormalizeDomain d = Ok d.

(** What the store's map is. *)
Definition keepsAll (ids : identities) (m : gmap string Site.t) : Prop := forall k s, m !! k = Some s -> Site.ID s = k /\ kept ids s.

Lemma goodSite_numbers s : goodSite s -> numbersOK s = true.
Proof.
  intros [(Hm&Hc&Hz)%goodLimits_read (_&Hi&Hr)]. cbn [limitsOf Resources.MemoryMB Resources.CPUs] in *. unfold numbersOK.
  rewrite Hm, Hc, Hi, Hr. by rewrite bool_decide_eq_false_2.
Qed.

Section kept.
Context (ids : identities).

(** The updates that leave identity, limits and schedule alone. *)
Lemma kept_same s s' :
  Site.ID s' = Site.ID s -> Site.Domain s' = Site.Domain s -> limitsOf s' = limitsOf s -> Site.BackupPolicy s' = Site.BackupPolicy s ->
  kept ids s -> kept ids s'.
Proof. unfold kept, goodSite. by intros -> -> -> ->. Qed.
Lemma kept_operation o s : kept ids s -> kept ids (setOperation o s). Proof. by apply kept_same. Qed.
Lemma kept_status st e s : kept ids s -> kept ids (setStatus st e s). Proof. by apply kept_same. Qed.
Lemma kept_health e s : kept ids s -> kept ids (setHealth e s). Proof. by apply kept_same. Qed.
Lemma kept_checked t s : kept ids s -> kept ids (setChecked t s). Proof. by apply kept_same. Qed.
Lemma kept_backups l s : kept ids s -> kept ids (setBackups l s). Proof. by apply kept_same. Qed.
Lemma kept_listed x s : kept ids s -> kept ids (addToList x s). Proof. by apply kept_same. Qed.
Lemma kept_mail x s : kept ids s -> kept ids (setMail x s). Proof. by apply kept_same. Qed.
Lemma kept_running s : kept ids s -> kept ids (running_ s). Proof. by apply kept_same. Qed.
Lemma domain_utf8 `{Unicode} d : NormalizeDomain d = Ok d -> validUTF8 d = true.
Proof.
  intros [(_&_&Hl&_) _]%NormalizeDomain_sound. apply validUTF8_ascii. eapply strForall_impl; [|exact (domain_chars d Hl)].
  intros c Hc. enough (implb (isLabelChar c || Ascii.eqb c ".") (isAscii c) = true) as Hi by (by rewrite Hc in Hi). clear.
  by destruct c as [[] [] [] [] [] [] [] []].
Qed.

Lemma kept_valid `{Unicode} s : lawful ids -> kept ids s -> kept ids (validSite s) /\ Site.ID (validSite s) = Site.ID s.
Proof.
  intros Hl [Hi Hg]. destruct (Hl _ _ Hi) as [Hid%id_utf8 Hd%domain_utf8]. assert (Site.ID (validSite s) = Site.ID s) as He by (by apply toValid_id).
  split; [|done]. split; [|exact Hg]. rewrite He, Hi. f_equal. symmetry. by apply toValid_id.
Qed.

Lemma kept_limits r s : goodLimits r -> kept ids s -> kept ids (setLimits r s).
Proof. intros Hr [Hi [_ Hp]]. split; [done|]. split; [by destruct r|done]. Qed.
Lemma kept_policy p s : goodPolicy p -> kept ids s -> kept ids (setPolicy p s).
Proof. intros Hp [Hi [Hl _]]. by split. Qed.

(** The parts of a policy its bookkeeping leaves alone. *)
Lemma goodPolicy_same p p' :
  BackupPolicy.Enabled p' = BackupPolicy.Enabled p -> BackupPolicy.IntervalHours p' = BackupPolicy.IntervalHours p ->
  BackupPolicy.Retention p' = BackupPolicy.Retention p -> goodPolicy p -> goodPolicy p'.
Proof. unfold goodPolicy, ValidateBackupPolicy. by intros -> -> ->. Qed.
Lemma kept_scheduled p p' s :
  BackupPolicy.Enabled p' = BackupPolicy.Enabled p -> BackupPolicy.IntervalHours p' = BackupPolicy.IntervalHours p ->
  BackupPolicy.Retention p' = BackupPolicy.Retention p -> goodPolicy p -> kept ids s -> kept ids (setPolicy p' s).
Proof. intros He Hi Hr Hp. apply kept_policy. by apply (goodPolicy_same p). Qed.
Lemma kept_goodPolicy s : kept ids s -> goodPolicy (Site.BackupPolicy s).
Proof. by intros [_ [_ Hp]]. Qed.
End kept.

(** ** What a form or a reply may set *)
Section forms.
Context `{Env} `{Peer} `{Unicode} (a : app).

Lemma atoi_inInt64 s n : parseInt s = Ok n -> intOK n = true.
Proof.
  unfold parseInt. destruct (match s with EmptyString => _ | String _ _ => _ end) as [neg body]. destruct (parseUDigits body); [|done].
  cbv zeta. destruct (inInt64 _) eqn:Hi; [|done]. by intros [= <-].
Qed.

Lemma atoiValue_inInt64 s : intOK (atoiValue s) = true.
Proof.
  unfold atoiValue. destruct (parseInt s) as [n|e] eqn:En; [by apply (atoi_inInt64 s)|]. destruct e; try done.
  repeat case_match; reflexivity.
Qed.

Lemma planLimits_good r limits : planLimits r = Ok limits -> goodLimits limits.
Proof.
  unfold planLimits. intros (l&Hl&([]&Hv&[= ->])%bind_Ok)%bind_Ok. split; [done|]. revert Hl.
  repeat case_match; try done; intros [= <-]; try reflexivity. cbn [Resources.CPUs]. by eapply parse_canonical.
Qed.

Lemma formSchedule_good r p : ValidateBackupPolicy (formSchedule r p) = Ok tt -> goodPolicy (formSchedule r p).
Proof.
  intros Hv. split; [done|]. unfold formSchedule. cbn [BackupPolicy.IntervalHours BackupPolicy.Retention].
  split; (destruct (parseInt _) eqn:En; [by eapply atoi_inInt64|]); destruct (String.eqb _ _); try apply atoiValue_inInt64; reflexivity.
Qed.

Lemma runtime_good text s r : reads runtimeFields zeroRuntime text = Ok s -> SiteRuntime.Resources s = Some r ->
  validateResources r = Ok tt -> goodLimits r.
Proof.
  unfold reads, decodeBody. destruct (nextValue _) as [[[v rest]|]|]; [|done..]. intros Hd Hr Hv. split; [done|].
  by apply (runtime_canonical v s).
Qed.

Lemma plans_good data l : decodePlans data = Ok l -> Forall (fun p => cpusCanonical (ResourcePlan.Resources p)) l.
Proof.
  unfold decodePlans. intros (v&_&(l'&Hl&Hx)%bind_Ok)%bind_Ok. destruct (30 <? _); [done|]. apply bind_Ok in Hx as (?&_&[= ->]).
  destruct v as [| | | |l0|]; try done; [by injection Hl as <-|]. clear data. revert l Hl.
  induction l0 as [|v l0 IH]; intros l; cbn [decodeElements]; [by intros [= <-]|].
  intros (p&Hp&(ps&Hps&[= <-])%bind_Ok)%bind_Ok. constructor; [by apply plan_canonical in Hp|by apply IH].
Qed.

Lemma formResources_good r w l w' t : pexec (formResources a r) w = (Ok l, w', t) -> goodLimits l.
Proof.
  unfold formResources. cbv zeta. destruct (negb (hasPrefix _ _)); [intros ([=]&_)%pexec_ret; by eapply planLimits_good|].
  destruct (negb _); [by intros ([=]&_)%pexec_ret|]. intros [(?&_&[=])|(plans&w1&t1&t2&Hp&Hx&->)]%pexec_bind.
  assert (Forall (fun p => cpusCanonical (ResourcePlan.Resources p)) plans) as Hall.
  { apply pexec_host_inv in Hp as (th&Hp&_). unfold ListResourcePlans, readResourcePlans in Hp.
    apply exec_bind_Ok in Hp as (d&w2&t3&t4&_&Hp&_). destruct d as [data|e]; [apply exec_ret in Hp as (Hp&_); by eapply plans_good|].
    destruct (isNotExist e); apply exec_ret in Hp as ([= ->]&_). constructor. }
  destruct (find _ plans) as [p|] eqn:Ef; [|by apply pexec_ret in Hx as ([=]&_)]. apply find_some in Ef as [Hin _].
  apply pexec_ret in Hx as (Hx&_). symmetry in Hx. apply bind_Ok in Hx as ([]&Hv&[= <-]). split; [done|].
  rewrite Forall_forall in Hall. by apply Hall, list_elem_of_In.
Qed.
End forms.

(** ** Conditions on the store that last *)
Section through.
Context `{Env} `{Peer} (a : app).

(** From a store with [I], [p] leaves one, wherever it stops, and what it
    returns satisfies [R]. *)
Definition through {A} (I : fsmap -> Prop) (R : A -> Prop) (p : M pop A) : Prop := forall w r w' t,
  I (w_fs (p_host w)) -> pexec p w = (r, w', t) ->
  (forall t0, t0 `prefix_of` t -> I (replay (hostEvents t0) (w_fs (p_host w)))) /\ forall x, r = Ok x -> R x.

(** From a store with [I], [p] leaves one with [J], wherever it stops. *)
Definition upto {A} (I J : fsmap -> Prop) (p : M pop A) : Prop := forall w r w' t,
  I (w_fs (p_host w)) -> pexec p w = (r, w', t) -> forall t0, t0 `prefix_of` t -> J (replay (hostEvents t0) (w_fs (p_host w))).

(** [I] depends on the site file only. *)
Class OnStore (I : fsmap -> Prop) : Prop := on_store fs fs' : fs' !! storePath a = fs !! storePath a -> I fs -> I fs'.

Lemma through_final {A} I (R : A -> Prop) (p : M pop A) w r w' t :
  through I R p -> I (w_fs (p_host w)) -> pexec p w = (r, w', t) -> I (w_fs (p_host w')).
Proof. intros Hp Hw Hx. rewrite (pexec_fs _ _ _ _ _ Hx). by apply (Hp w r w' t Hw Hx). Qed.

Lemma through_upto {A} (I J : fsmap -> Prop) (R : A -> Prop) p : (forall fs, I fs -> J fs) -> through I R p -> upto I J p.
Proof. intros HIJ Hp w r w' t Hw Hx t0 Ht. by apply HIJ, (Hp w r w' t Hw Hx). Qed.

Lemma upto_ret {A} (I J : fsmap -> Prop) (r : result A) : (forall fs, I fs -> J fs) -> upto I J (Ret r).
Proof. intros HIJ w ? w' t Hw (->&->&->)%pexec_ret t0 ->%prefix_nil_inv. by apply HIJ. Qed.

Lemma upto_bind {A B} (I J : fsmap -> Prop) (Q : A -> Prop) (p : M pop A) (f : A -> M pop B) :
  (forall fs, I fs -> J fs) -> through I Q p -> (forall x, Q x -> upto I J (f x)) -> upto I J (mbind (M := M pop) f p).
Proof.
  intros HIJ Hp Hf w r w' t Hw [(e&Hx&->)|(x&w1&t1&t2&Hx&Hy&->)]%pexec_bind; destruct (Hp _ _ _ _ Hw Hx) as [Hpre Hq]; [by auto|].
  intros t0 [Ht|(t&->&Ht)]%prefix_of_app; [by apply HIJ, Hpre|]. rewrite hostEvents_app, replay_app, <- (pexec_fs _ _ _ _ _ Hx).
  apply (Hf x (Hq x eq_refl) w1 r w' t2); [|done..]. by eapply through_final.
Qed.

Lemma through_ret {A} I (R : A -> Prop) r : (forall x, r = Ok x -> R x) -> through I R (Ret r).
Proof. intros Hr w ? w' t Hw (->&->&->)%pexec_ret. split; [|done]. by intros t0 ->%prefix_nil_inv. Qed.
Lemma through_mret {A} I (R : A -> Prop) x : R x -> through I R (mret (M := M pop) x).
Proof. intros Hx. apply through_ret. by intros ? [= <-]. Qed.

Lemma through_bind {A B} I (Q : A -> Prop) (R : B -> Prop) (p : M pop A) (f : A -> M pop B) :
  through I Q p -> (forall x, Q x -> through I R (f x)) -> through I R (mbind (M := M pop) f p).
Proof.
  intros Hp Hf w r w' t Hw [(e&Hx&->)|(x&w1&t1&t2&Hx&Hy&->)]%pexec_bind; destruct (Hp _ _ _ _ Hw Hx) as [Hpre Hq]; [by split|].
  destruct (Hf x (Hq x eq_refl) w1 r w' t2 (through_final _ _ _ _ _ _ _ Hp Hw Hx) Hy) as [Hpre2 Hr]. split; [|done].
  intros t0 [Ht|(t&->&Ht)]%prefix_of_app; [by apply Hpre|]. rewrite hostEvents_app, replay_app.
  rewrite <- (pexec_fs _ _ _ _ _ Hx). by apply Hpre2.
Qed.

Lemma through_try {A} I (R : A -> Prop) (p : M pop A) : through I R p -> through I (fun r => forall x, r = Ok x -> R x) (try p).
Proof. intros Hp w r w' t Hw (x&->&Hx)%pexec_try. destruct (Hp _ _ _ _ Hw Hx) as [Hpre Hq]. split; [done|]. by intros ? [= <-]. Qed.

Lemma through_weaken {A} I (Q R : A -> Prop) p : (forall x, Q x -> R x) -> through I Q p -> through I R p.
Proof. intros HQ Hp w r w' t Hw Hx. destruct (Hp _ _ _ _ Hw Hx). split; eauto. Qed.

(** Programs that leave the file alone. *)
Definition elsewhere (e : pevent) : Prop := match e with PEv e => leaves (storePath a) e | PECall _ _ _ _ => True end.

Lemma elsewhere_harmless e : harmless e -> elsewhere e.
Proof. by destruct e. Qed.

Lemma elsewhere_leaves t : Forall elsewhere t -> Forall (leaves (storePath a)) (hostEvents t).
Proof. intros Ht. induction Ht as [|[e|] t He _ IH]; [done| |done]. by constructor. Qed.

Lemma through_quiet {A} I `{!OnStore I} (p : M pop A) : raises elsewhere p -> through I (fun _ => True) p.
Proof.
  intros Hp w r w' t Hw Hx. split; [|done]. intros t0 Ht. eapply on_store; [|exact Hw].
  apply replay_frame, elsewhere_leaves. apply (raises_exec _ _ _ _ _ _ Hp) in Hx. destruct Ht as [k ->]. by apply Forall_app in Hx as [? _].
Qed.

Lemma through_read {A} m (g : gmap string Site.t -> A) : 
  through (represents (storePath a) m) (fun x => x = g m) (host (m ← readSites (storePath a); mret (g m))).
Proof.
  intros w r w' t Hm (th&Hx&->&_)%pexec_host_inv. apply (exec_readMap _ g m) in Hx as (_&->&Hr); [|done]. split.
  - by intros t0 ->%prefix_nil_inv.
  - intros x ->. by destruct Hr as [[= ->]|[? [=]]].
Qed.

Lemma through_look {A} I `{!OnStore I} (p : M pop A) :
  (forall P : pevent -> Prop, (forall e, harmless e -> P e) -> raises P p) -> through I (fun _ => True) p.
Proof. intros Hp. apply through_quiet; [done|]. apply Hp, elsewhere_harmless. Qed.

Lemma through_formResources `{Unicode} I `{!OnStore I} r : through I goodLimits (formResources a r).
Proof.
  intros w x w' t Hw Hx. split.
  - eapply (through_quiet I (formResources a r)); [|exact Hw|exact Hx]. unfold formResources. raises_auto.
  - intros l ->. by eapply formResources_good.
Qed.

#[export] Instance represents_onStore m : OnStore (represents (storePath a) m).
Proof. intros fs fs'. apply represents_same. Qed.
End through.

(** ** Programs that keep sites *)
Section keeps.
Context `{Env} `{Peer} `{Unicode} (a : app).
Hypothesis Hfile : storePath a = "/data/sites.json".
Hypothesis Haudit : auditPath a = "/data/audit.jsonl".
Hypothesis Hmail : SettingsStore.path (settingsStore a) = "/data/settings.json".
Context (ids : identities) (Hids : lawful ids).

Lemma store_child : storePath a = dir (storePath a) +/+ "sites.json".
Proof. by rewrite Hfile. Qed.

(** The store's file stands for sites of [ids]. *)
Definition stored (fs : fsmap) : Prop := exists m, represents (storePath a) m fs /\ keepsAll ids m.
#[local] Notation keeps := (through stored).

#[local] Instance stored_onStore : OnStore a stored.
Proof. intros fs fs' Hfs (m&Hm&Hk). exists m. split; [|done]. by eapply represents_same. Qed.

Lemma keeps_quiet {A} (p : M pop A) : raises (elsewhere a) p -> keeps (fun _ => True) p.
Proof. apply through_quiet, _. Qed.
Lemma keeps_out {A} (p : prog wop (result A)) : causes (leaves (storePath a)) p -> keeps (fun _ => True) (host p).
Proof. intros Hp. by apply keeps_quiet, raises_host. Qed.

(** ** The store's methods *)
Lemma keeps_update f m m' w r w' t :
  represents (storePath a) m (w_fs (p_host w)) -> keepsAll ids m -> keepsAll ids m' -> storable m' ->
  (forall v, encodeSites (f m) = Ok v -> decodeSites (printIndent v) = Ok m') ->
  pexec (host (m ← readSites (storePath a); writeSites (storePath a) (f m))) w = (r, w', t) ->
  forall t0, t0 `prefix_of` t -> stored (replay (hostEvents t0) (w_fs (p_host w))).
Proof.
  intros Hm Hk Hk' Hs Hf (th&Hx&->&_)%pexec_host_inv t0 (th0&->&Ht)%prefix_map_PEv. rewrite hostEvents_host.
  destruct (update_writes (storePath a) _ store_child f m m' _ _ _ _ Hm Hs Hf Hx) as [_ Hpre].
  destruct (Hpre th0 Ht); [by exists m|by exists m'].
Qed.

Lemma keepsAll_insert m s : keepsAll ids m -> kept ids s -> keepsAll ids (<[Site.ID s := s]> m).
Proof. intros Hm Hs k x [[<- <-]|[_ Hk]]%lookup_insert_Some; [done|by apply Hm]. Qed.
Lemma keepsAll_delete m id : keepsAll ids m -> keepsAll ids (delete id m).
Proof. intros Hm k x [_ Hk]%lookup_delete_Some. by apply Hm. Qed.

Lemma keeps_put s : kept ids s -> keeps (fun _ => True) (putSite a s).
Proof.
  intros Hs w r w' t (m&Hm&Hk) Hx. split; [|done]. destruct (kept_valid ids s Hids Hs) as [Hv Hi].
  assert (ValidID (Site.ID s) = true) as Hid by (destruct Hs as [Hs _]; by apply Hids in Hs as [? _]).
  assert (forall v, encodeSites (<[Site.ID s := s]> m) = Ok v -> decodeSites (printIndent v) = Ok (<[Site.ID s := validSite s]> m)) as Hf.
  { intros v Hv0. eapply sites_roundtrip_valid; try done; [apply Hm|apply goodSite_numbers, Hs]. }
  apply (keeps_update (fun m => <[Site.ID s := s]> m) m (<[Site.ID s := validSite s]> m) w r w' t); try done.
  - rewrite <- Hi. by apply keepsAll_insert.
  - rewrite <- Hi. apply storable_insert; [apply Hm|apply validSite_OK, goodSite_numbers, Hs].
Qed.

Lemma keeps_delete id : keeps (fun _ => True) (host (Delete (storePath a) id)).
Proof.
  intros w r w' t (m&Hm&Hk) Hx. split; [|done]. apply (keeps_update (delete id) m (delete id m) w r w' t); try done.
  - by apply keepsAll_delete.
  - apply storable_delete, Hm.
  - intros v. apply sites_roundtrip, storable_delete, Hm.
Qed.

Lemma keeps_read {A} (g : gmap string Site.t -> A) (R : A -> Prop) :
  (forall m, keepsAll ids m -> R (g m)) -> keeps R (host (m ← readSites (storePath a); mret (g m))).
Proof.
  intros HR w r w' t (m&Hm&Hk) Hx. destruct (through_read a m g w r w' t Hm Hx) as [Hpre Hr]. split; [|intros x Hx'; by rewrite (Hr x Hx'); auto].
  intros t0 Ht. exists m. auto.
Qed.

Lemma keeps_get id : keeps (fun s => forall x, s = Some x -> kept ids x) (host (Get (storePath a) id)).
Proof. apply keeps_read. intros m Hm x Hx. by apply Hm in Hx as [_ ?]. Qed.

Lemma keeps_list : keeps (Forall (kept ids)) (host (List_ (storePath a))).
Proof.
  apply (keeps_read (fun m => sortSites (map snd (sortedKeys m)))). intros m Hm.
  rewrite (proj1 (sortSites_spec _)). apply Forall_map, sortedKeys_Forall. intros k s Hs. by apply Hm in Hs as [_ ?].
Qed.

(** ** Everything else *)
Lemma keeps_append e : keeps (fun _ => True) (host (Append (auditPath a) e)).
Proof. apply keeps_out, Append_leaves. unfold separate. rewrite Hfile, Haudit. vm_compute. reflexivity. Qed.

Lemma mkdir_data p : dir p = "/data" -> causes (leaves (storePath a)) (perform (OMkdirAll (dir p))).
Proof. intros ->. change "/data" with (dir "/data/sites.json"). rewrite <- Hfile. exact (mkdirDir_leaves _ _ store_child). Qed.

Lemma keeps_saveMail m : keeps (fun _ => True) (host (Save (settingsStore a) m)).
Proof.
  apply keeps_out. unfold Save. rewrite Hmail. cbv zeta. causes_auto; [by apply mkdir_data|..].
  - apply causes_write. rewrite Hfile. cbn. congruence.
  - rewrite Hfile. by apply causes_rename_apart.
Qed.

Lemma plans_elsewhere v : causes (leaves (storePath a)) (writeJSON (plansPath (storePath a)) v).
Proof.
  assert (plansPath (storePath a) = "/data/resource-plans.json") as -> by (by rewrite Hfile).
  unfold writeJSON. causes_auto; [by apply mkdir_data|]. apply causes_write. rewrite Hfile. cbn. congruence.
Qed.

Lemma keeps_putPlan p : keeps (fun _ => True) (host (PutResourcePlan (storePath a) p)).
Proof. apply keeps_out. unfold PutResourcePlan, readResourcePlans. causes_auto; apply plans_elsewhere. Qed.
Lemma keeps_deletePlan id : keeps (fun _ => True) (host (DeleteResourcePlan (storePath a) id)).
Proof. apply keeps_out. unfold DeleteResourcePlan, readResourcePlans. causes_auto; apply plans_elsewhere. Qed.

Lemma keeps_call {A} operationID path body expected (decode : string -> result A) :
  keeps (fun x => exists text, decode text = Ok x) (callWorkerContext a operationID path body expected decode).
Proof.
  intros w r w' t Hw Hx. split; [eapply keeps_quiet; [by apply raises_call|exact Hw|exact Hx]|].
  intros x ->. apply exec_call in Hx as (_&_&[(_&_&?&[=])|(j&reply&_&_&Hr&_)]). destruct reply as [|[status text]]; [done|].
  cbn in Hr. destruct (negb _); [done|]. by exists text.
Qed.

Lemma keeps_formResources r : keeps goodLimits (formResources a r).
Proof. apply through_formResources, _. Qed.

(** ** The walk *)
Lemma keeps_record action s success detail : keeps (fun _ => True) (record_ a action s success detail).
Proof.
  unfold record_. eapply through_bind; [apply through_try, keeps_append|]. intros. by apply through_mret.
Qed.

Lemma keeps_render r v : keeps (fun _ => True) (render a r v).
Proof. apply keeps_quiet, render_looks, elsewhere_harmless. Qed.
Lemma keeps_redirect target message error : keeps (fun _ => True) (redirectWithFlashTo target message error).
Proof. apply keeps_quiet, redirect_quiet. Qed.
Lemma keeps_now : keeps (fun _ => True) now.
Proof. apply keeps_quiet, raises_now. Qed.
Lemma keeps_rand n : keeps (fun _ => True) (host (perform (ORand n))).
Proof. apply keeps_quiet, look_rand. Qed.
Lemma keeps_mail : keeps (fun _ => True) (host (Load (settingsStore a))).
Proof. apply keeps_quiet, look_mail. Qed.

Lemma keeps_stored s text k : kept ids s -> keeps (fun _ => True) k -> keeps (fun _ => True) (storedOr a s text k).
Proof.
  intros Hs Hk. unfold storedOr. eapply through_bind; [by apply through_try, keeps_put|]. intros [u|e] _; [done|by apply through_mret].
Qed.

Lemma keeps_tracked {A} site kind path body expected (decode : string -> result A) :
  kept ids site -> keeps (fun x => kept ids x.1) (callTracked a site kind path body expected decode).
Proof.
  intros Hs. unfold callTracked. eapply through_bind; [apply through_try, keeps_rand|]. intros [bytes|e] _; [|by apply through_mret].
  eapply through_bind; [apply keeps_now|]. intros started _. cbv zeta.
  eapply through_bind; [by apply through_try, keeps_put, kept_operation|]. intros [u|e] _; [|by apply through_mret, kept_operation].
  eapply through_bind; [apply through_try, keeps_call|]. intros [x|e] _.
  - eapply through_bind; [apply keeps_now|]. intros finished _. apply through_mret. by repeat apply kept_operation.
  - eapply through_bind; [by apply through_try, keeps_put, kept_operation, kept_operation|]. intros saved _. apply through_mret. by repeat apply kept_operation.
Qed.

Lemma keeps_worker {A} path body expected (decode : string -> result A) :
  keeps (fun x => exists text, decode text = Ok x) (callWorker a path body expected decode).
Proof. apply keeps_call. Qed.

Lemma keeps_track {A} site kind path body (decode : string -> result A) :
  kept ids site -> keeps (fun x => kept ids x.1) (track a site kind path body decode).
Proof. unfold track. apply keeps_tracked. Qed.
Lemma keeps_trackUnit site kind path body :
  kept ids site -> keeps (fun x => kept ids x.1) (trackUnit a site kind path body).
Proof. unfold trackUnit. apply keeps_tracked. Qed.

Create HintDb keeps.
Create HintDb kept.
#[local] Hint Resolve kept_operation kept_status kept_health kept_checked kept_backups kept_listed kept_mail kept_running kept_limits kept_policy : kept.
Ltac kept_auto := solve [eauto 6 with kept].
Ltac keeps_known :=
  match goal with
  | |- keeps _ (try _) => apply through_try; keeps_known
  | |- keeps _ (record_ _ _ _ _ _) => apply keeps_record
  | |- keeps _ (render _ _ _) => apply keeps_render
  | |- keeps _ (redirectWithFlashTo _ _ _) => apply keeps_redirect
  | |- keeps _ (redirectWithFlash _ _) => apply keeps_redirect
  | |- keeps _ now => apply keeps_now
  | |- keeps _ (putSite _ _) => apply keeps_put; kept_auto
  | |- keeps _ (callTracked _ _ _ _ _ _ _) => apply keeps_tracked; kept_auto
  | |- keeps _ (track _ _ _ _ _ _) => apply keeps_track; kept_auto
  | |- keeps _ (trackUnit _ _ _ _ _) => apply keeps_trackUnit; kept_auto
  | |- keeps _ (callWorker _ _ _ _ _) => apply keeps_worker
  | |- keeps _ (formResources _ _) => apply keeps_formResources
  | |- keeps _ (host (Get _ _)) => apply keeps_get
  | |- keeps _ (host (List_ _)) => apply keeps_list
  | |- keeps _ (host (Delete _ _)) => apply keeps_delete
  | |- keeps _ (host (Append _ _)) => apply keeps_append
  | |- keeps _ (host (Save _ _)) => apply keeps_saveMail
  | |- keeps _ (host (PutResourcePlan _ _)) => apply keeps_putPlan
  | |- keeps _ (host (DeleteResourcePlan _ _)) => apply keeps_deletePlan
  | |- _ => solve [eauto 6 with keeps kept | apply keeps_quiet; raises_auto]
  end.
Ltac keeps_step :=
  match goal with
  | |- keeps _ (mbind _ _) => eapply through_bind; [solve [keeps_known]|intros ? ?; cbv beta in *]
  | |- keeps _ (mret _) => apply through_mret; solve [done|kept_auto]
  | |- keeps _ (let '(_, _) := ?x in _) => destruct x; cbn [fst snd] in *
  | |- keeps _ (match ?x with _ => _ end) => destruct x eqn:?; cbn [fst snd] in *
  | |- keeps _ (storedOr _ _ _ _) => apply keeps_stored; [kept_auto|]
  | |- _ => keeps_known
  end; cbv zeta.
Ltac keeps_auto := cbv zeta; repeat keeps_step.

Lemma keeps_backup site source at_ : kept ids site -> keeps (fun x => kept ids x.1) (performBackup a site source at_).
Proof. intros Hs. unfold performBackup. keeps_auto. Qed.

#[local] Hint Resolve keeps_backup : keeps.

Lemma keeps_backupSite r s : kept ids s -> keeps (fun _ => True) (backupSite a r s).
Proof. intros Hs. unfold backupSite. keeps_auto. Qed.

Lemma kept_schedule r s next : kept ids s -> ValidateBackupPolicy (formSchedule r (Site.BackupPolicy s)) = Ok tt ->
  kept ids (setPolicy (scheduled (formSchedule r (Site.BackupPolicy s)) next) s).
Proof. intros Hs Hv%formSchedule_good. by eapply kept_scheduled. Qed.

Lemma keeps_schedule r s : kept ids s -> keeps (fun _ => True) (saveBackupSchedule a r s).
Proof.
  intros Hs. unfold saveBackupSchedule. cbv zeta. destruct (ValidateBackupPolicy _) as [[]|e] eqn:Hv; [|keeps_auto].
  eapply (through_bind _ (fun _ => True)); [keeps_auto|]. intros next _. apply keeps_stored; [by apply kept_schedule|keeps_auto].
Qed.

Lemma keeps_deleteBackup r s : kept ids s -> keeps (fun _ => True) (deleteBackup a r s).
Proof. intros Hs. unfold deleteBackup, deleteBackupCall. keeps_auto. Qed.

Lemma keeps_withSafety r s id what onError k :
  kept ids s -> (forall s' e, kept ids s' -> keeps (fun _ => True) (onError s' e)) -> (forall s', kept ids s' -> keeps (fun _ => True) (k s')) ->
  keeps (fun _ => True) (withSafety a r s id what onError k).
Proof. intros Hs He Hk. unfold withSafety. keeps_auto. Qed.

Lemma keeps_updateSite r s : kept ids s -> keeps (fun _ => True) (updateSite a r s).
Proof.
  intros Hs. unfold updateSite, safetyBackup. keeps_auto. apply keeps_withSafety; [done|intros; apply keeps_record|]. intros s' Hs'. keeps_auto.
Qed.

Lemma keeps_restoreSite r s : kept ids s -> keeps (fun _ => True) (restoreSite a r s).
Proof.
  intros Hs. unfold restoreSite, safetyBackup. keeps_auto. apply keeps_withSafety; [kept_auto|intros; by apply through_mret|].
  intros s' Hs'. keeps_auto.
Qed.

Lemma kept_applied applied limits s : negb (resourcesEqb applied limits) = false -> goodLimits limits -> kept ids s -> kept ids (setLimits applied s).
Proof. intros He%negb_false_iff Hl. rewrite (goodLimits_eq _ _ Hl He). by apply kept_limits. Qed.
#[local] Hint Resolve kept_applied : kept.

Lemma keeps_saveResources r s : kept ids s -> keeps (fun _ => True) (saveResources a r s).
Proof.
  intros Hs. unfold saveResources. keeps_auto.
Qed.

Lemma keeps_plansAction r : keeps (fun _ => True) (resourcePlansAction a r).
Proof. unfold resourcePlansAction. eapply through_bind; [apply (through_try _ (fun _ => True)); keeps_auto|]. intros x _. keeps_auto. Qed.

Lemma keeps_applyMail s enabled : keeps (fun _ => True) (applySiteMail a s enabled).
Proof. apply keeps_quiet. unfold applySiteMail. raises_auto. by apply raises_call. Qed.
#[local] Hint Resolve keeps_applyMail : keeps.

Lemma keeps_applyAll enabled sites failed : keeps (fun _ => True) (applyAll a enabled sites failed).
Proof. revert failed. induction sites as [|s l IH]; intros failed; cbn [applyAll]; keeps_auto; apply IH. Qed.
#[local] Hint Resolve keeps_applyAll : keeps.

Lemma keeps_saveMailSettings r : keeps (fun _ => True) (saveMailSettings a r).
Proof. unfold saveMailSettings. keeps_auto. Qed.

Lemma keeps_renderFiles r s current e : keeps (fun _ => True) (renderFiles a r s current e).
Proof. unfold renderFiles. keeps_auto. Qed.
#[local] Hint Resolve keeps_renderFiles : keeps.
Lemma keeps_changeFile r s path req directory what : keeps (fun _ => True) (changeFile a r s path req directory what).
Proof. unfold changeFile, fileCall. keeps_auto. Qed.
#[local] Hint Resolve keeps_changeFile : keeps.
Lemma keeps_fileAction r s action : keeps (fun _ => True) (fileAction a r s action).
Proof. unfold fileAction. keeps_auto. Qed.

Lemma keeps_install r s dbPassword adminPassword : kept ids s -> keeps (fun _ => True) (installSite a r s dbPassword adminPassword).
Proof. intros Hs. unfold installSite. keeps_auto. Qed.

(** ** The actions on a site *)
Lemma keeps_failed r action s e : kept ids s -> keeps (fun _ => True) (actionFailed a r action s e).
Proof. intros Hs. unfold actionFailed. keeps_auto. Qed.
#[local] Hint Resolve keeps_failed : keeps.

Lemma keeps_retry r s : kept ids s -> keeps (fun _ => True) (retrySite a r s).
Proof. intros Hs. unfold retrySite, somePassword. keeps_auto. Qed.

Lemma keeps_actionStored action s k : kept ids s -> (forall s', kept ids s' -> keeps (fun _ => True) (k s')) -> keeps (fun _ => True) (actionStored a action s k).
Proof. intros Hs Hk. unfold actionStored. keeps_auto. Qed.

Lemma keeps_service r s action : kept ids s -> keeps (fun _ => True) (serviceAction a r s action).
Proof.
  intros Hs. unfold serviceAction. assert (forall s, kept ids s -> keeps (fun _ => True) (startedMail a action s)) as Hm
    by (intros; unfold startedMail; keeps_auto).
  keeps_auto; (apply keeps_actionStored; [kept_auto|]); intros s' Hs'; keeps_auto.
Qed.

#[local] Hint Resolve keeps_backupSite keeps_schedule keeps_deleteBackup keeps_updateSite keeps_restoreSite keeps_saveResources keeps_fileAction
  keeps_retry keeps_service : keeps.

Lemma keeps_chosen r s action : kept ids s -> keeps (fun _ => True) (chosenAction a r s action).
Proof.
  intros Hs. unfold chosenAction, databaseManager, mailSiteAction. keeps_auto.
Qed.
#[local] Hint Resolve keeps_chosen keeps_plansAction keeps_saveMailSettings : keeps.

Lemma keeps_siteAction busy r : keeps (fun _ => True) (siteAction a busy r).
Proof. unfold siteAction. keeps_auto. Qed.
#[local] Hint Resolve keeps_siteAction : keeps.

(** ** Reconciliation *)
Lemma reconcileOne_kept s snapshot :
  kept ids s -> (exists text, reads runtimeFields zeroRuntime text = Ok snapshot) ->
  match reconcileOne s snapshot with Kept s' _ => kept ids s' | _ => True end.
Proof.
  intros Hs [text Htext]. unfold reconcileOne. destruct (negb _); [done|].
  destruct (match SiteRuntime.Resources snapshot with Some r => validateResources r | None => Ok tt end) as [[]|e] eqn:Hv; [|done].
  assert (kept ids (applyLimits snapshot (setHealth "" s))) as Ha.
  { unfold applyLimits. destruct (SiteRuntime.Resources snapshot) as [r|] eqn:Hr; [|kept_auto].
    apply kept_limits; [by eapply runtime_good|kept_auto]. }
  cbv zeta. set (s1 := applyLimits _ _) in *. clearbody s1. assert (kept ids (refreshStatus snapshot s1)) as Hf
    by (unfold refreshStatus; repeat case_match; kept_auto).
  destruct (Site.Operation s1) as [op|]; [|done]. destruct (pendingOp op); [|done].
  assert (kept ids (takeReceipt op (SiteRuntime.Operation snapshot) s1).1) as Ht by (unfold takeReceipt; repeat case_match; kept_auto).
  destruct (takeReceipt _ _ _) as [s2 o]. cbn [fst] in Ht. destruct (_ && _); [done|]. unfold resolveStatus. repeat case_match; kept_auto.
Qed.

Lemma keeps_checked s : kept ids s -> keeps (fun _ => True) (storeChecked a s).
Proof. intros Hs. unfold storeChecked. keeps_auto. Qed.
#[local] Hint Resolve keeps_checked : keeps.

Lemma keeps_reconcileSites sites firstError : Forall (kept ids) sites -> keeps (fun _ => True) (reconcileSites a sites firstError).
Proof.
  intros Hall. revert firstError. induction Hall as [|s sites Hs _ IH]; intros firstError; cbn [reconcileSites]; [by apply through_mret|].
  unfold runtimeOf. eapply through_bind; [apply through_try, keeps_worker|]. intros [snapshot|e] Hr; [|keeps_auto].
  specialize (Hr _ eq_refl). apply (reconcileOne_kept s snapshot Hs) in Hr. destruct (reconcileOne s snapshot) as [e|g|s' resolved]; [keeps_auto..|].
  eapply (through_bind _ (fun _ => True)); [keeps_auto|intros _ _; keeps_auto].
Qed.

Lemma keeps_reconcile busy : keeps (fun _ => True) (reconcileRuntime a busy).
Proof.
  unfold reconcileRuntime. destruct busy; [by apply through_ret|]. eapply through_bind; [apply keeps_list|]. intros sites Hs.
  eapply through_bind; [by apply keeps_reconcileSites|]. intros r _. by apply through_ret.
Qed.
#[local] Hint Resolve keeps_reconcile : keeps.

Lemma keeps_refresh busy r : keeps (fun _ => True) (refresh a busy r).
Proof. unfold refresh. keeps_auto. Qed.

(** ** Scheduled backups *)
Lemma keeps_missed s p text : kept ids s -> goodPolicy p -> keeps (fun _ => True) (missed a s p text).
Proof.
  intros Hs Hp. unfold missed. cbv zeta. assert (kept ids (setPolicy (setLastError text p) s)) by (by eapply kept_scheduled). keeps_auto.
Qed.

Lemma keeps_prune fuel s : kept ids s -> keeps (fun _ => True) (pruneLoop a fuel s).
Proof.
  revert s. induction fuel as [|n IH]; intros s Hs; cbn [pruneLoop]; [by apply through_mret|]. unfold deleteBackupCall. keeps_auto.
Qed.

#[local] Hint Resolve keeps_missed keeps_prune : keeps.

Lemma keeps_runScheduled s at_ : kept ids s -> keeps (fun _ => True) (runScheduledBackup a s at_).
Proof.
  intros Hs. unfold runScheduledBackup, pruneScheduledBackups. assert (goodPolicy (attempted (Site.BackupPolicy s) at_)) as Hp
    by (by eapply goodPolicy_same, kept_goodPolicy). keeps_auto.
Qed.
#[local] Hint Resolve keeps_runScheduled : keeps.

Lemma keeps_candidate at_ s : keeps (fun _ => True) (scheduledCandidate a at_ s).
Proof. unfold scheduledCandidate. keeps_auto. Qed.
End keeps.

(** ** The site file of a running panel *)

(** The sites have the identifiers they are stored under, domains of their own
    in normal form, limits and a backup schedule within bounds. *)
Record wellFormed `{Unicode} (m : gmap string Site.t) : Prop := {
  wf_id k s : m !! k = Some s -> Site.ID s = k /\ ValidID k = true;
  wf_domain k s : m !! k = Some s -> NormalizeDomain (Site.Domain s) = Ok (Site.Domain s);
  wf_distinct k k' s s' : m !! k = Some s -> m !! k' = Some s' -> Site.Domain s = Site.Domain s' -> k = k';
  wf_limits k s : m !! k = Some s -> validateResources (limitsOf s) = Ok tt;
  wf_policy k s : m !! k = Some s -> ValidateBackupPolicy (Site.BackupPolicy s) = Ok tt;
}.

Definition distinct (ids : identities) : Prop := forall i j d, ids !! i = Some d -> ids !! j = Some d -> i = j.

(** What is read from the file has numbers that can be written again. *)
Lemma siteOK_good s : siteOK s = true -> validateResources (limitsOf s) = Ok tt -> ValidateBackupPolicy (Site.BackupPolicy s) = Ok tt -> goodSite s.
Proof.
  unfold siteOK, policyOK. intros Hs Hl Hp. bool_solve. split; split; try done.
  unfold limitsOf. cbn [Resources.CPUs]. match goal with Hf : floatReads _ = true |- _ => unfold floatReads in Hf; revert Hf end.
  destruct (floatText _) as [text|]; [|done]. intros [_ Hx]%andb_prop. destruct (parseFloat text) as [y|] eqn:Ey; [|done].
  apply bool_decide_eq_true in Hx as <-. by eapply parse_canonical.
Qed.

Section whole.
Context `{Env} `{Peer} `{Unicode} `{Passwords} (a : app).
Hypothesis Hfile : storePath a = "/data/sites.json".
Hypothesis Haudit : auditPath a = "/data/audit.jsonl".
Hypothesis Hmail : SettingsStore.path (settingsStore a) = "/data/settings.json".

Definition holdsWell (fs : fsmap) : Prop := exists m, represents (storePath a) m fs /\ wellFormed m.

#[local] Instance holdsWell_onStore : OnStore a holdsWell.
Proof. intros fs fs' Hfs (m&Hm&Hk). exists m. split; [|done]. by eapply represents_same. Qed.

Lemma well_stored m : storable m -> wellFormed m ->
  lawful (Site.Domain <$> m) /\ distinct (Site.Domain <$> m) /\ keepsAll (Site.Domain <$> m) m.
Proof.
  intros Hst [Hid Hdom Hdis Hlim Hpol]. split_and!.
  - intros k d (s&<-&Hk)%lookup_fmap_Some. split; [by eapply Hid|by eapply Hdom].
  - intros i j d (s&<-&Hi)%lookup_fmap_Some (s'&Hd&Hj)%lookup_fmap_Some. by eapply Hdis.
  - intros k s Hk. destruct (Hid k s Hk) as [He _]. split; [done|]. split; [by rewrite lookup_fmap, He, Hk|].
    apply siteOK_good; [by eapply Hst|by eapply Hlim|by eapply Hpol].
Qed.

Lemma stored_well ids fs : lawful ids -> distinct ids -> stored a ids fs -> holdsWell fs.
Proof.
  intros Hl Hd (m&Hm&Hk). exists m. split; [done|]. split.
  - intros k s Hs. destruct (Hk k s Hs) as [<- [Hi _]]. split; [done|]. by apply Hl in Hi as [? _].
  - intros k s Hs. destruct (Hk k s Hs) as [_ [Hi _]]. by apply Hl in Hi as [_ ?].
  - intros k k' s s' Hs Hs' He. destruct (Hk k s Hs) as [<- [Hi _]], (Hk k' s' Hs') as [<- [Hi' _]]. rewrite He in Hi. by eapply Hd.
  - intros k s Hs. by destruct (Hk k s Hs) as [_ [_ [[? _] _]]].
  - intros k s Hs. by destruct (Hk k s Hs) as [_ [_ [_ [? _]]]].
Qed.

Lemma keeps_well {A} (p : M pop A) : (forall ids, lawful ids -> through (stored a ids) (fun _ => True) p) -> upto holdsWell holdsWell p.
Proof.
  intros Hp w r w' t (m&Hm&Hw) Hx t0 Ht. destruct (well_stored m (proj1 Hm) Hw) as (Hl&Hd&Hk).
  apply (stored_well (Site.Domain <$> m)); [done..|]. apply (Hp _ Hl w r w' t); [by exists m|done..].
Qed.

Lemma quiet_well {A} (p : M pop A) : raises (elsewhere a) p -> upto holdsWell holdsWell p.
Proof. intros Hp. eapply through_upto; [done|]. by apply (through_quiet a holdsWell). Qed.

(** A site is created under a domain no other site has. *)
Lemma well_created m s : storable m -> wellFormed m -> ValidateSite s = Ok tt -> NormalizeDomain (Site.Domain s) = Ok (Site.Domain s) ->
  goodSite s -> (forall k x, m !! k = Some x -> Site.Domain x <> Site.Domain s) ->
  exists ids, lawful ids /\ distinct ids /\ keepsAll ids (<[Site.ID s := s]> m) /\ kept ids s.
Proof.
  intros Hst Hw Hv Hd Hg Hnew. destruct (well_stored m Hst Hw) as (Hl&Hdis&Hk). exists (Site.Domain <$> <[Site.ID s := s]> m).
  assert (kept (Site.Domain <$> <[Site.ID s := s]> m) s) as Hs by (split; [by rewrite lookup_fmap, lookup_insert_eq|done]).
  assert (forall k d, (Site.Domain <$> <[Site.ID s := s]> m) !! k = Some d ->
    k = Site.ID s /\ d = Site.Domain s \/ k <> Site.ID s /\ (Site.Domain <$> m) !! k = Some d /\ d <> Site.Domain s) as Hcase.
  { intros k d (x&<-&[[<- <-]|[Hne Hx]]%lookup_insert_Some)%lookup_fmap_Some; [by left|]. right. split; [done|].
    rewrite lookup_fmap, Hx. split; [done|by eapply Hnew]. }
  split_and!; [| | |done].
  - intros k d [[-> ->]|(_&Hx&_)]%Hcase; [|by apply Hl]. split; [|done]. unfold ValidateSite in Hv. by destruct (ValidID _).
  - intros i j d [[-> ->]|(Hi&Hx&Hne)]%Hcase [[-> He]|(Hj&Hy&Hne')]%Hcase; try done. by eapply Hdis.
  - intros k x [[<- <-]|[Hne Hx]]%lookup_insert_Some; [by split|]. destruct (Hk k x Hx) as [He [_ Hgx]]. split; [done|]. split; [|done].
    by rewrite lookup_fmap, He, lookup_insert_ne, Hx.
Qed.

Lemma upto_stored m s text k :
  storable m -> wellFormed m -> ValidateSite s = Ok tt -> NormalizeDomain (Site.Domain s) = Ok (Site.Domain s) -> goodSite s ->
  (forall k x, m !! k = Some x -> Site.Domain x <> Site.Domain s) ->
  (forall ids, lawful ids -> kept ids s -> through (stored a ids) (fun _ => True) k) ->
  upto (represents (storePath a) m) holdsWell (storedOr a s text k).
Proof.
  intros Hst Hw Hv Hd Hg Hnew Hk. destruct (well_created m s Hst Hw Hv Hd Hg Hnew) as (ids&Hl&Hdis&Hall&Hs).
  set (m' := <[Site.ID s := validSite s]> m). destruct (kept_valid ids s Hl Hs) as [Hs' Hi].
  assert (keepsAll ids m') as Hall'.
  { intros j x [[<- <-]|[Hne Hx]]%lookup_insert_Some; [by rewrite Hi|]. apply Hall. by rewrite lookup_insert_ne. }
  assert (forall fs, represents (storePath a) m fs -> holdsWell fs) as Hold by (intros fs Hfs; by exists m).
  assert (forall fs, represents (storePath a) m' fs -> stored a ids fs) as Hmid by (intros fs Hfs; by exists m').
  assert (ValidID (Site.ID s) = true) as Hid by (destruct Hs as [Hs _]; by apply Hl in Hs as [? _]).
  intros w r w' t Hm (saved&w1&t1&t2&(th&Hput&->&_)%pexec_host_inv&Hx&->)%pexec_try_bind. apply exec_fs in Hput as Hfs.
  assert (storable m') as Hst' by (unfold m'; rewrite <- Hi; apply storable_insert; [done|by apply validSite_OK, goodSite_numbers]).
  destruct (update_writes (storePath a) _ (store_child a Hfile) (fun m => <[Site.ID s := s]> m) m m' _ _ _ _ Hm Hst'
    (fun v Hv0 => proj1 (sites_roundtrip_valid m s v Hst Hid (goodSite_numbers s Hg) Hv0)) Hput) as [Hr Hpre].
  intros t0 [(th0&->&Ht)%prefix_map_PEv|(t&->&Ht)]%prefix_of_app.
  - rewrite hostEvents_host. destruct (Hpre th0 Ht); [by apply Hold|]. by apply (stored_well ids), Hmid.
  - rewrite hostEvents_app, hostEvents_host, replay_app, <- Hfs. destruct Hr as [[-> Hr]|[[e ->] Hr]].
    + apply (stored_well ids); [done..|]. apply (Hk ids Hl Hs w1 r w' t2); [by apply Hmid|done..].
    + apply pexec_ret in Hx as (_&_&->). apply prefix_nil_inv in Ht as ->. by apply Hold.
Qed.

(** ** Creating a site *)
Lemma submit_well m r s limits :
  storable m -> wellFormed m -> ValidateSite s = Ok tt -> NormalizeDomain (Site.Domain s) = Ok (Site.Domain s) -> goodSite s ->
  (forall k x, m !! k = Some x -> Site.Domain x <> Site.Domain s) -> upto (represents (storePath a) m) holdsWell (submitSite a r s limits).
Proof.
  intros Hst Hw Hv Hd Hg Hnew. assert (forall fs, represents (storePath a) m fs -> holdsWell fs) as Hold by (intros fs Hfs; by exists m).
  assert (forall {A} (p : M pop A), raises (elsewhere a) p -> through (represents (storePath a) m) (fun _ => True) p) as Hq
    by (intros A p; apply through_quiet, _).
  assert (forall v, through (represents (storePath a) m) (fun _ => True) (render a r v)) as Hrender
    by (intros v; apply Hq, render_looks, elsewhere_harmless).
  pose proof (elsewhere_harmless a) as Hh. unfold submitSite. eapply upto_bind; [done|apply Hq; unfold capacityOf; raises_auto|]. intros [capacity|e] _; [|by eapply through_upto].
  destruct (checkHost capacity limits); [|by eapply through_upto]. eapply upto_bind; [done|apply Hq; raises_auto|].
  intros [[dbPassword adminPassword]|e] _; [|by apply upto_ret]. apply upto_stored; try done.
  intros ids Hl Hs. by apply keeps_install.
Qed.

Lemma create_well m busy r : storable m -> wellFormed m -> upto (represents (storePath a) m) holdsWell (createSite a busy r).
Proof.
  intros Hst Hw. assert (forall fs, represents (storePath a) m fs -> holdsWell fs) as Hold by (intros fs Hfs; by exists m).
  assert (forall v, through (represents (storePath a) m) (fun _ => True) (render a r v)) as Hrender
    by (intros v; apply (through_quiet a), render_looks, elsewhere_harmless; apply _).
  unfold createSite. destruct busy; [by apply upto_ret|].
  eapply upto_bind; [done|apply (through_quiet a _); apply raises_try, look_rand|]. intros [bytes|e] _; [|by eapply through_upto]. cbv zeta.
  destruct (NormalizeDomain _) as [domain|e] eqn:Hd; [|by eapply through_upto]. apply NormalizeDomain_sound in Hd as [_ Hd].
  eapply upto_bind; [done|apply through_try, through_formResources, _|]. intros [limits|e] Hlim; [|by eapply through_upto].
  specialize (Hlim _ eq_refl). eapply upto_bind; [done|apply (through_quiet a _), raises_now|]. intros created _. cbv zeta.
  destruct (ValidateSite _) as [[]|e] eqn:Hv; [|by eapply through_upto].
  eapply upto_bind; [done|apply through_try, (through_read a m (fun m => sortSites (map snd (sortedKeys m))))|].
  intros [sites|e] Hs; [|by apply upto_ret]. rewrite (Hs _ eq_refl). clear Hs. destruct (existsb _ _) eqn:He; [by eapply through_upto|].
  apply submit_well; try done.
  intros k x Hk Hx. apply not_true_iff_false in He. apply He, existsb_exists. exists x. split; [|by apply String.eqb_eq].
  apply list_elem_of_In. rewrite (proj1 (sortSites_spec _)). apply list_elem_of_fmap. exists (k, x). split; [done|].
  rewrite sortedKeys_perm. by apply elem_of_map_to_list.
Qed.

(** ** A request, a round, a candidate *)
Lemma create_request busy r : upto holdsWell holdsWell (createSite a busy r).
Proof. intros w x w' t (m&Hm&Hw). by apply (create_well m busy r (proj1 Hm) Hw). Qed.

Lemma submitted_well busy r : upto holdsWell holdsWell (submitted a busy r).
Proof.
  unfold submitted. cbv zeta. repeat case_match; try by apply upto_ret.
  all: try apply create_request; apply keeps_well; intros ids Hl.
  - by apply keeps_refresh.
  - by apply keeps_plansAction.
  - by apply keeps_saveMailSettings.
  - by apply keeps_siteAction.
Qed.

Lemma request_well busy r : upto holdsWell holdsWell (panelServeHTTP a busy r).
Proof.
  pose proof (elsewhere_harmless a) as Hh. unfold panelServeHTTP. cbv zeta. repeat case_match; try by apply upto_ret.
  - apply quiet_well. by apply showRoot_harmless.
  - apply quiet_well. by apply login_harmless.
  - eapply upto_bind; [done|apply (through_quiet a _); unfold authenticated; raises_auto|]. intros [] _; [|by apply upto_ret].
    unfold withSession. cbv zeta. repeat case_match; try by apply upto_ret.
    + apply quiet_well, proxyDatabase_harmless.
    + apply quiet_well. by apply showPage_harmless.
    + apply submitted_well.
Qed.

Lemma upto_ignored {A} I J (p : M pop A) : upto I J p -> upto I J (_ ← try p; mret (M := M pop) tt).
Proof.
  intros Hp w r w' t Hw (x&w1&t1&t2&Hx&(_&_&->)%pexec_ret&->)%pexec_try_bind. rewrite app_nil_r. by apply (Hp w x w1).
Qed.

Lemma act_well x : upto holdsWell holdsWell (act a x).
Proof.
  destruct x as [busy r|busy|at_ s]; apply upto_ignored; [apply request_well|apply keeps_well; intros ids Hl..].
  - by apply keeps_reconcile.
  - by apply keeps_candidate.
Qed.

Lemma step_well w w' : panelStep a w w' -> holdsWell (w_fs (p_host w)) -> holdsWell (w_fs (p_host w')).
Proof.
  intros Hstep Hw. destruct Hstep as [x r w' t Hx|x r w1 t t0 w' Hx Ht -> _|w' Hfs _]; [|by apply (act_well x w r w1 t)|].
  - rewrite (pexec_fs _ _ _ _ _ Hx). by apply (act_well x w r w' t).
  - by apply (holdsWell_onStore _ _ Hfs).
Qed.
End whole.

(** C12: whatever the panel goes through, its site file is in order.  From the
    empty store, or any well-formed one, after any sequence of requests, rounds
    of the reconciler and the scheduler, crashes at any point and changes
    outside, the file is read as a map of sites that have the identifiers they
    are stored under, a domain of their own in normal form, and limits and a
    backup schedule within bounds. *)
Theorem sites_wellFormed `{Env} `{Peer} `{Unicode} `{Passwords} env a m0 w w' :
  newApp env = Ok a -> represents (storePath a) m0 (w_fs (p_host w)) -> wellFormed m0 -> rtc (panelStep a) w w' ->
  exists m, represents (storePath a) m (w_fs (p_host w')) /\ wellFormed m.
Proof.
  intros Ha Hm0 Hw0 Hsteps. unfold newApp in Ha. rewrite guardR_seq in Ha. destruct Ha as [_ (s&Hs&[= <-])%bind_Ok].
  assert (SettingsStore.path s = "/data/settings.json") as Hmail by (unfold newSettings in Hs; destruct (_ <? _); [done|]; by injection Hs as <-).
  set (a := App _ _ _ _ _ _ _) in *. change (holdsWell a (w_fs (p_host w'))).
  assert (holdsWell a (w_fs (p_host w))) as Hbase by (by exists m0). clear Hm0 Hw0.
  induction Hsteps as [w|w w1 w2 Hstep _ IH]; [done|]. apply IH. by apply (step_well a eq_refl eq_refl Hmail w w1).
Qed.

(** ** The goroutines of [main] are such steps *)
Section rounds.
Context `{Env} `{Peer} `{Unicode} `{Passwords} (a : app).

Lemma pexec_ignored {A} (p : M pop A) w x w' t :
  pexec p w = (x, w', t) -> pexec (_ ← try p; mret (M := M pop) tt) w = (Ok tt, w', t ++ [])%list.
Proof.
  intros Hx. assert (pexec (try p) w = (Ok x, w', t)) as Ht by (apply pexec_try; by exists x). unfold pexec in *.
  change (_ ← try p; _) with (pbind (try p) (fun r => match r with Ok _ => mret (M := M pop) tt | Err e => Ret (Err e) end)).
  by rewrite run_bind, Ht.
Qed.

Lemma reconciler_steps busy ticks w r w' t :
  pexec (runRuntimeReconciler a busy ticks) w = (r, w', t) -> rtc (panelStep a) w w'.
Proof.
  revert busy w r t. induction ticks as [|busy' ticks IH]; intros busy w r t; cbn [runRuntimeReconciler];
    intros (x&w1&t1&t2&Hx&Hy&_)%pexec_try_bind; (eapply rtc_l; [by eapply (step_act _ _ (Reconciliation busy)), pexec_ignored|]).
  - by apply pexec_ret in Hy as (_&->&_).
  - by eapply IH.
Qed.

Lemma candidates_steps at_ sites w r w' t :
  pexec (forM sites tt (fun _ candidate => if negb (due (Site.BackupPolicy candidate) at_) then mret tt else scheduledCandidate a at_ candidate)) w =
    (r, w', t) -> rtc (panelStep a) w w'.
Proof.
  revert w r t. induction sites as [|s sites IH]; intros w r t; cbn [forM]; [by intros (_&->&_)%pexec_ret|].
  assert (forall x w1 t1, pexec (if negb (due (Site.BackupPolicy s) at_) then mret (M := M pop) tt else scheduledCandidate a at_ s) w = (x, w1, t1) ->
    rtc (panelStep a) w w1) as Hs.
  { intros x w1 t1. destruct (negb _); [by intros (_&->&_)%pexec_ret|]. intros Hx. eapply rtc_once. by eapply (step_act _ _ (Candidate at_ s)), pexec_ignored. }
  intros [(e&Hx&_)|([]&w1&t1&t2&Hx&Hy&_)]%pexec_bind; [by eapply Hs|]. etrans; [by eapply Hs|by eapply IH].
Qed.

Lemma scheduler_steps ticks w r w' t : pexec (runBackupScheduler a ticks) w = (r, w', t) -> rtc (panelStep a) w w'.
Proof.
  assert (forall at_ w r w' t, pexec (runScheduledBackups a at_) w = (r, w', t) -> rtc (panelStep a) w w') as Hround.
  { intros at_ w0 r0 w0' t0 (sites&w1&t1&t2&Hx&Hy&_)%pexec_try_bind. apply pexec_host_inv in Hx as Hh. destruct Hh as (th&_&_&_&Hst).
    apply raises_nothing in Hx as [_ Hfs]; [|apply look_sites]. eapply rtc_l; [apply step_outside; [by rewrite Hfs|exact Hst]|].
    destruct sites as [sites|e]; [by eapply candidates_steps|by apply pexec_ret in Hy as (_&->&_)]. }
  unfold runBackupScheduler. revert w r t. induction ticks as [|at_ ticks IH]; intros w r t; cbn [forM]; [by intros (_&->&_)%pexec_ret|].
  intros [(e&Hx&_)|([]&w1&t1&t2&Hx&Hy&_)]%pexec_bind; [by eapply Hround|]. etrans; [by eapply Hround|by eapply IH].
Qed.
End rounds.

(** An activity, and a crash before the first event of the next. *)
Lemma act_then_crash `{Env} `{Peer} `{Unicode} `{Passwords} a x w :
  let w1 := (pexec (act a x) w).1.2 in rtc (panelStep a) w (PWorld _ _ (p_host w1) (p_peer w1) (PState ∅ ∅)).
Proof.
  cbv zeta. eapply rtc_l; [eapply (step_act _ _ x), pexec_parts|]. eapply rtc_once, (step_crash _ _ (Reconciliation true)); [apply pexec_parts|apply prefix_nil|done..].
Qed.

(** ** Witness: a site is created, and the next activity crashes *)
#[local] Existing Instance asciiUnicode.
#[local] Instance noPassword : Passwords := {| passwordMatches _ _ := false |}.

(** A worker with room that does what it is asked. *)
#[local] Instance roomy : Peer := {|
  peer := unit;
  peer_call _ path _ _ := (tt, if String.eqb path "/capacity" then inr (200, raw "{`cpus`:8,`memory_bytes`:17179869184,`docker_disk_free_bytes`:107374182400,`data_disk_free_bytes`:107374182400}") else inr (204, ""));
|}.

Definition panelEnvironment : environment.t := environment.mk "hash" (filler 32) (filler 32) "panel.example".
Definition startedApp : app := match newApp panelEnvironment with Ok a => a | Err _ => sampleApp end.
Definition adminSession : string := web.Value (newSession startedApp 1700000000000000000).
Definition createForm : web.request :=
  web.Request "POST" "/sites" "/sites" []
    (Ok [("csrf", csrf startedApp adminSession); ("domain", " Blog.Example.com"); ("title", "Blog"); ("email", "a@example.com"); ("plan", "small")])
    [(sessionCookie, adminSession)] "en" "192.0.2.1" None.
Definition emptyWorld : pworld := PWorld _ _ (World _ (<["/data" := NDir]> ∅) (answers (fun _ => "")) "" ∅) tt (PState ∅ ∅).
Definition createdWorld : pworld := (pexec (act startedApp (Request false createForm)) emptyWorld).1.2.
Definition crashedWorld : pworld := PWorld _ _ (p_host createdWorld) (p_peer createdWorld) (PState ∅ ∅).

Lemma created_then_crashed : rtc (panelStep startedApp) emptyWorld crashedWorld.
Proof. exact (act_then_crash startedApp (Request false createForm) emptyWorld). Qed.

Definition domainsIn (w : pworld) : list string :=
  match w_fs (p_host w) !! "/data/sites.json" with
  | Some (NFile data) => match decodeSites data with Ok m => map (fun kv => Site.Domain kv.2) (map_to_list m) | Err _ => [] end
  | _ => []
  end.

Lemma sites_wellFormed_witness :
  domainsIn crashedWorld = ["blog.example.com"] /\
  exists m, represents (storePath startedApp) m (w_fs (p_host crashedWorld)) /\ wellFormed m.
Proof.
  split; [vm_compute; reflexivity|]. refine (sites_wellFormed panelEnvironment startedApp ∅ emptyWorld crashedWorld _ _ _ created_then_crashed).
  - vm_compute. reflexivity.
  - split; [done|vm_compute; reflexivity].
  - by split; intros *; rewrite lookup_empty.
Defined.
